(* ===== verification/_CoqProject ===== *)
-Q . S2P
Prelude.v
Types.v
KrpingTypes.v
Kernel.v
Logic.v
Verbs.v
Wait.v
Within.v
ModEnv.v
Getopt.v
KrpingOpts.v
KrpingEnv.v
KrpingFrame.v
KrpingIo.v
KrpingBufs.v
KrpingPing.v
KrpingProto.v
KrpingRounds.v
KrpingRun.v
KrpingClient.v
KrpingFlush.v
KrpingDoit.v
KrpingCommand.v
Bitmap.v
MsgbufIds.v
MsgbufConc.v
Wire.v
Frame.v
RdmaIo.v
SendConc.v
RdmaCm.v
RdmaMem.v
RdmaBufs.v
RdmaClone.v
RdmaCh.v
RpcClient.v
RpcTest.v
RpcSpec.v
RpcLife.v
RpcUse.v
RpcConc.v
Scenarios.v
Witnesses.v
RpcWitnesses.v
RpcRace.v
KrpingScenarios.v
KrpingWitnesses.v
