(* ===== verification/Prelude.v ===== *)
(** * A verification of rpc-kern, an RPC client over RDMA in the Linux kernel

    ** The program

    A kernel module sends requests to a server over an RDMA connection.
    - [rpc_client.c] is the RPC layer: [init_rpc_client] and
      [destroy_rpc_client] make and destroy a channel with four message
      buffers; [send_rpc_msg_to_server] takes a free message id, fills the
      buffer of that number and sends it; [client_rpc_rdma_msg_handler] is
      called for every response and gives an id back.
    - [rpc_common.c] and [bitmap.c] keep the ids: an array of four flags under
      a spin lock, in which [alloc_msgbuf_id] spins while none is free.
    - [rdma.c] is the transport: connection management (the callback
      [cma_event_handler], and [bind_client], [connect_client], [do_accept]
      which sleep until it has changed the channel's [state]), verbs objects
      ([setup_qp], [kfree_qp]), message buffers and their DMA mappings
      ([setup_buffers], [kfree_buffers]), the data path ([send_rdma_msg],
      [receive_msg], [cq_event_handler], [cq_thread]) and the life of a channel
      ([init_rdma_ch], [run_client], [destroy_rdma_client]).
    - [rpc_client_test.c] is the module: its two message handlers, [test_main]
      and the operations of [/proc/krping].
    - [bak/krping.c] and [bak/krping.h], with [bak/getopt.c], are the ping module
      that the program grew from, kept but not built.  [krping_write_proc]
      gives a command to [krping_doit], which reads its options
      ([krping_getopt]) into a control block and runs a client
      ([krping_run_client]): it connects ([krping_bind_client],
      [krping_connect_client], woken by [krping_cma_event_handler]), makes its
      objects and buffers ([krping_setup_qp], [krping_setup_buffers]) and does
      its pings ([krping_test_client]): a buffer is registered under a new key
      and advertised, and the completion handler [krping_cq_event_handler]
      moves the state on when the peer has read or written it.
    The other files under [bak/] do not compile.

    A request goes [send_rpc_msg_to_server], [alloc_msgbuf_id],
    [send_rdma_msg], [ib_post_send].  A response is a completion: interrupt
    [cq_thread], [cq_event_handler], [receive_msg], then through the two
    function pointers of the channel [client_rpc_rdma_msg_handler] and the
    user's handler, which wakes the requester.

    ** The model

    The code is embedded in a monad over an explicit state ([Kernel.M]): a
    function of the program is a function of its arguments and a [world], and
    returns a value and a new world, has undefined behaviour of a kind
    ([Undef]), or waits for something that never comes ([Blocked]).  A world
    holds the heap (typed blocks by address: control blocks, arrays of
    contexts, byte buffers, RPC objects), the history of the calls to the
    kernel, the schedule of what other contexts will do while this one sleeps
    or spins, and the kernel objects that are live.  What a kernel call answers
    is a parameter, the class [Kernel]: any function of the history and the
    arguments, so each theorem that does not constrain it holds for every
    behaviour of the kernel.  What a call does to the state (allocation, freeing,
    liveness of handles, DMA mappings, queued completions) is written out; use
    of an address, handle or index that is not live is [Undef].

    - [Prelude] (this file): record update, machine integers, byte images,
      checked accesses, C strings.
    - [Types]: the structs and enums of [rdma.h], [rpc.h].
    - [Kernel]: the machine above.  [Logic]: a weakest-precondition calculus for
      it, with a mode for total and one for partial correctness, one rule per
      primitive and the tactics [wp_step], [wp_steps], [heap_lookup],
      [heap_ext].
    - [Verbs]: rules for the services that make verbs objects, and the receive
      queue of a queue pair read off the history: the receives that were posted
      ([posted]) and those that have been taken ([received]).  [Wait]: the
      sleeping of [wait_event_interruptible] over the schedule, with the
      interface [Delivery], what an event does; the channel and the ping module
      each have an instance.  [ModEnv]: interface [ModuleEnv], the services to
      a module.  [Within]: functions that move the state only as a preorder
      allows, and the tactic [solve_within].
    - [Bitmap]: [bitmap.c], with the set of free indices as its meaning.
    - [MsgbufIds]: [rpc_common.c] as sequential functions; interface
      [Scheduler], what runs while a context spins.
    - [MsgbufConc]: [rpc_common.c] as an interleaving of small steps, an atomic
      specification, the refinement between them; and one processor with
      interrupts.
    - [Wire]: message sizes on C ints and the image of [struct rdma_msg].
    - [Frame]: the relation [kept], what the data path leaves alone.
    - [RdmaIo]: the data path of [rdma.c]; interface [RpcHandler] with
      [RpcHandlerLaws], the call through [rpc_msg_handler_cb].
    - [SendConc]: [send_rdma_msg] cut into its accesses to memory ([send_prog];
      run alone it is the function, [run_send_prog]), threads that take such
      steps in any order ([interleave]).
    - [RdmaCm]: connection management and the delivery of asynchronous events.
    - [RdmaMem], [RdmaBufs]: queue pair and buffers, and their contracts.
      [RdmaClone]: [clone_cb] and [kfree_cb].
    - [RdmaCh]: channels.
    - [RpcClient]: the RPC layer, which implements [RpcHandler] (instance
      [rpc_layer]) and [Scheduler] ([run_next]); interface [UserHandler] with
      [UserHandlerLaws].
    - [RpcTest]: the module, which implements [UserHandler] ([test_handlers]).
    - [RpcSpec]: the abstract channel [chan] (free ids, sequence numbers, sent
      messages, responses so far) with the acts [act] on it: a request is sent
      under the least free id; a response lands in the buffer of the oldest
      posted receive, frees the id of that number and wakes its semaphore.
    - [RpcLife]: what ties a state of the code to an abstract channel
      ([tracks]), and that a request ([send_rpc_msg_to_server]) and a response
      (the whole completion interrupt, [cq_thread]) simulate their acts.
      [RpcUse]: the code from the creation of a channel through any sequence of
      acts to its destruction, what follows, and a sender that spins for an id
      while responses interrupt it.
    - [RpcConc]: any number of calls of [send_rpc_msg_to_server] at the same
      time.  A call is a [thread] whose [thread_step] is the critical section
      of [alloc_msgbuf_id] or one access to memory of [send_prog] (alone it
      does what the function does, [thread_alone]); a [pool_run] is a sequence
      of such steps, of any threads, and of responses.  The invariant
      ([pool_inv]) relates the machine to two abstract channels: the one it is,
      with half-written messages, and the one it will be when they are written.
    - [Scenarios], [Witnesses], [RpcWitnesses]: concrete kernels and states, and
      the properties applied to them.  [RpcRace]: a run of such calls outside
      the condition of [RpcConc].
    - The ping module: [KrpingTypes], its data; [Getopt], [bak/getopt.c], with
      the fields between commas as reference and interface [Strtoul] with
      [StrtoulLaws]; [KrpingOpts], the option loop of [krping_doit] and its
      reference, a fold over the fields; [KrpingEnv], the services that only this
      module calls (class [KrpingKernel]; [KrpingServer] stands for the
      undefined [krping_run_server]); [KrpingFrame], the relation [kkept], what
      the callbacks and the pings leave alone; [KrpingIo], the callbacks and
      the instance of [Delivery]; [KrpingBufs], objects and buffers;
      [KrpingPing], the ping loop and [flush_qp]; [KrpingProto], the protocol:
      keys, advertisements, texts, the course of a test; [KrpingRounds] and
      [KrpingFlush], that the loops end; [KrpingRun], the life of a client;
      [KrpingClient], a client from end to end; [KrpingDoit], commands and
      [/proc/krping]; [KrpingCommand], a command from end to end;
      [KrpingScenarios], [KrpingWitnesses].

    Functions keep the names of the source.  Labels of error paths are
    functions of their own ([setup_qp_err3], [run_client_err2], [init_out1]),
    as are the loop bodies that a proof needs by name ([map_buffer],
    [cq_complete], [alloc_try], [krping_ping]) and stretches of a function that
    are used more than once ([send_fill], [receive_copy], [set_tos]).
    [krping_test_rpc_client] repeats the body of the ping loop in the source and
    shares its model here.

    ** What is proved

    - Data path: a message sent is the big-endian image of its fields whatever
      the host, and what a peer of any byte order receives
      ([send_rdma_msg_wire], [rdma_msg_roundtrip]); errors of the receive path
      ([receive_msg_errors]); the completion loop terminates and ends with an
      empty queue or in state [ERROR] with the waiter woken, for any handler
      within the laws ([cq_event_handler_fuel_enough],
      [cq_event_handler_outcome]).
    - The channel as a whole: from its creation, under any sequence of requests
      and responses, the code does exactly what the abstract channel does
      ([rpc_channel_refines]); whatever the sequence was, destroying the channel
      gives back all that was made ([used_channel_leak_free],
      [concurrent_channel_leak_free]); a sender that
      finds no free id goes on as soon as a response interrupts it
      ([blocked_sender_resumes]).
    - Senders at the same time: with ids of their own, which the lock sees to,
      the unlocked [send_rdma_msg] of several senders is serializable
      ([concurrent_sends_serialize]); whole calls of [send_rpc_msg_to_server],
      with responses between any two of their steps, are linearizable to the
      abstract channel at the moment they get their id, and end
      ([concurrent_calls_linearize]), provided no response lands in the buffer
      of an id whose message is still being written; without that proviso
      messages are torn ([torn_message]).
    - Message ids: the least free id is taken and given back
      ([alloc_msgbuf_id_least], [free_after_alloc]); under any interleaving the
      operations are atomic, exclude each other, never hand an id out twice and
      do not deadlock among running contexts ([msgbuf_ids_refine] and
      after, [msgbuf_lock_progress]), and the sequential functions are the undisturbed runs
      ([solo_critical_sections]).
    - Connection management: the transitions of the callback, and that it
      loses no wake-up for the states the code waits for.
    - Resources: each set-up is undone by its tear-down, up to the whole of an
      RPC channel ([setup_kfree_buffers], [setup_kfree_qp],
      [init_destroy_leak_free], [rpc_channel_leak_free]); every failure of
      [setup_qp], and in [run_client] a connection that [rdma_connect] refuses
      or that a signal or a disconnection ends, release what was made
      ([run_client_failure_releases]).
    - The RPC layer and the module: requests, responses and the first request
      of a channel end to end ([send_rpc_msg_sent], [response_handled],
      [first_request]).
    - The ping module: the option parser against its reference, and options
      typed and read back from their text ([krping_getopt_spec], against the
      [meaning] of a name and an argument in a table; [krping_options_fold], [krping_options_typed],
      [krping_options_roundtrip]); the transitions of the callbacks and their
      wake-ups ([krping_cma_transitions], [krping_cq_outcome]); advertisements
      between hosts of any byte order ([advert_roundtrip]); the posts and keys of
      a test ([krping_pings_complete]); that a client and a command give back
      what they make whichever calls fail and whatever events come
      ([krping_run_client_releases], [krping_doit_releases]), with one
      exception: DMA mappings are given back only if the buffers can be
      allocated and mapped ([setup_buffers_bail_leaks]); and a command from its text to its return
      ([krping_run_client_completes], [krping_doit_completes]).
    - Faults of the code, each as a theorem about the definitions that shows
      the run: [cm_failure_hangs], [init_failed_connect_destroy],
      [setup_buffers_dereg], [setup_buffers_dma_failure],
      [cq_thread_indeterminate], [send_failure_leaks_id], [post_recvs_depth],
      [unanswered_id_reused] (a response gives back the id of the receive
      buffer it came in, not of its request), [torn_message] (even that of a
      call which is still writing), [sequential_calls_lose_ids] (so
      that from the fourth call of one requester on only one id is left),
      [clone_failure_dangles],
      [msgbuf_interrupt_deadlock], [test_main_overread]; in the ping module
      [krping_route_error_hangs], [krping_connect_interrupted],
      [krping_init_client_dangling], [setup_buffers_bail_leaks],
      [ping_text_overflow], [krping_write_proc_option_error],
      [krping_read_proc_freed_pd] and others.

    ** Bounds and fuel

    Loops over the contexts recurse on their number.  The completion loop has
    the length of the queue as fuel, which [cq_event_handler_fuel_enough]
    shows to be enough: handlers add no completions.  The waiting and spinning
    loops have the length of the schedule as fuel: each round consumes an
    event, and with none left nothing can change any more, so that the loop
    never ends: [Blocked].  A round of the ping loop after which it goes on has
    slept, so the length of the schedule is fuel enough
    ([test_client_fuel_enough]); a round of [flush_qp] takes an answer or an
    event ([flush_fuel_enough]); the option loop moves along the command, whose
    length is its fuel ([krping_options_fold] says that it ends).

    ** Not modelled

    - [printk] arguments other than [%s] strings, whose reading is modelled.
    - The second level of a DMA device ([device->dma_device]), the transfer
      length and direction; time-outs; GFP flags and sleeping in atomic
      context.
    - Weak memory: the steps of [MsgbufConc], [SendConc] and [RpcConc] follow one
      another.
    - A completion interrupt in pieces: in [RpcConc] it runs whole between two
      steps of the calls, as it does on one processor; of what it shares with
      calls on another processor, the bitmap is taken under the lock
      ([MsgbufConc]) and the channel's state is not read by a send.
    - Addresses are abstract: blocks are disjoint and never reused, and an
      access is inside its block or undefined.  The semaphore address in a
      response is trusted, as in the code.
    - [krping_read_open] and the [file_operations] tables, which register with
      [seq_file]; the Makefile.
    - [bak/rpc_client_bak.c] and [bak/rpc_client_test_bak.c]: they use members and
      functions that nothing declares and an unallocated control block, so that
      there is no behaviour to model.  The message sizes of [bak/krping.h] use a
      struct before its definition and are those of [rdma.c].
    - The interleaving of several commands of the ping module: a command runs
      between the events of its schedule, which may be anything the connection
      manager, the completion queues, the devices and signals do.

    ** Extent

    Every function of the program but those named above is modelled, and so is the
    channel under its completion interrupts, the concurrent use of message ids
    and of a channel, and the ping module up to a whole command. *)
From Stdlib Require Export Lia ZArith.
From stdpp Require Export base gmap list strings numbers.
#[global] Open Scope Z_scope.

Declare Scope rpc_scope.
Delimit Scope rpc_scope with rpc.
#[global] Open Scope rpc_scope.

Create HintDb rpc.
Create Rewrite HintDb rpc.

(** ** Functional record update *)

(** A record type declares its eta expansion once; [r <| f := v |>] then is
    the record [r] with field [f] set to [v]. *)
Class Eta (R : Type) := eta : R -> R.

Ltac field_setter proj :=
  let R := lazymatch type of proj with ?R -> _ => R end in
  let e := constr:(_ : Eta R) in
  let e := eval unfold eta in e in
  let e := eval red in e in
  lazymatch eval pattern proj in e with
  | ?s _ => let t := eval cbv beta in (fun v => s (fun _ => v)) in exact t
  end.

Notation "r <| f := v |>" := ((ltac:(field_setter f)) v r)
  (at level 1, left associativity, f at level 0, only parsing) : rpc_scope.

(** ** Machine integers *)

(** An unsigned integer of [w] bits is the residue modulo [2 ^ w]; a signed
    one is the representative in [- 2 ^ (w - 1), 2 ^ (w - 1)). *)
Definition uint (w x : Z) : Z := x mod 2 ^ w.
Definition sint (w x : Z) : Z :=
  let y := x mod 2 ^ w in if 2 ^ (w - 1) <=? y then y - 2 ^ w else y.

Definition u8 : Z -> Z := uint 8.
Definition u16 : Z -> Z := uint 16.
Definition u32 : Z -> Z := uint 32.
Definition u64 : Z -> Z := uint 64.
Definition i32 : Z -> Z := sint 32.

Definition in_u (w x : Z) : Prop := 0 <= x < 2 ^ w.
Definition in_i (w x : Z) : Prop := - 2 ^ (w - 1) <= x < 2 ^ (w - 1).

(** ** Bytes *)

(** Little-endian and big-endian images of an [n]-byte integer, as lists of
    byte values. *)
Fixpoint le_bytes (n : nat) (x : Z) : list Z :=
  match n with
  | O => []
  | S n => x mod 256 :: le_bytes n (x / 256)
  end.

Fixpoint le_val (l : list Z) : Z :=
  match l with
  | [] => 0
  | b :: l => b + 256 * le_val l
  end.

Definition be_bytes (n : nat) (x : Z) : list Z := reverse (le_bytes n x).
Definition be_val (l : list Z) : Z := le_val (reverse l).

(** The byte swap of an [n]-byte integer. *)
Definition bswap (n : nat) (x : Z) : Z := be_val (le_bytes n x).

Definition is_byte (b : Z) : Prop := 0 <= b < 256.

(** ** Checked accesses to a block of bytes *)

Definition read_at (off n : nat) (l : list Z) : option (list Z) :=
  if decide (off + n <= length l)%nat then Some (take n (drop off l)) else None.

Definition write_at (off : nat) (d l : list Z) : option (list Z) :=
  if decide (off + length d <= length l)%nat
  then Some (take off l ++ d ++ drop (off + length d) l) else None.

(** ** C strings *)

(** The bytes up to the first 0, with it. *)
Fixpoint c_str (l : list Z) : option (list Z) :=
  match l with
  | [] => None
  | b :: l => if b =? 0 then Some [b] else s ← c_str l; Some (b :: s)
  end.

(** [strcpy(dst, src)] within the two objects. *)
Definition strcpy (dst src : list Z) : option (list Z) :=
  s ← c_str src; write_at 0 s dst.

(** The characters before the first 0. *)
Fixpoint c_chars (l : list Z) : option (list Z) :=
  match l with
  | [] => None
  | b :: l => if b =? 0 then Some [] else s ← c_chars l; Some (b :: s)
  end.

(** Character constants, and the characters of a literal without the
    terminator. *)
Definition chr (c : Ascii.ascii) : Z := Z.of_N (Ascii.N_of_ascii c).
Definition chars (s : string) : list Z := chr <$> String.list_ascii_of_string s.

(** The offset of the first occurrence of a character. *)
Fixpoint index_of (c : Z) (s : list Z) : option nat :=
  match s with
  | [] => None
  | b :: s => if b =? c then Some O else S <$> index_of c s
  end.

(** Decimal digits, as [%d] prints them; 20 are enough for 64 bits. *)
Fixpoint digits (fuel : nat) (n : Z) : list Z :=
  match fuel with
  | O => []
  | S fuel => if n <? 10 then [48 + n] else digits fuel (n / 10) ++ [48 + n mod 10]
  end.
Definition decimal (n : Z) : list Z :=
  if n <? 0 then 45 :: digits 20 (- n) else digits 20 n.

(** ** Lemmas: machine integers *)

Lemma uint_small w x : in_u w x -> uint w x = x.
Proof. intros H. apply Z.mod_small, H. Qed.

Lemma uint_range w x : 0 <= w -> in_u w (uint w x).
Proof. intros Hw. apply Z.mod_pos_bound. lia. Qed.

Lemma uint_idemp w x : 0 <= w -> uint w (uint w x) = uint w x.
Proof. intros Hw. apply uint_small. by apply uint_range. Qed.

Lemma pow2_half w : 0 < w -> 2 ^ w = 2 * 2 ^ (w - 1).
Proof. intros Hw. rewrite <- Z.pow_succ_r by lia. f_equal. lia. Qed.

Lemma sint_small w x : 0 < w -> in_i w x -> sint w x = x.
Proof.
  intros Hw [Hlo Hhi]. unfold sint. pose proof (pow2_half w Hw) as Hp.
  destruct (Z.le_gt_cases 0 x).
  - rewrite Z.mod_small by lia. case_match eqn:E; [|done].
    apply Z.leb_le in E. lia.
  - replace (x mod 2 ^ w) with (x + 2 ^ w).
    + case_match eqn:E; [lia|]. apply Z.leb_gt in E. lia.
    + rewrite <- (Z.mod_add x 1) by lia. rewrite Z.mod_small by lia. lia.
Qed.

Lemma sint_range w x : 0 < w -> in_i w (sint w x).
Proof.
  intros Hw. unfold sint, in_i. pose proof (pow2_half w Hw).
  assert (0 <= x mod 2 ^ w < 2 ^ w) by (apply Z.mod_pos_bound; lia).
  case_match eqn:E; [apply Z.leb_le in E|apply Z.leb_gt in E]; lia.
Qed.

(** ** Lemmas: byte images *)

Lemma length_le_bytes n x : length (le_bytes n x) = n.
Proof. revert x. induction n; intros x; simpl; auto. Qed.

Lemma length_be_bytes n x : length (be_bytes n x) = n.
Proof. unfold be_bytes. by rewrite length_reverse, length_le_bytes. Qed.

Lemma le_bytes_are_bytes n x : Forall is_byte (le_bytes n x).
Proof.
  revert x. induction n; intros x; simpl; constructor; auto.
  apply Z.mod_pos_bound. lia.
Qed.

Lemma le_val_le_bytes n x : le_val (le_bytes n x) = x mod 256 ^ Z.of_nat n.
Proof.
  revert x. induction n as [|n IH]; intros x; cbn [le_bytes le_val].
  - simpl. by rewrite Z.mod_1_r.
  - rewrite IH, Nat2Z.inj_succ, Z.pow_succ_r by lia.
    rewrite Z.rem_mul_r by lia. lia.
Qed.

Lemma le_val_bound l :
  Forall is_byte l -> 0 <= le_val l < 256 ^ Z.of_nat (length l).
Proof.
  induction 1 as [|b l Hb _ IH]; cbn [le_val length]; [simpl; lia|].
  rewrite Nat2Z.inj_succ, Z.pow_succ_r by lia. unfold is_byte in Hb. nia.
Qed.

Lemma le_bytes_le_val l : Forall is_byte l -> le_bytes (length l) (le_val l) = l.
Proof.
  induction 1 as [|b l Hb Hl IH]; [done|]. cbn [le_val length le_bytes].
  unfold is_byte in Hb. rewrite (Z.mul_comm 256).
  rewrite Z.mod_add, Z.mod_small by lia.
  rewrite Z.div_add, Z.div_small by lia. by rewrite Z.add_0_l, IH.
Qed.

Lemma be_bytes_be_val l : Forall is_byte l -> be_bytes (length l) (be_val l) = l.
Proof.
  intros Hl. unfold be_bytes, be_val.
  rewrite <- (length_reverse l), le_bytes_le_val by by apply Forall_reverse.
  apply reverse_involutive.
Qed.

Lemma be_val_be_bytes n x : be_val (be_bytes n x) = x mod 256 ^ Z.of_nat n.
Proof. unfold be_val, be_bytes. by rewrite reverse_involutive, le_val_le_bytes. Qed.

(** Storing a byte-swapped integer little-endian stores it big-endian. *)
Lemma le_bytes_bswap n x : le_bytes n (bswap n x) = be_bytes n x.
Proof.
  unfold bswap, be_val, be_bytes.
  rewrite <- (le_bytes_le_val (reverse (le_bytes n x))) at 2
    by apply Forall_reverse, le_bytes_are_bytes.
  by rewrite length_reverse, length_le_bytes.
Qed.

Lemma bswap_involutive n x : 0 <= x < 256 ^ Z.of_nat n -> bswap n (bswap n x) = x.
Proof.
  intros Hx. unfold bswap at 1. rewrite le_bytes_bswap, be_val_be_bytes.
  by apply Z.mod_small.
Qed.

Lemma bswap_range n x : 0 <= bswap n x < 256 ^ Z.of_nat n.
Proof.
  unfold bswap, be_val.
  pose proof (le_val_bound (reverse (le_bytes n x))) as H.
  rewrite length_reverse, length_le_bytes in H.
  apply H, Forall_reverse, le_bytes_are_bytes.
Qed.

(** ** Lemmas: checked accesses *)

Lemma read_at_Some off n l d :
  read_at off n l = Some d <->
  (off + n <= length l)%nat /\ d = take n (drop off l).
Proof. unfold read_at. case_decide; naive_solver. Qed.

Lemma length_read_at off n l d : read_at off n l = Some d -> length d = n.
Proof.
  intros [H ->]%read_at_Some. rewrite length_take, length_drop. lia.
Qed.

Lemma write_at_Some off d l :
  (off + length d <= length l)%nat ->
  write_at off d l = Some (take off l ++ d ++ drop (off + length d) l).
Proof. intros H. unfold write_at. by rewrite decide_True. Qed.

Lemma length_write_at off d l l' :
  write_at off d l = Some l' -> length l' = length l.
Proof.
  unfold write_at. case_decide; intros [= <-].
  rewrite !length_app, length_take, length_drop. lia.
Qed.

(** A read of what has just been written. *)
Lemma read_write_same off d l l' :
  write_at off d l = Some l' -> read_at off (length d) l' = Some d.
Proof.
  intros Hw. pose proof (length_write_at _ _ _ _ Hw) as Hlen. revert Hw.
  unfold write_at. case_decide as Hd; intros [= <-].
  apply read_at_Some. rewrite Hlen. split; [done|].
  rewrite drop_app_length' by (rewrite length_take; lia).
  by rewrite take_app_length.
Qed.

(** A read that does not overlap the write, on either side of it. *)
Lemma read_write_before off d l l' o n :
  write_at off d l = Some l' -> (o + n <= off)%nat -> read_at o n l' = read_at o n l.
Proof.
  intros Hw Ho. pose proof (length_write_at _ _ _ _ Hw) as Hlen. revert Hw.
  unfold write_at, read_at. case_decide as Hd; intros [= <-].
  rewrite Hlen, !decide_True by lia. f_equal.
  rewrite drop_app_le by (rewrite length_take; lia).
  rewrite take_app_le by (rewrite length_drop, length_take; lia).
  rewrite skipn_firstn_comm, take_take. f_equal. lia.
Qed.

Lemma read_write_after off d l l' o n :
  write_at off d l = Some l' -> (off + length d <= o)%nat ->
  read_at o n l' = read_at o n l.
Proof.
  intros Hw Ho. pose proof (length_write_at _ _ _ _ Hw) as Hlen. revert Hw.
  unfold write_at, read_at. case_decide as Hd; intros [= <-].
  rewrite Hlen. case_decide; [|done]. do 2 f_equal.
  rewrite app_assoc, drop_app_ge by (rewrite length_app, length_take; lia).
  rewrite drop_drop. f_equal. rewrite length_app, length_take. lia.
Qed.

(** ** Lemmas: C strings *)

Lemma c_str_None l : c_str l = None <-> Forall (fun b => b <> 0) l.
Proof.
  induction l as [|b l [IH1 IH2]]; [done|]. cbn [c_str].
  destruct (Z.eqb_spec b 0) as [->|Hb].
  - split; [done|]. by intros [? _]%list.Forall_cons_1.
  - split.
    + destruct (c_str l); [done|]. intros _. constructor; auto.
    + intros [_ Hl]%list.Forall_cons_1. by rewrite IH2.
Qed.

Lemma c_chars_app s l : Forall (fun b => b <> 0) s -> c_chars (s ++ 0 :: l) = Some s.
Proof.
  induction 1 as [|b s Hb _ IH]; [done|]. cbn. by rewrite (proj2 (Z.eqb_neq b 0)), IH.
Qed.

Lemma c_chars_Some l s :
  c_chars l = Some s <-> Forall (fun b => b <> 0) s /\ exists r, l = s ++ 0 :: r.
Proof.
  split; [|intros [Hs [r ->]]; by apply c_chars_app].
  revert s. induction l as [|b l IH]; intros s; [done|]. cbn [c_chars].
  destruct (Z.eqb_spec b 0) as [->|Hb]; [intros [= <-]; split; [done|by exists l]|].
  destruct (c_chars l) as [s'|]; [|done]. intros [= <-].
  destruct (IH s' eq_refl) as [Hs [r ->]]. split; [by constructor|by exists r].
Qed.

Lemma index_of_Some c s k :
  index_of c s = Some k <-> s !! k = Some c /\ Forall (fun b => b <> c) (take k s).
Proof.
  revert k. induction s as [|b s IH]; intros k; cbn [index_of]; [by split; [|intros []]|].
  destruct (Z.eqb_spec b c) as [->|Hb].
  - split; [by intros [= <-]|]. intros [Hk Ht]. destruct k as [|k]; [done|].
    by apply list.Forall_cons_1 in Ht as [? _].
  - rewrite fmap_Some. split.
    + intros (k' & [Hk Ht]%IH & ->). split; [done|]. by constructor.
    + intros [Hk Ht]. destruct k as [|k]; [by injection Hk|].
      apply list.Forall_cons_1 in Ht as [_ Ht]. exists k. by rewrite IH.
Qed.

Lemma index_of_None c s : index_of c s = None <-> Forall (fun b => b <> c) s.
Proof.
  induction s as [|b s IH]; [done|]. cbn [index_of].
  destruct (Z.eqb_spec b c) as [->|Hb].
  - split; [done|]. by intros [? _]%list.Forall_cons_1.
  - rewrite fmap_None, IH. split; [by constructor|]. by intros [_ ?]%list.Forall_cons_1.
Qed.

(** ** Lemmas: decimal numbers *)

Lemma digits_are_digits fuel n :
  0 <= n -> Forall (fun b => 48 <= b <= 57) (digits fuel n).
Proof.
  revert n. induction fuel as [|fuel IH]; intros n Hn; cbn [digits]; [done|].
  destruct (Z.ltb_spec n 10); [constructor; [lia|done]|].
  apply Forall_app. split; [apply IH, Z.div_pos; lia|].
  pose proof (Z.mod_pos_bound n 10). constructor; [lia|done].
Qed.

Lemma digits_length_pos fuel n : (0 < fuel)%nat -> (0 < length (digits fuel n))%nat.
Proof.
  destruct fuel as [|fuel]; [lia|]. cbn [digits]. destruct (n <? 10); cbn; [lia|].
  rewrite length_app. cbn. lia.
Qed.

Lemma digits_length_le fuel k n :
  (0 < k)%nat -> n < 10 ^ Z.of_nat k -> (length (digits fuel n) <= k)%nat.
Proof.
  revert k n. induction fuel as [|fuel IH]; intros k n Hk Hn; cbn [digits length]; [lia|].
  destruct (Z.ltb_spec n 10); cbn [length]; [lia|]. rewrite length_app. cbn [length].
  destruct (decide (k = 1)%nat) as [->|]; [cbn in Hn; lia|].
  destruct k as [|k]; [lia|]. specialize (IH k (n / 10)).
  enough (length (digits fuel (n / 10)) <= k)%nat by lia. apply IH; [lia|].
  apply Z.div_lt_upper_bound; [lia|]. by rewrite <- Z.pow_succ_r, <- Nat2Z.inj_succ by lia.
Qed.

#[export] Hint Rewrite length_le_bytes length_be_bytes : rpc.
#[export] Hint Resolve le_bytes_are_bytes : rpc.
