(* ===== verification/Types.v ===== *)
(** * Types: the data of the program

    The structs and enums of [rdma.h], [rpc.h] and [test_global.h] as records
    and inductive types, with the all-zero values that [kzalloc] leaves, and
    the types of the verbs and connection-manager objects the code builds. *)
From S2P Require Import Prelude.

(** Addresses of C objects; [NULL] is 0. *)
Abbreviation addr := Z (only parsing).
Definition NULL : addr := 0.

(** What a kernel call that may return an error pointer returns. *)
Inductive kptr := KPtr (p : Z) | KErr (e : Z).

Definition IS_ERR (p : kptr) : bool :=
  match p with KPtr _ => false | KErr _ => true end.
Definition PTR_ERR (p : kptr) : Z :=
  match p with KPtr p => i32 p | KErr e => e end.

(** Addresses of functions: the RPC layer's handler, or one of the user's. *)
Inductive fnptr :=
  | FN_NULL
  | fn_client_rpc_rdma_msg_handler
  | fn_user (n : Z).

(** ** rdma.h *)

(** [enum rdma_ch_state]; [ZEROED] is the value 0 that [kzalloc] leaves, which
    is not an enumerator. *)
Inductive rdma_ch_state :=
  | ZEROED
  | IDLE
  | CONNECT_REQUEST
  | ADDR_RESOLVED
  | ROUTE_RESOLVED
  | CONNECTED
  | WORKING
  | DISCONNECTED
  | ERROR.

Definition st_val (s : rdma_ch_state) : Z :=
  match s with
  | ZEROED => 0 | IDLE => 1 | CONNECT_REQUEST => 2 | ADDR_RESOLVED => 3
  | ROUTE_RESOLVED => 4 | CONNECTED => 5 | WORKING => 6 | DISCONNECTED => 7
  | ERROR => 8
  end.

#[export] Instance rdma_ch_state_eq_dec : EqDecision rdma_ch_state.
Proof. solve_decision. Defined.
#[export] Instance kptr_eq_dec : EqDecision kptr.
Proof. solve_decision. Defined.
#[export] Instance fnptr_eq_dec : EqDecision fnptr.
Proof. solve_decision. Defined.

(** The C comparisons between enumerators. *)
Notation "s >=s t" := (st_val t <=? st_val s) (at level 70) : rpc_scope.
Notation "s <=s t" := (st_val s <=? st_val t) (at level 70) : rpc_scope.
Notation "s =s t" := (st_val s =? st_val t) (at level 70) : rpc_scope.

(** [struct rdma_ch_attr]. *)
Record rdma_ch_attr := {
  at_port : Z;
  at_server : Z;
  at_ip_addr : list Z;
  at_msgbuf_cnt : Z;
  at_msgdata_size : Z;
  at_rpc_msg_handler_cb : fnptr;
  at_user_msg_handler_cb : fnptr }.

(** [struct rdma_msg] is packed: three [__be64] fields, then the flexible
    array [data].  A field is its byte offset. *)
Definition rdma_msg_fields : list nat := [8; 8; 8]%nat.
Definition off_seq_num : nat := 0.
Definition off_rpc_ch_addr : nat := 8.
Definition off_sem_addr : nat := 16.
Definition off_data : nat := sum_list rdma_msg_fields.

(** Work requests and their scatter lists, as [rdma.c] fills them in.  A
    pointer to [recv_sgl] or [send_sgl] of an element of a context array is
    the array's address, the index and the field. *)
Record ib_sge := { sge_addr : Z; sge_length : Z; sge_lkey : Z }.

Inductive sgl_field := F_recv_sgl | F_send_sgl.
Record sgl_ptr := { sp_ctxs : addr; sp_idx : Z; sp_field : sgl_field }.

Inductive ib_wr_opcode := IB_WR_ZERO | IB_WR_SEND.
Inductive ib_send_flags := IB_SEND_NONE | IB_SEND_SIGNALED.

Record ib_recv_wr := {
  rwr_wr_id : Z; rwr_sg_list : option sgl_ptr; rwr_num_sge : Z }.

Record ib_send_wr := {
  swr_wr_id : Z; swr_opcode : ib_wr_opcode; swr_send_flags : ib_send_flags;
  swr_sg_list : option sgl_ptr; swr_num_sge : Z }.

(** [struct msgbuf_ctx], less the members the code never reads or writes
    ([rdma_sq_wr], [rdma_sgl], [rdma_buf], [rdma_mr] and the [remote_]
    fields). *)
Record msgbuf_ctx := {
  mc_id : Z;
  rq_wr : ib_recv_wr;
  recv_sgl : ib_sge;
  recv_buf : addr;
  recv_mr : Z;
  recv_mapping : Z;
  sq_wr : ib_send_wr;
  send_sgl : ib_sge;
  send_buf : addr;
  send_mr : Z;
  send_mapping : Z;
  mc_seqn : Z }.

(** The [sockaddr_in] view of [struct sockaddr_storage]; [sin_port] and
    [sin6_port] are the same two bytes. *)
Record sockaddr := { ss_family : Z; sin_port : Z; sin_addr : list Z }.
Definition AF_INET : Z := 2.

(** [struct rdma_ch_cb], less [channel], [ssource], [validate] and
    [cm_channel], which the code never uses beyond setting the last to [NULL].
    The wait queue [sem] has no value of its own: see [Kernel.wq]. *)
Record rdma_ch_cb := {
  cb_server : Z;
  cb_cq : kptr;
  cb_pd : kptr;
  cb_qp : addr;
  cb_msgbuf_cnt : Z;
  cb_msgbuf_size : Z;
  cb_msgheader_size : Z;
  cb_msgdata_size : Z;
  cb_buf_ctxs : addr;
  cb_rpc_msg_handler_cb : fnptr;
  cb_user_msg_handler_cb : fnptr;
  cb_state : rdma_ch_state;
  cb_sin : sockaddr;
  cb_port : Z;
  cb_size : Z;
  cb_cm_id : kptr;
  cb_child_cm_id : kptr }.

(** ** rpc.h *)

Definition RPC_MSG_BUF_NUM : Z := 4.

(** [enum rpc_channel_type] has the one enumerator [RPC_CH_RDMA]; the code
    also handles the other values of its integer type. *)
Definition RPC_CH_RDMA : Z := 1.

Record rpc_ch_info := {
  ch_type : Z;
  ch_cb : addr;
  msgbuf_bitmap : addr;
  msgbuf_bitmap_lock : bool }.

Record rpc_req_param := { req_rpc_ch : addr; req_data : addr; req_sem : Z }.

Record rpc_msg_handler_param := {
  rp_msgbuf_id : Z;
  rp_client_rpc_ch : addr;
  rp_param : addr;
  rp_user_msg_handler_cb : fnptr }.

Record msg_handler_param := {
  mp_client_id : Z;
  mp_msgbuf_id : Z;
  mp_ch_cb : addr;
  mp_msg : addr }.

(** [struct rpc_msg]: the header's three fields, then the data. *)
Record rpc_msg := {
  msg_seqn : Z;
  msg_client_rpc_ch : addr;
  msg_sem : Z;
  msg_data : list Z }.

(** ** Values of zeroed memory *)

Definition zero_sge : ib_sge := {| sge_addr := 0; sge_length := 0; sge_lkey := 0 |}.
Definition zero_rwr : ib_recv_wr :=
  {| rwr_wr_id := 0; rwr_sg_list := None; rwr_num_sge := 0 |}.
Definition zero_swr : ib_send_wr :=
  {| swr_wr_id := 0; swr_opcode := IB_WR_ZERO; swr_send_flags := IB_SEND_NONE;
     swr_sg_list := None; swr_num_sge := 0 |}.
Definition zero_ctx : msgbuf_ctx :=
  {| mc_id := 0; rq_wr := zero_rwr; recv_sgl := zero_sge; recv_buf := NULL;
     recv_mr := 0; recv_mapping := 0; sq_wr := zero_swr; send_sgl := zero_sge;
     send_buf := NULL; send_mr := 0; send_mapping := 0; mc_seqn := 0 |}.
Definition zero_sockaddr : sockaddr :=
  {| ss_family := 0; sin_port := 0; sin_addr := [0; 0; 0; 0] |}.
Definition zero_cb : rdma_ch_cb :=
  {| cb_server := 0; cb_cq := KPtr NULL; cb_pd := KPtr NULL; cb_qp := NULL;
     cb_msgbuf_cnt := 0; cb_msgbuf_size := 0; cb_msgheader_size := 0;
     cb_msgdata_size := 0; cb_buf_ctxs := NULL;
     cb_rpc_msg_handler_cb := FN_NULL; cb_user_msg_handler_cb := FN_NULL;
     cb_state := ZEROED; cb_sin := zero_sockaddr; cb_port := 0; cb_size := 0;
     cb_cm_id := KPtr NULL; cb_child_cm_id := KPtr NULL |}.
Definition zero_rpc_ch : rpc_ch_info :=
  {| ch_type := 0; ch_cb := NULL; msgbuf_bitmap := NULL; msgbuf_bitmap_lock := false |}.
Definition zero_rpc_param : rpc_msg_handler_param :=
  {| rp_msgbuf_id := 0; rp_client_rpc_ch := NULL; rp_param := NULL;
     rp_user_msg_handler_cb := FN_NULL |}.
Definition zero_param : msg_handler_param :=
  {| mp_client_id := 0; mp_msgbuf_id := 0; mp_ch_cb := NULL; mp_msg := NULL |}.

(** ** Record updates *)

#[export] Instance eta_recv_wr : Eta ib_recv_wr := fun r =>
  {| rwr_wr_id := rwr_wr_id r; rwr_sg_list := rwr_sg_list r;
     rwr_num_sge := rwr_num_sge r |}.
#[export] Instance eta_msgbuf_ctx : Eta msgbuf_ctx := fun r =>
  {| mc_id := mc_id r; rq_wr := rq_wr r; recv_sgl := recv_sgl r;
     recv_buf := recv_buf r; recv_mr := recv_mr r;
     recv_mapping := recv_mapping r; sq_wr := sq_wr r; send_sgl := send_sgl r;
     send_buf := send_buf r; send_mr := send_mr r;
     send_mapping := send_mapping r; mc_seqn := mc_seqn r |}.
#[export] Instance eta_sockaddr : Eta sockaddr := fun r =>
  {| ss_family := ss_family r; sin_port := sin_port r; sin_addr := sin_addr r |}.
#[export] Instance eta_cb : Eta rdma_ch_cb := fun r =>
  {| cb_server := cb_server r; cb_cq := cb_cq r; cb_pd := cb_pd r;
     cb_qp := cb_qp r; cb_msgbuf_cnt := cb_msgbuf_cnt r;
     cb_msgbuf_size := cb_msgbuf_size r;
     cb_msgheader_size := cb_msgheader_size r;
     cb_msgdata_size := cb_msgdata_size r; cb_buf_ctxs := cb_buf_ctxs r;
     cb_rpc_msg_handler_cb := cb_rpc_msg_handler_cb r;
     cb_user_msg_handler_cb := cb_user_msg_handler_cb r;
     cb_state := cb_state r; cb_sin := cb_sin r; cb_port := cb_port r;
     cb_size := cb_size r; cb_cm_id := cb_cm_id r;
     cb_child_cm_id := cb_child_cm_id r |}.
#[export] Instance eta_rpc_ch : Eta rpc_ch_info := fun r =>
  {| ch_type := ch_type r; ch_cb := ch_cb r; msgbuf_bitmap := msgbuf_bitmap r;
     msgbuf_bitmap_lock := msgbuf_bitmap_lock r |}.
#[export] Instance eta_rpc_param : Eta rpc_msg_handler_param := fun r =>
  {| rp_msgbuf_id := rp_msgbuf_id r; rp_client_rpc_ch := rp_client_rpc_ch r;
     rp_param := rp_param r; rp_user_msg_handler_cb := rp_user_msg_handler_cb r |}.
#[export] Instance eta_param : Eta msg_handler_param := fun r =>
  {| mp_client_id := mp_client_id r; mp_msgbuf_id := mp_msgbuf_id r;
     mp_ch_cb := mp_ch_cb r; mp_msg := mp_msg r |}.
#[export] Instance eta_rpc_msg : Eta rpc_msg := fun r =>
  {| msg_seqn := msg_seqn r; msg_client_rpc_ch := msg_client_rpc_ch r;
     msg_sem := msg_sem r; msg_data := msg_data r |}.
