(* ===== verification/KrpingTypes.v ===== *)
(** * KrpingTypes: the data of the ping module ([bak/krping.h])

    The structs and enums of [bak/krping.h] as records and inductive types.
    They are in a module of their own, because the header reuses names of
    [rdma.h].  A field [f] that the code assigns has a setter [set_kc_f]: the
    control block has so many fields that proofs compute with setters and
    projections ([kcb_simpl]), never with the record itself. *)
From S2P Require Import Prelude Types.

Module Krping.

(** [enum test_state]; [ZEROED] is the value 0 that [kzalloc] leaves. *)
Inductive test_state :=
  | ZEROED
  | IDLE
  | CONNECT_REQUEST
  | ADDR_RESOLVED
  | ROUTE_RESOLVED
  | CONNECTED
  | RDMA_READ_ADV
  | RDMA_READ_COMPLETE
  | RDMA_WRITE_ADV
  | RDMA_WRITE_COMPLETE
  | ERROR.

Definition ts_val (s : test_state) : Z :=
  match s with
  | ZEROED => 0 | IDLE => 1 | CONNECT_REQUEST => 2 | ADDR_RESOLVED => 3
  | ROUTE_RESOLVED => 4 | CONNECTED => 5 | RDMA_READ_ADV => 6
  | RDMA_READ_COMPLETE => 7 | RDMA_WRITE_ADV => 8 | RDMA_WRITE_COMPLETE => 9
  | ERROR => 10
  end.

#[export] Instance test_state_eq_dec : EqDecision test_state.
Proof. solve_decision. Defined.

(** [struct krping_rdma_info], as the integers the host reads. *)
Record krping_rdma_info := { ri_buf : Z; ri_rkey : Z; ri_size : Z }.
Definition info_size : Z := 16.

Record krping_stats := {
  ps_send_bytes : Z; ps_send_msgs : Z; ps_recv_bytes : Z; ps_recv_msgs : Z;
  ps_write_bytes : Z; ps_write_msgs : Z; ps_read_bytes : Z; ps_read_msgs : Z }.

(** Work requests.  Their pointers are to members of the same control block:
    scatter lists, and the next request of a chain. *)
Inductive ksgl := S_recv_sgl | S_send_sgl | S_rdma_sgl.
Inductive kwr := W_sq_wr | W_invalidate_wr | W_reg_mr_wr.
Inductive kopcode := OP_ZERO | IB_WR_SEND | IB_WR_REG_MR | IB_WR_LOCAL_INV.

Record krecv_wr := { kr_wr_id : Z; kr_sg_list : option ksgl; kr_num_sge : Z }.
Record ksend_wr := {
  ks_next : option kwr; ks_wr_id : Z; ks_opcode : kopcode;
  ks_send_flags : ib_send_flags; ks_sg_list : option ksgl; ks_num_sge : Z;
  ks_invalidate_rkey : Z }.
(** [struct ib_reg_wr]. *)
Record kreg_wr := { rw_wr : ksend_wr; rw_mr : kptr; rw_key : Z; rw_access : Z }.

Definition IB_ACCESS_LOCAL_WRITE : Z := 1.
Definition IB_ACCESS_REMOTE_WRITE : Z := 2.
Definition IB_ACCESS_REMOTE_READ : Z := 4.

(** The keys of [struct ib_mr]. *)
Record ib_mr := { mr_lkey : Z; mr_rkey : Z }.

(** A pointer into a block of bytes. *)
Abbreviation bptr := (Z * nat)%type (only parsing).

(** [struct krping_cb], less the members that no function uses
    ([page_list], [read_inv], [poll], [local_dma_lkey] and the two callbacks).
    The wait queue [sem] is [Kernel.WqCb] of the block's address, [list] the
    block's place in [ping_list]; [rdma_sq_wr] is its scatter list. *)
Record krping_cb := {
  kc_server : Z;
  kc_cq : kptr; kc_pd : kptr; kc_qp : addr;
  kc_dma_mr : kptr;
  kc_page_list_len : Z;
  kc_reg_mr_wr : kreg_wr; kc_invalidate_wr : ksend_wr; kc_reg_mr : kptr;
  kc_server_invalidate : Z; kc_key : Z;
  kc_rq_wr : krecv_wr; kc_recv_sgl : ib_sge; kc_recv_buf : krping_rdma_info;
  kc_recv_dma_addr : Z; kc_recv_mapping : Z;
  kc_sq_wr : ksend_wr; kc_send_sgl : ib_sge; kc_send_buf : krping_rdma_info;
  kc_send_dma_addr : Z; kc_send_mapping : Z;
  kc_rdma_sq_sg_list : option ksgl; kc_rdma_sgl : ib_sge;
  kc_rdma_buf : addr; kc_rdma_dma_addr : Z; kc_rdma_mapping : Z; kc_rdma_mr : kptr;
  kc_remote_rkey : Z; kc_remote_addr : Z; kc_remote_len : Z;
  kc_start_buf : addr; kc_start_dma_addr : Z; kc_start_mapping : Z; kc_start_mr : kptr;
  kc_state : test_state; kc_stats : krping_stats;
  kc_port : Z; kc_addr : list Z; kc_ip6_ndev_name : list Z; kc_addr_str : bptr;
  kc_addr_type : Z; kc_verbose : Z; kc_count : Z; kc_size : Z; kc_txdepth : Z;
  kc_frtest : Z; kc_tos : Z;
  kc_cm_id : kptr; kc_child_cm_id : kptr }.

(** The list of running pings, [krping_cbs], and [krping_mutex]. *)
Record ping_list := { pl_locked : bool; pl_cbs : list addr }.

Definition RPING_BUFSIZE : Z := 128 * 1024.
Definition RPING_SQ_DEPTH : Z := 64.

(** [struct sockaddr_storage], in its IPv4 and IPv6 views. *)
Record ksockaddr := { ka_family : Z; ka_port : Z; ka_addr : list Z; ka_scope_id : Z }.
Definition AF_INET6 : Z := 10.
Definition zero_ksockaddr : ksockaddr :=
  {| ka_family := 0; ka_port := 0; ka_addr := []; ka_scope_id := 0 |}.

(** What a posted work request asks the queue pair for. *)
Inductive posted :=
  | PSend (wr_id : Z) (flags : ib_send_flags) (sges : list ib_sge)
  | PRegMr (mr : kptr) (key access : Z)
  | PLocalInv (rkey : Z)
  | POther.
Record precv := { pr_wr_id : Z; pr_sges : list ib_sge }.

(** The calls of the ping module to the kernel that the channel code does not
    make, with their answers. *)
Inductive kevent :=
  | KEvAllocCoherent (dev size : Z) (a : addr) (h : Z)
  | KEvFreeCoherent (dev size : Z) (a : addr) (h : Z)
  | KEvAllocMr (pd : kptr) (n : Z) (r : kptr)
  | KEvDeregMr (mr : addr)
  | KEvMapMrSg (mr : addr) (dma len : Z) (r : Z)
  | KEvPostRecv (qp : addr) (wr : precv) (r : Z)
  | KEvPostSend (qp : addr) (wrs : list posted) (r : Z)
  | KEvResolveAddr (id : kptr) (sin : ksockaddr) (r : Z)
  | KEvSetServiceType (id : kptr) (tos : Z)
  | KEvGetDev (name : list Z) (r : option Z)
  | KEvMutex (lock : bool)
  | KEvRunServer (cb : addr)
  | KEvSeqPrintf (num : Z) (dev : option Z) (stats : list Z).

(** ** Zeroed memory *)

Definition zero_info : krping_rdma_info := {| ri_buf := 0; ri_rkey := 0; ri_size := 0 |}.
Definition zero_stats : krping_stats :=
  {| ps_send_bytes := 0; ps_send_msgs := 0; ps_recv_bytes := 0; ps_recv_msgs := 0;
     ps_write_bytes := 0; ps_write_msgs := 0; ps_read_bytes := 0; ps_read_msgs := 0 |}.
Definition zero_krecv_wr : krecv_wr :=
  {| kr_wr_id := 0; kr_sg_list := None; kr_num_sge := 0 |}.
Definition zero_ksend_wr : ksend_wr :=
  {| ks_next := None; ks_wr_id := 0; ks_opcode := OP_ZERO; ks_send_flags := IB_SEND_NONE;
     ks_sg_list := None; ks_num_sge := 0; ks_invalidate_rkey := 0 |}.
Definition zero_kreg_wr : kreg_wr :=
  {| rw_wr := zero_ksend_wr; rw_mr := KPtr NULL; rw_key := 0; rw_access := 0 |}.
Definition zero_kcb : krping_cb :=
  {| kc_server := 0; kc_cq := KPtr NULL; kc_pd := KPtr NULL; kc_qp := NULL;
     kc_dma_mr := KPtr NULL; kc_page_list_len := 0; kc_reg_mr_wr := zero_kreg_wr;
     kc_invalidate_wr := zero_ksend_wr; kc_reg_mr := KPtr NULL;
     kc_server_invalidate := 0; kc_key := 0; kc_rq_wr := zero_krecv_wr;
     kc_recv_sgl := zero_sge; kc_recv_buf := zero_info; kc_recv_dma_addr := 0;
     kc_recv_mapping := 0; kc_sq_wr := zero_ksend_wr; kc_send_sgl := zero_sge;
     kc_send_buf := zero_info; kc_send_dma_addr := 0; kc_send_mapping := 0;
     kc_rdma_sq_sg_list := None; kc_rdma_sgl := zero_sge; kc_rdma_buf := NULL;
     kc_rdma_dma_addr := 0; kc_rdma_mapping := 0; kc_rdma_mr := KPtr NULL;
     kc_remote_rkey := 0; kc_remote_addr := 0; kc_remote_len := 0;
     kc_start_buf := NULL; kc_start_dma_addr := 0; kc_start_mapping := 0;
     kc_start_mr := KPtr NULL; kc_state := ZEROED; kc_stats := zero_stats;
     kc_port := 0; kc_addr := replicate 16 0; kc_ip6_ndev_name := replicate 128 0;
     kc_addr_str := (NULL, 0%nat); kc_addr_type := 0; kc_verbose := 0; kc_count := 0;
     kc_size := 0; kc_txdepth := 0; kc_frtest := 0; kc_tos := 0;
     kc_cm_id := KPtr NULL; kc_child_cm_id := KPtr NULL |}.

(** ** Record updates *)

#[export] Instance eta_stats : Eta krping_stats := fun r =>
  {| ps_send_bytes := ps_send_bytes r; ps_send_msgs := ps_send_msgs r;
     ps_recv_bytes := ps_recv_bytes r; ps_recv_msgs := ps_recv_msgs r;
     ps_write_bytes := ps_write_bytes r; ps_write_msgs := ps_write_msgs r;
     ps_read_bytes := ps_read_bytes r; ps_read_msgs := ps_read_msgs r |}.
#[export] Instance eta_krecv_wr : Eta krecv_wr := fun r =>
  {| kr_wr_id := kr_wr_id r; kr_sg_list := kr_sg_list r; kr_num_sge := kr_num_sge r |}.
#[export] Instance eta_ksend_wr : Eta ksend_wr := fun r =>
  {| ks_next := ks_next r; ks_wr_id := ks_wr_id r; ks_opcode := ks_opcode r;
     ks_send_flags := ks_send_flags r; ks_sg_list := ks_sg_list r;
     ks_num_sge := ks_num_sge r; ks_invalidate_rkey := ks_invalidate_rkey r |}.
#[export] Instance eta_kreg_wr : Eta kreg_wr := fun r =>
  {| rw_wr := rw_wr r; rw_mr := rw_mr r; rw_key := rw_key r; rw_access := rw_access r |}.
#[export] Instance eta_ping_list : Eta ping_list := fun r =>
  {| pl_locked := pl_locked r; pl_cbs := pl_cbs r |}.
#[export] Instance eta_kcb : Eta krping_cb := fun r =>
  {| kc_server := kc_server r; kc_cq := kc_cq r; kc_pd := kc_pd r; kc_qp := kc_qp r;
     kc_dma_mr := kc_dma_mr r; kc_page_list_len := kc_page_list_len r; kc_reg_mr_wr
     := kc_reg_mr_wr r; kc_invalidate_wr := kc_invalidate_wr r; kc_reg_mr :=
     kc_reg_mr r; kc_server_invalidate := kc_server_invalidate r; kc_key := kc_key r;
     kc_rq_wr := kc_rq_wr r; kc_recv_sgl := kc_recv_sgl r; kc_recv_buf := kc_recv_buf
     r; kc_recv_dma_addr := kc_recv_dma_addr r; kc_recv_mapping := kc_recv_mapping r;
     kc_sq_wr := kc_sq_wr r; kc_send_sgl := kc_send_sgl r; kc_send_buf := kc_send_buf
     r; kc_send_dma_addr := kc_send_dma_addr r; kc_send_mapping := kc_send_mapping r;
     kc_rdma_sq_sg_list := kc_rdma_sq_sg_list r; kc_rdma_sgl := kc_rdma_sgl r;
     kc_rdma_buf := kc_rdma_buf r; kc_rdma_dma_addr := kc_rdma_dma_addr r;
     kc_rdma_mapping := kc_rdma_mapping r; kc_rdma_mr := kc_rdma_mr r; kc_remote_rkey
     := kc_remote_rkey r; kc_remote_addr := kc_remote_addr r; kc_remote_len :=
     kc_remote_len r; kc_start_buf := kc_start_buf r; kc_start_dma_addr :=
     kc_start_dma_addr r; kc_start_mapping := kc_start_mapping r; kc_start_mr :=
     kc_start_mr r; kc_state := kc_state r; kc_stats := kc_stats r; kc_port :=
     kc_port r; kc_addr := kc_addr r; kc_ip6_ndev_name := kc_ip6_ndev_name r;
     kc_addr_str := kc_addr_str r; kc_addr_type := kc_addr_type r; kc_verbose :=
     kc_verbose r; kc_count := kc_count r; kc_size := kc_size r; kc_txdepth :=
     kc_txdepth r; kc_frtest := kc_frtest r; kc_tos := kc_tos r; kc_cm_id := kc_cm_id
     r; kc_child_cm_id := kc_child_cm_id r |}.

Definition set_kc_server := ltac:(field_setter kc_server).
Definition set_kc_cq := ltac:(field_setter kc_cq).
Definition set_kc_pd := ltac:(field_setter kc_pd).
Definition set_kc_qp := ltac:(field_setter kc_qp).
Definition set_kc_page_list_len := ltac:(field_setter kc_page_list_len).
Definition set_kc_reg_mr_wr := ltac:(field_setter kc_reg_mr_wr).
Definition set_kc_invalidate_wr := ltac:(field_setter kc_invalidate_wr).
Definition set_kc_reg_mr := ltac:(field_setter kc_reg_mr).
Definition set_kc_key := ltac:(field_setter kc_key).
Definition set_kc_rq_wr := ltac:(field_setter kc_rq_wr).
Definition set_kc_recv_sgl := ltac:(field_setter kc_recv_sgl).
Definition set_kc_recv_buf := ltac:(field_setter kc_recv_buf).
Definition set_kc_recv_dma_addr := ltac:(field_setter kc_recv_dma_addr).
Definition set_kc_recv_mapping := ltac:(field_setter kc_recv_mapping).
Definition set_kc_sq_wr := ltac:(field_setter kc_sq_wr).
Definition set_kc_send_sgl := ltac:(field_setter kc_send_sgl).
Definition set_kc_send_buf := ltac:(field_setter kc_send_buf).
Definition set_kc_send_dma_addr := ltac:(field_setter kc_send_dma_addr).
Definition set_kc_send_mapping := ltac:(field_setter kc_send_mapping).
Definition set_kc_rdma_buf := ltac:(field_setter kc_rdma_buf).
Definition set_kc_rdma_dma_addr := ltac:(field_setter kc_rdma_dma_addr).
Definition set_kc_rdma_mapping := ltac:(field_setter kc_rdma_mapping).
Definition set_kc_remote_rkey := ltac:(field_setter kc_remote_rkey).
Definition set_kc_remote_addr := ltac:(field_setter kc_remote_addr).
Definition set_kc_remote_len := ltac:(field_setter kc_remote_len).
Definition set_kc_start_buf := ltac:(field_setter kc_start_buf).
Definition set_kc_start_dma_addr := ltac:(field_setter kc_start_dma_addr).
Definition set_kc_start_mapping := ltac:(field_setter kc_start_mapping).
Definition set_kc_state := ltac:(field_setter kc_state).
Definition set_kc_stats := ltac:(field_setter kc_stats).
Definition set_kc_port := ltac:(field_setter kc_port).
Definition set_kc_addr := ltac:(field_setter kc_addr).
Definition set_kc_addr_str := ltac:(field_setter kc_addr_str).
Definition set_kc_addr_type := ltac:(field_setter kc_addr_type).
Definition set_kc_verbose := ltac:(field_setter kc_verbose).
Definition set_kc_count := ltac:(field_setter kc_count).
Definition set_kc_size := ltac:(field_setter kc_size).
Definition set_kc_txdepth := ltac:(field_setter kc_txdepth).
Definition set_kc_cm_id := ltac:(field_setter kc_cm_id).
Definition set_kc_child_cm_id := ltac:(field_setter kc_child_cm_id).

(** A projection of an updated block is the new value, or the projection of the
    block before: the equation, stated for variables so that it is cheap to
    check. *)
Ltac kcb_eq g s :=
  let f := constr:(fun v r => g (s v r)) in
  let f := eval cbv beta iota delta [g s] in f in
  lazymatch f with
  | (fun v _ => v) => constr:((fun v r => eq_refl) : forall v r, g (s v r) = v)
  | _ => constr:((fun v r => eq_refl) : forall v r, g (s v r) = g r)
  end.
Ltac kcb_simpl :=
  repeat match goal with
  | |- context [?g (?s ?v ?r)] =>
      lazymatch type of r with krping_cb => idtac end;
      lazymatch type of s with _ -> krping_cb -> krping_cb => idtac end;
      lazymatch type of g with krping_cb -> _ => idtac end;
      let E := kcb_eq g s in rewrite (E v r)
  end.
Tactic Notation "kcb_simpl" "in" hyp(H) :=
  repeat match type of H with
  | context [?g (?s ?v ?r)] =>
      lazymatch type of r with krping_cb => idtac end;
      lazymatch type of s with _ -> krping_cb -> krping_cb => idtac end;
      lazymatch type of g with krping_cb -> _ => idtac end;
      let E := kcb_eq g s in rewrite (E v r) in H
  end.

(** The C comparisons between enumerators of [test_state]. *)
Notation "s >=t t" := (ts_val t <=? ts_val s) (at level 70) : rpc_scope.
Notation "s <=t t" := (ts_val s <=? ts_val t) (at level 70) : rpc_scope.
Notation "s =t t" := (ts_val s =? ts_val t) (at level 70) : rpc_scope.
End Krping.
