(* ===== verification/Kernel.v ===== *)
(** * Kernel: the machine the program runs on

    Kernel memory as typed blocks, the kernel services the program calls, the
    asynchronous contexts that run beside it, and the monad of its functions.
    What a service answers is a parameter (class [Kernel]): a function of the
    whole history of calls, so that every behaviour of the environment is an
    instance.  What the services do to the state the program can observe
    (memory, the [context] of a CM id, the completions of a queue) is written
    out here. *)
From stdpp Require Import gmultiset.
From S2P Require Import Prelude Types KrpingTypes.

(** ** Error numbers *)
Definition EINTR : Z := 4.
Definition ENOMEM : Z := 12.
Definition EFAULT : Z := 14.
Definition ENODEV : Z := 19.
Definition EINVAL : Z := 22.
Definition EDOM : Z := 33.
Definition EOPNOTSUPP : Z := 95.

(** ** State *)

#[export] Instance kptr_countable : Countable kptr.
Proof.
  refine (inj_countable'
    (fun p => match p with KPtr p => inl p | KErr e => inr e end)
    (fun s => match s with inl p => KPtr p | inr e => KErr e end) _).
  by intros [].
Defined.

(** A block of kernel memory holds one object (or array) of the program. *)
Inductive block :=
  | BBytes (l : list Z)
  | BCb (c : rdma_ch_cb)
  | BCtxs (l : list msgbuf_ctx)
  | BRpcCh (c : rpc_ch_info)
  | BRpcParam (p : rpc_msg_handler_param)
  | BParam (p : msg_handler_param)
  | BRpcMsg (m : rpc_msg)
  | BKcb (c : Krping.krping_cb)
  | BMr (m : Krping.ib_mr)
  | BPings (l : Krping.ping_list).

(** Wait queues: the [sem] of a control block, or one a user passed in. *)
Inductive wq := WqCb (cb : addr) | WqUser (a : Z).
#[export] Instance wq_eq_dec : EqDecision wq.
Proof. solve_decision. Defined.

(** Events of the RDMA connection manager. *)
Inductive rdma_cm_event :=
  | RDMA_CM_EVENT_ADDR_RESOLVED | RDMA_CM_EVENT_ADDR_ERROR
  | RDMA_CM_EVENT_ROUTE_RESOLVED | RDMA_CM_EVENT_ROUTE_ERROR
  | RDMA_CM_EVENT_CONNECT_REQUEST | RDMA_CM_EVENT_CONNECT_ERROR
  | RDMA_CM_EVENT_UNREACHABLE | RDMA_CM_EVENT_REJECTED
  | RDMA_CM_EVENT_ESTABLISHED | RDMA_CM_EVENT_DISCONNECTED
  | RDMA_CM_EVENT_DEVICE_REMOVAL | RDMA_CM_EVENT_OTHER (n : Z).
#[export] Instance rdma_cm_event_eq_dec : EqDecision rdma_cm_event.
Proof. solve_decision. Defined.

(** Work completions, and the answers of [ib_poll_cq]. *)
Inductive ib_wc_status := IB_WC_SUCCESS | IB_WC_WR_FLUSH_ERR | IB_WC_ERR (n : Z).
Inductive ib_wc_opcode :=
  | IB_WC_SEND | IB_WC_RDMA_WRITE | IB_WC_RDMA_READ | IB_WC_RECV
  | IB_WC_OTHER (n : Z).
Record ib_wc := {
  wc_status : ib_wc_status; wc_opcode : ib_wc_opcode;
  wc_byte_len : Z; wc_wr_id : Z }.
Inductive poll := PollEmpty | PollErr (e : Z) | PollWc (wc : ib_wc).

Record ib_qp_cap := {
  cap_max_send_wr : Z; cap_max_recv_wr : Z;
  cap_max_recv_sge : Z; cap_max_send_sge : Z }.
Record ib_qp_init_attr := { qa_cap : ib_qp_cap; qa_send_cq : kptr; qa_recv_cq : kptr }.
Record rdma_conn_param := {
  responder_resources : Z; initiator_depth : Z; retry_count : Z }.

(** The calls of the program to the kernel, with the answers they got. *)
Inductive event :=
  | EvKzalloc (a : addr) | EvKfree (a : addr)
  | EvStack (v : Z)
  | EvAllocPd (dev : Z) (r : kptr) | EvDeallocPd (pd : kptr)
  | EvCreateCq (dev : Z) (ctx : addr) (r : kptr) | EvDestroyCq (cq : kptr)
  | EvReqNotifyCq (cq : kptr) (r : Z)
  | EvCreateQp (id pd : kptr) (attr : ib_qp_init_attr) (r : Z) (qp : addr)
  | EvDestroyQp (qp : addr)
  | EvDmaMap (dev : Z) (a : addr) (len : Z) (r : Z)
  | EvDmaUnmap (dev : Z) (m : Z) (len : Z)
  | EvPostRecv (qp : addr) (wr : ib_recv_wr) (r : Z)
  | EvPostSend (qp : addr) (wr : ib_send_wr) (r : Z)
  | EvPollCq (cq : kptr) (p : poll)
  | EvCreateId (ctx : addr) (r : kptr) | EvDestroyId (id : kptr)
  | EvResolveAddr (id : kptr) (sin : sockaddr) (r : Z)
  | EvResolveRoute (id : kptr) (r : Z)
  | EvConnect (id : kptr) (p : rdma_conn_param) (r : Z)
  | EvAccept (id : kptr) (r : Z) | EvDisconnect (id : kptr)
  | EvWakeUp (q : wq)
  | EvCmHandled (id : kptr) (ev : rdma_cm_event) (r : Z)
  | EvModule (what : string) (r : Z)
  | EvKrping (e : Krping.kevent).

(** What can happen while a thread sleeps or spins: a CM event for an id, a
    connection request that comes with a new id, a completion interrupt that
    finds further poll answers in the queue, a write of the device into a
    buffer, a signal for the thread. *)
Inductive async :=
  | ACm (id : kptr) (ev : rdma_cm_event)
  | AConnReq (listener child : kptr)
  | ACq (cq : kptr) (ps : list poll)
  | ADma (a : addr) (l : list Z)
  | ASignal.

Record cm_state := { cm_context : addr; cm_qp : addr }.
Record cq_state := { cq_context : addr; cq_polls : list poll }.

Record world := {
  heap : gmap addr block;
  next : addr;
  trace : list event;
  sched : list async;
  cms : gmap kptr cm_state;
  cqs : gmap kptr cq_state;
  pds : gset kptr;
  qps : gset addr;
  dmas : gmultiset Z;
  woken : list wq;
  errno : Z }.

#[export] Instance eta_world : Eta world := fun w =>
  {| heap := heap w; next := next w; trace := trace w; sched := sched w;
     cms := cms w; cqs := cqs w; pds := pds w; qps := qps w; dmas := dmas w;
     woken := woken w; errno := errno w |}.
#[export] Instance eta_cm_state : Eta cm_state := fun r =>
  {| cm_context := cm_context r; cm_qp := cm_qp r |}.
#[export] Instance eta_cq_state : Eta cq_state := fun r =>
  {| cq_context := cq_context r; cq_polls := cq_polls r |}.

Definition log (e : event) (w : world) : world := w <| trace := e :: trace w |>.
Definition upd_heap (f : gmap addr block -> gmap addr block) (w : world) : world :=
  w <| heap := f (heap w) |>.
Definition set_sched (s : list async) (w : world) : world := w <| sched := s |>.
Definition upd_cms (f : gmap kptr cm_state -> gmap kptr cm_state) (w : world) : world :=
  w <| cms := f (cms w) |>.
Definition upd_cqs (f : gmap kptr cq_state -> gmap kptr cq_state) (w : world) : world :=
  w <| cqs := f (cqs w) |>.
Definition upd_pds (f : gset kptr -> gset kptr) (w : world) : world :=
  w <| pds := f (pds w) |>.
Definition upd_qps (f : gset addr -> gset addr) (w : world) : world :=
  w <| qps := f (qps w) |>.
Definition upd_dmas (f : gmultiset Z -> gmultiset Z) (w : world) : world :=
  w <| dmas := f (dmas w) |>.
Definition set_woken (l : list wq) (w : world) : world := w <| woken := l |>.
Definition set_next (a : addr) (w : world) : world := w <| next := a |>.

(** ** Services *)

(** The answers of the services, as functions of the history of calls (newest
    first) and of the arguments. *)
Class Kernel := {
  k_kzalloc : list event -> block -> bool;
  k_stack : list event -> Z;
  k_cm_device : kptr -> Z;
  k_pd_device : kptr -> Z;
  k_pd_local_dma_lkey : kptr -> Z;
  k_alloc_pd : list event -> Z -> kptr;
  k_create_cq : list event -> Z -> addr -> kptr;
  k_req_notify_cq : list event -> kptr -> Z;
  k_create_qp : list event -> kptr -> kptr -> ib_qp_init_attr -> Z * addr;
  k_dma_map : list event -> Z -> addr -> Z -> Z;
  k_post_recv : list event -> addr -> ib_recv_wr -> Z;
  k_post_send : list event -> addr -> ib_send_wr -> Z;
  k_create_id : list event -> addr -> kptr;
  k_resolve_addr : list event -> kptr -> sockaddr -> Z;
  k_resolve_route : list event -> kptr -> Z;
  k_connect : list event -> kptr -> rdma_conn_param -> Z;
  k_accept : list event -> kptr -> Z;
  k_big_endian : bool }.

(** ** The monad *)

(** Undefined behaviour, by kind. *)
Inductive undef :=
  | NullDeref | BadAddress (a : addr) | BadFree (a : addr) | BadType (a : addr)
  | OutOfBounds | BugOn | BadHandle (p : kptr).

(** A function returns in a new state, has undefined behaviour, or waits for
    something that the given schedule does not bring. *)
Inductive res (A : Type) :=
  | Ok (a : A) (w : world)
  | Undef (u : undef)
  | Blocked (w : world).
Arguments Ok {A} a w.
Arguments Undef {A} u.
Arguments Blocked {A} w.

Definition M (A : Type) : Type := world -> res A.

#[export] Instance M_ret : MRet M := fun A a w => Ok a w.
#[export] Instance M_bind : MBind M := fun A B f m w =>
  match m w with
  | Ok a w => f a w
  | Undef u => Undef u
  | Blocked w => Blocked w
  end.
#[export] Instance M_fmap : FMap M := fun A B f m w =>
  match m w with
  | Ok a w => Ok (f a) w
  | Undef u => Undef u
  | Blocked w => Blocked w
  end.

Definition get {A} (f : world -> A) : M A := fun w => Ok (f w) w.
Definition modify (f : world -> world) : M unit := fun w => Ok tt (f w).
Definition fault {A} (u : undef) : M A := fun _ => Undef u.
Definition block_here {A} : M A := fun w => Blocked w.
Definition from_option {A} (u : undef) (o : option A) : M A :=
  match o with Some a => mret a | None => fault u end.
(** A call to a service: the answer depends on the history, and is logged. *)
Definition call {A} (f : list event -> A) (ev : A -> event) : M A :=
  fun w => Ok (f (trace w)) (log (ev (f (trace w))) w).
Definition emit (e : event) : M unit := modify (log e).

(** A C [for] loop over [i, i + n), left early by a [goto] that carries a
    value. *)
Fixpoint for_loop {A} (n : nat) (i : Z) (body : Z -> M (option A)) : M (option A) :=
  match n with
  | O => mret None
  | S n => r ← body i; match r with
                       | Some a => mret (Some a)
                       | None => for_loop n (i + 1) body
                       end
  end.
(** The same without early exit. *)
Fixpoint for_each (n : nat) (i : Z) (body : Z -> M unit) : M unit :=
  match n with
  | O => mret tt
  | S n => body i;; for_each n (i + 1) body
  end.

(** ** Memory *)

(** Types with a representation as a block. *)
Class InBlock (T : Type) := {
  inj : T -> block;
  prj : block -> option T;
  prj_inj x : prj (inj x) = Some x;
  prj_Some b x : prj b = Some x -> b = inj x }.

Ltac solve_in_block := first [done | by intros [] ? ?; simplify_eq/=].

#[export] Instance in_bytes : InBlock (list Z).
Proof.
  refine {| inj := BBytes; prj b := match b with BBytes x => Some x | _ => None end |};
    solve_in_block.
Defined.
#[export] Instance in_cb : InBlock (rdma_ch_cb).
Proof.
  refine {| inj := BCb; prj b := match b with BCb x => Some x | _ => None end |};
    solve_in_block.
Defined.
#[export] Instance in_ctxs : InBlock (list msgbuf_ctx).
Proof.
  refine {| inj := BCtxs; prj b := match b with BCtxs x => Some x | _ => None end |};
    solve_in_block.
Defined.
#[export] Instance in_rpc_ch : InBlock (rpc_ch_info).
Proof.
  refine {| inj := BRpcCh; prj b := match b with BRpcCh x => Some x | _ => None end |};
    solve_in_block.
Defined.
#[export] Instance in_rpc_param : InBlock (rpc_msg_handler_param).
Proof.
  refine {| inj := BRpcParam; prj b := match b with BRpcParam x => Some x | _ => None end |};
    solve_in_block.
Defined.
#[export] Instance in_param : InBlock (msg_handler_param).
Proof.
  refine {| inj := BParam; prj b := match b with BParam x => Some x | _ => None end |};
    solve_in_block.
Defined.
#[export] Instance in_rpc_msg : InBlock (rpc_msg).
Proof.
  refine {| inj := BRpcMsg; prj b := match b with BRpcMsg x => Some x | _ => None end |};
    solve_in_block.
Defined.
#[export] Instance in_kcb : InBlock (Krping.krping_cb).
Proof.
  refine {| inj := BKcb; prj b := match b with BKcb x => Some x | _ => None end |};
    solve_in_block.
Defined.
#[export] Instance in_mr : InBlock (Krping.ib_mr).
Proof.
  refine {| inj := BMr; prj b := match b with BMr x => Some x | _ => None end |};
    solve_in_block.
Defined.
#[export] Instance in_pings : InBlock (Krping.ping_list).
Proof.
  refine {| inj := BPings; prj b := match b with BPings x => Some x | _ => None end |};
    solve_in_block.
Defined.

(** The value at an address. *)
Definition peek {T} `{InBlock T} (a : addr) (w : world) : option T :=
  heap w !! a ≫= prj.

Definition access_fault (a : addr) (w : world) : undef :=
  match heap w !! a with
  | Some _ => BadType a
  | None => if a =? NULL then NullDeref else BadAddress a
  end.

Definition load {T} `{InBlock T} (a : addr) : M T := fun w =>
  match peek a w with
  | Some x => Ok x w
  | None => Undef (access_fault a w)
  end.

Definition store {T} `{InBlock T} (a : addr) (x : T) : M unit := fun w =>
  match peek (T := T) a w with
  | Some _ => Ok tt (upd_heap (insert a (inj x)) w)
  | None => Undef (access_fault a w)
  end.

Definition update {T} `{InBlock T} (a : addr) (f : T -> T) : M unit :=
  x ← load a; store a (f x).

(** [kfree(NULL)] does nothing; freeing anything but a live block is an
    error. *)
Definition kfree (a : addr) : M unit := fun w =>
  match heap w !! a with
  | Some _ => Ok tt (log (EvKfree a) (upd_heap (delete a) w))
  | None => if a =? NULL then Ok tt (log (EvKfree a) w) else Undef (BadFree a)
  end.

(** Elements of the array of message buffer contexts, with C's lack of
    negative and out-of-range indices made explicit. *)
Definition ctx_at (l : list msgbuf_ctx) (i : Z) : option msgbuf_ctx :=
  if i <? 0 then None else l !! Z.to_nat i.

Definition load_ctx (ctxs : addr) (i : Z) : M msgbuf_ctx :=
  l ← load ctxs; from_option OutOfBounds (ctx_at l i).

Definition update_ctx (ctxs : addr) (i : Z) (f : msgbuf_ctx -> msgbuf_ctx) : M unit :=
  l ← load ctxs;
  c ← from_option OutOfBounds (ctx_at l i);
  store ctxs (<[Z.to_nat i := f c]> l).

(** Reads and writes inside a block of bytes. *)
Definition read_bytes (a : addr) (off : nat) (n : Z) : M (list Z) :=
  if n <? 0 then fault OutOfBounds
  else l ← load a; from_option OutOfBounds (read_at off (Z.to_nat n) l).

Definition write_bytes (a : addr) (off : nat) (d : list Z) : M unit :=
  l ← load a;
  l' ← from_option OutOfBounds (write_at off d l);
  store a (l' : list Z).

Definition zeros (n : Z) : list Z := replicate (Z.to_nat n) 0.

(** ** Services the program calls *)

(** Byte order conversions; [be] says whether the host is big-endian.  Both
    directions are the same function, as in the source's [htonll] and
    [ntohll]. *)
Definition cpu_to_be64 (be : bool) (x : Z) : Z := if be then x else bswap 8 x.
Definition htonll : bool -> Z -> Z := cpu_to_be64.
Definition ntohll : bool -> Z -> Z := cpu_to_be64.
Definition htons (be : bool) (x : Z) : Z := if be then u16 x else bswap 2 (u16 x).

(** The bytes of a 64-bit integer in the host's memory. *)
Definition mem_u64 (be : bool) (x : Z) : list Z :=
  if be then be_bytes 8 x else le_bytes 8 x.
Definition val_u64 (be : bool) (l : list Z) : Z :=
  if be then be_val l else le_val l.

Section Services.
Context {K : Kernel}.

Definition kzalloc {T} `{InBlock T} (x : T) : M addr := fun w =>
  if k_kzalloc (trace w) (inj x)
  then Ok (next w)
          (log (EvKzalloc (next w))
               (set_next (next w + 1) (upd_heap (insert (next w) (inj x)) w)))
  else Ok NULL (log (EvKzalloc NULL) w).

(** [kzalloc] with an [int] size: a negative one becomes a [size_t] that no
    allocation satisfies. *)
Definition kzalloc_size {T} `{InBlock T} (size : Z) (x : T) : M addr :=
  if size <? 0 then emit (EvKzalloc NULL);; mret NULL else kzalloc x.

(** [printk] with a [%s] argument reads it up to its terminating 0. *)
Definition printk_s (l : list Z) : M unit :=
  from_option OutOfBounds (c_str l);; mret tt.

(** The value of an automatic variable that was never assigned. *)
Definition indeterminate : M Z := call k_stack EvStack.

Definition wake_up_interruptible (q : wq) : M unit :=
  emit (EvWakeUp q);; modify (fun w => set_woken (q :: woken w) w).

(** Calls that are given a protection domain, queue or id need a live one. *)
Definition live_pd (pd : kptr) : M unit :=
  s ← get pds; if bool_decide (pd ∈ s) then mret tt else fault (BadHandle pd).
Definition live_qp (qp : addr) : M unit :=
  s ← get qps; if bool_decide (qp ∈ s) then mret tt else fault (BadHandle (KPtr qp)).
Definition live_cq (cq : kptr) : M cq_state :=
  m ← get cqs; from_option (BadHandle cq) (m !! cq).
(** The members of [struct rdma_cm_id] the program reads or writes. *)
Definition cm_id (id : kptr) : M cm_state :=
  m ← get cms; from_option (BadHandle id) (m !! id).
Definition set_cm_id (id : kptr) (f : cm_state -> cm_state) : M unit :=
  c ← cm_id id; modify (upd_cms (insert id (f c))).

(** [id->device], [pd->device] and [pd->local_dma_lkey]. *)
Definition cm_device (id : kptr) : M Z := cm_id id;; mret (k_cm_device id).
Definition pd_device (pd : kptr) : M Z := live_pd pd;; mret (k_pd_device pd).
Definition pd_local_dma_lkey (pd : kptr) : M Z :=
  live_pd pd;; mret (k_pd_local_dma_lkey pd).

Definition ib_alloc_pd (dev : Z) : M kptr :=
  r ← call (fun h => k_alloc_pd h dev) (EvAllocPd dev);
  (if IS_ERR r then mret tt else modify (upd_pds (fun s => {[r]} ∪ s)));;
  mret r.
Definition ib_dealloc_pd (pd : kptr) : M unit :=
  live_pd pd;; emit (EvDeallocPd pd);; modify (upd_pds (fun s => s ∖ {[pd]})).

Definition ib_create_cq (dev : Z) (ctx : addr) : M kptr :=
  r ← call (fun h => k_create_cq h dev ctx) (EvCreateCq dev ctx);
  (if IS_ERR r then mret tt
   else modify (upd_cqs (insert r {| cq_context := ctx; cq_polls := [] |})));;
  mret r.
Definition ib_destroy_cq (cq : kptr) : M unit :=
  live_cq cq;; emit (EvDestroyCq cq);; modify (upd_cqs (delete cq)).
Definition ib_req_notify_cq (cq : kptr) : M Z :=
  live_cq cq;; call (fun h => k_req_notify_cq h cq) (EvReqNotifyCq cq).

(** [ib_poll_cq(cq, 1, &wc)] takes the next answer from the queue. *)
Definition ib_poll_cq (cq : kptr) : M poll :=
  c ← live_cq cq;
  let (p, ps) := match cq_polls c with
                 | [] => (PollEmpty, [])
                 | p :: ps => (p, ps)
                 end in
  modify (upd_cqs (insert cq (c <| cq_polls := ps |>)));;
  emit (EvPollCq cq p);;
  mret p.

Definition rdma_create_id (ctx : addr) : M kptr :=
  r ← call (fun h => k_create_id h ctx) (EvCreateId ctx);
  (if IS_ERR r then mret tt
   else modify (upd_cms (insert r {| cm_context := ctx; cm_qp := NULL |})));;
  mret r.
Definition rdma_destroy_id (id : kptr) : M unit :=
  cm_id id;; emit (EvDestroyId id);; modify (upd_cms (delete id)).

Definition rdma_create_qp (id pd : kptr) (attr : ib_qp_init_attr) : M Z :=
  c ← cm_id id;
  live_pd pd;;
  r ← call (fun h => k_create_qp h id pd attr)
           (fun r => EvCreateQp id pd attr (fst r) (snd r));
  (if fst r =? 0
   then modify (upd_qps (fun s => {[snd r]} ∪ s));;
        set_cm_id id (fun c => c <| cm_qp := snd r |>)
   else mret tt);;
  mret (fst r).
Definition ib_destroy_qp (qp : addr) : M unit :=
  live_qp qp;; emit (EvDestroyQp qp);; modify (upd_qps (fun s => s ∖ {[qp]})).

(** What [ib_dma_map_single] answers when it maps nothing: [DMA_MAPPING_ERROR],
    or 0, the value the program tests for. *)
Definition DMA_MAPPING_ERROR : Z := 2 ^ 64 - 1.
Definition dma_failed (m : Z) : bool := (m =? 0) || (m =? DMA_MAPPING_ERROR).
Definition ib_dma_map_single (dev : Z) (a : addr) (len : Z) : M Z :=
  r ← call (fun h => k_dma_map h dev a len) (EvDmaMap dev a len);
  (if dma_failed r then mret tt else modify (upd_dmas (fun s => {[+ r +]} ⊎ s)));;
  mret r.
Definition dma_unmap_single (dev : Z) (m len : Z) : M unit :=
  emit (EvDmaUnmap dev m len);; modify (upd_dmas (fun s => s ∖ {[+ m +]})).
(** The program registers no memory region: whatever it passes is not one. *)
Definition ib_dereg_mr (mr : Z) : M unit := fault (BadAddress mr).

Definition ib_post_recv (qp : addr) (wr : ib_recv_wr) : M Z :=
  live_qp qp;; call (fun h => k_post_recv h qp wr) (EvPostRecv qp wr).
Definition ib_post_send (qp : addr) (wr : ib_send_wr) : M Z :=
  live_qp qp;; call (fun h => k_post_send h qp wr) (EvPostSend qp wr).

Definition rdma_resolve_addr (id : kptr) (sin : sockaddr) : M Z :=
  cm_id id;; call (fun h => k_resolve_addr h id sin) (EvResolveAddr id sin).
Definition rdma_resolve_route (id : kptr) : M Z :=
  cm_id id;; call (fun h => k_resolve_route h id) (EvResolveRoute id).
Definition rdma_connect (id : kptr) (p : rdma_conn_param) : M Z :=
  cm_id id;; call (fun h => k_connect h id p) (EvConnect id p).
Definition rdma_accept (id : kptr) : M Z :=
  cm_id id;; call (fun h => k_accept h id) (EvAccept id).
Definition rdma_disconnect (id : kptr) : M unit :=
  cm_id id;; emit (EvDisconnect id).
End Services.
