(* ===== verification/Logic.v ===== *)
(** * Logic: weakest preconditions for the monad of [Kernel]

    [wp t m Q w]: when [m], run from [w], returns, [Q] holds of its value and
    final state.  In mode [Total] it does return; in mode [Safe] it returns or
    waits forever, without undefined behaviour; mode [Partial] excludes
    nothing. *)
From S2P Require Import Prelude Types Kernel.

Inductive mode := Total | Safe | Partial.

Definition wp (t : mode) {A} (m : M A) (Q : A -> world -> Prop) (w : world) : Prop :=
  match m w with
  | Ok a w' => Q a w'
  | Undef _ => t = Partial
  | Blocked _ => t <> Total
  end.

Lemma wp_mono {t A} (m : M A) (Q Q' : A -> world -> Prop) w :
  wp t m Q w -> (forall a w', Q a w' -> Q' a w') -> wp t m Q' w.
Proof. unfold wp. destruct (m w); auto. Qed.

Section rules.
Context {t : mode} {A B : Type}.
Implicit Types (Q : A -> world -> Prop) (w : world).

Lemma wp_ret (a : A) Q w : Q a w -> wp t (mret a) Q w.
Proof. done. Qed.

Lemma wp_bind (m : M B) (f : B -> M A) Q w :
  wp t m (fun b => wp t (f b) Q) w -> wp t (m ≫= f) Q w.
Proof. unfold wp, mbind, M_bind. by destruct (m w). Qed.

(** A specification of [m], used under a bind. *)
Lemma wp_bind_spec (m : M B) (f : B -> M A) (P : B -> world -> Prop) Q w :
  wp t m P w -> (forall b w', P b w' -> wp t (f b) Q w') -> wp t (m ≫= f) Q w.
Proof. intros Hm Hf. apply wp_bind. eapply wp_mono; eauto. Qed.

Lemma wp_get (f : world -> A) Q w : Q (f w) w -> wp t (get f) Q w.
Proof. done. Qed.

Lemma wp_call f ev Q w :
  Q (f (trace w)) (log (ev (f (trace w))) w) -> wp t (call (A:=A) f ev) Q w.
Proof. done. Qed.

Lemma wp_from_option u o (a : A) Q w :
  o = Some a -> Q a w -> wp t (from_option u o) Q w.
Proof. by intros ->. Qed.

Lemma wp_load `{InBlock A} a (x : A) Q w :
  heap w !! a = Some (inj x) -> Q x w -> wp t (load a) Q w.
Proof. intros Ha HQ. unfold wp, load, peek. by rewrite Ha; simpl; rewrite prj_inj. Qed.
End rules.

Section rules_unit.
Context {t : mode}.
Implicit Types (Q : unit -> world -> Prop) (w : world).

Lemma wp_printk_s l Q w : is_Some (c_str l) -> Q tt w -> wp t (printk_s l) Q w.
Proof. intros [s Hs] HQ. unfold printk_s, wp, mbind, M_bind. by rewrite Hs. Qed.

Lemma wp_modify f Q w : Q tt (f w) -> wp t (modify f) Q w.
Proof. done. Qed.

Lemma wp_emit e Q w : Q tt (log e w) -> wp t (emit e) Q w.
Proof. done. Qed.

Lemma wp_store `{InBlock T} a (x y y' : T) Q w :
  heap w !! a = Some (inj x) -> y' = y ->
  Q tt (upd_heap (insert a (inj y')) w) -> wp t (store a y) Q w.
Proof.
  intros Ha -> HQ. unfold wp, store, peek. by rewrite Ha; simpl; rewrite prj_inj.
Qed.

(** The premise [y = f x] is where the updated record gets simplified. *)
Lemma wp_update `{InBlock T} a (x y : T) f Q w :
  heap w !! a = Some (inj x) -> y = f x ->
  Q tt (upd_heap (insert a (inj y)) w) -> wp t (update a f) Q w.
Proof.
  intros Ha -> HQ. apply wp_bind. eapply wp_load; [done|]. by eapply wp_store.
Qed.

Lemma wp_kfree a b Q w :
  heap w !! a = Some b ->
  Q tt (log (EvKfree a) (upd_heap (delete a) w)) -> wp t (kfree a) Q w.
Proof. intros Ha HQ. unfold wp, kfree. by rewrite Ha. Qed.

Lemma wp_kfree_null Q w :
  heap w !! NULL = None -> Q tt (log (EvKfree NULL) w) -> wp t (kfree NULL) Q w.
Proof. intros Ha HQ. unfold wp, kfree. by rewrite Ha. Qed.

Lemma wp_update_ctx a l i c c' f Q w :
  heap w !! a = Some (BCtxs l) -> ctx_at l i = Some c -> c' = f c ->
  Q tt (upd_heap (insert a (BCtxs (<[Z.to_nat i := c']> l))) w) ->
  wp t (update_ctx a i f) Q w.
Proof.
  intros Ha Hc -> HQ. apply wp_bind. eapply wp_load; [done|].
  apply wp_bind. eapply wp_from_option; [done|]. by eapply wp_store.
Qed.

Lemma wp_write_bytes a l l' off d Q w :
  heap w !! a = Some (BBytes l) -> write_at off d l = Some l' ->
  Q tt (upd_heap (insert a (BBytes l')) w) ->
  wp t (write_bytes a off d) Q w.
Proof.
  intros Ha Hw HQ. apply wp_bind. eapply wp_load; [done|].
  apply wp_bind. eapply wp_from_option; [done|]. by eapply wp_store.
Qed.

Lemma wp_live_pd pd Q w : pd ∈ pds w -> Q tt w -> wp t (live_pd pd) Q w.
Proof.
  intros Hpd HQ. apply wp_bind, wp_get. by rewrite bool_decide_eq_true_2.
Qed.

Lemma wp_live_qp qp Q w : qp ∈ qps w -> Q tt w -> wp t (live_qp qp) Q w.
Proof.
  intros Hqp HQ. apply wp_bind, wp_get. by rewrite bool_decide_eq_true_2.
Qed.
End rules_unit.

Section rules_mem.
Context {t : mode}.
Implicit Types (w : world).

Lemma wp_load_ctx a l i c Q w :
  heap w !! a = Some (BCtxs l) -> ctx_at l i = Some c -> Q c w ->
  wp t (load_ctx a i) Q w.
Proof.
  intros Ha Hc HQ. apply wp_bind. eapply wp_load; [done|].
  by eapply wp_from_option.
Qed.

Lemma wp_read_bytes a l off n d Q w :
  heap w !! a = Some (BBytes l) -> 0 <= n -> read_at off (Z.to_nat n) l = Some d ->
  Q d w -> wp t (read_bytes a off n) Q w.
Proof.
  intros Ha Hn Hr HQ. unfold read_bytes.
  replace (n <? 0) with false by (symmetry; by apply Z.ltb_ge).
  apply wp_bind. eapply wp_load; [done|]. by eapply wp_from_option.
Qed.

Lemma wp_kzalloc `{K : Kernel} `{InBlock T} (x : T) Q w :
  (k_kzalloc (trace w) (inj x) = true ->
   Q (next w) (log (EvKzalloc (next w))
     (set_next (next w + 1) (upd_heap (insert (next w) (inj x)) w)))) ->
  (k_kzalloc (trace w) (inj x) = false -> Q NULL (log (EvKzalloc NULL) w)) ->
  wp t (kzalloc x) Q w.
Proof. intros Ht Hf. unfold wp, kzalloc. destruct (k_kzalloc _ _); auto. Qed.

Lemma wp_kzalloc_size `{K : Kernel} `{InBlock T} n (x : T) Q w :
  (0 <= n -> wp t (kzalloc x) Q w) -> (n < 0 -> Q NULL (log (EvKzalloc NULL) w)) ->
  wp t (kzalloc_size n x) Q w.
Proof.
  intros H1 H2. unfold kzalloc_size. destruct (Z.ltb_spec n 0); [|auto].
  apply wp_bind, wp_emit, wp_ret. auto.
Qed.
End rules_mem.

(** ** Rules for runs that may go wrong *)

Section rules_partial.
Implicit Types (w : world).

Lemma wp_load_p `{InBlock A} a (Q : A -> world -> Prop) w :
  (forall x, heap w !! a = Some (inj x) -> Q x w) -> wp Partial (load a) Q w.
Proof.
  intros HQ. unfold wp, load, peek. destruct (heap w !! a) as [b|] eqn:Ha; [|done].
  cbn. destruct (prj b) as [x|] eqn:Hb; [|done].
  apply HQ. by rewrite (prj_Some _ _ Hb).
Qed.

Lemma wp_store_p `{InBlock T} a (y : T) (Q : unit -> world -> Prop) w :
  (forall x : T, heap w !! a = Some (inj x) -> Q tt (upd_heap (insert a (inj y)) w)) ->
  wp Partial (store a y) Q w.
Proof.
  intros HQ. unfold wp, store, peek. destruct (heap w !! a) as [b|] eqn:Ha; [|done].
  cbn. destruct (prj b) as [x|] eqn:Hb; [|done].
  apply (HQ x). by rewrite (prj_Some _ _ Hb).
Qed.

Lemma wp_update_p `{InBlock T} a (f : T -> T) (Q : unit -> world -> Prop) w :
  (forall x : T, heap w !! a = Some (inj x) ->
     Q tt (upd_heap (insert a (inj (f x))) w)) ->
  wp Partial (update a f) Q w.
Proof.
  intros HQ. apply wp_bind, wp_load_p. intros x Hx. apply wp_store_p. eauto.
Qed.

Lemma wp_from_option_p {A} u (o : option A) (Q : A -> world -> Prop) w :
  (forall a, o = Some a -> Q a w) -> wp Partial (from_option u o) Q w.
Proof. intros HQ. destruct o; [by apply HQ|done]. Qed.

Lemma wp_load_ctx_p a i (Q : msgbuf_ctx -> world -> Prop) w :
  (forall l c, heap w !! a = Some (BCtxs l) -> ctx_at l i = Some c -> Q c w) ->
  wp Partial (load_ctx a i) Q w.
Proof.
  intros HQ. apply wp_bind, wp_load_p. intros l Hl. apply wp_from_option_p. eauto.
Qed.

Lemma wp_read_bytes_p a off n (Q : list Z -> world -> Prop) w :
  (forall d, Q d w) -> wp Partial (read_bytes a off n) Q w.
Proof.
  intros HQ. unfold read_bytes. destruct (n <? 0); [done|].
  apply wp_bind, wp_load_p. intros l Hl. apply wp_from_option_p. eauto.
Qed.

Lemma wp_write_bytes_p a off d (Q : unit -> world -> Prop) w :
  (forall l l', heap w !! a = Some (BBytes l) -> write_at off d l = Some l' ->
     Q tt (upd_heap (insert a (BBytes l')) w)) ->
  wp Partial (write_bytes a off d) Q w.
Proof.
  intros HQ. apply wp_bind, wp_load_p. intros l Hl. apply wp_bind, wp_from_option_p.
  intros l' Hl'. apply wp_store_p. eauto.
Qed.

Lemma wp_printk_s_p l (Q : unit -> world -> Prop) w :
  Q tt w -> wp Partial (printk_s l) Q w.
Proof. intros HQ. unfold printk_s, wp, mbind, M_bind. by destruct (c_str l). Qed.

Lemma wp_kfree_p a (Q : unit -> world -> Prop) w :
  (forall b, heap w !! a = Some b -> Q tt (log (EvKfree a) (upd_heap (delete a) w))) ->
  (heap w !! a = None -> Q tt (log (EvKfree a) w)) ->
  wp Partial (kfree a) Q w.
Proof.
  intros H1 H2. unfold wp, kfree. destruct (heap w !! a) as [b|] eqn:Ha; [by eapply H1|].
  destruct (a =? NULL); [by apply H2|done].
Qed.

Lemma wp_live_pd_p pd (Q : unit -> world -> Prop) w :
  (pd ∈ pds w -> Q tt w) -> wp Partial (live_pd pd) Q w.
Proof.
  intros HQ. apply wp_bind, wp_get. case_bool_decide; [by apply HQ|done].
Qed.

Lemma wp_live_qp_p qp (Q : unit -> world -> Prop) w :
  (qp ∈ qps w -> Q tt w) -> wp Partial (live_qp qp) Q w.
Proof.
  intros HQ. apply wp_bind, wp_get. case_bool_decide; [by apply HQ|done].
Qed.
End rules_partial.

(** ** Loops *)

Section loops.
Context {t : mode}.

(** An early exit establishes [Q]; the invariant holds of the index at every
    round. *)
Lemma wp_for_loop {A} (Inv : Z -> world -> Prop) (Q : option A -> world -> Prop)
    n i body w :
  Inv i w ->
  (forall j w, i <= j < i + Z.of_nat n -> Inv j w ->
     wp t (body j) (fun r w' => match r with
                                | Some a => Q (Some a) w'
                                | None => Inv (j + 1) w'
                                end) w) ->
  (forall w, Inv (i + Z.of_nat n) w -> Q None w) ->
  wp t (for_loop n i body) Q w.
Proof.
  revert i w. induction n as [|n IH]; intros i w Hi Hbody Hend; cbn [for_loop].
  - apply wp_ret, Hend. by rewrite Z.add_0_r.
  - eapply wp_bind_spec; [by apply Hbody; [lia|]|].
    intros [a|] w' Hw'; [by apply wp_ret|].
    apply IH; [done| |].
    + intros j w'' Hj. apply Hbody. lia.
    + intros w'' Hw''. apply Hend. by replace (i + Z.of_nat (S n))
        with (i + 1 + Z.of_nat n) by lia.
Qed.

Lemma wp_for_each (Inv : Z -> world -> Prop) (Q : unit -> world -> Prop) n i body w :
  Inv i w ->
  (forall j w, i <= j < i + Z.of_nat n -> Inv j w ->
     wp t (body j) (fun _ w' => Inv (j + 1) w') w) ->
  (forall w, Inv (i + Z.of_nat n) w -> Q tt w) ->
  wp t (for_each n i body) Q w.
Proof.
  revert i w. induction n as [|n IH]; intros i w Hi Hbody Hend; cbn [for_each].
  - apply wp_ret, Hend. by rewrite Z.add_0_r.
  - eapply wp_bind_spec; [by apply Hbody; [lia|]|].
    intros [] w' Hw'. apply IH; [done| |].
    + intros j w'' Hj. apply Hbody. lia.
    + intros w'' Hw''. apply Hend. by replace (i + Z.of_nat (S n))
        with (i + 1 + Z.of_nat n) by lia.
Qed.
End loops.

(** ** From weakest preconditions to runs *)

Lemma wp_total_run {A} (m : M A) Q w :
  wp Total m Q w -> exists a w', m w = Ok a w' /\ Q a w'.
Proof. unfold wp. destruct (m w); naive_solver. Qed.

Lemma wp_total_unit (m : M unit) Q w :
  wp Total m Q w -> exists w', m w = Ok tt w' /\ Q tt w'.
Proof. unfold wp. destruct (m w) as [[]| |]; naive_solver. Qed.

Lemma wp_run {t A} (m : M A) Q w a w' : wp t m Q w -> m w = Ok a w' -> Q a w'.
Proof. unfold wp. intros H Hr. by rewrite Hr in H. Qed.

Lemma wp_of_run {t A} (m : M A) (Q : A -> world -> Prop) w a w' :
  m w = Ok a w' -> Q a w' -> wp t m Q w.
Proof. unfold wp. by intros ->. Qed.

(** ** Runs *)

(** Equations for runs that may wait, where a weakest precondition would lose
    the state they wait in. *)
Lemma bind_run {A B} (m : M A) (f : A -> M B) w a w' :
  m w = Ok a w' -> (m ≫= f) w = f a w'.
Proof. unfold mbind, M_bind. by intros ->. Qed.

Lemma bind_blocked {A B} (m : M A) (f : A -> M B) w w' :
  m w = Blocked w' -> (m ≫= f) w = Blocked w'.
Proof. unfold mbind, M_bind. by intros ->. Qed.

Lemma bind_undef {A B} (m : M A) (f : A -> M B) w u :
  m w = Undef u -> (m ≫= f) w = Undef u.
Proof. unfold mbind, M_bind. by intros ->. Qed.

Lemma bind_ext {A B} (m : M A) (f g : A -> M B) w :
  (forall a w', m w = Ok a w' -> f a w' = g a w') -> (m ≫= f) w = (m ≫= g) w.
Proof. unfold mbind, M_bind. destruct (m w); auto. Qed.

Lemma bind_assoc {A B C} (m : M A) (f : A -> M B) (g : B -> M C) w :
  ((m ≫= f) ≫= g) w = (m ≫= (fun x => f x ≫= g)) w.
Proof. unfold mbind, M_bind. by destruct (m w). Qed.

(** A run that goes wrong after a prefix that does not. *)
Lemma fault_bind {A B} (m : M A) (f : A -> M B) w u :
  wp Total m (fun a w' => f a w' = Undef u) w -> (m ≫= f) w = Undef u.
Proof. unfold wp, mbind, M_bind. by destruct (m w). Qed.

Lemma load_run `{InBlock A} a (x : A) w :
  heap w !! a = Some (inj x) -> load a w = Ok x w.
Proof. intros Ha. unfold load, peek. by rewrite Ha; simpl; rewrite prj_inj. Qed.

Lemma update_run `{InBlock A} a (x y : A) f w :
  heap w !! a = Some (inj x) -> f x = y ->
  update a f w = Ok tt (upd_heap (insert a (inj y)) w).
Proof.
  intros Ha <-. unfold update. erewrite bind_run by by apply load_run.
  unfold store, peek. by rewrite Ha; simpl; rewrite prj_inj.
Qed.

Lemma load_ctx_run a l i c w :
  heap w !! a = Some (BCtxs l) -> ctx_at l i = Some c -> load_ctx a i w = Ok c w.
Proof.
  intros Ha Hc. unfold load_ctx. erewrite bind_run by by apply load_run. by rewrite Hc.
Qed.

Section Run_services.
Context {K : Kernel}.

Lemma rdma_resolve_addr_run id sin c w :
  cms w !! id = Some c ->
  rdma_resolve_addr id sin w = Ok (k_resolve_addr (trace w) id sin)
    (log (EvResolveAddr id sin (k_resolve_addr (trace w) id sin)) w).
Proof. intros Hc. unfold rdma_resolve_addr, cm_id, mbind, M_bind, get. by rewrite Hc. Qed.

Lemma rdma_connect_run id p c w :
  cms w !! id = Some c ->
  rdma_connect id p w = Ok (k_connect (trace w) id p)
    (log (EvConnect id p (k_connect (trace w) id p)) w).
Proof. intros Hc. unfold rdma_connect, cm_id, mbind, M_bind, get. by rewrite Hc. Qed.

Lemma rdma_accept_run id c w :
  cms w !! id = Some c ->
  rdma_accept id w = Ok (k_accept (trace w) id)
    (log (EvAccept id (k_accept (trace w) id)) w).
Proof. intros Hc. unfold rdma_accept, cm_id, mbind, M_bind, get. by rewrite Hc. Qed.
End Run_services.

(** ** States *)

Lemma upd_heap_id f w : f (heap w) = heap w -> upd_heap f w = w.
Proof. destruct w. unfold upd_heap. simpl. by intros ->. Qed.

Lemma upd_heap_compose f g w : upd_heap f (upd_heap g w) = upd_heap (f ∘ g) w.
Proof. done. Qed.

Lemma upd_heap_ext f g w : f (heap w) = g (heap w) -> upd_heap f w = upd_heap g w.
Proof. unfold upd_heap. by intros ->. Qed.

(** The kernel objects of a state. *)
Definition objs (w : world) :=
  (cms w, cqs w, pds w, qps w, dmas w, errno w).

Lemma objs_inv w w' :
  objs w' = objs w -> cms w' = cms w /\ cqs w' = cqs w /\ pds w' = pds w
    /\ qps w' = qps w /\ dmas w' = dmas w /\ errno w' = errno w.
Proof. unfold objs. by intros [= ? ? ? ? ? ?]. Qed.

(** Addresses from [next w] on are unused, and none of them is [NULL]. *)
Record fresh_ok (w : world) : Prop := {
  fr_pos : 0 < next w;
  fr_free : forall a, next w <= a -> heap w !! a = None }.

Lemma not_null a : 0 < a -> (a =? NULL) = false.
Proof. intros Ha. apply Z.eqb_neq. unfold NULL. lia. Qed.

(** Two stores to one block are the last one. *)
Lemma upd_heap_insert_twice a b b' w :
  upd_heap (insert a b) (upd_heap (insert a b') w) = upd_heap (insert a b) w.
Proof. rewrite upd_heap_compose. apply upd_heap_ext. apply insert_insert_eq. Qed.

(** ** Contexts of an array *)

Lemma ctx_at_Some l i c :
  ctx_at l i = Some c <-> 0 <= i /\ l !! Z.to_nat i = Some c.
Proof.
  unfold ctx_at. destruct (Z.ltb_spec i 0); naive_solver lia.
Qed.

Lemma ctx_at_lt l i : 0 <= i < Z.of_nat (length l) -> is_Some (ctx_at l i).
Proof.
  intros Hi. unfold ctx_at. destruct (Z.ltb_spec i 0); [lia|].
  apply lookup_lt_is_Some. lia.
Qed.

Lemma ctx_at_insert l i c c' :
  ctx_at l i = Some c -> ctx_at (<[Z.to_nat i := c']> l) i = Some c'.
Proof.
  intros [? Hc]%ctx_at_Some. apply ctx_at_Some. split; [done|].
  rewrite list_lookup_insert_eq; [done|]. by eapply lookup_lt_Some.
Qed.

(** ** Automation *)

(** Normalises the components of a state built by updates. *)
Ltac wsimpl :=
  cbn [heap next trace sched cms cqs pds qps dmas woken errno log upd_heap set_sched
       upd_cms upd_cqs upd_pds upd_qps upd_dmas set_woken set_next].
Tactic Notation "wsimpl" "in" "*" :=
  cbn [heap next trace sched cms cqs pds qps dmas woken errno log upd_heap set_sched
       upd_cms upd_cqs upd_pds upd_qps upd_dmas set_woken set_next] in *.
Tactic Notation "wsimpl" "in" hyp(H) :=
  cbn [heap next trace sched cms cqs pds qps dmas woken errno log upd_heap set_sched
       upd_cms upd_cqs upd_pds upd_qps upd_dmas set_woken set_next] in H.

(** Projections of known records. *)
Ltac rec_simpl :=
  cbn [rwr_wr_id rwr_sg_list rwr_num_sge
       mc_id rq_wr recv_sgl recv_buf recv_mr recv_mapping sq_wr send_sgl send_buf
       send_mr send_mapping mc_seqn ss_family sin_port sin_addr
       cb_server cb_cq cb_pd cb_qp cb_msgbuf_cnt cb_msgbuf_size cb_msgheader_size
       cb_msgdata_size cb_buf_ctxs cb_rpc_msg_handler_cb cb_user_msg_handler_cb
       cb_state cb_sin cb_port cb_size cb_cm_id cb_child_cm_id
       ch_type ch_cb msgbuf_bitmap msgbuf_bitmap_lock
       rp_msgbuf_id rp_client_rpc_ch rp_param rp_user_msg_handler_cb
       mp_client_id mp_msgbuf_id mp_ch_cb mp_msg
       msg_seqn msg_client_rpc_ch msg_sem msg_data
       cm_context cm_qp cq_context cq_polls].
Ltac solve_rec := rec_simpl; reflexivity.

Ltac solve_ne := solve [assumption | apply not_eq_sym; assumption | congruence | lia].

(** Equality of heaps built by updates, by case analysis on the address. *)
Ltac heap_ext :=
  let k := fresh "k" in
  apply map_eq; intros k; wsimpl;
  repeat first [rewrite lookup_insert | rewrite lookup_delete];
  repeat case_decide; subst; try reflexivity; try congruence; try lia.

(** Looks an address up through the updates above a known heap. *)
Ltac heap_lookup :=
  wsimpl;
  repeat first [ rewrite lookup_insert_eq
               | rewrite lookup_insert_ne by solve_ne
               | rewrite lookup_delete_ne by solve_ne ];
  first [eassumption | reflexivity].

(** Unfolds a service that is a plain call. *)
Ltac unfold_service :=
  progress unfold indeterminate, wake_up_interruptible, ib_alloc_pd, ib_dealloc_pd,
    ib_create_cq, ib_destroy_cq, ib_req_notify_cq, rdma_create_id, rdma_destroy_id,
    live_cq, cm_id, set_cm_id, cm_device, pd_device, pd_local_dma_lkey,
    rdma_create_qp, ib_destroy_qp, ib_dma_map_single, dma_unmap_single, ib_dereg_mr, ib_post_recv, ib_post_send, rdma_resolve_addr,
    rdma_resolve_route, rdma_connect, rdma_accept, rdma_disconnect.

(** One step of symbolic execution. *)
Ltac wp_step :=
  lazymatch goal with
  | |- wp _ (mret _) _ _ => apply wp_ret
  | |- wp _ (_ ≫= _) _ _ => apply wp_bind
  | |- wp _ (load _) _ _ => eapply wp_load; [heap_lookup|]
  | |- wp _ (store _ _) _ _ => eapply wp_store; [heap_lookup|solve_rec|]
  | |- wp _ (update _ _) _ _ => eapply wp_update; [heap_lookup|solve_rec|]
  | |- wp _ (kfree _) _ _ => eapply wp_kfree; [heap_lookup|]
  | |- wp _ (load_ctx _ _) _ _ => eapply wp_load_ctx; [heap_lookup|try eassumption|]
  | |- wp _ (update_ctx _ _ _) _ _ => eapply wp_update_ctx; [heap_lookup|try eassumption|solve_rec|]
  | |- wp _ (call _ _) _ _ => apply wp_call
  | |- wp _ (emit _) _ _ => apply wp_emit
  | |- wp _ (modify _) _ _ => apply wp_modify
  | |- wp _ (get _) _ _ => apply wp_get
  | |- wp _ (from_option _ _) _ _ => eapply wp_from_option; [try eassumption|]
  | |- wp _ (printk_s _) _ _ => apply wp_printk_s; [try assumption|]
  | |- wp _ (live_pd _) _ _ => apply wp_live_pd; [wsimpl; try assumption|]
  | |- wp _ (live_qp _) _ _ => apply wp_live_qp; [wsimpl; try assumption|]
  | |- wp _ (if NULL =? NULL then _ else _) _ _ =>
      change (NULL =? NULL) with true; cbv iota
  | |- wp _ (if ?b then _ else _) _ _ => let E := fresh "E" in destruct b eqn:E
  | |- wp _ (match ?b with _ => _ end) _ _ => let E := fresh "E" in destruct b eqn:E
  | |- wp _ _ _ _ => unfold_service
  end.
Ltac wp_steps := repeat (wp_step; cbv beta).

(** The same in mode [Partial], where a lookup is a hypothesis gained. *)
Ltac wp_step_p :=
  lazymatch goal with
  | |- wp _ (load _) _ _ => apply wp_load_p; intros ? ?
  | |- wp _ (store _ _) _ _ => eapply wp_store_p; intros ? ?
  | |- wp _ (update _ _) _ _ => eapply wp_update_p; intros ? ?
  | |- wp _ (load_ctx _ _) _ _ => apply wp_load_ctx_p; intros ? ? ? ?
  | |- wp _ (read_bytes _ _ _) _ _ => apply wp_read_bytes_p; intros ?
  | |- wp _ (write_bytes _ _ _) _ _ => apply wp_write_bytes_p; intros ? ? ? ?
  | |- wp _ (from_option _ _) _ _ => apply wp_from_option_p; intros ? ?
  | |- wp _ (live_pd _) _ _ => apply wp_live_pd_p; intros ?
  | |- wp _ (live_qp _) _ _ => apply wp_live_qp_p; intros ?
  | |- wp _ (printk_s _) _ _ => apply wp_printk_s_p
  | |- wp _ (fault _) _ _ => reflexivity
  | |- wp _ block_here _ _ => discriminate
  | |- _ => wp_step
  end.
Ltac wp_steps_p := repeat (wp_step_p; cbv beta).
