(* ===== verification/Verbs.v ===== *)
(** * Verbs: rules for the services that make verbs objects

    What the set-up functions of both programs call: each rule gives the answer
    and the state after it. *)
From S2P Require Import Prelude Types Kernel Logic.

(** Creating and destroying an object gives back the objects there were. *)
Lemma gset_undo `{Countable A} (x : A) (s : gset A) : x ∉ s -> ({[x]} ∪ s) ∖ {[x]} = s.
Proof. set_solver. Qed.

(** New objects are distinct from those in use in [w]. *)
Record new_handles (K : Kernel) (w : world) : Prop := {
  nh_pd : forall h d, k_alloc_pd h d ∉ pds w;
  nh_cq : forall h d c, cqs w !! k_create_cq h d c = None;
  nh_qp : forall h id pd a, snd (k_create_qp h id pd a) ∉ qps w }.

(** ** The receive queue

    What a history says of a queue pair's receives: the ids of the requests
    posted since the queue pair was created, oldest first, and the number of
    receives whose completion has been taken from the completion queue since
    that was created. *)
Fixpoint posted (qp : addr) (h : list event) : list Z :=
  match h with
  | [] => []
  | EvCreateQp _ _ _ r q :: h =>
      if (r =? 0) && (q =? qp) then [] else posted qp h
  | EvPostRecv q wr r :: h =>
      if (r =? 0) && (q =? qp) then posted qp h ++ [rwr_wr_id wr] else posted qp h
  | _ :: h => posted qp h
  end.

Definition is_receive (p : poll) : bool :=
  match p with
  | PollWc {| wc_status := IB_WC_SUCCESS; wc_opcode := IB_WC_RECV |} => true
  | _ => false
  end.

Fixpoint received (cq : kptr) (h : list event) : nat :=
  match h with
  | [] => O
  | EvCreateCq _ _ q :: h => if decide (q = cq) then O else received cq h
  | EvPollCq q p :: h =>
      if decide (q = cq) then (if is_receive p then 1 else 0) + received cq h
      else received cq h
  | _ :: h => received cq h
  end%nat.

Definition recvs (qp : addr) (cq : kptr) (w : world) : list Z * nat :=
  (posted qp (trace w), received cq (trace w)).
(** The same for all queues. *)
Definition all_recvs (w : world) := fun qp cq => recvs qp cq w.

Section Verbs.
Context {K : Kernel}.

Lemma new_handles_objs w w' : objs w' = objs w -> new_handles K w -> new_handles K w'.
Proof.
  intros (Ecm & Ecq & Epd & Eqp & Edm & Eer)%objs_inv [Hp Hc Hq].
  split; rewrite ?Ecq, ?Epd, ?Eqp; done.
Qed.

Lemma wp_ib_alloc_pd t dev w Q :
  (forall r, r = k_alloc_pd (trace w) dev -> let w1 := log (EvAllocPd dev r) w in
     Q r (if IS_ERR r then w1 else upd_pds (fun s => {[r]} ∪ s) w1)) ->
  wp t (ib_alloc_pd dev) Q w.
Proof. intros HQ. specialize (HQ _ eq_refl). unfold ib_alloc_pd. wp_steps; exact HQ. Qed.

Lemma wp_ib_create_cq t dev ctx w Q :
  (forall r, r = k_create_cq (trace w) dev ctx -> let w1 := log (EvCreateCq dev ctx r) w in
     Q r (if IS_ERR r then w1
          else upd_cqs (insert r {| cq_context := ctx; cq_polls := [] |}) w1)) ->
  wp t (ib_create_cq dev ctx) Q w.
Proof. intros HQ. specialize (HQ _ eq_refl). unfold ib_create_cq. wp_steps; exact HQ. Qed.

Lemma wp_ib_req_notify_cq t cq w Q :
  is_Some (cqs w !! cq) ->
  (forall r, r = k_req_notify_cq (trace w) cq -> Q r (log (EvReqNotifyCq cq r) w)) ->
  wp t (ib_req_notify_cq cq) Q w.
Proof. intros [c Hc] HQ. unfold ib_req_notify_cq. wp_steps. by apply HQ. Qed.

Lemma wp_cm_device t id i w Q :
  cms w !! id = Some i -> Q (k_cm_device id) w -> wp t (cm_device id) Q w.
Proof. intros Hi HQ. unfold cm_device. wp_steps. exact HQ. Qed.

(** The state after [rdma_create_qp] has answered [r]. *)
Definition qp_answer (id pd : kptr) (attr : ib_qp_init_attr) (r : Z * addr)
    (i : cm_state) (w : world) : world :=
  let w1 := log (EvCreateQp id pd attr (fst r) (snd r)) w in
  if fst r =? 0
  then upd_cms (insert id (i <| cm_qp := snd r |>)) (upd_qps (fun s => {[snd r]} ∪ s) w1)
  else w1.

Lemma wp_rdma_create_qp t id pd attr i w Q :
  cms w !! id = Some i -> pd ∈ pds w ->
  (forall r, r = k_create_qp (trace w) id pd attr ->
     Q (fst r) (qp_answer id pd attr r i w)) ->
  wp t (rdma_create_qp id pd attr) Q w.
Proof.
  intros Hi Hpd HQ. specialize (HQ _ eq_refl). unfold qp_answer in HQ.
  unfold rdma_create_qp. wp_steps; exact HQ.
Qed.
End Verbs.
