(* ===== verification/Wait.v ===== *)
(** * Wait: sleeping until another context has made a condition true

    [wait_event_interruptible] over the schedule of what other contexts do.
    What an event does is the program's: its handlers run in it.  The class
    [Delivery] is the interface; the RPC channel ([RdmaCm]) and the ping module
    ([KrpingIo]) each have an instance. *)
From S2P Require Import Prelude Types Kernel Logic.

Definition ERESTARTSYS : Z := 512.

Definition is_signal (e : async) : bool :=
  match e with ASignal => true | _ => false end.

(** What the other contexts do when an event of the schedule happens. *)
Class Delivery := deliver : async -> M unit.

(** The device writes into a live buffer of the same size. *)
Definition dma_write (a : addr) (l : list Z) : M unit :=
  modify (fun w => match heap w !! a with
                   | Some (BBytes l0) =>
                       if decide (length l0 = length l)
                       then upd_heap (insert a (BBytes l)) w else w
                   | _ => w
                   end).

Section Wait.
Context {D : Delivery}.

(** [wait_event_interruptible(q, cond)] sleeps until it is woken with [cond]
    true, or a signal arrives.  Each round consumes an event of the
    schedule, so its length is fuel enough. *)
Fixpoint wait_loop (fuel : nat) (q : wq) (cond : M bool) : M Z :=
  match fuel with
  | O => block_here
  | S fuel =>
      s ← get sched;
      match s with
      | [] => block_here
      | e :: s =>
          modify (fun w => set_woken [] (set_sched s w));;
          deliver e;;
          ws ← get woken;
          if is_signal e then
            c ← cond; mret (if (c : bool) then 0 else - ERESTARTSYS)
          else if bool_decide (q ∈ ws) then
            c ← cond; if (c : bool) then mret 0 else wait_loop fuel q cond
          else wait_loop fuel q cond
      end
  end.

Definition wait_event_interruptible (q : wq) (cond : M bool) : M Z :=
  c ← cond;
  if (c : bool) then mret 0
  else n ← get (fun w => length (sched w)); wait_loop n q cond.

(** A wait whose condition stays false in every state of [P], and whose
    events keep [P] and are no signals, never ends. *)
Lemma wait_loop_stuck (P : world -> Prop) q cond :
  (forall w, P w -> cond w = Ok false w) ->
  (forall w e s, P w -> sched w = e :: s -> is_signal e = false /\
     exists w', deliver e (set_woken [] (set_sched s w)) = Ok tt w' /\ P w') ->
  forall n w, P w -> exists w', wait_loop n q cond w = Blocked w' /\ P w'.
Proof.
  intros Hcond Hev n. induction n as [|n IH]; intros w Hw; cbn [wait_loop]; [by eexists|].
  unfold mbind, M_bind, get at 1. destruct (sched w) as [|e s] eqn:Hs; [by eexists|].
  destruct (Hev w e s Hw Hs) as (Hsig & w' & Hd & Hw'). cbn. rewrite Hd. cbn.
  rewrite Hsig. destruct (bool_decide _); [|by apply IH].
  unfold mbind, M_bind. rewrite (Hcond _ Hw'). by apply IH.
Qed.

(** The same where an event may be one whose handler the model does not
    follow: such a wait does not return. *)
Lemma wait_loop_never (P : world -> Prop) q cond :
  (forall w, P w -> cond w = Ok false w) ->
  (forall w e s, P w -> sched w = e :: s -> is_signal e = false /\
     wp Partial (deliver e) (fun _ => P) (set_woken [] (set_sched s w))) ->
  forall n w, P w -> wp Partial (wait_loop n q cond) (fun _ _ => False) w.
Proof.
  intros Hcond Hev n. induction n as [|n IH]; intros w Hw; cbn [wait_loop]; [done|].
  wp_step. wp_step. destruct (sched w) as [|e s] eqn:Hs; [done|].
  destruct (Hev w e s Hw Hs) as [Hsig Hd]. wp_step. wp_step. wp_step.
  eapply wp_mono; [exact Hd|]. intros [] w' Hw'. cbv beta. wp_step. wp_step. rewrite Hsig.
  destruct (bool_decide _); [|by apply IH].
  unfold wp. erewrite bind_run by by apply Hcond. by apply IH.
Qed.
End Wait.
