(* ===== verification/Within.v ===== *)
(** * Within: how far a function moves the state

    [within R m]: whenever [m] returns, its final state is related by [R] to
    its first; [unchanged f m]: [f] of the state is what it was.  The tactic
    [solve_within] decomposes a function down to the operations of the monad. *)
From stdpp Require Import gmultiset.
From S2P Require Import Prelude Types Kernel Logic.

Definition within (R : relation world) {A} (m : M A) : Prop := forall w,
  wp Partial m (fun _ w' => R w w') w.

Definition same {X} (f : world -> X) : relation world := fun w w' => f w' = f w.
#[export] Instance same_preorder {X} (f : world -> X) : PreOrder (same f).
Proof. split; [by intros w|]. intros w1 w2 w3 H1 H2. unfold same in *. congruence. Qed.
Notation unchanged f := (within (same f)).

Section Within.
Context (R : relation world) `{!PreOrder R}.
Implicit Types (w : world).

Lemma within_ret {A} (a : A) : within R (mret a).
Proof. intros w. apply wp_ret. reflexivity. Qed.
Lemma within_bind {A B} (m : M B) (g : B -> M A) :
  within R m -> (forall b, within R (g b)) -> within R (m ≫= g).
Proof.
  intros Hm Hg w. eapply wp_bind_spec; [apply Hm|]. intros b w' Hw.
  eapply wp_mono; [apply Hg|]. intros a w2 Hw2. by transitivity w'.
Qed.
Lemma within_fault {A} u : within R (fault (A := A) u).
Proof. done. Qed.
Lemma within_block {A} : within R (block_here (A := A)).
Proof. done. Qed.
Lemma within_get {A} (g : world -> A) : within R (get g).
Proof. intros w. apply wp_get. reflexivity. Qed.
Lemma within_from_option {A} u (o : option A) : within R (from_option u o).
Proof. intros w. apply wp_from_option_p. reflexivity. Qed.
Lemma within_load `{InBlock A} a : within R (load (T := A) a).
Proof. intros w. apply wp_load_p. reflexivity. Qed.
Lemma within_modify g : (forall w, R w (g w)) -> within R (modify g).
Proof. intros Hg w. apply wp_modify, Hg. Qed.
Lemma within_call {A} g ev :
  (forall (r : A) w, R w (log (ev r) w)) -> within R (call g ev).
Proof. intros Hg w. apply wp_call, Hg. Qed.
Lemma within_store `{InBlock A} a (x : A) :
  (forall h w, R w (upd_heap h w)) -> within R (store a x).
Proof. intros Hh w. apply wp_store_p. intros _ _. apply Hh. Qed.
Lemma within_kfree a :
  (forall w, R w (log (EvKfree a) w)) -> (forall h w, R w (upd_heap h w)) -> within R (kfree a).
Proof.
  intros Hl Hh w. unfold wp, kfree. destruct (heap w !! a); [by transitivity (upd_heap (delete a) w)|].
  by destruct (a =? NULL).
Qed.
Lemma within_kzalloc `{K : Kernel} `{InBlock T} (x : T) :
  (forall a w, R w (log (EvKzalloc a) w)) -> (forall h w, R w (upd_heap h w)) ->
  (forall a w, R w (set_next a w)) -> within R (kzalloc x).
Proof.
  intros Hl Hh Hn w. apply wp_kzalloc; intros _; [|apply Hl].
  etransitivity; [apply Hh|]. etransitivity; [apply Hn|]. apply Hl.
Qed.
Lemma within_for_each n (body : Z -> M unit) :
  (forall i, within R (body i)) -> forall i, within R (for_each n i body).
Proof.
  intros Hb. induction n as [|n IH]; intros i; cbn [for_each]; [apply within_ret|].
  by apply within_bind.
Qed.
Lemma within_for_loop {A} n (body : Z -> M (option A)) :
  (forall i, within R (body i)) -> forall i, within R (for_loop n i body).
Proof.
  intros Hb. induction n as [|n IH]; intros i; cbn [for_loop]; [apply within_ret|].
  apply within_bind; [done|]. intros [a|]; [apply within_ret|done].
Qed.
End Within.

(** A run of such a function. *)
Lemma run_within R {A} (m : M A) w a w' : within R m -> m w = Ok a w' -> R w w'.
Proof. intros Hm Hr. specialize (Hm w). unfold wp in Hm. by rewrite Hr in Hm. Qed.

(** What else holds of a run whose specification is known: a second one in mode
    [Partial], or how far the function moves the state. *)
Lemma wp_both {t A} (m : M A) (P Q : A -> world -> Prop) w :
  wp Partial m P w -> wp t m (fun a w' => P a w' -> Q a w') w -> wp t m Q w.
Proof. unfold wp. destruct (m w); auto. Qed.

Lemma wp_within R {t A} (m : M A) (Q : A -> world -> Prop) w :
  within R m -> wp t m (fun a w' => R w w' -> Q a w') w -> wp t m Q w.
Proof. intros Hm. apply (wp_both m (fun _ w' => R w w')), Hm. Qed.

Create HintDb services.
#[export] Hint Unfold update emit write_bytes printk_s indeterminate
  wake_up_interruptible live_pd live_qp live_cq cm_id set_cm_id cm_device pd_device
  pd_local_dma_lkey ib_alloc_pd ib_dealloc_pd ib_create_cq ib_destroy_cq ib_req_notify_cq
  rdma_create_qp ib_destroy_qp ib_dma_map_single dma_unmap_single rdma_destroy_id
  rdma_resolve_route rdma_connect rdma_disconnect : services.

Create HintDb within.
#[export] Hint Resolve within_fault within_block : within.
#[export] Hint Extern 1 (within _ (mret _)) => apply within_ret; exact _ : within.
#[export] Hint Extern 1 (within _ (get _)) => apply within_get; exact _ : within.
#[export] Hint Extern 1 (within _ (from_option _ _)) => apply within_from_option; exact _ : within.
#[export] Hint Extern 1 (within _ (load _)) => apply within_load; exact _ : within.
Ltac within_leaf := intros; solve [exact eq_refl | by split].
#[export] Hint Extern 1 (within _ (modify _)) => apply within_modify; within_leaf : within.
#[export] Hint Extern 1 (within _ (call _ _)) => apply within_call; within_leaf : within.
#[export] Hint Extern 1 (within _ (store _ _)) => apply within_store; within_leaf : within.
#[export] Hint Extern 1 (within _ (kfree _)) =>
  apply within_kfree; [exact _|within_leaf..] : within.
#[export] Hint Extern 1 (within _ (kzalloc _)) =>
  apply within_kzalloc; [exact _|within_leaf..] : within.

Ltac solve_within :=
  repeat (autounfold with services; match goal with
  | |- within _ (_ ≫= _) => apply within_bind; [exact _| |intros ?]
  | |- within _ (for_each _ _ _) => apply within_for_each; [exact _|intros ?]
  | |- within _ (for_loop _ _ _) => apply within_for_loop; [exact _|intros ?]
  | |- within _ (if ?b then _ else _) => destruct b
  | |- within _ (let (_, _) := ?x in _) => destruct x
  | |- within _ (match ?x with _ => _ end) => destruct x
  | |- within _ _ => solve [eauto 2 with within]
  end; cbv beta).
