(* ===== verification/ModEnv.v ===== *)
(** * ModEnv: the kernel's services to a module

    What both modules of the repository use beside the services of [Kernel]:
    the reference count of the module, allocation without zeroing, the copy
    from user space, [in4_pton] and the creation of a [/proc] entry. *)
From S2P Require Import Prelude Types Kernel.

(** The answers of these services: [in4_pton] (the bytes of the address, when
    the text is one), the module's reference count, the copy from user space
    (the bytes, or a failure), and the creation of the [/proc] entry. *)
Class ModuleEnv := {
  in4_pton : list Z -> option (list Z);
  try_module_get : list event -> bool;
  copy_from_user : list event -> addr -> Z -> option (list Z);
  proc_create : list event -> bool }.

(** References to the module that are held, by the history. *)
Fixpoint module_refs (h : list event) : Z :=
  match h with
  | [] => 0
  | EvModule what r :: h =>
      (if String.eqb what "try_module_get" then r
       else if String.eqb what "module_put" then -1 else 0) + module_refs h
  | _ :: h => module_refs h
  end.

Section ModEnv.
Context {K : Kernel} {E : ModuleEnv}.

(** [kmalloc]: as [kzalloc], with whatever the memory held. *)
Definition kmalloc (n : Z) : M addr :=
  v ← indeterminate; kzalloc_size n (le_bytes (Z.to_nat n) v).

Definition module_get : M bool :=
  call try_module_get (fun b => EvModule "try_module_get" (if b then 1 else 0)).
Definition module_put : M unit := emit (EvModule "module_put" 0).
End ModEnv.
