(* ===== verification/Getopt.v ===== *)
(** * Getopt: the option parser of the ping module ([bak/getopt.c])

    [krping_getopt] cuts one option off a writable string, as [mount] options
    are written ("a=b,c,d=e").  A state of the parse is the buffer and the
    caller's pointer into it, which is [NULL] at the end.  The reference is a
    list of fields between commas ([fields], [tokens]), each of which has a
    meaning of its own ([classify]). *)
From S2P Require Import Prelude Types Kernel.

Definition OPT_NOPARAM : Z := 1.
Definition OPT_INT : Z := 2.
Definition OPT_STRING : Z := 4.

(** [struct krping_option]; the entry without a name ends a table. *)
Record krping_option := { op_name : list Z; op_has_arg : Z; op_val : Z }.

Definition ch_comma : Z := 44.
Definition ch_equals : Z := 61.

(** [simple_strtoul(s, &end, 0)]: the number and how many characters of [s] it
    takes. *)
Class Strtoul := simple_strtoul : list Z -> Z * nat.

(** It stops within the string, and reads decimal numbers without a leading 0
    back. *)
Class StrtoulLaws (S : Strtoul) := {
  strtoul_end s : (snd (simple_strtoul s) <= length s)%nat;
  strtoul_decimal n : 0 <= n < 2 ^ 64 ->
    simple_strtoul (decimal n) = (n, length (decimal n)) }.

Record opt_state := { os_buf : list Z; os_options : option nat }.
(** The return value and what is stored through [optopt], [optarg] and
    [value]; [None] when nothing is. *)
Record opt_result := {
  or_ret : Z; or_optopt : option nat; or_optarg : option (option nat);
  or_value : option Z }.

(** The string at an offset; without a terminator it runs out of the buffer. *)
Definition str_at (buf : list Z) (i : nat) : option (list Z) := c_chars (drop i buf).

(** [strsep(options, ",")] *)
Definition strsep (st : opt_state) : option (option nat * opt_state) :=
  match os_options st with
  | None => Some (None, st)
  | Some i =>
      s ← str_at (os_buf st) i;
      Some (Some i, match index_of ch_comma s with
                    | Some k => {| os_buf := <[(i + k)%nat := 0]> (os_buf st);
                                   os_options := Some (i + k + 1)%nat |}
                    | None => {| os_buf := os_buf st; os_options := None |}
                    end)
  end.

Section Getopt.
Context {S : Strtoul}.

(** [do ... while ( *token == 0)].  A round that continues moves the pointer, so
    the length of the buffer is fuel enough. *)
Fixpoint next_token (fuel : nat) (st : opt_state) : option (option nat * opt_state) :=
  match fuel with
  | O => None
  | Datatypes.S fuel =>
      '(token, st) ← strsep st;
      match token with
      | None => Some (None, st)
      | Some i =>
          b ← os_buf st !! i;
          if b =? 0 then next_token fuel st else Some (Some i, st)
      end
  end.

(** The entry whose name is the token: the result and the number stored.  [val]
    is the argument. *)
Definition match_opt (o : krping_option) (val : option (list Z)) : option (Z * option Z) :=
  match val with
  | None =>
      if negb (Z.land (op_has_arg o) OPT_NOPARAM =? 0) then Some (op_val o, None)
      else Some (- EINVAL, None)
  | Some val =>
      if negb (Z.land (op_has_arg o) OPT_INT =? 0) then
        let (value, v) := simple_strtoul val in
        b ← (val ++ [0]) !! v;
        if b =? 0 then Some (op_val o, Some value) else Some (- EDOM, Some value)
      else if negb (Z.land (op_has_arg o) OPT_STRING =? 0) then Some (op_val o, None)
      else Some (- EINVAL, None)
  end.

(** [for (; opts->name; opts++)] *)
Fixpoint scan_opts (opts : list krping_option) (token : list Z) (val : option (list Z))
    : option (Z * option Z) :=
  match opts with
  | [] => Some (- EOPNOTSUPP, None)
  | o :: opts =>
      if bool_decide (op_name o = token) then match_opt o val else scan_opts opts token val
  end.

Definition krping_getopt (opts : list krping_option) (st : opt_state)
    : option (opt_result * opt_state) :=
  '(token, st) ← next_token (Datatypes.S (length (os_buf st))) st;
  match token with
  | None => Some ({| or_ret := 0; or_optopt := None; or_optarg := None; or_value := None |}, st)
  | Some i =>
      t ← str_at (os_buf st) i;
      let '(val, buf) := match index_of ch_equals t with
                         | Some k => (Some (i + k + 1)%nat, <[(i + k)%nat := 0]> (os_buf st))
                         | None => (None, os_buf st)
                         end in
      name ← str_at buf i;
      arg ← match val with
            | Some v => a ← str_at buf v; Some (Some a)
            | None => Some None
            end;
      '(ret, value) ← scan_opts opts name arg;
      Some ({| or_ret := ret; or_optopt := Some i; or_optarg := Some val; or_value := value |},
            {| os_buf := buf; os_options := os_options st |})
  end.
End Getopt.

(** ** Reference *)

(** The fields between commas: always at least one. *)
Fixpoint fields (s : list Z) : list (list Z) :=
  match s with
  | [] => [[]]
  | b :: s =>
      if b =? ch_comma then [] :: fields s
      else match fields s with
           | [] => [[b]]
           | f :: fs => (b :: f) :: fs
           end
  end.

(** Each field with its offset, the first one being at [off]. *)
Fixpoint at_offsets (off : nat) (fs : list (list Z)) : list (nat * list Z) :=
  match fs with
  | [] => []
  | f :: fs => (off, f) :: at_offsets (off + length f + 1) fs
  end.

Definition nonempty (t : nat * list Z) : Prop := snd t <> [].
#[export] Instance nonempty_dec t : Decision (nonempty t).
Proof. unfold nonempty. apply _. Defined.
Definition tokens (off : nat) (s : list Z) : list (nat * list Z) :=
  filter nonempty (at_offsets off (fields s)).

(** The name and the argument of a token. *)
Definition cut (t : list Z) : list Z * option (list Z) :=
  match index_of ch_equals t with
  | Some k => (take k t, Some (drop (k + 1) t))
  | None => (t, None)
  end.

(** What the table says of a name: the first entry that has it. *)
Definition find_opt (opts : list krping_option) (name : list Z) : option krping_option :=
  head (filter (fun o => op_name o = name) opts).

(** An argument that is a number and nothing else. *)
Definition all_number `{Strtoul} (a : list Z) : Prop := snd (simple_strtoul a) = length a.
#[export] Instance all_number_dec `{Strtoul} a : Decision (all_number a).
Proof. unfold all_number. apply _. Defined.

(** What the parser reports of a token, with the argument as a string.  An
    entry says by bits 0, 1 and 2 of [op_has_arg] whether it can do without an
    argument, takes a number, or takes a text; where it takes both, a number. *)
Record option_event := { oe_ret : Z; oe_arg : option (nat * list Z); oe_value : option Z }.

Definition meaning `{Strtoul} (opts : list krping_option) (name : list Z)
    (arg : option (list Z)) : Z * option Z :=
  match find_opt opts name, arg with
  | None, _ => (- EOPNOTSUPP, None)
  | Some o, None => (if Z.testbit (op_has_arg o) 0 then op_val o else - EINVAL, None)
  | Some o, Some a =>
      if Z.testbit (op_has_arg o) 1
      then (if decide (all_number a) then op_val o else - EDOM, Some (fst (simple_strtoul a)))
      else (if Z.testbit (op_has_arg o) 2 then op_val o else - EINVAL, None)
  end.

Definition classify `{Strtoul} (opts : list krping_option) (t : nat * list Z) : option_event :=
  let (name, arg) := cut (snd t) in
  {| oe_ret := fst (meaning opts name arg); oe_value := snd (meaning opts name arg);
     oe_arg := (fun a => ((fst t + length name + 1)%nat, a)) <$> arg |}.

(** The table search, against the meaning of an option. *)
Lemma land_bit x n : 0 <= n -> negb (Z.land x (2 ^ n) =? 0) = Z.testbit x n.
Proof.
  intros Hn. destruct (Z.testbit x n) eqn:Hb.
  - apply negb_true_iff, Z.eqb_neq. intros Hz. apply (f_equal (fun y => Z.testbit y n)) in Hz.
    by rewrite Z.land_spec, Hb, Z.pow2_bits_true, Z.bits_0 in Hz by done.
  - apply negb_false_iff, Z.eqb_eq, Z.bits_inj'. intros m Hm.
    rewrite Z.land_spec, Z.pow2_bits_eqb, Z.bits_0 by done.
    destruct (Z.eqb_spec n m) as [<-|]; [by rewrite Hb|apply andb_false_r].
Qed.

Section Meaning.
Context {S : Strtoul} {SL : StrtoulLaws S}.

(** [strtoul] has stopped at the terminator or before. *)
Lemma number_end a :
  Forall (fun b => b <> 0) a ->
  exists b, (a ++ [0]) !! snd (simple_strtoul a) = Some b /\ (b =? 0) = bool_decide (all_number a).
Proof.
  intros Ha. pose proof (strtoul_end a) as He. destruct (decide (all_number a)) as [Hl|Hl].
  - exists 0. rewrite bool_decide_eq_true_2 by done. unfold all_number in Hl.
    by rewrite Hl, list_lookup_middle by done.
  - unfold all_number in Hl. destruct (lookup_lt_is_Some_2 a (snd (simple_strtoul a))) as [b Hb]; [lia|].
    exists b. rewrite lookup_app_l by lia. rewrite (bool_decide_eq_false_2 (all_number a)) by exact Hl.
    split; [done|]. apply Z.eqb_neq. rewrite Forall_lookup in Ha. by apply (Ha _ _ Hb).
Qed.

Lemma match_opt_meaning o opts name arg :
  (forall a, arg = Some a -> Forall (fun b => b <> 0) a) -> find_opt opts name = Some o ->
  match_opt o arg = Some (meaning opts name arg).
Proof.
  intros Ha Ho. unfold match_opt, meaning. rewrite Ho.
  change OPT_NOPARAM with (2 ^ 0). change OPT_INT with (2 ^ 1). change OPT_STRING with (2 ^ 2).
  rewrite !land_bit by done. destruct arg as [a|]; [|by destruct (Z.testbit _ _)].
  destruct (Z.testbit _ 1); [|by destruct (Z.testbit _ _)].
  destruct (number_end a (Ha a eq_refl)) as (b & Hb & Hz).
  destruct (simple_strtoul a) as [v k] eqn:Hv. cbn [fst snd] in *. rewrite Hb. cbn. rewrite Hz.
  by case_bool_decide; case_decide.
Qed.

Lemma scan_opts_meaning opts name arg :
  (forall a, arg = Some a -> Forall (fun b => b <> 0) a) ->
  scan_opts opts name arg = Some (meaning opts name arg).
Proof.
  intros Ha. induction opts as [|o opts IH]; [done|]. cbn [scan_opts].
  assert (Hf : find_opt (o :: opts) name
    = if bool_decide (op_name o = name) then Some o else find_opt opts name)
    by (unfold find_opt; rewrite filter_cons; by case_decide; case_bool_decide).
  case_bool_decide; [by apply match_opt_meaning|]. rewrite IH. unfold meaning. by rewrite Hf.
Qed.
End Meaning.

(** ** Lemmas: fields and tokens *)

Lemma fields_nonnil s : fields s <> [].
Proof. destruct s as [|b s]; [done|]. cbn. destruct (b =? ch_comma); [done|].
  by destruct (fields s). Qed.

Lemma fields_no_comma s : Forall (fun b => b <> ch_comma) s -> fields s = [s].
Proof.
  induction 1 as [|b s Hb _ IH]; [done|]. cbn. by rewrite (proj2 (Z.eqb_neq _ _)), IH.
Qed.

Lemma fields_comma f s :
  Forall (fun b => b <> ch_comma) f -> fields (f ++ ch_comma :: s) = f :: fields s.
Proof.
  induction 1 as [|b f Hb _ IH]; [done|]. cbn [app fields].
  by rewrite (proj2 (Z.eqb_neq b ch_comma)), IH.
Qed.

Lemma tokens_no_comma off s :
  Forall (fun b => b <> ch_comma) s ->
  tokens off s = if bool_decide (s = []) then [] else [(off, s)].
Proof.
  intros Hs. unfold tokens. rewrite fields_no_comma by done. cbn [at_offsets].
  rewrite filter_cons, filter_nil. by case_decide; case_bool_decide.
Qed.

Lemma tokens_comma off f s :
  Forall (fun b => b <> ch_comma) f ->
  tokens off (f ++ ch_comma :: s) =
    (if bool_decide (f = []) then [] else [(off, f)]) ++ tokens (off + length f + 1) s.
Proof.
  intros Hf. unfold tokens. rewrite fields_comma by done. cbn [at_offsets].
  rewrite filter_cons. by case_decide; case_bool_decide.
Qed.

(** ** Lemmas: strings in the buffer *)

(** The string at [i] is [s]: it lies in the buffer, with its terminator. *)
Lemma str_at_Some buf i s :
  str_at buf i = Some s <->
  Forall (fun b => b <> 0) s /\ exists pre post, buf = pre ++ s ++ 0 :: post /\ length pre = i.
Proof.
  unfold str_at. rewrite c_chars_Some. split; intros [Hs He]; (split; [done|]).
  - destruct He as [r Hr]. exists (take i buf), r. rewrite <- Hr, take_drop.
    split; [done|]. apply length_take_le.
    destruct (decide (i <= length buf)%nat); [done|].
    rewrite drop_ge in Hr by lia. by destruct s.
  - destruct He as (pre & post & -> & <-). exists post. by rewrite drop_app_length.
Qed.

(** Overwriting a character of a string ends the string there, and leaves what
    follows as a string of its own. *)
Lemma str_at_cut buf i s1 c s2 :
  str_at buf i = Some (s1 ++ c :: s2) ->
  str_at (<[(i + length s1)%nat := 0]> buf) i = Some s1
  /\ str_at (<[(i + length s1)%nat := 0]> buf) (i + length s1 + 1) = Some s2.
Proof.
  intros (Hs & pre & post & -> & <-)%str_at_Some.
  apply Forall_app in Hs as [Hs1 [_ Hs2]%list.Forall_cons_1].
  replace (<[(length pre + length s1)%nat := 0]> (pre ++ (s1 ++ c :: s2) ++ 0 :: post))
    with (pre ++ s1 ++ 0 :: s2 ++ 0 :: post).
  - split; apply str_at_Some; (split; [done|]); [by exists pre, (s2 ++ 0 :: post)|].
    exists (pre ++ s1 ++ [0]), post. rewrite <- !app_assoc, !length_app. cbn.
    split; [done|lia].
  - rewrite insert_app_r. f_equal. rewrite <- app_assoc.
    replace (length s1) with (length s1 + 0)%nat by lia. by rewrite insert_app_r.
Qed.

(** A change before a string leaves it. *)
Lemma str_at_insert_lt buf i j b : (j < i)%nat -> str_at (<[j := b]> buf) i = str_at buf i.
Proof. intros Hj. unfold str_at. by rewrite drop_insert_lt. Qed.

Lemma str_at_bound buf i s : str_at buf i = Some s -> (i + length s < length buf)%nat.
Proof.
  intros (_ & pre & post & -> & <-)%str_at_Some. rewrite !length_app. cbn. lia.
Qed.

Lemma str_at_head buf i s : str_at buf i = Some s -> buf !! i = Some (hd 0 s).
Proof.
  intros (_ & pre & post & -> & <-)%str_at_Some.
  rewrite lookup_app_r, Nat.sub_diag by lia. by destruct s.
Qed.

(** ** The parser against the reference *)

(** The options still to come, when the string at the pointer is complete. *)
Definition pending (st : opt_state) : list (nat * list Z) :=
  match os_options st with
  | None => []
  | Some i => match str_at (os_buf st) i with Some s => tokens i s | None => [] end
  end.

Definition opt_ok (st : opt_state) : Prop :=
  match os_options st with None => True | Some i => is_Some (str_at (os_buf st) i) end.

(** [st'] is left when the field [f] at [i] has been cut off. *)
Record cut_off (st : opt_state) (i : nat) (f : list Z) (st' : opt_state) : Prop := {
  co_ok : opt_ok st';
  co_len : length (os_buf st') = length (os_buf st);
  co_str : str_at (os_buf st') i = Some f;
  co_next : forall j, os_options st' = Some j -> (i + length f < j)%nat }.

Lemma strsep_spec st i s :
  os_options st = Some i -> str_at (os_buf st) i = Some s ->
  exists f st', strsep st = Some (Some i, st') /\ cut_off st i f st'
    /\ tokens i s = (if bool_decide (f = []) then [] else [(i, f)]) ++ pending st'.
Proof.
  intros Hi Hs. unfold strsep. rewrite Hi. cbn. rewrite Hs. cbn.
  destruct (index_of ch_comma s) as [k|] eqn:Ek.
  - apply index_of_Some in Ek as [Hk Hf].
    pose proof (take_drop_middle _ _ _ Hk) as Hsp. rewrite <- Hsp in Hs.
    assert (Hlen : length (take k s) = k)
      by (apply length_take_le; apply lookup_lt_Some in Hk; lia).
    destruct (str_at_cut _ _ _ _ _ Hs) as [H1 H2]. rewrite Hlen in H1, H2.
    exists (take k s). eexists. split; [done|]. split; [split|]; cbn.
    + by rewrite H2.
    + apply length_insert.
    + done.
    + intros j [= <-]. rewrite Hlen. lia.
    + rewrite <- Hsp at 1. rewrite tokens_comma by done. unfold pending. cbn.
      by rewrite H2, Hlen.
  - apply index_of_None in Ek. exists s. eexists. split; [done|].
    split; [by split|]. rewrite app_nil_r. by apply tokens_no_comma.
Qed.

(** The distance of the pointer from the end of the buffer. *)
Definition left_over (st : opt_state) : nat :=
  match os_options st with None => 0 | Some i => length (os_buf st) - i end.

Lemma next_token_spec fuel st :
  opt_ok st -> (left_over st < fuel)%nat ->
  match pending st with
  | [] => exists st', next_token fuel st = Some (None, st') /\ os_options st' = None
            /\ length (os_buf st') = length (os_buf st)
  | (i, f) :: rest => exists st', next_token fuel st = Some (Some i, st')
            /\ cut_off st i f st' /\ pending st' = rest /\ f <> []
  end.
Proof.
  revert st. induction fuel as [|fuel IH]; intros st Hok Hfuel; [lia|]. cbn [next_token].
  destruct (os_options st) as [i|] eqn:Ei.
  2: { unfold pending, strsep. rewrite Ei. cbn. by exists st. }
  unfold opt_ok in Hok. rewrite Ei in Hok. destruct Hok as [s Hs].
  destruct (strsep_spec _ _ _ Ei Hs) as (f & st1 & -> & Hcut & Htok).
  unfold pending at 1. rewrite Ei, Hs, Htok. cbn.
  rewrite (str_at_head _ _ _ (co_str _ _ _ _ Hcut)). cbn.
  destruct f as [|b f]; cbn [hd].
  - change (0 =? 0) with true. cbv iota. rewrite bool_decide_eq_true_2 by done. cbn [app].
    assert (Hlt : (left_over st1 < fuel)%nat).
    { apply str_at_bound in Hs. destruct Hcut as [Hok1 Hlen _ Hnext].
      revert Hfuel Hok1. unfold left_over, opt_ok.
      rewrite Ei. destruct (os_options st1) as [j|]; [|lia]. intros ? [s1 Hs1].
      specialize (Hnext j eq_refl). cbn in Hnext. lia. }
    specialize (IH st1 (co_ok _ _ _ _ Hcut) Hlt).
    destruct (pending st1) as [|[j f] rest].
    + destruct IH as (st2 & -> & Hn2 & Hl2). exists st2.
      split; [done|]. split; [done|]. rewrite Hl2. apply Hcut.
    + destruct IH as (st2 & -> & [Ho2 Hl2 Hs2 Hn2] & ? & ?). exists st2. split; [done|].
      split; [|done]. split; [done| |done|done]. rewrite Hl2. apply Hcut.
  - pose proof (proj1 (str_at_Some _ _ _) (co_str _ _ _ _ Hcut)) as [[Hb _]%list.Forall_cons_1 _].
    rewrite (proj2 (Z.eqb_neq b 0)) by done. rewrite bool_decide_eq_false_2 by done.
    cbn [app]. by exists st1.
Qed.

(** What [krping_getopt] stores and returns for a token, against the reference:
    the argument is a string of the buffer. *)
Record reports (t : nat * list Z) (e : option_event) (r : opt_result) (st : opt_state)
    : Prop := {
  rp_ret : or_ret r = oe_ret e;
  rp_val : or_value r = oe_value e;
  rp_optopt : or_optopt r = Some (fst t);
  rp_optarg : or_optarg r = Some (fst <$> oe_arg e);
  rp_arg : forall off a, oe_arg e = Some (off, a) -> str_at (os_buf st) off = Some a }.

Section Getopt_properties.
Context {S : Strtoul} {SL : StrtoulLaws S}.

(** The table search sees the token split at its first [=]. *)
Lemma getopt_token i f st :
  str_at (os_buf st) i = Some f -> opt_ok st ->
  (forall j, os_options st = Some j -> (i + length f < j)%nat) ->
  exists val buf, (match index_of ch_equals f with
      | Some k => (Some (i + k + 1)%nat, <[(i + k)%nat := 0]> (os_buf st))
      | None => (None, os_buf st)
      end) = (val, buf)
  /\ length buf = length (os_buf st)
  /\ str_at buf i = Some (fst (cut f))
  /\ val = (fun _ => (i + length (fst (cut f)) + 1)%nat) <$> snd (cut f)
  /\ (forall v a, val = Some v -> snd (cut f) = Some a -> str_at buf v = Some a)
  /\ opt_ok {| os_buf := buf; os_options := os_options st |}
  /\ pending {| os_buf := buf; os_options := os_options st |} = pending st.
Proof.
  intros Hf Hok Hnext. unfold cut. destruct (index_of ch_equals f) as [k|] eqn:Ek.
  - apply index_of_Some in Ek as [Hk _].
    pose proof (take_drop_middle _ _ _ Hk) as Hsp.
    pose proof (lookup_lt_Some _ _ _ Hk) as Hlt.
    assert (Hlen : length (take k f) = k) by (apply length_take_le; lia).
    pose proof Hf as Hf'. rewrite <- Hsp in Hf'.
    destruct (str_at_cut _ _ _ _ _ Hf') as [H1 H2]. rewrite Hlen in H1, H2.
    replace (Datatypes.S k) with (k + 1)%nat in H2 by lia.
    do 2 eexists. split; [done|]. cbn [fst snd]. rewrite Hlen, length_insert.
    split; [done|]. split; [done|]. split; [done|].
    split; [by intros v a [= <-] [= <-]|].
    unfold opt_ok, pending in *. cbn. destruct (os_options st) as [j|]; [|done].
    specialize (Hnext j eq_refl). by rewrite !str_at_insert_lt by lia.
  - do 2 eexists. split; [done|]. cbn. done.
Qed.

Lemma left_over_lt st : (left_over st < Datatypes.S (length (os_buf st)))%nat.
Proof. unfold left_over. destruct (os_options st); lia. Qed.

(** With no field left. *)
Lemma getopt_end opts st :
  opt_ok st -> pending st = [] ->
  exists st', krping_getopt opts st =
      Some ({| or_ret := 0; or_optopt := None; or_optarg := None; or_value := None |}, st')
    /\ os_options st' = None /\ length (os_buf st') = length (os_buf st).
Proof.
  intros Hok Hp. unfold krping_getopt.
  pose proof (next_token_spec _ _ Hok (left_over_lt st)) as Ht. rewrite Hp in Ht.
  destruct Ht as (st' & -> & Hn & Hl). cbn. by exists st'.
Qed.

(** With a field left. *)
Lemma getopt_field opts st t rest :
  opt_ok st -> pending st = t :: rest ->
  exists r st', krping_getopt opts st = Some (r, st')
    /\ reports t (classify opts t) r st' /\ opt_ok st' /\ pending st' = rest
    /\ length (os_buf st') = length (os_buf st).
Proof.
  intros Hok Hp. unfold krping_getopt.
  pose proof (next_token_spec _ _ Hok (left_over_lt st)) as Ht. rewrite Hp in Ht.
  destruct t as [i f].
  destruct Ht as (st1 & -> & [Hok1 Hl1 Hs1 Hn1] & Hp1 & Hne). cbn.
  destruct (getopt_token i f st1 Hs1 Hok1 Hn1)
    as (val & buf & Hvb & Hlen & Hname & Hval & Harg & Hok2 & Hp2).
  rewrite Hs1. cbn. rewrite Hvb, Hname. unfold classify. cbn [fst snd].
  destruct (cut f) as [name arg]. cbn [fst snd] in *. subst val.
  assert (Ha : (match (fun _ => (i + length name + 1)%nat) <$> arg with
                | Some v => a ← str_at buf v; Some (Some a)
                | None => Some None
                end) = Some arg).
  { destruct arg as [a|]; [|done]. specialize (Harg _ _ eq_refl eq_refl).
    cbn -[str_at]. by rewrite Harg. }
  assert (Hnz : forall a, arg = Some a -> Forall (fun b => b <> 0) a).
  { intros a ->. specialize (Harg _ _ eq_refl eq_refl). by apply str_at_Some in Harg as [? _]. }
  cbn. rewrite Ha. cbn. rewrite scan_opts_meaning by done.
  destruct (meaning opts name arg) as [ret value]. cbn.
  do 2 eexists. split; [done|]. split; [split; cbn; try done|].
  - by destruct arg.
  - intros off a. destruct arg as [a'|]; [|done]. cbn. intros [= <- <-]. by apply Harg.
  - split; [done|]. split; [by rewrite Hp2|]. by rewrite <- Hl1.
Qed.

(** C17. [krping_getopt] on a terminated string always returns, and never reads
    or writes outside the string: with a non-empty field left it reports the
    first one, cut at its first [=], as the reference says (the value of the
    first entry of that name; [-EINVAL] for an argument that is missing or not
    wanted, [-EDOM] for one that is no number, [-EOPNOTSUPP] for an unknown
    name) and leaves exactly the later fields; with none left it returns 0. *)
Theorem krping_getopt_spec opts st :
  opt_ok st ->
  exists r st', krping_getopt opts st = Some (r, st')
    /\ length (os_buf st') = length (os_buf st) /\ opt_ok st'
    /\ match pending st with
       | [] => r = {| or_ret := 0; or_optopt := None; or_optarg := None; or_value := None |}
           /\ os_options st' = None
       | t :: rest => reports t (classify opts t) r st' /\ pending st' = rest
       end.
Proof.
  intros Hok. destruct (pending st) as [|t rest] eqn:Hp.
  - destruct (getopt_end opts st Hok Hp) as (st' & Hg & Hn & Hl). eexists _, st'.
    split; [exact Hg|]. split; [done|]. split; [|done]. unfold opt_ok. by rewrite Hn.
  - destruct (getopt_field opts st t rest Hok Hp) as (r & st' & Hg & Hr & Hok' & Hp' & Hl).
    by exists r, st'.
Qed.
End Getopt_properties.
