(* ===== verification/KrpingOpts.v ===== *)
(** * KrpingOpts: the options of a ping ([bak/krping.c])

    The option table [krping_opts] and the loop of [krping_doit] that reads a
    command's options into a control block.  The reference is a fold over the
    tokens of the command ([apply_tokens]). *)
From Stdlib Require Import Ascii.
From S2P Require Import Prelude Types KrpingTypes Kernel Logic ModEnv Getopt.
Import Krping.

Definition opt (name : string) (has_arg : Z) (val : ascii) : krping_option :=
  {| op_name := chars name; op_has_arg := has_arg; op_val := chr val |}.

Definition krping_opts : list krping_option := [
  opt "count" OPT_INT "C";
  opt "size" OPT_INT "S";
  opt "addr" OPT_STRING "a";
  opt "addr6" OPT_STRING "A";
  opt "port" OPT_INT "p";
  opt "verbose" OPT_NOPARAM "v";
  opt "validate" OPT_NOPARAM "V";
  opt "server" OPT_NOPARAM "s";
  opt "client" OPT_NOPARAM "c";
  opt "server_inv" OPT_NOPARAM "I";
  opt "wlat" OPT_NOPARAM "l";
  opt "rlat" OPT_NOPARAM "L";
  opt "bw" OPT_NOPARAM "B";
  opt "duplex" OPT_NOPARAM "d";
  opt "tos" OPT_INT "t";
  opt "txdepth" OPT_INT "T";
  opt "poll" OPT_NOPARAM "P";
  opt "local_dma_lkey" OPT_NOPARAM "Z";
  opt "read_inv" OPT_NOPARAM "R";
  opt "fr" OPT_NOPARAM "f" ].

(** [cb->addr] after [in4_pton(optarg, -1, cb->addr, -1, NULL)]. *)
Definition put_in4 `{ModuleEnv} (arg dst : list Z) : option (list Z) :=
  match in4_pton arg with None => Some dst | Some b => write_at 0 b dst end.

Section KrpingOpts.
Context {K : Kernel} {E : ModuleEnv} {ST : Strtoul}.

(** The string at an offset of the command. *)
Definition cmd_str (cmd : addr) (i : nat) : M (list Z) :=
  buf ← load cmd; from_option OutOfBounds (str_at buf i).

(** The [switch] on an option: the new [ret]. *)
Definition krping_option_case (cmd cba : addr) (op : Z) (optarg : option nat) (optint : Z)
    (ret : Z) : M Z :=
  if op =? chr "a" then
    i ← from_option NullDeref optarg;
    update cba (set_kc_addr_str (cmd, i));;
    s ← cmd_str cmd i;
    cb ← load (T := krping_cb) cba;
    a ← from_option OutOfBounds (put_in4 (s ++ [0]) (kc_addr cb));
    update cba (set_kc_addr a);;
    update cba (set_kc_addr_type AF_INET);;
    mret ret
  else if op =? chr "p" then
    update cba (set_kc_port (htons k_big_endian optint));; mret ret
  else if op =? chr "c" then
    update cba (set_kc_server 0);; mret ret
  else if op =? chr "S" then
    update cba (set_kc_size (i32 optint));;
    if (i32 optint <? 1) || (RPING_BUFSIZE <? i32 optint) then mret EINVAL else mret ret
  else if op =? chr "C" then
    update cba (set_kc_count (i32 optint));;
    if i32 optint <? 0 then mret EINVAL else mret ret
  else if op =? chr "v" then
    update cba (fun cb => set_kc_verbose (i32 (kc_verbose cb + 1)) cb);; mret ret
  else
    (match optarg with None => mret tt | Some i => cmd_str cmd i;; mret tt end);;
    mret (- EINVAL).

(** [while ((op = krping_getopt(...)) != 0)].  A round that continues has moved
    [options], so the length of the command is fuel enough. *)
Fixpoint krping_options (fuel : nat) (cmd cba : addr) (options : option nat) (optint ret : Z)
    : M Z :=
  match fuel with
  | O => block_here
  | S fuel =>
      buf ← load cmd;
      '(r, st) ← from_option OutOfBounds
        (krping_getopt krping_opts {| os_buf := buf; os_options := options |});
      store cmd (os_buf st);;
      if or_ret r =? 0 then mret ret else
      let optint := default optint (or_value r) in
      ret ← krping_option_case cmd cba (or_ret r) (default None (or_optarg r)) optint ret;
      krping_options fuel cmd cba (os_options st) optint ret
  end.

(** The control block before the options. *)
Definition krping_new_cb (cba : addr) : M unit :=
  update cba (set_kc_server (-1));;
  update cba (set_kc_state IDLE);;
  update cba (set_kc_size 64);;
  update cba (set_kc_txdepth RPING_SQ_DEPTH).
End KrpingOpts.

(** ** Reference *)

(** What the loop carries: the control block, [optint] and [ret]. *)
Record opt_acc := { oa_cb : krping_cb; oa_optint : Z; oa_ret : Z }.

(** What the options leave alone. *)
Definition opt_rest (cb : krping_cb) : krping_cb :=
  set_kc_addr_str (NULL, 0%nat) (set_kc_addr [] (set_kc_addr_type 0 (set_kc_port 0
    (set_kc_server 0 (set_kc_size 0 (set_kc_count 0 (set_kc_verbose 0 cb))))))).

Section Reference.
Context {K : Kernel} {E : ModuleEnv} {ST : Strtoul}.

(** The effect of an option. *)
Definition apply_event (cmd : addr) (e : option_event) (x : opt_acc) : option opt_acc :=
  let n := default (oa_optint x) (oe_value e) in
  let '(Build_opt_acc cb _ ret) := x in
  let upd cb ret := Some {| oa_cb := cb; oa_optint := n; oa_ret := ret |} in
  let op := oe_ret e in
  if op =? chr "a" then
    '(i, s) ← oe_arg e;
    a ← put_in4 (s ++ [0]) (kc_addr cb);
    upd (set_kc_addr_type AF_INET (set_kc_addr a (set_kc_addr_str (cmd, i) cb))) ret
  else if op =? chr "p" then upd (set_kc_port (htons k_big_endian n) cb) ret
  else if op =? chr "c" then upd (set_kc_server 0 cb) ret
  else if op =? chr "S" then
    upd (set_kc_size (i32 n) cb)
      (if (i32 n <? 1) || (RPING_BUFSIZE <? i32 n) then EINVAL else ret)
  else if op =? chr "C" then
    upd (set_kc_count (i32 n) cb) (if i32 n <? 0 then EINVAL else ret)
  else if op =? chr "v" then upd (set_kc_verbose (i32 (kc_verbose cb + 1)) cb) ret
  else upd cb (- EINVAL).

Fixpoint apply_tokens (cmd : addr) (ts : list (nat * list Z)) (x : opt_acc)
    : option opt_acc :=
  match ts with
  | [] => Some x
  | t :: ts => x ← apply_event cmd (classify krping_opts t) x; apply_tokens cmd ts x
  end.

(** ** The loop against the reference *)

Lemma krping_option_case_spec t cmd cba buf e r st x x' w (Q : Z -> world -> Prop) :
  cmd <> cba -> heap w !! cmd = Some (BBytes buf) -> heap w !! cba = Some (BKcb (oa_cb x)) ->
  reports t e r st -> buf = os_buf st -> oe_ret e <> 0 ->
  apply_event cmd e x = Some x' ->
  (forall w', w' = upd_heap (insert cba (BKcb (oa_cb x'))) w -> Q (oa_ret x') w') ->
  wp Total (krping_option_case cmd cba (or_ret r) (default None (or_optarg r))
    (default (oa_optint x) (or_value r)) (oa_ret x)) Q w.
Proof.
  intros Hne Hcmd Hcb [R1 R2 R3 R4 R5] -> Hr. unfold apply_event, krping_option_case.
  destruct x as [cb n0 ret]. cbn [oa_cb oa_optint oa_ret] in *. rewrite R1, R2, R4.
  set (n := default n0 (oe_value e)).
  assert (Hstr : forall i a R, oe_arg e = Some (i, a) -> R a w ->
    wp Total (cmd_str cmd i) R w).
  { intros i a R Ha HR. unfold cmd_str. wp_step. wp_step. eapply wp_from_option; [by apply R5|done]. }
  destruct (oe_ret e =? chr "a").
  { destruct (oe_arg e) as [[i s]|] eqn:Ea; [|done]. cbn [mbind option_bind].
    intros Hx HQ. destruct (put_in4 (s ++ [0]) (kc_addr cb)) as [a|] eqn:Ep; [|done].
    injection Hx as <-. wp_step. eapply wp_from_option; [reflexivity|]. do 3 wp_step.
    unfold cmd_str. do 2 wp_step. eapply wp_from_option; [by apply R5|].
    do 3 wp_step. eapply wp_from_option; [exact Ep|]. do 5 wp_step.
    apply HQ. by rewrite !upd_heap_insert_twice. }
  assert (Hid : w = upd_heap (insert cba (BKcb cb)) w)
    by (symmetry; apply upd_heap_id; by apply insert_id).
  destruct (oe_arg e) as [[i a]|] eqn:Ea; cbn [default fmap option_fmap option_map fst];
    repeat case_match; simplify_eq/=; intros Hx HQ; injection Hx as <-;
    try (do 3 wp_step; by apply HQ).
  do 2 wp_step. eapply Hstr; [reflexivity|]. do 2 wp_step. by apply HQ.
Qed.

Lemma apply_event_rest cmd e x x' :
  apply_event cmd e x = Some x' -> opt_rest (oa_cb x') = opt_rest (oa_cb x).
Proof.
  unfold apply_event. destruct x as [cb n ret]. cbn [oa_cb oa_optint].
  destruct (oe_ret e =? chr "a").
  { destruct (oe_arg e) as [[i s]|]; [|done]. cbn [mbind option_bind].
    destruct (put_in4 (s ++ [0]) (kc_addr cb)); [|done]. by intros [= <-]. }
  repeat case_match; by intros [= <-].
Qed.
Lemma apply_tokens_rest cmd ts x x' :
  apply_tokens cmd ts x = Some x' -> opt_rest (oa_cb x') = opt_rest (oa_cb x).
Proof.
  revert x. induction ts as [|t ts IH]; intros x; cbn [apply_tokens]; [by intros [= <-]|].
  destruct (apply_event cmd _ x) as [x1|] eqn:Ha; [|done]. cbn [mbind option_bind].
  intros Hx. rewrite (IH _ Hx). by eapply apply_event_rest.
Qed.

Lemma rest_field {A} (f : krping_cb -> A) cb cb' :
  (forall c, f (opt_rest c) = f c) -> opt_rest cb' = opt_rest cb -> f cb' = f cb.
Proof. intros Hf Hc. by rewrite <- Hf, Hc, Hf. Qed.

Lemma apply_event_optint cmd e x x' :
  apply_event cmd e x = Some x' -> oa_optint x' = default (oa_optint x) (oe_value e).
Proof.
  unfold apply_event. destruct x as [cb n ret]. cbn [oa_optint].
  destruct (oe_ret e =? chr "a").
  { destruct (oe_arg e) as [[i s]|]; [|done]. cbn.
    destruct (put_in4 (s ++ [0]) (kc_addr cb)); [|done]. by intros [= <-]. }
  repeat case_match; by intros [= <-].
Qed.

(** Tokens that are left. *)
Lemma fields_length s : (length (fields s) <= S (length s))%nat.
Proof.
  induction s as [|b s IH]; [done|]. cbn [fields length]. destruct (b =? ch_comma).
  - cbn [length]. lia.
  - destruct (fields s); cbn [length] in *; lia.
Qed.
Lemma at_offsets_length off fs : length (at_offsets off fs) = length fs.
Proof. revert off. induction fs; intros off; cbn; auto. Qed.
Lemma pending_length st : (length (pending st) <= length (os_buf st))%nat.
Proof.
  unfold pending. destruct (os_options st) as [i|]; [|cbn; lia].
  destruct (str_at (os_buf st) i) as [s|] eqn:Hs; [|cbn; lia].
  apply str_at_bound in Hs. unfold tokens. pose proof (fields_length s).
  pose proof (length_filter nonempty (at_offsets i (fields s))).
  rewrite at_offsets_length in *. lia.
Qed.

(** An option is never reported as 0, the end. *)
Lemma find_opt_in opts name o : find_opt opts name = Some o -> o ∈ opts.
Proof.
  unfold find_opt. destruct (filter _ opts) as [|o' l] eqn:Hf; [done|]. intros [= ->].
  assert (Hin : o ∈ filter (fun o => op_name o = name) opts) by (rewrite Hf; left).
  by apply list_elem_of_filter in Hin as [_ ?].
Qed.
Lemma meaning_nonzero opts name arg :
  Forall (fun o => op_val o <> 0) opts -> fst (meaning opts name arg) <> 0.
Proof.
  intros Ho. unfold meaning. destruct (find_opt opts name) as [o|] eqn:Hf; [|done].
  rewrite Forall_forall in Ho. specialize (Ho o). apply find_opt_in, list_elem_of_In in Hf.
  destruct arg; repeat case_match; cbn [fst]; first [by apply Ho|unfold EINVAL, EDOM; lia].
Qed.
Lemma classify_nonzero t : oe_ret (classify krping_opts t) <> 0.
Proof.
  unfold classify. destruct (cut (snd t)) as [name arg]. cbn [oe_ret].
  apply meaning_nonzero. by repeat constructor.
Qed.

Context {SL : StrtoulLaws ST}.

Lemma krping_options_spec fuel cmd cba st x x' w :
  cmd <> cba -> heap w !! cmd = Some (BBytes (os_buf st)) ->
  heap w !! cba = Some (BKcb (oa_cb x)) ->
  opt_ok st -> (length (pending st) < fuel)%nat ->
  apply_tokens cmd (pending st) x = Some x' ->
  wp Total (krping_options fuel cmd cba (os_options st) (oa_optint x) (oa_ret x))
    (fun r w' => r = oa_ret x' /\ exists buf', length buf' = length (os_buf st) /\
       w' = upd_heap (fun h => <[cba := BKcb (oa_cb x')]> (<[cmd := BBytes buf']> h)) w) w.
Proof.
  intros Hne. revert fuel st x w. induction fuel as [|fuel IH]; intros st x w Hcmd Hcb Hok Hf;
    [lia|]. cbn [krping_options]. intros Hx.
  replace {| os_buf := os_buf st; os_options := os_options st |} with st by by destruct st.
  wp_step. wp_step. wp_step.
  replace {| os_buf := os_buf st; os_options := os_options st |} with st by by destruct st.
  destruct (pending st) as [|t ts] eqn:Ep; cbn [apply_tokens length] in *.
  - injection Hx as <-. destruct (getopt_end krping_opts st Hok Ep) as (st' & Hg & _ & Hl).
    eapply wp_from_option; [exact Hg|]. cbn [or_ret]. do 2 wp_step.
    change (0 =? 0) with true. cbv iota. wp_step. split; [done|].
    exists (os_buf st'). split; [done|]. apply upd_heap_ext. symmetry.
    apply insert_id. by rewrite lookup_insert_ne.
  - destruct (getopt_field krping_opts st t ts Hok Ep) as (r & st' & Hg & Hrep & Hok' & Hp' & Hl').
    destruct (apply_event cmd _ x) as [x1|] eqn:Ea; [|done]. cbn [mbind option_bind] in Hx.
    pose proof (classify_nonzero t) as Hnz.
    eapply wp_from_option; [exact Hg|]. cbv beta iota. do 2 wp_step.
    rewrite (rp_ret _ _ _ _ Hrep), (proj2 (Z.eqb_neq _ 0)) by done. wp_step.
    rewrite <- (rp_ret _ _ _ _ Hrep).
    eapply krping_option_case_spec; [done|heap_lookup|heap_lookup|done|done|done|exact Ea|].
    intros w1 ->. rewrite (rp_val _ _ _ _ Hrep), <- (apply_event_optint _ _ _ _ Ea).
    eapply wp_mono; [eapply (IH st' x1); [heap_lookup|heap_lookup|done|rewrite Hp'; lia|by rewrite Hp']|].
    intros ret w2 (-> & buf2 & Hb2 & ->). split; [done|]. exists buf2. split; [congruence|].
    rewrite !upd_heap_compose. apply upd_heap_ext. cbn. heap_ext.
Qed.

(** ** Types *)

(** Every member is of its C type, and [server] is unset or 0. *)
Record kcb_typed (cb : krping_cb) : Prop := {
  kt_addr : length (kc_addr cb) = 16%nat;
  kt_port : in_u 16 (kc_port cb);
  kt_size : in_i 32 (kc_size cb);
  kt_count : in_i 32 (kc_count cb);
  kt_verbose : in_i 32 (kc_verbose cb);
  kt_server : kc_server cb = -1 \/ kc_server cb = 0 }.

(** The limits that the options check. *)
Definition kcb_limits (cb : krping_cb) : Prop :=
  1 <= kc_size cb <= RPING_BUFSIZE /\ 0 <= kc_count cb.

Record acc_typed (x : opt_acc) : Prop := {
  at_typed : kcb_typed (oa_cb x);
  at_ret : oa_ret x = 0 \/ oa_ret x = EINVAL \/ oa_ret x = - EINVAL;
  at_limits : oa_ret x = 0 -> kcb_limits (oa_cb x) }.

Context (in4_length : forall s b, in4_pton s = Some b -> length b = 4%nat).

Lemma put_in4_total s dst :
  length dst = 16%nat -> exists a, put_in4 s dst = Some a /\ length a = 16%nat.
Proof.
  intros Hd. unfold put_in4. destruct (in4_pton s) as [b|] eqn:Eb; [|by exists dst].
  apply in4_length in Eb. eexists. split; [apply write_at_Some; lia|].
  rewrite !length_app, length_take, length_drop, Eb, Hd. lia.
Qed.

(** Only [addr] is reported as such, and with its argument. *)
Lemma meaning_no_arg opts c name :
  0 < c -> Forall (fun o => Z.testbit (op_has_arg o) 0 = true -> op_val o <> c) opts ->
  fst (meaning opts name None) <> c.
Proof.
  intros Hc Ho. unfold meaning. rewrite Forall_forall in Ho.
  destruct (find_opt opts name) as [o|] eqn:Hf; cbn [fst]; [|unfold EOPNOTSUPP; lia].
  apply find_opt_in, list_elem_of_In in Hf. destruct (Z.testbit (op_has_arg o) 0) eqn:Hb; [by apply Ho|].
  unfold EINVAL. lia.
Qed.
Lemma classify_addr t :
  oe_ret (classify krping_opts t) = chr "a" -> is_Some (oe_arg (classify krping_opts t)).
Proof.
  unfold classify. destruct (cut (snd t)) as [name [arg|]]; cbn [oe_ret oe_arg]; [done|].
  intros Ha. exfalso. revert Ha. apply meaning_no_arg; [done|]. by repeat constructor.
Qed.

Lemma htons_range be x : in_u 16 (htons be x).
Proof. destruct be; [by apply uint_range|apply (bswap_range 2)]. Qed.

Lemma apply_event_typed cmd t x :
  acc_typed x -> exists x', apply_event cmd (classify krping_opts t) x = Some x' /\ acc_typed x'.
Proof.
  intros [[H1 H2 H3 H4 H5 H6] Hr Hl]. pose proof (classify_addr t) as Haddr.
  set (e := classify krping_opts t) in *. clearbody e.
  destruct x as [cb n0 ret]. cbn [oa_cb oa_ret] in *. unfold apply_event. cbn [oa_optint].
  set (n := default n0 (oe_value e)).
  destruct (Z.eqb_spec (oe_ret e) (chr "a")) as [Ea|_].
  { destruct (Haddr Ea) as [[i s] ->]. cbn [mbind option_bind].
    destruct (put_in4_total (s ++ [0]) _ H1) as (a & -> & Ha). cbn [mbind option_bind].
    eexists. split; [done|]. by split; [split|..]. }
  repeat case_match; (eexists; split; [done|]); (split; [split|..]); cbn [oa_cb oa_ret]; auto;
    try exact (htons_range _ _); try exact (sint_range 32 _ eq_refl); try done.
  - intros Hz. destruct (Hl Hz) as [_ Hlc]. unfold kcb_limits. kcb_simpl. split; [|done].
    match goal with H : _ || _ = false |- _ => apply orb_false_iff in H as [H%Z.ltb_ge ?%Z.ltb_ge] end.
    lia.
  - intros Hz. destruct (Hl Hz) as [Hls _]. unfold kcb_limits. kcb_simpl. split; [done|].
    by apply Z.ltb_ge.
Qed.

Lemma apply_tokens_typed cmd ts x :
  acc_typed x -> exists x', apply_tokens cmd ts x = Some x' /\ acc_typed x'.
Proof.
  revert x. induction ts as [|t ts IH]; intros x Hx; cbn [apply_tokens]; [by exists x|].
  destruct (apply_event_typed cmd t x Hx) as (x1 & -> & Hx1). by apply IH.
Qed.

(** The state before the first option. *)
Definition options_start (buf : list Z) : opt_state :=
  {| os_buf := buf; os_options := Some 0%nat |}.

Lemma options_run cmd cba buf s x w :
  cmd <> cba -> heap w !! cmd = Some (BBytes buf) -> heap w !! cba = Some (BKcb (oa_cb x)) ->
  str_at buf 0 = Some s -> acc_typed x ->
  exists x' buf',
    krping_options (S (length buf)) cmd cba (Some 0%nat) (oa_optint x) (oa_ret x) w =
      Ok (oa_ret x') (upd_heap (fun h => <[cba := BKcb (oa_cb x')]> (<[cmd := BBytes buf']> h)) w)
    /\ apply_tokens cmd (tokens 0 s) x = Some x' /\ acc_typed x' /\ length buf' = length buf.
Proof.
  intros Hne Hcmd Hcb Hs Hx. destruct (apply_tokens_typed cmd (tokens 0 s) x Hx) as (x' & Ha & Hx').
  set (st := options_start buf).
  assert (Hp : pending st = tokens 0 s)
    by (unfold pending, st, options_start; cbn [os_options os_buf]; by rewrite Hs).
  assert (Hf : (length (pending st) < S (length buf))%nat)
    by (pose proof (pending_length st) as Hlen; cbn [st options_start os_buf] in Hlen; lia).
  rewrite <- Hp in Ha.
  destruct (wp_total_run _ _ _ (krping_options_spec (S (length buf)) cmd cba st x x' w Hne Hcmd
    Hcb (mk_is_Some _ _ Hs) Hf Ha)) as (r & w' & Hr & -> & buf' & Hl & ->).
  rewrite Hp in Ha.
  exists x', buf'. done.
Qed.

(** C18. The option loop of [krping_doit] does to the control block and to [ret]
    what the fold over the non-empty fields of the command does, one effect per
    option, and it ends: a command in a terminated buffer never makes it read
    or write out of bounds. *)
Theorem krping_options_fold cmd cba buf s cb optint w :
  cmd <> cba -> heap w !! cmd = Some (BBytes buf) -> heap w !! cba = Some (BKcb cb) ->
  str_at buf 0 = Some s -> kcb_typed cb -> kcb_limits cb ->
  exists x' buf',
    apply_tokens cmd (tokens 0 s) {| oa_cb := cb; oa_optint := optint; oa_ret := 0 |} = Some x'
    /\ krping_options (S (length buf)) cmd cba (Some 0%nat) optint 0 w =
      Ok (oa_ret x') (upd_heap (fun h => <[cba := BKcb (oa_cb x')]> (<[cmd := BBytes buf']> h)) w)
    /\ length buf' = length buf.
Proof.
  intros Hne Hcmd Hcb Hs Ht Hl.
  destruct (options_run cmd cba buf s {| oa_cb := cb; oa_optint := optint; oa_ret := 0 |} w)
    as (x' & buf' & Hr & Ha & _ & Hlen); try done; [by split; auto|].
  by exists x', buf'.
Qed.

(** C29. What the options leave is well typed: every member fits its C type, the
    address has its 16 bytes, [server] is -1 or 0, and the result is 0, [EINVAL]
    or [-EINVAL]; when it is 0, the size is between 1 and [RPING_BUFSIZE] and
    the count not negative. *)
Theorem krping_options_typed cmd cba buf s cb optint w :
  cmd <> cba -> heap w !! cmd = Some (BBytes buf) -> heap w !! cba = Some (BKcb cb) ->
  str_at buf 0 = Some s -> kcb_typed cb -> kcb_limits cb ->
  exists ret w' cb',
    krping_options (S (length buf)) cmd cba (Some 0%nat) optint 0 w = Ok ret w'
    /\ heap w' !! cba = Some (BKcb cb') /\ kcb_typed cb'
    /\ (ret = 0 \/ ret = EINVAL \/ ret = - EINVAL) /\ (ret = 0 -> kcb_limits cb').
Proof.
  intros Hne Hcmd Hcb Hs Ht Hl.
  destruct (options_run cmd cba buf s {| oa_cb := cb; oa_optint := optint; oa_ret := 0 |} w)
    as (x' & buf' & Hr & _ & [H1 H2 H3] & _); try done; [by split; auto|].
  eexists _, _, _. split; [exact Hr|]. split; [heap_lookup|done].
Qed.
End Reference.

(** ** Printed commands *)

(** The options that the loop acts on, as a user writes them. *)
Inductive kopt :=
  | OAddr (s : list Z) | OPort (n : Z) | OClient | OSize (n : Z) | OCount (n : Z) | OVerbose.

Definition print_opt (o : kopt) : list Z :=
  match o with
  | OAddr s => chars "addr" ++ ch_equals :: s
  | OPort n => chars "port" ++ ch_equals :: decimal n
  | OClient => chars "client"
  | OSize n => chars "size" ++ ch_equals :: decimal n
  | OCount n => chars "count" ++ ch_equals :: decimal n
  | OVerbose => chars "verbose"
  end.
Fixpoint print_opts (o : kopt) (l : list kopt) : list Z :=
  match l with
  | [] => print_opt o
  | o' :: l => print_opt o ++ ch_comma :: print_opts o' l
  end.

Section Printed.
Context {K : Kernel} {E : ModuleEnv} {ST : Strtoul} {SL : StrtoulLaws ST}.
Context (in4_length : forall s b, in4_pton s = Some b -> length b = 4%nat).

(** Options within their limits; an address is a text that [in4_pton] reads. *)
Definition opt_good (o : kopt) : Prop :=
  match o with
  | OAddr s => is_Some (in4_pton (s ++ [0])) /\ Forall (fun b => b <> 0 /\ b <> ch_comma) s
  | OPort n => 0 <= n < 2 ^ 16
  | OClient | OVerbose => True
  | OSize n => 1 <= n <= RPING_BUFSIZE
  | OCount n => 0 <= n < 2 ^ 31
  end.

(** What an option means. *)
Definition set_opt (cb : krping_cb) (o : kopt) : krping_cb :=
  match o with
  | OAddr s => set_kc_addr_type AF_INET
      (set_kc_addr (default [] (in4_pton (s ++ [0])) ++ drop 4 (kc_addr cb)) cb)
  | OPort n => set_kc_port (htons k_big_endian n) cb
  | OClient => set_kc_server 0 cb
  | OSize n => set_kc_size n cb
  | OCount n => set_kc_count n cb
  | OVerbose => set_kc_verbose (i32 (kc_verbose cb + 1)) cb
  end.

(** A block but for [addr_str], the pointer to the address in the command. *)
Definition no_str (cb : krping_cb) : krping_cb := set_kc_addr_str (NULL, 0%nat) cb.

Definition plain (l : list Z) : Prop := Forall (fun b => b <> 0 /\ b <> ch_comma) l.
Lemma plain_decimal n : 0 <= n -> plain (decimal n).
Proof.
  intros Hn. unfold decimal. rewrite (proj2 (Z.ltb_ge n 0)) by lia.
  eapply Forall_impl; [|by apply digits_are_digits]. unfold ch_comma. cbn. lia.
Qed.
Lemma plain_print o : opt_good o -> plain (print_opt o) /\ print_opt o <> [].
Proof.
  intros Ho. split; [|by destruct o].
  destruct o; cbn [print_opt opt_good] in *; try by repeat constructor.
  all: apply Forall_app; split; [by repeat constructor|]; constructor; [done|].
  - apply Ho.
  - apply plain_decimal. lia.
  - apply plain_decimal. lia.
  - apply plain_decimal. lia.
Qed.

Lemma cut_at_equals name arg :
  Forall (fun b => b <> ch_equals) name -> cut (name ++ ch_equals :: arg) = (name, Some arg).
Proof.
  intros Hn. unfold cut.
  assert (Hi : index_of ch_equals (name ++ ch_equals :: arg) = Some (length name)).
  { apply index_of_Some. rewrite take_app_length. split; [|done].
    by rewrite lookup_app_r, Nat.sub_diag by lia. }
  rewrite Hi, take_app_length, drop_app_ge by lia. 
  by replace (length name + 1 - length name)%nat with 1%nat by lia.
Qed.

Lemma classify_int off name o n :
  Forall (fun b => b <> ch_equals) name -> find_opt krping_opts name = Some o ->
  Z.testbit (op_has_arg o) 1 = true -> 0 <= n < 2 ^ 64 ->
  classify krping_opts (off, name ++ ch_equals :: decimal n) =
    {| oe_ret := op_val o; oe_arg := Some ((off + length name + 1)%nat, decimal n);
       oe_value := Some n |}.
Proof.
  intros Hn Ho Hi Hr. unfold classify. cbn [fst snd]. rewrite cut_at_equals by done.
  unfold meaning. rewrite Ho, Hi.
  rewrite decide_True by (unfold all_number; by rewrite strtoul_decimal).
  by rewrite strtoul_decimal.
Qed.

(** The effect of one printed option. *)
Lemma classify_printed off o :
  opt_good o -> exists e, classify krping_opts (off, print_opt o) = e /\
    forall cmd x, length (kc_addr (oa_cb x)) = 16%nat ->
      exists x', apply_event cmd e x = Some x' /\ oa_ret x' = oa_ret x
        /\ no_str (oa_cb x') = set_opt (no_str (oa_cb x)) o
        /\ length (kc_addr (oa_cb x')) = 16%nat.
Proof.
  destruct o as [s|n| |n|n|]; cbn [opt_good]; intros Ho.
  - destruct Ho as [[b Hb] _]. eexists. split.
    { unfold classify. cbn [fst snd print_opt]. rewrite cut_at_equals by by repeat constructor.
      reflexivity. }
    intros cmd [cb n ret] Hl. cbn [oa_cb oa_ret] in *. pose proof (in4_length _ _ Hb) as Hb4.
    unfold apply_event. cbn [oe_ret oe_arg oe_value oa_optint fmap option_fmap option_map mbind option_bind].
    change (chr "a" =? chr "a") with true. cbv iota beta. unfold put_in4. rewrite Hb.
    rewrite write_at_Some by lia. rewrite take_0, Hb4. cbn [app mbind option_bind].
    eexists. split; [reflexivity|]. split; [done|]. split.
    + unfold no_str, set_opt. rewrite Hb. reflexivity.
    + cbn [oa_cb]. kcb_simpl. rewrite length_app, length_drop. lia.
  - eexists. split.
    { apply (classify_int off (chars "port") (opt "port" OPT_INT "p"));
        [by repeat constructor|done|done|lia]. }
    intros cmd [cb n0 ret] Hl. eexists. by split.
  - eexists. split; [reflexivity|]. intros cmd [cb n0 ret] Hl. eexists. by split.
  - unfold RPING_BUFSIZE in Ho. eexists. split.
    { apply (classify_int off (chars "size") (opt "size" OPT_INT "S"));
        [by repeat constructor|done|done|lia]. }
    intros cmd [cb n0 ret] Hl. unfold apply_event. cbn [oe_value default].
    assert (En : i32 n = n) by (apply sint_small; [lia|unfold in_i; lia]).
    eexists. split; [reflexivity|]. cbn [oa_ret oa_cb id]. rewrite En.
    rewrite (proj2 (Z.ltb_ge n 1)), (proj2 (Z.ltb_ge RPING_BUFSIZE n)) by (unfold RPING_BUFSIZE; lia).
    by split.
  - eexists. split.
    { apply (classify_int off (chars "count") (opt "count" OPT_INT "C"));
        [by repeat constructor|done|done|lia]. }
    intros cmd [cb n0 ret] Hl. unfold apply_event. cbn [oe_value default].
    assert (En : i32 n = n) by (apply sint_small; [lia|unfold in_i; lia]).
    eexists. split; [reflexivity|]. cbn [oa_ret oa_cb id]. rewrite En.
    rewrite (proj2 (Z.ltb_ge n 0)) by lia. by split.
  - eexists. split; [reflexivity|]. intros cmd [cb n0 ret] Hl. eexists. by split.
Qed.

Lemma print_opts_tokens cmd off o l x :
  Forall opt_good (o :: l) -> length (kc_addr (oa_cb x)) = 16%nat ->
  exists x', apply_tokens cmd (tokens off (print_opts o l)) x = Some x'
    /\ oa_ret x' = oa_ret x
    /\ no_str (oa_cb x') = fold_left set_opt (o :: l) (no_str (oa_cb x)).
Proof.
  revert off o x. induction l as [|o' l IH]; intros off o x [Ho Hl]%list.Forall_cons_1 Hx;
    cbn [print_opts]; destruct (plain_print o Ho) as [Hp Hne];
    (assert (Hc : Forall (fun b => b <> ch_comma) (print_opt o))
       by (eapply Forall_impl; [|exact Hp]; cbn; tauto));
    destruct (classify_printed off o Ho) as (e & He & Happ);
    destruct (Happ cmd x Hx) as (x1 & Hx1 & Hr1 & Hs1 & Hl1).
  - rewrite tokens_no_comma, bool_decide_eq_false_2 by done. cbn [apply_tokens].
    rewrite He. cbn [mbind option_bind]. rewrite Hx1. exists x1. done.
  - rewrite tokens_comma, bool_decide_eq_false_2 by done. cbn [app apply_tokens].
    rewrite He. cbn [mbind option_bind]. rewrite Hx1. cbn [mbind option_bind].
    destruct (IH (off + length (print_opt o) + 1)%nat o' x1 Hl Hl1) as (x2 & Ha & Hr2 & Hs2).
    exists x2. split; [done|]. split; [congruence|]. rewrite Hs2, Hs1. done.
Qed.

Lemma plain_prints o l : Forall opt_good (o :: l) -> Forall (fun b => b <> 0) (print_opts o l).
Proof.
  revert o. induction l as [|o' l IH]; intros o [Ho Hl]%list.Forall_cons_1; cbn [print_opts];
    (assert (Hp : Forall (fun b => b <> 0) (print_opt o))
       by (eapply Forall_impl; [|by apply plain_print]; cbn; tauto)); [done|].
  apply Forall_app. split; [done|]. constructor; [done|by apply IH].
Qed.

(** C30. Options survive the trip through text: a command printed from options
    within their limits is read back without error, and the control block is
    then the one that the options in turn set. *)
Theorem krping_options_roundtrip cmd cba cb optint w o l :
  cmd <> cba -> heap w !! cmd = Some (BBytes (print_opts o l ++ [0])) ->
  heap w !! cba = Some (BKcb cb) -> Forall opt_good (o :: l) ->
  kcb_typed cb -> kcb_limits cb ->
  exists w' cb',
    krping_options (S (length (print_opts o l ++ [0]))) cmd cba (Some 0%nat) optint 0 w = Ok 0 w'
    /\ heap w' !! cba = Some (BKcb cb')
    /\ no_str cb' = fold_left set_opt (o :: l) (no_str cb).
Proof.
  intros Hne Hcmd Hcb Hg Ht Hlim.
  assert (Hs : str_at (print_opts o l ++ [0]) 0 = Some (print_opts o l))
    by (apply c_chars_app; by apply plain_prints).
  destruct (options_run in4_length cmd cba _ _ {| oa_cb := cb; oa_optint := optint; oa_ret := 0 |}
    w Hne Hcmd Hcb Hs) as (x' & buf' & Hr & Ha & _ & _); [by split; auto|].
  destruct (print_opts_tokens cmd 0 o l {| oa_cb := cb; oa_optint := optint; oa_ret := 0 |} Hg)
    as (x2 & Ha2 & Hr2 & Hs2); [apply Ht|].
  rewrite Ha in Ha2. injection Ha2 as <-. rewrite Hr2 in Hr.
  eexists _, _. split; [exact Hr|]. split; [heap_lookup|exact Hs2].
Qed.
End Printed.
