(* ===== verification/KrpingEnv.v ===== *)
(** * KrpingEnv: the kernel's services to the ping module

    What [bak/krping.c] calls beside the services of [Kernel]: coherent DMA
    memory, memory regions, its own kinds of work requests, address
    resolution of both families, the list of running pings and its mutex.  As
    in [Kernel], the answers are parameters and the effects are written out:
    coherent memory and memory regions are blocks. *)
From S2P Require Import Prelude Types KrpingTypes Kernel Logic.
Import Krping.

(** The answers; [kk_recv_buf_off] and [kk_send_buf_off] are the offsets of two
    members in [struct krping_cb], and [kk_pings] is where the module's list
    of running pings is. *)
Class KrpingKernel := {
  kk_recv_buf_off : Z;
  kk_send_buf_off : Z;
  kk_pings : addr;
  kk_alloc_coherent : list event -> Z -> Z -> option Z;
  kk_alloc_mr : list event -> kptr -> Z -> Z + ib_mr;
  kk_map_mr_sg : list event -> addr -> Z -> Z -> Z;
  kk_post_recv : list event -> addr -> precv -> Z;
  kk_post_send : list event -> addr -> list posted -> Z;
  kk_resolve_addr : list event -> kptr -> ksockaddr -> Z;
  kk_device_cap_flags : Z -> Z;
  kk_dev_get_by_name : list event -> list Z -> option Z }.

(** [krping_run_server] is called but not defined. *)
Class KrpingServer := krping_run_server : addr -> M unit.

(** ** Byte order *)

Definition htonl (be : bool) (x : Z) : Z := if be then u32 x else bswap 4 (u32 x).
Definition ntohl : bool -> Z -> Z := htonl.

(** The bytes of an integer of [n] bytes in the host's memory. *)
Definition mem_uint (be : bool) (n : nat) (x : Z) : list Z :=
  if be then be_bytes n x else le_bytes n x.
Definition val_uint (be : bool) (l : list Z) : Z := if be then be_val l else le_val l.

(** The bytes of a [struct krping_rdma_info], and the struct that bytes are. *)
Definition info_bytes (be : bool) (i : krping_rdma_info) : list Z :=
  mem_uint be 8 (ri_buf i) ++ mem_uint be 4 (ri_rkey i) ++ mem_uint be 4 (ri_size i).
Definition bytes_info (be : bool) (l : list Z) : krping_rdma_info :=
  {| ri_buf := val_uint be (take 8 l); ri_rkey := val_uint be (take 4 (drop 8 l));
     ri_size := val_uint be (take 4 (drop 12 l)) |}.

(** ** Work requests *)

Definition sgl_of (cb : krping_cb) (p : ksgl) : ib_sge :=
  match p with
  | S_recv_sgl => kc_recv_sgl cb | S_send_sgl => kc_send_sgl cb | S_rdma_sgl => kc_rdma_sgl cb
  end.
Definition wr_of (cb : krping_cb) (p : kwr) : ksend_wr :=
  match p with
  | W_sq_wr => kc_sq_wr cb | W_invalidate_wr => kc_invalidate_wr cb
  | W_reg_mr_wr => rw_wr (kc_reg_mr_wr cb)
  end.

(** The device reads [num_sge] elements at [sg_list]: none, or the one there is. *)
Definition sges_of (cb : krping_cb) (sg : option ksgl) (n : Z) : option (list ib_sge) :=
  if n =? 0 then Some []
  else match sg with
       | Some p => if n =? 1 then Some [sgl_of cb p] else None
       | None => None
       end.

(** What the request [wr], found at [p] of [cb] when it is a member, asks for. *)
Definition post_of (cb : krping_cb) (p : option kwr) (wr : ksend_wr) : option posted :=
  match ks_opcode wr with
  | IB_WR_SEND =>
      l ← sges_of cb (ks_sg_list wr) (ks_num_sge wr);
      Some (PSend (ks_wr_id wr) (ks_send_flags wr) l)
  | IB_WR_LOCAL_INV => Some (PLocalInv (ks_invalidate_rkey wr))
  | IB_WR_REG_MR =>
      match p with
      | Some W_reg_mr_wr => let r := kc_reg_mr_wr cb in
          Some (PRegMr (rw_mr r) (rw_key r) (rw_access r))
      | _ => None
      end
  | OP_ZERO => Some POther
  end.

(** The chain from the request on.  A block has three requests, so a longer
    chain is a cycle, which no device finishes reading. *)
Fixpoint wr_chain (fuel : nat) (cb : krping_cb) (p : kwr) : option (list posted) :=
  match fuel with
  | O => None
  | S fuel =>
      x ← post_of cb (Some p) (wr_of cb p);
      match ks_next (wr_of cb p) with
      | None => Some [x]
      | Some p => xs ← wr_chain fuel cb p; Some (x :: xs)
      end
  end.

(** ** Services *)

Section KrpingServices.
Context {K : Kernel} {KK : KrpingKernel}.

Definition kemit (e : kevent) : M unit := emit (EvKrping e).

(** [ib_dma_alloc_coherent]: the buffer and its bus address; the buffer holds
    whatever the memory held. *)
Definition ib_dma_alloc_coherent (dev size : Z) : M (addr * Z) :=
  v ← indeterminate;
  h ← get trace;
  match kk_alloc_coherent h dev size with
  | None => kemit (KEvAllocCoherent dev size NULL 0);; mret (NULL, 0)
  | Some m =>
      a ← get next;
      modify (fun w => set_next (next w + 1)
        (upd_heap (insert a (BBytes (le_bytes (Z.to_nat size) v))) w));;
      kemit (KEvAllocCoherent dev size a m);;
      mret (a, m)
  end.
(** The buffer to free is a live one of that size. *)
Definition ib_dma_free_coherent (dev size : Z) (a : addr) (m : Z) : M unit :=
  h ← get heap;
  match h !! a with
  | Some (BBytes l) =>
      if decide (length l = Z.to_nat size)
      then kemit (KEvFreeCoherent dev size a m);; modify (upd_heap (delete a))
      else fault (BadFree a)
  | _ => fault (BadFree a)
  end.

Definition ib_alloc_mr (pd : kptr) (n : Z) : M kptr :=
  live_pd pd;;
  h ← get trace;
  match kk_alloc_mr h pd n with
  | inl e => kemit (KEvAllocMr pd n (KErr e));; mret (KErr e)
  | inr mr =>
      a ← get next;
      modify (fun w => set_next (next w + 1) (upd_heap (insert a (BMr mr)) w));;
      kemit (KEvAllocMr pd n (KPtr a));;
      mret (KPtr a)
  end.

(** The address of a region; an error pointer is none. *)
Definition kptr_addr (p : kptr) : M addr :=
  match p with KPtr a => mret a | KErr _ => fault (BadHandle p) end.
Definition load_mr (p : kptr) : M ib_mr := a ← kptr_addr p; load a.

Definition ib_dereg_mr (p : kptr) : M unit :=
  a ← kptr_addr p; load (T := ib_mr) a;;
  kemit (KEvDeregMr a);; modify (upd_heap (delete a)).

(** [ib_update_fast_reg_key] replaces the low byte of both keys. *)
Definition with_key (key : Z) (m : ib_mr) : ib_mr :=
  {| mr_lkey := Z.lor (Z.land (mr_lkey m) 0xffffff00) key;
     mr_rkey := Z.lor (Z.land (mr_rkey m) 0xffffff00) key |}.
Definition ib_update_fast_reg_key (p : kptr) (key : Z) : M unit :=
  a ← kptr_addr p; update a (with_key key).

(** [ib_map_mr_sg] of a list of one element. *)
Definition ib_map_mr_sg (p : kptr) (dma len : Z) : M Z :=
  a ← kptr_addr p; load (T := ib_mr) a;;
  call (fun h => kk_map_mr_sg h a dma len) (fun r => EvKrping (KEvMapMrSg a dma len r)).

(** The posting verbs read the requests out of the control block. *)
Definition ib_post_recv_wr (qp : addr) (cb : krping_cb) (wr : krecv_wr) : M Z :=
  live_qp qp;;
  l ← from_option NullDeref (sges_of cb (kr_sg_list wr) (kr_num_sge wr));
  let p := {| pr_wr_id := kr_wr_id wr; pr_sges := l |} in
  call (fun h => kk_post_recv h qp p) (fun r => EvKrping (KEvPostRecv qp p r)).
Definition post_send (qp : addr) (l : list posted) : M Z :=
  live_qp qp;;
  call (fun h => kk_post_send h qp l) (fun r => EvKrping (KEvPostSend qp l r)).
Definition ib_post_send_wr (qp : addr) (cb : krping_cb) (p : kwr) : M Z :=
  l ← from_option NullDeref (wr_chain 3 cb p); post_send qp l.

Definition rdma_resolve_addr_any (id : kptr) (sin : ksockaddr) : M Z :=
  cm_id id;;
  call (fun h => kk_resolve_addr h id sin) (fun r => EvKrping (KEvResolveAddr id sin r)).
Definition rdma_set_service_type (id : kptr) (tos : Z) : M unit :=
  cm_id id;; kemit (KEvSetServiceType id tos).

(** [krping_mutex]: nobody else holds it for ever, so a lock that finds it held
    by this thread waits for ever. *)
Definition mutex_lock : M unit :=
  l ← load (T := ping_list) kk_pings;
  if pl_locked l then block_here
  else store kk_pings (l <| pl_locked := true |>);; kemit (KEvMutex true).
Definition mutex_unlock : M unit :=
  update kk_pings (fun l => l <| pl_locked := false |>);; kemit (KEvMutex false).
Definition list_add_tail (a : addr) : M unit :=
  update kk_pings (fun l => l <| pl_cbs := pl_cbs l ++ [a] |>).
Definition list_del (a : addr) : M unit :=
  update kk_pings (fun l => l <| pl_cbs := List.filter (fun b => negb (b =? a)) (pl_cbs l) |>).
End KrpingServices.
