(* ===== verification/KrpingFrame.v ===== *)
(** * KrpingFrame: what the callbacks of the ping module leave alone

    The resources of a state are its live objects: the blocks of the heap with
    their kinds and lengths ([shapes]), protection domains, queues, ids and
    DMA mappings.  [kkept w0 w]: from [w0] to [w] the resources are the same,
    and every control block has the same [core], the fields that set-up has
    written.  The relation is a preorder that the callbacks and the ping loop
    preserve. *)
From stdpp Require Import gmultiset.
From S2P Require Import Prelude Types KrpingTypes Kernel Logic Wait KrpingEnv.
Import Krping.

(** A control block without the fields that callbacks and pings change. *)
Definition core (cb : krping_cb) : krping_cb :=
  set_kc_state ZEROED (set_kc_stats zero_stats (set_kc_recv_buf zero_info
  (set_kc_child_cm_id (KPtr NULL) (set_kc_remote_rkey 0 (set_kc_remote_addr 0
  (set_kc_remote_len 0 (set_kc_key 0 (set_kc_invalidate_wr zero_ksend_wr
  (set_kc_reg_mr_wr zero_kreg_wr (set_kc_send_buf zero_info cb)))))))))).

Definition shape (b : block) : block :=
  match b with
  | BBytes l => BBytes (replicate (length l) 0)
  | BKcb _ => BKcb zero_kcb
  | BMr _ => BMr {| mr_lkey := 0; mr_rkey := 0 |}
  | b => b
  end.
Definition shapes (w : world) : gmap addr block := shape <$> heap w.
Definition cq_ctxs (w : world) : gmap kptr addr := cq_context <$> cqs w.

Record kkept (w0 w : world) : Prop := {
  kk_shapes : shapes w = shapes w0;
  kk_core : forall a cb, heap w0 !! a = Some (BKcb cb) ->
    exists cb', heap w !! a = Some (BKcb cb') /\ core cb' = core cb;
  kk_next : next w = next w0;
  kk_cms : cms w = cms w0;
  kk_ctxs : cq_ctxs w = cq_ctxs w0;
  kk_pds : pds w = pds w0;
  kk_qps : qps w = qps w0;
  kk_dmas : dmas w = dmas w0;
  kk_sched : exists s, sched w0 = s ++ sched w }.

Lemma kkept_refl w : kkept w w.
Proof. split; try done; [eauto|by exists []]. Qed.

Lemma kkept_trans w1 w2 w3 : kkept w1 w2 -> kkept w2 w3 -> kkept w1 w3.
Proof.
  intros [S1 C1 N1 M1 X1 P1 Q1 D1 [s1 E1]] [S2 C2 N2 M2 X2 P2 Q2 D2 [s2 E2]].
  split; try congruence.
  - intros a cb Ha. destruct (C1 a cb Ha) as (cb1 & H1 & K1).
    destruct (C2 a cb1 H1) as (cb2 & H2 & K2). exists cb2. split; [done|congruence].
  - exists (s1 ++ s2). by rewrite E1, E2, app_assoc.
Qed.

#[export] Instance kkept_preorder : PreOrder kkept.
Proof. split; [exact kkept_refl|exact kkept_trans]. Qed.

Section preserve.
Context (w0 : world).
Implicit Types (w : world).

Lemma kkept_log e w : kkept w0 w -> kkept w0 (log e w).
Proof. by intros []. Qed.
Lemma kkept_woken q w : kkept w0 w -> kkept w0 (set_woken q w).
Proof. by intros []. Qed.
Lemma kkept_sched e s w : sched w = e :: s -> kkept w0 w -> kkept w0 (set_sched s w).
Proof.
  intros He [S1 C1 N1 M1 X1 P1 Q1 D1 [s1 E1]]. split; try done.
  exists (s1 ++ [e]). wsimpl. by rewrite E1, He, <- app_assoc.
Qed.

Lemma kkept_polls cq c c' w :
  cqs w !! cq = Some c -> cq_context c' = cq_context c ->
  kkept w0 w -> kkept w0 (upd_cqs (insert cq c') w).
Proof.
  intros Hc Hx []. split; try done. rewrite <- kk_ctxs0. unfold cq_ctxs. wsimpl.
  rewrite fmap_insert, Hx. apply insert_id. by rewrite lookup_fmap, Hc.
Qed.

(** Overwriting a block by one of its shape. *)
Lemma kkept_insert a b b' w :
  heap w !! a = Some b -> shape b' = shape b ->
  (forall cb, b = BKcb cb -> exists cb', b' = BKcb cb' /\ core cb' = core cb) ->
  kkept w0 w -> kkept w0 (upd_heap (insert a b') w).
Proof.
  intros Ha Hs Hb []. split; try done.
  - rewrite <- kk_shapes0. unfold shapes. wsimpl. rewrite fmap_insert, Hs.
    apply insert_id. by rewrite lookup_fmap, Ha.
  - intros x cb Hx. destruct (kk_core0 x cb Hx) as (cb1 & H1 & K1). wsimpl.
    destruct (decide (a = x)) as [<-|Hne].
    + rewrite Ha in H1. injection H1 as ->. destruct (Hb cb1 eq_refl) as (cb2 & -> & K2).
      exists cb2. rewrite lookup_insert_eq. split; [done|congruence].
    + exists cb1. by rewrite lookup_insert_ne.
Qed.

Lemma kkept_kcb a cb cb' w :
  heap w !! a = Some (BKcb cb) -> core cb' = core cb ->
  kkept w0 w -> kkept w0 (upd_heap (insert a (BKcb cb')) w).
Proof.
  intros Ha Hc. eapply kkept_insert; [done|done|]. intros ? [= <-]. by exists cb'.
Qed.

Lemma kkept_bytes a l l' w :
  heap w !! a = Some (BBytes l) -> length l' = length l ->
  kkept w0 w -> kkept w0 (upd_heap (insert a (BBytes l')) w).
Proof. intros Ha Hl. eapply kkept_insert; [done| |done]. cbn. by rewrite Hl. Qed.

Lemma kkept_mr a m m' w :
  heap w !! a = Some (BMr m) -> kkept w0 w -> kkept w0 (upd_heap (insert a (BMr m')) w).
Proof. intros Ha. by eapply kkept_insert. Qed.
End preserve.

#[export] Hint Resolve kkept_refl kkept_log kkept_woken : rpc.

Ltac solve_kkept :=
  repeat first
    [ assumption
    | apply kkept_log | apply kkept_woken
    | eapply kkept_kcb; [eassumption|reflexivity|]
    | eapply kkept_kcb; [heap_lookup|reflexivity|]
    | eapply kkept_mr; [eassumption|]
    | eapply kkept_mr; [heap_lookup|]
    | eapply kkept_polls; [eassumption|reflexivity|] ].

(** ** Consequences *)

(** The address is not below a fresh one, or the block is there. *)
Lemma shapes_lookup w a : shapes w !! a = shape <$> heap w !! a.
Proof. apply lookup_fmap. Qed.

Lemma kkept_fresh w0 w : kkept w0 w -> fresh_ok w0 -> fresh_ok w.
Proof.
  intros [S _ N _ _ _ _ _ _] [Hp Hf]. split; [by rewrite N|].
  intros a Ha. rewrite N in Ha. apply (fmap_None shape).
  by rewrite <- shapes_lookup, S, shapes_lookup, Hf.
Qed.

(** A block that is no control block, region or bytes is untouched. *)
Lemma kkept_same w0 w a b :
  kkept w0 w -> heap w0 !! a = Some b ->
  exists b', heap w !! a = Some b' /\ shape b' = shape b.
Proof.
  intros [S _ _ _ _ _ _ _ _] Ha. apply (f_equal (fun m => m !! a)) in S.
  rewrite !shapes_lookup, Ha in S. destruct (heap w !! a) as [b'|]; [|done].
  exists b'. split; [done|]. by injection S.
Qed.

(** A field of the core. *)
Lemma core_field {A} (f : krping_cb -> A) cb cb' :
  (forall c, f (core c) = f c) -> core cb' = core cb -> f cb' = f cb.
Proof. intros Hf Hc. by rewrite <- Hf, Hc, Hf. Qed.

(** ** Functions that keep the resources *)

(** No connection request comes: a client does not listen. *)
Definition is_conn_req (e : async) : bool :=
  match e with AConnReq _ _ => true | _ => false end.
Definition no_conn_req (w : world) : Prop := Forall (fun e => is_conn_req e = false) (sched w).

Lemma kkept_no_conn_req w0 w : kkept w0 w -> no_conn_req w0 -> no_conn_req w.
Proof.
  intros [_ _ _ _ _ _ _ _ [s Hs]]. unfold no_conn_req. rewrite Hs. by intros [_ ?]%Forall_app.
Qed.

(** Whenever [m] returns, the resources are those there were. *)
Definition keeps {A} (m : M A) : Prop := forall w0 w,
  no_conn_req w0 -> kkept w0 w -> wp Partial m (fun _ w' => kkept w0 w') w.

Section keeps.
Context {A B : Type}.

Lemma keeps_ret (a : A) : keeps (mret a).
Proof. intros w0 w _ Hk. by apply wp_ret. Qed.
Lemma keeps_bind (m : M B) (f : B -> M A) :
  keeps m -> (forall b, keeps (f b)) -> keeps (m ≫= f).
Proof.
  intros Hm Hf w0 w Hn Hk. eapply wp_bind_spec; [by apply (Hm w0)|].
  intros b w' Hk'. by apply Hf.
Qed.
Lemma keeps_fault u : keeps (fault (A := A) u).
Proof. done. Qed.
Lemma keeps_block : keeps (block_here (A := A)).
Proof. done. Qed.
Lemma keeps_get (f : world -> A) : keeps (get f).
Proof. intros w0 w _ Hk. by apply wp_get. Qed.
Lemma keeps_call f ev : keeps (call (A := A) f ev).
Proof. intros w0 w _ Hk. by apply wp_call, kkept_log. Qed.
Lemma keeps_from_option u (o : option A) : keeps (from_option u o).
Proof. intros w0 w _ Hk. by apply wp_from_option_p. Qed.
Lemma keeps_load `{InBlock A} a : keeps (load (T := A) a).
Proof. intros w0 w _ Hk. by apply wp_load_p. Qed.
End keeps.

Lemma keeps_emit e : keeps (emit e).
Proof. intros w0 w _ Hk. by apply wp_emit, kkept_log. Qed.
Lemma keeps_kcb a (f : krping_cb -> krping_cb) :
  (forall cb, core (f cb) = core cb) -> keeps (update a f).
Proof. intros Hf w0 w _ Hk. apply wp_update_p. intros cb Hcb. by eapply kkept_kcb. Qed.
Lemma keeps_mr a (f : ib_mr -> ib_mr) : keeps (update a f).
Proof. intros w0 w _ Hk. apply wp_update_p. intros m Hm. by eapply kkept_mr. Qed.
Lemma keeps_write_bytes a off d : keeps (write_bytes a off d).
Proof.
  intros w0 w _ Hk. apply wp_write_bytes_p. intros l l' Hl Hw.
  eapply kkept_bytes; [done|by eapply length_write_at|done].
Qed.
Lemma keeps_printk_s l : keeps (printk_s l).
Proof. intros w0 w _ Hk. by apply wp_printk_s_p. Qed.
Lemma keeps_live_pd pd : keeps (live_pd pd).
Proof. intros w0 w _ Hk. by apply wp_live_pd_p. Qed.
Lemma keeps_live_qp qp : keeps (live_qp qp).
Proof. intros w0 w _ Hk. by apply wp_live_qp_p. Qed.
Lemma keeps_wake_up q : keeps (wake_up_interruptible q).
Proof.
  intros w0 w _ Hk. unfold wake_up_interruptible. wp_steps. by apply kkept_woken, kkept_log.
Qed.
Lemma keeps_poll cq : keeps (ib_poll_cq cq).
Proof.
  intros w0 w _ Hk. unfold ib_poll_cq, live_cq. wp_step. wp_step. wp_step_p.
  apply wp_from_option_p. intros c Hc.
  destruct (cq_polls c) as [|p ps]; wp_steps; by eapply kkept_log, kkept_polls.
Qed.

(** Decomposes a function down to calls it knows; [keeps] lemmas of others are
    hints. *)
Create HintDb keeps.
#[export] Hint Resolve keeps_ret keeps_fault keeps_block keeps_get keeps_call
  keeps_from_option keeps_load keeps_emit keeps_mr keeps_write_bytes keeps_printk_s
  keeps_live_pd keeps_live_qp keeps_wake_up keeps_poll : keeps.
#[export] Hint Extern 1 (keeps (update _ _)) => apply keeps_kcb; intros ?; reflexivity : keeps.

Ltac keeps_step :=
  match goal with
  | |- keeps (_ ≫= _) => apply keeps_bind; [|intros ?]
  | |- keeps (if ?b then _ else _) => destruct b
  | |- keeps (match ?x with _ => _ end) => destruct x
  | |- keeps _ => solve [eauto 2 with keeps]
  end.
Ltac solve_keeps := repeat (keeps_step; cbv beta).
