(* ===== verification/KrpingIo.v ===== *)
(** * KrpingIo: the callbacks of the ping module ([bak/krping.c])

    The connection manager's callback [krping_cma_event_handler], the
    completion handler [krping_cq_event_handler] with [server_recv] and
    [client_recv], and what happens while the main thread sleeps
    ([krping_delivery]). *)
From S2P Require Import Prelude Types KrpingTypes Kernel Logic Wait Within KrpingEnv KrpingFrame.
Import Krping.

Section KrpingIo.
Context {K : Kernel} {KK : KrpingKernel}.

Definition set_kstate (cba : addr) (s : test_state) : M unit := update cba (set_kc_state s).

Definition krping_cma_event_handler (cma_id : kptr) (event : rdma_cm_event) : M Z :=
  i ← cm_id cma_id;
  let cba := cm_context i in
  cb ← load (T := krping_cb) cba;
  match event with
  | RDMA_CM_EVENT_ADDR_RESOLVED =>
      set_kstate cba ADDR_RESOLVED;;
      ret ← rdma_resolve_route cma_id;
      if negb (ret =? 0) then wake_up_interruptible (WqCb cba) else mret tt
  | RDMA_CM_EVENT_ROUTE_RESOLVED =>
      set_kstate cba ROUTE_RESOLVED;; wake_up_interruptible (WqCb cba)
  | RDMA_CM_EVENT_CONNECT_REQUEST =>
      set_kstate cba CONNECT_REQUEST;;
      update cba (set_kc_child_cm_id cma_id);;
      wake_up_interruptible (WqCb cba)
  | RDMA_CM_EVENT_ESTABLISHED =>
      (if kc_server cb =? 0 then set_kstate cba CONNECTED else mret tt);;
      wake_up_interruptible (WqCb cba)
  | RDMA_CM_EVENT_ADDR_ERROR | RDMA_CM_EVENT_ROUTE_ERROR
  | RDMA_CM_EVENT_CONNECT_ERROR | RDMA_CM_EVENT_UNREACHABLE
  | RDMA_CM_EVENT_REJECTED =>
      set_kstate cba ERROR;; wake_up_interruptible (WqCb cba)
  | RDMA_CM_EVENT_DISCONNECTED =>
      set_kstate cba ERROR;; wake_up_interruptible (WqCb cba)
  | RDMA_CM_EVENT_DEVICE_REMOVAL =>
      set_kstate cba ERROR;; wake_up_interruptible (WqCb cba)
  | RDMA_CM_EVENT_OTHER _ => wake_up_interruptible (WqCb cba)
  end;;
  mret 0.

(** ** Receives *)

Definition server_recv (cba : addr) (wc : ib_wc) : M Z :=
  if negb (wc_byte_len wc =? info_size) then mret (-1) else
  cb ← load cba;
  update cba (set_kc_remote_rkey (ntohl k_big_endian (ri_rkey (kc_recv_buf cb))));;
  update cba (set_kc_remote_addr (ntohll k_big_endian (ri_buf (kc_recv_buf cb))));;
  update cba (set_kc_remote_len (ntohl k_big_endian (ri_size (kc_recv_buf cb))));;
  (if (kc_state cb <=t CONNECTED) || (kc_state cb =t RDMA_WRITE_COMPLETE)
   then set_kstate cba RDMA_READ_ADV else set_kstate cba RDMA_WRITE_ADV);;
  mret 0.

Definition client_recv (cba : addr) (wc : ib_wc) : M Z :=
  if negb (wc_byte_len wc =? info_size) then mret (-1) else
  cb ← load cba;
  (if kc_state cb =t RDMA_READ_ADV then set_kstate cba RDMA_WRITE_ADV
   else set_kstate cba RDMA_WRITE_COMPLETE);;
  mret 0.

(** ** Completions *)

(** [cb->stats.x_bytes += bytes; cb->stats.x_msgs++], by kind. *)
Definition count_send (n : Z) (s : krping_stats) : krping_stats :=
  s <| ps_send_bytes := u64 (ps_send_bytes s + n) |> <| ps_send_msgs := u64 (ps_send_msgs s + 1) |>.
Definition count_recv (n : Z) (s : krping_stats) : krping_stats :=
  s <| ps_recv_bytes := u64 (ps_recv_bytes s + n) |> <| ps_recv_msgs := u64 (ps_recv_msgs s + 1) |>.
Definition count_write (n : Z) (s : krping_stats) : krping_stats :=
  s <| ps_write_bytes := u64 (ps_write_bytes s + n) |> <| ps_write_msgs := u64 (ps_write_msgs s + 1) |>.
Definition count_read (n : Z) (s : krping_stats) : krping_stats :=
  s <| ps_read_bytes := u64 (ps_read_bytes s + n) |> <| ps_read_msgs := u64 (ps_read_msgs s + 1) |>.
Definition count (cba : addr) (f : krping_stats -> krping_stats) : M unit :=
  update cba (fun cb => set_kc_stats (f (kc_stats cb)) cb).

(** [cb->rdma_sq_wr.wr.sg_list->length] *)
Definition rdma_sg_length (cb : krping_cb) : M Z :=
  p ← from_option NullDeref (kc_rdma_sq_sg_list cb); mret (sge_length (sgl_of cb p)).

(** The body of the completion loop: [false] is the jump to [error]. *)
Definition krping_complete (cba : addr) (wc : ib_wc) : M bool :=
  match wc_status wc with
  | IB_WC_WR_FLUSH_ERR => mret true
  | IB_WC_ERR _ => mret false
  | IB_WC_SUCCESS =>
      cb ← load (T := krping_cb) cba;
      match wc_opcode wc with
      | IB_WC_SEND => count cba (count_send (sge_length (kc_send_sgl cb)));; mret true
      | IB_WC_RDMA_WRITE =>
          n ← rdma_sg_length cb;
          count cba (count_write n);;
          set_kstate cba RDMA_WRITE_COMPLETE;;
          wake_up_interruptible (WqCb cba);; mret true
      | IB_WC_RDMA_READ =>
          n ← rdma_sg_length cb;
          count cba (count_read n);;
          set_kstate cba RDMA_READ_COMPLETE;;
          wake_up_interruptible (WqCb cba);; mret true
      | IB_WC_RECV =>
          count cba (count_recv info_size);;
          ret ← (if negb (kc_server cb =? 0) then server_recv cba wc else client_recv cba wc);
          if negb (ret =? 0) then mret false else
          cb ← load (T := krping_cb) cba;
          ret ← ib_post_recv_wr (kc_qp cb) cb (kc_rq_wr cb);
          if negb (ret =? 0) then mret false else
          wake_up_interruptible (WqCb cba);; mret true
      | IB_WC_OTHER _ => mret false
      end
  end.

Definition krping_cq_error (cba : addr) : M unit :=
  set_kstate cba ERROR;; wake_up_interruptible (WqCb cba).

(** [while ((ret = ib_poll_cq(cb->cq, 1, &wc)) == 1)]; each round takes an
    answer from the queue. *)
Fixpoint krping_cq_loop (fuel : nat) (cba : addr) : M unit :=
  match fuel with
  | O => block_here
  | S fuel =>
      cb ← load (T := krping_cb) cba;
      p ← ib_poll_cq (kc_cq cb);
      match p with
      | PollEmpty => mret tt
      | PollErr ret => if negb (ret =? 0) then krping_cq_error cba else mret tt
      | PollWc wc =>
          ok ← krping_complete cba wc;
          if (ok : bool) then krping_cq_loop fuel cba else krping_cq_error cba
      end
  end.

Definition krping_cq_event_handler (cq : kptr) (cba : addr) : M unit :=
  cb ← load (T := krping_cb) cba;
  if negb (bool_decide (kc_cq cb = cq)) then fault BugOn else
  if kc_state cb =t ERROR then mret tt else
  if negb (kc_frtest cb =? 0) then mret tt else
  ib_req_notify_cq (kc_cq cb);;
  c ← live_cq (kc_cq cb);
  krping_cq_loop (S (length (cq_polls c))) cba.

(** ** What happens while a thread sleeps *)

(** The device writes into a buffer: the [recv_buf] of a control block, which
    is named by the block, or a block of bytes. *)
Definition krping_dma_write (a : addr) (l : list Z) : M unit :=
  h ← get heap;
  match h !! a with
  | Some (BKcb _) =>
      if decide (length l = Z.to_nat info_size)
      then update a (set_kc_recv_buf (bytes_info k_big_endian l)) else mret tt
  | _ => dma_write a l
  end.

Definition krping_deliver_cm (id : kptr) (ev : rdma_cm_event) : M unit :=
  r ← krping_cma_event_handler id ev;
  emit (EvCmHandled id ev r);;
  if r =? 0 then mret tt else modify (upd_cms (delete id)).

Definition krping_deliver (e : async) : M unit :=
  match e with
  | ACm id ev =>
      m ← get cms;
      match m !! id with None => mret tt | Some _ => krping_deliver_cm id ev end
  | AConnReq listener child =>
      m ← get cms;
      match m !! listener with
      | None => mret tt
      | Some c =>
          modify (upd_cms (insert child {| cm_context := cm_context c; cm_qp := NULL |}));;
          krping_deliver_cm child RDMA_CM_EVENT_CONNECT_REQUEST
      end
  | ACq cq ps =>
      m ← get cqs;
      match m !! cq with
      | None => mret tt
      | Some c =>
          modify (upd_cqs (insert cq (c <| cq_polls := cq_polls c ++ ps |>)));;
          krping_cq_event_handler cq (cq_context c)
      end
  | ADma a l => krping_dma_write a l
  | ASignal => mret tt
  end.

#[export] Instance krping_delivery : Delivery := krping_deliver.

(** [cb->state >= s], as a condition to wait for. *)
Definition kstate_ge (cba : addr) (s : test_state) : M bool :=
  cb ← load (T := krping_cb) cba; mret (kc_state cb >=t s).
End KrpingIo.

(** ** The callbacks keep the resources *)

Section Kept.
Context {K : Kernel} {KK : KrpingKernel}.

Lemma keeps_set_kstate cba s : keeps (set_kstate cba s).
Proof. unfold set_kstate. solve_keeps. Qed.
Lemma keeps_post_recv qp cb wr : keeps (ib_post_recv_wr qp cb wr).
Proof. unfold ib_post_recv_wr. solve_keeps. Qed.
Lemma keeps_count cba f : keeps (count cba f).
Proof. unfold count. solve_keeps. Qed.
#[local] Hint Resolve keeps_set_kstate keeps_post_recv keeps_count : keeps.

Lemma keeps_cma id ev : keeps (krping_cma_event_handler id ev).
Proof. unfold krping_cma_event_handler, cm_id, rdma_resolve_route, cm_id. solve_keeps. Qed.
Lemma keeps_server_recv cba wc : keeps (server_recv cba wc).
Proof. unfold server_recv. solve_keeps. Qed.
Lemma keeps_client_recv cba wc : keeps (client_recv cba wc).
Proof. unfold client_recv. solve_keeps. Qed.
#[local] Hint Resolve keeps_server_recv keeps_client_recv : keeps.

Lemma keeps_complete cba wc : keeps (krping_complete cba wc).
Proof. unfold krping_complete, rdma_sg_length. solve_keeps. Qed.
Lemma keeps_cq_error cba : keeps (krping_cq_error cba).
Proof. unfold krping_cq_error. solve_keeps. Qed.
#[local] Hint Resolve keeps_complete keeps_cq_error : keeps.

Lemma keeps_cq_loop fuel cba : keeps (krping_cq_loop fuel cba).
Proof. induction fuel; cbn [krping_cq_loop]; solve_keeps. Qed.
#[local] Hint Resolve keeps_cq_loop : keeps.

Lemma keeps_cq_handler cq cba : keeps (krping_cq_event_handler cq cba).
Proof. unfold krping_cq_event_handler, ib_req_notify_cq, live_cq. solve_keeps. Qed.

Lemma kkept_dma_write w0 w a l :
  kkept w0 w -> wp Partial (krping_dma_write a l) (fun _ w' => kkept w0 w') w.
Proof.
  intros Hk. unfold krping_dma_write. do 2 wp_step.
  assert (Hd : wp Partial (dma_write a l) (fun _ w' => kkept w0 w') w).
  { unfold dma_write. wp_step. destruct (heap w !! a) as [[]|] eqn:Ha; try done.
    destruct (decide _) as [Hl|]; [|done]. by eapply kkept_bytes. }
  destruct (heap w !! a) as [[]|] eqn:Ha; try exact Hd.
  destruct (decide _); wp_steps_p; solve_kkept.
Qed.

Lemma kkept_deliver w0 w e :
  no_conn_req w0 -> is_conn_req e = false -> kkept w0 w ->
  wp Partial (deliver e) (fun _ w' => kkept w0 w') w.
Proof.
  intros Hn He Hk. unfold deliver, krping_delivery, krping_deliver. destruct e; try done.
  - wp_step. wp_step. destruct (cms w !! id); [|by wp_step_p].
    assert (Hr : wp Partial (krping_cma_event_handler id ev) (fun r _ => r = 0) w).
    { unfold krping_cma_event_handler, set_kstate. wp_steps_p; done. }
    pose proof (keeps_cma id ev w0 w Hn Hk) as Hc. unfold krping_deliver_cm. wp_step.
    revert Hr Hc. unfold wp at 1 2 3.
    destruct (krping_cma_event_handler id ev w) as [r w1| |]; [|done..].
    intros -> Hk1. by apply kkept_log.
  - wp_step. wp_step. destruct (cqs w !! cq) eqn:Hc; [|by wp_step_p].
    wp_step. wp_step. apply keeps_cq_handler; [done|]. by eapply kkept_polls.
  - by apply kkept_dma_write.
Qed.

Lemma keeps_state_ge cba s : keeps (kstate_ge cba s).
Proof. unfold kstate_ge. solve_keeps. Qed.

Lemma keeps_wait_loop fuel q cba s : keeps (wait_loop fuel q (kstate_ge cba s)).
Proof.
  intros w0 w Hn. revert w.
  induction fuel as [|fuel IH]; intros w Hk; cbn [wait_loop]; [by wp_step_p|].
  wp_step. wp_step. destruct (sched w) as [|e l] eqn:Hs; [by wp_step_p|].
  assert (He : is_conn_req e = false).
  { pose proof (kkept_no_conn_req _ _ Hk Hn) as Hw. unfold no_conn_req in Hw. rewrite Hs in Hw.
    by apply list.Forall_cons_1 in Hw as [? _]. }
  wp_step. wp_step. wp_step. eapply wp_mono; [apply (kkept_deliver w0); [done..|]|].
  { apply kkept_woken. by eapply kkept_sched. }
  intros [] w1 Hk1. cbv beta. wp_step. wp_step.
  destruct (is_signal e); [|destruct (bool_decide _); [|by apply IH]].
  all: wp_step; eapply wp_mono; [by apply (keeps_state_ge cba s w0)|];
    intros [] w2 Hk2; cbv beta.
  all: try by wp_step_p. by apply IH.
Qed.

Lemma keeps_wait q cba s : keeps (wait_event_interruptible q (kstate_ge cba s)).
Proof.
  unfold wait_event_interruptible. apply keeps_bind; [apply keeps_state_ge|].
  intros []; solve_keeps. apply keeps_wait_loop.
Qed.
End Kept.
#[export] Hint Resolve keeps_set_kstate keeps_post_recv keeps_wait : keeps.

(** ** Connection-manager events *)

(** The transition on an event: the new state, and whether the waiter is
    woken ([route] is the answer of [rdma_resolve_route]). *)
Definition kcm_next (server route : Z) (ev : rdma_cm_event) (s : test_state)
    : test_state * bool :=
  match ev with
  | RDMA_CM_EVENT_ADDR_RESOLVED => (ADDR_RESOLVED, negb (route =? 0))
  | RDMA_CM_EVENT_ROUTE_RESOLVED => (ROUTE_RESOLVED, true)
  | RDMA_CM_EVENT_CONNECT_REQUEST => (CONNECT_REQUEST, true)
  | RDMA_CM_EVENT_ESTABLISHED => (if server =? 0 then CONNECTED else s, true)
  | RDMA_CM_EVENT_OTHER _ => (s, true)
  | _ => (ERROR, true)
  end.

Definition kcb_after_cm (id : kptr) (ev : rdma_cm_event) (s : test_state)
    (cb : krping_cb) : krping_cb :=
  let cb := set_kc_state s cb in
  match ev with RDMA_CM_EVENT_CONNECT_REQUEST => set_kc_child_cm_id id cb | _ => cb end.

(** What the callback leaves, given the transition [n]. *)
Record kcm_post (w : world) (id : kptr) (i : cm_state) (cb : krping_cb)
    (ev : rdma_cm_event) (n : test_state * bool) (w' : world) : Prop := {
  kcp_heap : heap w' = <[cm_context i := BKcb (kcb_after_cm id ev (fst n) cb)]> (heap w);
  kcp_woken : woken w' = (if snd n then [WqCb (cm_context i)] else []) ++ woken w;
  kcp_next : next w' = next w;
  kcp_sched : sched w' = sched w;
  kcp_objs : objs w' = objs w }.

Lemma set_kc_state_id cb : set_kc_state (kc_state cb) cb = cb.
Proof. by destruct cb. Qed.

Section Cm_events.
Context {K : Kernel} {KK : KrpingKernel}.

Lemma wp_krping_cma t w id i cb ev :
  cms w !! id = Some i -> heap w !! cm_context i = Some (BKcb cb) ->
  wp t (krping_cma_event_handler id ev) (fun r w' => r = 0 /\
    kcm_post w id i cb ev
      (kcm_next (kc_server cb) (k_resolve_route (trace w) id) ev (kc_state cb)) w') w.
Proof.
  intros Hi Hcb. unfold krping_cma_event_handler. do 6 wp_step.
  assert (Hid : <[cm_context i := BKcb (set_kc_state (kc_state cb) cb)]> (heap w) = heap w)
    by (rewrite set_kc_state_id; by apply insert_id).
  destruct ev; cbn [kcm_next]; unfold set_kstate;
    wp_steps; wsimpl in *; rewrite ?E; (split; [done|]); split; wsimpl; cbn [fst snd app negb];
    rewrite ?insert_insert_eq; try done; try by rewrite Hid.
Qed.

(** C25. The callback handles every event as the table [kcm_next] says, and always
    returns 0, so that the connection manager keeps the id; a failure puts
    the block in state [ERROR], and any event that changes the state to
    [ROUTE_RESOLVED] or beyond wakes the waiter. *)
Theorem krping_cma_transitions w id i cb ev :
  cms w !! id = Some i -> heap w !! cm_context i = Some (BKcb cb) ->
  let n := kcm_next (kc_server cb) (k_resolve_route (trace w) id) ev (kc_state cb) in
  exists w', krping_cma_event_handler id ev w = Ok 0 w' /\ kcm_post w id i cb ev n w'
    /\ ((fst n >=t ROUTE_RESOLVED) = true -> WqCb (cm_context i) ∈ woken w').
Proof.
  intros Hi Hcb n.
  destruct (wp_total_run _ _ _ (wp_krping_cma Total w id i cb ev Hi Hcb))
    as (r & w' & Hr & -> & Hp).
  exists w'. split; [done|]. split; [done|]. intros Hge. destruct Hp as [_ Hw _ _ _].
  rewrite Hw. fold n. replace (snd n) with true; [by left|].
  unfold n in *. by destruct ev.
Qed.

Lemma wp_krping_deliver_cm t w id i cb ev (Q : unit -> world -> Prop) :
  cms w !! id = Some i -> heap w !! cm_context i = Some (BKcb cb) ->
  (forall w1, kcm_post w id i cb ev
      (kcm_next (kc_server cb) (k_resolve_route (trace w) id) ev (kc_state cb)) w1 ->
     Q tt (log (EvCmHandled id ev 0) w1)) ->
  wp t (deliver (ACm id ev)) Q w.
Proof.
  intros Hi Hcb HQ. unfold deliver, krping_delivery, krping_deliver, krping_deliver_cm.
  wp_step. wp_step. rewrite Hi. wp_step. eapply wp_mono; [by apply wp_krping_cma|].
  intros r w1 [-> Hp]. cbv beta. wp_step. wp_step. change (0 =? 0) with true. cbv iota.
  wp_step. by apply HQ.
Qed.
End Cm_events.

(** ** Completions *)

(** A client that is set up: its objects are live and its receive request is
    in place. *)
Record client_ready (w : world) (cba : addr) (cb : krping_cb) : Prop := {
  cl_cb : heap w !! cba = Some (BKcb cb);
  cl_server : kc_server cb = 0;
  cl_qp : kc_qp cb ∈ qps w;
  cl_cq : exists c, cqs w !! kc_cq cb = Some c /\ cq_context c = cba;
  cl_rq : kc_rq_wr cb = {| kr_wr_id := 0; kr_sg_list := Some S_recv_sgl; kr_num_sge := 1 |} }.

(** What a client can find in its queue: no completions of RDMA reads and
    writes, which it never posts, and negative error codes. *)
Definition client_poll (p : poll) : Prop :=
  match p with
  | PollEmpty => False
  | PollErr e => e < 0
  | PollWc wc => wc_status wc = IB_WC_SUCCESS ->
      wc_opcode wc <> IB_WC_RDMA_WRITE /\ wc_opcode wc <> IB_WC_RDMA_READ
  end.

Definition kpolls_of (w : world) (cq : kptr) : list poll :=
  match cqs w !! cq with Some c => cq_polls c | None => [] end.

(** After some of the handler: the resources are kept, and only wake-ups are
    added, those of [l]. *)
Record cq_safe (w : world) (cba : addr) (cb : krping_cb) (l : list wq) (w' : world)
    (cb' : krping_cb) : Prop := {
  cs_kept : kkept w w';
  cs_ready : client_ready w' cba cb';
  cs_core : core cb' = core cb;
  cs_woken : woken w' = l ++ woken w }.

(** When the state has changed the waiter has been woken. *)
Definition cq_step (w : world) (cba : addr) (cb : krping_cb) (w' : world) (cb' : krping_cb)
    : Prop :=
  exists l, cq_safe w cba cb l w' cb' /\ (kc_state cb' = kc_state cb \/ WqCb cba ∈ l).

Lemma client_ready_kept w cba cb w' cb' :
  client_ready w cba cb -> kkept w w' -> heap w' !! cba = Some (BKcb cb') ->
  core cb' = core cb -> client_ready w' cba cb'.
Proof.
  intros [H1 H2 H3 (c & H4 & H5) H6] [_ _ _ _ X _ Q _ _] Hcb Hc.
  pose proof (core_field kc_server _ _ (fun _ => eq_refl) Hc) as E1.
  pose proof (core_field kc_qp _ _ (fun _ => eq_refl) Hc) as E2.
  pose proof (core_field kc_cq _ _ (fun _ => eq_refl) Hc) as E3.
  pose proof (core_field kc_rq_wr _ _ (fun _ => eq_refl) Hc) as E4.
  split; [done|congruence|by rewrite E2, Q| |congruence].
  apply (f_equal (fun m => m !! kc_cq cb)) in X. unfold cq_ctxs in X.
  rewrite !lookup_fmap, H4 in X. rewrite E3. destruct (cqs w' !! kc_cq cb) as [c'|]; [|done].
  exists c'. split; [done|]. injection X. congruence.
Qed.

Lemma cq_safe_refl w cba cb : client_ready w cba cb -> cq_safe w cba cb [] w cb.
Proof. by split; [reflexivity|..]. Qed.

Lemma cq_safe_trans w1 c1 l1 cba w2 c2 l2 w3 c3 :
  cq_safe w1 cba c1 l1 w2 c2 -> cq_safe w2 cba c2 l2 w3 c3 ->
  cq_safe w1 cba c1 (l2 ++ l1) w3 c3.
Proof.
  intros [K1 R1 E1 W1] [K2 R2 E2 W2].
  split; [by etransitivity|done|congruence|]. by rewrite W2, W1, app_assoc.
Qed.

Lemma cq_step_trans w1 c1 cba w2 c2 w3 c3 :
  cq_step w1 cba c1 w2 c2 -> cq_step w2 cba c2 w3 c3 -> cq_step w1 cba c1 w3 c3.
Proof.
  intros (l1 & S1 & H1) (l2 & S2 & H2). exists (l2 ++ l1).
  split; [by eapply cq_safe_trans|]. rewrite elem_of_app.
  destruct H1, H2; try (right; tauto). left. congruence.
Qed.

Lemma cq_step_refl w cba cb : client_ready w cba cb -> cq_step w cba cb w cb.
Proof. intros Hr. exists []. split; [by apply cq_safe_refl|by left]. Qed.

(** A change of the block outside its core. *)
Lemma cq_safe_update w cba cb cb' :
  client_ready w cba cb -> core cb' = core cb ->
  cq_safe w cba cb [] (upd_heap (insert cba (BKcb cb')) w) cb'.
Proof.
  intros Hr Hc. assert (Hk : kkept w (upd_heap (insert cba (BKcb cb')) w))
    by (eapply kkept_kcb; [apply Hr|done|reflexivity]).
  split; [done| |done|done]. eapply client_ready_kept; [done|done| |done].
  apply lookup_insert_eq.
Qed.

(** A change of the state that is not of the block. *)
Lemma cq_safe_kept w cba cb l w' :
  client_ready w cba cb -> kkept w w' -> heap w' = heap w -> woken w' = l ++ woken w ->
  cq_safe w cba cb l w' cb.
Proof.
  intros Hr Hk Hh Hw. split; [done| |done|done].
  eapply client_ready_kept; [done|done| |done]. rewrite Hh. apply Hr.
Qed.

Section Cq_events.
Context {K : Kernel} {KK : KrpingKernel}.

Lemma wp_client_update w0 c0 l w cba cb cb' f (Q : unit -> world -> Prop) :
  cq_safe w0 cba c0 l w cb -> cb' = f cb -> core cb' = core cb ->
  (forall w', cq_safe w0 cba c0 l w' cb' -> cqs w' = cqs w -> Q tt w') ->
  wp Total (update cba f) Q w.
Proof.
  intros Hs -> Hc HQ. pose proof (cs_ready _ _ _ _ _ _ Hs) as Hr.
  eapply wp_update; [apply (cl_cb _ _ _ Hr)|done|]. apply HQ; [|done].
  apply (cq_safe_trans w0 c0 l cba w cb []); [done|]. by apply cq_safe_update.
Qed.

Lemma wp_client_wake w0 c0 l w cba cb q (Q : unit -> world -> Prop) :
  cq_safe w0 cba c0 l w cb ->
  (forall w', cq_safe w0 cba c0 (q :: l) w' cb -> cqs w' = cqs w -> Q tt w') ->
  wp Total (wake_up_interruptible q) Q w.
Proof.
  intros Hs HQ. pose proof (cs_ready _ _ _ _ _ _ Hs) as Hr.
  unfold wake_up_interruptible. wp_steps. apply HQ; [|done].
  apply (cq_safe_trans w0 c0 l cba w cb [q]); [done|].
  apply cq_safe_kept; [done| |done|done]. by apply kkept_woken, kkept_log.
Qed.

(** The receive request is posted again. *)
Lemma wp_client_repost w0 c0 l w cba cb (Q : Z -> world -> Prop) :
  cq_safe w0 cba c0 l w cb ->
  (forall r w', cq_safe w0 cba c0 l w' cb -> cqs w' = cqs w -> Q r w') ->
  wp Total (ib_post_recv_wr (kc_qp cb) cb (kc_rq_wr cb)) Q w.
Proof.
  intros Hs HQ. pose proof (cs_ready _ _ _ _ _ _ Hs) as Hr.
  unfold ib_post_recv_wr. rewrite (cl_rq _ _ _ Hr).
  wp_step. wp_step; [apply Hr|]. wp_step. eapply wp_from_option; [reflexivity|].
  wp_step. apply HQ; [|done].
  apply (cq_safe_trans w0 c0 l cba w cb []); [done|].
  apply cq_safe_kept; [done| |done|done]. by apply kkept_log.
Qed.

(** One completion of a client: when it goes on, a change of state has woken
    the waiter. *)
Lemma wp_client_complete w0 c0 l w cba cb wc (Q : bool -> world -> Prop) :
  cq_safe w0 cba c0 l w cb -> client_poll (PollWc wc) ->
  (forall (ok : bool) l' w' cb', cq_safe w0 cba c0 l' w' cb' -> cqs w' = cqs w ->
     (ok = true -> kc_state cb' = kc_state cb /\ l' = l \/ WqCb cba ∈ l') -> Q ok w') ->
  wp Total (krping_complete cba wc) Q w.
Proof.
  intros Hs Hp HQ. pose proof (cs_ready _ _ _ _ _ _ Hs) as Hr. unfold krping_complete.
  destruct (wc_status wc) eqn:Est; [|apply wp_ret; by apply (HQ true l w cb); auto
    |apply wp_ret; by apply (HQ false l w cb)].
  destruct (Hp Est) as [Hnw Hnr]. wp_step.
  eapply wp_load; [apply (cl_cb _ _ _ Hr)|]. unfold count.
  destruct (wc_opcode wc); try done.
  - wp_step. eapply wp_client_update; [done|reflexivity|reflexivity|]. intros w1 H1 Hq1.
    wp_step. eapply HQ; [done|done|]. by left.
  - wp_step. eapply wp_client_update; [done|reflexivity|reflexivity|]. intros w1 H1 Hq1.
    rewrite (cl_server _ _ _ Hr). change (negb (0 =? 0)) with false. cbv iota.
    wp_step. unfold client_recv.
    destruct (wc_byte_len wc =? info_size); cbn [negb]; wp_step.
    2: { change (negb (-1 =? 0)) with true. cbv iota. wp_step. by eapply HQ. }
    pose proof (cs_ready _ _ _ _ _ _ H1) as Hr1.
    eapply wp_load; [apply (cl_cb _ _ _ Hr1)|]. wp_step.
    set (cb1 := set_kc_stats _ cb) in *.
    set (s := if kc_state cb1 =t RDMA_READ_ADV then RDMA_WRITE_ADV else RDMA_WRITE_COMPLETE).
    assert (Hst : wp Total (set_kstate cba s)
      (fun _ w' => cq_safe w0 cba c0 l w' (set_kc_state s cb1) /\ cqs w' = cqs w) w1).
    { eapply wp_client_update; [done|reflexivity|reflexivity|]. intros w2 H2 Hq2.
      split; [done|congruence]. }
    assert (Hgoal : wp Total (if kc_state cb1 =t RDMA_READ_ADV then set_kstate cba RDMA_WRITE_ADV
      else set_kstate cba RDMA_WRITE_COMPLETE)
      (fun _ w' => cq_safe w0 cba c0 l w' (set_kc_state s cb1) /\ cqs w' = cqs w) w1).
    { unfold s in *. by destruct (kc_state cb1 =t RDMA_READ_ADV). }
    eapply wp_mono; [exact Hgoal|]. intros [] w2 [H2 Hq2]. wp_step.
    change (negb (0 =? 0)) with false. cbv iota. wp_step.
    pose proof (cs_ready _ _ _ _ _ _ H2) as Hr2.
    eapply wp_load; [apply (cl_cb _ _ _ Hr2)|]. wp_step.
    eapply wp_client_repost; [done|]. intros ret w3 H3 Hq3.
    destruct (ret =? 0); cbn [negb].
    + wp_step. eapply wp_client_wake; [done|]. intros w4 H4 Hq4. wp_step.
      eapply HQ; [done|congruence|]. right. by left.
    + wp_step. eapply HQ; [done|congruence|done].
  - wp_step. by eapply HQ.
Qed.

Lemma wp_client_cq_error w0 c0 l w cba cb :
  cq_safe w0 cba c0 l w cb ->
  wp Total (krping_cq_error cba) (fun _ w' => exists cb', cq_step w0 cba c0 w' cb'
    /\ kc_state cb' = ERROR) w.
Proof.
  intros Hs. unfold krping_cq_error, set_kstate. wp_step.
  eapply wp_client_update; [done|reflexivity|reflexivity|]. intros w1 H1 _.
  eapply wp_client_wake; [done|]. intros w2 H2 _.
  exists (set_kc_state ERROR cb). split; [|done]. exists (WqCb cba :: l).
  split; [done|right; by left].
Qed.

(** How the completion handler leaves a client: the queue is empty, or the
    block is in state [ERROR]. *)
Definition cq_drained (w : world) (cba : addr) (cb : krping_cb) (w' : world) : Prop :=
  exists cb', cq_step w cba cb w' cb' /\ (kpolls_of w' (kc_cq cb) = [] \/ kc_state cb' = ERROR).

Lemma wp_client_cq_loop w0 c0 fuel w cb cba :
  cq_step w0 cba c0 w cb -> (length (kpolls_of w (kc_cq cb)) < fuel)%nat ->
  Forall client_poll (kpolls_of w (kc_cq cb)) ->
  wp Total (krping_cq_loop fuel cba) (fun _ w' => cq_drained w0 cba c0 w') w.
Proof.
  revert w cb. induction fuel as [|fuel IH]; intros w cb (l & Hs & Hl) Hf Hp; [lia|].
  pose proof (cs_ready _ _ _ _ _ _ Hs) as Hr. destruct (cl_cq _ _ _ Hr) as (c & Hc & Hx).
  assert (Eq : kc_cq cb = kc_cq c0)
    by exact (core_field kc_cq _ _ (fun _ => eq_refl) (cs_core _ _ _ _ _ _ Hs)).
  unfold kpolls_of in Hf, Hp. rewrite Hc in Hf, Hp. cbn [krping_cq_loop].
  wp_step. eapply wp_load; [apply Hr|]. wp_step. unfold ib_poll_cq, live_cq.
  wp_step. wp_step. wp_step. eapply wp_from_option; [exact Hc|].
  set (c' := c <| cq_polls := tl (cq_polls c) |>).
  assert (Hw1 : forall p, cq_safe w0 cba c0 l (log (EvPollCq (kc_cq cb) p)
    (upd_cqs (insert (kc_cq cb) c') w)) cb).
  { intros p. apply (cq_safe_trans w0 c0 l cba w cb []); [done|].
    apply cq_safe_kept; [done| |done|done]. apply kkept_log.
    by eapply kkept_polls; [exact Hc| |]. }
  assert (Hw2 : forall p, kpolls_of (log (EvPollCq (kc_cq cb) p)
    (upd_cqs (insert (kc_cq cb) c') w)) (kc_cq cb) = tl (cq_polls c)).
  { intros p. unfold kpolls_of. wsimpl. by rewrite lookup_insert_eq. }
  destruct (cq_polls c) as [|p ps] eqn:Eps; cbn [hd tl length] in *.
  { do 5 wp_step. exists cb. split; [by exists l|]. left. rewrite <- Eq. apply Hw2. }
  apply list.Forall_cons_1 in Hp as [Hp Hps]. do 5 wp_step.
  set (w1 := log _ _). specialize (Hw1 p : cq_safe w0 cba c0 l w1 cb).
  specialize (Hw2 p : kpolls_of w1 (kc_cq cb) = ps).
  destruct p as [|e|wc]; [done| |].
  - cbn in Hp. rewrite (proj2 (Z.eqb_neq e 0)) by lia. cbn [negb].
    eapply wp_mono; [by eapply wp_client_cq_error|].
    intros [] w2 (cb2 & H2 & He). exists cb2. split; [done|by right].
  - wp_step. eapply wp_client_complete; [exact Hw1|done|].
    intros ok l2 w2 cb2 H2 Hq2 Hok.
    assert (Eq2 : kc_cq cb2 = kc_cq cb).
    { rewrite Eq. exact (core_field kc_cq _ _ (fun _ => eq_refl) (cs_core _ _ _ _ _ _ H2)). }
    assert (Hps2 : kpolls_of w2 (kc_cq cb2) = ps)
      by (rewrite Eq2, <- Hw2; unfold kpolls_of; by rewrite Hq2).
    destruct ok.
    + apply (IH _ cb2); [|rewrite Hps2; lia|by rewrite Hps2].
      exists l2. split; [done|]. destruct (Hok eq_refl) as [[E1 ->]|]; [|by right].
      rewrite E1. exact Hl.
    + eapply wp_mono; [by eapply wp_client_cq_error|].
      intros [] w3 (cb3 & H3 & He). exists cb3. split; [done|by right].
Qed.

(** C26. The completion handler of a client ends, with the queue empty or the
    block in state [ERROR], whatever completions and errors it finds and
    whatever [ib_post_recv] answers; when it has changed the state it has
    woken the waiter, and it touches nothing but state and counters of the
    block. *)
Theorem krping_cq_outcome w cba cb :
  client_ready w cba cb -> kc_state cb <> ERROR -> kc_frtest cb = 0 ->
  Forall client_poll (kpolls_of w (kc_cq cb)) ->
  exists w', krping_cq_event_handler (kc_cq cb) cba w = Ok tt w' /\ cq_drained w cba cb w'.
Proof.
  intros Hr Hst Hfr Hp. apply (wp_total_unit _ (fun _ => cq_drained w cba cb)). unfold krping_cq_event_handler.
  wp_step. eapply wp_load; [apply Hr|]. rewrite bool_decide_eq_true_2 by done. cbn [negb].
  replace (kc_state cb =t ERROR) with false
    by (symmetry; apply Z.eqb_neq; by destruct (kc_state cb)).
  rewrite Hfr. change (negb (0 =? 0)) with false. cbv iota.
  destruct (cl_cq _ _ _ Hr) as (c & Hc & Hx).
  wp_step. unfold ib_req_notify_cq, live_cq. wp_step. wp_step. wp_step.
  eapply wp_from_option; [exact Hc|]. wp_step. wp_step. wp_step. wp_step.
  eapply wp_from_option; [exact Hc|].
  set (w1 := log _ w).
  assert (Hpw : kpolls_of w1 (kc_cq cb) = cq_polls c)
    by (unfold kpolls_of, w1; wsimpl; by rewrite Hc).
  unfold kpolls_of in Hp. rewrite Hc in Hp.
  apply (wp_client_cq_loop _ _ _ _ cb); rewrite ?Hpw; [|lia|done].
  exists []. split; [|by left]. apply cq_safe_kept; [done| |done|done].
  by apply kkept_log.
Qed.

(** A completion of an RDMA read or write, which only a server would post,
    makes the handler follow [rdma_sq_wr.wr.sg_list], which nothing sets. *)
Theorem rdma_completion_null_deref w cba cb wc :
  heap w !! cba = Some (BKcb cb) -> kc_rdma_sq_sg_list cb = None ->
  wc_status wc = IB_WC_SUCCESS ->
  wc_opcode wc = IB_WC_RDMA_WRITE \/ wc_opcode wc = IB_WC_RDMA_READ ->
  krping_complete cba wc w = Undef NullDeref.
Proof.
  intros Hcb Hsg Hst Hop. unfold krping_complete. rewrite Hst.
  erewrite bind_run by by apply load_run.
  destruct Hop as [-> | ->]; apply bind_undef; unfold rdma_sg_length; by rewrite Hsg.
Qed.
End Cq_events.

(** ** Events of others *)

(** The state of the block at [cba]. *)
Definition kstate_at (cba : addr) (w : world) : option test_state :=
  match heap w !! cba with Some (BKcb cb) => Some (kc_state cb) | _ => None end.

(** An event that is none of the client's at [cba]: no signal, and no event of
    an id or a completion queue whose context is that block. *)
Definition quiet (w : world) (cba : addr) (e : async) : Prop :=
  match e with
  | ACm id _ => forall i, cms w !! id = Some i -> cm_context i <> cba
  | ACq cq _ => forall c, cqs w !! cq = Some c -> cq_context c <> cba
  | ADma _ _ => True
  | AConnReq _ _ | ASignal => False
  end.

Lemma quiet_kept w0 w cba e : kkept w0 w -> quiet w0 cba e -> quiet w cba e.
Proof.
  intros [_ _ _ M X _ _ _ _]. destruct e; cbn [quiet]; [by rewrite M|done| |done|done].
  intros Hq c Hc. apply (f_equal (fun m => m !! cq)) in X. unfold cq_ctxs in X.
  rewrite !lookup_fmap, Hc in X. destruct (cqs w0 !! cq) as [c0|]; [|done].
  cbn in X. injection X as ->. by apply Hq.
Qed.

Section Quiet.
Context {K : Kernel} {KK : KrpingKernel} (cba : addr).
Notation still := (within (same (kstate_at cba))).

Section Other.
Context (a : addr) (Hne : a <> cba).

Lemma kstate_at_other b w : kstate_at cba (upd_heap (insert a b) w) = kstate_at cba w.
Proof. unfold kstate_at. wsimpl. by rewrite lookup_insert_ne. Qed.
Lemma still_store `{InBlock T} (x : T) : still (store a x).
Proof. intros w. apply wp_store_p. intros _ _. apply kstate_at_other. Qed.
#[local] Hint Resolve still_store : within.

Lemma still_poll cq : still (ib_poll_cq cq).
Proof. unfold ib_poll_cq. solve_within. Qed.
Lemma still_server_recv wc : still (server_recv a wc).
Proof. unfold server_recv, set_kstate. solve_within. Qed.
Lemma still_client_recv wc : still (client_recv a wc).
Proof. unfold client_recv, set_kstate. solve_within. Qed.
#[local] Hint Resolve still_poll still_server_recv still_client_recv : within.
Lemma still_complete wc : still (krping_complete a wc).
Proof.
  unfold krping_complete, rdma_sg_length, count, set_kstate, ib_post_recv_wr. solve_within.
Qed.
Lemma still_cq_error : still (krping_cq_error a).
Proof. unfold krping_cq_error, set_kstate. solve_within. Qed.
#[local] Hint Resolve still_complete still_cq_error : within.
Lemma still_cq_loop fuel : still (krping_cq_loop fuel a).
Proof. induction fuel; cbn [krping_cq_loop]; solve_within. Qed.
#[local] Hint Resolve still_cq_loop : within.
Lemma still_cq_handler cq : still (krping_cq_event_handler cq a).
Proof. unfold krping_cq_event_handler. solve_within. Qed.
End Other.

Lemma still_dma_write a l : still (krping_dma_write a l).
Proof.
  intros w. unfold krping_dma_write. do 2 wp_step.
  assert (Hd : forall b, heap w !! a = Some b -> (forall cb, b <> BKcb cb) ->
    wp Partial (dma_write a l) (fun _ w' => same (kstate_at cba) w w') w).
  { intros b Hb Hn. unfold dma_write. wp_step. rewrite Hb. destruct b; try done.
    destruct (decide _); [|done]. unfold same, kstate_at. wsimpl.
    destruct (decide (a = cba)) as [<-|]; [by rewrite lookup_insert_eq, Hb|].
    by rewrite lookup_insert_ne. }
  destruct (heap w !! a) as [b|] eqn:Ha.
  2: { unfold dma_write. wp_step. by rewrite Ha. }
  destruct b; try by eapply Hd. destruct (decide _); [|by wp_step].
  wp_step_p. unfold same, kstate_at. wsimpl.
  destruct (decide (a = cba)) as [<-|]; [|by rewrite lookup_insert_ne].
  rewrite lookup_insert_eq. match goal with H : heap w !! a = Some (inj ?x) |- _ => by rewrite H end.
Qed.

Lemma wp_deliver_quiet w e :
  quiet w cba e -> wp Partial (deliver e) (fun _ w' => kstate_at cba w' = kstate_at cba w) w.
Proof.
  intros Hq. destruct e as [id ev| |cq ps|a l|]; try done; cbn [quiet] in Hq.
  - destruct (cms w !! id) as [i|] eqn:Hi.
    2: { unfold deliver, krping_delivery, krping_deliver. wp_step. wp_step. rewrite Hi.
         by wp_step. }
    specialize (Hq i eq_refl).
    assert ((exists cb, heap w !! cm_context i = Some (BKcb cb)) \/
      forall cb, heap w !! cm_context i <> Some (BKcb cb)) as [[cb Hcb]|Hno].
    { destruct (heap w !! cm_context i) as [[]|]; eauto; by right. }
    + eapply wp_krping_deliver_cm; [done|done|]. intros w1 [Hh _ _ _ _]. unfold kstate_at.
      wsimpl. by rewrite Hh, lookup_insert_ne.
    + unfold deliver, krping_delivery, krping_deliver, krping_deliver_cm,
        krping_cma_event_handler, cm_id. wp_step. wp_step. rewrite Hi. do 4 wp_step.
      eapply wp_from_option; [exact Hi|]. wp_step. apply wp_load_p. intros cb Hcb. by destruct (Hno cb).
  - unfold deliver, krping_delivery, krping_deliver.
    wp_step. wp_step. destruct (cqs w !! cq) as [c|] eqn:Hc; [|by wp_step].
    wp_step. wp_step. eapply wp_mono; [apply still_cq_handler; by apply Hq|]. done.
  - apply still_dma_write.
Qed.
End Quiet.
