(* ===== verification/KrpingBufs.v ===== *)
(** * KrpingBufs: verbs objects and buffers of the ping module ([bak/krping.c])

    [krping_setup_qp] and [krping_setup_buffers], which make what a ping needs,
    and [krping_free_qp] and [krping_free_buffers], which give it back. *)
From stdpp Require Import gmultiset.
From S2P Require Import Prelude Types KrpingTypes Kernel Logic Verbs Wait KrpingEnv KrpingFrame.
Import Krping.

Definition PAGE_SHIFT : Z := 12.
Definition PAGE_SIZE : Z := 4096.
Definition PAGE_MASK : Z := 2 ^ 64 - PAGE_SIZE.

(** [(((cb->size - 1) & PAGE_MASK) + PAGE_SIZE) >> PAGE_SHIFT], of [unsigned
    long] type, stored in an [int]. *)
Definition page_list_len (size : Z) : Z :=
  i32 (Z.shiftr (u64 (Z.land (u64 (i32 (size - 1))) PAGE_MASK + PAGE_SIZE)) PAGE_SHIFT).

(** [p && !IS_ERR(p)], and [p] as a condition. *)
Definition non_null (p : kptr) : bool := negb (bool_decide (p = KPtr NULL)).
Definition usable (p : kptr) : bool := non_null p && negb (IS_ERR p).

Section KrpingBufs.
Context {K : Kernel} {KK : KrpingKernel}.

Definition krping_setup_wr (cba : addr) : M unit :=
  cb ← load cba;
  lkey ← pd_local_dma_lkey (kc_pd cb);
  update cba (set_kc_recv_sgl
    {| sge_addr := kc_recv_dma_addr cb; sge_length := info_size; sge_lkey := lkey |});;
  update cba (set_kc_rq_wr ((kc_rq_wr cb)
    <| kr_sg_list := Some S_recv_sgl |> <| kr_num_sge := 1 |>));;
  update cba (set_kc_send_sgl
    {| sge_addr := kc_send_dma_addr cb; sge_length := info_size; sge_lkey := lkey |});;
  update cba (set_kc_sq_wr ((kc_sq_wr cb)
    <| ks_opcode := IB_WR_SEND |> <| ks_send_flags := IB_SEND_SIGNALED |>
    <| ks_sg_list := Some S_send_sgl |> <| ks_num_sge := 1 |>));;
  update cba (set_kc_reg_mr_wr ((kc_reg_mr_wr cb)
    <| rw_wr := (rw_wr (kc_reg_mr_wr cb)) <| ks_opcode := IB_WR_REG_MR |> |>
    <| rw_mr := kc_reg_mr cb |>));;
  update cba (set_kc_invalidate_wr ((kc_invalidate_wr cb)
    <| ks_next := Some W_reg_mr_wr |> <| ks_opcode := IB_WR_LOCAL_INV |>)).

(** [bail]: what has been made is destroyed. *)
Definition krping_setup_bail (cba : addr) (ret : Z) : M Z :=
  cb ← load (T := krping_cb) cba;
  (if usable (kc_reg_mr cb) then ib_dereg_mr (kc_reg_mr cb) else mret tt);;
  (if usable (kc_rdma_mr cb) then ib_dereg_mr (kc_rdma_mr cb) else mret tt);;
  (if usable (kc_dma_mr cb) then ib_dereg_mr (kc_dma_mr cb) else mret tt);;
  dev ← pd_device (kc_pd cb);
  (if negb (kc_rdma_buf cb =? NULL)
   then ib_dma_free_coherent dev (kc_size cb) (kc_rdma_buf cb) (kc_rdma_dma_addr cb)
   else mret tt);;
  (if negb (kc_start_buf cb =? NULL)
   then ib_dma_free_coherent dev (kc_size cb) (kc_start_buf cb) (kc_start_dma_addr cb)
   else mret tt);;
  mret ret.

(** [krping_setup_buffers]: the mappings of the two messages, and the rest. *)
Definition krping_map_info (cba : addr) (dev : Z) : M unit :=
  recv ← ib_dma_map_single dev (cba + kk_recv_buf_off) info_size;
  update cba (set_kc_recv_dma_addr recv);;
  update cba (set_kc_recv_mapping recv);;
  send ← ib_dma_map_single dev (cba + kk_send_buf_off) info_size;
  update cba (set_kc_send_dma_addr send);;
  update cba (set_kc_send_mapping send).

Definition krping_alloc_bufs (cba : addr) (cb : krping_cb) (dev : Z) : M Z :=
  '(buf, dma) ← ib_dma_alloc_coherent dev (kc_size cb);
  update cba (set_kc_rdma_buf buf);;
  (if buf =? NULL then mret tt else update cba (set_kc_rdma_dma_addr dma));;
  if buf =? NULL then krping_setup_bail cba (- ENOMEM) else
  update cba (set_kc_rdma_mapping dma);;
  update cba (set_kc_page_list_len (page_list_len (kc_size cb)));;
  mr ← ib_alloc_mr (kc_pd cb) (page_list_len (kc_size cb));
  update cba (set_kc_reg_mr mr);;
  if IS_ERR mr then krping_setup_bail cba (PTR_ERR mr) else
  '(buf, dma) ← ib_dma_alloc_coherent dev (kc_size cb);
  update cba (set_kc_start_buf buf);;
  (if buf =? NULL then mret tt else update cba (set_kc_start_dma_addr dma));;
  if buf =? NULL then krping_setup_bail cba (- ENOMEM) else
  update cba (set_kc_start_mapping dma);;
  krping_setup_wr cba;;
  mret 0.

Definition krping_setup_buffers (cba : addr) : M Z :=
  cb ← load (T := krping_cb) cba;
  dev ← pd_device (kc_pd cb);
  krping_map_info cba dev;;
  krping_alloc_bufs cba cb dev.

Definition krping_free_buffers (cba : addr) : M unit :=
  cb ← load (T := krping_cb) cba;
  (if non_null (kc_dma_mr cb) then ib_dereg_mr (kc_dma_mr cb) else mret tt);;
  (if non_null (kc_rdma_mr cb) then ib_dereg_mr (kc_rdma_mr cb) else mret tt);;
  (if non_null (kc_start_mr cb) then ib_dereg_mr (kc_start_mr cb) else mret tt);;
  (if non_null (kc_reg_mr cb) then ib_dereg_mr (kc_reg_mr cb) else mret tt);;
  dev ← pd_device (kc_pd cb);
  dma_unmap_single dev (kc_recv_mapping cb) info_size;;
  dma_unmap_single dev (kc_send_mapping cb) info_size;;
  ib_dma_free_coherent dev (kc_size cb) (kc_rdma_buf cb) (kc_rdma_dma_addr cb);;
  if negb (kc_start_buf cb =? NULL)
  then ib_dma_free_coherent dev (kc_size cb) (kc_start_buf cb) (kc_start_dma_addr cb)
  else mret tt.

Definition krping_create_qp (cba : addr) : M Z :=
  cb ← load cba;
  let attr := {| qa_cap := {| cap_max_send_wr := u32 (u32 (kc_txdepth cb) + 1);
                              cap_max_recv_wr := u32 (2 + 1);
                              cap_max_recv_sge := 1; cap_max_send_sge := 1 |};
                 qa_send_cq := kc_cq cb; qa_recv_cq := kc_cq cb |} in
  let id := if negb (kc_server cb =? 0) then kc_child_cm_id cb else kc_cm_id cb in
  ret ← rdma_create_qp id (kc_pd cb) attr;
  (if ret =? 0 then i ← cm_id id; update cba (set_kc_qp (cm_qp i)) else mret tt);;
  mret ret.

Definition krping_free_qp (cba : addr) : M unit :=
  cb ← load (T := krping_cb) cba;
  ib_destroy_qp (kc_qp cb);;
  ib_destroy_cq (kc_cq cb);;
  ib_dealloc_pd (kc_pd cb).

Definition krping_setup_qp_err1 (cba : addr) (ret : Z) : M Z :=
  cb ← load (T := krping_cb) cba; ib_dealloc_pd (kc_pd cb);; mret ret.
Definition krping_setup_qp_err2 (cba : addr) (ret : Z) : M Z :=
  cb ← load (T := krping_cb) cba; ib_destroy_cq (kc_cq cb);; krping_setup_qp_err1 cba ret.

Definition krping_setup_qp (cba : addr) (id : kptr) : M Z :=
  dev ← cm_device id;
  pd ← ib_alloc_pd dev;
  update cba (set_kc_pd pd);;
  if IS_ERR pd then mret (PTR_ERR pd) else
  dev ← cm_device id;
  cq ← ib_create_cq dev cba;
  update cba (set_kc_cq cq);;
  if IS_ERR cq then krping_setup_qp_err1 cba (PTR_ERR cq) else
  ret ← ib_req_notify_cq cq;
  if negb (ret =? 0) then krping_setup_qp_err2 cba ret else
  ret ← krping_create_qp cba;
  if negb (ret =? 0) then krping_setup_qp_err2 cba ret else mret 0.
End KrpingBufs.

(** ** Pages *)

Lemma page_list_len_value size :
  1 <= size <= RPING_BUFSIZE ->
  page_list_len size = (size - 1) / 4096 + 1 /\ 0 <= (size - 1) / 4096 < 32.
Proof.
  intros Hs. unfold RPING_BUFSIZE in Hs.
  assert (Hm : Z.land (size - 1) PAGE_MASK = (size - 1) - (size - 1) mod 2 ^ 12).
  { replace PAGE_MASK with (Z.ldiff (Z.ones 64) (Z.ones 12)) by reflexivity.
    rewrite Z.ldiff_land, Z.land_assoc.
    rewrite (Z.land_ones (size - 1) 64), Z.mod_small by lia.
    rewrite <- Z.ldiff_land, Z.ldiff_ones_r, Z.shiftr_div_pow2, Z.shiftl_mul_pow2 by lia.
    rewrite (Z.mod_eq (size - 1)) by lia. lia. }
  assert (Hq : 0 <= (size - 1) / 4096 < 32)
    by (split; [apply Z.div_pos|apply Z.div_lt_upper_bound]; lia).
  split; [|done]. unfold page_list_len, i32, u64.
  rewrite (sint_small 32 (size - 1)) by (unfold in_i; lia).
  rewrite (uint_small 64 (size - 1)), Hm by (unfold in_u; lia).
  change (2 ^ 12) with 4096. unfold PAGE_SIZE, PAGE_SHIFT.
  pose proof (Z.mod_pos_bound (size - 1) 4096) as Hb.
  pose proof (Z.div_mod (size - 1) 4096) as Hd.
  rewrite uint_small by (unfold in_u; lia).
  rewrite Z.shiftr_div_pow2 by lia. change (2 ^ 12) with 4096.
  replace (size - 1 - (size - 1) mod 4096 + 4096) with (((size - 1) / 4096 + 1) * 4096) by lia.
  rewrite Z.div_mul by lia. apply sint_small; [lia|]. unfold in_i. lia.
Qed.

(** The region is sized in whole pages: for a size the options allow,
    [page_list_len] is the least number of pages that hold it, between 1 and
    32, so that no step of its computation wraps. *)
Theorem page_list_len_pages size :
  1 <= size <= RPING_BUFSIZE ->
  page_list_len size = (size + PAGE_SIZE - 1) / PAGE_SIZE /\ 1 <= page_list_len size <= 32
  /\ (page_list_len size - 1) * PAGE_SIZE < size <= page_list_len size * PAGE_SIZE.
Proof.
  intros Hs. destruct (page_list_len_value size Hs) as [Hp Hq].
  pose proof (Z.div_mod (size - 1) 4096). pose proof (Z.mod_pos_bound (size - 1) 4096).
  unfold PAGE_SIZE. rewrite Hp. split; [|lia].
  replace (size + 4096 - 1) with (size - 1 + 1 * 4096) by lia. by rewrite Z.div_add.
Qed.

(** ** Buffers *)

(** A client whose buffers have not been made. *)
Record no_buffers (cb : krping_cb) : Prop := {
  nb_dma_mr : kc_dma_mr cb = KPtr NULL;
  nb_rdma_mr : kc_rdma_mr cb = KPtr NULL;
  nb_start_mr : kc_start_mr cb = KPtr NULL;
  nb_reg_mr : kc_reg_mr cb = KPtr NULL;
  nb_rdma_buf : kc_rdma_buf cb = NULL;
  nb_start_buf : kc_start_buf cb = NULL }.

(** The fields that [krping_setup_wr] fills in. *)
Definition wr_cb (lkey : Z) (cb : krping_cb) : krping_cb :=
  set_kc_invalidate_wr ((kc_invalidate_wr cb)
    <| ks_next := Some W_reg_mr_wr |> <| ks_opcode := IB_WR_LOCAL_INV |>)
  (set_kc_reg_mr_wr ((kc_reg_mr_wr cb)
    <| rw_wr := (rw_wr (kc_reg_mr_wr cb)) <| ks_opcode := IB_WR_REG_MR |> |>
    <| rw_mr := kc_reg_mr cb |>)
  (set_kc_sq_wr ((kc_sq_wr cb)
    <| ks_opcode := IB_WR_SEND |> <| ks_send_flags := IB_SEND_SIGNALED |>
    <| ks_sg_list := Some S_send_sgl |> <| ks_num_sge := 1 |>)
  (set_kc_send_sgl
    {| sge_addr := kc_send_dma_addr cb; sge_length := info_size; sge_lkey := lkey |}
  (set_kc_rq_wr ((kc_rq_wr cb) <| kr_sg_list := Some S_recv_sgl |> <| kr_num_sge := 1 |>)
  (set_kc_recv_sgl
    {| sge_addr := kc_recv_dma_addr cb; sge_length := info_size; sge_lkey := lkey |} cb))))).

(** The block after the mappings, after the sink buffer, after the region and
    after the source buffer. *)
Definition mapped_cb (recv send : Z) (cb : krping_cb) : krping_cb :=
  set_kc_send_mapping send (set_kc_send_dma_addr send
    (set_kc_recv_mapping recv (set_kc_recv_dma_addr recv cb))).
Definition sink_cb (a dma : Z) (cb : krping_cb) : krping_cb :=
  set_kc_page_list_len (page_list_len (kc_size cb))
    (set_kc_rdma_mapping dma (set_kc_rdma_dma_addr dma (set_kc_rdma_buf a cb))).
Definition source_cb (a dma : Z) (cb : krping_cb) : krping_cb :=
  set_kc_start_mapping dma (set_kc_start_dma_addr dma (set_kc_start_buf a cb)).

(** The answers to the calls of a set-up. *)
Record buf_answers := {
  ba_recv : Z; ba_send : Z; ba_sink : Z; ba_source : Z; ba_mr : ib_mr; ba_lkey : Z;
  ba_v1 : Z; ba_v2 : Z }.

Definition buffers_cb (n : addr) (b : buf_answers) (cb : krping_cb) : krping_cb :=
  wr_cb (ba_lkey b) (source_cb (n + 2) (ba_source b) (set_kc_reg_mr (KPtr (n + 1))
    (sink_cb n (ba_sink b) (mapped_cb (ba_recv b) (ba_send b) cb)))).

(** The three new blocks. *)
Definition put_buffers (n : addr) (size : nat) (b : buf_answers) (h : gmap addr block)
    : gmap addr block :=
  <[n + 2 := BBytes (le_bytes size (ba_v2 b))]> (<[n + 1 := BMr (ba_mr b)]>
    (<[n := BBytes (le_bytes size (ba_v1 b))]> h)).

(** What a call of [ib_dma_map_single] adds to the mappings: nothing when it
    answers that it has failed. *)
Definition add_mapping (m : Z) (s : gmultiset Z) : gmultiset Z :=
  if dma_failed m then s else {[+ m +]} ⊎ s.
(** An answer of [ib_dma_map_single], and kernels whose mappings never fail. *)
Definition map_answer `{K : Kernel} (m : Z) : Prop := exists h d a n, m = k_dma_map h d a n.
Definition mappings_valid (K : Kernel) : Prop :=
  forall h d a n, dma_failed (k_dma_map h d a n) = false.

Lemma upd_dmas_id w : upd_dmas (fun s => s) w = w.
Proof. by destruct w. Qed.
Lemma map_answer_valid `{K : Kernel} m : mappings_valid K -> map_answer m -> dma_failed m = false.
Proof. intros Hv (h & d & a & n & ->). apply Hv. Qed.

Record bufs_ready `{K : Kernel} (w : world) (cba : addr) (cb : krping_cb) (b : buf_answers) (w' : world)
    : Prop := {
  br_heap : heap w' = <[cba := BKcb (buffers_cb (next w) b cb)]>
    (put_buffers (next w) (Z.to_nat (kc_size cb)) b (heap w));
  br_next : next w' = next w + 3;
  br_dmas : map_answer (ba_recv b) /\ map_answer (ba_send b)
    /\ dmas w' = add_mapping (ba_send b) (add_mapping (ba_recv b) (dmas w));
  br_rest : cms w' = cms w /\ cqs w' = cqs w /\ pds w' = pds w /\ qps w' = qps w
    /\ sched w' = sched w /\ woken w' = woken w }.

(** The block names the same objects. *)
Definition same_links (cb cb' : krping_cb) : Prop :=
  kc_cm_id cb' = kc_cm_id cb /\ kc_pd cb' = kc_pd cb /\ kc_cq cb' = kc_cq cb
  /\ kc_qp cb' = kc_qp cb.

(** After a failure: the mappings are left behind, the rest is as before
    but for the block. *)
Record bufs_failed `{K : Kernel} (w : world) (cba : addr) (cb : krping_cb) (recv send : Z) (w' : world)
    : Prop := {
  bf_heap : exists cb', heap w' = <[cba := BKcb cb']> (heap w) /\ same_links cb cb';
  bf_dmas : map_answer recv /\ map_answer send
    /\ dmas w' = add_mapping send (add_mapping recv (dmas w));
  bf_rest : cms w' = cms w /\ cqs w' = cqs w /\ pds w' = pds w /\ qps w' = qps w
    /\ sched w' = sched w /\ woken w' = woken w }.

(** Coherent memory and memory regions never run out. *)
Definition buffers_available (KK : KrpingKernel) : Prop :=
  (forall h d n, kk_alloc_coherent h d n <> None)
  /\ (forall h pd n e, kk_alloc_mr h pd n <> inl e).

Section Buffers.
Context {K : Kernel} {KK : KrpingKernel}.

Lemma wp_alloc_coherent t dev size w (Q : addr * Z -> world -> Prop) :
  (forall v m, Q (next w, m) (log (EvKrping (KEvAllocCoherent dev size (next w) m))
     (set_next (next w + 1) (upd_heap
       (insert (next w) (BBytes (le_bytes (Z.to_nat size) v))) (log (EvStack v) w))))) ->
  (forall v, kk_alloc_coherent (EvStack v :: trace w) dev size = None ->
     Q (NULL, 0) (log (EvKrping (KEvAllocCoherent dev size NULL 0)) (log (EvStack v) w))) ->
  wp t (ib_dma_alloc_coherent dev size) Q w.
Proof.
  intros H1 H2. unfold ib_dma_alloc_coherent, kemit. do 4 wp_step. wp_step.
  destruct (kk_alloc_coherent _ _ _) eqn:E; wp_steps; [apply H1|by apply H2].
Qed.

Lemma wp_free_coherent t dev size a m l w (Q : unit -> world -> Prop) :
  heap w !! a = Some (BBytes l) -> length l = Z.to_nat size ->
  Q tt (upd_heap (delete a) (log (EvKrping (KEvFreeCoherent dev size a m)) w)) ->
  wp t (ib_dma_free_coherent dev size a m) Q w.
Proof.
  intros Ha Hl HQ. unfold ib_dma_free_coherent, kemit. wp_step. wp_step. rewrite Ha.
  rewrite decide_True by done. wp_steps. exact HQ.
Qed.

Lemma wp_alloc_mr t pd n w (Q : kptr -> world -> Prop) :
  pd ∈ pds w ->
  (forall mr, Q (KPtr (next w)) (log (EvKrping (KEvAllocMr pd n (KPtr (next w))))
     (set_next (next w + 1) (upd_heap (insert (next w) (BMr mr)) w)))) ->
  (forall e, kk_alloc_mr (trace w) pd n = inl e ->
     Q (KErr e) (log (EvKrping (KEvAllocMr pd n (KErr e))) w)) ->
  wp t (ib_alloc_mr pd n) Q w.
Proof.
  intros Hpd H1 H2. unfold ib_alloc_mr, kemit. do 4 wp_step.
  destruct (kk_alloc_mr _ _ _); wp_steps; [by apply H2|apply H1].
Qed.

Lemma wp_dereg_mr t a mr w (Q : unit -> world -> Prop) :
  heap w !! a = Some (BMr mr) ->
  Q tt (upd_heap (delete a) (log (EvKrping (KEvDeregMr a)) w)) ->
  wp t (ib_dereg_mr (KPtr a)) Q w.
Proof. intros Ha HQ. unfold ib_dereg_mr, kptr_addr, kemit. wp_steps. exact HQ. Qed.

Lemma wp_krping_setup_wr t w cba cb (Q : unit -> world -> Prop) :
  heap w !! cba = Some (BKcb cb) -> kc_pd cb ∈ pds w ->
  (forall lkey, Q tt (upd_heap (insert cba (BKcb (wr_cb lkey cb))) w)) ->
  wp t (krping_setup_wr cba) Q w.
Proof.
  intros Hcb Hpd HQ. specialize (HQ (k_pd_local_dma_lkey (kc_pd cb))).
  unfold krping_setup_wr, pd_local_dma_lkey. do 6 wp_step.
  do 5 (wp_step; wp_step). wp_step. revert HQ. wsimpl. rewrite !upd_heap_insert_twice. done.
Qed.

(** Errors of [ib_alloc_mr] are error codes. *)
Context (Herr : forall h pd n e, kk_alloc_mr h pd n = inl e -> e <> 0).

Lemma wp_dma_map t dev a n w (Q : Z -> world -> Prop) :
  (forall r, map_answer r -> Q r (upd_dmas (add_mapping r) (log (EvDmaMap dev a n r) w))) ->
  wp t (ib_dma_map_single dev a n) Q w.
Proof.
  intros HQ. unfold ib_dma_map_single. wp_step. wp_step. set (r := k_dma_map _ _ _ _).
  specialize (HQ r ltac:(by do 4 eexists)). unfold add_mapping in HQ.
  destruct (dma_failed r); wp_steps; [|exact HQ]. by rewrite upd_dmas_id in HQ.
Qed.

(** The mappings of a set-up. *)
Definition mapped (w : world) (cba : addr) (cb : krping_cb) (recv send : Z) (w' : world)
    : Prop :=
  heap w' = <[cba := BKcb (mapped_cb recv send cb)]> (heap w) /\ next w' = next w
  /\ (map_answer recv /\ map_answer send
      /\ dmas w' = add_mapping send (add_mapping recv (dmas w)))
  /\ cms w' = cms w /\ cqs w' = cqs w /\ pds w' = pds w /\ qps w' = qps w
  /\ sched w' = sched w /\ woken w' = woken w.

(** What [bail] frees of a block without a source buffer. *)
Definition bail_heap (cb : krping_cb) (h : gmap addr block) : gmap addr block :=
  let h := match kc_reg_mr cb with
           | KPtr a => if a =? NULL then h else delete a h
           | KErr _ => h
           end in
  if kc_rdma_buf cb =? NULL then h else delete (kc_rdma_buf cb) h.

Lemma wp_krping_bail t w cba cb ret (Q : Z -> world -> Prop) :
  heap w !! cba = Some (BKcb cb) -> kc_pd cb ∈ pds w ->
  kc_rdma_mr cb = KPtr NULL -> kc_dma_mr cb = KPtr NULL -> kc_start_buf cb = NULL ->
  (forall a, kc_reg_mr cb = KPtr a -> a <> NULL -> exists m, heap w !! a = Some (BMr m)) ->
  (kc_rdma_buf cb <> NULL -> exists l, heap w !! kc_rdma_buf cb = Some (BBytes l)
     /\ length l = Z.to_nat (kc_size cb)) ->
  (forall w', heap w' = bail_heap cb (heap w) -> next w' = next w -> objs w' = objs w ->
     sched w' = sched w -> woken w' = woken w -> Q ret w') ->
  wp t (krping_setup_bail cba ret) Q w.
Proof.
  intros Hcb Hpd N1 N2 N6 Hmr Hbuf HQ. unfold krping_setup_bail.
  wp_step. wp_step. rewrite N1, N2, N6. wp_step.
  set (h1 := match kc_reg_mr cb with
             | KPtr a => if a =? NULL then heap w else delete a (heap w)
             | KErr _ => heap w
             end).
  assert (H1 : wp t (if usable (kc_reg_mr cb) then ib_dereg_mr (kc_reg_mr cb) else mret ())
    (fun _ w1 => heap w1 = h1 /\ next w1 = next w /\ objs w1 = objs w /\ sched w1 = sched w
       /\ woken w1 = woken w) w).
  { unfold usable, non_null, h1. destruct (kc_reg_mr cb) as [a|e]; cbn [IS_ERR negb].
    - rewrite andb_true_r. destruct (Z.eqb_spec a NULL) as [->|Hne].
      + rewrite bool_decide_eq_true_2 by done. by wp_step.
      + rewrite bool_decide_eq_false_2 by congruence. cbn [negb].
        destruct (Hmr a eq_refl Hne) as [m Hm]. by eapply wp_dereg_mr.
    - rewrite andb_false_r. by wp_step. }
  eapply wp_mono; [exact H1|]. intros [] w1 (Hh1 & Hn1 & Ho1 & Hs1 & Hw1). cbv beta.
  pose proof (objs_inv _ _ Ho1) as (_ & _ & Ep & _).
  change (usable (KPtr NULL)) with false. cbv iota. do 4 wp_step.
  wp_step. unfold pd_device. wp_step. wp_step; [by rewrite Ep|]. wp_step. wp_step.
  unfold bail_heap in HQ. fold h1 in HQ. change (negb (NULL =? NULL)) with false. cbv iota.
  destruct (Z.eqb_spec (kc_rdma_buf cb) NULL) as [Hz|Hnz]; cbn [negb].
  - do 4 wp_step. by apply HQ.
  - destruct (Hbuf Hnz) as (l & Hl & Hlen).
    assert (Hl1 : heap w1 !! kc_rdma_buf cb = Some (BBytes l)).
    { rewrite Hh1. unfold h1. destruct (kc_reg_mr cb) as [a|]; [|done].
      destruct (Z.eqb_spec a NULL) as [|Hne]; [done|].
      destruct (Hmr a eq_refl Hne) as [m Hm]. rewrite lookup_delete_ne by congruence. done. }
    eapply wp_free_coherent; [done|done|]. do 3 wp_step. apply HQ; wsimpl; try done.
    by rewrite Hh1.
Qed.

(** [w'] is [w] but for the block at [cba], which names the same objects. *)
Record undone (w : world) (cba : addr) (cb : krping_cb) (w' : world) : Prop := {
  un_heap : exists cb', heap w' = <[cba := BKcb cb']> (heap w) /\ same_links cb cb';
  un_objs : objs w' = objs w;
  un_rest : sched w' = sched w /\ woken w' = woken w }.

Lemma wp_bail_undone t w0 cb0 w cba cb ret (Q : Z -> world -> Prop) :
  heap w !! cba = Some (BKcb cb) -> kc_pd cb ∈ pds w ->
  kc_rdma_mr cb = KPtr NULL -> kc_dma_mr cb = KPtr NULL -> kc_start_buf cb = NULL ->
  (forall a, kc_reg_mr cb = KPtr a -> a <> NULL -> exists m, heap w !! a = Some (BMr m)) ->
  (kc_rdma_buf cb <> NULL -> exists l, heap w !! kc_rdma_buf cb = Some (BBytes l)
     /\ length l = Z.to_nat (kc_size cb)) ->
  bail_heap cb (heap w) = <[cba := BKcb cb]> (heap w0) -> same_links cb0 cb ->
  objs w = objs w0 -> sched w = sched w0 -> woken w = woken w0 ->
  (forall w', undone w0 cba cb0 w' -> Q ret w') ->
  wp t (krping_setup_bail cba ret) Q w.
Proof.
  intros Hcb Hpd N1 N2 N3 Hmr Hbuf Hb Hl Ho Hs Hw HQ. eapply wp_krping_bail; [done..|].
  intros w' Hh _ Ho' Hs' Hw'. apply HQ. split; [|congruence|split; congruence].
  exists cb. by rewrite Hh.
Qed.

Lemma wp_krping_map_info t w cba cb dev (Q : unit -> world -> Prop) :
  heap w !! cba = Some (BKcb cb) ->
  (forall recv send w', mapped w cba cb recv send w' -> Q tt w') ->
  wp t (krping_map_info cba dev) Q w.
Proof.
  intros Hcb HQ. unfold krping_map_info. wp_step. apply wp_dma_map. intros recv Hrecv. do 4 wp_step.
  wp_step. apply wp_dma_map. intros send Hsend. do 3 wp_step. apply (HQ recv send).
  unfold mapped. wsimpl. by rewrite !insert_insert_eq.
Qed.

(** What the allocations leave, from the state [w] after the mappings. *)
Record bufs_made (w : world) (cba : addr) (cb : krping_cb) (b : buf_answers) (w' : world)
    : Prop := {
  bm_heap : heap w' = <[cba := BKcb (wr_cb (ba_lkey b) (source_cb (next w + 2) (ba_source b)
    (set_kc_reg_mr (KPtr (next w + 1)) (sink_cb (next w) (ba_sink b) cb))))]>
    (put_buffers (next w) (Z.to_nat (kc_size cb)) b (heap w));
  bm_next : next w' = next w + 3;
  bm_objs : objs w' = objs w;
  bm_rest : sched w' = sched w /\ woken w' = woken w }.

(** The side conditions of [bail]. *)
Ltac bail_cell := first
  [ wsimpl; apply lookup_insert_eq | assumption | done
  | kcb_simpl; intros a [= <-] _; eexists; heap_lookup
  | intros _; kcb_simpl; eexists; split; [heap_lookup|apply length_le_bytes]
  | intros []; done | by repeat split ].

Lemma wp_krping_alloc_bufs t recv send w cba cb dev (Q : Z -> world -> Prop) :
  heap w !! cba = Some (BKcb cb) -> no_buffers cb -> kc_pd cb ∈ pds w -> fresh_ok w ->
  (forall b w', ba_recv b = recv -> ba_send b = send -> bufs_made w cba cb b w' -> Q 0 w') ->
  (forall ret w', ret <> 0 -> ~ buffers_available KK -> undone w cba cb w' -> Q ret w') ->
  wp t (krping_alloc_bufs cba cb dev) Q w.
Proof.
  intros Hcb [N1 N2 N3 N4 N5 N6] Hpd [Hpos Hfree] Hok Hbad.
  assert (Hlt : cba < next w) by (apply Z.nle_gt; intros ?; by rewrite Hfree in Hcb).
  assert (F0 : heap w !! next w = None) by (apply Hfree; lia).
  assert (F1 : heap w !! (next w + 1) = None) by (apply Hfree; lia).
  unfold krping_alloc_bufs. wp_step. apply wp_alloc_coherent.
  2: { intros v Hv. do 2 wp_step. change (NULL =? NULL) with true. cbv iota. do 2 wp_step.
       eapply (wp_bail_undone _ w cb); try bail_cell.
       - intros a Ha. change (kc_reg_mr cb = KPtr a) in Ha. congruence.
       - unfold bail_heap. kcb_simpl. wsimpl. rewrite N4. done.
       - intros w' Hu. apply Hbad; [done| |done]. intros [Ha _]. by eapply Ha. }
  intros v1 sink. do 2 wp_step. rewrite not_null by lia.
  do 7 wp_step. apply wp_alloc_mr; [done| |].
  2: { intros e He. do 2 wp_step. cbn [IS_ERR PTR_ERR].
       eapply (wp_bail_undone _ w cb); try bail_cell.
       - unfold bail_heap. kcb_simpl. rewrite not_null by lia. wsimpl. heap_ext.
       - intros w' Hu. apply Hbad; [by eapply Herr| |done]. intros [_ Ha]. by eapply Ha. }
  intros mr. do 2 wp_step. cbn [IS_ERR]. wp_step. apply wp_alloc_coherent; wsimpl.
  2: { intros v Hv. do 2 wp_step. change (NULL =? NULL) with true. cbv iota. do 2 wp_step.
       eapply (wp_bail_undone _ w cb); try bail_cell.
       - unfold bail_heap. kcb_simpl. rewrite !not_null by lia. wsimpl. heap_ext.
       - intros w' Hu. apply Hbad; [done| |done]. intros [Ha _]. by eapply Ha. }
  intros v2 source. do 2 wp_step. rewrite not_null by lia. do 5 wp_step.
  eapply wp_krping_setup_wr; [wsimpl; apply lookup_insert_eq|done|].
  intros lkey. wp_step.
  apply (Hok {| ba_recv := recv; ba_send := send; ba_sink := sink; ba_source := source;
    ba_mr := mr; ba_lkey := lkey; ba_v1 := v1; ba_v2 := v2 |}); [done..|].
  split; wsimpl; [|lia|done|done]. unfold put_buffers. cbn [ba_v1 ba_v2 ba_mr].
  replace (next w + 1 + 1) with (next w + 2) by lia. unfold source_cb. heap_ext.
Qed.

Lemma wp_krping_setup_buffers t w cba cb (Q : Z -> world -> Prop) :
  heap w !! cba = Some (BKcb cb) -> no_buffers cb -> kc_pd cb ∈ pds w -> fresh_ok w ->
  (forall b w', bufs_ready w cba cb b w' -> Q 0 w') ->
  (forall ret recv send w', ret <> 0 -> ~ buffers_available KK ->
     bufs_failed w cba cb recv send w' -> Q ret w') ->
  wp t (krping_setup_buffers cba) Q w.
Proof.
  intros Hcb Hnb Hpd [Hpos Hfree] Hok Hbad.
  assert (Hlt : cba < next w) by (apply Z.nle_gt; intros ?; by rewrite Hfree in Hcb).
  unfold krping_setup_buffers, pd_device. do 4 wp_step. do 2 wp_step.
  wp_step. eapply wp_krping_map_info; [done|].
  intros recv send w1 (Hh & Hn & Hd & Hc & Hq & Hp & Hqp & Hs & Hw).
  assert (Hf1 : fresh_ok w1).
  { split; [lia|]. intros a Ha. rewrite Hh, lookup_insert_ne by lia. apply Hfree. lia. }
  change (kc_pd cb) with (kc_pd (mapped_cb recv send cb)).
  eapply (wp_krping_alloc_bufs _ recv send w1 cba (mapped_cb recv send cb)).
  - rewrite Hh. apply lookup_insert_eq.
  - by destruct Hnb.
  - by rewrite Hp.
  - done.
  - intros b w2 <- <- [Hh2 Hn2 Ho2 [Hs2 Hw2]]. pose proof (objs_inv _ _ Ho2) as (? & ? & ? & ? & ? & _).
    apply (Hok b). split; [|lia| |repeat split; congruence].
    2: { destruct Hd as (? & ? & Hd). split_and!; [done..|congruence]. }
    rewrite Hh2, Hn, Hh. unfold buffers_cb, put_buffers. heap_ext.
  - intros ret w2 Hret Hav [(cb' & Hh2 & Hl) Ho2 [Hs2 Hw2]].
    pose proof (objs_inv _ _ Ho2) as (? & ? & ? & ? & ? & _).
    apply (Hbad ret recv send w2 Hret Hav). split; [| |repeat split; congruence].
    2: { destruct Hd as (? & ? & Hd). split_and!; [done..|congruence]. }
    exists cb'. split; [|exact Hl]. by rewrite Hh2, Hh, insert_insert_eq.
Qed.

(** A failed [krping_setup_buffers] gives back what it has allocated but not
    what it has mapped: the heap is as before but for the block, whose links are
    kept, and the DMA mappings of the receive and the send buffer are left. *)
Theorem setup_buffers_bail_leaks w cba cb ret w' :
  mappings_valid K ->
  heap w !! cba = Some (BKcb cb) -> no_buffers cb -> kc_pd cb ∈ pds w -> fresh_ok w ->
  krping_setup_buffers cba w = Ok ret w' -> ret <> 0 ->
  exists recv send, bufs_failed w cba cb recv send w'
    /\ dmas w' = {[+ send +]} ⊎ ({[+ recv +]} ⊎ dmas w).
Proof.
  intros Hv Hcb Hn Hpd Hf Hrun Hret.
  enough (exists recv send, bufs_failed w cba cb recv send w') as (recv & send & Hb).
  { exists recv, send. split; [done|]. destruct Hb as [_ (Hr & Hs & Hd) _]. rewrite Hd.
    unfold add_mapping. by rewrite !(map_answer_valid _ Hv) by done. }
  refine (wp_run (t := Partial) _ (fun ret w' => ret <> 0 ->
    exists recv send, bufs_failed w cba cb recv send w') _ _ _ _ Hrun Hret).
  eapply wp_krping_setup_buffers; [done..| |].
  - by intros b w1 _ [].
  - intros r recv send w1 _ _ Hb _. by exists recv, send.
Qed.

(** The buffers a block has. *)
Record has_buffers (w : world) (cb : krping_cb) (a mr a' : addr) : Prop := {
  hb_mrs : kc_dma_mr cb = KPtr NULL /\ kc_rdma_mr cb = KPtr NULL /\ kc_start_mr cb = KPtr NULL;
  hb_reg_mr : kc_reg_mr cb = KPtr mr;
  hb_rdma_buf : kc_rdma_buf cb = a;
  hb_start_buf : kc_start_buf cb = a';
  hb_pos : 0 < a < mr /\ mr < a';
  hb_mr : exists m, heap w !! mr = Some (BMr m);
  hb_sink : exists l, heap w !! a = Some (BBytes l) /\ length l = Z.to_nat (kc_size cb);
  hb_source : exists l, heap w !! a' = Some (BBytes l) /\ length l = Z.to_nat (kc_size cb) }.

Lemma wp_krping_free_buffers t w cba cb a mr a' (Q : unit -> world -> Prop) :
  heap w !! cba = Some (BKcb cb) -> kc_pd cb ∈ pds w -> has_buffers w cb a mr a' ->
  (forall w', heap w' = delete a' (delete a (delete mr (heap w))) ->
     dmas w' = dmas w ∖ {[+ kc_recv_mapping cb +]} ∖ {[+ kc_send_mapping cb +]} ->
     cms w' = cms w -> cqs w' = cqs w -> pds w' = pds w -> qps w' = qps w ->
     sched w' = sched w -> next w' = next w -> Q tt w') ->
  wp t (krping_free_buffers cba) Q w.
Proof.
  intros Hcb Hpd [(M1 & M2 & M3) M4 B1 B2 Hpos [m Hm] (l & Hl & Hl1) (l' & Hl' & Hl2)] HQ.
  unfold krping_free_buffers. do 2 wp_step. rewrite M1, M2, M3, M4, B1, B2.
  change (non_null (KPtr NULL)) with false. cbv iota. do 6 wp_step.
  unfold non_null. rewrite bool_decide_eq_false_2 by (unfold NULL; intros [= ?]; lia).
  cbn [negb]. wp_step. eapply wp_dereg_mr; [done|]. unfold pd_device.
  do 14 wp_step.
  eapply wp_free_coherent; [heap_lookup|done|].
  rewrite not_null by lia. cbn [negb].
  eapply wp_free_coherent; [heap_lookup|done|].
  by apply HQ.
Qed.
End Buffers.

(** ** Verbs objects *)

(** Error pointers carry error codes. *)
Record error_codes (K : Kernel) : Prop := {
  ec_pd : forall h d e, k_alloc_pd h d = KErr e -> e <> 0;
  ec_cq : forall h d c e, k_create_cq h d c = KErr e -> e <> 0 }.

(** Verbs objects never run out. *)
Record objects_available (K : Kernel) : Prop := {
  oa_pd : forall h d, IS_ERR (k_alloc_pd h d) = false;
  oa_cq : forall h d c, IS_ERR (k_create_cq h d c) = false;
  oa_notify : forall h cq, k_req_notify_cq h cq = 0;
  oa_qp : forall h id pd a, fst (k_create_qp h id pd a) = 0 }.

(** The objects of a client are live and recorded in its block. *)
Record kqp_up `{K : Kernel} (w : world) (cba : addr) (cb : krping_cb) (i : cm_state) (pd cq : kptr)
    (qp : addr) (w' : world) : Prop := {
  qu_heap : heap w' = <[cba := BKcb (set_kc_qp qp (set_kc_cq cq (set_kc_pd pd cb)))]> (heap w);
  qu_pds : pds w' = {[pd]} ∪ pds w;
  qu_cqs : cqs w' = <[cq := {| cq_context := cba; cq_polls := [] |}]> (cqs w);
  qu_qps : qps w' = {[qp]} ∪ qps w;
  qu_cms : cms w' = <[kc_cm_id cb := i <| cm_qp := qp |>]> (cms w);
  qu_fresh : (pd ∉ pds w) /\ cqs w !! cq = None /\ (qp ∉ qps w);
  qu_cq : exists h d, cq = k_create_cq h d cba;
  qu_rest : next w' = next w /\ sched w' = sched w /\ dmas w' = dmas w }.

(** Nothing has been made. *)
Record kqp_down (w : world) (cba : addr) (cb : krping_cb) (w' : world) : Prop := {
  qd_heap : exists pd cq, heap w' = <[cba := BKcb (set_kc_cq cq (set_kc_pd pd cb))]> (heap w);
  qd_rest : objs w' = objs w /\ next w' = next w /\ sched w' = sched w }.

Section Verbs_objects.
Context {K : Kernel} {KK : KrpingKernel} (Herr : error_codes K).

Lemma wp_krping_setup_qp_err2 t w cba cb ret (Q : Z -> world -> Prop) :
  heap w !! cba = Some (BKcb cb) -> is_Some (cqs w !! kc_cq cb) -> kc_pd cb ∈ pds w ->
  Q ret (upd_pds (fun s => s ∖ {[kc_pd cb]}) (log (EvDeallocPd (kc_pd cb))
    (upd_cqs (delete (kc_cq cb)) (log (EvDestroyCq (kc_cq cb)) w)))) ->
  wp t (krping_setup_qp_err2 cba ret) Q w.
Proof.
  intros Hcb [c Hc] Hpd HQ. unfold krping_setup_qp_err2, krping_setup_qp_err1.
  wp_steps. exact HQ.
Qed.

Lemma wp_krping_create_qp t w cba cb i (Q : Z -> world -> Prop) :
  heap w !! cba = Some (BKcb cb) -> kc_server cb = 0 -> cms w !! kc_cm_id cb = Some i ->
  kc_pd cb ∈ pds w ->
  (forall attr r, r = k_create_qp (trace w) (kc_cm_id cb) (kc_pd cb) attr ->
     let w1 := qp_answer (kc_cm_id cb) (kc_pd cb) attr r i w in
     Q (fst r) (if fst r =? 0 then upd_heap (insert cba (BKcb (set_kc_qp (snd r) cb))) w1
                else w1)) ->
  wp t (krping_create_qp cba) Q w.
Proof.
  intros Hcb Hsv Hi Hpd HQ. unfold krping_create_qp. do 2 wp_step. rewrite Hsv.
  change (negb (0 =? 0)) with false. cbv iota. wp_step.
  eapply wp_rdma_create_qp; [done|done|]. intros r Hr. specialize (HQ _ r Hr). revert HQ.
  unfold qp_answer. destruct (fst r =? 0); intros HQ; wsimpl in HQ.
  - do 5 wp_step. wp_step; [wsimpl; apply lookup_insert_eq|]. do 2 wp_step. exact HQ.
  - do 2 wp_step. exact HQ.
Qed.

Lemma wp_krping_setup_qp t w cba cb i (Q : Z -> world -> Prop) :
  heap w !! cba = Some (BKcb cb) -> kc_server cb = 0 -> cms w !! kc_cm_id cb = Some i ->
  new_handles K w ->
  (forall pd cq qp w', kqp_up w cba cb i pd cq qp w' -> Q 0 w') ->
  (forall ret w', ret <> 0 -> ~ objects_available K -> kqp_down w cba cb w' -> Q ret w') ->
  wp t (krping_setup_qp cba (kc_cm_id cb)) Q w.
Proof.
  intros Hcb Hsv Hi [Fpd Fcq Fqp] Hok Hbad. unfold krping_setup_qp.
  wp_step. eapply wp_cm_device; [done|]. wp_step. apply wp_ib_alloc_pd. intros pd Hpd.
  assert (Npd : pd ∉ pds w) by (rewrite Hpd; apply Fpd).
  destruct pd as [pd|e]; cbn [IS_ERR].
  2: { wp_steps. apply Hbad; [by eapply (ec_pd _ Herr)| |].
       { intros [Ha _ _ _]. specialize (Ha (trace w) (k_cm_device (kc_cm_id cb))).
         by rewrite <- Hpd in Ha. }
       split; [|done].
       exists (KErr e), (kc_cq cb). by destruct cb. }
  do 3 wp_step. eapply wp_cm_device; [done|]. wp_step. apply wp_ib_create_cq. intros cq Hcq.
  assert (Ncq : cqs w !! cq = None) by (rewrite Hcq; apply Fcq).
  destruct cq as [cq|e]; cbn [IS_ERR PTR_ERR]; cbv zeta.
  2: { unfold krping_setup_qp_err1. do 2 wp_step. do 2 wp_step. wp_step.
       unfold ib_dealloc_pd. kcb_simpl. wp_steps; [wsimpl; set_solver|].
       apply Hbad; [by eapply (ec_cq _ Herr)| |].
       { intros [_ Ha _ _]. eapply (f_equal IS_ERR) in Hcq. by rewrite Ha in Hcq. }
       split.
       - exists (KPtr pd), (KErr e). wsimpl. by rewrite !insert_insert_eq.
       - split; [|done]. unfold objs. wsimpl. by rewrite gset_undo. }
  do 2 wp_step. wp_step. apply wp_ib_req_notify_cq; [eexists; wsimpl; apply lookup_insert_eq|].
  intros r Hr. set (cb2 := set_kc_cq (KPtr cq) (set_kc_pd (KPtr pd) cb)).
  assert (Hdown : forall ret w', ret <> 0 -> ~ objects_available K ->
    heap w' = <[cba := BKcb cb2]> (heap w) -> objs w' = objs w -> next w' = next w ->
    sched w' = sched w -> Q ret w').
  { intros ret w' Hret Hav Hh Ho Hn Hs. apply Hbad; [done|done|]. split; [|done].
    by eexists _, _. }
  destruct (Z.eqb_spec r 0) as [->|Hne]; cbn [negb].
  2: { eapply wp_krping_setup_qp_err2;
         [wsimpl; apply lookup_insert_eq|eexists; wsimpl; apply lookup_insert_eq
         |wsimpl; set_solver|].
       apply Hdown; wsimpl; [done|intros Ha; by rewrite (oa_notify _ Ha) in Hr
         |by rewrite insert_insert_eq| |done|done].
       unfold objs. wsimpl. kcb_simpl. by rewrite gset_undo, delete_insert_id. }
  wp_step. eapply (wp_krping_create_qp _ _ _ cb2 i);
    [wsimpl; apply lookup_insert_eq|done|done|wsimpl; set_solver|].
  intros attr a Ha. wsimpl in Ha. unfold qp_answer. cbv zeta.
  assert (Nqp : snd a ∉ qps w) by (rewrite Ha; apply Fqp).
  destruct (Z.eqb_spec (fst a) 0) as [E0|E0].
  - cbn [negb]. wp_step. apply (Hok (KPtr pd) (KPtr cq) (snd a)). split; wsimpl; try done.
    + by rewrite !insert_insert_eq.
    + by eexists _, _.
  - cbn [negb]. eapply wp_krping_setup_qp_err2;
      [wsimpl; apply lookup_insert_eq|eexists; wsimpl; apply lookup_insert_eq
      |wsimpl; set_solver|].
    apply Hdown; wsimpl; [done|intros Hav; subst a; by rewrite (oa_qp _ Hav) in E0
      |by rewrite insert_insert_eq| |done|done].
    unfold objs, cb2. wsimpl. kcb_simpl. by rewrite gset_undo, delete_insert_id.
Qed.

Lemma wp_krping_free_qp t w cba cb (Q : unit -> world -> Prop) :
  heap w !! cba = Some (BKcb cb) -> kc_qp cb ∈ qps w -> is_Some (cqs w !! kc_cq cb) ->
  kc_pd cb ∈ pds w ->
  (forall w', heap w' = heap w -> qps w' = qps w ∖ {[kc_qp cb]} ->
     cqs w' = delete (kc_cq cb) (cqs w) -> pds w' = pds w ∖ {[kc_pd cb]} ->
     cms w' = cms w -> dmas w' = dmas w -> next w' = next w -> sched w' = sched w -> Q tt w') ->
  wp t (krping_free_qp cba) Q w.
Proof.
  intros Hcb Hqp [c Hc] Hpd HQ. unfold krping_free_qp. wp_steps. by apply HQ.
Qed.
End Verbs_objects.
