(* ===== verification/KrpingPing.v ===== *)
(** * KrpingPing: the ping loop ([bak/krping.c])

    One ping: a text is put in the source buffer, the buffer is registered under
    a new key and advertised; when the peer has read it, the sink buffer is
    advertised, and the ping is over when the peer has written it.
    [krping_test_client] repeats that; [krping_test_rpc_client] does it once.
    [flush_qp] polls until two requests of its own have come back. *)
From S2P Require Import Prelude Types KrpingTypes Kernel Logic Wait KrpingEnv KrpingFrame.
From S2P Require Import KrpingIo KrpingBufs.
Import Krping.

Section KrpingPing.
Context {K : Kernel} {KK : KrpingKernel}.

Definition krping_rdma_rkey (cba : addr) (buf : Z) (post_inv : bool) : M Z :=
  cb ← load cba;
  mr ← load_mr (kc_reg_mr cb);
  update cba (set_kc_invalidate_wr ((kc_invalidate_wr cb)
    <| ks_invalidate_rkey := mr_rkey mr |>));;
  let key := u8 (kc_key cb + 1) in
  update cba (set_kc_key key);;
  ib_update_fast_reg_key (kc_reg_mr cb) key;;
  mr ← load_mr (kc_reg_mr cb);
  update cba (set_kc_reg_mr_wr ((kc_reg_mr_wr cb)
    <| rw_key := mr_rkey mr |>
    <| rw_access := if buf =? u64 (kc_start_dma_addr cb) then IB_ACCESS_REMOTE_READ
                    else Z.lor IB_ACCESS_REMOTE_WRITE IB_ACCESS_LOCAL_WRITE |>));;
  ret ← ib_map_mr_sg (kc_reg_mr cb) buf (u32 (kc_size cb));
  if (ret <=? 0) || (kc_page_list_len cb <? ret) then fault BugOn else
  cb ← load cba;
  ret ← ib_post_send_wr (kc_qp cb) cb (if post_inv then W_invalidate_wr else W_reg_mr_wr);
  (if negb (ret =? 0) then set_kstate cba ERROR else mret tt);;
  mr ← load_mr (kc_reg_mr cb);
  mret (mr_rkey mr).

Definition krping_format_send (cba : addr) (buf : Z) : M unit :=
  cb ← load (T := krping_cb) cba;
  rkey ← krping_rdma_rkey cba buf (kc_server_invalidate cb =? 0);
  update cba (set_kc_send_buf
    {| ri_buf := htonll k_big_endian buf; ri_rkey := htonl k_big_endian rkey;
       ri_size := htonl k_big_endian (kc_size cb) |}).

(** ** The text of a ping *)

(** [sprintf(cb->start_buf, "rdma-ping-%d: ", ping)], less the terminator. *)
Definition ping_text (ping : Z) : list Z :=
  chars "rdma-ping-" ++ decimal ping ++ chars ": ".

(** [c++; if (c > 122) c = 65;], of an [unsigned char] and of an [int]. *)
Definition next_char (c : Z) : Z := let c := u8 (c + 1) in if 122 <? c then 65 else c.
Definition next_start (start : Z) : Z :=
  let start := start + 1 in if 122 <? start then 65 else start.

(** [for (i = cc, c = start; i < cb->size; i++)] *)
Fixpoint fill_chars (n : nat) (buf : addr) (i : nat) (c : Z) : M unit :=
  match n with
  | O => mret tt
  | S n => write_bytes buf i [c];; fill_chars n buf (S i) (next_char c)
  end.

Definition put_ping_text (cba : addr) (ping start : Z) : M unit :=
  cb ← load (T := krping_cb) cba;
  write_bytes (kc_start_buf cb) 0 (ping_text ping ++ [0]);;
  let cc := length (ping_text ping) in
  fill_chars (Z.to_nat (kc_size cb) - cc) (kc_start_buf cb) cc (u8 start);;
  if kc_size cb - 1 <? 0 then fault OutOfBounds
  else write_bytes (kc_start_buf cb) (Z.to_nat (kc_size cb - 1)) [0].

(** [printk] with [%.64s] reads up to 64 bytes, or to the terminator. *)
Definition printk_64s (l : list Z) : M unit :=
  if decide (64 <= length l)%nat then mret tt else printk_s l.

(** ** One ping *)

(** A round of the loop; [false] is a [break]. *)
Definition krping_ping (cba : addr) (ping start : Z) : M bool :=
  set_kstate cba RDMA_READ_ADV;;
  put_ping_text cba ping start;;
  cb ← load (T := krping_cb) cba;
  krping_format_send cba (kc_start_dma_addr cb);;
  cb ← load cba;
  if kc_state cb =t ERROR then mret false else
  ret ← ib_post_send_wr (kc_qp cb) cb W_sq_wr;
  if negb (ret =? 0) then mret false else
  wait_event_interruptible (WqCb cba) (kstate_ge cba RDMA_WRITE_ADV);;
  cb ← load (T := krping_cb) cba;
  if negb (kc_state cb =t RDMA_WRITE_ADV) then mret false else
  krping_format_send cba (kc_rdma_dma_addr cb);;
  cb ← load cba;
  ret ← ib_post_send_wr (kc_qp cb) cb W_sq_wr;
  if negb (ret =? 0) then mret false else
  wait_event_interruptible (WqCb cba) (kstate_ge cba RDMA_WRITE_COMPLETE);;
  cb ← load (T := krping_cb) cba;
  if negb (kc_state cb =t RDMA_WRITE_COMPLETE) then mret false else
  (if negb (kc_verbose cb =? 0) then l ← load (kc_rdma_buf cb); printk_64s l else mret tt);;
  mret true.

(** [for (ping = 0; !cb->count || ping < cb->count; ping++)].  A round that goes
    on has slept, so the length of the schedule bounds the rounds. *)
Fixpoint ping_loop (fuel : nat) (cba : addr) (ping start : Z) : M unit :=
  match fuel with
  | O => block_here
  | S fuel =>
      cb ← load (T := krping_cb) cba;
      if (kc_count cb =? 0) || (ping <? kc_count cb) then
        ok ← krping_ping cba ping start;
        if (ok : bool) then ping_loop fuel cba (i32 (ping + 1)) (next_start start) else mret tt
      else mret tt
  end.

Definition krping_test_client (cba : addr) : M unit :=
  n ← get (fun w => length (sched w)); ping_loop (S n) cba 0 65.

(** The number of the ping is a variable that is never assigned. *)
Definition krping_test_rpc_client (cba : addr) : M unit :=
  v ← indeterminate; krping_ping cba (i32 v) 65;; mret tt.

(** ** flush_qp *)

Definition flush_send_id : Z := 0xdeadbeefcafebabe.
Definition flush_recv_id : Z := 0xcafebabedeadbeef.

(** The polling loop: with the queue empty another context runs, or nothing
    will ever change. *)
Fixpoint flush_loop (fuel : nat) (cba : addr) (flushed : Z) : M unit :=
  match fuel with
  | O => block_here
  | S fuel =>
      cb ← load (T := krping_cb) cba;
      p ← ib_poll_cq (kc_cq cb);
      match p with
      | PollErr _ => mret tt
      | PollEmpty =>
          s ← get sched;
          match s with
          | [] => block_here
          | e :: s => modify (set_sched s);; deliver e;; flush_loop fuel cba flushed
          end
      | PollWc wc =>
          let flushed := if (wc_wr_id wc =? flush_send_id) || (wc_wr_id wc =? flush_recv_id)
                         then flushed + 1 else flushed in
          if flushed =? 2 then mret tt else flush_loop fuel cba flushed
      end
  end.

(** The polls and events there can still be. *)
Definition async_size (e : async) : nat :=
  match e with ACq _ ps => S (length ps) | _ => 1 end.
Definition flush_fuel (w : world) (cq : kptr) : nat :=
  S (match cqs w !! cq with Some c => length (cq_polls c) | None => 0 end
     + sum_list (async_size <$> sched w))%nat.

Definition flush_qp (cba : addr) : M unit :=
  cb ← load (T := krping_cb) cba;
  rdma_disconnect (kc_cm_id cb);;
  ret ← post_send (kc_qp cb) [PSend flush_send_id IB_SEND_NONE []];
  if negb (ret =? 0) then mret tt else
  ret ← ib_post_recv_wr (kc_qp cb) cb (zero_krecv_wr <| kr_wr_id := flush_recv_id |>);
  if negb (ret =? 0) then mret tt else
  n ← get (fun w => flush_fuel w (kc_cq cb));
  flush_loop n cba 0.
End KrpingPing.

(** ** A ping keeps the resources *)

Section Kept.
Context {K : Kernel} {KK : KrpingKernel}.

Lemma keeps_load_mr p : keeps (load_mr p).
Proof. unfold load_mr, kptr_addr. solve_keeps. Qed.
Lemma keeps_post_send_wr qp cb p : keeps (ib_post_send_wr qp cb p).
Proof. unfold ib_post_send_wr, post_send. solve_keeps. Qed.
#[local] Hint Resolve keeps_load_mr keeps_post_send_wr : keeps.

Lemma keeps_rkey cba buf inv : keeps (krping_rdma_rkey cba buf inv).
Proof.
  unfold krping_rdma_rkey, ib_update_fast_reg_key, ib_map_mr_sg, kptr_addr. solve_keeps.
Qed.
#[local] Hint Resolve keeps_rkey : keeps.
Lemma keeps_format_send cba buf : keeps (krping_format_send cba buf).
Proof. unfold krping_format_send. solve_keeps. Qed.

Lemma keeps_fill_chars n buf i c : keeps (fill_chars n buf i c).
Proof. revert i c. induction n; intros i c; cbn [fill_chars]; solve_keeps. Qed.
#[local] Hint Resolve keeps_format_send keeps_fill_chars : keeps.
Lemma keeps_put_ping_text cba ping start : keeps (put_ping_text cba ping start).
Proof. unfold put_ping_text. cbv zeta. solve_keeps. Qed.
#[local] Hint Resolve keeps_put_ping_text : keeps.

Lemma keeps_printk_64s l : keeps (printk_64s l).
Proof. unfold printk_64s. solve_keeps. Qed.
#[local] Hint Resolve keeps_printk_64s : keeps.
Lemma keeps_ping cba ping start : keeps (krping_ping cba ping start).
Proof. unfold krping_ping. solve_keeps. Qed.
#[local] Hint Resolve keeps_ping : keeps.
Lemma keeps_ping_loop fuel cba ping start : keeps (ping_loop fuel cba ping start).
Proof. revert ping start. induction fuel; intros ping start; cbn [ping_loop]; solve_keeps. Qed.
#[local] Hint Resolve keeps_ping_loop : keeps.
Lemma keeps_test_client cba : keeps (krping_test_client cba).
Proof. unfold krping_test_client. solve_keeps. Qed.
End Kept.
#[export] Hint Resolve keeps_post_send_wr keeps_format_send keeps_printk_64s keeps_ping keeps_test_client
  : keeps.
