(* ===== verification/KrpingProto.v ===== *)
(** * KrpingProto: the protocol of the ping module ([bak/krping.c])

    What an advertisement carries from one host to the other, the keys under
    which a client registers its buffers, the text of a ping, and the course of
    [krping_test_client] with a peer that answers. *)
From S2P Require Import Prelude Types KrpingTypes Kernel Logic Wait KrpingEnv KrpingFrame.
From S2P Require Import KrpingIo KrpingBufs KrpingPing.
Import Krping.

(** ** Advertisements *)

Lemma mem_uint_hton (be : bool) n x :
  mem_uint be n (if be then x else bswap n x) = be_bytes n x.
Proof. destruct be; cbn [mem_uint]; [done|apply le_bytes_bswap]. Qed.

Lemma be_bytes_are_bytes n x : Forall is_byte (be_bytes n x).
Proof. apply Forall_reverse, le_bytes_are_bytes. Qed.

Lemma le_bytes_be_bytes n x : le_bytes n (le_val (be_bytes n x)) = be_bytes n x.
Proof.
  rewrite <- (length_be_bytes n x) at 1. apply le_bytes_le_val, be_bytes_are_bytes.
Qed.

Lemma val_uint_ntoh (be : bool) n x :
  (if be then val_uint be (be_bytes n x) else bswap n (val_uint be (be_bytes n x)))
  = x mod 256 ^ Z.of_nat n.
Proof.
  destruct be; cbn [val_uint]; [apply be_val_be_bytes|].
  unfold bswap. by rewrite le_bytes_be_bytes, be_val_be_bytes.
Qed.

Lemma val_uint_range (be : bool) n x : 0 <= val_uint be (be_bytes n x) < 256 ^ Z.of_nat n.
Proof.
  destruct be; cbn [val_uint].
  - rewrite be_val_be_bytes. apply Z.mod_pos_bound. lia.
  - rewrite <- (length_be_bytes n x) at 3. apply le_val_bound, be_bytes_are_bytes.
Qed.

(** What the bytes of a 32-bit or 64-bit integer in network order are on
    another host. *)
Lemma ntohl_be_bytes be x : ntohl be (val_uint be (be_bytes 4 x)) = u32 x.
Proof.
  pose proof (val_uint_range be 4 x) as Hr. unfold ntohl, htonl.
  unfold u32 at 1 2. rewrite uint_small by exact Hr. exact (val_uint_ntoh be 4 x).
Qed.
Lemma ntohll_be_bytes be x : ntohll be (val_uint be (be_bytes 8 x)) = u64 x.
Proof. exact (val_uint_ntoh be 8 x). Qed.

(** An advertisement as the sending host has it in memory: three integers in
    network byte order. *)
Lemma info_bytes_hton be buf rkey size :
  info_bytes be {| ri_buf := htonll be buf; ri_rkey := htonl be rkey;
                   ri_size := htonl be size |}
  = be_bytes 8 buf ++ be_bytes 4 (u32 rkey) ++ be_bytes 4 (u32 size).
Proof.
  unfold info_bytes, htonll, cpu_to_be64, htonl. cbn [ri_buf ri_rkey ri_size].
  by rewrite !mem_uint_hton.
Qed.

Lemma bytes_info_parts be a b c :
  length a = 8%nat -> length b = 4%nat -> length c = 4%nat ->
  bytes_info be (a ++ b ++ c) =
    {| ri_buf := val_uint be a; ri_rkey := val_uint be b; ri_size := val_uint be c |}.
Proof.
  intros Ha Hb Hc. unfold bytes_info. f_equal.
  - by rewrite take_app_length'.
  - rewrite drop_app_length' by done. by rewrite take_app_length'.
  - rewrite app_assoc, drop_app_length' by (rewrite length_app; lia).
    by rewrite take_ge by lia.
Qed.

(** ** Keys *)

(** The chain that registers the region under a new key: the old key is
    invalidated first. *)
Definition reg_chain (mr : kptr) (old new access : Z) : list posted :=
  [PLocalInv old; PRegMr mr new access].
(** The send request. *)
Definition send_chain (cb : krping_cb) : list posted :=
  [PSend 0 IB_SEND_SIGNALED [kc_send_sgl cb]].

(** The chains posted so far, the latest first. *)
Fixpoint sent (t : list event) : list (list posted) :=
  match t with
  | [] => []
  | EvKrping (KEvPostSend _ l _) :: t => l :: sent t
  | _ :: t => sent t
  end.

Definition reg_access (buf start : Z) : Z :=
  if buf =? u64 start then IB_ACCESS_REMOTE_READ
  else Z.lor IB_ACCESS_REMOTE_WRITE IB_ACCESS_LOCAL_WRITE.

(** The requests as [krping_setup_wr] leaves them. *)
Record wrs_ready (cb : krping_cb) : Prop := {
  wr_inv_op : ks_opcode (kc_invalidate_wr cb) = IB_WR_LOCAL_INV;
  wr_inv_next : ks_next (kc_invalidate_wr cb) = Some W_reg_mr_wr;
  wr_reg_op : ks_opcode (rw_wr (kc_reg_mr_wr cb)) = IB_WR_REG_MR;
  wr_reg_next : ks_next (rw_wr (kc_reg_mr_wr cb)) = None;
  wr_reg_mr : rw_mr (kc_reg_mr_wr cb) = kc_reg_mr cb;
  wr_sq : kc_sq_wr cb = {| ks_next := None; ks_wr_id := 0; ks_opcode := IB_WR_SEND;
    ks_send_flags := IB_SEND_SIGNALED; ks_sg_list := Some S_send_sgl; ks_num_sge := 1;
    ks_invalidate_rkey := 0 |};
  wr_no_inv : kc_server_invalidate cb = 0;
  wr_frtest : kc_frtest cb = 0;
  wr_pages : kc_page_list_len cb = page_list_len (kc_size cb);
  wr_size : 64 <= kc_size cb <= RPING_BUFSIZE;
  wr_key : in_u 8 (kc_key cb) }.

(** A client that can ping, with the keys [m] of its region and the answers [ps]
    in its queue. *)
Record pinging (w : world) (cba : addr) (cb : krping_cb) (m : ib_mr) (ps : list poll)
    : Prop := {
  pg_ready : client_ready w cba cb;
  pg_wrs : wrs_ready cb;
  pg_mr : exists a, kc_reg_mr cb = KPtr a /\ heap w !! a = Some (BMr m);
  pg_start : exists l, heap w !! kc_start_buf cb = Some (BBytes l)
    /\ length l = Z.to_nat (kc_size cb);
  pg_sink : exists l, heap w !! kc_rdma_buf cb = Some (BBytes l)
    /\ length l = Z.to_nat (kc_size cb);
  pg_polls : kpolls_of w (kc_cq cb) = ps }.

Lemma pinging_env w w' cba cb m ps :
  heap w' = heap w -> qps w' = qps w -> cqs w' = cqs w ->
  pinging w cba cb m ps -> pinging w' cba cb m ps.
Proof.
  intros Eh Eq Ex [[] ? ? ? ? Hp].
  split; [split; rewrite ?Eh, ?Eq, ?Ex; done|done|rewrite ?Eh; done..|].
  unfold kpolls_of. by rewrite Ex.
Qed.

(** A change of the block that leaves the set-up alone. *)
Lemma pinging_update w cba cb cb' m ps :
  pinging w cba cb m ps -> core cb' = core cb -> wrs_ready cb' ->
  pinging (upd_heap (insert cba (BKcb cb')) w) cba cb' m ps.
Proof.
  intros [Hr Hw (a & Ea & Ha) (l1 & Hl1 & E1) (l2 & Hl2 & E2) Hp] Hc Hw'.
  pose proof (core_field kc_reg_mr _ _ (fun _ => eq_refl) Hc) as F1.
  pose proof (core_field kc_start_buf _ _ (fun _ => eq_refl) Hc) as F2.
  pose proof (core_field kc_rdma_buf _ _ (fun _ => eq_refl) Hc) as F3.
  pose proof (core_field kc_cq _ _ (fun _ => eq_refl) Hc) as F4.
  pose proof (core_field kc_size _ _ (fun _ => eq_refl) Hc) as F5.
  pose proof (cl_cb _ _ _ Hr) as Hcb.
  assert (Ho : forall b x, heap w !! b = Some x -> (forall c, x <> BKcb c) ->
    heap (upd_heap (insert cba (BKcb cb')) w) !! b = Some x).
  { intros b x Hb Hx. wsimpl. rewrite lookup_insert_ne; [done|]. intros <-. naive_solver. }
  split; [|done|..].
  - by apply (cs_ready _ _ _ _ _ _ (cq_safe_update w cba cb cb' Hr Hc)).
  - exists a. rewrite F1. split; [done|]. by apply Ho.
  - exists l1. rewrite F2, F5. split; [by apply Ho|done].
  - exists l2. rewrite F3, F5. split; [by apply Ho|done].
  - by rewrite F4.
Qed.

(** Other bytes in a buffer. *)
Lemma pinging_bytes w cba cb m ps b l l' :
  pinging w cba cb m ps -> heap w !! b = Some (BBytes l) -> length l' = length l ->
  pinging (upd_heap (insert b (BBytes l')) w) cba cb m ps.
Proof.
  intros [[Hcb ? ? ? ?] Hw (a & Ea & Ha) (l1 & Hl1 & E1) (l2 & Hl2 & E2) Hp] Hb Hl.
  assert (Ho : forall c x, heap w !! c = Some x -> (forall l, x <> BBytes l) ->
    heap (upd_heap (insert b (BBytes l')) w) !! c = Some x).
  { intros c x Hc Hx. wsimpl. rewrite lookup_insert_ne; [done|]. intros <-. naive_solver. }
  assert (Hby : forall c lc, heap w !! c = Some (BBytes lc) -> length lc = Z.to_nat (kc_size cb) ->
    exists lc', heap (upd_heap (insert b (BBytes l')) w) !! c = Some (BBytes lc')
      /\ length lc' = Z.to_nat (kc_size cb)).
  { intros c lc Hc Hlc. wsimpl. destruct (decide (b = c)) as [<-|Hne].
    - exists l'. rewrite lookup_insert_eq. split; [done|]. congruence.
    - exists lc. by rewrite lookup_insert_ne. }
  split; eauto. split; auto.
Qed.

Section Proto.
Context {K : Kernel} {KK : KrpingKernel}.

(** Requests can be posted, and a region is mapped whole. *)
Record obliging : Prop := {
  ob_send : forall h qp l, kk_post_send h qp l = 0;
  ob_recv : forall h qp r, kk_post_recv h qp r = 0;
  ob_map : forall h mr dma len, 1 <= len <= RPING_BUFSIZE ->
    0 < kk_map_mr_sg h mr dma len <= page_list_len len }.
Context (Hob : obliging).

(** The block after [krping_rdma_rkey]. *)
Definition rekeyed (buf : Z) (m : ib_mr) (cb : krping_cb) : krping_cb :=
  let key := u8 (kc_key cb + 1) in
  set_kc_reg_mr_wr ((kc_reg_mr_wr cb) <| rw_key := mr_rkey (with_key key m) |>
      <| rw_access := reg_access buf (kc_start_dma_addr cb) |>)
    (set_kc_key key (set_kc_invalidate_wr
      ((kc_invalidate_wr cb) <| ks_invalidate_rkey := mr_rkey m |>) cb)).

Lemma wrs_ready_rekeyed buf m cb : wrs_ready cb -> wrs_ready (rekeyed buf m cb).
Proof. intros []. split; try done. by apply uint_range. Qed.

Lemma wr_chain_rekeyed buf m cb :
  wrs_ready cb -> wr_chain 3 (rekeyed buf m cb) W_invalidate_wr =
    Some (reg_chain (kc_reg_mr cb) (mr_rkey m) (mr_rkey (with_key (u8 (kc_key cb + 1)) m))
      (reg_access buf (kc_start_dma_addr cb))).
Proof.
  intros [W1 W2 W3 W4 W5 _ _ _ _ _ _]. set (cb' := rekeyed buf m cb).
  assert (E1 : kc_invalidate_wr cb' =
    (kc_invalidate_wr cb) <| ks_invalidate_rkey := mr_rkey m |>) by reflexivity.
  assert (E2 : kc_reg_mr_wr cb' = (kc_reg_mr_wr cb)
    <| rw_key := mr_rkey (with_key (u8 (kc_key cb + 1)) m) |>
    <| rw_access := reg_access buf (kc_start_dma_addr cb) |>) by reflexivity.
  clearbody cb'. unfold wr_chain, wr_of, post_of. rewrite E1, E2.
  cbn [ks_opcode ks_next rw_wr ks_invalidate_rkey]. rewrite W1, W2, W3, W4.
  cbn [mbind option_bind rw_mr rw_key rw_access]. by rewrite W5.
Qed.

Lemma wp_rdma_rkey w cba cb m ps buf (Q : Z -> world -> Prop) :
  pinging w cba cb m ps ->
  (forall w' m', m' = with_key (u8 (kc_key cb + 1)) m ->
     pinging w' cba (rekeyed buf m cb) m' ps -> sched w' = sched w ->
     sent (trace w') = reg_chain (kc_reg_mr cb) (mr_rkey m) (mr_rkey m')
       (reg_access buf (kc_start_dma_addr cb)) :: sent (trace w) ->
     Q (mr_rkey m') w') ->
  wp Total (krping_rdma_rkey cba buf true) Q w.
Proof.
  intros [[Hcb Hsv Hqp Hcq Hrq] Hwr (a & Ea & Ha) Hst Hsk Hpo] HQ.
  assert (Hne : a <> cba) by (intros ->; congruence).
  pose proof (wr_chain_rekeyed buf m cb Hwr) as Hch.
  unfold krping_rdma_rkey, load_mr, ib_update_fast_reg_key, ib_map_mr_sg, ib_post_send_wr,
    post_send.
  wp_step. wp_step. wp_step. rewrite Ea. cbn [kptr_addr].
  do 17 wp_step.
  lazymatch goal with |- wp _ _ _ ?v => set (w1 := v) end.
  set (m' := with_key (u8 (kc_key cb + 1)) m) in *. set (cb' := rekeyed buf m cb) in *.
  assert (H1 : heap w1 !! cba = Some (BKcb cb') /\ heap w1 !! a = Some (BMr m')
    /\ (forall b, b <> cba -> b <> a -> heap w1 !! b = heap w !! b)
    /\ qps w1 = qps w /\ cqs w1 = cqs w /\ sched w1 = sched w /\ trace w1 = trace w).
  { unfold w1. split_and!; [heap_lookup|heap_lookup| |done|done|done|done].
    intros b Hb1 Hb2. wsimpl. by rewrite !lookup_insert_ne by done. }
  clearbody w1. destruct H1 as (Hc1 & Ha1 & Hb1 & Q1 & X1 & S1 & T1).
  wp_step. wp_step.
  assert (Esz : u32 (kc_size cb) = kc_size cb).
  { apply uint_small. pose proof (wr_size _ Hwr) as Hs. unfold RPING_BUFSIZE in Hs.
    unfold in_u. lia. }
  assert (Hmap : 0 < kk_map_mr_sg (trace w1) a buf (kc_size cb) <= kc_page_list_len cb).
  { rewrite (wr_pages _ Hwr). apply Hob. pose proof (wr_size _ Hwr). lia. }
  rewrite Esz.
  do 4 wp_step. set (mp := kk_map_mr_sg _ _ _ _) in *.
  rewrite (proj2 (Z.leb_gt mp 0)), (proj2 (Z.ltb_ge (kc_page_list_len cb) mp)) by lia.
  cbn [orb]. wp_step. wp_step. do 2 wp_step. eapply wp_from_option; [exact Hch|].
  wp_step. wp_step; [by rewrite Q1|]. wp_step. rewrite (ob_send Hob).
  change (negb (0 =? 0)) with false. cbv iota. do 4 wp_step.
  assert (Er : kc_reg_mr cb' = KPtr a) by exact Ea. rewrite Er. cbn [kptr_addr].
  do 3 wp_step. eapply HQ; [done| |done|].
  - assert (Hbytes : forall b l, heap w !! b = Some (BBytes l) -> heap w1 !! b = Some (BBytes l))
      by (intros b l Hl; rewrite Hb1 by congruence; done).
    split.
    + split; [done|done|by rewrite <- Q1 in Hqp| |done]. change (kc_cq cb') with (kc_cq cb).
      wsimpl. by rewrite X1.
    + by apply wrs_ready_rekeyed.
    + by exists a.
    + destruct Hst as (l & Hl & ?). exists l. eauto.
    + destruct Hsk as (l & Hl & ?). exists l. eauto.
    + unfold kpolls_of. wsimpl. by rewrite X1.
  - wsimpl. cbn [sent]. by rewrite T1.
Qed.
(** Nothing is posted and no event is taken. *)
Definition quiet (w w' : world) : Prop :=
  sched w' = sched w /\ sent (trace w') = sent (trace w).
#[local] Instance quiet_preorder : PreOrder quiet.
Proof. split; [done|]. intros x y z [] []. split; congruence. Qed.

Lemma wp_pg_update w cba cb cb' f m ps (Q : unit -> world -> Prop) :
  pinging w cba cb m ps -> cb' = f cb -> core cb' = core cb -> wrs_ready cb' ->
  (forall w', pinging w' cba cb' m ps -> quiet w w' -> woken w' = woken w -> Q tt w') ->
  wp Total (update cba f) Q w.
Proof.
  intros Hp -> Hc Hw HQ. eapply wp_update; [apply (cl_cb _ _ _ (pg_ready _ _ _ _ _ Hp))|done|].
  apply HQ; [by eapply pinging_update|done|done].
Qed.

Lemma wp_pg_load w cba cb m ps (Q : krping_cb -> world -> Prop) :
  pinging w cba cb m ps -> Q cb w -> wp Total (load cba) Q w.
Proof. intros Hp. by apply wp_load, (cl_cb _ _ _ (pg_ready _ _ _ _ _ Hp)). Qed.

(** The block after [krping_format_send]. *)
Definition advertised (buf : Z) (m : ib_mr) (cb : krping_cb) : krping_cb :=
  set_kc_send_buf
    {| ri_buf := htonll k_big_endian buf;
       ri_rkey := htonl k_big_endian (mr_rkey (with_key (u8 (kc_key cb + 1)) m));
       ri_size := htonl k_big_endian (kc_size cb) |} (rekeyed buf m cb).

Lemma wp_format_send w cba cb m ps buf (Q : unit -> world -> Prop) :
  pinging w cba cb m ps ->
  (forall w' m', m' = with_key (u8 (kc_key cb + 1)) m ->
     pinging w' cba (advertised buf m cb) m' ps -> sched w' = sched w ->
     sent (trace w') = reg_chain (kc_reg_mr cb) (mr_rkey m) (mr_rkey m')
       (reg_access buf (kc_start_dma_addr cb)) :: sent (trace w) -> Q tt w') ->
  wp Total (krping_format_send cba buf) Q w.
Proof.
  intros Hp HQ. pose proof (pg_wrs _ _ _ _ _ Hp) as Hwr. unfold krping_format_send.
  wp_step. eapply wp_pg_load; [done|]. rewrite (wr_no_inv _ Hwr). wp_step.
  eapply wp_rdma_rkey; [done|]. intros w1 m' Em Hp1 S1 T1. subst m'.
  eapply wp_pg_update; [exact Hp1|reflexivity|reflexivity| |].
  { by apply (wrs_ready_rekeyed buf m) in Hwr as []. }
  intros w2 Hp2 [S2 T2] _. eapply HQ; [reflexivity|exact Hp2|congruence|congruence].
Qed.

(** ** The text of a ping *)

(** The characters from [c] on. *)
Fixpoint cycle (n : nat) (c : Z) : list Z :=
  match n with O => [] | S n => c :: cycle n (next_char c) end.

(** The buffer of ping number [ping]: the heading, the characters from [start]
    on, and the terminator. *)
Definition ping_line (size ping start : Z) : list Z :=
  ping_text ping
  ++ cycle (Z.to_nat size - length (ping_text ping) - 1) (u8 start) ++ [0].

Lemma length_cycle n c : length (cycle n c) = n.
Proof. revert c. induction n; intros c; cbn; auto. Qed.
Lemma take_cycle k n c : (k <= n)%nat -> take k (cycle n c) = cycle k c.
Proof.
  revert n c. induction k as [|k IH]; intros [|n] c Hk; cbn; try done; [lia|].
  by rewrite IH by lia.
Qed.

Lemma wp_fill_chars t n buf i c l w (Q : unit -> world -> Prop) :
  heap w !! buf = Some (BBytes l) -> (i + n <= length l)%nat ->
  Q tt (upd_heap (insert buf (BBytes (take i l ++ cycle n c ++ drop (i + n) l))) w) ->
  wp t (fill_chars n buf i c) Q w.
Proof.
  revert i c l w. induction n as [|n IH]; intros i c l w Hl Hi HQ; cbn [fill_chars cycle] in *.
  - apply wp_ret. rewrite Nat.add_0_r, app_nil_l, take_drop, upd_heap_id in HQ; [done|].
    by apply insert_id.
  - apply wp_bind. eapply wp_write_bytes; [done|apply write_at_Some; cbn; lia|].
    assert (Ht : length (take i l) = i) by (rewrite length_take; lia).
    eapply IH; [wsimpl; apply lookup_insert_eq| |].
    + rewrite !length_app, Ht, length_drop. cbn. lia.
    + rewrite upd_heap_insert_twice. cbn [length]. set (l' := take i l ++ [c] ++ _).
      assert (E1 : take (S i) l' = take i l ++ [c]).
      { unfold l'. rewrite app_assoc. apply take_app_length'. rewrite length_app, Ht. cbn. lia. }
      assert (E2 : drop (S i + n) l' = drop (i + S n) l).
      { unfold l'. rewrite app_assoc, drop_app_ge by (rewrite length_app, Ht; cbn; lia).
        rewrite length_app, Ht, drop_drop. f_equal. cbn. lia. }
      by rewrite E1, E2, <- app_assoc.
Qed.

(** The heading takes at most 22 characters. *)
Lemma ping_text_length ping : 0 <= ping < 2 ^ 31 -> (length (ping_text ping) <= 22)%nat.
Proof.
  intros Hp. unfold ping_text. rewrite !length_app.
  replace (decimal ping) with (digits 20 ping)
    by (unfold decimal; by rewrite (proj2 (Z.ltb_ge ping 0)) by lia).
  pose proof (digits_length_le 20 10 ping) as Hd. cbn [length chars]. 
  assert (length (chars "rdma-ping-") = 10%nat) as -> by reflexivity.
  assert (length (chars ": ") = 2%nat) as -> by reflexivity. lia.
Qed.

Lemma wp_put_ping_text w cba cb m ps ping start (Q : unit -> world -> Prop) :
  pinging w cba cb m ps -> 0 <= ping < 2 ^ 31 ->
  (forall w', pinging w' cba cb m ps -> quiet w w' ->
     heap w' = <[kc_start_buf cb := BBytes (ping_line (kc_size cb) ping start)]> (heap w) ->
     Q tt w') ->
  wp Total (put_ping_text cba ping start) Q w.
Proof.
  intros Hp Hn HQ. pose proof (ping_text_length ping Hn) as Hl22.
  destruct (pg_start _ _ _ _ _ Hp) as (l & Hl & El).
  pose proof (wr_size _ (pg_wrs _ _ _ _ _ Hp)) as Hs.
  unfold put_ping_text. wp_step. eapply wp_pg_load; [done|].
  set (cc := length (ping_text ping)) in *. set (size := Z.to_nat (kc_size cb)) in *.
  assert (Hsz : (64 <= size)%nat) by (unfold size; lia).
  wp_step. eapply wp_write_bytes; [done|apply write_at_Some|].
  { rewrite length_app. cbn [length]. fold cc. lia. }
  rewrite take_0, app_nil_l. set (l1 := (ping_text ping ++ [0]) ++ drop (0 + length (ping_text ping ++ [0])) l).
  assert (E1 : length l1 = size).
  { unfold l1. rewrite length_app, length_drop, El, length_app. cbn [length]. fold cc. lia. }
  wp_step. eapply wp_fill_chars; [wsimpl; apply lookup_insert_eq|lia|].
  rewrite upd_heap_insert_twice.
  assert (E2 : take cc l1 = ping_text ping).
  { unfold l1. rewrite <- !app_assoc. apply take_app_length. }
  set (l2 := take cc l1 ++ _).
  assert (E3 : l2 = ping_text ping ++ cycle (size - cc) (u8 start)).
  { unfold l2. rewrite E2, (drop_ge l1) by (fold cc; lia). by rewrite app_nil_r. }
  rewrite (proj2 (Z.ltb_ge _ 0)) by lia.
  eapply wp_write_bytes; [wsimpl; apply lookup_insert_eq|apply write_at_Some|].
  { rewrite E3, length_app, length_cycle. cbn [length]. fold cc. lia. }
  rewrite upd_heap_insert_twice.
  match goal with |- Q tt (upd_heap (insert _ (BBytes ?x)) _) =>
    assert (E4 : x = ping_line (kc_size cb) ping start) end.
  { rewrite E3, drop_ge, app_nil_r by (rewrite length_app, length_cycle; cbn [length]; fold cc; lia).
    replace (Z.to_nat (kc_size cb - 1)) with (cc + (size - cc - 1))%nat by lia.
    rewrite take_app_add', take_cycle by (done || lia). by rewrite <- app_assoc. }
  rewrite E4. apply HQ; [|done|done]. eapply pinging_bytes; [done|done|].
  unfold ping_line. rewrite !length_app, length_cycle, El. cbn [length]. fold cc size. lia.
Qed.
(** ** The peer's answers *)

(** A completion of a send, the receipt of an advertisement or of an
    acknowledgement, and what a peer's answer brings: completions of sends,
    then the receipt. *)
Definition send_done (wc : ib_wc) : Prop :=
  wc_status wc = IB_WC_SUCCESS /\ wc_opcode wc = IB_WC_SEND.
Definition received (wc : ib_wc) : Prop :=
  wc_status wc = IB_WC_SUCCESS /\ wc_opcode wc = IB_WC_RECV /\ wc_byte_len wc = info_size.
Definition answer (cq : kptr) (e : async) : Prop := exists sends wc,
  e = ACq cq ((PollWc <$> sends) ++ [PollWc wc]) /\ Forall send_done sends /\ received wc.

Definition recv_state (s : test_state) : test_state :=
  if s =t RDMA_READ_ADV then RDMA_WRITE_ADV else RDMA_WRITE_COMPLETE.

Lemma wp_pg_poll w cba cb m ps (Q : poll -> world -> Prop) :
  pinging w cba cb m ps ->
  (forall w', pinging w' cba cb m (tl ps) -> quiet w w' -> woken w' = woken w ->
     Q (hd PollEmpty ps) w') ->
  wp Total (ib_poll_cq (kc_cq cb)) Q w.
Proof.
  intros [[Hcb Hsv Hqp (c & Hc & Hx) Hrq] Hw Hm Hl1 Hl2 Hp] HQ.
  unfold kpolls_of in Hp. rewrite Hc in Hp. unfold ib_poll_cq, live_cq.
  wp_step. wp_step. wp_step. eapply wp_from_option; [exact Hc|].
  replace (match cq_polls c with [] => (PollEmpty, []) | p :: ps => (p, ps) end)
    with (hd PollEmpty ps, tl ps) by (rewrite Hp; by destruct ps).
  wp_steps. apply HQ; [|done|done]. split; try done.
  - split; try done. eexists. wsimpl. rewrite lookup_insert_eq. done.
  - unfold kpolls_of. wsimpl. by rewrite lookup_insert_eq.
Qed.

Lemma wp_pg_send_done w cba cb m ps wc (Q : bool -> world -> Prop) :
  pinging w cba cb m ps -> send_done wc ->
  (forall w' st, pinging w' cba (set_kc_stats st cb) m ps -> quiet w w' ->
     woken w' = woken w -> Q true w') ->
  wp Total (krping_complete cba wc) Q w.
Proof.
  intros Hp [E1 E2] HQ. pose proof (pg_wrs _ _ _ _ _ Hp) as Hw.
  unfold krping_complete, count. rewrite E1, E2.
  wp_step. eapply wp_pg_load; [done|]. wp_step.
  eapply wp_pg_update; [done|reflexivity|reflexivity|by destruct Hw|].
  intros w1 H1 Hq Hk. wp_step. by eapply HQ.
Qed.

Lemma wp_pg_received w cba cb m ps wc (Q : bool -> world -> Prop) :
  pinging w cba cb m ps -> received wc ->
  (forall w' st, pinging w' cba (set_kc_state (recv_state (kc_state cb)) (set_kc_stats st cb))
       m ps -> quiet w w' -> WqCb cba ∈ woken w' -> Q true w') ->
  wp Total (krping_complete cba wc) Q w.
Proof.
  intros Hp (E1 & E2 & E3) HQ. pose proof (pg_wrs _ _ _ _ _ Hp) as Hw.
  pose proof (pg_ready _ _ _ _ _ Hp) as Hr.
  unfold krping_complete, count. rewrite E1, E2. wp_step. eapply wp_pg_load; [done|].
  wp_step. eapply wp_pg_update; [done|reflexivity|reflexivity|by destruct Hw|].
  set (cb1 := set_kc_stats _ cb). intros w1 Hp1 Hq1 _.
  rewrite (cl_server _ _ _ Hr). change (negb (0 =? 0)) with false. cbv iota.
  unfold client_recv. rewrite E3, Z.eqb_refl. cbn [negb]. wp_step. wp_step.
  eapply wp_pg_load; [exact Hp1|]. wp_step.
  assert (Hs : wp Total (if kc_state cb1 =t RDMA_READ_ADV then set_kstate cba RDMA_WRITE_ADV
      else set_kstate cba RDMA_WRITE_COMPLETE)
    (fun _ w' => pinging w' cba (set_kc_state (recv_state (kc_state cb)) cb1) m ps
       /\ quiet w w') w1).
  { change (kc_state cb1) with (kc_state cb). unfold recv_state, set_kstate.
    destruct (kc_state cb =t RDMA_READ_ADV);
      (eapply wp_pg_update; [exact Hp1|reflexivity|reflexivity|by destruct Hw|]);
      intros w2 Hp2 Hq2 _; (split; [done|by etransitivity]). }
  eapply wp_mono; [exact Hs|]. intros [] w2 [Hp2 Hq2]. cbv beta. wp_step.
  change (negb (0 =? 0)) with false. cbv iota. wp_step. eapply wp_pg_load; [exact Hp2|].
  pose proof (pg_ready _ _ _ _ _ Hp2) as Hr2. unfold ib_post_recv_wr.
  rewrite (cl_rq _ _ _ Hr2). wp_step. wp_step. wp_step; [apply Hr2|]. wp_step.
  eapply wp_from_option; [reflexivity|]. wp_step. rewrite (ob_recv Hob).
  change (negb (0 =? 0)) with false. cbv iota. unfold wake_up_interruptible.
  wp_steps. eapply HQ; [eapply pinging_env; [..|exact Hp2]; done|done|by left].
Qed.

Lemma wp_pg_answer sends wc fuel w cba cb m (Q : unit -> world -> Prop) :
  pinging w cba cb m ((PollWc <$> sends) ++ [PollWc wc]) -> Forall send_done sends ->
  received wc -> (length sends + 1 < fuel)%nat ->
  (forall w' st, pinging w' cba (set_kc_state (recv_state (kc_state cb)) (set_kc_stats st cb))
       m [] -> quiet w w' -> WqCb cba ∈ woken w' -> Q tt w') ->
  wp Total (krping_cq_loop fuel cba) Q w.
Proof.
  intros Hp Hs Hr. revert fuel w cb Hp. induction Hs as [|wc' sends Hwc Hs IH];
    intros [|fuel] w cb Hp Hf HQ; cbn [length] in Hf; try lia; cbn [krping_cq_loop].
  all: wp_step; eapply wp_pg_load; [exact Hp|]; wp_step;
    eapply wp_pg_poll; [exact Hp|]; intros w1 Hp1 Hq1 Hk1; cbn [hd tl fmap list_fmap app] in *.
  - wp_step. eapply wp_pg_received; [exact Hp1|done|]. intros w2 st Hp2 Hq2 Hk2.
    destruct fuel as [|fuel]; [lia|]. cbn [krping_cq_loop]. wp_step.
    eapply wp_pg_load; [exact Hp2|]. wp_step. eapply wp_pg_poll; [exact Hp2|].
    intros w3 Hp3 Hq3 Hk3. cbn [hd tl] in *. wp_step. eapply HQ; [exact Hp3| |congruence].
    by rewrite Hq1, Hq2.
  - wp_step. eapply wp_pg_send_done; [exact Hp1|done|]. intros w2 st Hp2 Hq2 Hk2.
    eapply IH; [exact Hp2|lia|]. intros w3 st3 Hp3 Hq3 Hk3.
    eapply HQ; [exact Hp3| |done]. by rewrite Hq1, Hq2.
Qed.
Lemma not_error s tgt : (s >=t tgt) = false -> (s =t ERROR) = false.
Proof.
  intros H%Z.leb_gt. apply Z.eqb_neq. enough (ts_val tgt <= ts_val ERROR) by lia.
  by destruct tgt.
Qed.

Lemma wp_pg_handler sends wc w cba cb m (Q : unit -> world -> Prop) :
  pinging w cba cb m ((PollWc <$> sends) ++ [PollWc wc]) -> Forall send_done sends ->
  received wc -> (kc_state cb =t ERROR) = false ->
  (forall w' st, pinging w' cba (set_kc_state (recv_state (kc_state cb)) (set_kc_stats st cb))
       m [] -> quiet w w' -> WqCb cba ∈ woken w' -> Q tt w') ->
  wp Total (krping_cq_event_handler (kc_cq cb) cba) Q w.
Proof.
  intros Hp Hs Hwc He HQ. pose proof (pg_polls _ _ _ _ _ Hp) as Hps.
  destruct (cl_cq _ _ _ (pg_ready _ _ _ _ _ Hp)) as (c & Hc & Hx).
  unfold kpolls_of in Hps. rewrite Hc in Hps. unfold krping_cq_event_handler.
  wp_step. eapply wp_pg_load; [exact Hp|]. rewrite bool_decide_eq_true_2 by done.
  cbn [negb]. rewrite He, (wr_frtest _ (pg_wrs _ _ _ _ _ Hp)).
  change (negb (0 =? 0)) with false. cbv iota.
  wp_step. unfold ib_req_notify_cq, live_cq. wp_step. wp_step. wp_step.
  eapply wp_from_option; [exact Hc|]. do 4 wp_step. eapply wp_from_option; [exact Hc|].
  set (w1 := log _ w). assert (Hp1 : pinging w1 cba cb m _)
    by (eapply pinging_env; [..|exact Hp]; done).
  eapply wp_pg_answer; [exact Hp1|done|done| |].
  - rewrite Hps, length_app, length_fmap. cbn. lia.
  - intros w2 st Hp2 Hq2 Hk2. by eapply HQ.
Qed.

(** A wait that the peer's answer ends. *)
Lemma wp_pg_wait tgt w cba cb m e s (Q : Z -> world -> Prop) :
  pinging w cba cb m [] -> sched w = e :: s -> answer (kc_cq cb) e ->
  (kc_state cb >=t tgt) = false -> (recv_state (kc_state cb) >=t tgt) = true ->
  (forall w' st, pinging w' cba (set_kc_state (recv_state (kc_state cb)) (set_kc_stats st cb))
       m [] -> sched w' = s -> sent (trace w') = sent (trace w) -> Q 0 w') ->
  wp Total (wait_event_interruptible (WqCb cba) (kstate_ge cba tgt)) Q w.
Proof.
  intros Hp Hs (sends & wc & -> & Hsd & Hwc) Hlt Hge HQ.
  assert (Hcond : forall w cb (R : bool -> world -> Prop), pinging w cba cb m [] ->
    R (kc_state cb >=t tgt) w -> wp Total (kstate_ge cba tgt) R w).
  { intros v c R Hv HR. unfold kstate_ge. wp_step. eapply wp_pg_load; [exact Hv|].
    by wp_step. }
  destruct (cl_cq _ _ _ (pg_ready _ _ _ _ _ Hp)) as (c & Hc & Hx).
  unfold wait_event_interruptible. wp_step. eapply Hcond; [exact Hp|]. rewrite Hlt.
  wp_step. wp_step. rewrite Hs. cbn [length wait_loop]. wp_step. wp_step. rewrite Hs.
  wp_step. wp_step. wp_step. unfold deliver, krping_delivery, krping_deliver.
  wp_step. wp_step. wsimpl. rewrite Hc. wp_step. wp_step. rewrite Hx.
  set (w1 := upd_cqs _ _).
  assert (Hp1 : pinging w1 cba cb m ((PollWc <$> sends) ++ [PollWc wc])).
  { pose proof (pg_polls _ _ _ _ _ Hp) as Hps. unfold kpolls_of in Hps. rewrite Hc in Hps.
    destruct Hp as [[] ? ? ? ? _]. split; try done.
    - split; try done. eexists. unfold w1. wsimpl. by rewrite lookup_insert_eq.
    - unfold kpolls_of, w1. wsimpl. rewrite lookup_insert_eq. cbn [cq_polls].
      by rewrite Hps. }
  eapply wp_pg_handler; [exact Hp1|done|done|by eapply not_error|].
  intros w2 st Hp2 [Hq1 Hq2] Hk2. wp_step. wp_step. cbn [is_signal].
  rewrite bool_decide_eq_true_2 by done. wp_step. eapply Hcond; [exact Hp2|].
  kcb_simpl. rewrite Hge. wp_step. by eapply HQ.
Qed.
Lemma wp_pg_send w cba cb m ps (Q : Z -> world -> Prop) :
  pinging w cba cb m ps ->
  (forall w', pinging w' cba cb m ps -> sched w' = sched w ->
     sent (trace w') = send_chain cb :: sent (trace w) -> Q 0 w') ->
  wp Total (ib_post_send_wr (kc_qp cb) cb W_sq_wr) Q w.
Proof.
  intros Hp HQ. pose proof (pg_wrs _ _ _ _ _ Hp) as Hw. unfold ib_post_send_wr, post_send.
  assert (Hc : wr_chain 3 cb W_sq_wr = Some (send_chain cb)).
  { cbn [wr_chain wr_of]. by rewrite (wr_sq _ Hw). }
  wp_step. eapply wp_from_option; [exact Hc|]. wp_step. wp_step; [apply (pg_ready _ _ _ _ _ Hp)|].
  wp_step. rewrite (ob_send Hob). apply HQ; [|done|done].
  by eapply pinging_env; [..|exact Hp].
Qed.

(** The access rights under which the source and the sink are registered. *)
Lemma reg_access_start a : in_u 64 a -> reg_access a a = IB_ACCESS_REMOTE_READ.
Proof. intros Ha. unfold reg_access, u64. by rewrite uint_small, Z.eqb_refl. Qed.
Lemma reg_access_sink a start :
  in_u 64 start -> a <> start ->
  reg_access a start = Z.lor IB_ACCESS_REMOTE_WRITE IB_ACCESS_LOCAL_WRITE.
Proof.
  intros Hs Ha. unfold reg_access, u64. by rewrite uint_small, (proj2 (Z.eqb_neq _ _)).
Qed.

(** The keys of the region after one registration more, and the chains that
    a ping posts, the latest first, with the rights [src] and [snk]. *)
Definition next_key (key : Z) : Z := u8 (key + 1).
Definition ping_sent (src snk : Z) (cb : krping_cb) (key : Z) (m : ib_mr)
    : list (list posted) :=
  let m1 := with_key (next_key key) m in
  let m2 := with_key (next_key (next_key key)) m1 in
  [send_chain cb;
   reg_chain (kc_reg_mr cb) (mr_rkey m1) (mr_rkey m2) snk;
   send_chain cb;
   reg_chain (kc_reg_mr cb) (mr_rkey m) (mr_rkey m1) src].
Definition src_access (cb : krping_cb) : Z :=
  reg_access (kc_start_dma_addr cb) (kc_start_dma_addr cb).
Definition snk_access (cb : krping_cb) : Z :=
  reg_access (kc_rdma_dma_addr cb) (kc_start_dma_addr cb).

Definition rekey2 (key : Z) (m : ib_mr) : ib_mr :=
  with_key (next_key (next_key key)) (with_key (next_key key) m).

(** After a ping. *)
Record pinged (w : world) (cba : addr) (cb : krping_cb) (m : ib_mr) (s : list async)
    (w' : world) (cb' : krping_cb) : Prop := {
  pd_pinging : pinging w' cba cb' (rekey2 (kc_key cb) m) [];
  pd_core : core cb' = core cb;
  pd_key : kc_key cb' = next_key (next_key (kc_key cb));
  pd_state : kc_state cb' = RDMA_WRITE_COMPLETE;
  pd_sched : sched w' = s;
  pd_sent : sent (trace w') =
    ping_sent (src_access cb) (snk_access cb) cb (kc_key cb) m ++ sent (trace w) }.

Lemma wp_pg_ping w cba cb m ping start e1 e2 s (Q : bool -> world -> Prop) :
  pinging w cba cb m [] -> 0 <= ping < 2 ^ 31 ->
  sched w = e1 :: e2 :: s -> answer (kc_cq cb) e1 -> answer (kc_cq cb) e2 ->
  (forall w' cb', pinged w cba cb m s w' cb' -> Q true w') ->
  wp Total (krping_ping cba ping start) Q w.
Proof.
  intros Hp Hn Hs Ha1 Ha2 HQ. pose proof (pg_wrs _ _ _ _ _ Hp) as Hw.
  unfold krping_ping, set_kstate. wp_step.
  eapply wp_pg_update; [exact Hp|reflexivity|reflexivity|by destruct Hw|].
  set (cb1 := set_kc_state RDMA_READ_ADV cb). intros w1 Hp1 [S1 T1] _.
  wp_step. eapply wp_put_ping_text; [exact Hp1|done|].
  intros w2 Hp2 [S2 T2] _. wp_step. eapply wp_pg_load; [exact Hp2|]. wp_step.
  eapply wp_format_send; [exact Hp2|]. intros w3 m1 E1 Hp3 S3 T3.
  wp_step. eapply wp_pg_load; [exact Hp3|].
  set (cb3 := advertised _ m cb1) in *. change (kc_state cb3 =t ERROR) with false. cbv iota.
  wp_step. eapply wp_pg_send; [exact Hp3|]. intros w4 Hp4 S4 T4.
  change (negb (0 =? 0)) with false. cbv iota. wp_step.
  eapply (wp_pg_wait RDMA_WRITE_ADV); [exact Hp4|by rewrite S4, S3, S2, S1, Hs|exact Ha1|done|done|].
  intros w5 st5 Hp5 S5 T5. wp_step. eapply wp_pg_load; [exact Hp5|].
  set (cb5 := set_kc_state _ (set_kc_stats st5 cb3)) in *.
  change (negb (kc_state cb5 =t RDMA_WRITE_ADV)) with false. cbv iota.
  wp_step. eapply wp_format_send; [exact Hp5|]. intros w6 m2 E2 Hp6 S6 T6.
  wp_step. eapply wp_pg_load; [exact Hp6|]. set (cb6 := advertised _ m1 cb5) in *.
  wp_step. eapply wp_pg_send; [exact Hp6|]. intros w7 Hp7 S7 T7.
  change (negb (0 =? 0)) with false. cbv iota. wp_step.
  eapply (wp_pg_wait RDMA_WRITE_COMPLETE); [exact Hp7|by rewrite S7, S6, S5|exact Ha2|done|done|].
  intros w8 st8 Hp8 S8 T8. wp_step. eapply wp_pg_load; [exact Hp8|].
  set (cb8 := set_kc_state _ (set_kc_stats st8 cb6)) in *.
  change (negb (kc_state cb8 =t RDMA_WRITE_COMPLETE)) with false. cbv iota.
  assert (Hend : Q true w8).
  { apply (HQ w8 cb8). split; try done.
    - by rewrite E2, E1 in Hp8.
    - by rewrite T8, T7, T6, T5, T4, T3, T2, T1, E2, E1. }
  wp_step. destruct (negb _); [|by do 2 wp_step].
  destruct (pg_sink _ _ _ _ _ Hp8) as (l & Hl & El). wp_step.
  eapply wp_load; [exact Hl|]. unfold printk_64s.
  pose proof (wr_size _ (pg_wrs _ _ _ _ _ Hp8)).
  rewrite decide_True by (rewrite El; lia). by do 2 wp_step.
Qed.
(** The chains of [n] pings, the latest first. *)
Fixpoint pings_sent (src snk : Z) (n : nat) (cb : krping_cb) (key : Z) (m : ib_mr)
    : list (list posted) :=
  match n with
  | O => []
  | S n => pings_sent src snk n cb (next_key (next_key key)) (rekey2 key m)
           ++ ping_sent src snk cb key m
  end.

Lemma pings_sent_ext src snk n cb cb' key m :
  kc_reg_mr cb' = kc_reg_mr cb -> kc_send_sgl cb' = kc_send_sgl cb ->
  pings_sent src snk n cb' key m = pings_sent src snk n cb key m.
Proof.
  intros E1 E2. revert key m. induction n as [|n IH]; intros key m; cbn [pings_sent]; [done|].
  rewrite IH. unfold ping_sent, send_chain. by rewrite E1, E2.
Qed.

Lemma pings_sent_core src snk n cb cb' key m :
  core cb' = core cb -> pings_sent src snk n cb' key m = pings_sent src snk n cb key m.
Proof.
  intros Hc. apply pings_sent_ext.
  - by rewrite (core_field kc_reg_mr _ _ (fun _ => eq_refl) Hc).
  - by rewrite (core_field kc_send_sgl _ _ (fun _ => eq_refl) Hc).
Qed.

Lemma next_key_add key i : next_key (u8 (key + i)) = u8 (key + (i + 1)).
Proof.
  unfold next_key, u8, uint. rewrite Zplus_mod_idemp_l. f_equal. lia.
Qed.

(** After the pings. *)
Record pings_done (src snk : Z) (n : nat) (w : world) (cba : addr) (cb : krping_cb) (m : ib_mr)
    (s : list async) (w' : world) (cb' : krping_cb) : Prop := {
  pd_cb : heap w' !! cba = Some (BKcb cb');
  pd_cb_core : core cb' = core cb;
  pd_keys : kc_key cb' = u8 (kc_key cb + 2 * Z.of_nat n);
  pd_complete : kc_state cb' = RDMA_WRITE_COMPLETE;
  pd_rest : sched w' = s;
  pd_posts : sent (trace w') = pings_sent src snk n cb (kc_key cb) m ++ sent (trace w) }.

Lemma wp_pg_loop n fuel w cba cb m ping start l s :
  pinging w cba cb m [] -> kc_state cb = RDMA_WRITE_COMPLETE \/ (0 < n)%nat ->
  0 <= ping -> kc_count cb = ping + Z.of_nat n -> 0 < kc_count cb < 2 ^ 31 ->
  sched w = l ++ s -> length l = (2 * n)%nat -> Forall (answer (kc_cq cb)) l ->
  (n < fuel)%nat ->
  wp Total (ping_loop fuel cba ping start)
    (fun _ w' => exists cb',
       pings_done (src_access cb) (snk_access cb) n w cba cb m s w' cb') w.
Proof.
  revert fuel w cb m ping start l.
  induction n as [|n IH]; intros [|fuel] w cb m ping start l Hp Hst H0 Hcnt Hb Hs Hl Ha Hf;
    try lia; cbn [ping_loop]; wp_step; (eapply wp_pg_load; [exact Hp|]);
    rewrite (proj2 (Z.eqb_neq (kc_count cb) 0)) by lia; cbn [orb].
  - rewrite (proj2 (Z.ltb_ge _ _)) by lia. wp_step. destruct l; [|done].
    exists cb. destruct Hst as [Hst|]; [|lia]. split; try done; [apply Hp|].
    replace (kc_key cb + 2 * Z.of_nat 0) with (kc_key cb) by lia. symmetry.
    apply uint_small, (wr_key _ (pg_wrs _ _ _ _ _ Hp)).
  - rewrite (proj2 (Z.ltb_lt _ _)) by lia. destruct l as [|e1 [|e2 l]]; cbn in Hl; try lia.
    apply list.Forall_cons_1 in Ha as [Ha1 [Ha2 Ha]%list.Forall_cons_1].
    wp_step. eapply wp_pg_ping; [exact Hp|lia|exact Hs|done|done|].
    intros w1 cb1 [Hp1 Hc1 Hk1 Hs1 Hd1 Ht1]. cbv beta iota.
    pose proof (core_field kc_count _ _ (fun _ => eq_refl) Hc1) as E1.
    pose proof (core_field kc_cq _ _ (fun _ => eq_refl) Hc1) as E2.
    pose proof (core_field kc_start_dma_addr _ _ (fun _ => eq_refl) Hc1) as E3.
    pose proof (core_field kc_rdma_dma_addr _ _ (fun _ => eq_refl) Hc1) as E4.
    replace (i32 (ping + 1)) with (ping + 1)
      by (symmetry; apply sint_small; [lia|unfold in_i; lia]).
    eapply wp_mono; [eapply (IH _ _ cb1 _ _ _ l); try done; try lia; [by left|by rewrite E2]|].
    intros [] w2 (cb2 & [F1 F2 F3 F4 F5 F6]). exists cb2.
    split; [done|congruence| |done|done|].
    + rewrite F3, Hk1. unfold next_key at 2. rewrite next_key_add.
      unfold u8, uint. rewrite Zplus_mod_idemp_l. f_equal. lia.
    + unfold src_access, snk_access in F6. rewrite E3, E4 in F6.
      fold (src_access cb) (snk_access cb) in F6.
      rewrite F6, Ht1, Hk1, (pings_sent_core _ _ _ cb) by done. cbn [pings_sent].
      by rewrite <- app_assoc.
Qed.

(** What a client puts in the buffer of a ping: a heading with its number,
    the characters of the alphabet from [start] on, and a terminator, of the
    size of the buffer in all; nothing else changes. *)
Theorem put_ping_text_fills w cba cb m ping start :
  pinging w cba cb m [] -> 0 <= ping < 2 ^ 31 ->
  exists w', put_ping_text cba ping start w = Ok tt w'
    /\ heap w' = <[kc_start_buf cb := BBytes (ping_line (kc_size cb) ping start)]> (heap w)
    /\ length (ping_line (kc_size cb) ping start) = Z.to_nat (kc_size cb)
    /\ sched w' = sched w /\ sent (trace w') = sent (trace w).
Proof.
  intros Hp Hn. apply (wp_total_unit _ (fun _ w' =>
    heap w' = <[kc_start_buf cb := BBytes (ping_line (kc_size cb) ping start)]> (heap w)
    /\ length (ping_line (kc_size cb) ping start) = Z.to_nat (kc_size cb)
    /\ sched w' = sched w /\ sent (trace w') = sent (trace w))).
  eapply wp_put_ping_text; [done|done|].
  intros w' Hp' [] Hh. split_and!; try done.
  pose proof (ping_text_length ping Hn). pose proof (wr_size _ (pg_wrs _ _ _ _ _ Hp)).
  unfold ping_line. rewrite !length_app, length_cycle. cbn [length]. lia.
Qed.

(** C39. The options allow sizes from 1 on, but the heading of a ping has 14 bytes
    or more with its terminator: in a buffer of 13 bytes or less [sprintf]
    writes past the end. *)
Theorem ping_text_overflow w cba cb l ping start :
  heap w !! cba = Some (BKcb cb) -> heap w !! kc_start_buf cb = Some (BBytes l) ->
  length l = Z.to_nat (kc_size cb) -> 1 <= kc_size cb <= 13 ->
  put_ping_text cba ping start w = Undef OutOfBounds.
Proof.
  intros Hcb Hl El Hs. unfold put_ping_text.
  erewrite bind_run by by apply load_run. apply bind_undef. unfold write_bytes.
  erewrite bind_run by by apply load_run. apply bind_undef.
  assert (Hd : (1 <= length (decimal ping))%nat).
  { unfold decimal. destruct (ping <? 0); [cbn [length]; lia|].
    by apply digits_length_pos; lia. }
  unfold write_at. rewrite decide_False; [done|]. unfold ping_text.
  rewrite !length_app, El. cbn [length].
  assert (length (chars "rdma-ping-") = 10%nat) as -> by reflexivity.
  assert (length (chars ": ") = 2%nat) as -> by reflexivity. lia.
Qed.

Lemma wp_test_client w cba cb m l s n :
  pinging w cba cb m [] -> kc_count cb = Z.of_nat n -> 0 < kc_count cb < 2 ^ 31 ->
  sched w = l ++ s -> length l = (2 * n)%nat -> Forall (answer (kc_cq cb)) l ->
  wp Total (krping_test_client cba)
    (fun _ w' => exists cb',
       pings_done (src_access cb) (snk_access cb) n w cba cb m s w' cb') w.
Proof.
  intros Hp Hc Hb Hs Hl Ha. unfold krping_test_client. wp_step. wp_step.
  eapply wp_pg_loop; [done|right; lia|lia|lia|lia|done|done|done|].
  rewrite Hs, length_app. lia.
Qed.

(** C23. A test against a peer that answers runs to its end: with a size of 64
    or more, a positive count of [n], two answers for each ping and requests that can be posted,
    [krping_test_client] returns in state [RDMA_WRITE_COMPLETE], having posted
    for each ping the registration of the source buffer for remote reading, its
    advertisement, the registration of the sink buffer for remote writing and
    its advertisement, each under a key one above the last. *)
Theorem krping_pings_complete w cba cb m l s n :
  pinging w cba cb m [] -> kc_count cb = Z.of_nat n -> 0 < kc_count cb < 2 ^ 31 ->
  in_u 64 (kc_start_dma_addr cb) -> kc_rdma_dma_addr cb <> kc_start_dma_addr cb ->
  sched w = l ++ s -> length l = (2 * n)%nat -> Forall (answer (kc_cq cb)) l ->
  exists w' cb', krping_test_client cba w = Ok tt w'
    /\ pings_done IB_ACCESS_REMOTE_READ (Z.lor IB_ACCESS_REMOTE_WRITE IB_ACCESS_LOCAL_WRITE)
         n w cba cb m s w' cb'.
Proof.
  intros Hp Hc Hb Hu Hne Hs Hl Ha.
  rewrite <- (reg_access_start (kc_start_dma_addr cb)) by done.
  rewrite <- (reg_access_sink (kc_rdma_dma_addr cb) (kc_start_dma_addr cb)) by done.
  destruct (wp_total_unit _ _ _ (wp_test_client w cba cb m l s n Hp Hc Hb Hs Hl Ha))
    as (w' & Hr & cb' & Hd). by exists w', cb'.
Qed.
End Proto.

(** ** Between two hosts *)

(** The state of a server after an advertisement. *)
Definition server_state (s : test_state) : test_state :=
  if (s <=t CONNECTED) || (s =t RDMA_WRITE_COMPLETE) then RDMA_READ_ADV else RDMA_WRITE_ADV.

(** The block after the receipt of an advertisement. *)
Definition advertised_to (be : bool) (l : list Z) (buf rkey len : Z) (cb : krping_cb)
    : krping_cb :=
  set_kc_state (server_state (kc_state cb))
    (set_kc_remote_len len (set_kc_remote_addr buf (set_kc_remote_rkey rkey
      (set_kc_recv_buf (bytes_info be l) cb)))).

(** What a host sends: three integers in network byte order. *)
Definition advert_bytes (buf rkey len : Z) : list Z :=
  be_bytes 8 buf ++ be_bytes 4 rkey ++ be_bytes 4 len.

Lemma wp_receive_advert `{K : Kernel} v sva srv wc buf rkey len :
  heap v !! sva = Some (BKcb srv) -> wc_byte_len wc = info_size ->
  in_u 64 buf -> in_u 32 rkey -> in_u 32 len ->
  let l := advert_bytes buf rkey len in
  wp Total (krping_dma_write sva l;; server_recv sva wc)
    (fun r v' => r = 0 /\
       heap v' = <[sva := BKcb (advertised_to k_big_endian l buf rkey len srv)]> (heap v)) v.
Proof.
  intros Hsrv Hlen Hbuf Hkey Hl l.
  assert (E : bytes_info k_big_endian l = {| ri_buf := val_uint k_big_endian (be_bytes 8 buf);
    ri_rkey := val_uint k_big_endian (be_bytes 4 rkey);
    ri_size := val_uint k_big_endian (be_bytes 4 len) |})
    by (apply bytes_info_parts; apply length_be_bytes).
  unfold krping_dma_write, server_recv, set_kstate, advertised_to. rewrite Hlen, Z.eqb_refl.
  cbn [negb]. wp_step. wp_step. wp_step. rewrite Hsrv, decide_True
    by (unfold l, advert_bytes; rewrite !length_app, !length_be_bytes; done).
  wp_step. rewrite E. unfold server_state.
  set (b := (kc_state srv <=t CONNECTED) || (kc_state srv =t RDMA_WRITE_COMPLETE)).
  do 8 wp_step. kcb_simpl. cbn [ri_buf ri_rkey ri_size].
  rewrite !ntohl_be_bytes, ntohll_be_bytes. unfold u32, u64. rewrite !uint_small by done.
  wp_step. fold b. destruct b; wp_steps; (split; [done|]); wsimpl; by rewrite !insert_insert_eq.
Qed.

(** C22. An advertisement arrives as it was meant, whatever the byte orders of
    the two hosts: after a client with a size of 64 or more, whose registration
    can be posted, has formatted a send for [buf], its send
    buffer as bytes, received on the other host, gives there the address, the
    key that was just registered and the length. *)
Theorem advert_roundtrip (K1 K2 : Kernel) (KK1 : KrpingKernel)
    w cba cb m buf v sva srv wc :
  obliging (KK := KK1) -> pinging w cba cb m [] ->
  in_u 64 buf -> in_u 32 (mr_rkey (with_key (next_key (kc_key cb)) m)) ->
  heap v !! sva = Some (BKcb srv) -> wc_byte_len wc = info_size ->
  exists w' cb' l v',
    krping_format_send (K := K1) (KK := KK1) cba buf w = Ok tt w'
    /\ heap w' !! cba = Some (BKcb cb')
    /\ l = info_bytes (k_big_endian (Kernel := K1)) (kc_send_buf cb')
    /\ (krping_dma_write (K := K2) sva l;; server_recv (K := K2) sva wc) v = Ok 0 v'
    /\ heap v' = <[sva := BKcb (advertised_to (k_big_endian (Kernel := K2)) l buf
         (rw_key (kc_reg_mr_wr cb')) (kc_size cb) srv)]> (heap v).
Proof.
  intros Hob Hp Hbuf Hkey Hsrv Hlen. set (cb' := advertised (K := K1) buf m cb).
  set (key := mr_rkey (with_key (next_key (kc_key cb)) m)) in *.
  destruct (wp_total_unit (krping_format_send (K := K1) (KK := KK1) cba buf) (fun _ w' =>
    heap w' !! cba = Some (BKcb cb')) w) as (w' & Hr & Hcb').
  { eapply (wp_format_send (K := K1)); [done|done|]. intros w' m' _ Hp' _ _.
    apply (pg_ready _ _ _ _ _ Hp'). }
  set (l := info_bytes (k_big_endian (Kernel := K1)) (kc_send_buf cb')).
  assert (Hs : in_u 32 (kc_size cb)).
  { pose proof (wr_size _ (pg_wrs _ _ _ _ _ Hp)) as Hs. unfold RPING_BUFSIZE in Hs.
    unfold in_u. lia. }
  assert (El : l = advert_bytes buf key (kc_size cb)).
  { unfold advert_bytes. rewrite <- (uint_small 32 key), <- (uint_small 32 (kc_size cb)) by done.
    apply info_bytes_hton. }
  destruct (wp_total_run _ _ _
    (wp_receive_advert (K := K2) v sva srv wc buf key (kc_size cb) Hsrv Hlen Hbuf Hkey Hs))
    as (r & v' & Hrun & -> & Hv).
  rewrite <- El in Hrun, Hv. by exists w', cb', l, v'.
Qed.
