(* ===== verification/KrpingRounds.v ===== *)
(** * KrpingRounds: the ping loop takes an event a round ([bak/krping.c])

    Between two pings the main thread has slept, so a schedule of [n] events
    allows at most [n] rounds: the fuel of [krping_test_client] is enough. *)
From S2P Require Import Prelude Types KrpingTypes Kernel Logic Wait KrpingEnv KrpingFrame.
From S2P Require Import KrpingIo KrpingBufs KrpingPing.
Import Krping.

Section Rounds.
Context {K : Kernel} {KK : KrpingKernel}.

(** After the state was set for a ping and before its first wait. *)
Definition advertising (s : list async) (cba : addr) (w : world) : Prop :=
  sched w = s /\ forall cb, heap w !! cba = Some (BKcb cb) ->
    kc_state cb = RDMA_READ_ADV \/ kc_state cb = ERROR.

Definition advertises {A} (cba : addr) (m : M A) : Prop := forall s w,
  advertising s cba w -> wp Partial m (fun _ w' => advertising s cba w') w.

Lemma advertises_bind {A B} cba (m : M B) (f : B -> M A) :
  advertises cba m -> (forall b, advertises cba (f b)) -> advertises cba (m ≫= f).
Proof.
  intros Hm Hf s w Hw. eapply wp_bind_spec; [by apply (Hm s)|]. intros b w' Hw'. by apply Hf.
Qed.
Lemma advertises_ret {A} cba (a : A) : advertises cba (mret a).
Proof. intros s w Hw. by apply wp_ret. Qed.
Lemma advertises_fault {A} cba u : advertises cba (fault (A := A) u).
Proof. done. Qed.
Lemma advertises_load `{InBlock A} cba a : advertises cba (load (T := A) a).
Proof. intros s w Hw. by apply wp_load_p. Qed.
Lemma advertises_call {A} cba f ev : advertises cba (call (A := A) f ev).
Proof. intros s w Hw. by apply wp_call. Qed.
Lemma advertises_from_option {A} cba u (o : option A) : advertises cba (from_option u o).
Proof. intros s w Hw. by apply wp_from_option_p. Qed.
Lemma advertises_live_qp cba qp : advertises cba (live_qp qp).
Proof. intros s w Hw. by apply wp_live_qp_p. Qed.
Lemma advertises_update cba (f : krping_cb -> krping_cb) :
  (forall cb, kc_state (f cb) = kc_state cb \/ kc_state (f cb) = ERROR) ->
  advertises cba (update cba f).
Proof.
  intros Hf s w [Hs Hw]. apply wp_update_p. intros cb Hcb. split; [done|]. wsimpl.
  intros cb'. rewrite lookup_insert_eq. intros [= <-].
  destruct (Hf cb) as [-> | ->]; [by apply Hw|by right].
Qed.
Lemma advertises_mr cba a (f : ib_mr -> ib_mr) : advertises cba (update a f).
Proof.
  intros s w [Hs Hw]. apply wp_update_p. intros m Hm. split; [done|]. wsimpl.
  intros cb. rewrite lookup_insert. case_decide; [done|apply Hw].
Qed.
Lemma advertises_bytes cba a off d : advertises cba (write_bytes a off d).
Proof.
  intros s w [Hs Hw]. apply wp_write_bytes_p. intros l l' Hl _. split; [done|]. wsimpl.
  intros cb. rewrite lookup_insert. case_decide; [done|apply Hw].
Qed.
Lemma advertises_fill_chars cba n buf i c : advertises cba (fill_chars n buf i c).
Proof.
  revert i c. induction n; intros i c; cbn [fill_chars]; [apply advertises_ret|].
  apply advertises_bind; [apply advertises_bytes|done].
Qed.

Create HintDb advertises.
#[local] Hint Resolve advertises_ret advertises_fault advertises_load advertises_call
  advertises_from_option advertises_live_qp advertises_mr advertises_bytes
  advertises_fill_chars : advertises.
#[local] Hint Extern 1 (advertises _ (update _ _)) =>
  apply advertises_update; intros ?; (by left) || (by right) : advertises.
Ltac solve_advertises := repeat (match goal with
  | |- advertises _ (_ ≫= _) => apply advertises_bind; [|intros ?]
  | |- advertises _ (if ?b then _ else _) => destruct b
  | |- advertises _ (match ?x with _ => _ end) => destruct x
  | |- advertises _ _ => solve [eauto 2 with advertises]
  end; cbv beta).

Lemma advertises_put_ping_text cba ping start : advertises cba (put_ping_text cba ping start).
Proof. unfold put_ping_text. cbv zeta. solve_advertises. Qed.
Lemma advertises_format_send cba buf : advertises cba (krping_format_send cba buf).
Proof.
  unfold krping_format_send, krping_rdma_rkey, load_mr, kptr_addr, ib_update_fast_reg_key,
    ib_map_mr_sg, ib_post_send_wr, post_send, set_kstate, kptr_addr. solve_advertises.
Qed.
Lemma advertises_send cba qp cb p : advertises cba (ib_post_send_wr qp cb p).
Proof. unfold ib_post_send_wr, post_send. solve_advertises. Qed.

(** A wait that finds its condition false takes an event. *)
Lemma kkept_shorter w0 w : kkept w0 w -> (length (sched w) <= length (sched w0))%nat.
Proof. intros [_ _ _ _ _ _ _ _ [s ->]]. rewrite length_app. lia. Qed.

Lemma wait_loop_shorter n q cba tgt w :
  no_conn_req w ->
  wp Partial (wait_loop n q (kstate_ge cba tgt))
    (fun _ w' => (length (sched w') < length (sched w))%nat) w.
Proof.
  intros Hnc. destruct n as [|n]; cbn [wait_loop]; [by wp_step_p|].
  wp_step. wp_step. destruct (sched w) as [|e s] eqn:Hs; [by wp_step_p|].
  unfold no_conn_req in Hnc. rewrite Hs in Hnc. apply list.Forall_cons_1 in Hnc as [He Hnc].
  wp_step. wp_step. set (w0 := set_woken [] (set_sched s w)). wp_step.
  assert (Hn0 : no_conn_req w0) by exact Hnc.
  eapply wp_mono; [by apply (kkept_deliver w0)|]. intros [] w1 Hk1. cbv beta.
  wp_step. wp_step.
  assert (Hend : forall w', kkept w0 w' -> (length (sched w') < length (e :: s))%nat).
  { intros w' Hk. apply kkept_shorter in Hk. cbn [length]. change s with (sched w0). lia. }
  destruct (is_signal e); [|destruct (bool_decide _)].
  - wp_step. eapply wp_mono; [by apply (keeps_state_ge cba tgt w0)|]. intros [] w2 Hk2.
    all: cbv beta; wp_step; auto.
  - wp_step. eapply wp_mono; [by apply (keeps_state_ge cba tgt w0)|]. intros [] w2 Hk2; cbv beta.
    + cbv beta. wp_step. auto.
    + eapply wp_mono; [by apply (keeps_wait_loop n q cba tgt w0)|]. auto.
  - eapply wp_mono; [by apply (keeps_wait_loop n q cba tgt w0)|]. auto.
Qed.

Lemma wait_loop_takes n q cba tgt w :
  no_conn_req w ->
  wp Partial (wait_loop n q (kstate_ge cba tgt))
    (fun _ w' => (length (sched w') < length (sched w))%nat /\ kkept w w') w.
Proof.
  intros Hnc. pose proof (wait_loop_shorter n q cba tgt w Hnc) as Hs.
  pose proof (keeps_wait_loop n q cba tgt w w Hnc (kkept_refl w)) as Hk.
  revert Hs Hk. unfold wp. by destruct (wait_loop _ _ _ _).
Qed.

(** A ping after which the loop goes on has taken an event. *)
Lemma ping_shorter cba ping start w :
  no_conn_req w ->
  wp Partial (krping_ping cba ping start)
    (fun ok w' => ok = true -> (length (sched w') < length (sched w))%nat) w.
Proof.
  intros Hnc. unfold krping_ping at 1. wp_step.
  assert (Ha : wp Partial (set_kstate cba RDMA_READ_ADV)
    (fun _ w' => advertising (sched w) cba w') w).
  { unfold set_kstate. apply wp_update_p. intros cb _. split; [done|]. wsimpl.
    intros cb'. rewrite lookup_insert_eq. intros [= <-]. by left. }
  eapply wp_mono; [exact Ha|]. intros [] w1 Ha1. cbv beta. wp_step.
  eapply wp_mono; [by apply (advertises_put_ping_text cba ping start (sched w))|].
  intros [] w2 Ha2. cbv beta. wp_step. wp_step_p. wp_step.
  eapply wp_mono; [by apply (advertises_format_send cba _ (sched w))|].
  intros [] w3 Ha3. cbv beta. wp_step. apply wp_load_p. intros cb3 Hcb3.
  destruct (proj2 Ha3 cb3 Hcb3) as [E3|E3]; rewrite E3.
  2: { change (ERROR =t ERROR) with true. cbv iota. by wp_step. }
  change (RDMA_READ_ADV =t ERROR) with false. cbv iota. wp_step.
  eapply wp_mono; [by apply (advertises_send cba _ _ _ (sched w))|].
  intros ret w4 Ha4. cbv beta. destruct (negb (ret =? 0)); [by wp_step|].
  wp_step. unfold wait_event_interruptible at 1. wp_step.
  unfold kstate_ge at 1. wp_step.
  apply wp_load_p. intros cb4 Hcb4. wp_step.
  destruct (proj2 Ha4 cb4 Hcb4) as [E4|E4]; rewrite E4.
  - change (RDMA_READ_ADV >=t RDMA_WRITE_ADV) with false. cbv iota.
    wp_step. wp_step.
    assert (Hn4 : no_conn_req w4) by (unfold no_conn_req; rewrite (proj1 Ha4); exact Hnc).
    eapply wp_mono; [by apply wait_loop_takes|]. intros r w5 [Hs5 Hk5]. cbv beta.
    rewrite (proj1 Ha4) in Hs5.
    lazymatch goal with |- wp _ ?m _ _ => assert (Hk : keeps m) by solve_keeps end.
    eapply wp_mono; [apply (Hk w5 w5); [by eapply kkept_no_conn_req|reflexivity]|].
    intros ok w6 Hk6%kkept_shorter _. lia.
  - change (ERROR >=t RDMA_WRITE_ADV) with true. cbv iota. wp_step. wp_step.
    eapply wp_load; [exact Hcb4|]. rewrite E4.
    change (negb (ERROR =t RDMA_WRITE_ADV)) with true. cbv iota. by wp_step.
Qed.

(** The rounds that a schedule allows are enough fuel. *)
Lemma ping_loop_fuel fuel1 fuel2 cba ping start w :
  no_conn_req w -> (length (sched w) < fuel1)%nat -> (length (sched w) < fuel2)%nat ->
  ping_loop fuel1 cba ping start w = ping_loop fuel2 cba ping start w.
Proof.
  revert fuel2 ping start w. induction fuel1 as [|fuel1 IH]; intros [|fuel2] ping start w Hn H1 H2;
    try lia. cbn [ping_loop]. unfold mbind, M_bind, load.
  destruct (peek cba w) as [cb|]; [|done]. destruct (_ || _); [|done].
  pose proof (ping_shorter cba ping start w Hn) as Hs. unfold wp in Hs.
  pose proof (keeps_ping cba ping start w w Hn (kkept_refl w)) as Hk. unfold wp in Hk.
  destruct (krping_ping cba ping start w) as [[] w'| |]; try done.
  apply IH; [by eapply kkept_no_conn_req|..]; specialize (Hs eq_refl); lia.
Qed.
(** C33. Every ping sleeps: a round after which the loop goes on has taken an
    event, so that whatever the peer and the kernel do, a schedule of [k] events
    allows at most [k] whole rounds, and the fuel of [krping_test_client] never
    runs out: any larger fuel gives the same result. *)
Theorem test_client_fuel_enough w cba fuel :
  no_conn_req w -> (length (sched w) < fuel)%nat ->
  krping_test_client cba w = ping_loop fuel cba 0 65 w.
Proof.
  intros Hn Hf. unfold krping_test_client, mbind, M_bind, get.
  apply ping_loop_fuel; [done|lia|done].
Qed.
End Rounds.
