(* ===== verification/KrpingRun.v ===== *)
(** * KrpingRun: the life of a ping client ([bak/krping.c])

    Address resolution and connection, which sleep until the callback has
    changed the state, and [krping_run_client], [krping_init_client] and
    [krping_fin_client], which put the parts together. *)
From stdpp Require Import gmultiset.
From S2P Require Import Prelude Types KrpingTypes Kernel Logic Verbs Wait Within KrpingEnv KrpingFrame.
From S2P Require Import KrpingIo KrpingBufs KrpingPing.
Import Krping.

Definition IB_DEVICE_MEM_MGT_EXTENSIONS : Z := 2 ^ 21.

Section KrpingRun.
Context {K : Kernel} {KK : KrpingKernel}.

Definition krping_accept (cba : addr) : M Z :=
  cb ← load (T := krping_cb) cba;
  ret ← rdma_accept (kc_child_cm_id cb);
  if negb (ret =? 0) then mret ret else
  wait_event_interruptible (WqCb cba) (kstate_ge cba CONNECTED);;
  cb ← load (T := krping_cb) cba;
  if kc_state cb =t ERROR then mret (-1) else mret 0.

Definition reg_supported (dev : Z) : bool :=
  Z.land (kk_device_cap_flags dev) IB_DEVICE_MEM_MGT_EXTENSIONS
    =? IB_DEVICE_MEM_MGT_EXTENSIONS.

Definition krping_fill_sockaddr (cb : krping_cb) : M ksockaddr :=
  if kc_addr_type cb =? AF_INET then
    a ← from_option OutOfBounds (read_at 0 4 (kc_addr cb));
    mret {| ka_family := AF_INET; ka_port := kc_port cb; ka_addr := a; ka_scope_id := 0 |}
  else if kc_addr_type cb =? AF_INET6 then
    a ← from_option OutOfBounds (read_at 0 16 (kc_addr cb));
    name ← from_option OutOfBounds (c_chars (kc_ip6_ndev_name cb));
    scope ← (if bool_decide (name = []) then mret 0
             else r ← call (fun h => kk_dev_get_by_name h name)
                           (fun r => EvKrping (KEvGetDev name r));
                  mret (default 0 r));
    mret {| ka_family := AF_INET6; ka_port := kc_port cb; ka_addr := a; ka_scope_id := scope |}
  else mret zero_ksockaddr.

Definition krping_bind_client (cba : addr) : M Z :=
  cb ← load cba;
  sin ← krping_fill_sockaddr cb;
  ret ← rdma_resolve_addr_any (kc_cm_id cb) sin;
  if negb (ret =? 0) then mret ret else
  wait_event_interruptible (WqCb cba) (kstate_ge cba ROUTE_RESOLVED);;
  cb ← load (T := krping_cb) cba;
  if negb (kc_state cb =t ROUTE_RESOLVED) then mret (- EINTR) else
  dev ← cm_device (kc_cm_id cb);
  if negb (reg_supported dev) then mret (- EINVAL) else mret 0.

Definition krping_connect_client (cba : addr) : M Z :=
  cb ← load (T := krping_cb) cba;
  ret ← rdma_connect (kc_cm_id cb)
    {| responder_resources := 1; initiator_depth := 1; retry_count := 10 |};
  if negb (ret =? 0) then mret ret else
  wait_event_interruptible (WqCb cba) (kstate_ge cba CONNECTED);;
  cb ← load (T := krping_cb) cba;
  if kc_state cb =t ERROR then mret (-1) else mret 0.

(** [if (cb->tos != 0) rdma_set_service_type(cb->cm_id, cb->tos);] *)
Definition set_tos (cba : addr) : M unit :=
  cb ← load (T := krping_cb) cba;
  if negb (kc_tos cb =? 0) then rdma_set_service_type (kc_cm_id cb) (kc_tos cb) else mret tt.

(** [ib_post_recv(cb->qp, &cb->rq_wr, &bad_wr)] *)
Definition post_rq (cba : addr) : M Z :=
  cb ← load cba; ib_post_recv_wr (kc_qp cb) cb (kc_rq_wr cb).

Definition krping_init_err0 (cba : addr) : M addr := kfree cba;; mret NULL.
Definition krping_init_err1 (cba : addr) : M addr :=
  krping_free_qp cba;; krping_init_err0 cba.
Definition krping_init_err2 (cba : addr) : M addr :=
  krping_free_buffers cba;; krping_init_err1 cba.

Definition krping_init_client (cba : addr) : M addr :=
  set_tos cba;;
  ret ← krping_bind_client cba;
  if negb (ret =? 0) then krping_init_err0 cba else
  cb ← load (T := krping_cb) cba;
  ret ← krping_setup_qp cba (kc_cm_id cb);
  if negb (ret =? 0) then krping_init_err0 cba else
  ret ← krping_setup_buffers cba;
  if negb (ret =? 0) then krping_init_err1 cba else
  ret ← post_rq cba;
  if negb (ret =? 0) then krping_init_err2 cba else
  ret ← krping_connect_client cba;
  if negb (ret =? 0) then krping_init_err2 cba else mret cba.

Definition krping_fin_client (cba : addr) : M unit :=
  krping_free_buffers cba;; krping_free_qp cba.

(** From [err2] on [krping_run_client] does what [krping_fin_client] does. *)
Definition krping_run_client (cba : addr) : M unit :=
  set_tos cba;;
  ret ← krping_bind_client cba;
  if negb (ret =? 0) then mret tt else
  cb ← load (T := krping_cb) cba;
  ret ← krping_setup_qp cba (kc_cm_id cb);
  if negb (ret =? 0) then mret tt else
  ret ← krping_setup_buffers cba;
  if negb (ret =? 0) then krping_free_qp cba else
  ret ← post_rq cba;
  if negb (ret =? 0) then krping_fin_client cba else
  ret ← krping_connect_client cba;
  if negb (ret =? 0) then krping_fin_client cba else
  krping_test_client cba;;
  cb ← load (T := krping_cb) cba;
  rdma_disconnect (kc_cm_id cb);;
  krping_fin_client cba.
End KrpingRun.

(** ** What a client leaves behind *)

(** The resources of [w] are back in [w'] (of memory the blocks, with their kinds
    and lengths), the DMA mappings if [dma]; of the ids only [id], which is still
    there, may have changed. *)
Record released (dma : Prop) (w : world) (cba : addr) (id : kptr) (w' : world) : Prop := {
  re_shapes : shapes w' = shapes w;
  re_cms : delete id (cms w') = delete id (cms w) /\ is_Some (cms w' !! id);
  re_ctxs : cq_ctxs w' = cq_ctxs w;
  re_pds : pds w' = pds w;
  re_qps : qps w' = qps w;
  re_dmas : dma -> dmas w' = dmas w;
  re_cb : exists cb', heap w' !! cba = Some (BKcb cb') /\ kc_cm_id cb' = id }.

Lemma shapes_insert a b w : shape <$> <[a := b]> (heap w) = <[a := shape b]> (shapes w).
Proof. apply fmap_insert. Qed.

Lemma shapes_kcb cba cb cb' w :
  heap w !! cba = Some (BKcb cb) -> shape <$> <[cba := BKcb cb']> (heap w) = shapes w.
Proof.
  intros Hcb. rewrite shapes_insert. apply insert_id. by rewrite shapes_lookup, Hcb.
Qed.

Section Release.
Context {K : Kernel} {KK : KrpingKernel}.

Lemma keeps_set_tos cba : keeps (set_tos cba).
Proof. unfold set_tos, rdma_set_service_type, kemit, cm_id. solve_keeps. Qed.
Lemma keeps_bind_client cba : keeps (krping_bind_client cba).
Proof.
  unfold krping_bind_client, krping_fill_sockaddr, rdma_resolve_addr_any, cm_device, cm_id.
  solve_keeps.
Qed.
Lemma keeps_connect_client cba : keeps (krping_connect_client cba).
Proof. unfold krping_connect_client, rdma_connect, cm_id. solve_keeps. Qed.
Lemma keeps_post_rq cba : keeps (post_rq cba).
Proof. unfold post_rq. solve_keeps. Qed.

Context (Herr : forall h pd n e, kk_alloc_mr h pd n = inl e -> e <> 0).
Context (HK : error_codes K).

(** A block below the fresh addresses is in place. *)
Lemma kkept_cb w w1 cba cb :
  kkept w w1 -> heap w !! cba = Some (BKcb cb) ->
  exists cb1, heap w1 !! cba = Some (BKcb cb1) /\ core cb1 = core cb.
Proof. intros [_ C _ _ _ _ _ _ _]. apply C. Qed.

Lemma no_buffers_core cb cb1 : core cb1 = core cb -> no_buffers cb -> no_buffers cb1.
Proof.
  intros Hc []. split.
  - by rewrite (core_field kc_dma_mr _ _ (fun _ => eq_refl) Hc).
  - by rewrite (core_field kc_rdma_mr _ _ (fun _ => eq_refl) Hc).
  - by rewrite (core_field kc_start_mr _ _ (fun _ => eq_refl) Hc).
  - by rewrite (core_field kc_reg_mr _ _ (fun _ => eq_refl) Hc).
  - by rewrite (core_field kc_rdma_buf _ _ (fun _ => eq_refl) Hc).
  - by rewrite (core_field kc_start_buf _ _ (fun _ => eq_refl) Hc).
Qed.

(** The queue pair of [w1] and what follows are given back: [w2] is any later
    state with the resources of the set-up. *)
Lemma free_qp_released t dma w w1 cba cb1 i pd cq qp w1' w2 cb2 :
  kkept w w1 -> heap w1 !! cba = Some (BKcb cb1) -> cms w1 !! kc_cm_id cb1 = Some i ->
  kqp_up w1 cba cb1 i pd cq qp w1' ->
  heap w2 !! cba = Some (BKcb cb2) -> kc_qp cb2 = qp -> kc_cq cb2 = cq -> kc_pd cb2 = pd ->
  kc_cm_id cb2 = kc_cm_id cb1 ->
  shapes w2 = shapes w1 -> cms w2 = cms w1' -> cq_ctxs w2 = cq_ctxs w1' -> pds w2 = pds w1' ->
  qps w2 = qps w1' -> (dma -> dmas w2 = dmas w1) ->
  wp t (krping_free_qp cba) (fun _ w' => released dma w cba (kc_cm_id cb1) w') w2.
Proof.
  intros Hk Hcb1 Hi [_ Up Uc Uq Um (F1 & F2 & F3) _ _] Hcb2 E1 E2 E3 E4 Hsh Hcms Hctx Hpds Hqps Hd.
  destruct Hk as [S0 _ _ M0 X0 P0 Q0 D0 _].
  assert (Hcq : is_Some (cqs w2 !! cq)).
  { apply (f_equal (fun m => m !! cq)) in Hctx. unfold cq_ctxs in Hctx.
    rewrite !lookup_fmap, Uc, lookup_insert_eq in Hctx.
    destruct (cqs w2 !! cq); [by eexists|done]. }
  eapply (wp_krping_free_qp _ _ _ cb2); rewrite ?E1, ?E2, ?E3;
    [done|rewrite Hqps, Uq; set_solver|done|rewrite Hpds, Up; set_solver|].
  intros w' Hh Hq Hc Hp Hm Hdm Hn Hs. split.
  - unfold shapes in *. rewrite Hh. congruence.
  - rewrite Hm, Hcms, Um, delete_insert_eq, M0. split; [done|]. rewrite lookup_insert_eq. by eexists.
  - rewrite <- X0. unfold cq_ctxs in *. rewrite Hc, fmap_delete, Hctx, Uc, fmap_insert.
    apply delete_insert_id. by rewrite lookup_fmap, F2.
  - rewrite Hp, Hpds, Up, <- P0. by apply gset_undo.
  - rewrite Hq, Hqps, Uq, <- Q0. by apply gset_undo.
  - intros H. rewrite Hdm, (Hd H). done.
  - exists cb2. rewrite Hh. done.
Qed.

(** The blocks of a set-up, and the shapes they have. *)
Lemma put_buffers_shapes w cba cb cb' b w' :
  fresh_ok w -> heap w !! cba = Some (BKcb cb) -> bufs_ready w cba cb' b w' ->
  shapes w' = <[next w + 2 := BBytes (replicate (Z.to_nat (kc_size cb')) 0)]>
    (<[next w + 1 := BMr {| mr_lkey := 0; mr_rkey := 0 |}]>
      (<[next w := BBytes (replicate (Z.to_nat (kc_size cb')) 0)]> (shapes w))).
Proof.
  intros [Hpos Hfree] Hcb [Hh _ _ _].
  assert (cba < next w) by (apply Z.nle_gt; intros ?; by rewrite Hfree in Hcb).
  unfold shapes at 1. rewrite Hh. unfold put_buffers. rewrite !fmap_insert. cbn [shape].
  rewrite !length_le_bytes. rewrite insert_id; [done|].
  rewrite !lookup_insert_ne by lia. by rewrite lookup_fmap, Hcb.
Qed.

(** What [krping_fin_client] finds: the buffers that were set up in [w2]. *)
Lemma kept_buffers w2 cba cb2 b w3 w4 :
  fresh_ok w2 -> heap w2 !! cba = Some (BKcb cb2) -> no_buffers cb2 ->
  bufs_ready w2 cba cb2 b w3 -> kkept w3 w4 ->
  exists cb4, heap w4 !! cba = Some (BKcb cb4)
    /\ core cb4 = core (buffers_cb (next w2) b cb2)
    /\ has_buffers w4 cb4 (next w2) (next w2 + 1) (next w2 + 2).
Proof.
  intros [Hpos Hfree] Hcb2 [N1 N2 N3 _ _ _] Hbr Hk. pose proof Hbr as [Hh Hn Hd _].
  assert (cba < next w2) by (apply Z.nle_gt; intros ?; by rewrite Hfree in Hcb2).
  destruct (kkept_cb w3 w4 cba (buffers_cb (next w2) b cb2) Hk) as (cb4 & Hcb4 & Hc4);
    [rewrite Hh; apply lookup_insert_eq|].
  exists cb4. split; [done|]. split; [done|].
  pose proof (core_field kc_dma_mr _ _ (fun _ => eq_refl) Hc4
    : kc_dma_mr cb4 = kc_dma_mr cb2) as C1.
  pose proof (core_field kc_rdma_mr _ _ (fun _ => eq_refl) Hc4
    : kc_rdma_mr cb4 = kc_rdma_mr cb2) as C2.
  pose proof (core_field kc_start_mr _ _ (fun _ => eq_refl) Hc4
    : kc_start_mr cb4 = kc_start_mr cb2) as C3.
  pose proof (core_field kc_reg_mr _ _ (fun _ => eq_refl) Hc4
    : kc_reg_mr cb4 = KPtr (next w2 + 1)) as C4.
  pose proof (core_field kc_rdma_buf _ _ (fun _ => eq_refl) Hc4
    : kc_rdma_buf cb4 = next w2) as C5.
  pose proof (core_field kc_start_buf _ _ (fun _ => eq_refl) Hc4
    : kc_start_buf cb4 = next w2 + 2) as C6.
  pose proof (core_field kc_size _ _ (fun _ => eq_refl) Hc4
    : kc_size cb4 = kc_size cb2) as C7.
  assert (Hb : forall a x, heap w3 !! a = Some x -> exists x', heap w4 !! a = Some x'
    /\ shape x' = shape x) by (intros a x; by apply kkept_same).
  assert (Hbytes : forall a v, heap w3 !! a = Some (BBytes (le_bytes (Z.to_nat (kc_size cb2)) v)) ->
    exists l, heap w4 !! a = Some (BBytes l) /\ length l = Z.to_nat (kc_size cb4)).
  { intros a v Ha. destruct (Hb _ _ Ha) as (x & Hx & Hs). destruct x; try done.
    exists l. split; [done|]. cbn in Hs. injection Hs as Hs.
    apply (f_equal length) in Hs. rewrite !length_replicate, length_le_bytes in Hs. congruence. }
  unfold put_buffers in Hh.
  split; [repeat split; congruence|done|done|done|lia| | |].
  - destruct (Hb (next w2 + 1) (BMr (ba_mr b))) as (x & Hx & Hs);
      [rewrite Hh; heap_lookup|]. destruct x; try done. by eexists.
  - eapply Hbytes. rewrite Hh. heap_lookup.
  - eapply Hbytes. rewrite Hh. heap_lookup.
Qed.

Lemma mset_undo (a b : Z) (s : gmultiset Z) :
  ({[+ b +]} ⊎ ({[+ a +]} ⊎ s)) ∖ {[+ a +]} ∖ {[+ b +]} = s.
Proof. multiset_solver. Qed.

(** From the connected client of [w4] back to the resources of [w]. *)
Lemma fin_client_released t dma w w1 cba cb1 i pd cq qp w2 b w3 w4 :
  kkept w w1 -> heap w1 !! cba = Some (BKcb cb1) -> cms w1 !! kc_cm_id cb1 = Some i ->
  fresh_ok w1 -> no_buffers cb1 -> kqp_up w1 cba cb1 i pd cq qp w2 ->
  bufs_ready w2 cba (set_kc_qp qp (set_kc_cq cq (set_kc_pd pd cb1))) b w3 -> kkept w3 w4 ->
  (dma -> mappings_valid K) ->
  wp t (krping_fin_client cba) (fun _ w' => released dma w cba (kc_cm_id cb1) w') w4.
Proof.
  intros Hk Hcb1 Hi Hf1 [N1 N2 N3 N4 N5 N6] Hup Hbr Hk4 Hv. pose proof Hup as [Uh _ _ _ _ _ _ (Un & _ & Ud)].
  set (cb2 := set_kc_qp qp (set_kc_cq cq (set_kc_pd pd cb1))) in *.
  assert (Hcb2 : heap w2 !! cba = Some (BKcb cb2)) by (rewrite Uh; apply lookup_insert_eq).
  assert (Hsh2 : shapes w2 = shapes w1) by (unfold shapes at 1; rewrite Uh; by eapply shapes_kcb).
  assert (Hf2 : fresh_ok w2).
  { destruct Hf1 as [Hpos Hfree]. split; [by rewrite Un|]. intros a Ha. rewrite Un in Ha.
    apply (fmap_None shape). by rewrite <- shapes_lookup, Hsh2, shapes_lookup, Hfree. }
  assert (Hnb2 : no_buffers cb2) by by split.
  destruct (kept_buffers _ _ _ _ _ _ Hf2 Hcb2 Hnb2 Hbr Hk4) as (cb4 & Hcb4 & Hc4 & Hhb).
  pose proof (core_field kc_pd _ _ (fun _ => eq_refl) Hc4 : kc_pd cb4 = pd) as C1.
  pose proof (core_field kc_cq _ _ (fun _ => eq_refl) Hc4 : kc_cq cb4 = cq) as C2.
  pose proof (core_field kc_qp _ _ (fun _ => eq_refl) Hc4 : kc_qp cb4 = qp) as C3.
  pose proof (core_field kc_cm_id _ _ (fun _ => eq_refl) Hc4 : kc_cm_id cb4 = kc_cm_id cb1) as C4.
  pose proof (core_field kc_recv_mapping _ _ (fun _ => eq_refl) Hc4
    : kc_recv_mapping cb4 = ba_recv b) as C5.
  pose proof (core_field kc_send_mapping _ _ (fun _ => eq_refl) Hc4
    : kc_send_mapping cb4 = ba_send b) as C6.
  pose proof (put_buffers_shapes _ _ _ _ _ _ Hf2 Hcb2 Hbr) as Hsh3.
  destruct Hk4 as [S4 _ _ M4 X4 P4 Q4 D4 _].
  destruct Hbr as [_ _ Bd (Bm & Bq & Bp & Bqp & _)].
  unfold krping_fin_client. wp_step.
  eapply wp_krping_free_buffers; [done| |done|].
  { rewrite C1, P4, Bp. rewrite (qu_pds _ _ _ _ _ _ _ _ Hup). set_solver. }
  intros w5 Hh5 Hd5 Hm5 Hq5 Hp5 Hqp5 Hs5 Hn5.
  assert (Hne : cba < next w2).
  { apply Z.nle_gt. intros ?. destruct Hf2 as [_ Hfree]. by rewrite Hfree in Hcb2. }
  assert (Hcb5 : heap w5 !! cba = Some (BKcb cb4))
    by (rewrite Hh5, !lookup_delete_ne by lia; done).
  eapply (free_qp_released t dma w w1 cba cb1 i pd cq qp w2 w5 cb4);
    [done..|exact C3|exact C2|exact C1|exact C4| | | | | |].
  - unfold shapes at 1. rewrite Hh5, !fmap_delete. fold (shapes w4). rewrite S4, Hsh3, Hsh2.
    assert (Hfr : forall a, next w2 <= a -> shapes w1 !! a = None).
    { intros a Ha. rewrite <- Hsh2, shapes_lookup. destruct Hf2 as [_ Hfree].
      by rewrite Hfree. }
    apply map_eq. intros k.
    repeat first [rewrite lookup_delete | rewrite lookup_insert]; repeat case_decide; subst;
      try (symmetry; apply Hfr; lia); done.
  - congruence.
  - unfold cq_ctxs in *. congruence.
  - congruence.
  - congruence.
  - intros Hd. specialize (Hv Hd). destruct Bd as (Hr & Hs & Bd).
    rewrite Hd5, D4, Bd, Ud, C5, C6. unfold add_mapping.
    rewrite !(map_answer_valid _ Hv) by done. apply mset_undo.
Qed.

(** [krping_run_client] from [krping_setup_buffers] on. *)
Lemma run_client_rest w w1 cba cb1 i pd cq qp w2 :
  no_conn_req w -> kkept w w1 -> heap w1 !! cba = Some (BKcb cb1) ->
  cms w1 !! kc_cm_id cb1 = Some i -> fresh_ok w1 -> no_buffers cb1 ->
  kqp_up w1 cba cb1 i pd cq qp w2 ->
  wp Partial
    (ret ← krping_setup_buffers cba;
     if negb (ret =? 0) then krping_free_qp cba else
     ret ← post_rq cba;
     if negb (ret =? 0) then krping_fin_client cba else
     ret ← krping_connect_client cba;
     if negb (ret =? 0) then krping_fin_client cba else
     krping_test_client cba;;
     cb ← load (T := krping_cb) cba;
     rdma_disconnect (kc_cm_id cb);;
     krping_fin_client cba)
    (fun _ w' => released (buffers_available KK /\ mappings_valid K) w cba (kc_cm_id cb1) w') w2.
Proof.
  intros Hnc Hk1 Hcb1 Hi1 Hf1 Hnb1 Hup. pose proof Hup as [Uh Up Uc Uq Um _ _ (Un & Us & Ud)].
  set (cb2 := set_kc_qp qp (set_kc_cq cq (set_kc_pd pd cb1))) in *.
  assert (Hcb2 : heap w2 !! cba = Some (BKcb cb2)) by (rewrite Uh; apply lookup_insert_eq).
  assert (Hnc2 : no_conn_req w2)
    by (unfold no_conn_req; rewrite Us; by eapply kkept_no_conn_req).
  assert (Hnb2 : no_buffers cb2) by (destruct Hnb1; by split).
  assert (Hsh2 : shapes w2 = shapes w1) by (unfold shapes at 1; rewrite Uh; by eapply shapes_kcb).
  assert (Hf2 : fresh_ok w2).
  { destruct Hf1 as [Hpos Hfree]. split; [by rewrite Un|]. intros a Ha. rewrite Un in Ha.
    apply (fmap_None shape). by rewrite <- shapes_lookup, Hsh2, shapes_lookup, Hfree. }
  wp_step. eapply (wp_krping_setup_buffers Herr _ _ _ cb2); [done|done| |done| |].
  { rewrite Up. set_solver. }
  2: { intros r recv send w3 Hr Hav [(cb3 & Hh & L1 & L2 & L3 & L4) _ (M1 & M2 & M3 & M4 & _)].
       rewrite (proj2 (Z.eqb_neq r 0)) by done. cbn [negb].
       assert (Hcb3 : heap w3 !! cba = Some (BKcb cb3)) by (rewrite Hh; apply lookup_insert_eq).
       eapply (free_qp_released _ _ w w1 cba cb1 i pd cq qp w2 w3 cb3);
         [done..|exact L4|exact L3|exact L2|exact L1| |done| |done|done|by intros []].
       - rewrite <- Hsh2. unfold shapes at 1. rewrite Hh. by eapply shapes_kcb.
       - unfold cq_ctxs. by rewrite M2. }
  intros b w3 Hbr. change (negb (0 =? 0)) with false. cbv iota.
  assert (Hnc3 : no_conn_req w3)
    by (destruct Hbr as [_ _ _ (_ & _ & _ & _ & E & _)]; unfold no_conn_req; by rewrite E).
  assert (Hfin : forall w4, kkept w3 w4 -> wp Partial (krping_fin_client cba)
    (fun _ w' => released (buffers_available KK /\ mappings_valid K) w cba (kc_cm_id cb1) w') w4)
    by (intros w4 Hk4; eapply fin_client_released; [done..|by intros []]).
  wp_step. eapply wp_mono; [by apply (keeps_post_rq cba w3 w3); [|reflexivity]|].
  intros ret w4 Hk4. cbv beta. destruct (negb (ret =? 0)); [by apply Hfin|].
  wp_step. eapply wp_mono; [by apply (keeps_connect_client cba w3 w4)|].
  intros ret' w5 Hk5. cbv beta. destruct (negb (ret' =? 0)); [by apply Hfin|].
  wp_step. eapply wp_mono; [by apply (keeps_test_client cba w3 w5)|].
  intros [] w6 Hk6. cbv beta. do 2 wp_step_p.
  wp_step. unfold rdma_disconnect, cm_id. do 4 wp_step_p. wp_step.
  apply Hfin. by apply kkept_log.
Qed.

Lemma wp_krping_run_client w cba cb i :
  no_conn_req w -> fresh_ok w -> new_handles K w ->
  heap w !! cba = Some (BKcb cb) -> kc_server cb = 0 -> no_buffers cb ->
  cms w !! kc_cm_id cb = Some i ->
  wp Partial (krping_run_client cba)
    (fun _ => released (buffers_available KK /\ mappings_valid K) w cba (kc_cm_id cb)) w.
Proof.
  intros Hnc Hf Hnh Hcb Hsv Hnb Hi. set (av := (buffers_available KK /\ mappings_valid K)). unfold krping_run_client.
  assert (Hleave : forall w1 cb1, kkept w w1 -> heap w1 !! cba = Some (BKcb cb1) ->
    kc_cm_id cb1 = kc_cm_id cb -> released av w cba (kc_cm_id cb) w1).
  { intros w1 cb1 [S1 _ _ M1 X1 P1 Q1 D1 _] Hcb1 He. split; try done.
    - by rewrite M1.
    - by exists cb1. }
  wp_step. eapply wp_mono; [by apply (keeps_set_tos cba w w); [|reflexivity]|]. intros [] wa Hka.
  cbv beta. wp_step. eapply wp_mono; [by apply (keeps_bind_client cba w wa)|].
  intros ret w1 Hk1. cbv beta.
  destruct (kkept_cb _ _ _ _ Hk1 Hcb) as (cb1 & Hcb1 & Hc1).
  pose proof (core_field kc_cm_id _ _ (fun _ => eq_refl) Hc1) as E1.
  pose proof (core_field kc_server _ _ (fun _ => eq_refl) Hc1) as E2.
  destruct (negb (ret =? 0)); [wp_step; by eapply Hleave|].
  do 2 wp_step. rewrite <- E1. wp_step.
  pose proof (no_buffers_core _ _ Hc1 Hnb) as Hnb1.
  pose proof (kkept_fresh _ _ Hk1 Hf) as Hf1.
  assert (Hi1 : cms w1 !! kc_cm_id cb1 = Some i) by (by rewrite E1, (kk_cms _ _ Hk1)).
  assert (Hnh1 : new_handles K w1).
  { destruct Hk1 as [_ _ _ _ X P Q _ _]. destruct Hnh as [F1 F2 F3].
    split; [intros; rewrite P; apply F1| |intros; rewrite Q; apply F3].
    intros h d c. specialize (F2 h d c). apply (f_equal (fun m => m !! k_create_cq h d c)) in X.
    unfold cq_ctxs in X. rewrite !lookup_fmap, F2 in X. by destruct (cqs w1 !! _). }
  eapply (wp_krping_setup_qp HK _ _ _ _ i); [done|congruence|done|done| |].
  2: { intros r w2 Hr _ [(pd & cq & Hh) (Ho & Hn & Hs)].
       rewrite (proj2 (Z.eqb_neq r 0)) by done. cbn [negb]. wp_step.
       pose proof (objs_inv _ _ Ho) as (Om & Oq & Op & Oqp & Od & _).
       pose proof (Hleave _ _ Hk1 Hcb1 E1) as [R1 R2 R3 R4 R5 R6 _]. rewrite E1. split.
       - rewrite <- R1. unfold shapes at 1. rewrite Hh. by eapply shapes_kcb.
       - by rewrite Om.
       - rewrite <- R3. unfold cq_ctxs. by rewrite Oq.
       - congruence.
       - congruence.
       - intros Ha. rewrite Od. auto.
       - eexists. rewrite Hh, lookup_insert_eq. split; [done|]. kcb_simpl. done. }
  intros pd cq qp w2 Hup. change (negb (0 =? 0)) with false. cbv iota.
  by apply (run_client_rest w w1 cba cb1 i pd cq qp w2).
Qed.

(** C19. Whichever calls to the kernel fail and whatever events and messages come
    while it sleeps, [krping_run_client] gives back the blocks of memory, the
    memory regions, the protection domain and the queues it has made when it
    returns.  It gives back the DMA mappings if no allocation of a buffer or
    region and no mapping fails; after a failed allocation they stay
    ([setup_buffers_bail_leaks]), and after a failed mapping, which the code
    does not look for, it unmaps what was not mapped.  What is asked of the
    kernel: new objects are new, error pointers carry error codes, and no
    connection request comes. *)
Theorem krping_run_client_releases w cba cb i w' :
  no_conn_req w -> fresh_ok w -> new_handles K w ->
  heap w !! cba = Some (BKcb cb) -> kc_server cb = 0 -> no_buffers cb ->
  cms w !! kc_cm_id cb = Some i ->
  krping_run_client cba w = Ok tt w' ->
  released (buffers_available KK /\ mappings_valid K) w cba (kc_cm_id cb) w'.
Proof.
  intros Hnc Hf Hnh Hcb Hsv Hnb Hi Hrun.
  eapply (wp_run _ (fun _ => released _ w cba (kc_cm_id cb))); [|exact Hrun].
  by eapply wp_krping_run_client.
Qed.
End Release.

(** ** Waiting for the connection *)

Section Connect.
Context {K : Kernel} {KK : KrpingKernel}.

Lemma kstate_ge_run w cba cb s :
  heap w !! cba = Some (BKcb cb) -> kstate_ge cba s w = Ok (kc_state cb >=t s) w.
Proof. intros Hcb. unfold kstate_ge. by erewrite bind_run by by apply load_run. Qed.

(** A wait that starts with the condition false enters its loop. *)
Lemma kwait_enter w cba cb tgt :
  heap w !! cba = Some (BKcb cb) -> (kc_state cb >=t tgt) = false ->
  wait_event_interruptible (WqCb cba) (kstate_ge cba tgt) w =
  wait_loop (length (sched w)) (WqCb cba) (kstate_ge cba tgt) w.
Proof.
  intros Hcb Hlt. unfold wait_event_interruptible.
  erewrite bind_run by by erewrite kstate_ge_run. by rewrite Hlt.
Qed.

(** One handled event during a wait. *)
Record kwaited (w : world) (s : list async) (cba : addr) (cb : krping_cb) (w' : world)
    : Prop := {
  kw_heap : heap w' = <[cba := BKcb cb]> (heap w);
  kw_sched : sched w' = s;
  kw_rest : next w' = next w /\ objs w' = objs w }.

Lemma kwait_loop_cm n w id i cb ev s tgt st wake :
  sched w = ACm id ev :: s -> cms w !! id = Some i ->
  heap w !! cm_context i = Some (BKcb cb) ->
  kcm_next (kc_server cb) (k_resolve_route (trace w) id) ev (kc_state cb) = (st, wake) ->
  exists w', kwaited w s (cm_context i) (kcb_after_cm id ev st cb) w' /\
    wait_loop (S n) (WqCb (cm_context i)) (kstate_ge (cm_context i) tgt) w =
      if wake && (st >=t tgt) then Ok 0 w'
      else wait_loop n (WqCb (cm_context i)) (kstate_ge (cm_context i) tgt) w'.
Proof.
  intros Hs Hi Hcb Hn. set (w0 := set_woken [] (set_sched s w)).
  destruct (wp_total_unit (deliver (ACm id ev)) (fun _ w' =>
      kwaited w s (cm_context i) (kcb_after_cm id ev st cb) w' /\
      woken w' = if wake then [WqCb (cm_context i)] else []) w0)
    as (w' & Hd & Hw & Hwk).
  { eapply wp_krping_deliver_cm; [done|done|]. intros w1 Hp. unfold w0 in Hp. wsimpl in Hp.
    rewrite Hn in Hp. destruct Hp as [Hh Hwk ? ? ?]. cbn in Hh, Hwk.
    wsimpl in *. rewrite app_nil_r in Hwk. done. }
  exists w'. split; [done|]. cbn [wait_loop]. erewrite bind_run by reflexivity.
  rewrite Hs. erewrite bind_run by reflexivity. fold w0. erewrite bind_run by exact Hd.
  erewrite bind_run by reflexivity. cbn [is_signal]. rewrite Hwk.
  assert (Hst : kstate_ge (cm_context i) tgt w' = Ok (st >=t tgt) w').
  { erewrite kstate_ge_run by (rewrite (kw_heap _ _ _ _ _ Hw); apply lookup_insert_eq).
    by destruct ev. }
  destruct wake; [|done]. rewrite bool_decide_eq_true_2 by left.
  erewrite bind_run by exact Hst. by destruct (st >=t tgt).
Qed.

(** The address of an IPv4 client. *)
Definition ipv4_client (cb : krping_cb) : Prop :=
  kc_addr_type cb = AF_INET /\ length (kc_addr cb) = 16%nat.
Definition ipv4_sockaddr (cb : krping_cb) : ksockaddr :=
  {| ka_family := AF_INET; ka_port := kc_port cb; ka_addr := take 4 (kc_addr cb);
     ka_scope_id := 0 |}.

Lemma fill_sockaddr_ipv4 cb w :
  ipv4_client cb -> krping_fill_sockaddr cb w = Ok (ipv4_sockaddr cb) w.
Proof.
  intros [Ht Hl]. unfold krping_fill_sockaddr. rewrite Ht.
  change (AF_INET =? AF_INET) with true. cbv iota.
  assert (Hr : read_at 0 4 (kc_addr cb) = Some (take 4 (kc_addr cb)))
    by (apply read_at_Some; split; [lia|done]).
  by rewrite Hr.
Qed.

(** [krping_bind_client] up to its wait. *)
Definition bind_request (cb : krping_cb) (w : world) : world :=
  log (EvKrping (KEvResolveAddr (kc_cm_id cb) (ipv4_sockaddr cb) 0)) w.

Lemma krping_bind_run w cba cb :
  heap w !! cba = Some (BKcb cb) -> ipv4_client cb -> is_Some (cms w !! kc_cm_id cb) ->
  kk_resolve_addr (trace w) (kc_cm_id cb) (ipv4_sockaddr cb) = 0 ->
  krping_bind_client cba w =
    (wait_event_interruptible (WqCb cba) (kstate_ge cba ROUTE_RESOLVED);;
     cb ← load (T := krping_cb) cba;
     if negb (kc_state cb =t ROUTE_RESOLVED) then mret (- EINTR) else
     dev ← cm_device (kc_cm_id cb);
     if negb (reg_supported dev) then mret (- EINVAL) else mret 0) (bind_request cb w).
Proof.
  intros Hcb H4 [i Hi] Hr. unfold krping_bind_client.
  erewrite bind_run by by apply load_run. erewrite bind_run by by apply fill_sockaddr_ipv4.
  unfold rdma_resolve_addr_any, cm_id.
  assert (Hc : (s ← get cms; from_option (BadHandle (kc_cm_id cb)) (s !! kc_cm_id cb)) w = Ok i w)
    by (unfold mbind, M_bind, get; by rewrite Hi).
  erewrite bind_run by (erewrite bind_run by exact Hc; reflexivity).
  by rewrite !Hr.
Qed.

Lemma krping_connect_run w cba cb :
  let p := {| responder_resources := 1; initiator_depth := 1; retry_count := 10 |} in
  heap w !! cba = Some (BKcb cb) -> is_Some (cms w !! kc_cm_id cb) ->
  k_connect (trace w) (kc_cm_id cb) p = 0 ->
  krping_connect_client cba w =
    (wait_event_interruptible (WqCb cba) (kstate_ge cba CONNECTED);;
     cb ← load (T := krping_cb) cba;
     if kc_state cb =t ERROR then mret (-1) else mret 0)
      (log (EvConnect (kc_cm_id cb) p 0) w).
Proof.
  intros p Hcb [i Hi] Hr. unfold krping_connect_client.
  erewrite bind_run by by apply load_run.
  erewrite bind_run by by eapply rdma_connect_run. fold p. by rewrite !Hr.
Qed.

(** Events by which a connection fails or ends. *)
Definition kcm_failure (ev : rdma_cm_event) : bool :=
  match ev with
  | RDMA_CM_EVENT_ADDR_ERROR | RDMA_CM_EVENT_ROUTE_ERROR | RDMA_CM_EVENT_CONNECT_ERROR
  | RDMA_CM_EVENT_UNREACHABLE | RDMA_CM_EVENT_REJECTED | RDMA_CM_EVENT_DISCONNECTED
  | RDMA_CM_EVENT_DEVICE_REMOVAL => true
  | _ => false
  end.

(** C35. A failure is noticed: when the next event on the id reports that the
    connection failed or ended, [krping_bind_client], sleeping before the route
    is resolved, returns [-EINTR], and [krping_connect_client], sleeping before
    the connection is up (it is called in state [ROUTE_RESOLVED]), returns -1;
    both leave the block in state [ERROR]. *)
Theorem krping_cm_failure_noticed w cba cb ev s :
  heap w !! cba = Some (BKcb cb) -> (exists i, cms w !! kc_cm_id cb = Some i /\ cm_context i = cba) ->
  sched w = ACm (kc_cm_id cb) ev :: s -> kcm_failure ev = true ->
  ((kc_state cb >=t ROUTE_RESOLVED) = false -> ipv4_client cb ->
   kk_resolve_addr (trace w) (kc_cm_id cb) (ipv4_sockaddr cb) = 0 ->
   exists w', krping_bind_client cba w = Ok (- EINTR) w'
     /\ heap w' = <[cba := BKcb (set_kc_state ERROR cb)]> (heap w) /\ sched w' = s)
  /\ ((kc_state cb >=t CONNECTED) = false ->
   (forall p, k_connect (trace w) (kc_cm_id cb) p = 0) ->
   exists w', krping_connect_client cba w = Ok (-1) w'
     /\ heap w' = <[cba := BKcb (set_kc_state ERROR cb)]> (heap w) /\ sched w' = s).
Proof.
  intros Hcb (i & Hi & <-) Hs Hev.
  assert (Hn : forall route, kcm_next (kc_server cb) route ev (kc_state cb) = (ERROR, true))
    by (intros route; by destruct ev).
  assert (Ha : kcb_after_cm (kc_cm_id cb) ev ERROR cb = set_kc_state ERROR cb) by by destruct ev.
  split.
  - intros Hlt H4 Hra. erewrite (krping_bind_run _ _ cb) by done.
    destruct (kwait_loop_cm (length s) (bind_request cb w) _ i cb ev s ROUTE_RESOLVED
      ERROR true Hs Hi Hcb (Hn _)) as (w' & [Hh Hs' _] & Hl).
    exists w'. rewrite Ha in Hh. split; [|done]. erewrite bind_run.
    + by erewrite bind_run by (apply load_run; rewrite Hh; apply lookup_insert_eq).
    + rewrite (kwait_enter _ _ cb) by done. change (sched (bind_request cb w)) with (sched w).
      rewrite Hs. cbn [length]. by rewrite Hl.
  - intros Hlt Hcn. erewrite (krping_connect_run _ _ cb) by done. set (w0 := log _ w).
    destruct (kwait_loop_cm (length s) w0 _ i cb ev s CONNECTED ERROR true Hs Hi Hcb (Hn _))
      as (w' & [Hh Hs' _] & Hl).
    exists w'. rewrite Ha in Hh. split; [|done]. erewrite bind_run.
    + by erewrite bind_run by (apply load_run; rewrite Hh; apply lookup_insert_eq).
    + rewrite (kwait_enter _ _ cb) by done. change (sched w0) with (sched w).
      rewrite Hs. cbn [length]. by rewrite Hl.
Qed.

(** A client that waits for a state it is not in, with quiet events to come. *)
Lemma kwait_quiet_never n w w0 cba st tgt :
  no_conn_req w0 -> kkept w0 w -> kstate_at cba w = Some st -> (st >=t tgt) = false ->
  Forall (quiet w0 cba) (sched w) ->
  wp Partial (wait_loop n (WqCb cba) (kstate_ge cba tgt)) (fun _ _ => False) w.
Proof.
  intros Hn Hk Hst Hlt Hq.
  apply (wait_loop_never (fun w => kkept w0 w /\ kstate_at cba w = Some st
    /\ Forall (quiet w0 cba) (sched w))); [| |done].
  - intros w1 (_ & Hs & _). unfold kstate_at in Hs.
    destruct (heap w1 !! cba) as [[]|] eqn:Hc; try done.
    erewrite kstate_ge_run by exact Hc. injection Hs as ->. by rewrite Hlt.
  - intros w1 e l (Hk1 & Hs1 & Hq1) Hl. rewrite Hl in Hq1.
    apply list.Forall_cons_1 in Hq1 as [He Hq1]. split; [by destruct e|].
    set (w2 := set_woken [] (set_sched l w1)).
    assert (Hk2 : kkept w0 w2) by (apply kkept_woken; by eapply kkept_sched).
    assert (Hn2 : no_conn_req w2) by by eapply kkept_no_conn_req.
    eapply (wp_both _ (fun _ w' => kkept w2 w')).
    { apply kkept_deliver; [done|by destruct e|reflexivity]. }
    eapply wp_mono; [apply wp_deliver_quiet; by eapply quiet_kept|].
    intros [] w3 Hs3 Hk3. split; [by transitivity w2|]. split; [by rewrite Hs3|].
    destruct (kk_sched _ _ Hk3) as [l' Hl']. change (sched w2) with l in Hl'.
    rewrite Hl' in Hq1. by apply Forall_app in Hq1 as [_ ?].
Qed.

(** C37. A route that cannot be resolved is not noticed: when
    [rdma_resolve_route] refuses, the callback wakes the waiter but leaves the
    state [ADDR_RESOLVED], so that [krping_bind_client] goes back to sleep; and
    it never returns, whatever else happens that is not for this client: events
    of other ids and queues, and DMA. *)
Theorem krping_route_error_hangs w cba cb s :
  heap w !! cba = Some (BKcb cb) -> (exists i, cms w !! kc_cm_id cb = Some i /\ cm_context i = cba) ->
  ipv4_client cb -> (kc_state cb >=t ROUTE_RESOLVED) = false ->
  sched w = ACm (kc_cm_id cb) RDMA_CM_EVENT_ADDR_RESOLVED :: s -> Forall (quiet w cba) s ->
  kk_resolve_addr (trace w) (kc_cm_id cb) (ipv4_sockaddr cb) = 0 ->
  (forall h, k_resolve_route h (kc_cm_id cb) <> 0) ->
  (exists w1, deliver (ACm (kc_cm_id cb) RDMA_CM_EVENT_ADDR_RESOLVED)
       (set_woken [] (set_sched s (bind_request cb w))) = Ok tt w1
     /\ woken w1 = [WqCb cba] /\ heap w1 = <[cba := BKcb (set_kc_state ADDR_RESOLVED cb)]> (heap w))
  /\ forall ret w', krping_bind_client cba w <> Ok ret w'.
Proof.
  intros Hcb (i & Hi & <-) H4 Hlt Hs Hq Hra Hrt. set (w0 := bind_request cb w).
  assert (Hn : kcm_next (kc_server cb) (k_resolve_route (trace w0) (kc_cm_id cb))
    RDMA_CM_EVENT_ADDR_RESOLVED (kc_state cb) = (ADDR_RESOLVED, true))
    by (cbn [kcm_next]; by rewrite (proj2 (Z.eqb_neq _ 0) (Hrt _))).
  split.
  { destruct (wp_total_unit (deliver (ACm (kc_cm_id cb) RDMA_CM_EVENT_ADDR_RESOLVED))
      (fun _ w1 => woken w1 = [WqCb (cm_context i)]
        /\ heap w1 = <[cm_context i := BKcb (set_kc_state ADDR_RESOLVED cb)]> (heap w))
      (set_woken [] (set_sched s w0))) as (w1 & Hd & ? & ?); [|by exists w1].
    eapply wp_krping_deliver_cm; [done|done|]. intros w1 Hp. wsimpl in Hp. rewrite Hn in Hp.
    by destruct Hp as [Hh Hwk _ _ _]. }
  intros ret w' Hrun. erewrite (krping_bind_run _ _ cb) in Hrun by done.
  enough (Hp : wp Partial (wait_event_interruptible (WqCb (cm_context i))
    (kstate_ge (cm_context i) ROUTE_RESOLVED)) (fun _ _ => False) w0).
  { eapply (wp_run (t := Partial) _ (fun _ _ => False)); [|exact Hrun].
    eapply wp_bind_spec; [exact Hp|done]. }
  unfold wp. rewrite (kwait_enter _ _ cb) by done. change (sched w0) with (sched w).
  rewrite Hs. cbn [length].
  destruct (kwait_loop_cm (length s) w0 _ i cb _ s ROUTE_RESOLVED ADDR_RESOLVED true Hs Hi Hcb Hn)
    as (w1 & Hk1 & Hl).
  rewrite Hl. change (true && (ADDR_RESOLVED >=t ROUTE_RESOLVED)) with false. cbv iota.
  assert (Hq1 : Forall (quiet w1 (cm_context i)) (sched w1)).
  { rewrite (kw_sched _ _ _ _ _ Hk1). eapply Forall_impl; [|exact Hq]. intros e.
    pose proof (objs_inv _ _ (proj2 (kw_rest _ _ _ _ _ Hk1))) as (Em & Eq & _).
    destruct e; cbn [quiet]; [by rewrite Em|done|by rewrite Eq|done..]. }
  apply (kwait_quiet_never _ w1 w1 _ ADDR_RESOLVED); [|reflexivity| |done|done].
  - eapply Forall_impl; [|exact Hq1]. by intros [].
  - unfold kstate_at. by rewrite (kw_heap _ _ _ _ _ Hk1), lookup_insert_eq.
Qed.

(** [krping_connect_client] takes any state but [ERROR] for success: when a
    signal interrupts its wait it returns 0 with the state still below
    [CONNECTED]. *)
Theorem krping_connect_interrupted w cba cb s :
  heap w !! cba = Some (BKcb cb) -> is_Some (cms w !! kc_cm_id cb) ->
  (kc_state cb >=t CONNECTED) = false -> sched w = ASignal :: s ->
  (forall p, k_connect (trace w) (kc_cm_id cb) p = 0) ->
  exists w', krping_connect_client cba w = Ok 0 w' /\ heap w' = heap w /\ sched w' = s.
Proof.
  intros Hcb Hi Hlt Hs Hcn. erewrite (krping_connect_run _ _ cb) by done. set (w0 := log _ w).
  set (w1 := set_woken [] (set_sched s w0)).
  assert (Hw : wait_event_interruptible (WqCb cba) (kstate_ge cba CONNECTED) w0
    = Ok (- ERESTARTSYS) w1).
  { rewrite (kwait_enter _ _ cb) by done. change (sched w0) with (sched w).
    rewrite Hs. cbn [length wait_loop]. erewrite bind_run by reflexivity.
    change (sched w0) with (sched w). rewrite Hs.
    do 3 erewrite bind_run by reflexivity. cbn [is_signal].
    erewrite bind_run by by apply (kstate_ge_run _ _ cb). by rewrite Hlt. }
  exists w1. split; [|done]. erewrite bind_run by exact Hw.
  erewrite bind_run by by apply load_run.
  replace (kc_state cb =t ERROR) with false; [done|].
  symmetry. apply Z.eqb_neq. apply Z.leb_gt in Hlt. cbn in *. lia.
Qed.

(** When the address cannot be resolved [krping_init_client] frees the
    control block, which the caller's id still points to: the next event on
    the id makes the callback use freed memory. *)
Theorem krping_init_client_dangling w cba cb i :
  heap w !! cba = Some (BKcb cb) -> cba <> NULL -> cms w !! kc_cm_id cb = Some i ->
  cm_context i = cba -> kc_tos cb = 0 -> ipv4_client cb ->
  (forall h, kk_resolve_addr h (kc_cm_id cb) (ipv4_sockaddr cb) <> 0) ->
  exists w', krping_init_client cba w = Ok NULL w' /\ heap w' = delete cba (heap w)
    /\ forall ev, krping_cma_event_handler (kc_cm_id cb) ev w' = Undef (BadAddress cba).
Proof.
  intros Hcb Hne Hi Hx Ht H4 Hra.
  set (e := kk_resolve_addr (trace w) (kc_cm_id cb) (ipv4_sockaddr cb)).
  set (w1 := log (EvKrping (KEvResolveAddr (kc_cm_id cb) (ipv4_sockaddr cb) e)) w).
  assert (He : (e =? 0) = false) by apply Z.eqb_neq, Hra.
  assert (Hc : forall w, cms w !! kc_cm_id cb = Some i ->
    (s ← get cms; from_option (BadHandle (kc_cm_id cb)) (s !! kc_cm_id cb)) w = Ok i w)
    by (intros v Hv; unfold mbind, M_bind, get; by rewrite Hv).
  assert (Hb : krping_bind_client cba w = Ok e w1).
  { unfold krping_bind_client. erewrite bind_run by by apply load_run.
    erewrite bind_run by by apply fill_sockaddr_ipv4. unfold rdma_resolve_addr_any, cm_id.
    erewrite bind_run by (erewrite bind_run by exact (Hc w Hi); reflexivity). fold e.
    by rewrite He. }
  assert (Ht0 : set_tos cba w = Ok tt w).
  { unfold set_tos. erewrite bind_run by by apply load_run. by rewrite Ht. }
  exists (log (EvKfree cba) (upd_heap (delete cba) w1)). split; [|split; [done|]].
  - unfold krping_init_client. erewrite bind_run by exact Ht0. erewrite bind_run by exact Hb.
    rewrite He. cbn [negb]. unfold krping_init_err0. erewrite bind_run; [reflexivity|].
    unfold kfree. by replace (heap w1 !! cba) with (Some (BKcb cb)).
  - intros ev. unfold krping_cma_event_handler, cm_id.
    erewrite bind_run by exact (Hc (log (EvKfree cba) (upd_heap (delete cba) w1)) Hi).
    apply bind_undef. rewrite Hx. unfold load, peek, access_fault. wsimpl.
    rewrite lookup_delete_eq. cbn. by rewrite (proj2 (Z.eqb_neq _ _) Hne).
Qed.
End Connect.
