(* ===== verification/KrpingClient.v ===== *)
(** * KrpingClient: a ping client from end to end ([bak/krping.c])

    The parts of [krping_run_client] put together: with services that succeed
    and a peer that answers, a client connects, does its pings, disconnects and
    leaves nothing behind. *)
From stdpp Require Import gmultiset.
From S2P Require Import Prelude Types KrpingTypes Kernel Logic Verbs Wait Within.
From S2P Require Import KrpingEnv KrpingFrame KrpingIo KrpingBufs KrpingPing KrpingProto KrpingRun.
Import Krping.

(** ** Functions that leave a part of the state alone *)

Lemma run_keeps {A} (m : M A) w a w' :
  keeps m -> no_conn_req w -> m w = Ok a w' -> kkept w w'.
Proof.
  intros Hm Hn Hr. specialize (Hm w w Hn (kkept_refl w)). unfold wp in Hm. by rewrite Hr in Hm.
Qed.

#[export] Hint Unfold kemit ib_dma_alloc_coherent ib_dma_free_coherent ib_alloc_mr
  kptr_addr load_mr ib_dereg_mr ib_post_recv_wr rdma_resolve_addr_any rdma_set_service_type
  set_kstate mutex_lock mutex_unlock list_add_tail list_del : services.

(** ** What posts no sends *)

Definition posts (w : world) : list (list posted) := sent (trace w).
(** The same, and no event taken. *)
Definition posts_sched (w : world) : list (list posted) * list async :=
  (sent (trace w), sched w).

Section Posts.
Context {K : Kernel} {KK : KrpingKernel}.

Lemma posts_poll cq : unchanged posts (ib_poll_cq cq).
Proof. unfold ib_poll_cq. solve_within. Qed.
#[local] Hint Resolve posts_poll : within.
Lemma posts_cma id ev : unchanged posts (krping_cma_event_handler id ev).
Proof. unfold krping_cma_event_handler. solve_within. Qed.
Lemma posts_complete cba wc : unchanged posts (krping_complete cba wc).
Proof.
  unfold krping_complete, server_recv, client_recv, rdma_sg_length, count. solve_within.
Qed.
Lemma posts_cq_error cba : unchanged posts (krping_cq_error cba).
Proof. unfold krping_cq_error. solve_within. Qed.
#[local] Hint Resolve posts_cma posts_complete posts_cq_error : within.
Lemma posts_cq_loop fuel cba : unchanged posts (krping_cq_loop fuel cba).
Proof. induction fuel; cbn [krping_cq_loop]; solve_within. Qed.
#[local] Hint Resolve posts_cq_loop : within.
Lemma posts_cq_handler cq cba : unchanged posts (krping_cq_event_handler cq cba).
Proof. unfold krping_cq_event_handler. solve_within. Qed.
Lemma posts_dma_write a l : unchanged posts (krping_dma_write a l).
Proof.
  unfold krping_dma_write.
  assert (unchanged posts (dma_write a l)).
  { unfold dma_write. apply within_modify. intros w. destruct (heap w !! a) as [[]|]; try done.
    by destruct (decide _). }
  solve_within.
Qed.
#[local] Hint Resolve posts_cq_handler posts_dma_write : within.
Lemma posts_deliver e : unchanged posts (deliver e).
Proof.
  unfold deliver, krping_delivery, krping_deliver, krping_deliver_cm. solve_within.
Qed.
#[local] Hint Resolve posts_deliver : within.
Lemma posts_state_ge cba s : unchanged posts (kstate_ge cba s).
Proof. unfold kstate_ge. solve_within. Qed.
#[local] Hint Resolve posts_state_ge : within.
Lemma posts_wait_loop fuel q cba s : unchanged posts (wait_loop fuel q (kstate_ge cba s)).
Proof. induction fuel; cbn [wait_loop]; solve_within. Qed.
#[local] Hint Resolve posts_wait_loop : within.
Lemma posts_wait q cba s : unchanged posts (wait_event_interruptible q (kstate_ge cba s)).
Proof. unfold wait_event_interruptible. solve_within. Qed.
#[local] Hint Resolve posts_wait : within.

Lemma posts_set_tos cba : unchanged posts (set_tos cba).
Proof. unfold set_tos. solve_within. Qed.
Lemma posts_bind_client cba : unchanged posts (krping_bind_client cba).
Proof. unfold krping_bind_client, krping_fill_sockaddr. solve_within. Qed.
Lemma posts_setup_qp cba id : unchanged posts (krping_setup_qp cba id).
Proof.
  unfold krping_setup_qp, krping_setup_qp_err2, krping_setup_qp_err1, krping_create_qp.
  cbv zeta. solve_within.
Qed.
Lemma posts_setup_buffers cba : unchanged posts (krping_setup_buffers cba).
Proof.
  unfold krping_setup_buffers, krping_map_info, krping_alloc_bufs, krping_setup_bail, krping_setup_wr. solve_within.
Qed.
Lemma posts_post_rq cba : unchanged posts (post_rq cba).
Proof. unfold post_rq. solve_within. Qed.
Lemma posts_connect_client cba : unchanged posts (krping_connect_client cba).
Proof. unfold krping_connect_client. solve_within. Qed.
Lemma posts_fin_client cba : unchanged posts_sched (krping_fin_client cba).
Proof. unfold krping_fin_client, krping_free_buffers, krping_free_qp. solve_within. Qed.
End Posts.

(** ** A client that succeeds *)

(** Services that succeed. *)
Record client_kernel (K : Kernel) (KK : KrpingKernel) : Prop := {
  ck_objects : objects_available K;
  ck_buffers : buffers_available KK;
  ck_dma : mappings_valid K;
  ck_obliging : obliging (KK := KK);
  ck_resolve : forall h id sin, kk_resolve_addr h id sin = 0;
  ck_route : forall h id, k_resolve_route h id = 0;
  ck_connect : forall h id p, k_connect h id p = 0;
  ck_caps : forall id, reg_supported (KK := KK) (k_cm_device id) = true }.

(** A client's block before it runs: an IPv4 address, a size that holds the
    text of a ping, and the requests as [kzalloc] has left them. *)
Record new_client (cb : krping_cb) : Prop := {
  nc_ipv4 : ipv4_client cb;
  nc_server : kc_server cb = 0;
  nc_state : kc_state cb = IDLE;
  nc_buffers : no_buffers cb;
  nc_rq : kc_rq_wr cb = zero_krecv_wr;
  nc_sq : kc_sq_wr cb = zero_ksend_wr;
  nc_inv : kc_invalidate_wr cb = zero_ksend_wr;
  nc_reg : kc_reg_mr_wr cb = zero_kreg_wr;
  nc_no_inv : kc_server_invalidate cb = 0;
  nc_frtest : kc_frtest cb = 0;
  nc_size : 64 <= kc_size cb <= RPING_BUFSIZE;
  nc_key : in_u 8 (kc_key cb) }.

(** The events by which a client connects. *)
Definition client_up (id : kptr) : list async :=
  [ACm id RDMA_CM_EVENT_ADDR_RESOLVED; ACm id RDMA_CM_EVENT_ROUTE_RESOLVED;
   ACm id RDMA_CM_EVENT_ESTABLISHED].

Section Client.
Context {K : Kernel} {KK : KrpingKernel} (HK : client_kernel K KK).

Lemma client_error_codes : error_codes K.
Proof.
  destruct HK as [[Hpd Hcq _ _] _ _ _ _ _ _ _]. split.
  - intros h d e E. specialize (Hpd h d). by rewrite E in Hpd.
  - intros h d c e E. specialize (Hcq h d c). by rewrite E in Hcq.
Qed.

Lemma client_mr_errors h pd n e : kk_alloc_mr h pd n = inl e -> e <> 0.
Proof. intros E. destruct (ck_buffers _ _ HK) as [_ Hm]. by destruct (Hm h pd n e). Qed.

Lemma kwaited_log w e s cba cb w' :
  kwaited (log e w) s cba cb w' -> kwaited w s cba cb w'.
Proof. by intros [H1 H2 H3]. Qed.
Lemma kwaited_trans w s cba cb w1 s' cb' w2 :
  kwaited w s cba cb w1 -> kwaited w1 s' cba cb' w2 -> kwaited w s' cba cb' w2.
Proof.
  intros [H1 _ [N1 O1]] [H2 S2 [N2 O2]]. split; [|done|by rewrite N2, O2].
  by rewrite H2, H1, insert_insert_eq.
Qed.
Lemma kwaited_cb w s cba cb w' : kwaited w s cba cb w' -> heap w' !! cba = Some (BKcb cb).
Proof. intros [H1 _ _]. rewrite H1. apply lookup_insert_eq. Qed.
Lemma kwaited_here w cba cb e :
  heap w !! cba = Some (BKcb cb) -> kwaited w (sched w) cba cb (log e w).
Proof. intros Hcb. split; [|done|done]. symmetry. by apply insert_id. Qed.

Lemma set_tos_run w cba cb i :
  heap w !! cba = Some (BKcb cb) -> cms w !! kc_cm_id cb = Some i ->
  exists w', set_tos cba w = Ok tt w' /\ kwaited w (sched w) cba cb w'.
Proof.
  intros Hcb Hi. unfold set_tos. erewrite bind_run by by apply load_run.
  destruct (negb _).
  - unfold rdma_set_service_type, kemit.
    assert (Hc : cm_id (kc_cm_id cb) w = Ok i w)
      by (unfold cm_id, mbind, M_bind, get; by rewrite Hi).
    erewrite bind_run by exact Hc. eexists. split; [reflexivity|]. by apply kwaited_here.
  - exists w. split; [done|]. split; [|done|done]. symmetry. by apply insert_id.
Qed.

Lemma bind_client_up w cba cb i s :
  heap w !! cba = Some (BKcb cb) -> ipv4_client cb -> kc_state cb = IDLE ->
  cms w !! kc_cm_id cb = Some i -> cm_context i = cba ->
  sched w = ACm (kc_cm_id cb) RDMA_CM_EVENT_ADDR_RESOLVED
    :: ACm (kc_cm_id cb) RDMA_CM_EVENT_ROUTE_RESOLVED :: s ->
  exists w', krping_bind_client cba w = Ok 0 w'
    /\ kwaited w s cba (set_kc_state ROUTE_RESOLVED cb) w'.
Proof.
  intros Hcb H4 Hst Hi <- Hs.
  erewrite (krping_bind_run _ _ cb) by (try apply (ck_resolve _ _ HK); try done; by eexists).
  set (w0 := bind_request cb w).
  destruct (kwait_loop_cm (S (length s)) w0 _ i cb _ _ ROUTE_RESOLVED ADDR_RESOLVED false Hs Hi Hcb)
    as (w1 & Hw1 & Hl1).
  { cbn [kcm_next]. by rewrite (ck_route _ _ HK). }
  set (cb1 := kcb_after_cm _ _ _ cb) in *.
  assert (Hi1 : cms w1 !! kc_cm_id cb = Some i).
  { pose proof (objs_inv _ _ (proj2 (kw_rest _ _ _ _ _ Hw1))) as (-> & _). exact Hi. }
  destruct (kwait_loop_cm (length s) w1 _ i cb1 _ _ ROUTE_RESOLVED ROUTE_RESOLVED true
    (kw_sched _ _ _ _ _ Hw1) Hi1 (kwaited_cb _ _ _ _ _ Hw1) eq_refl) as (w2 & Hw2 & Hl2).
  exists w2. split.
  - erewrite bind_run.
    2: { rewrite (kwait_enter _ _ cb); [|exact Hcb|by rewrite Hst]. fold w0.
         change (sched w0) with (sched w). rewrite Hs. cbn [length]. rewrite Hl1. exact Hl2. }
    erewrite bind_run by by apply load_run; eapply kwaited_cb.
    change (kc_state (kcb_after_cm _ _ _ cb1) =t ROUTE_RESOLVED) with true. cbn [negb].
    assert (Hd : cm_device (kc_cm_id cb) w2 = Ok (k_cm_device (kc_cm_id cb)) w2).
    { pose proof (objs_inv _ _ (proj2 (kw_rest _ _ _ _ _ Hw2))) as (Em & _).
      unfold cm_device, cm_id, mbind, M_bind, get. by rewrite Em, Hi1. }
    erewrite bind_run by exact Hd. by rewrite (ck_caps _ _ HK).
  - apply (kwaited_log _ (EvKrping (KEvResolveAddr (kc_cm_id cb) (ipv4_sockaddr cb) 0))).
    eapply kwaited_trans; [exact Hw1|exact Hw2].
Qed.

Lemma connect_client_up w cba cb i s :
  heap w !! cba = Some (BKcb cb) -> kc_state cb = ROUTE_RESOLVED -> kc_server cb = 0 ->
  cms w !! kc_cm_id cb = Some i -> cm_context i = cba ->
  sched w = ACm (kc_cm_id cb) RDMA_CM_EVENT_ESTABLISHED :: s ->
  exists w', krping_connect_client cba w = Ok 0 w'
    /\ kwaited w s cba (set_kc_state CONNECTED cb) w'.
Proof.
  intros Hcb Hst Hsv Hi <- Hs.
  erewrite (krping_connect_run _ _ cb) by (try apply (ck_connect _ _ HK); try done; by eexists).
  set (w0 := log _ w).
  destruct (kwait_loop_cm (length s) w0 _ i cb _ _ CONNECTED CONNECTED true Hs Hi Hcb)
    as (w1 & Hw1 & Hl1); [cbn [kcm_next]; by rewrite Hsv|].
  exists w1. split; [|by eapply kwaited_log].
  erewrite bind_run.
  2: { rewrite (kwait_enter _ _ cb); [|exact Hcb|by rewrite Hst].
       change (sched w0) with (sched w). rewrite Hs. cbn [length]. exact Hl1. }
  by erewrite bind_run by by apply load_run; eapply kwaited_cb.
Qed.

Lemma post_rq_run w cba cb :
  heap w !! cba = Some (BKcb cb) -> kc_qp cb ∈ qps w ->
  kc_rq_wr cb = {| kr_wr_id := 0; kr_sg_list := Some S_recv_sgl; kr_num_sge := 1 |} ->
  exists w', post_rq cba w = Ok 0 w' /\ kwaited w (sched w) cba cb w'.
Proof.
  intros Hcb Hqp Hrq. unfold post_rq. erewrite bind_run by by apply load_run.
  rewrite Hrq. unfold ib_post_recv_wr.
  assert (Hl : live_qp (kc_qp cb) w = Ok tt w)
    by (unfold live_qp, mbind, M_bind, get; by rewrite bool_decide_eq_true_2).
  erewrite bind_run by exact Hl. erewrite bind_run by reflexivity.
  unfold call. rewrite (ob_recv (ck_obliging _ _ HK)).
  eexists. split; [reflexivity|]. by apply kwaited_here.
Qed.

(** The block of a client with its objects, before its buffers. *)
Definition linked_cb (pd cq : kptr) (qp : addr) (cb : krping_cb) : krping_cb :=
  set_kc_qp qp (set_kc_cq cq (set_kc_pd pd (set_kc_state ROUTE_RESOLVED cb))).

(** A client that has its objects and then its buffers can ping. *)
Lemma buffers_pinging w2 cba cb pd cq qp b w3 :
  let cb2 := linked_cb pd cq qp cb in
  new_client cb -> fresh_ok w2 -> heap w2 !! cba = Some (BKcb cb2) -> qp ∈ qps w2 ->
  cqs w2 !! cq = Some {| cq_context := cba; cq_polls := [] |} ->
  bufs_ready w2 cba cb2 b w3 -> pinging w3 cba (buffers_cb (next w2) b cb2) (ba_mr b) [].
Proof.
  intros cb2 [H4 Hsv Hst [N1 N2 N3 N4 N5 N6] Hrq Hsq Hinv Hreg Hni Hfr Hsz Hkey] [Hpos Hfree] Hcb2
    Hqp Hcq [Hh Hn Hd (_ & Eq & _ & Eqp & _)].
  assert (Hlt : cba < next w2) by (apply Z.nle_gt; intros ?; by rewrite Hfree in Hcb2).
  unfold put_buffers in Hh. set (cb3 := buffers_cb (next w2) b cb2) in *.
  split.
  - split; try done.
    + rewrite Hh. apply lookup_insert_eq.
    + by rewrite Eqp.
    + rewrite Eq. by eexists.
    + change (kc_rq_wr cb3) with ((kc_rq_wr cb) <| kr_sg_list := Some S_recv_sgl |>
        <| kr_num_sge := 1 |>). by rewrite Hrq.
  - split; try done.
    + change (rw_wr (kc_reg_mr_wr cb3)) with ((rw_wr (kc_reg_mr_wr cb))
        <| ks_opcode := IB_WR_REG_MR |>). by rewrite Hreg.
    + change (kc_sq_wr cb3) with ((kc_sq_wr cb) <| ks_opcode := IB_WR_SEND |>
        <| ks_send_flags := IB_SEND_SIGNALED |> <| ks_sg_list := Some S_send_sgl |>
        <| ks_num_sge := 1 |>). by rewrite Hsq.
  - exists (next w2 + 1). split; [done|]. rewrite Hh. heap_lookup.
  - change (kc_start_buf cb3) with (next w2 + 2).
    eexists. split; [rewrite Hh; heap_lookup|apply length_le_bytes].
  - change (kc_rdma_buf cb3) with (next w2).
    eexists. split; [rewrite Hh; heap_lookup|apply length_le_bytes].
  - unfold kpolls_of. rewrite Eq. change (kc_cq cb3) with cq. by rewrite Hcq.
Qed.

(** The state changes, and the client can still ping. *)
Lemma kwaited_pinging w s cba cb st m ps w' :
  pinging w cba cb m ps -> kwaited w s cba (set_kc_state st cb) w' ->
  pinging w' cba (set_kc_state st cb) m ps.
Proof.
  intros Hp [Hh _ [_ Ho]]. pose proof (objs_inv _ _ Ho) as (_ & Eq & _ & Eqp & _).
  apply (pinging_env (upd_heap (insert cba (BKcb (set_kc_state st cb))) w)); [done..|].
  apply (pinging_update w cba cb); [done|done|].
  by destruct (pg_wrs _ _ _ _ _ Hp).
Qed.

(** Address, route and objects: the state and what the block names. *)
Record linked (w : world) (cba : addr) (cb : krping_cb) (i : cm_state) (s : list async)
    (w1 : world) (pd cq : kptr) (qp : addr) (w2 : world) : Prop := {
  lk_kept : kkept w w1;
  lk_bound : kwaited w s cba (set_kc_state ROUTE_RESOLVED cb) w1;
  lk_up : kqp_up w1 cba (set_kc_state ROUTE_RESOLVED cb) i pd cq qp w2;
  lk_posts : posts w2 = posts w }.

(** [krping_run_client] after the objects have been made, and after the client
    is connected. *)
Definition client_end (cba : addr) : M unit :=
  krping_test_client cba;;
  cb ← load (T := krping_cb) cba;
  rdma_disconnect (kc_cm_id cb);;
  krping_fin_client cba.
Definition client_rest (cba : addr) : M unit :=
  ret ← krping_setup_buffers cba;
  if negb (ret =? 0) then krping_free_qp cba else
  ret ← post_rq cba;
  if negb (ret =? 0) then krping_fin_client cba else
  ret ← krping_connect_client cba;
  if negb (ret =? 0) then krping_fin_client cba else client_end cba.

Lemma client_linked w cba cb i s :
  new_client cb -> no_conn_req w -> new_handles K w ->
  heap w !! cba = Some (BKcb cb) -> cms w !! kc_cm_id cb = Some i -> cm_context i = cba ->
  sched w = ACm (kc_cm_id cb) RDMA_CM_EVENT_ADDR_RESOLVED
    :: ACm (kc_cm_id cb) RDMA_CM_EVENT_ROUTE_RESOLVED :: s ->
  exists w1 pd cq qp w2, linked w cba cb i s w1 pd cq qp w2
    /\ krping_run_client cba w = client_rest cba w2.
Proof.
  intros Hnc Hn Hnh Hcb Hi Hx Hs.
  destruct (set_tos_run w cba cb i Hcb Hi) as (wa & Ra & Ka).
  pose proof (objs_inv _ _ (proj2 (kw_rest _ _ _ _ _ Ka))) as (Ema & _).
  destruct (bind_client_up wa cba cb i s) as (w1 & R1 & K1); try done.
  { by eapply kwaited_cb. }
  { apply Hnc. }
  { apply Hnc. }
  { by rewrite Ema. }
  { by rewrite (kw_sched _ _ _ _ _ Ka). }
  assert (K01 : kwaited w s cba (set_kc_state ROUTE_RESOLVED cb) w1) by by eapply kwaited_trans.
  assert (Hka : kkept w wa) by (eapply run_keeps; [apply keeps_set_tos|done|exact Ra]).
  assert (Hna : no_conn_req wa) by by eapply kkept_no_conn_req.
  assert (Hk1 : kkept w w1).
  { eapply kkept_trans; [exact Hka|]. eapply run_keeps; [apply keeps_bind_client|done|exact R1]. }
  set (cb1 := set_kc_state ROUTE_RESOLVED cb) in *.
  pose proof (objs_inv _ _ (proj2 (kw_rest _ _ _ _ _ K01))) as (Em1 & _).
  assert (Hq : wp Total (krping_setup_qp cba (kc_cm_id cb1))
    (fun r w2 => r = 0 /\ exists pd cq qp, kqp_up w1 cba cb1 i pd cq qp w2) w1).
  { eapply (wp_krping_setup_qp client_error_codes _ _ _ _ i).
    - by eapply kwaited_cb.
    - apply (nc_server _ Hnc).
    - by rewrite Em1.
    - by eapply new_handles_objs; [apply K01|].
    - intros pd cq qp w2 Hu. split; [done|]. by exists pd, cq, qp.
    - intros ret w2 _ []. apply HK. }
  destruct (wp_total_run _ _ _ Hq) as (r & w2 & R2 & -> & pd & cq & qp & Hup).
  exists w1, pd, cq, qp, w2. split; [split; try done|].
  - by rewrite (run_within _ _ _ _ _ (posts_setup_qp _ _) R2),
      (run_within _ _ _ _ _ (posts_bind_client _) R1),
      (run_within _ _ _ _ _ (posts_set_tos _) Ra).
  - unfold krping_run_client. erewrite bind_run by exact Ra. erewrite bind_run by exact R1.
    change (negb (0 =? 0)) with false. cbv iota.
    erewrite bind_run by by apply load_run; eapply kwaited_cb.
    change (kc_cm_id cb1) with (kc_cm_id cb) in R2 |- *. by erewrite bind_run by exact R2.
Qed.

(** The client is connected and can ping. *)
Record connected (w2 : world) (cba : addr) (cb2 : krping_cb) (b : buf_answers)
    (s : list async) (w3 w5 : world) : Prop := {
  co_bufs : bufs_ready w2 cba cb2 b w3;
  co_kept : kkept w3 w5;
  co_pinging : pinging w5 cba (set_kc_state CONNECTED (buffers_cb (next w2) b cb2)) (ba_mr b) [];
  co_sched : sched w5 = s;
  co_posts : posts w5 = posts w2 }.

Lemma client_connected w2 cba cb pd cq qp i s :
  let cb2 := linked_cb pd cq qp cb in
  new_client cb -> no_conn_req w2 -> fresh_ok w2 -> heap w2 !! cba = Some (BKcb cb2) ->
  pd ∈ pds w2 -> qp ∈ qps w2 -> cqs w2 !! cq = Some {| cq_context := cba; cq_polls := [] |} ->
  cms w2 !! kc_cm_id cb = Some i -> cm_context i = cba ->
  sched w2 = ACm (kc_cm_id cb) RDMA_CM_EVENT_ESTABLISHED :: s ->
  exists b w3 w5, connected w2 cba cb2 b s w3 w5 /\ client_rest cba w2 = client_end cba w5.
Proof.
  intros cb2 Hnc Hn Hf Hcb2 Hpd Hqp Hcq Hi Hx Hs.
  assert (Hb : wp Total (krping_setup_buffers cba)
    (fun r w3 => r = 0 /\ exists b, bufs_ready w2 cba cb2 b w3) w2).
  { pose proof (ck_buffers _ _ HK) as [Hc Hm].
    eapply (wp_krping_setup_buffers client_mr_errors); [done|by destruct (nc_buffers _ Hnc)|done|done|..].
    - intros b w3 Hb. split; [done|by exists b].
    - intros ret recv send w3 _ []. by split. }
  destruct (wp_total_run _ _ _ Hb) as (r & w3 & R3 & -> & b & Hbr).
  pose proof (buffers_pinging w2 cba cb pd cq qp b w3 Hnc Hf Hcb2 Hqp Hcq Hbr) as Hp3.
  set (cb3 := buffers_cb (next w2) b cb2) in *.
  pose proof Hbr as [_ _ _ (Em3 & _ & _ & _ & Es3 & _)].
  assert (Hn3 : no_conn_req w3) by (unfold no_conn_req; by rewrite Es3).
  destruct (post_rq_run w3 cba cb3) as (w4 & R4 & K4);
    [apply Hp3|apply (cl_qp _ _ _ (pg_ready _ _ _ _ _ Hp3))
    |apply (cl_rq _ _ _ (pg_ready _ _ _ _ _ Hp3))|].
  pose proof (objs_inv _ _ (proj2 (kw_rest _ _ _ _ _ K4))) as (Em4 & _).
  destruct (connect_client_up w4 cba cb3 i s) as (w5 & R5 & K5);
    [by eapply kwaited_cb|done|apply (nc_server _ Hnc)|by rewrite Em4, Em3|done
    |by rewrite (kw_sched _ _ _ _ _ K4), Es3|].
  assert (Hk4 : kkept w3 w4) by (eapply run_keeps; [apply keeps_post_rq|done|exact R4]).
  assert (Hn4 : no_conn_req w4) by by eapply kkept_no_conn_req.
  exists b, w3, w5. split; [split; [exact Hbr|..]|].
  - eapply kkept_trans; [exact Hk4|]. eapply run_keeps; [apply keeps_connect_client|done|exact R5].
  - eapply kwaited_pinging; [exact Hp3|]. by eapply kwaited_trans.
  - apply (kw_sched _ _ _ _ _ K5).
  - by rewrite (run_within _ _ _ _ _ (posts_connect_client _) R5),
      (run_within _ _ _ _ _ (posts_post_rq _) R4),
      (run_within _ _ _ _ _ (posts_setup_buffers _) R3).
  - unfold client_rest. erewrite bind_run by exact R3. change (negb (0 =? 0)) with false. cbv iota.
    erewrite bind_run by exact R4. change (negb (0 =? 0)) with false. cbv iota.
    by erewrite bind_run by exact R5.
Qed.

(** What a client with its objects is given to go on. *)
Lemma linked_state w cba cb i s w1 pd cq qp w2 :
  linked w cba cb i s w1 pd cq qp w2 -> fresh_ok w -> no_conn_req w ->
  fresh_ok w1 /\ fresh_ok w2 /\ no_conn_req w2 /\ next w2 = next w /\ sched w2 = s
  /\ heap w2 !! cba = Some (BKcb (linked_cb pd cq qp cb)) /\ pd ∈ pds w2 /\ qp ∈ qps w2
  /\ cqs w2 !! cq = Some {| cq_context := cba; cq_polls := [] |}
  /\ cms w2 !! kc_cm_id cb = Some (i <| cm_qp := qp |>).
Proof.
  intros [Hk1 Kw [Uh Up Uc Uq Um _ _ (Un & Us & _)] _] Hf Hn.
  assert (Hf1 : fresh_ok w1) by by eapply kkept_fresh. split; [done|].
  split_and!.
  - destruct Hf1 as [Hpos Hfree]. split; [by rewrite Un|]. intros a Hge. rewrite Un in Hge.
    rewrite Uh, lookup_insert_ne; [by apply Hfree|]. intros ->. specialize (Hfree _ Hge).
    by rewrite (kwaited_cb _ _ _ _ _ Kw) in Hfree.
  - unfold no_conn_req. rewrite Us. by eapply kkept_no_conn_req.
  - rewrite Un. apply (kw_rest _ _ _ _ _ Kw).
  - rewrite Us. apply (kw_sched _ _ _ _ _ Kw).
  - rewrite Uh. apply lookup_insert_eq.
  - rewrite Up. set_solver.
  - rewrite Uq. set_solver.
  - rewrite Uc. apply lookup_insert_eq.
  - rewrite Um. apply lookup_insert_eq.
Qed.

(** The pings of a connected client, and its end. *)
Lemma client_end_run w cba cb i s0 w1 pd cq qp w2 b l s w3 w5 n :
  linked w cba cb i s0 w1 pd cq qp w2 -> new_client cb -> fresh_ok w -> no_conn_req w ->
  cms w !! kc_cm_id cb = Some i ->
  connected w2 cba (linked_cb pd cq qp cb) b (l ++ s) w3 w5 ->
  kc_count cb = Z.of_nat n -> 0 < kc_count cb < 2 ^ 31 -> length l = (2 * n)%nat ->
  Forall (answer cq) l ->
  exists w', client_end cba w5 = Ok tt w' /\ released True w cba (kc_cm_id cb) w' /\ sched w' = s
    /\ let cb' := buffers_cb (next w) b cb in
       sent (trace w') = pings_sent (src_access cb') (snk_access cb') n cb' (kc_key cb) (ba_mr b)
         ++ sent (trace w).
Proof.
  intros Hlk Hnc Hf Hn Hi [Hbr Hk5 Hp5 Hs5 Ho5] Hc Hb Hl Ha.
  pose proof (linked_state _ _ _ _ _ _ _ _ _ _ Hlk Hf Hn)
    as (Hf1 & _ & Hn2 & En & _ & _ & _ & _ & _ & Hi2).
  destruct Hlk as [Hk1 Kw Hup Hp2]. pose proof Hbr as [_ _ _ (Em3 & _ & _ & _ & Es3 & _)].
  destruct (wp_total_unit _ _ _ (wp_test_client (ck_obliging _ _ HK) w5 cba _ (ba_mr b) l s n
    Hp5 Hc Hb Hs5 Hl Ha)) as (w6 & R6 & cb6 & [Hcb6 Hc6 _ _ Hs6 Ho6]).
  assert (Hn3 : no_conn_req w3) by (unfold no_conn_req; by rewrite Es3).
  assert (Hk6 : kkept w3 w6).
  { eapply kkept_trans; [exact Hk5|].
    eapply run_keeps; [apply keeps_test_client|by eapply kkept_no_conn_req|exact R6]. }
  pose proof (core_field kc_cm_id _ _ (fun _ => eq_refl) Hc6
    : kc_cm_id cb6 = kc_cm_id cb) as Eid.
  set (w7 := log (EvDisconnect (kc_cm_id cb)) w6).
  assert (Hd7 : rdma_disconnect (kc_cm_id cb) w6 = Ok tt w7).
  { unfold rdma_disconnect, cm_id, mbind, M_bind, get. by rewrite (kk_cms _ _ Hk6), Em3, Hi2. }
  pose proof (objs_inv _ _ (proj2 (kw_rest _ _ _ _ _ Kw))) as (Em1 & _).
  destruct (wp_total_unit _ _ _ (fin_client_released client_mr_errors
    client_error_codes Total True w w1 cba _ i pd cq qp w2 b w3 w7 Hk1 (kwaited_cb _ _ _ _ _ Kw)
    ltac:(by rewrite Em1) Hf1 ltac:(by destruct (nc_buffers _ Hnc)) Hup Hbr
    (kkept_log _ _ _ Hk6) (fun _ => ck_dma _ _ HK))) as (w' & R' & Hrel).
  exists w'. split; [|split; [exact Hrel|]].
  - unfold client_end. erewrite bind_run by exact R6. erewrite bind_run by by apply load_run.
    rewrite Eid. erewrite bind_run by exact Hd7. exact R'.
  - pose proof (run_within _ _ _ _ _ (posts_fin_client cba) R') as [= E1 E2].
    change (sent (trace w7)) with (sent (trace w6)) in E1. unfold posts in Ho5, Hp2.
    split; [by rewrite E2|]. cbv zeta. rewrite E1, Ho6, Ho5, Hp2, En. f_equal.
    by apply pings_sent_ext.
Qed.

(** A ping client from end to end.  When the services succeed, the connection
    comes up and the peer answers each ping, [krping_run_client] returns: it has
    posted the two registrations and two advertisements of every ping under
    keys that go up by one, it has taken exactly the events of the connection
    and the answers, and memory, regions, queues, protection domain and DMA
    mappings are as before. *)
Theorem krping_run_client_completes w cba cb i cq l s n :
  new_client cb -> fresh_ok w -> new_handles K w -> no_conn_req w ->
  heap w !! cba = Some (BKcb cb) -> cms w !! kc_cm_id cb = Some i -> cm_context i = cba ->
  (forall h d, k_create_cq h d cba = cq) ->
  kc_count cb = Z.of_nat n -> 0 < kc_count cb < 2 ^ 31 ->
  sched w = client_up (kc_cm_id cb) ++ l ++ s -> length l = (2 * n)%nat -> Forall (answer cq) l ->
  exists w' b, krping_run_client cba w = Ok tt w'
    /\ released True w cba (kc_cm_id cb) w' /\ sched w' = s
    /\ let cb' := buffers_cb (next w) b cb in
       sent (trace w') = pings_sent (src_access cb') (snk_access cb') n cb' (kc_key cb) (ba_mr b)
         ++ sent (trace w).
Proof.
  intros Hnc Hf Hnh Hn Hcb Hi Hx Hcqs Hc Hb Hs Hl Ha.
  destruct (client_linked w cba cb i _ Hnc Hn Hnh Hcb Hi Hx Hs)
    as (w1 & pd & cq' & qp & w2 & Hlk & ->).
  assert (cq' = cq) as ->.
  { destruct (qu_cq _ _ _ _ _ _ _ _ (lk_up _ _ _ _ _ _ _ _ _ _ Hlk)) as (h & d & ->).
    apply Hcqs. }
  pose proof (linked_state _ _ _ _ _ _ _ _ _ _ Hlk Hf Hn)
    as (_ & Hf2 & Hn2 & _ & Hs2 & Hcb2 & Hpd2 & Hqp2 & Hcq2 & Hi2).
  destruct (client_connected w2 cba cb pd cq qp _ (l ++ s) Hnc Hn2 Hf2 Hcb2 Hpd2 Hqp2 Hcq2 Hi2
    Hx Hs2) as (b & w3 & w5 & Hco & ->).
  destruct (client_end_run _ _ _ _ _ _ _ _ _ _ _ _ _ _ _ n Hlk Hnc Hf Hn Hi Hco Hc Hb Hl Ha)
    as (w' & Hr & Hrel & Hs' & Hsent).
  exists w', b. done.
Qed.
End Client.
