(* ===== verification/KrpingFlush.v ===== *)
(** * KrpingFlush: the polling loop of [flush_qp] ends ([bak/krping.c])

    Each round of the loop takes an answer from the queue or an event from the
    schedule, and an event brings no more answers than it has: their number
    bounds the rounds. *)
From S2P Require Import Prelude Types KrpingTypes Kernel Logic Wait Within KrpingEnv KrpingFrame.
From S2P Require Import KrpingIo KrpingPing KrpingClient.
Import Krping.

Section Flush.
Context {K : Kernel} {KK : KrpingKernel}.

(** No answers are added to [cq], and no events are taken. *)
Definition polls_len (w : world) (cq : kptr) : nat := length (kpolls_of w cq).
Definition drains (cq : kptr) : relation world := fun w w' =>
  (polls_len w' cq <= polls_len w cq)%nat /\ sched w' = sched w.
#[local] Instance drains_preorder cq : PreOrder (drains cq).
Proof.
  split; [by intros w; split|]. intros w1 w2 w3 [H1 E1] [H2 E2]. split; [lia|congruence].
Qed.

Lemma drains_polls w cq cq' c p ps ps' :
  cqs w !! cq' = Some c -> cq_polls c = p ++ ps -> ps' = ps ->
  drains cq w (upd_cqs (insert cq' (c <| cq_polls := ps' |>)) w).
Proof.
  intros Hc Hp ->. split; [|done]. unfold polls_len, kpolls_of. wsimpl.
  destruct (decide (cq = cq')) as [->|Hne].
  - rewrite lookup_insert_eq, Hc. cbn [cq_polls]. rewrite Hp, length_app. lia.
  - by rewrite lookup_insert_ne.
Qed.

Lemma drains_poll cq cq' : within (drains cq) (ib_poll_cq cq').
Proof.
  intros w. unfold ib_poll_cq, live_cq. do 2 wp_step. wp_step_p. apply wp_from_option_p.
  intros c Hc. destruct (cq_polls c) as [|p ps] eqn:Hp; wp_steps.
  - by apply (drains_polls w cq cq' c [] []).
  - by apply (drains_polls w cq cq' c [p] ps).
Qed.
#[local] Hint Resolve drains_poll : within.

Lemma drains_cma cq id ev : within (drains cq) (krping_cma_event_handler id ev).
Proof. unfold krping_cma_event_handler. solve_within. Qed.
Lemma drains_complete cq cba wc : within (drains cq) (krping_complete cba wc).
Proof.
  unfold krping_complete, server_recv, client_recv, rdma_sg_length, count. solve_within.
Qed.
Lemma drains_cq_error cq cba : within (drains cq) (krping_cq_error cba).
Proof. unfold krping_cq_error. solve_within. Qed.
#[local] Hint Resolve drains_cma drains_complete drains_cq_error : within.
Lemma drains_cq_loop cq fuel cba : within (drains cq) (krping_cq_loop fuel cba).
Proof. induction fuel; cbn [krping_cq_loop]; solve_within. Qed.
#[local] Hint Resolve drains_cq_loop : within.
Lemma drains_cq_handler cq cq' cba : within (drains cq) (krping_cq_event_handler cq' cba).
Proof. unfold krping_cq_event_handler. solve_within. Qed.
Lemma drains_dma_write cq a l : within (drains cq) (krping_dma_write a l).
Proof.
  unfold krping_dma_write.
  assert (within (drains cq) (dma_write a l)).
  { unfold dma_write. apply within_modify. intros w. destruct (heap w !! a) as [[]|]; try by split.
    destruct (decide _); by split. }
  solve_within.
Qed.
#[local] Hint Resolve drains_cq_handler drains_dma_write : within.

(** An event brings at most the answers it has. *)
Definition delivered (cq : kptr) (e : async) (w w' : world) : Prop :=
  (S (polls_len w' cq) <= polls_len w cq + async_size e)%nat /\ sched w' = sched w.

Lemma drains_delivered cq e {A} (m : M A) w :
  within (drains cq) m -> wp Partial m (fun _ w' => delivered cq e w w') w.
Proof.
  intros Hm. eapply wp_mono; [apply Hm|]. intros _ w' [Hl Hs]. split; [|done].
  assert (1 <= async_size e)%nat by (destruct e; cbn; lia). lia.
Qed.

Lemma deliver_delivered cq e w :
  wp Partial (deliver e) (fun _ w' => delivered cq e w w') w.
Proof.
  unfold deliver, krping_delivery, krping_deliver.
  destruct e as [id ev|lst child|cq' ps|a l|].
  all: try (apply drains_delivered; unfold krping_deliver_cm; solve [solve_within]).
  do 2 wp_step. destruct (cqs w !! cq') as [c|] eqn:Hc.
  2: { wp_step. split; [cbn; lia|done]. }
  do 2 wp_step. eapply wp_mono; [apply (drains_cq_handler cq)|]. intros _ w' [Hl Hs].
  split; [|exact Hs]. unfold polls_len in *. unfold kpolls_of at 2 in Hl. wsimpl in Hl. cbn [async_size].
  destruct (decide (cq = cq')) as [->|Hne].
  - rewrite lookup_insert_eq in Hl. cbn [cq_polls] in Hl. rewrite length_app in Hl.
    unfold kpolls_of at 2. rewrite Hc. lia.
  - rewrite lookup_insert_ne in Hl by done. fold (kpolls_of w cq) in Hl. lia.
Qed.

(** What is left to take. *)
Definition flush_left (w : world) (cq : kptr) : nat :=
  (polls_len w cq + sum_list (async_size <$> sched w))%nat.

Lemma poll_takes cq w :
  wp Partial (ib_poll_cq cq) (fun p w' => heap w' = heap w /\ drains cq w w'
    /\ (p = PollEmpty \/ (S (polls_len w' cq) <= polls_len w cq)%nat)) w.
Proof.
  unfold ib_poll_cq, live_cq. do 2 wp_step. wp_step_p. apply wp_from_option_p.
  intros c Hc. destruct (cq_polls c) as [|p ps] eqn:Hp; wp_steps; (split; [done|split]).
  - by apply (drains_polls w cq cq c [] []).
  - by left.
  - by apply (drains_polls w cq cq c [p] ps).
  - right. unfold polls_len, kpolls_of. wsimpl. rewrite lookup_insert_eq, Hc, Hp. cbn. lia.
Qed.

Lemma flush_loop_fuel fuel1 fuel2 cba cb flushed w :
  heap w !! cba = Some (BKcb cb) -> no_conn_req w ->
  (flush_left w (kc_cq cb) < fuel1)%nat -> (flush_left w (kc_cq cb) < fuel2)%nat ->
  flush_loop fuel1 cba flushed w = flush_loop fuel2 cba flushed w.
Proof.
  revert fuel2 cb flushed w.
  induction fuel1 as [|fuel1 IH]; intros [|fuel2] cb flushed w Hcb Hn H1 H2; try lia.
  cbn [flush_loop]. erewrite !(bind_run (load cba)) by by apply load_run.
  apply bind_ext. intros p w1 Hr. pose proof (poll_takes (kc_cq cb) w) as Hp.
  unfold wp in Hp. rewrite Hr in Hp. destruct Hp as (Hh & [Hl Hs] & Htake). rewrite <- Hh in Hcb.
  assert (Hn1 : no_conn_req w1) by (unfold no_conn_req; by rewrite Hs).
  unfold flush_left in H1, H2. rewrite <- Hs in H1, H2. destruct p as [|e|wc]; [|done|].
  - apply bind_ext. intros l w1' [= <- <-]. destruct (sched w1) as [|e s] eqn:Hs1; [done|].
    set (w2 := set_sched s w1). cbn [fmap list_fmap sum_list_with id] in H1, H2.
    apply bind_ext. intros [] w2' [= <-]. fold w2. apply bind_ext. intros [] w3 Hr3.
    pose proof (deliver_delivered (kc_cq cb) e w2) as Hd.
    unfold no_conn_req in Hn1. rewrite Hs1 in Hn1. apply list.Forall_cons_1 in Hn1 as [He Hn2].
    pose proof (kkept_deliver w2 w2 e Hn2 He (kkept_refl w2)) as Hk. unfold wp in Hd, Hk.
    rewrite Hr3 in Hd, Hk. destruct Hd as [Hl3 Hs3]. change (sched w2) with s in Hs3.
    destruct (kk_core _ _ Hk cba cb Hcb) as (cb3 & Hcb3 & Hc3).
    pose proof (core_field kc_cq _ _ (fun _ => eq_refl) Hc3) as Ecq.
    apply (IH fuel2 cb3); [done|by eapply kkept_no_conn_req|..];
      unfold flush_left; rewrite Ecq, Hs3; change (polls_len w2) with (polls_len w1) in Hl3; lia.
  - destruct Htake as [|Htake]; [done|]. destruct (_ =? 2); [done|].
    apply (IH fuel2 cb); [done|done|..]; unfold flush_left; lia.
Qed.

(** The fuel of [flush_qp] is enough: any larger fuel gives the same. *)
Lemma flush_fuel_enough cba cb flushed fuel w :
  heap w !! cba = Some (BKcb cb) -> no_conn_req w -> (flush_fuel w (kc_cq cb) <= fuel)%nat ->
  flush_loop (flush_fuel w (kc_cq cb)) cba flushed w = flush_loop fuel cba flushed w.
Proof.
  intros Hcb Hn Hf.
  assert (flush_left w (kc_cq cb) < flush_fuel w (kc_cq cb))%nat.
  { unfold flush_left, flush_fuel, polls_len, kpolls_of. destruct (cqs w !! kc_cq cb); cbn; lia. }
  eapply flush_loop_fuel; [done|done|done|lia].
Qed.
End Flush.
