(* ===== verification/KrpingDoit.v ===== *)
(** * KrpingDoit: commands of the ping module ([bak/krping.c])

    [krping_doit] reads the options of a command into a new control block and
    runs the ping; [krping_write_proc] and [krping_read_proc] are the
    operations of [/proc/krping]. *)
From S2P Require Import Prelude Types KrpingTypes Kernel Logic ModEnv Getopt KrpingOpts KrpingEnv.
From S2P Require Import Verbs Wait Within KrpingFrame KrpingIo KrpingBufs KrpingPing KrpingRun KrpingClient.
Import Krping.

Section KrpingDoit.
Context {K : Kernel} {KK : KrpingKernel} {KS : KrpingServer} {E : ModuleEnv} {ST : Strtoul}.

Definition krping_doit_out (cba : addr) (ret : Z) : M Z :=
  mutex_lock;; list_del cba;; mutex_unlock;; kfree cba;; mret ret.

Definition krping_doit (cmd : addr) : M Z :=
  cba ← kzalloc zero_kcb;
  if cba =? NULL then mret (- ENOMEM) else
  mutex_lock;; list_add_tail cba;; mutex_unlock;;
  krping_new_cb cba;;
  buf ← load (T := list Z) cmd;
  v ← indeterminate;
  ret ← krping_options (S (length buf)) cmd cba (Some 0%nat) (u64 v) 0;
  if negb (ret =? 0) then krping_doit_out cba ret else
  cb ← load (T := krping_cb) cba;
  if kc_server cb =? -1 then krping_doit_out cba (- EINVAL) else
  if negb (kc_server cb =? 0) && negb (kc_frtest cb =? 0)
  then krping_doit_out cba (- EINVAL) else
  id ← rdma_create_id cba;
  update cba (set_kc_cm_id id);;
  if IS_ERR id then krping_doit_out cba (PTR_ERR id) else
  (if negb (kc_server cb =? 0) then kemit (KEvRunServer cba);; krping_run_server cba
   else krping_run_client cba);;
  cb ← load (T := krping_cb) cba;
  rdma_destroy_id (kc_cm_id cb);;
  krping_doit_out cba 0.

(** ** /proc/krping *)

(** A line of [krping_read_proc]: its number, the device and the counters. *)
Definition stats_list (s : krping_stats) : list Z :=
  [ps_send_bytes s; ps_send_msgs s; ps_recv_bytes s; ps_recv_msgs s;
   ps_write_bytes s; ps_write_msgs s; ps_read_bytes s; ps_read_msgs s].
Fixpoint read_lines (num : Z) (l : list addr) : M unit :=
  match l with
  | [] => mret tt
  | cba :: l =>
      cb ← load (T := krping_cb) cba;
      (if non_null (kc_pd cb) then
         dev ← pd_device (kc_pd cb);
         kemit (KEvSeqPrintf num (Some dev) (stats_list (kc_stats cb)))
       else kemit (KEvSeqPrintf num None []));;
      read_lines (num + 1) l
  end.

Definition krping_read_proc : M Z :=
  b ← module_get;
  if negb b then mret (- ENODEV) else
  mutex_lock;;
  l ← load (T := ping_list) kk_pings;
  read_lines 1 (pl_cbs l);;
  mutex_unlock;;
  module_put;;
  mret 0.

Definition krping_write_proc (buffer : addr) (count : Z) : M Z :=
  b ← module_get;
  if negb b then mret (- ENODEV) else
  cmd ← kmalloc count;
  if cmd =? NULL then mret (- ENOMEM) else
  c ← call (fun h => copy_from_user h buffer count)
           (fun c => EvModule "copy_from_user" (if c is Some _ then 0 else count));
  match c with
  | None => kfree cmd;; mret (- EFAULT)
  | Some c =>
      write_bytes cmd 0 c;;
      (if count =? 0 then fault OutOfBounds
       else write_bytes cmd (Z.to_nat (count - 1)) [0]);;
      rc ← krping_doit cmd;
      kfree cmd;;
      module_put;;
      if negb (rc =? 0) then mret rc else mret (i32 count)
  end.

Definition krping_init : M Z :=
  b ← call proc_create (fun b => EvModule "proc_create" (if b then 1 else 0));
  if negb b then mret (- ENOMEM) else mret 0.
Definition krping_exit : M unit := emit (EvModule "remove_proc_entry" 0).
End KrpingDoit.

(** ** What a command does *)

(** The control block before the options. *)
Definition new_ping : krping_cb :=
  set_kc_txdepth RPING_SQ_DEPTH (set_kc_size 64 (set_kc_state IDLE (set_kc_server (-1) zero_kcb))).

Section Commands.
Context {K : Kernel} {KK : KrpingKernel} {E : ModuleEnv} {ST : Strtoul}.

Lemma new_ping_typed : kcb_typed new_ping /\ kcb_limits new_ping.
Proof.
  split; [split|split]; try done; try (by left); by unfold in_u, in_i, RPING_BUFSIZE.
Qed.

(** The client part of [krping_doit], after the options. *)
Definition doit_client (cba : addr) : M Z :=
  id ← rdma_create_id cba;
  update cba (set_kc_cm_id id);;
  if IS_ERR id then krping_doit_out cba (PTR_ERR id) else
  krping_run_client cba;;
  cb ← load (T := krping_cb) cba;
  rdma_destroy_id (kc_cm_id cb);;
  krping_doit_out cba 0.

(** The state in which the options have been read. *)
Record opts_read (w : world) (cmd cba : addr) (l : list addr) (cb : krping_cb) (w1 : world)
    : Prop := {
  or_heap : exists buf buf', heap w !! cmd = Some (BBytes buf) /\ length buf' = length buf /\
    heap w1 = <[cba := BKcb cb]> (<[cmd := BBytes buf']>
      (<[kk_pings := BPings {| pl_locked := false; pl_cbs := l ++ [cba] |}]> (heap w)));
  or_objs : objs w1 = objs w;
  or_next : next w1 = next w + 1;
  or_sched : sched w1 = sched w;
  or_posts : posts w1 = posts w }.

(** The steps of [krping_doit] before the options. *)
Lemma wp_mutex_lock t w l (Q : unit -> world -> Prop) :
  heap w !! kk_pings = Some (BPings l) -> pl_locked l = false ->
  Q tt (log (EvKrping (KEvMutex true))
    (upd_heap (insert kk_pings (BPings (l <| pl_locked := true |>))) w)) ->
  wp t mutex_lock Q w.
Proof.
  intros Hl Hu HQ. unfold mutex_lock, kemit. wp_step. wp_step. rewrite Hu. wp_steps. exact HQ.
Qed.
Lemma wp_mutex_unlock t w l (Q : unit -> world -> Prop) :
  heap w !! kk_pings = Some (BPings l) ->
  Q tt (log (EvKrping (KEvMutex false))
    (upd_heap (insert kk_pings (BPings (l <| pl_locked := false |>))) w)) ->
  wp t mutex_unlock Q w.
Proof. intros Hl HQ. unfold mutex_unlock, kemit. wp_steps. exact HQ. Qed.

(** The list with the block, before its members are set. *)
Lemma wp_enlist t w l cba cb (Q : unit -> world -> Prop) :
  heap w !! kk_pings = Some (BPings {| pl_locked := false; pl_cbs := l |}) ->
  heap w !! cba = Some (BKcb cb) ->
  (forall w1, heap w1 = <[cba := BKcb (set_kc_txdepth RPING_SQ_DEPTH (set_kc_size 64
       (set_kc_state IDLE (set_kc_server (-1) cb))))]>
       (<[kk_pings := BPings {| pl_locked := false; pl_cbs := l ++ [cba] |}]> (heap w)) ->
     objs w1 = objs w -> next w1 = next w -> sched w1 = sched w -> Q tt w1) ->
  wp t (mutex_lock;; list_add_tail cba;; mutex_unlock;; krping_new_cb cba) Q w.
Proof.
  intros Hl Hcb HQ. assert (Hne : kk_pings <> cba) by congruence.
  wp_step. eapply wp_mutex_lock; [exact Hl|done|]. unfold list_add_tail, krping_new_cb.
  wp_step. wp_step. wp_step. eapply wp_mutex_unlock; [heap_lookup|].
  wp_steps. apply HQ; try done. wsimpl. cbn [pl_cbs pl_locked]. heap_ext.
Qed.

Lemma enlist_run cba w w1 (rest : M Z) :
  (mutex_lock;; list_add_tail cba;; mutex_unlock;; krping_new_cb cba) w = Ok tt w1 ->
  (mutex_lock;; list_add_tail cba;; mutex_unlock;; krping_new_cb cba;; rest) w = rest w1.
Proof.
  unfold mbind, M_bind. destruct (mutex_lock w) as [? w2| |]; try done.
  destruct (list_add_tail cba w2) as [? w3| |]; try done.
  destruct (mutex_unlock w3) as [? w4| |]; try done.
  destruct (krping_new_cb cba w4) as [? w5| |]; try done. by intros [= _ <-].
Qed.

Lemma posts_enlist cba :
  unchanged posts (mutex_lock;; list_add_tail cba;; mutex_unlock;; krping_new_cb cba).
Proof. unfold krping_new_cb. solve_within. Qed.

Context {SL : StrtoulLaws ST}.
Context (in4_length : forall s b, in4_pton s = Some b -> length b = 4%nat).

(** [krping_doit] up to the end of the options, whatever [krping_run_server] is. *)
Lemma doit_run w cmd buf s l :
  fresh_ok w -> heap w !! cmd = Some (BBytes buf) -> str_at buf 0 = Some s ->
  heap w !! kk_pings = Some (BPings {| pl_locked := false; pl_cbs := l |}) ->
  (k_kzalloc (trace w) (BKcb zero_kcb) = false /\
   forall KS : KrpingServer, krping_doit cmd w = Ok (- ENOMEM) (log (EvKzalloc NULL) w)) \/
  exists v x w1,
    apply_tokens cmd (tokens 0 s) {| oa_cb := new_ping; oa_optint := v; oa_ret := 0 |} = Some x
    /\ acc_typed x /\ opts_read w cmd (next w) l (oa_cb x) w1 /\
    forall KS : KrpingServer, krping_doit cmd w =
      (if negb (oa_ret x =? 0) then krping_doit_out (next w) (oa_ret x) else
       if kc_server (oa_cb x) =? -1 then krping_doit_out (next w) (- EINVAL)
       else doit_client (next w)) w1.
Proof.
  intros [Hpos Hfree] Hcmd Hs Hl. unfold krping_doit.
  destruct (k_kzalloc (trace w) (BKcb zero_kcb)) eqn:Ek.
  2: { left. split; [done|]. intros KS. unfold mbind, M_bind, kzalloc at 1. cbn [inj in_kcb]. by rewrite Ek. }
  right. set (cba := next w).
  set (w0 := log (EvKzalloc cba) (set_next (cba + 1) (upd_heap (insert cba (BKcb zero_kcb)) w))).
  assert (Hz : kzalloc zero_kcb w = Ok cba w0) by (unfold kzalloc; cbn [inj in_kcb]; by rewrite Ek).
  assert (Hn1 : cmd <> cba) by (intros ->; by rewrite Hfree in Hcmd).
  assert (Hn2 : kk_pings <> cba) by (intros Hc; rewrite Hc, Hfree in Hl; done).
  assert (Hn3 : kk_pings <> cmd) by congruence.
  destruct (wp_total_unit (mutex_lock;; list_add_tail cba;; mutex_unlock;; krping_new_cb cba)
    (fun _ w1 => heap w1 = <[cba := BKcb new_ping]> (<[kk_pings :=
       BPings {| pl_locked := false; pl_cbs := l ++ [cba] |}]> (heap w0))
     /\ objs w1 = objs w0 /\ next w1 = next w0 /\ sched w1 = sched w0) w0)
    as (w1 & He & Hh1 & Ho1 & Hx1 & Hs1).
  { eapply wp_enlist; [unfold w0; heap_lookup|unfold w0; heap_lookup|]. done. }
  set (v := u64 (k_stack (trace w1))). set (w2 := log (EvStack (k_stack (trace w1))) w1).
  set (x0 := {| oa_cb := new_ping; oa_optint := v; oa_ret := 0 |}).
  destruct new_ping_typed as [Ht Hlim].
  assert (Hcmd1 : heap w1 !! cmd = Some (BBytes buf)).
  { rewrite Hh1, !lookup_insert_ne by congruence. unfold w0. heap_lookup. }
  destruct (options_run in4_length cmd cba buf s x0 w2 Hn1 Hcmd1) as (x & buf' & Hr & Ha & Hx & Hb);
    [unfold w2; wsimpl; rewrite Hh1; apply lookup_insert_eq|done|by split; auto|].
  eexists v, x, _. split; [exact Ha|]. split; [exact Hx|]. split.
  2: { intros KS. erewrite bind_run by exact Hz. rewrite not_null by done. cbv iota.
       rewrite (enlist_run _ _ _ _ He). erewrite bind_run by (apply load_run; exact Hcmd1).
       erewrite bind_run by reflexivity. fold v w2. erewrite bind_run by exact Hr.
       destruct (negb (oa_ret x =? 0)); [done|].
       erewrite bind_run by (apply load_run; wsimpl; apply lookup_insert_eq).
       destruct (kc_server (oa_cb x) =? -1) eqn:Esv; [done|].
       destruct (kt_server _ (at_typed _ Hx)) as [E1|E1]; rewrite E1 in *; [done|]. reflexivity. }
  split; [|done|unfold w2; wsimpl; rewrite Hx1; done|done
    |exact (run_within _ _ _ _ _ (posts_enlist cba) He)].
  exists buf, buf'. split; [done|]. split; [done|]. unfold w2. wsimpl. rewrite Hh1. unfold w0.
  heap_ext.
Qed.

(** ** A command gives back what it has made *)

(** The resources of [w] are those of [w'] (of memory the blocks, with their kinds
    and lengths), the list of pings with them, and the DMA mappings if [dma]. *)
Record doit_done (dma : Prop) (w w' : world) : Prop := {
  dd_shapes : shapes w' = shapes w;
  dd_cms : cms w' = cms w;
  dd_ctxs : cq_ctxs w' = cq_ctxs w;
  dd_pds : pds w' = pds w;
  dd_qps : qps w' = qps w;
  dd_dmas : dma -> dmas w' = dmas w }.

(** The resources while a ping runs: its block and its place in the list. *)
Definition with_ping (cba : addr) (l : list addr) (h : gmap addr block) : gmap addr block :=
  <[cba := BKcb zero_kcb]> (<[kk_pings := BPings {| pl_locked := false; pl_cbs := l ++ [cba] |}]> h).

Lemma with_ping_undo cba l (h : gmap addr block) :
  h !! cba = None -> h !! kk_pings = Some (BPings {| pl_locked := false; pl_cbs := l |}) ->
  delete cba (<[kk_pings := BPings {| pl_locked := false; pl_cbs := l |}]> (with_ping cba l h)) = h.
Proof.
  intros Hc Hp. unfold with_ping. apply map_eq. intros k.
  repeat first [rewrite lookup_delete | rewrite lookup_insert]; repeat case_decide; subst; congruence.
Qed.

Lemma list_del_last cba l :
  cba ∉ l -> List.filter (fun b => negb (b =? cba)) (l ++ [cba]) = l.
Proof.
  intros Hn. rewrite List.filter_app. cbn [List.filter]. rewrite Z.eqb_refl. cbn [negb].
  rewrite app_nil_r. induction l as [|b l IH]; [done|]. cbn [List.filter].
  apply not_elem_of_cons in Hn as [Hb Hn]. rewrite (proj2 (Z.eqb_neq b cba)) by congruence.
  cbn [negb]. by rewrite IH.
Qed.

Lemma wp_doit_out t w1 cba l cb ret (Q : Z -> world -> Prop) :
  heap w1 !! kk_pings = Some (BPings {| pl_locked := false; pl_cbs := l ++ [cba] |}) ->
  heap w1 !! cba = Some (BKcb cb) -> cba ∉ l ->
  (forall w', heap w' = delete cba (<[kk_pings := BPings {| pl_locked := false; pl_cbs := l |}]>
       (heap w1)) -> objs w' = objs w1 -> Q ret w') ->
  wp t (krping_doit_out cba ret) Q w1.
Proof.
  intros Hp Hc Hn HQ. assert (Hne : kk_pings <> cba) by congruence. unfold krping_doit_out.
  wp_step. eapply wp_mutex_lock; [exact Hp|done|]. unfold list_del. wp_step. wp_step. wp_step.
  eapply wp_mutex_unlock; [heap_lookup|]. wp_steps. apply HQ; [|done].
  wsimpl. cbn [pl_cbs]. rewrite list_del_last by done. heap_ext.
Qed.

(** The end of a command: from a state with the resources of the start and
    the ping. *)
Lemma doit_out_done t dma w cba l w1 cb ret (Q : Z -> world -> Prop) :
  heap w !! cba = None ->
  heap w !! kk_pings = Some (BPings {| pl_locked := false; pl_cbs := l |}) -> cba ∉ l ->
  shapes w1 = with_ping cba l (shapes w) -> heap w1 !! cba = Some (BKcb cb) ->
  cms w1 = cms w -> cq_ctxs w1 = cq_ctxs w -> pds w1 = pds w -> qps w1 = qps w ->
  (dma -> dmas w1 = dmas w) ->
  (forall w', doit_done dma w w' -> Q ret w') ->
  wp t (krping_doit_out cba ret) Q w1.
Proof.
  intros Hc Hp Hn Hsh Hcb Em Ex Ep Eq Ed HQ.
  assert (Hne : kk_pings <> cba) by congruence.
  assert (Hp1 : heap w1 !! kk_pings = Some (BPings {| pl_locked := false; pl_cbs := l ++ [cba] |})).
  { apply (f_equal (fun m => m !! kk_pings)) in Hsh. unfold with_ping in Hsh.
    rewrite shapes_lookup, lookup_insert_ne, lookup_insert_eq in Hsh by congruence.
    destruct (heap w1 !! kk_pings) as [[]|]; try done. }
  eapply wp_doit_out; [done|done|done|]. intros w' Hh Ho.
  pose proof (objs_inv _ _ Ho) as (Om & Oq & Op & Oqp & Od & _). apply HQ. split; try congruence.
  - unfold shapes at 1. rewrite Hh, fmap_delete, fmap_insert. fold (shapes w1). rewrite Hsh.
    cbn [shape]. apply with_ping_undo; rewrite shapes_lookup, ?Hc, ?Hp; done.
  - rewrite <- Ex. unfold cq_ctxs. congruence.
  - intros Hd. rewrite Od. auto.
Qed.

(** ** The whole command *)

Context (Herr : forall h pd n e, kk_alloc_mr h pd n = inl e -> e <> 0).
Context (HK : error_codes K).

(** Where a command can be started: nothing else runs in the module, and the
    objects that the kernel makes are new. *)
Record command_ready (w : world) (l : list addr) : Prop := {
  cr_fresh : fresh_ok w;
  cr_events : no_conn_req w;
  cr_handles : new_handles K w;
  cr_ids : forall h c, cms w !! k_create_id h c = None;
  cr_list : heap w !! kk_pings = Some (BPings {| pl_locked := false; pl_cbs := l |});
  cr_new : next w ∉ l }.

Lemma opts_read_shapes w cmd cba l cb w1 :
  opts_read w cmd cba l cb w1 -> cmd <> kk_pings -> shapes w1 = with_ping cba l (shapes w).
Proof.
  intros [(buf & buf' & Hcmd & Hl & Hh) _ _ _ _] Hne. unfold shapes at 1. rewrite Hh, !fmap_insert.
  cbn [shape]. fold (shapes w). unfold with_ping. f_equal. apply insert_id.
  rewrite lookup_insert_ne, shapes_lookup, Hcmd by congruence. cbn. by rewrite Hl.
Qed.

(** What the client of a command finds: its id has been made and stored. *)
Definition with_id (cba : addr) (p : addr) (cb : krping_cb) (w1 : world) : world :=
  upd_heap (insert cba (BKcb (set_kc_cm_id (KPtr p) cb)))
    (upd_cms (insert (KPtr p) {| cm_context := cba; cm_qp := NULL |})
      (log (EvCreateId cba (KPtr p)) w1)).

Record client_started (w : world) (cba : addr) (l : list addr) (cb : krping_cb) (p : addr)
    (w2 : world) : Prop := {
  st_fresh : fresh_ok w2;
  st_events : no_conn_req w2;
  st_handles : new_handles K w2;
  st_cb : heap w2 !! cba = Some (BKcb (set_kc_cm_id (KPtr p) cb));
  st_shapes : shapes w2 = with_ping cba l (shapes w);
  st_cms : cms w2 = <[KPtr p := {| cm_context := cba; cm_qp := NULL |}]> (cms w);
  st_ctxs : cq_ctxs w2 = cq_ctxs w;
  st_rest : pds w2 = pds w /\ qps w2 = qps w /\ dmas w2 = dmas w }.

Lemma doit_client_started w cmd l cb w1 p :
  command_ready w l -> opts_read w cmd (next w) l cb w1 -> cmd <> kk_pings ->
  client_started w (next w) l cb p (with_id (next w) p cb w1).
Proof.
  intros [[Hpos Hfree] Hnc [F1 F2 F3] Hids Hl Hnl] Hor Hne.
  pose proof (opts_read_shapes _ _ _ _ _ _ Hor Hne) as Hsh.
  destruct Hor as [(buf & buf' & Hcmd & Hlen & Hh) Ho Hx Hs _].
  pose proof (objs_inv _ _ Ho) as (Om & Oq & Op & Oqp & Od & _).
  assert (Hcb1 : heap w1 !! next w = Some (BKcb cb)) by (rewrite Hh; apply lookup_insert_eq).
  unfold with_id. set (w2 := upd_heap _ _).
  assert (Hsh2 : shapes w2 = with_ping (next w) l (shapes w))
    by (rewrite <- Hsh; unfold shapes at 1, w2; wsimpl; by eapply shapes_kcb).
  split.
  - assert (Hn2 : next w2 = next w + 1) by exact Hx. split; [lia|]. intros a Ha.
    apply (fmap_None shape). rewrite <- shapes_lookup, Hsh2. unfold with_ping.
    rewrite !lookup_insert_ne, shapes_lookup, Hfree; try done; try lia.
    intros Ek. rewrite Ek, Hfree in Hl by lia. done.
  - unfold no_conn_req, w2. wsimpl. by rewrite Hs.
  - by split; unfold w2; wsimpl; rewrite ?Oq, ?Op, ?Oqp.
  - apply lookup_insert_eq.
  - done.
  - unfold w2. wsimpl. by rewrite Om.
  - unfold cq_ctxs, w2. wsimpl. by rewrite Oq.
  - done.
Qed.

Lemma ping_no_buffers p cb :
  opt_rest cb = opt_rest new_ping -> no_buffers (set_kc_cm_id (KPtr p) cb).
Proof.
  intros Hrest.
  split; [exact (rest_field kc_dma_mr _ _ (fun _ => eq_refl) Hrest)
    |exact (rest_field kc_rdma_mr _ _ (fun _ => eq_refl) Hrest)
    |exact (rest_field kc_start_mr _ _ (fun _ => eq_refl) Hrest)
    |exact (rest_field kc_reg_mr _ _ (fun _ => eq_refl) Hrest)
    |exact (rest_field kc_rdma_buf _ _ (fun _ => eq_refl) Hrest)
    |exact (rest_field kc_start_buf _ _ (fun _ => eq_refl) Hrest)].
Qed.

(** The end of [krping_doit] after the client has released what it made. *)
Definition doit_client_end (cba : addr) : M Z :=
  cb ← load (T := krping_cb) cba;
  rdma_destroy_id (kc_cm_id cb);;
  krping_doit_out cba 0.

Lemma client_end_done t dma w l cb p w2 w3 (Q : Z -> world -> Prop) :
  command_ready w l -> cms w !! KPtr p = None -> client_started w (next w) l cb p w2 ->
  released dma w2 (next w) (KPtr p) w3 -> (forall w', doit_done dma w w' -> Q 0 w') ->
  wp t (doit_client_end (next w)) Q w3.
Proof.
  intros [[Hpos Hfree] _ _ _ Hl Hnl] Hnew [_ _ _ _ Hsh Hcm Hx (Hp & Hq & Hd)]
    [R1 [R2 [i3 R3]] R4 R5 R6 R7 (cb3 & Hcb3 & R8)] HQ.
  unfold doit_client_end. wp_step. eapply wp_load; [exact Hcb3|].
  unfold rdma_destroy_id, cm_id. rewrite R8. wp_steps.
  eapply (doit_out_done t dma w (next w) l _ cb3); try done.
  - apply Hfree. lia.
  - change (shapes (upd_cms _ _)) with (shapes w3). by rewrite R1, Hsh.
  - wsimpl. rewrite R2, Hcm, delete_insert_eq. by apply delete_id.
  - change (cq_ctxs (upd_cms _ _)) with (cq_ctxs w3). by rewrite R4, Hx.
  - wsimpl. by rewrite R5.
  - wsimpl. by rewrite R6.
  - intros Hdm. wsimpl. by rewrite (R7 Hdm).
Qed.

Lemma doit_client_done w cmd l cb w1 :
  command_ready w l -> opts_read w cmd (next w) l cb w1 -> cmd <> kk_pings ->
  opt_rest cb = opt_rest new_ping -> kc_server cb = 0 ->
  wp Partial (doit_client (next w)) (fun ret w' => doit_done (buffers_available KK /\ mappings_valid K) w w'
    /\ (ret = 0 \/ exists h c, k_create_id h c = KErr ret)) w1.
Proof.
  intros Hw Hor Hne Hrest Hsv. pose proof Hw as [[Hpos Hfree] _ _ Hids Hl Hnl].
  pose proof (opts_read_shapes _ _ _ _ _ _ Hor Hne) as Hsh.
  pose proof Hor as [(buf & buf' & _ & _ & Hh) Ho _ _ _].
  pose proof (objs_inv _ _ Ho) as (Om & Oq & Op & Oqp & Od & _).
  assert (Hcb1 : heap w1 !! next w = Some (BKcb cb)) by (rewrite Hh; apply lookup_insert_eq).
  unfold doit_client, rdma_create_id. wp_step. wp_step. wp_step. set (id := k_create_id _ _).
  assert (Hid : exists h c, k_create_id h c = id) by by do 2 eexists.
  assert (Hnew : cms w !! id = None) by apply Hids.
  destruct id as [p|e]; cbn [IS_ERR PTR_ERR].
  2: { do 5 wp_step. set (w2 := upd_heap _ _). cbn [PTR_ERR].
       eapply (doit_out_done Partial (buffers_available KK /\ mappings_valid K) w (next w) l w2); try done.
       - apply Hfree. lia.
       - rewrite <- Hsh. unfold shapes at 1, w2. wsimpl. by eapply shapes_kcb.
       - unfold w2. wsimpl. apply lookup_insert_eq.
       - by unfold cq_ctxs, w2; wsimpl; rewrite Oq.
       - intros w' Hd. split; [done|]. by right. }
  do 5 wp_step. cbn [IS_ERR].
  pose proof (doit_client_started w cmd l cb w1 p Hw Hor Hne) as Hst.
  wp_step. eapply wp_mono.
  { apply (wp_krping_run_client Herr HK _ (next w) (set_kc_cm_id (KPtr p) cb)
      {| cm_context := next w; cm_qp := NULL |}); try apply Hst; try done.
    - by apply ping_no_buffers.
    - wsimpl. apply lookup_insert_eq. }
  intros [] w3 Hrel. change (wp Partial (doit_client_end (next w)) (fun ret w' =>
    doit_done (buffers_available KK /\ mappings_valid K) w w' /\ (ret = 0 \/ exists h c, k_create_id h c = KErr ret)) w3).
  eapply client_end_done; [done|exact Hnew|exact Hst|exact Hrel|].
  intros w' Hd. split; [done|by left].
Qed.

(** C15. A command gives back what it has made: whatever its text, whichever
    calls to the kernel fail and whatever events and messages come, when
    [krping_doit] returns, the blocks of memory are those of before with their
    kinds and lengths (the text of the command and the data in buffers may have
    changed), and the list of pings, the ids and the verbs objects are as
    before.  The DMA mappings are as before if no allocation of a buffer or
    region and no mapping fails; if one fails they need not be
    ([setup_buffers_bail_leaks]).  It returns 0, an error of [rdma_create_id],
    [-ENOMEM], [-EINVAL] or [EINVAL].  What is asked of the kernel: new ids and
    objects are new, error pointers carry error codes, no connection request
    comes (nobody listens), and [simple_strtoul] and [in4_pton] keep to their
    documentation. *)
Theorem krping_doit_releases {KS : KrpingServer} w cmd buf s l ret w' :
  command_ready w l -> heap w !! cmd = Some (BBytes buf) -> str_at buf 0 = Some s ->
  krping_doit cmd w = Ok ret w' ->
  doit_done (buffers_available KK /\ mappings_valid K) w w'
  /\ (In ret [0; - ENOMEM; - EINVAL; EINVAL] \/ exists h c, k_create_id h c = KErr ret).
Proof.
  intros Hw Hcmd Hs Hrun. pose proof Hw as [[Hpos Hfree] _ _ _ Hl Hnl].
  assert (Hne : cmd <> kk_pings) by congruence.
  destruct (doit_run w cmd buf s l (cr_fresh _ _ Hw) Hcmd Hs Hl)
    as [[Hk He]|(v & x & w1 & Ha & Hx & Hor & He)]; specialize (He KS); rewrite He in Hrun.
  { injection Hrun as <- <-. split; [by split|]. left. cbn. tauto. }
  pose proof (apply_tokens_rest _ _ _ _ Ha) as Hrest.
  pose proof (opts_read_shapes _ _ _ _ _ _ Hor Hne) as Hsh.
  assert (Hout : forall r Q, (forall w', doit_done (buffers_available KK /\ mappings_valid K) w w' -> Q r w') ->
    wp Partial (krping_doit_out (next w) r) Q w1).
  { intros r Q HQ. pose proof Hor as [(b & b' & _ & _ & Hh) Ho _ _ _].
    pose proof (objs_inv _ _ Ho) as (? & Oq & ? & ? & Od & _).
    eapply (doit_out_done Partial (buffers_available KK /\ mappings_valid K) w (next w) l w1); try done.
    - apply Hfree. lia.
    - rewrite Hh. apply lookup_insert_eq.
    - unfold cq_ctxs. by rewrite Oq. }
  refine (wp_run (t := Partial) _ (fun ret w' => doit_done (buffers_available KK /\ mappings_valid K) w w'
    /\ (In ret [0; - ENOMEM; - EINVAL; EINVAL] \/ exists h c, k_create_id h c = KErr ret))
    _ _ _ _ Hrun).
  destruct (Z.eqb_spec (oa_ret x) 0) as [Hz|Hnz]; cbn [negb].
  2: { apply Hout. intros w2 Hd. split; [done|]. left.
       destruct (at_ret _ Hx) as [?|[-> | ->]]; cbn; tauto. }
  destruct (kt_server _ (at_typed _ Hx)) as [Esv|Esv]; rewrite Esv.
  { apply Hout. intros w2 Hd. split; [done|]. left. cbn. tauto. }
  change (0 =? -1) with false. cbv iota.
  eapply wp_mono; [by apply (doit_client_done w cmd l (oa_cb x) w1)|].
  intros r w2 [Hd Hr]. split; [done|]. destruct Hr as [-> |Hr]; [left; cbn; tauto|by right].
Qed.

(** No command reaches [krping_run_server], which is called but not defined:
    what [krping_doit] does is the same for any two definitions of it. *)
Theorem krping_doit_no_server (KS1 KS2 : KrpingServer) w cmd buf s l :
  command_ready w l -> heap w !! cmd = Some (BBytes buf) -> str_at buf 0 = Some s ->
  krping_doit (KS := KS1) cmd w = krping_doit (KS := KS2) cmd w.
Proof.
  intros [Hf _ _ _ Hl _] Hcmd Hs.
  destruct (doit_run w cmd buf s l Hf Hcmd Hs Hl) as [[Hk He]|(v & x & w1 & _ & _ & _ & He)];
    by rewrite (He KS1), (He KS2).
Qed.

(** ** Reports to user space *)

(** The text of a command once [krping_write_proc] has ended it. *)
Definition ended (c : list Z) : list Z := <[(length c - 1)%nat := 0]> c.

Lemma c_chars_nonempty l s : c_chars l = Some s -> (0 < length l)%nat.
Proof. destruct l; [done|cbn; lia]. Qed.

(** A command whose options fail. *)
Lemma wp_doit_option_error {KS : KrpingServer} t w cmd buf s l ret (Q : Z -> world -> Prop) :
  command_ready w l -> heap w !! cmd = Some (BBytes buf) -> str_at buf 0 = Some s ->
  (forall h b, k_kzalloc h b = true) -> ret <> 0 ->
  (forall v x, apply_tokens cmd (tokens 0 s)
     {| oa_cb := new_ping; oa_optint := v; oa_ret := 0 |} = Some x -> oa_ret x = ret) ->
  (forall w', (exists buf', heap w' !! cmd = Some (BBytes buf')) -> Q ret w') ->
  wp t (krping_doit cmd) Q w.
Proof.
  intros Hw Hcmd Hs Hk Hret Hopts HQ. pose proof Hw as [[Hpos Hfree] _ _ _ Hl Hnl].
  destruct (doit_run w cmd buf s l (cr_fresh _ _ Hw) Hcmd Hs Hl)
    as [[He _]|(v & x & w1 & Ha & Hx & Hor & He)]; [by rewrite Hk in He|].
  rewrite (Hopts _ _ Ha), (proj2 (Z.eqb_neq ret 0)) in He by done. cbn [negb] in He.
  unfold wp. rewrite (He KS). fold (wp t (krping_doit_out (next w) ret) Q w1).
  destruct Hor as [(b & b' & _ & _ & Hh) _ _ _].
  assert (Hn : cmd <> next w) by (intros ->; by rewrite Hfree in Hcmd).
  assert (Hn2 : kk_pings <> next w) by (intros E1; rewrite E1, Hfree in Hl; done).
  eapply wp_doit_out; [rewrite Hh| |done|].
  - rewrite !lookup_insert_ne by congruence. apply lookup_insert_eq.
  - rewrite Hh. apply lookup_insert_eq.
  - intros w' Hh' _. apply HQ. exists b'. rewrite Hh', Hh. heap_lookup.
Qed.

(** The error of the options is what the writer is told: a command whose
    options end with [ret] nonzero makes [krping_write_proc] return [ret]. As
    a size or a count out of range gives [EINVAL] and not [-EINVAL], the writer
    is then told that 22 bytes have been written. *)
Theorem krping_write_proc_option_error {KS : KrpingServer} w buffer c s l ret :
  command_ready w l -> next w + 1 ∉ l -> (forall h b, k_kzalloc h b = true) ->
  (forall h, try_module_get h = true) ->
  (forall h, copy_from_user h buffer (Z.of_nat (length c)) = Some c) ->
  c_chars (ended c) = Some s -> ret <> 0 ->
  (forall cmd v x, apply_tokens cmd (tokens 0 s)
     {| oa_cb := new_ping; oa_optint := v; oa_ret := 0 |} = Some x -> oa_ret x = ret) ->
  exists w', krping_write_proc buffer (Z.of_nat (length c)) w = Ok ret w'.
Proof.
  intros Hw Hnl2 Hk Hget Hcopy Hs Hret Hopts. pose proof Hw as [[Hpos Hfree] _ _ _ Hl Hnl].
  enough (wp Total (krping_write_proc buffer (Z.of_nat (length c)))
    (fun r _ => r = ret) w) as (r & w' & Hr & ->)%wp_total_run by by exists w'.
  pose proof (c_chars_nonempty _ _ Hs) as Hlen. unfold ended in Hlen.
  rewrite length_insert in Hlen.
  unfold krping_write_proc, module_get, kmalloc, kzalloc_size. wp_step. wp_step. rewrite Hget.
  cbn [negb]. wp_step. wp_step. wp_step. wp_step. rewrite (proj2 (Z.ltb_ge _ 0)) by lia.
  rewrite Nat2Z.id. apply wp_kzalloc; [intros _|by rewrite Hk]. wsimpl. rewrite not_null by done.
  wp_step. wp_step. rewrite Hcopy. set (cmd := next w).
  wp_step. eapply wp_write_bytes;
    [wsimpl; apply lookup_insert_eq|apply write_at_Some; rewrite length_le_bytes; lia|].
  rewrite take_0, drop_ge, app_nil_r by (rewrite length_le_bytes; lia). cbn [app].
  rewrite (proj2 (Z.eqb_neq _ 0)) by lia.
  wp_step. eapply wp_write_bytes; [wsimpl; apply lookup_insert_eq|apply write_at_Some; cbn; lia|].
  replace (take _ c ++ _) with (ended c).
  2: { unfold ended. rewrite insert_take_drop by lia.
       replace (Z.to_nat (Z.of_nat (length c) - 1)) with (length c - 1)%nat by lia.
       do 3 f_equal. cbn. lia. }
  wp_step. set (w1 := upd_heap _ _).
  assert (Hn : kk_pings <> cmd) by (intros E1; rewrite E1, Hfree in Hl by (unfold cmd; lia); done).
  assert (Hh1 : forall a, a <> cmd -> heap w1 !! a = heap w !! a)
    by (intros a Ha; unfold w1; wsimpl; by rewrite !lookup_insert_ne).
  assert (Hc1 : heap w1 !! cmd = Some (BBytes (ended c))) by apply lookup_insert_eq.
  assert (Hw1 : command_ready w1 l).
  { destruct Hw as [_ C2 [F1 F2 F3] C4 _ _]. split; try done.
    - split; [change (0 < next w + 1); lia|]. intros a Ha. change (next w + 1 <= a) in Ha.
      rewrite Hh1 by (unfold cmd; lia). apply Hfree. lia.
    - by rewrite Hh1. }
  eapply (wp_doit_option_error Total w1 cmd (ended c) s l ret); [done..|apply Hopts|].
  intros w2 [buf' Hb]. wp_step. eapply wp_kfree; [exact Hb|]. unfold module_put.
  do 2 wp_step. rewrite (proj2 (Z.eqb_neq ret 0)) by done. cbn [negb]. by wp_step.
Qed.

End Commands.

Section Reading.
Context {K : Kernel} {KK : KrpingKernel} {E : ModuleEnv}.

(** Reading [/proc/krping] during the end of a ping uses a freed object: the
    block is on the list until [krping_doit] returns, and its [pd] still points
    to the protection domain that [krping_free_qp] has deallocated. *)
Theorem krping_read_proc_freed_pd w cba cb l w' :
  heap w !! cba = Some (BKcb cb) -> kc_pd cb <> KPtr NULL ->
  heap w !! kk_pings = Some (BPings {| pl_locked := false; pl_cbs := cba :: l |}) ->
  (forall h, try_module_get h = true) ->
  krping_free_qp cba w = Ok tt w' ->
  krping_read_proc w' = Undef (BadHandle (kc_pd cb)).
Proof.
  intros Hcb Hpd Hl Hget Hrun.
  assert (Hf : heap w' = heap w /\ kc_pd cb ∉ pds w').
  { refine (wp_run (t := Partial) _ (fun _ w' => heap w' = heap w /\ kc_pd cb ∉ pds w')
      _ _ _ _ Hrun).
    unfold krping_free_qp. wp_step. wp_step. unfold ib_destroy_qp, ib_destroy_cq, ib_dealloc_pd, live_cq.
    wp_steps_p. wsimpl. split; [done|set_solver]. }
  destruct Hf as [Hh Hdead]. rewrite <- Hh in Hcb, Hl. set (w1 := log (EvModule "try_module_get" 1) w').
  set (p := {| pl_locked := true; pl_cbs := cba :: l |}).
  set (w2 := log (EvKrping (KEvMutex true)) (upd_heap (insert kk_pings (BPings p)) w1)).
  assert (Hn : kk_pings <> cba) by congruence.
  assert (Hlk : mutex_lock w1 = Ok tt w2).
  { destruct (wp_total_unit mutex_lock (fun _ w => w = w2) w1) as (v & Hv & ->); [|done].
    by eapply wp_mutex_lock. }
  unfold krping_read_proc. erewrite bind_run by (unfold module_get, call; by rewrite Hget).
  cbn [negb]. fold w1. erewrite bind_run by exact Hlk.
  erewrite bind_run by (apply load_run; apply lookup_insert_eq).
  apply bind_undef. cbn [read_lines pl_cbs p].
  erewrite bind_run by (apply load_run; unfold w2, w1; heap_lookup).
  apply bind_undef. unfold non_null. rewrite bool_decide_eq_false_2 by done. cbn [negb].
  apply bind_undef. unfold pd_device. apply bind_undef. unfold live_pd.
  erewrite bind_run by reflexivity. by rewrite bool_decide_eq_false_2.
Qed.
End Reading.
