(* ===== verification/KrpingCommand.v ===== *)
(** * KrpingCommand: a ping command from end to end ([bak/krping.c])

    From the text of a command to the return of [krping_doit]: options that ask
    for a client, services that succeed and a peer that answers. *)
From stdpp Require Import gmultiset.
From S2P Require Import Prelude Types KrpingTypes Kernel Logic Verbs Wait Within ModEnv Getopt.
From S2P Require Import KrpingOpts KrpingEnv KrpingFrame KrpingIo KrpingBufs KrpingPing.
From S2P Require Import KrpingProto KrpingRun KrpingClient KrpingDoit.
Import Krping.

Section Command.
Context {K : Kernel} {KK : KrpingKernel} {E : ModuleEnv} {ST : Strtoul} {SL : StrtoulLaws ST}.
Context (in4_length : forall s b, in4_pton s = Some b -> length b = 4%nat).
Context (HK : client_kernel K KK).

(** What the options of a client set. *)
Record client_options (cb : krping_cb) (n : nat) : Prop := {
  co_server : kc_server cb = 0;
  co_ipv4 : kc_addr_type cb = AF_INET;
  co_size : 64 <= kc_size cb;
  co_count : kc_count cb = Z.of_nat n;
  co_pos : (0 < n)%nat }.

Lemma ping_new_client p cb n :
  opt_rest cb = opt_rest new_ping -> kcb_typed cb -> kcb_limits cb -> client_options cb n ->
  new_client (set_kc_cm_id (KPtr p) cb).
Proof.
  intros Hrest [Ha _ _ _ _ _] [[_ Hsz] _] [Hsv H4 Hs _ _]. split; try done.
  - exact (rest_field kc_state _ _ (fun _ => eq_refl) Hrest).
  - by apply ping_no_buffers.
  - exact (rest_field kc_rq_wr _ _ (fun _ => eq_refl) Hrest).
  - exact (rest_field kc_sq_wr _ _ (fun _ => eq_refl) Hrest).
  - exact (rest_field kc_invalidate_wr _ _ (fun _ => eq_refl) Hrest).
  - exact (rest_field kc_reg_mr_wr _ _ (fun _ => eq_refl) Hrest).
  - exact (rest_field kc_server_invalidate _ _ (fun _ => eq_refl) Hrest).
  - exact (rest_field kc_frtest _ _ (fun _ => eq_refl) Hrest).
  - change (in_u 8 (kc_key cb)). rewrite (rest_field kc_key _ _ (fun _ => eq_refl) Hrest).
    unfold in_u. cbn. lia.
Qed.

Lemma posts_doit_client_end cba : unchanged posts_sched (doit_client_end cba).
Proof.
  unfold doit_client_end, krping_doit_out. solve_within.
Qed.

(** What a command of [n] pings posts, with the answers [b] to its set-up; its
    block is at [a]. *)
Definition command_posts (a : addr) (b : buf_answers) (n : nat) : list (list posted) :=
  let cb := buffers_cb (a + 1) b new_ping in
  pings_sent (src_access cb) (snk_access cb) n cb 0 (ba_mr b).

(** The schedule of a successful command. *)
Record command_events (w : world) (p : addr) (n : nat) (s : list async) : Prop := {
  ce_id : forall h, k_create_id h (next w) = KPtr p;
  ce_events : exists cq l, (forall h d, k_create_cq h d (next w) = cq)
    /\ sched w = client_up (KPtr p) ++ l ++ s /\ length l = (2 * n)%nat
    /\ Forall (answer cq) l }.

Lemma doit_client_completes w cmd l cb w1 p n s :
  command_ready w l -> opts_read w cmd (next w) l cb w1 -> cmd <> kk_pings ->
  opt_rest cb = opt_rest new_ping -> kcb_typed cb -> kcb_limits cb -> client_options cb n ->
  command_events w p n s ->
  exists w' b, doit_client (next w) w1 = Ok 0 w' /\ doit_done True w w' /\ sched w' = s
    /\ sent (trace w') = command_posts (next w) b n ++ sent (trace w).
Proof.
  intros Hw Hor Hne Hrest Ht Hlim Hco [Hid (cq & ans & Hcq & Hs & Hl & Ha)].
  pose proof (doit_client_started w cmd l cb w1 p Hw Hor Hne) as Hst.
  pose proof Hor as [(buf & buf' & _ & _ & Hh) _ Hx1 Hs1 Hp1].
  set (w2 := with_id (next w) p cb w1) in *.
  destruct (krping_run_client_completes HK w2 (next w) (set_kc_cm_id (KPtr p) cb)
    {| cm_context := next w; cm_qp := NULL |} cq ans s n) as (w3 & b & R3 & Hrel & Hs3 & Hsent);
    [by eapply ping_new_client|apply Hst|apply Hst|apply Hst|apply Hst
    |rewrite (st_cms _ _ _ _ _ _ Hst); apply lookup_insert_eq|done|done|apply Hco|..].
  { change (kc_count (set_kc_cm_id (KPtr p) cb)) with (kc_count cb).
    rewrite (co_count _ _ Hco). pose proof (kt_count _ Ht) as Hc. unfold in_i in Hc.
    rewrite (co_count _ _ Hco) in Hc. pose proof (co_pos _ _ Hco). lia. }
  { unfold w2, with_id. wsimpl. by rewrite Hs1, Hs. }
  { done. }
  { done. }
  assert (Hnew : cms w !! KPtr p = None) by (rewrite <- (Hid []); apply Hw).
  destruct (wp_total_run _ _ _ (client_end_done Total True w l cb p w2 w3
    (fun r w' => r = 0 /\ doit_done True w w') Hw Hnew Hst Hrel (fun w' H => conj eq_refl H)))
    as (r & w' & R' & -> & Hd).
  pose proof (run_within _ _ _ _ _ (posts_doit_client_end (next w)) R') as [= E1 E2].
  exists w', b. split; [|split; [exact Hd|]].
  - unfold doit_client.
    assert (Hc : rdma_create_id (next w) w1 = Ok (KPtr p)
      (upd_cms (insert (KPtr p) {| cm_context := next w; cm_qp := NULL |})
        (log (EvCreateId (next w) (KPtr p)) w1))).
    { unfold rdma_create_id, call, mbind, M_bind. by rewrite Hid. }
    erewrite bind_run by exact Hc.
    assert (Hu : update (next w) (set_kc_cm_id (KPtr p)) (upd_cms (insert (KPtr p)
      {| cm_context := next w; cm_qp := NULL |}) (log (EvCreateId (next w) (KPtr p)) w1))
      = Ok tt w2).
    { unfold update. erewrite bind_run by (apply load_run; wsimpl; rewrite Hh; apply lookup_insert_eq).
      unfold store, peek. wsimpl. rewrite Hh, lookup_insert_eq. done. }
    erewrite bind_run by exact Hu. cbn [IS_ERR]. erewrite bind_run by exact R3. exact R'.
  - split; [by rewrite E2|]. rewrite E1, Hsent. unfold posts in Hp1.
    assert (En : next w2 = next w + 1) by exact Hx1. cbv zeta.
    change (sent (trace w2)) with (sent (trace w1)). rewrite Hp1, En.
    change (kc_key (set_kc_cm_id (KPtr p) cb)) with (kc_key cb).
    rewrite (rest_field kc_key _ _ (fun _ => eq_refl) Hrest).
    unfold command_posts. f_equal. by apply pings_sent_ext.
Qed.

(** C4. A command from end to end.  The text of options that ask for an IPv4
    client of [n > 0] pings of 64 bytes or more, given to [krping_doit] with services that succeed and a peer
    that answers, makes it return 0: the pings have been posted, exactly the
    events of the connection and the answers have been taken, and everything
    that was made has been given back. *)
Theorem krping_doit_completes {KS : KrpingServer} w cmd o opts l p n s :
  command_ready w l -> (forall h b, k_kzalloc h b = true) ->
  heap w !! cmd = Some (BBytes (print_opts o opts ++ [0])) -> Forall opt_good (o :: opts) ->
  client_options (fold_left set_opt (o :: opts) (no_str new_ping)) n ->
  command_events w p n s ->
  exists w' b, krping_doit cmd w = Ok 0 w' /\ doit_done True w w' /\ sched w' = s
    /\ sent (trace w') = command_posts (next w) b n ++ sent (trace w).
Proof.
  intros Hw Hk Hcmd Hg Hco Hev.
  assert (Hs : str_at (print_opts o opts ++ [0]) 0 = Some (print_opts o opts))
    by (apply c_chars_app; by apply plain_prints).
  destruct (doit_run in4_length w cmd _ _ l (cr_fresh _ _ Hw) Hcmd Hs (cr_list _ _ Hw))
    as [[Hk' _]|(v & x & w1 & Ha & Hx & Hor & He)]; [by rewrite Hk in Hk'|].
  destruct (print_opts_tokens in4_length cmd 0 o opts
    {| oa_cb := new_ping; oa_optint := v; oa_ret := 0 |} Hg) as (x' & Ha' & Hr & Hf); [done|].
  rewrite Ha in Ha'. injection Ha' as <-. cbn [oa_ret oa_cb] in *.
  assert (Hc : client_options (oa_cb x) n) by (rewrite <- Hf in Hco; by destruct Hco).
  destruct (doit_client_completes w cmd l (oa_cb x) w1 p n s) as (w' & b & R & Hd & Hrest);
    try done.
  - intros ->. pose proof (cr_list _ _ Hw) as Hl. congruence.
  - exact (apply_tokens_rest _ _ _ _ Ha).
  - apply Hx.
  - by apply (at_limits _ Hx).
  - exists w', b. split; [|done]. rewrite He, Hr. change (negb (0 =? 0)) with false. cbv iota.
    rewrite (co_server _ _ Hc). exact R.
Qed.
End Command.
