(* ===== verification/Bitmap.v ===== *)
(** * Bitmap: [bitmap.c]

    The array of four [char] flags that records which message buffers are in
    use.  An access outside the array the pointer designates has no result
    ([None]). *)
From S2P Require Import Prelude.

Definition BIT_ARR_SIZE : nat := 4.

(** The loop of [bit_array_find_first_clear_bit] from index [i], with [n]
    rounds left: the value returned and the final value of [*result]. *)
Fixpoint find_clear_loop (n : nat) (i : nat) (bitarr : list Z) (result : Z)
    : option (Z * Z) :=
  match n with
  | O => Some (0, result)
  | S n =>
      match bitarr !! i with
      | None => None
      | Some b => if b =? 0 then Some (1, Z.of_nat i)
                  else find_clear_loop n (S i) bitarr result
      end
  end.

Definition bit_array_find_first_clear_bit (bitarr : list Z) (result : Z)
    : option (Z * Z) :=
  find_clear_loop BIT_ARR_SIZE 0 bitarr result.

Definition bit_array_put (bitarr : list Z) (b v : Z) : option (list Z) :=
  if (0 <=? b) && (b <? Z.of_nat BIT_ARR_SIZE) then
    match bitarr !! Z.to_nat b with
    | None => None
    | Some _ => Some (<[Z.to_nat b := v]> bitarr)
    end
  else Some bitarr.

Definition bit_array_set_bit (bitarr : list Z) (b : Z) : option (list Z) :=
  bit_array_put bitarr b 1.
Definition bit_array_clear_bit (bitarr : list Z) (b : Z) : option (list Z) :=
  bit_array_put bitarr b 0.

(** ** Specification: the set of free indices *)

Definition free_bits (bitarr : list Z) : gset nat :=
  list_to_set (filter (fun i => bitarr !! i = Some 0) (seq 0 BIT_ARR_SIZE)).

(** [i] is the least index in [s]. *)
Definition is_least (i : nat) (s : gset nat) : Prop :=
  i ∈ s /\ forall j, j ∈ s -> (i <= j)%nat.

Lemma elem_of_free_bits l i :
  i ∈ free_bits l <-> (i < BIT_ARR_SIZE)%nat /\ l !! i = Some 0.
Proof.
  unfold free_bits. rewrite elem_of_list_to_set, list_elem_of_filter, elem_of_seq.
  naive_solver lia.
Qed.

Lemma find_clear_loop_spec n i l r :
  (i + n <= length l)%nat ->
  (exists j, find_clear_loop n i l r = Some (1, Z.of_nat j)
     /\ (i <= j < i + n)%nat /\ l !! j = Some 0
     /\ forall k, (i <= k < j)%nat -> l !! k <> Some 0)
  \/ (find_clear_loop n i l r = Some (0, r)
     /\ forall k, (i <= k < i + n)%nat -> l !! k <> Some 0).
Proof.
  revert i. induction n as [|n IH]; intros i Hlen; cbn [find_clear_loop].
  - right. split; [done|]. lia.
  - destruct (lookup_lt_is_Some_2 l i) as [b Hb]; [lia|]. rewrite Hb.
    destruct (Z.eqb_spec b 0) as [->|Hb0].
    + left. exists i. repeat split; [lia..|done|]. lia.
    + destruct (IH (S i)) as [(j & Hj & ? & ? & Hlt)|[Hj Hall]]; [lia|left|right].
      * exists j. repeat split; [done|lia..|done|]. intros k Hk.
        destruct (decide (k = i)) as [->|]; [congruence|apply Hlt; lia].
      * split; [done|]. intros k Hk.
        destruct (decide (k = i)) as [->|]; [congruence|apply Hall; lia].
Qed.

(** The search returns the least free index, or 0 and leaves [*result]. *)
Lemma find_first_clear_bit_cases l r :
  length l = BIT_ARR_SIZE ->
  (exists i, bit_array_find_first_clear_bit l r = Some (1, Z.of_nat i)
     /\ is_least i (free_bits l))
  \/ (bit_array_find_first_clear_bit l r = Some (0, r) /\ free_bits l = ∅).
Proof.
  intros Hlen. unfold bit_array_find_first_clear_bit.
  destruct (find_clear_loop_spec BIT_ARR_SIZE 0 l r)
    as [(j & Hj & ? & ? & Hlt)|[Hj Hall]]; [lia|left|right].
  - exists j. split; [done|]. split; [apply elem_of_free_bits; naive_solver lia|].
    intros k [??]%elem_of_free_bits. destruct (decide (k < j)%nat); [|lia].
    exfalso. apply (Hlt k); [lia|done].
  - split; [done|]. apply set_eq. intros k. rewrite elem_of_free_bits.
    split; [|set_solver]. intros [??]. exfalso. apply (Hall k); [lia|done].
Qed.

Lemma bit_array_put_in l i v :
  length l = BIT_ARR_SIZE -> (i < BIT_ARR_SIZE)%nat ->
  bit_array_put l (Z.of_nat i) v = Some (<[i := v]> l).
Proof.
  intros Hlen Hi. unfold bit_array_put. rewrite Nat2Z.id.
  replace (0 <=? Z.of_nat i) with true by (symmetry; apply Z.leb_le; lia).
  replace (Z.of_nat i <? Z.of_nat BIT_ARR_SIZE) with true
    by (symmetry; apply Z.ltb_lt; lia). cbn [andb].
  destruct (lookup_lt_is_Some_2 l i) as [b ->]; [lia|done].
Qed.

Lemma bit_array_put_out l b v :
  ~ (0 <= b < Z.of_nat BIT_ARR_SIZE) -> bit_array_put l b v = Some l.
Proof.
  intros Hb. unfold bit_array_put.
  destruct (Z.leb_spec 0 b), (Z.ltb_spec b (Z.of_nat BIT_ARR_SIZE)); done || lia.
Qed.

(** Setting a bit takes the index out of the free set; clearing puts it back. *)
Lemma free_bits_set l i :
  length l = BIT_ARR_SIZE -> (i < BIT_ARR_SIZE)%nat ->
  free_bits (<[i := 1]> l) = free_bits l ∖ {[i]}.
Proof.
  intros Hlen Hi. apply set_eq. intros k.
  rewrite elem_of_difference, !elem_of_free_bits, elem_of_singleton.
  destruct (decide (k = i)) as [->|Hk].
  - rewrite list_lookup_insert_eq by lia. naive_solver.
  - rewrite list_lookup_insert_ne by done. naive_solver.
Qed.

Lemma free_bits_clear l i :
  length l = BIT_ARR_SIZE -> (i < BIT_ARR_SIZE)%nat ->
  free_bits (<[i := 0]> l) = free_bits l ∪ {[i]}.
Proof.
  intros Hlen Hi. apply set_eq. intros k.
  rewrite elem_of_union, !elem_of_free_bits, elem_of_singleton.
  destruct (decide (k = i)) as [->|Hk].
  - rewrite list_lookup_insert_eq by lia. naive_solver.
  - rewrite list_lookup_insert_ne by done. naive_solver.
Qed.

(** A fresh array has every index free. *)
Lemma free_bits_zeros : free_bits [0; 0; 0; 0] = list_to_set (seq 0 BIT_ARR_SIZE).
Proof. reflexivity. Qed.

Lemma is_least_unique i j s : is_least i s -> is_least j s -> i = j.
Proof. intros [Hi Hil] [Hj Hjl]. apply Nat.le_antisymm; auto. Qed.

Lemma is_least_bound i l : is_least i (free_bits l) -> (i < BIT_ARR_SIZE)%nat.
Proof. by intros [[? _]%elem_of_free_bits _]. Qed.

Lemma find_first_clear_bit_least l r i :
  length l = BIT_ARR_SIZE -> is_least i (free_bits l) ->
  bit_array_find_first_clear_bit l r = Some (1, Z.of_nat i).
Proof.
  intros Hlen Hi.
  destruct (find_first_clear_bit_cases l r Hlen) as [(j & -> & Hj)|[_ He]].
  - by rewrite (is_least_unique _ _ _ Hi Hj).
  - destruct Hi. set_solver.
Qed.

Lemma find_first_clear_bit_full l r :
  length l = BIT_ARR_SIZE -> free_bits l = ∅ ->
  bit_array_find_first_clear_bit l r = Some (0, r).
Proof.
  intros Hlen He.
  destruct (find_first_clear_bit_cases l r Hlen) as [(j & _ & Hj)|[-> _]]; [|done].
  destruct Hj. set_solver.
Qed.
