(* ===== verification/MsgbufIds.v ===== *)
(** * MsgbufIds: [rpc_common.c]

    Allocation of message buffer ids from the channel's bitmap, under its spin
    lock.  [alloc_msgbuf_id] spins while every id is taken: between two tries
    the other contexts run, which is the interface [Scheduler]. *)
From S2P Require Import Prelude Types Kernel Logic Bitmap.

(** What the other contexts do while this one spins. *)
Class Scheduler := other_contexts : M unit.

(** Nobody else can release the lock while this context spins for it. *)
Definition spin_lock (ch : addr) : M unit :=
  c ← load ch;
  if msgbuf_bitmap_lock c then block_here
  else store ch (c <| msgbuf_bitmap_lock := true |>).
Definition spin_unlock (ch : addr) : M unit :=
  update ch (fun c => c <| msgbuf_bitmap_lock := false |>).

(** The critical section of [alloc_msgbuf_id]: [ret] and [bit_id] after it. *)
Definition alloc_try (ch : addr) (bit_id : Z) : M (Z * Z) :=
  spin_lock ch;;
  c ← load (T := rpc_ch_info) ch;
  l ← load (msgbuf_bitmap c);
  r ← from_option OutOfBounds (bit_array_find_first_clear_bit l bit_id);
  (if fst r =? 0 then mret tt
   else l' ← from_option OutOfBounds (bit_array_set_bit l (snd r));
        store (msgbuf_bitmap c) l');;
  spin_unlock ch;;
  mret r.

Definition free_msgbuf_id (ch : addr) (bit_id : Z) : M unit :=
  spin_lock ch;;
  c ← load (T := rpc_ch_info) ch;
  l ← load (msgbuf_bitmap c);
  l' ← from_option OutOfBounds (bit_array_clear_bit l (u64 bit_id));
  store (msgbuf_bitmap c) l';;
  spin_unlock ch.

(** [bit_array_free] of [bitmap.c]. *)
Definition bit_array_free (bitarray : addr) : M unit := kfree bitarray.

Section Alloc.
Context {K : Kernel} {S : Scheduler}.

Fixpoint alloc_loop (fuel : nat) (ch : addr) (bit_id : Z) : M Z :=
  r ← alloc_try ch bit_id;
  if fst r =? 0 then
    match fuel with
    | O => block_here
    | Datatypes.S fuel => other_contexts;; alloc_loop fuel ch (snd r)
    end
  else mret (snd r).

(** Every round consumes an event of the schedule, so its length is fuel
    enough: with none left, nobody frees an id and the loop spins forever. *)
Definition alloc_msgbuf_id (ch : addr) : M Z :=
  bit_id ← indeterminate;
  n ← get (fun w => length (sched w));
  alloc_loop n ch bit_id.
End Alloc.

(** ** The bitmap of a channel *)

(** Channel [ch] is unlocked and its bitmap is [l]. *)
Record bitmap_at (w : world) (ch : addr) (c : rpc_ch_info) (l : list Z) : Prop := {
  bm_ch : heap w !! ch = Some (BRpcCh c);
  bm_unlocked : msgbuf_bitmap_lock c = false;
  bm_bits : heap w !! msgbuf_bitmap c = Some (BBytes l);
  bm_len : length l = BIT_ARR_SIZE }.

(** The state with the bitmap replaced. *)
Definition put_bitmap (c : rpc_ch_info) (l : list Z) (w : world) : world :=
  upd_heap (insert (msgbuf_bitmap c) (BBytes l)) w.

(** What a critical section leaves: taking and releasing the lock cancel out. *)
Lemma locked_update w ch c l l' :
  bitmap_at w ch c l ->
  <[ch := BRpcCh ((c <| msgbuf_bitmap_lock := true |>) <| msgbuf_bitmap_lock := false |>)]>
    (<[msgbuf_bitmap c := BBytes l']>
       (<[ch := BRpcCh (c <| msgbuf_bitmap_lock := true |>)]> (heap w)))
  = <[msgbuf_bitmap c := BBytes l']> (heap w).
Proof.
  intros [Hch Hul Hb _]. assert (ch <> msgbuf_bitmap c) by congruence.
  rewrite (insert_insert_ne _ (msgbuf_bitmap c)) by done.
  rewrite insert_insert_eq, insert_insert_ne by done.
  f_equal. apply insert_id. rewrite Hch. destruct c; simpl in *. by subst.
Qed.

Lemma locked_id w ch c l :
  bitmap_at w ch c l ->
  <[ch := BRpcCh ((c <| msgbuf_bitmap_lock := true |>) <| msgbuf_bitmap_lock := false |>)]>
    (<[ch := BRpcCh (c <| msgbuf_bitmap_lock := true |>)]> (heap w)) = heap w.
Proof.
  intros Hbm. pose proof (locked_update _ _ _ _ l Hbm) as H.
  destruct Hbm as [Hch Hul Hb _].
  rewrite insert_insert_eq. apply insert_id. rewrite Hch.
  destruct c; simpl in *. by subst.
Qed.

Lemma wp_alloc_try_found t w ch c l bit_id i Q :
  bitmap_at w ch c l -> is_least i (free_bits l) ->
  Q (1, Z.of_nat i) (put_bitmap c (<[i := 1]> l) w) ->
  wp t (alloc_try ch bit_id) Q w.
Proof.
  intros Hbm Hi HQ. pose proof Hbm as [Hch Hul Hb Hlen].
  assert (ch <> msgbuf_bitmap c) by congruence.
  pose proof (is_least_bound _ _ Hi) as Hlt.
  unfold alloc_try, spin_lock, spin_unlock. do 3 wp_step.
  rewrite Hul. wp_step. do 4 wp_step. wp_step.
  wp_step; [by apply find_first_clear_bit_least|]. do 2 wp_step.
  { done. }
  wp_step. wp_step; [by apply bit_array_put_in|]. do 4 wp_step. wsimpl.
  rewrite !upd_heap_compose. erewrite upd_heap_ext; [exact HQ|].
  by apply (locked_update w ch c l).
Qed.

Lemma wp_alloc_try_full t w ch c l bit_id Q :
  bitmap_at w ch c l -> free_bits l = ∅ ->
  Q (0, bit_id) w -> wp t (alloc_try ch bit_id) Q w.
Proof.
  intros Hbm He HQ. pose proof Hbm as [Hch Hul Hb Hlen].
  unfold alloc_try, spin_lock, spin_unlock. do 3 wp_step.
  assert (ch <> msgbuf_bitmap c) by congruence.
  rewrite Hul. wp_step. do 4 wp_step. wp_step.
  wp_step; [by apply find_first_clear_bit_full|]. do 2 wp_step; [|done].
  do 4 wp_step. rewrite upd_heap_compose, upd_heap_id; [done|].
  by apply (locked_id w ch c l).
Qed.

Lemma wp_free_msgbuf_id t w ch c l bit_id l' (Q : unit -> world -> Prop) :
  bitmap_at w ch c l -> bit_array_clear_bit l (u64 bit_id) = Some l' ->
  Q tt (put_bitmap c l' w) -> wp t (free_msgbuf_id ch bit_id) Q w.
Proof.
  intros Hbm Hl HQ. pose proof Hbm as [Hch Hul Hb Hlen].
  assert (ch <> msgbuf_bitmap c) by congruence.
  unfold free_msgbuf_id, spin_lock, spin_unlock. do 3 wp_step.
  rewrite Hul. wp_steps.
  rewrite !upd_heap_compose. erewrite upd_heap_ext; [exact HQ|].
  by apply (locked_update w ch c l).
Qed.

(** A state keeps its channel when only the bitmap changes. *)
Lemma bitmap_at_put w ch c l l' :
  bitmap_at w ch c l -> length l' = BIT_ARR_SIZE ->
  bitmap_at (put_bitmap c l' w) ch c l'.
Proof.
  intros [Hch Hul Hb Hlen] Hl'. assert (ch <> msgbuf_bitmap c) by congruence.
  split; unfold put_bitmap; wsimpl; by simplify_map_eq.
Qed.

(** ** Properties *)

Section Alloc_spec.
Context {K : Kernel} {Sch : Scheduler}.

Lemma wp_alloc_loop_found t n w ch c l bit_id i (Q : Z -> world -> Prop) :
  bitmap_at w ch c l -> is_least i (free_bits l) ->
  Q (Z.of_nat i) (put_bitmap c (<[i := 1]> l) w) ->
  wp t (alloc_loop n ch bit_id) Q w.
Proof.
  intros Hbm Hi HQ.
  destruct n; (apply wp_bind; by eapply wp_alloc_try_found).
Qed.

Lemma wp_alloc_msgbuf_id t w ch c l i (Q : Z -> world -> Prop) :
  bitmap_at w ch c l -> is_least i (free_bits l) ->
  (forall v, Q (Z.of_nat i) (put_bitmap c (<[i := 1]> l) (log (EvStack v) w))) ->
  wp t (alloc_msgbuf_id ch) Q w.
Proof.
  intros [Hch Hul Hb Hlen] Hi HQ. unfold alloc_msgbuf_id, indeterminate.
  do 4 wp_step. by eapply wp_alloc_loop_found.
Qed.

(** A round of the spin loop with every id taken: the other contexts run,
    or there is nothing left to run and the loop spins forever. *)
Lemma alloc_loop_full n w ch c l bit_id :
  bitmap_at w ch c l -> free_bits l = ∅ ->
  alloc_loop n ch bit_id w =
    match n with
    | O => Blocked w
    | Datatypes.S n => (other_contexts;; alloc_loop n ch bit_id) w
    end.
Proof.
  intros Hbm He.
  assert (Hr : alloc_try ch bit_id w = Ok (0, bit_id) w).
  { pose proof (wp_alloc_try_full Total w ch c l bit_id
      (fun r w' => r = (0, bit_id) /\ w' = w) Hbm He (conj eq_refl eq_refl)) as H.
    by apply wp_total_run in H as (r & w' & -> & -> & ->). }
  destruct n; cbn [alloc_loop]; unfold mbind, M_bind; by rewrite Hr.
Qed.

(** [alloc_msgbuf_id] on an unlocked channel with a free id returns the
    least free id, below [RPC_MSG_BUF_NUM]; it marks exactly that id as
    used, releases the lock, and changes nothing else of the memory. *)
Theorem alloc_msgbuf_id_least w ch c l :
  bitmap_at w ch c l -> free_bits l <> ∅ ->
  exists i w', alloc_msgbuf_id ch w = Ok (Z.of_nat i) w'
    /\ is_least i (free_bits l) /\ Z.of_nat i < RPC_MSG_BUF_NUM
    /\ bitmap_at w' ch c (<[i := 1]> l)
    /\ free_bits (<[i := 1]> l) = free_bits l ∖ {[i]}
    /\ heap w' = <[msgbuf_bitmap c := BBytes (<[i := 1]> l)]> (heap w).
Proof.
  intros Hbm Hne. pose proof Hbm as [_ _ _ Hlen].
  destruct (find_first_clear_bit_cases l 0 Hlen) as [(i & _ & Hi)|[_ ?]]; [|done].
  pose proof (is_least_bound _ _ Hi) as Hlt.
  destruct (wp_total_run (alloc_msgbuf_id ch) (fun r w' => r = Z.of_nat i /\ exists v,
    w' = put_bitmap c (<[i := 1]> l) (log (EvStack v) w)) w) as (r & w' & Hr & -> & v & ->).
  { eapply wp_alloc_msgbuf_id; eauto. }
  exists i. eexists. split; [exact Hr|]. split; [done|].
  split; [unfold BIT_ARR_SIZE in Hlt; unfold RPC_MSG_BUF_NUM; lia|].
  split; [|split; [by apply free_bits_set|done]].
  apply (bitmap_at_put (log (EvStack v) w) ch c l); [by destruct Hbm|].
  by rewrite length_insert.
Qed.

(** [free_msgbuf_id] undoes [alloc_msgbuf_id]: freeing the id just
    allocated gives back the bitmap and every other block of memory. *)
Theorem free_after_alloc w ch c l :
  bitmap_at w ch c l -> free_bits l <> ∅ ->
  exists w', (i ← alloc_msgbuf_id ch; free_msgbuf_id ch i) w = Ok tt w'
    /\ heap w' = heap w.
Proof.
  intros Hbm Hne. pose proof Hbm as [_ _ Hb Hlen].
  destruct (find_first_clear_bit_cases l 0 Hlen) as [(i & _ & Hi)|[_ ?]]; [|done].
  pose proof (is_least_bound _ _ Hi) as Hlt.
  apply (wp_total_unit _ (fun _ w' => heap w' = heap w)).
  apply wp_bind. eapply wp_alloc_msgbuf_id; [done..|]. intros v.
  eapply wp_free_msgbuf_id.
  - apply (bitmap_at_put (log (EvStack v) w) ch c l); [by destruct Hbm|].
    by rewrite length_insert.
  - unfold u64. rewrite uint_small by (unfold in_u, BIT_ARR_SIZE in *; lia).
    apply bit_array_put_in; [by rewrite length_insert|done].
  - unfold put_bitmap. wsimpl. rewrite insert_insert_eq, list_insert_insert_eq.
    rewrite list_insert_id; [by apply insert_id|].
    apply elem_of_free_bits, Hi.
Qed.

Lemma alloc_full_blocks w ch c l :
  bitmap_at w ch c l -> free_bits l = ∅ -> sched w = [] ->
  alloc_msgbuf_id ch w = Blocked (log (EvStack (k_stack (trace w))) w).
Proof.
  intros Hbm He Hs.
  assert (Hbm' : bitmap_at (log (EvStack (k_stack (trace w))) w) ch c l)
    by by destruct Hbm.
  unfold alloc_msgbuf_id, indeterminate, mbind, M_bind, call, get. wsimpl.
  rewrite Hs. cbn [length]. by rewrite (alloc_loop_full 0 _ ch c l).
Qed.

(** With every id taken and nobody left to free one, [alloc_msgbuf_id]
    spins forever; it never fails and never hands out a used id. *)
Theorem alloc_msgbuf_id_full_spins w ch c l :
  bitmap_at w ch c l -> free_bits l = ∅ -> sched w = [] ->
  exists w', alloc_msgbuf_id ch w = Blocked w' /\ heap w' = heap w.
Proof. intros Hbm He Hs. eexists. split; [by eapply alloc_full_blocks|done]. Qed.
End Alloc_spec.
