(* ===== verification/MsgbufConc.v ===== *)
(** * MsgbufConc: [rpc_common.c] with several contexts

    [alloc_msgbuf_id] and [free_msgbuf_id] as small steps of contexts that share
    a channel's spin lock and bitmap, one step per access.  The atomic
    specification is a set of used ids; the steps refine it, which gives mutual
    exclusion, uniqueness of the ids in use and absence of deadlock among
    contexts that keep running.  The last section runs a context and an
    interrupt handler on one processor. *)
From stdpp Require Import relations.
From S2P Require Import Prelude Types Kernel Logic Bitmap MsgbufIds.

(** ** Contexts and their steps *)

Abbreviation tid := nat (only parsing).

(** Where a context is.  [AllocX b]: in [alloc_msgbuf_id] with [bit_id] = [b],
    before taking the lock, the search, the store of the bit, and (with [ret])
    the release of the lock; [AllocRet]: at the return.  Likewise for
    [free_msgbuf_id]. *)
Inductive pc :=
  | Idle
  | AllocLock (b : Z) | AllocFind (b : Z) | AllocSet (b : Z)
  | AllocUnlock (ret b : Z) | AllocRet (b : Z)
  | FreeLock (b : Z) | FreeClear (b : Z) | FreeUnlock | FreeRet.

Record conf := { lock : bool; bits : list Z; pcs : gmap tid pc }.

(** What a step shows to the callers. *)
Inductive label :=
  | Tau
  | CallAlloc (t : tid) | RetAlloc (t : tid) (b : Z)
  | CallFree (t : tid) (b : Z) | RetFree (t : tid).

Definition goto (c : conf) (t : tid) (p : pc) : conf :=
  {| lock := lock c; bits := bits c; pcs := <[t := p]> (pcs c) |}.
Definition set_lock (v : bool) (c : conf) : conf :=
  {| lock := v; bits := bits c; pcs := pcs c |}.
Definition set_bits (l : list Z) (c : conf) : conf :=
  {| lock := lock c; bits := l; pcs := pcs c |}.

(** The next step of a context at [p]; [garbage] is the first value of
    [bit_id] of a call of [alloc_msgbuf_id]. *)
Inductive pc_step (c : conf) (t : tid) : pc -> label -> conf -> Prop :=
  | st_call_alloc garbage :
      pc_step c t Idle (CallAlloc t) (goto c t (AllocLock garbage))
  | st_alloc_lock b :
      lock c = false ->
      pc_step c t (AllocLock b) Tau (goto (set_lock true c) t (AllocFind b))
  | st_alloc_find b r b' :
      bit_array_find_first_clear_bit (bits c) b = Some (r, b') ->
      pc_step c t (AllocFind b) Tau
        (goto c t (if r =? 0 then AllocUnlock 0 b' else AllocSet b'))
  | st_alloc_set b l :
      bit_array_set_bit (bits c) b = Some l ->
      pc_step c t (AllocSet b) Tau (goto (set_bits l c) t (AllocUnlock 1 b))
  | st_alloc_unlock ret b :
      pc_step c t (AllocUnlock ret b) Tau
        (goto (set_lock false c) t (if ret =? 0 then AllocLock b else AllocRet b))
  | st_alloc_ret b :
      pc_step c t (AllocRet b) (RetAlloc t b) (goto c t Idle)
  | st_call_free b :
      pc_step c t Idle (CallFree t b) (goto c t (FreeLock b))
  | st_free_lock b :
      lock c = false ->
      pc_step c t (FreeLock b) Tau (goto (set_lock true c) t (FreeClear b))
  | st_free_clear b l :
      bit_array_clear_bit (bits c) b = Some l ->
      pc_step c t (FreeClear b) Tau (goto (set_bits l c) t FreeUnlock)
  | st_free_unlock :
      pc_step c t FreeUnlock Tau (goto (set_lock false c) t FreeRet)
  | st_free_ret :
      pc_step c t FreeRet (RetFree t) (goto c t Idle).

Definition step (c : conf) (l : label) (c' : conf) : Prop :=
  exists t p, pcs c !! t = Some p /\ pc_step c t p l c'.
Definition any_step (c c' : conf) : Prop := exists l, step c l c'.

(** A new channel and [n] idle contexts. *)
Definition start (n : nat) : conf :=
  {| lock := false; bits := [0; 0; 0; 0];
     pcs := gset_to_gmap Idle (list_to_set (seq 0 n)) |}.
Definition reachable (n : nat) (c : conf) : Prop := rtc any_step (start n) c.

(** ** The atomic specification *)

(** A pending call, or a call that has taken effect. *)
Inductive spec_pc :=
  | SIdle | SAlloc | SAllocated (b : Z) | SFree (b : Z) | SFreed.
Record spec := { free : gset nat; spcs : gmap tid spec_pc }.

(** Taking the least free id, and giving one back (an id outside the bitmap
    changes nothing), are single steps. *)
Inductive spec_step (s : spec) : label -> spec -> Prop :=
  | sp_call_alloc t :
      spcs s !! t = Some SIdle ->
      spec_step s (CallAlloc t) {| free := free s; spcs := <[t := SAlloc]> (spcs s) |}
  | sp_alloc t i :
      spcs s !! t = Some SAlloc -> is_least i (free s) ->
      spec_step s Tau
        {| free := free s ∖ {[i]}; spcs := <[t := SAllocated (Z.of_nat i)]> (spcs s) |}
  | sp_ret_alloc t b :
      spcs s !! t = Some (SAllocated b) ->
      spec_step s (RetAlloc t b) {| free := free s; spcs := <[t := SIdle]> (spcs s) |}
  | sp_call_free t b :
      spcs s !! t = Some SIdle ->
      spec_step s (CallFree t b) {| free := free s; spcs := <[t := SFree b]> (spcs s) |}
  | sp_free t b :
      spcs s !! t = Some (SFree b) ->
      spec_step s Tau
        {| free := if (0 <=? b) && (b <? Z.of_nat BIT_ARR_SIZE)
                   then free s ∪ {[Z.to_nat b]} else free s;
           spcs := <[t := SFreed]> (spcs s) |}
  | sp_ret_free t :
      spcs s !! t = Some SFreed ->
      spec_step s (RetFree t) {| free := free s; spcs := <[t := SIdle]> (spcs s) |}.

(** What a configuration means: the calls take effect at the stores of their
    bit. *)
Definition spec_of_pc (p : pc) : spec_pc :=
  match p with
  | Idle => SIdle
  | AllocLock _ | AllocFind _ | AllocSet _ => SAlloc
  | AllocUnlock ret b => if ret =? 0 then SAlloc else SAllocated b
  | AllocRet b => SAllocated b
  | FreeLock b | FreeClear b => SFree b
  | FreeUnlock | FreeRet => SFreed
  end.
Definition spec_of (c : conf) : spec :=
  {| free := free_bits (bits c); spcs := spec_of_pc <$> pcs c |}.

(** ** Invariant *)

(** Between the two calls on the spin lock. *)
Definition critical (p : pc) : bool :=
  match p with
  | AllocFind _ | AllocSet _ | AllocUnlock _ _ | FreeClear _ | FreeUnlock => true
  | _ => false
  end.

(** What a context knows of the bitmap. *)
Definition pc_ok (c : conf) (p : pc) : Prop :=
  match p with
  | AllocSet b => exists i, b = Z.of_nat i /\ is_least i (free_bits (bits c))
  | _ => True
  end.

Record conf_ok (c : conf) : Prop := {
  ok_len : length (bits c) = BIT_ARR_SIZE;
  ok_held : lock c = true -> exists t p, pcs c !! t = Some p /\ critical p = true;
  ok_free : lock c = false -> forall t p, pcs c !! t = Some p -> critical p = false;
  ok_mutex : forall t1 t2 p1 p2, pcs c !! t1 = Some p1 -> pcs c !! t2 = Some p2 ->
    critical p1 = true -> critical p2 = true -> t1 = t2;
  ok_pcs : forall t p, pcs c !! t = Some p -> pc_ok c p }.

Section Invariant.
Implicit Types (c : conf) (p : pc).

Lemma critical_lock c t p : conf_ok c -> pcs c !! t = Some p -> critical p = true ->
  lock c = true.
Proof.
  intros Hok Ht Hp. destruct (lock c) eqn:E; [done|].
  pose proof (ok_free _ Hok E _ _ Ht). congruence.
Qed.

Lemma pc_ok_not_critical c p : critical p = false -> pc_ok c p.
Proof. by destruct p. Qed.

(** A step that neither takes nor releases the lock; it writes the bitmap
    only inside the critical section. *)
Lemma conf_ok_stay c t p p' l :
  conf_ok c -> pcs c !! t = Some p -> critical p' = critical p ->
  length l = BIT_ARR_SIZE -> (critical p = false -> l = bits c) ->
  pc_ok (set_bits l c) p' -> conf_ok (goto (set_bits l c) t p').
Proof.
  intros Hok Ht Hcr Hlen Hl Hp'. pose proof Hok as [_ Hheld Hfree Hmu Hpc].
  assert (Hkeep : forall u q, (<[t := p']> (pcs c)) !! u = Some q ->
    exists q0, pcs c !! u = Some q0 /\ critical q = critical q0).
  { intros u q [[-> <-]|[Hne Hu]]%lookup_insert_Some; eauto. }
  split; cbn [lock bits pcs goto set_bits].
  - done.
  - intros Hlk. destruct (Hheld Hlk) as (u & q & Hu & Hq).
    destruct (decide (u = t)) as [->|Hne].
    + exists t, p'. rewrite lookup_insert_eq. split; [done|congruence].
    + exists u, q. by rewrite lookup_insert_ne.
  - intros Hlk u q (q0 & Hq0 & ->)%Hkeep. by eapply Hfree.
  - intros t1 t2 p1 p2 (q1 & H1 & ->)%Hkeep (q2 & H2 & ->)%Hkeep. by eapply Hmu.
  - intros u q [[-> <-]|[Hne Hu]]%lookup_insert_Some; [done|].
    destruct (critical q) eqn:Eq; [|by apply pc_ok_not_critical].
    destruct (critical p) eqn:Ep.
    + destruct Hne. by eapply Hmu.
    + rewrite (Hl eq_refl). specialize (Hpc _ _ Hu). by destruct q.
Qed.

Lemma conf_ok_acquire c t p p' :
  conf_ok c -> pcs c !! t = Some p -> lock c = false -> critical p' = true ->
  pc_ok c p' -> conf_ok (goto (set_lock true c) t p').
Proof.
  intros [Hlen _ Hfree Hmu Hpc] Ht Hlk Hcr Hp'. specialize (Hfree Hlk).
  assert (Hcrit : forall u q, (<[t := p']> (pcs c)) !! u = Some q ->
    critical q = true -> u = t).
  { intros u q [[-> _]|[Hne Hu]]%lookup_insert_Some Hq; [done|].
    apply Hfree in Hu. congruence. }
  split; cbn [lock bits pcs goto set_lock].
  - done.
  - intros _. exists t, p'. by rewrite lookup_insert_eq.
  - done.
  - intros t1 t2 p1 p2 H1 H2 C1 C2.
    rewrite (Hcrit _ _ H1 C1). by rewrite (Hcrit _ _ H2 C2).
  - intros u q [[-> <-]|[Hne Hu]]%lookup_insert_Some; [by destruct p'|].
    specialize (Hpc _ _ Hu). by destruct q.
Qed.

Lemma conf_ok_release c t p p' :
  conf_ok c -> pcs c !! t = Some p -> critical p = true -> critical p' = false ->
  conf_ok (goto (set_lock false c) t p').
Proof.
  intros [Hlen _ Hfree Hmu Hpc] Ht Hp Hp'.
  assert (Hcrit : forall u q, (<[t := p']> (pcs c)) !! u = Some q -> critical q = false).
  { intros u q [[-> <-]|[Hne Hu]]%lookup_insert_Some; [done|].
    destruct (critical q) eqn:E; [|done]. destruct Hne. by eapply Hmu. }
  split; cbn [lock bits pcs goto set_lock].
  - done.
  - done.
  - intros _. exact Hcrit.
  - intros t1 t2 p1 p2 H1 H2 C1 _. apply Hcrit in H1. congruence.
  - intros u q Hu. apply pc_ok_not_critical. by eapply Hcrit.
Qed.

Lemma set_bits_id c : set_bits (bits c) c = c.
Proof. by destruct c. Qed.

Lemma conf_ok_goto c t p p' :
  conf_ok c -> pcs c !! t = Some p -> critical p' = critical p -> pc_ok c p' ->
  conf_ok (goto c t p').
Proof.
  intros Hok Ht Hcr Hp'. destruct c as [lk l ps].
  by apply (conf_ok_stay {| lock := lk; bits := l; pcs := ps |} t p p' l); [..|apply Hok| |].
Qed.

(** The result of the search, given the invariant. *)
Lemma find_ok c b r b' :
  conf_ok c -> bit_array_find_first_clear_bit (bits c) b = Some (r, b') ->
  (r = 0 /\ b' = b /\ free_bits (bits c) = ∅)
  \/ (r = 1 /\ exists i, b' = Z.of_nat i /\ is_least i (free_bits (bits c))).
Proof.
  intros Hok Hf. destruct (find_first_clear_bit_cases (bits c) b (ok_len _ Hok))
    as [(i & Hi & Hl)|[Hi He]]; rewrite Hi in Hf; injection Hf as <- <-; eauto 10.
Qed.

Lemma conf_ok_step c l c' : conf_ok c -> step c l c' -> conf_ok c'.
Proof.
  intros Hok (t & p & Ht & Hs). pose proof (ok_len _ Hok) as Hlen. destruct Hs.
  - by eapply conf_ok_goto.
  - by eapply conf_ok_acquire.
  - destruct (find_ok _ _ _ _ Hok H) as [(-> & -> & He)|(-> & i & -> & Hi)];
      eapply conf_ok_goto; try done. by exists i.
  - assert (length l = BIT_ARR_SIZE /\ True) as [Hl _].
    { pose proof (ok_pcs _ Hok _ _ Ht) as (i & -> & Hi). unfold bit_array_set_bit in H.
      rewrite bit_array_put_in in H by first [done|by eapply is_least_bound].
      injection H as <-. by rewrite length_insert. }
    by eapply conf_ok_stay.
  - eapply conf_ok_release; [done|done|done|]. by destruct (ret =? 0).
  - by eapply conf_ok_goto.
  - by eapply conf_ok_goto.
  - by eapply conf_ok_acquire.
  - assert (length l = BIT_ARR_SIZE) as Hl.
    { unfold bit_array_clear_bit, bit_array_put in H.
      destruct (_ && _); [|by injection H as <-].
      destruct (bits c !! Z.to_nat b); [|done]. injection H as <-. by rewrite length_insert. }
    by eapply conf_ok_stay.
  - by eapply conf_ok_release.
  - by eapply conf_ok_goto.
Qed.

Lemma conf_ok_start n : conf_ok (start n).
Proof.
  assert (H : forall t p, pcs (start n) !! t = Some p -> p = Idle)
    by (intros t p [_ ?]%lookup_gset_to_gmap_Some; done).
  split; try done.
  - by intros _ t p ->%H.
  - by intros t1 t2 p1 p2 ->%H.
  - by intros t p ->%H.
Qed.

Lemma reachable_ok n c : reachable n c -> conf_ok c.
Proof.
  apply (rtc_ind_r (fun c => conf_ok c)); [apply conf_ok_start|].
  intros c1 c2 _ [l Hs] Hok. by eapply conf_ok_step.
Qed.
End Invariant.

(** ** Refinement *)

Lemma spec_of_goto c t p : spec_of (goto c t p) =
  {| free := free_bits (bits c); spcs := <[t := spec_of_pc p]> (spcs (spec_of c)) |}.
Proof. unfold spec_of, goto. cbn. by rewrite fmap_insert. Qed.

(** A step that the specification does not see. *)
Lemma spec_of_stutter c t p p' lk :
  pcs c !! t = Some p -> spec_of_pc p' = spec_of_pc p ->
  spec_of (goto (set_lock lk c) t p') = spec_of c.
Proof.
  intros Ht He. rewrite spec_of_goto, He. unfold spec_of. cbn. f_equal.
  apply insert_id. by rewrite lookup_fmap, Ht.
Qed.

Lemma spec_lookup c t p : pcs c !! t = Some p -> spcs (spec_of c) !! t = Some (spec_of_pc p).
Proof. intros Ht. unfold spec_of. cbn. by rewrite lookup_fmap, Ht. Qed.

Lemma clear_free l b l' :
  length l = BIT_ARR_SIZE -> bit_array_clear_bit l b = Some l' ->
  free_bits l' = if (0 <=? b) && (b <? Z.of_nat BIT_ARR_SIZE)
                 then free_bits l ∪ {[Z.to_nat b]} else free_bits l.
Proof.
  intros Hlen Hc. unfold bit_array_clear_bit, bit_array_put in Hc.
  destruct (_ && _) eqn:E; [|by injection Hc as <-].
  apply andb_prop in E as [E1%Z.leb_le E2%Z.ltb_lt].
  destruct (l !! Z.to_nat b); [|done]. injection Hc as <-.
  apply free_bits_clear; [done|lia].
Qed.

(** One step of a context is one step of the specification, or none. *)
Lemma step_refines c l c' :
  conf_ok c -> step c l c' ->
  spec_step (spec_of c) l (spec_of c') \/ (l = Tau /\ spec_of c' = spec_of c).
Proof.
  intros Hok (t & p & Ht & Hs). pose proof (ok_len _ Hok) as Hlen.
  pose proof (spec_lookup _ _ _ Ht) as Hsp. destruct c as [lk l0 ps].
  destruct Hs; cbn [spec_of_pc] in *.
  - left. rewrite spec_of_goto. by apply (sp_call_alloc (spec_of _)).
  - right. split; [done|]. by eapply spec_of_stutter.
  - right. split; [done|].
    destruct (find_ok _ _ _ _ Hok H) as [(-> & -> & _)|(-> & i & -> & _)];
      by eapply (spec_of_stutter {| lock := lk; bits := l0; pcs := ps |} _ _ _ lk).
  - left. pose proof (ok_pcs _ Hok _ _ Ht) as (i & -> & Hi).
    pose proof (is_least_bound _ _ Hi) as Hb.
    unfold bit_array_set_bit in H. rewrite bit_array_put_in in H by done.
    injection H as <-. rewrite spec_of_goto. cbn [bits set_bits]. rewrite free_bits_set by done.
    by apply (sp_alloc (spec_of {| lock := lk; bits := l0; pcs := ps |})).
  - right. split; [done|]. eapply spec_of_stutter; [done|]. by destruct (ret =? 0) eqn:E; cbn; rewrite ?E.
  - left. rewrite spec_of_goto. by apply (sp_ret_alloc (spec_of _)).
  - left. rewrite spec_of_goto. by apply (sp_call_free (spec_of _)).
  - right. split; [done|]. by eapply spec_of_stutter.
  - left. rewrite spec_of_goto. cbn [bits set_bits]. erewrite clear_free by done.
    by apply (sp_free (spec_of {| lock := lk; bits := l0; pcs := ps |})).
  - right. split; [done|]. by eapply spec_of_stutter.
  - left. rewrite spec_of_goto. by apply (sp_ret_free (spec_of _)).
Qed.

(** ** Ids in use *)

(** Callers free only ids they were given: [out] is the set of ids returned and
    not passed to [free_msgbuf_id] since. *)
Definition client_move (l : label) (out out' : gset nat) : Prop :=
  match l with
  | RetAlloc _ b => out' = out ∪ {[Z.to_nat b]}
  | CallFree _ b => exists i, b = Z.of_nat i /\ i ∈ out /\ out' = out ∖ {[i]}
  | _ => out' = out
  end.
Inductive client_run (n : nat) : conf -> gset nat -> Prop :=
  | cr_start : client_run n (start n) ∅
  | cr_step c out l c' out' :
      client_run n c out -> step c l c' -> client_move l out out' ->
      client_run n c' out'.

(** The id a call holds: allocated and not yet returned, or about to be
    cleared. *)
Definition token (p : spec_pc) : option nat :=
  match p with
  | SAllocated b | SFree b => Some (Z.to_nat b)
  | _ => None
  end.
Definition in_range (p : spec_pc) : Prop :=
  match p with SAllocated b | SFree b => 0 <= b < Z.of_nat BIT_ARR_SIZE | _ => True end.

(** Every id is free, out, or held by one call. *)
Record tokens_ok (s : spec) (out : gset nat) : Prop := {
  tk_range : forall t p, spcs s !! t = Some p -> in_range p;
  tk_out : forall i, i ∈ out -> (i ∉ free s) /\ (i < BIT_ARR_SIZE)%nat;
  tk_tok : forall t p i, spcs s !! t = Some p -> token p = Some i -> (i ∉ free s) /\ (i ∉ out);
  tk_one : forall t1 t2 p1 p2 i, spcs s !! t1 = Some p1 -> spcs s !! t2 = Some p2 ->
    token p1 = Some i -> token p2 = Some i -> t1 = t2 }.

(** A call of [t] goes from [p] to [p'], and ids move between the free ones,
    those that are out and [t]. *)
Lemma tokens_move s out t p p' fr out' :
  tokens_ok s out -> spcs s !! t = Some p -> in_range p' ->
  (forall i, i ∈ out' -> (i ∉ fr) /\ (i ∈ out \/ token p = Some i)) ->
  (forall i, token p' = Some i -> (i ∉ fr) /\ (i ∉ out') /\
     (i ∈ out \/ i ∈ free s \/ token p = Some i)) ->
  (forall i, i ∈ fr -> i ∈ free s \/ token p = Some i) ->
  tokens_ok {| free := fr; spcs := <[t := p']> (spcs s) |} out'.
Proof.
  intros [Hr Ho Ht H1] Hp Hr' Hout Htok Hfr.
  assert (Hother : forall u q i, u <> t -> spcs s !! u = Some q -> token q = Some i ->
    token p <> Some i) by (intros u q i Hne Hu Hq Hpi; destruct Hne; by eapply H1).
  split; cbn [free spcs].
  - intros u q [[-> <-]|[Hne Hu]]%lookup_insert_Some; eauto.
  - intros i Hi. destruct (Hout i Hi) as [? [Hi'|Hpi]]; [split; [done|by apply Ho]|].
    split; [done|]. pose proof (Hr _ _ Hp) as Hrp.
    destruct p; try done; injection Hpi as <-; unfold in_range, BIT_ARR_SIZE in *; lia.
  - intros u q i [[-> <-]|[Hne Hu]]%lookup_insert_Some Hq.
    + destruct (Htok _ Hq) as (? & ? & _). done.
    + destruct (Ht _ _ _ Hu Hq) as [Hf Hno]. pose proof (Hother _ _ _ (not_eq_sym Hne) Hu Hq).
      split; [intros [|]%Hfr; done|intros [_ [|]]%Hout; done].
  - intros t1 t2 p1 p2 i [[<- <-]|[N1 H2]]%lookup_insert_Some
      [[<- <-]|[N2 H3]]%lookup_insert_Some K1 K2; try done; [| |by eapply H1].
    + destruct (Htok _ K1) as (_ & _ & [?|[?|?]]); destruct (Ht _ _ _ H3 K2); try done.
      by destruct (Hother _ _ _ (not_eq_sym N2) H3 K2).
    + destruct (Htok _ K2) as (_ & _ & [?|[?|?]]); destruct (Ht _ _ _ H2 K1); try done.
      by destruct (Hother _ _ _ (not_eq_sym N1) H2 K1).
Qed.

Lemma tokens_step s l s' out out' :
  tokens_ok s out -> (forall i, i ∈ free s -> (i < BIT_ARR_SIZE)%nat) ->
  spec_step s l s' -> client_move l out out' -> tokens_ok s' out'.
Proof.
  intros Hok Hfr Hs Hm. pose proof Hok as [Hr Ho Ht H1].
  assert (Hkeep : forall i P, i ∈ out -> (i ∉ free s) /\ (i ∈ out \/ P))
    by (intros i P Hi; split; [by apply Ho|by left]).
  destruct Hs as [t Hp|t i Hp [Hi _]|t b Hp|t b Hp|t b Hp|t Hp]; cbn [client_move] in Hm.
  - subst out'. eapply tokens_move; [done|done|done|..]; cbn [token]; [auto|done|by left].
  - subst out'. specialize (Hfr _ Hi). eapply tokens_move; [done|done|..]; cbn [token in_range].
    + lia.
    + intros k Hk. destruct (Ho k Hk). set_solver.
    + intros k [= <-]. rewrite Nat2Z.id. split; [set_solver|]. split; [|by right; left].
      intros Hk. by destruct (Ho _ Hk).
    + set_solver.
  - subst out'. pose proof (Hr _ _ Hp) as Hb. destruct (Ht _ _ _ Hp eq_refl) as [Hnf Hno].
    eapply tokens_move; [done|done|done|..]; cbn [token] in *; [|done|by left].
    intros k [Hk|Hk%elem_of_singleton]%elem_of_union;
      [destruct (Ho k Hk); auto|subst k; auto].
  - destruct Hm as (i & -> & Hi & ->). destruct (Ho i Hi) as [Hnf Hlt].
    eapply tokens_move; [done|done|..]; cbn [token in_range].
    + lia.
    + intros k [Hk _]%elem_of_difference. destruct (Ho k Hk). auto.
    + intros k [= <-]. rewrite Nat2Z.id. split; [done|]. split; [set_solver|by left].
    + by left.
  - subst out'. pose proof (Hr _ _ Hp) as Hb. cbn [in_range] in Hb.
    destruct (Ht _ _ _ Hp eq_refl) as [Hnf Hno].
    replace ((0 <=? b) && (b <? Z.of_nat BIT_ARR_SIZE)) with true
      by (symmetry; apply andb_true_intro; split; [apply Z.leb_le|apply Z.ltb_lt]; lia).
    eapply tokens_move; [done|done|done|..]; cbn [token] in *; try done.
    + intros k Hk. destruct (Ho k Hk). split; [|by left]. set_solver.
    + set_solver.
  - subst out'. eapply tokens_move; [done|done|done|..]; cbn [token]; [auto|done|by left].
Qed.

Lemma client_run_ok n c out :
  client_run n c out -> conf_ok c /\ tokens_ok (spec_of c) out.
Proof.
  induction 1 as [|c out l c' out' _ [IH1 IH2] Hs Hm].
  - split; [apply conf_ok_start|].
    assert (H : forall t p, spcs (spec_of (start n)) !! t = Some p -> p = SIdle).
    { intros t p. unfold spec_of. cbn. rewrite lookup_fmap_Some.
      intros (q & <- & [_ <-]%lookup_gset_to_gmap_Some). done. }
    split; [by intros t p ->%H|done|by intros t p i ->%H|by intros t1 t2 p1 p2 i ->%H].
  - split; [by eapply conf_ok_step|].
    destruct (step_refines _ _ _ IH1 Hs) as [Hsp|[-> ->]].
    + eapply tokens_step; [done| |done|done]. by intros i [? _]%elem_of_free_bits.
    + cbn in Hm. by subst out'.
Qed.

(** ** Properties *)

(** Whether a context at [p] waits for the lock. *)
Definition at_lock (p : pc) : bool :=
  match p with AllocLock _ | FreeLock _ => true | _ => false end.

Lemma pc_enabled c t p :
  conf_ok c -> pcs c !! t = Some p -> at_lock p = false \/ lock c = false ->
  exists l c', pc_step c t p l c'.
Proof.
  intros Hok Ht Hen. pose proof (ok_len _ Hok) as Hlen.
  destruct p as [|b|b|b|ret b|b|b|b| |].
  - exists (CallAlloc t). eexists. apply (st_call_alloc _ _ 0).
  - destruct Hen; [done|]. do 2 eexists. by constructor.
  - destruct (find_first_clear_bit_cases (bits c) b Hlen) as [(i & Hi & _)|[Hi _]];
      do 2 eexists; by econstructor.
  - pose proof (ok_pcs _ Hok _ _ Ht) as (i & -> & Hi). do 2 eexists. econstructor.
    apply bit_array_put_in; [done|by eapply is_least_bound].
  - do 2 eexists. constructor.
  - do 2 eexists. constructor.
  - destruct Hen; [done|]. do 2 eexists. by constructor.
  - destruct (bit_array_clear_bit (bits c) b) as [l|] eqn:E;
      [do 2 eexists; by econstructor|].
    unfold bit_array_clear_bit, bit_array_put in E.
    destruct ((0 <=? b) && (b <? Z.of_nat BIT_ARR_SIZE)) eqn:Eb; [|done].
    apply andb_prop in Eb as [?%Z.leb_le ?%Z.ltb_lt].
    destruct (lookup_lt_is_Some_2 (bits c) (Z.to_nat b)) as [v Hv]; [lia|]. by rewrite Hv in E.
  - do 2 eexists. constructor.
  - do 2 eexists. constructor.
Qed.

(** C27. Mutual exclusion: no two contexts are between the lock and the unlock of
    [alloc_msgbuf_id] or [free_msgbuf_id] on a channel, and the lock is taken
    exactly while one is. *)
Theorem msgbuf_mutual_exclusion n c :
  reachable n c ->
  (forall t1 t2 p1 p2, pcs c !! t1 = Some p1 -> pcs c !! t2 = Some p2 ->
     critical p1 = true -> critical p2 = true -> t1 = t2)
  /\ (lock c = true <-> exists t p, pcs c !! t = Some p /\ critical p = true).
Proof.
  intros Hok%reachable_ok. split; [apply Hok|]. split; [apply Hok|].
  intros (t & p & Ht & Hp). by eapply critical_lock.
Qed.

(** C8. The operations on message ids are atomic: each step of a context, in any
    interleaving, is one step of the specification, in which taking the least
    free id and giving one back happen at once, or none. *)
Theorem msgbuf_ids_refine n c l c' :
  reachable n c -> step c l c' ->
  spec_step (spec_of c) l (spec_of c') \/ (l = Tau /\ spec_of c' = spec_of c).
Proof. intros Hok%reachable_ok Hs. by apply step_refines. Qed.

(** C9. No message id is handed out twice: among contexts that free only ids they
    were given, an id returned by [alloc_msgbuf_id] is below
    [RPC_MSG_BUF_NUM] and not in use, in any interleaving. *)
Theorem msgbuf_ids_unique n c out t b c' :
  client_run n c out -> step c (RetAlloc t b) c' ->
  0 <= b < RPC_MSG_BUF_NUM /\ Z.to_nat b ∉ out.
Proof.
  intros Hr (u & p & Hu & Hs). apply client_run_ok in Hr as [Hok [Hra _ Htok _]].
  inversion Hs; subst. apply spec_lookup in Hu.
  split; [by apply (Hra _ _ Hu)|by eapply Htok].
Qed.

(** No deadlock among contexts that all run: whenever one is inside a call,
    some context inside a call can take a step; the holder of the lock always
    can. *)
Theorem msgbuf_lock_progress n c t p :
  reachable n c -> pcs c !! t = Some p -> p <> Idle ->
  (critical p = true -> exists l c', pc_step c t p l c')
  /\ exists u q l c', pcs c !! u = Some q /\ q <> Idle /\ pc_step c u q l c'.
Proof.
  intros Hok%reachable_ok Ht Hp.
  assert (Hcr : forall u q, pcs c !! u = Some q -> critical q = true ->
    exists l c', pc_step c u q l c').
  { intros u q Hu Hq. eapply pc_enabled; [done|done|left]. by destruct q. }
  split; [by apply Hcr|]. destruct (lock c) eqn:Hl.
  - destruct (ok_held _ Hok Hl) as (u & q & Hu & Hq).
    destruct (Hcr u q Hu Hq) as (l & c' & Hs). exists u, q, l, c'.
    split; [done|split; [by intros ->|done]].
  - destruct (pc_enabled c t p) as (l & c' & Hs); [done|done|by right|].
    by exists t, p, l, c'.
Qed.

(** ** The sequential definitions *)

Definition taus (c c' : conf) : Prop := rtc (fun c c' => step c Tau c') c c'.

Lemma taus_step c t p c1 c' :
  pcs c !! t = Some p -> pc_step c t p Tau c1 -> taus c1 c' -> taus c c'.
Proof. intros Ht Hs Hr. eapply rtc_l; [|exact Hr]. by exists t, p. Qed.

(** [alloc_try] and [free_msgbuf_id] of [MsgbufIds], which run a critical
    section at once, do what a context does that takes all the steps of one
    undisturbed. *)
Theorem solo_critical_sections w ch rc l k t b :
  bitmap_at w ch rc l -> lock k = false -> bits k = l ->
  (pcs k !! t = Some (AllocLock b) -> exists r b' l' w',
     alloc_try ch b w = Ok (r, b') w'
     /\ heap w' = <[msgbuf_bitmap rc := BBytes l']> (heap w)
     /\ taus k (goto (set_bits l' k) t (if r =? 0 then AllocLock b' else AllocRet b')))
  /\ (pcs k !! t = Some (FreeLock (u64 b)) -> exists l' w',
     free_msgbuf_id ch b w = Ok tt w'
     /\ heap w' = <[msgbuf_bitmap rc := BBytes l']> (heap w)
     /\ taus k (goto (set_bits l' k) t FreeRet)).
Proof.
  intros Hbm Hlk Hbits. pose proof Hbm as [_ _ Hb Hlen]. destruct k as [lk l0 ps].
  cbn in Hlk, Hbits. subst lk l0. split; intros Ht; cbn in Ht.
  - destruct (find_first_clear_bit_cases l b Hlen) as [(i & Hi & Hl)|[Hi He]].
    + pose proof (is_least_bound _ _ Hl) as Hlt.
      pose proof (wp_alloc_try_found Total w ch rc l b i (fun r w' => r = (1, Z.of_nat i) /\
        w' = put_bitmap rc (<[i := 1]> l) w) Hbm Hl (conj eq_refl eq_refl)) as H.
      apply wp_total_run in H as (r & w' & Hr & -> & ->).
      exists 1, (Z.of_nat i), (<[i := 1]> l). eexists. split; [exact Hr|]. split; [done|].
      eapply taus_step; [exact Ht|by constructor|].
      eapply taus_step; [apply lookup_insert_eq|by constructor|].
      eapply taus_step; [apply lookup_insert_eq|constructor; by apply bit_array_put_in|].
      eapply taus_step; [apply lookup_insert_eq|by constructor|].
      unfold goto, set_lock, set_bits. cbn. rewrite !insert_insert_eq. apply rtc_refl.
    + pose proof (wp_alloc_try_full Total w ch rc l b (fun r w' => r = (0, b) /\ w' = w) Hbm He
        (conj eq_refl eq_refl)) as H.
      apply wp_total_run in H as (r & w' & Hr & -> & ->).
      exists 0, b, l. eexists. split; [exact Hr|]. split; [by rewrite insert_id|].
      eapply taus_step; [exact Ht|by constructor|].
      eapply taus_step; [apply lookup_insert_eq|by constructor|].
      eapply taus_step; [apply lookup_insert_eq|by constructor|].
      unfold goto, set_lock, set_bits. cbn. rewrite !insert_insert_eq. apply rtc_refl.
  - assert (exists l', bit_array_clear_bit l (u64 b) = Some l') as [l' Hl'].
    { unfold bit_array_clear_bit. destruct (decide (0 <= u64 b < Z.of_nat BIT_ARR_SIZE)).
      - rewrite <- (Z2Nat.id (u64 b)) by lia. rewrite bit_array_put_in by lia. eauto.
      - rewrite bit_array_put_out by done. eauto. }
    destruct (wp_total_unit (free_msgbuf_id ch b) (fun _ w' => w' = put_bitmap rc l' w) w)
      as (w' & Hr & ->); [by eapply wp_free_msgbuf_id|].
    exists l', (put_bitmap rc l' w). split; [done|]. split; [done|].
    eapply taus_step; [exact Ht|by constructor|].
    eapply taus_step; [apply lookup_insert_eq|by constructor|].
    eapply taus_step; [apply lookup_insert_eq|by constructor|].
    unfold goto, set_lock, set_bits. cbn. rewrite !insert_insert_eq. apply rtc_refl.
Qed.

(** ** One processor with interrupts *)

(** The contexts of a processor, innermost first.  Only the innermost runs; a
    completion interrupt, which [spin_lock] does not mask, starts a handler that
    frees an id on top of a context, and returns when its call has. *)
Inductive cpu_step : list tid * conf -> list tid * conf -> Prop :=
  | cpu_run t st c p l c' :
      pcs c !! t = Some p -> pc_step c t p l c' -> cpu_step (t :: st, c) (t :: st, c')
  | cpu_irq t h b c :
      h <> t -> pcs c !! h = Some Idle ->
      cpu_step ([t], c) ([h; t], goto c h (FreeLock b))
  | cpu_iret h t c :
      pcs c !! h = Some Idle -> cpu_step ([h; t], c) ([t], c).

(** C40. [spin_lock] leaves interrupts enabled, and the completion handler takes
    the lock too: on one processor, a sender interrupted inside
    [alloc_msgbuf_id] by the response to an earlier request deadlocks with the
    handler: a state with no further step is reachable. *)
Theorem msgbuf_interrupt_deadlock :
  exists c, rtc cpu_step ([0%nat], start 2) ([1%nat; 0%nat], c)
    /\ pcs c !! 1%nat = Some (FreeLock 0) /\ lock c = true
    /\ forall s, ~ cpu_step ([1%nat; 0%nat], c) s.
Proof.
  eexists. split.
  - do 8 (eapply rtc_l; [eapply cpu_run; [reflexivity|by econstructor]|]).
    eapply rtc_l; [by apply (cpu_irq 0 1 0)|]. apply rtc_refl.
  - split; [done|]. split; [done|]. intros s Hs.
    inversion Hs as [? ? ? p ? ? Hp Hst| |? ? ? Hp]; subst; [|done].
    injection Hp as <-. by inversion Hst.
    Unshelve. all: exact 0.
Qed.
