(* ===== verification/Wire.v ===== *)
(** * Wire: message sizes and the wire format of [struct rdma_msg]

    The size arithmetic of [rdma.c] on C [int]s, and what the field stores of
    [send_rdma_msg] leave in a buffer: three big-endian 64-bit integers and
    the data, whatever the byte order of the host. *)
From S2P Require Import Prelude Types Kernel.

(** ** Sizes *)

Definition msgheader_size : Z := i32 (Z.of_nat off_data).
Definition msgdata_size (msgbuf_size : Z) : Z := i32 (msgbuf_size - msgheader_size).
Definition msgbuf_size (msgdata_size : Z) : Z := i32 (msgdata_size + msgheader_size).

(** [sizeof *data] is 1; the sum and the comparison are on [uint64_t]. *)
Definition valid_msg_size (cb : rdma_ch_cb) : bool :=
  u64 (cb_msgheader_size cb + 1) <=? u64 (cb_msgbuf_size cb).

(** ** The image of a message *)

Definition wire_image (seqn rpc_ch sem : Z) (data : list Z) : list Z :=
  be_bytes 8 seqn ++ be_bytes 8 rpc_ch ++ be_bytes 8 sem ++ data.

(** ** Lemmas *)

Lemma msgheader_size_eq : msgheader_size = 24.
Proof. reflexivity. Qed.

Lemma msgbuf_size_small n : 0 <= n < 2 ^ 31 - 24 -> msgbuf_size n = n + 24.
Proof.
  intros Hn. unfold msgbuf_size, i32. rewrite msgheader_size_eq.
  apply sint_small; [lia|]. unfold in_i. lia.
Qed.

Lemma mem_u64_htonll be x : mem_u64 be (htonll be x) = be_bytes 8 x.
Proof. destruct be; [done|]. apply le_bytes_bswap. Qed.

Lemma length_mem_u64 be x : length (mem_u64 be x) = 8%nat.
Proof. destruct be; [apply length_be_bytes|apply length_le_bytes]. Qed.

Lemma ntohll_val_u64 be x : ntohll be (val_u64 be (be_bytes 8 x)) = u64 x.
Proof.
  destruct be; cbn [ntohll cpu_to_be64 val_u64].
  - by rewrite be_val_be_bytes.
  - rewrite <- le_bytes_bswap, le_val_le_bytes.
    rewrite Z.mod_small by apply bswap_range.
    unfold bswap at 1. rewrite le_bytes_bswap. by rewrite be_val_be_bytes.
Qed.

Lemma length_wire_image s c m d : length (wire_image s c m d) = (24 + length d)%nat.
Proof. unfold wire_image. by rewrite !length_app, !length_be_bytes. Qed.

Lemma write_at_app (a b c d : list Z) off :
  length a = off -> length b = length d ->
  write_at off d (a ++ b ++ c) = Some (a ++ d ++ c).
Proof.
  intros <- Hb. rewrite write_at_Some by (rewrite !length_app; lia).
  rewrite take_app_length, drop_app_add, <- Hb, drop_app_length. done.
Qed.

Lemma read_at_app (a b c : list Z) off n :
  length a = off -> length b = n -> read_at off n (a ++ b ++ c) = Some b.
Proof.
  intros <- <-. apply read_at_Some. rewrite !length_app. split; [lia|].
  by rewrite drop_app_length, take_app_length.
Qed.

Lemma split_at (l : list Z) n :
  (n <= length l)%nat -> exists a b, l = a ++ b /\ length a = n.
Proof.
  intros H. exists (take n l), (drop n l). by rewrite take_drop, length_take_le.
Qed.

(** The four stores of [send_rdma_msg], in its order, write the image of the
    message over the whole of a buffer of the right size. *)
Lemma wire_writes l s c m d :
  length l = (24 + length d)%nat ->
  (l1 ← write_at off_seq_num (be_bytes 8 s) l;
   l2 ← write_at off_sem_addr (be_bytes 8 m) l1;
   l3 ← write_at off_rpc_ch_addr (be_bytes 8 c) l2;
   write_at off_data d l3) = Some (wire_image s c m d).
Proof.
  intros Hl.
  destruct (split_at l 8) as (a1 & l1 & -> & H1); [lia|].
  destruct (split_at l1 8) as (a2 & l2 & -> & H2).
  { rewrite length_app in Hl. lia. }
  destruct (split_at l2 8) as (a3 & l3 & -> & H3).
  { rewrite !length_app in Hl. lia. }
  rewrite !length_app in Hl. unfold wire_image.
  pose proof (length_be_bytes 8 s). pose proof (length_be_bytes 8 c).
  pose proof (length_be_bytes 8 m).
  assert (E1 : write_at off_seq_num (be_bytes 8 s) (a1 ++ a2 ++ a3 ++ l3)
    = Some (be_bytes 8 s ++ a2 ++ a3 ++ l3)) by (apply (write_at_app []); [done|lia]).
  assert (E2 : write_at off_sem_addr (be_bytes 8 m) (be_bytes 8 s ++ a2 ++ a3 ++ l3)
    = Some (be_bytes 8 s ++ a2 ++ be_bytes 8 m ++ l3)).
  { rewrite !(app_assoc _ a2). apply write_at_app; rewrite ?length_app; unfold off_sem_addr; lia. }
  assert (E3 : write_at off_rpc_ch_addr (be_bytes 8 c) (be_bytes 8 s ++ a2 ++ be_bytes 8 m ++ l3)
    = Some (be_bytes 8 s ++ be_bytes 8 c ++ be_bytes 8 m ++ l3)).
  { apply write_at_app; unfold off_rpc_ch_addr; lia. }
  rewrite E1. cbn [mbind option_bind]. rewrite E2. cbn [mbind option_bind].
  rewrite E3. cbn [mbind option_bind].
  pose proof (write_at_app (be_bytes 8 s ++ be_bytes 8 c ++ be_bytes 8 m) l3 [] d off_data) as E4.
  rewrite !app_nil_r, <- !app_assoc in E4.
  apply E4; [rewrite !length_app; cbn|]; lia.
Qed.

(** What [printk] is given: the data part of the buffer. *)
Lemma wire_drop_data s c m d : drop off_data (wire_image s c m d) = d.
Proof.
  unfold wire_image. rewrite !app_assoc. apply drop_app_length'.
  by rewrite !length_app, !length_be_bytes.
Qed.

Lemma wire_read_seqn s c m d :
  read_at off_seq_num 8 (wire_image s c m d) = Some (be_bytes 8 s).
Proof. by apply (read_at_app []); [|apply length_be_bytes]. Qed.

Lemma wire_read_rpc_ch s c m d :
  read_at off_rpc_ch_addr 8 (wire_image s c m d) = Some (be_bytes 8 c).
Proof. apply read_at_app; apply length_be_bytes. Qed.

Lemma wire_read_sem s c m d :
  read_at off_sem_addr 8 (wire_image s c m d) = Some (be_bytes 8 m).
Proof.
  unfold wire_image. rewrite app_assoc.
  apply read_at_app; rewrite ?length_app, !length_be_bytes; done.
Qed.

Lemma wire_read_data s c m d :
  read_at off_data (length d) (wire_image s c m d) = Some d.
Proof.
  pose proof (read_at_app (be_bytes 8 s ++ be_bytes 8 c ++ be_bytes 8 m) d []
    off_data (length d)) as E.
  rewrite !app_nil_r, <- !app_assoc in E. apply E; [|done].
  by rewrite !length_app, !length_be_bytes.
Qed.

(** The size arithmetic on [int]: for a data size in [0, 2^31 - 24) the
    buffer is 24 bytes larger and its size converts back to the data size; for
    the larger [int]s the sum wraps to a negative buffer size. *)
Theorem msg_sizes_roundtrip n :
  0 <= n < 2 ^ 31 ->
  if n <? 2 ^ 31 - 24
  then msgbuf_size n = n + 24 /\ msgdata_size (msgbuf_size n) = n
  else msgbuf_size n < 0.
Proof.
  intros Hn. destruct (Z.ltb_spec n (2 ^ 31 - 24)).
  - rewrite (msgbuf_size_small n) by lia. split; [done|].
    unfold msgdata_size, i32. rewrite msgheader_size_eq, Z.add_simpl_r.
    apply sint_small; [lia|]. unfold in_i. lia.
  - unfold msgbuf_size, i32, sint. rewrite msgheader_size_eq.
    rewrite Z.mod_small by lia. destruct (Z.leb_spec (2 ^ (32 - 1)) (n + 24)); lia.
Qed.
