(* ===== verification/Frame.v ===== *)
(** * Frame: what the data path leaves alone

    [kept w0 w]: between [w0] and [w] no control block disappeared or changed
    except in its [state], the completion queues are the same, and fresh
    addresses stay fresh.  The handlers the program installs and the receive
    path keep a state in this sense; the relation is a preorder, and every
    primitive on blocks of another type preserves it. *)
From S2P Require Import Prelude Types Kernel Logic.

Definition with_state (s : rdma_ch_state) (c : rdma_ch_cb) : rdma_ch_cb :=
  c <| cb_state := s |>.

Definition is_cb (b : block) : bool := match b with BCb _ => true | _ => false end.

Record kept (w0 w : world) : Prop := {
  kp_fresh : fresh_ok w;
  kp_cqs : cqs w = cqs w0;
  kp_cbs : forall a c, heap w0 !! a = Some (BCb c) ->
    exists s, heap w !! a = Some (BCb (with_state s c)) }.

Lemma with_state_id c : with_state (cb_state c) c = c.
Proof. by destruct c. Qed.

Lemma with_state_twice s s' c : with_state s (with_state s' c) = with_state s c.
Proof. done. Qed.

Lemma kept_refl w : fresh_ok w -> kept w w.
Proof. intros Hf. split; [done..|]. intros a c Ha. exists (cb_state c). by rewrite with_state_id. Qed.

Lemma kept_trans w1 w2 w3 : kept w1 w2 -> kept w2 w3 -> kept w1 w3.
Proof.
  intros [F1 Q1 C1] [F2 Q2 C2]. split; [done|congruence|].
  intros a c Ha. destruct (C1 a c Ha) as [s Hs]. destruct (C2 _ _ Hs) as [s' Hs'].
  exists s'. by rewrite Hs', with_state_twice.
Qed.

(** ** Preservation *)

Section preserve.
Context (w0 : world).
Implicit Types (w : world) (b : block).

Lemma kept_log e w : kept w0 w -> kept w0 (log e w).
Proof. intros [[Hp Hf] Hq Hc]. by repeat split. Qed.

Lemma kept_woken q w : kept w0 w -> kept w0 (set_woken q w).
Proof. intros [[Hp Hf] Hq Hc]. by repeat split. Qed.

Lemma kept_sched s w : kept w0 w -> kept w0 (set_sched s w).
Proof. intros [[Hp Hf] Hq Hc]. by repeat split. Qed.

Lemma kept_cms f w : kept w0 w -> kept w0 (upd_cms f w).
Proof. intros [[Hp Hf] Hq Hc]. by repeat split. Qed.

Lemma kept_insert a b b' w :
  heap w !! a = Some b -> is_cb b = false -> kept w0 w ->
  kept w0 (upd_heap (insert a b') w).
Proof.
  intros Ha Hb [[Hp Hf] Hq Hc]. split; [split|done|]; wsimpl; [done|..].
  - intros x Hx. rewrite lookup_insert_ne; [auto|].
    intros ->. rewrite Hf in Ha; done.
  - intros x c Hx. destruct (Hc x c Hx) as [s Hs]. exists s.
    rewrite lookup_insert_ne; [done|]. intros ->. rewrite Ha in Hs. by simplify_eq.
Qed.

Lemma kept_insert_cb a c s w :
  heap w !! a = Some (BCb c) -> kept w0 w ->
  kept w0 (upd_heap (insert a (BCb (with_state s c))) w).
Proof.
  intros Ha [[Hp Hf] Hq Hc]. split; [split|done|]; wsimpl; [done|..].
  - intros x Hx. rewrite lookup_insert_ne; [auto|].
    intros ->. rewrite Hf in Ha; done.
  - intros x c' Hx. destruct (Hc x c' Hx) as [s' Hs].
    destruct (decide (a = x)) as [->|]; [|exists s'; by rewrite lookup_insert_ne].
    exists s. rewrite lookup_insert_eq. rewrite Ha in Hs.
    injection Hs as ->. by rewrite with_state_twice.
Qed.

Lemma kept_delete a b w :
  heap w !! a = Some b -> is_cb b = false -> kept w0 w ->
  kept w0 (upd_heap (delete a) w).
Proof.
  intros Ha Hb [[Hp Hf] Hq Hc]. split; [split|done|]; wsimpl; [done|..].
  - intros x Hx. rewrite lookup_delete. case_decide; auto.
  - intros x c Hx. destruct (Hc x c Hx) as [s Hs]. exists s.
    rewrite lookup_delete_ne; [done|]. intros ->. rewrite Ha in Hs. by simplify_eq.
Qed.

Lemma kept_alloc a n b w :
  a = next w -> n = next w + 1 -> kept w0 w ->
  kept w0 (set_next n (upd_heap (insert a b) w)).
Proof.
  intros -> -> [[Hp Hf] Hq Hc]. split; [split|done|]; wsimpl; [lia|..].
  - intros x Hx. rewrite lookup_insert_ne by lia. apply Hf. lia.
  - intros x c Hx. destruct (Hc x c Hx) as [s Hs]. exists s.
    rewrite lookup_insert_ne; [done|]. intros <-. rewrite Hf in Hs; [done|lia].
Qed.
End preserve.

#[export] Hint Resolve kept_refl kept_log kept_woken kept_sched kept_cms : rpc.

Ltac solve_kept :=
  repeat first
    [ assumption
    | apply kept_log | apply kept_woken | apply kept_sched | apply kept_cms
    | eapply kept_insert; [heap_lookup|reflexivity|]
    | eapply kept_delete; [heap_lookup|reflexivity|]
    | apply kept_alloc; [reflexivity|reflexivity|] ].
