(* ===== verification/RdmaIo.v ===== *)
(** * RdmaIo: sending, receiving and completions ([rdma.c])

    [send_rdma_msg], [receive_msg], the completion loop [cq_event_handler] and
    the interrupt [cq_thread].  The RPC layer's handler is called through the
    function pointer the channel was created with: the interface
    [RpcHandler]. *)
From S2P Require Import Prelude Types Kernel Logic Frame Wire.


(** The call of a function pointer on a [struct rpc_msg_handler_param]. *)
Class RpcHandler := rpc_handler : fnptr -> addr -> M unit.

(** What the receive path needs of it: it keeps the control blocks (up to
    their state) and the completion queues. *)
Class RpcHandlerLaws (R : RpcHandler) : Prop :=
  handler_kept f p w w' : fresh_ok w -> rpc_handler f p w = Ok tt w' -> kept w w'.

Section Io.
Context {K : Kernel} {R : RpcHandler}.

(** ** Sending *)

(** [mb_ctx->seqn] is an [unsigned long]. *)
Definition alloc_seqn (ctxs : addr) (msgbuf_id : Z) : M Z :=
  update_ctx ctxs msgbuf_id (fun c => c <| mc_seqn := u64 (mc_seqn c + 1) |>);;
  c ← load_ctx ctxs msgbuf_id;
  mret (mc_seqn c).

Definition store_be64 (msg : addr) (off : nat) (x : Z) : M unit :=
  write_bytes msg off (mem_u64 k_big_endian (htonll k_big_endian x)).
Definition load_be64 (msg : addr) (off : nat) : M Z :=
  b ← read_bytes msg off 8; mret (ntohll k_big_endian (val_u64 k_big_endian b)).

(** The stores into the send buffer [msg]. *)
Definition send_fill (cb : rdma_ch_cb) (msg rpc_ch_addr data : addr)
    (sem msgbuf_id seqn : Z) : M unit :=
  (if seqn =? 0
   then new_seqn ← alloc_seqn (cb_buf_ctxs cb) msgbuf_id;
        store_be64 msg off_seq_num new_seqn
   else store_be64 msg off_seq_num seqn);;
  store_be64 msg off_sem_addr sem;;
  store_be64 msg off_rpc_ch_addr rpc_ch_addr;;
  d ← read_bytes data 0 (cb_msgdata_size cb);
  write_bytes msg off_data d.

Definition send_rdma_msg (cba rpc_ch_addr data : addr) (sem msgbuf_id seqn : Z) : M Z :=
  cb ← load cba;
  if cb_msgbuf_cnt cb <=? msgbuf_id then mret 0 else
  mb_ctx ← load_ctx (cb_buf_ctxs cb) msgbuf_id;
  let msg := send_buf mb_ctx in
  send_fill cb msg rpc_ch_addr data sem msgbuf_id seqn;;
  l ← load msg; printk_s (drop off_data l);;
  mb_ctx ← load_ctx (cb_buf_ctxs cb) msgbuf_id;
  ret ← ib_post_send (cb_qp cb) (sq_wr mb_ctx);
  l ← load msg; printk_s (drop off_data l);;
  if ret =? 0 then mret (cb_msgbuf_size cb) else mret 0.

(** ** Receiving *)

(** The copy into the three objects handed to the callbacks, once they are
    allocated. *)
Definition receive_fill (cba : addr) (cb : rdma_ch_cb) (msgbuf_id : Z)
    (rpc_param param msg : addr) : M unit :=
  mb_ctx ← load_ctx (cb_buf_ctxs cb) msgbuf_id;
  s ← load_be64 (recv_buf mb_ctx) off_seq_num;
  update msg (fun m => m <| msg_seqn := s |>);;
  s ← load_be64 (recv_buf mb_ctx) off_sem_addr;
  update msg (fun m => m <| msg_sem := s |>);;
  s ← load_be64 (recv_buf mb_ctx) off_rpc_ch_addr;
  update msg (fun m => m <| msg_client_rpc_ch := s |>);;
  d ← read_bytes (recv_buf mb_ctx) off_data (cb_msgdata_size cb);
  m ← load (T := rpc_msg) msg;
  d' ← from_option OutOfBounds (write_at 0 d (msg_data m));
  store msg (m <| msg_data := d' |>);;
  update param (fun p => p <| mp_msgbuf_id := msgbuf_id |>);;
  update param (fun p => p <| mp_ch_cb := cba |>);;
  update param (fun p => p <| mp_msg := msg |>);;
  update rpc_param (fun p => p <| rp_msgbuf_id := msgbuf_id |>);;
  s ← load_be64 (recv_buf mb_ctx) off_rpc_ch_addr;
  update rpc_param (fun p => p <| rp_client_rpc_ch := s |>);;
  update rpc_param (fun p => p <| rp_param := param |>);;
  update rpc_param (fun p => p <| rp_user_msg_handler_cb := cb_user_msg_handler_cb cb |>).

(** After the handler has returned. *)
Definition receive_done (cba : addr) : M Z :=
  cb ← load cba;
  (if cb_state cb <=s CONNECTED
   then store cba (cb <| cb_state := WORKING |>) else mret tt);;
  mret 0.

(** The three allocations; when one fails, those before it are freed. *)
Definition receive_alloc (cb : rdma_ch_cb) : M (option (addr * addr * addr)) :=
  rpc_param ← kzalloc zero_rpc_param;
  if rpc_param =? NULL then mret None else
  param ← kzalloc zero_param;
  if param =? NULL then kfree rpc_param;; mret None else
  msg ← kzalloc_size (cb_msgbuf_size cb)
    {| msg_seqn := 0; msg_client_rpc_ch := NULL; msg_sem := 0;
       msg_data := zeros (cb_msgbuf_size cb - msgheader_size) |};
  if msg =? NULL then kfree param;; kfree rpc_param;; mret None else
  mret (Some (rpc_param, param, msg)).

(** Everything before the call of the handler: [inl ret] is an early return,
    [inr (f, p)] the handler to call and its argument. *)
Definition receive_copy (cba : addr) (wc : ib_wc) : M (Z + fnptr * addr) :=
  cb ← load cba;
  if negb (wc_byte_len wc =? u32 (cb_msgbuf_size cb)) then mret (inl (-1)) else
  r ← receive_alloc cb;
  match r with
  | None => mret (inl (- ENOMEM))
  | Some (rpc_param, param, msg) =>
      receive_fill cba cb (i32 (wc_wr_id wc)) rpc_param param msg;;
      m ← load (T := rpc_msg) msg; printk_s (msg_data m);;
      cb ← load (T := rdma_ch_cb) cba;
      mret (inr (cb_rpc_msg_handler_cb cb, rpc_param))
  end.

Definition receive_msg (cba : addr) (wc : ib_wc) : M Z :=
  r ← receive_copy cba wc;
  match r with
  | inl ret => mret ret
  | inr (f, p) => rpc_handler f p;; receive_done cba
  end.

(** ** Completions *)

(** One completion: [inl ret] is [goto error] with [ret], [inr flushed] goes
    round the loop. *)
Definition cq_complete (cba : addr) (wc : ib_wc) (flushed : Z) : M (Z + Z) :=
  match wc_status wc with
  | IB_WC_WR_FLUSH_ERR => mret (inr 1)
  | IB_WC_ERR _ => mret (inl (-1))
  | IB_WC_SUCCESS =>
      match wc_opcode wc with
      | IB_WC_SEND | IB_WC_RDMA_WRITE | IB_WC_RDMA_READ => mret (inr flushed)
      | IB_WC_RECV =>
          ret ← receive_msg cba wc;
          if negb (ret =? 0) then mret (inl ret) else
          cb ← load (T := rdma_ch_cb) cba;
          mb_ctx ← load_ctx (cb_buf_ctxs cb) (wc_wr_id wc);
          ret ← ib_post_recv (cb_qp cb) (rq_wr mb_ctx);
          if negb (ret =? 0) then mret (inl ret) else mret (inr flushed)
      | IB_WC_OTHER _ => mret (inl (-1))
      end
  end.

(** The label [error]. *)
Definition cq_error (cba : addr) (ret : Z) : M Z :=
  update cba (fun cb => cb <| cb_state := ERROR |>);;
  wake_up_interruptible (WqCb cba);;
  mret ret.

Fixpoint cq_loop (fuel : nat) (cba : addr) (flushed : Z) : M Z :=
  cb ← load cba;
  p ← ib_poll_cq (cb_cq cb);
  match p with
  | PollEmpty => mret flushed
  | PollErr ret => if ret =? 0 then mret flushed else cq_error cba ret
  | PollWc wc =>
      match fuel with
      | O => block_here
      | S fuel =>
          r ← cq_complete cba wc flushed;
          match r with
          | inl ret => cq_error cba ret
          | inr flushed => cq_loop fuel cba flushed
          end
      end
  end.

(** The queue holds the answers [ib_poll_cq] will give; their number bounds
    the rounds of the loop. *)
Definition cq_event_handler (cba : addr) : M Z :=
  cb ← load (T := rdma_ch_cb) cba;
  m ← get cqs;
  cq_loop (match m !! cb_cq cb with Some c => length (cq_polls c) | None => O end) cba 0.

(** [ret] is tested although the call of [ib_req_notify_cq] no longer
    assigns it. *)
Definition cq_thread (cq : kptr) (ctx : addr) : M unit :=
  cb ← load ctx;
  if negb (bool_decide (cb_cq cb = cq)) then fault BugOn else
  if cb_state cb =s ERROR then mret tt else
  ib_req_notify_cq (cb_cq cb);;
  ret ← indeterminate;
  if negb (ret =? 0) then mret tt else
  cq_event_handler ctx;;
  mret tt.
End Io.

(** ** Rules for the byte-order helpers *)

Section Io_rules.
Context {K : Kernel} {t : mode}.

Lemma wp_store_be64 a l l' off x Q w :
  heap w !! a = Some (BBytes l) -> write_at off (be_bytes 8 x) l = Some l' ->
  Q tt (upd_heap (insert a (BBytes l')) w) ->
  wp t (store_be64 a off x) Q w.
Proof.
  intros Ha Hw HQ. unfold store_be64. rewrite mem_u64_htonll.
  by eapply wp_write_bytes.
Qed.

Lemma wp_load_be64 a l off x Q w :
  heap w !! a = Some (BBytes l) -> read_at off 8 l = Some (be_bytes 8 x) ->
  Q (u64 x) w -> wp t (load_be64 a off) Q w.
Proof.
  intros Ha Hr HQ. unfold load_be64. wp_step.
  eapply wp_read_bytes; [done|lia|done|]. wp_step. by rewrite ntohll_val_u64.
Qed.
End Io_rules.

(** ** Sending *)

(** Channel [cba] with contexts [l], of which number [id] is [c] and owns the
    send buffer [buf]; [data] holds enough bytes for a message. *)
Record send_pre (w : world) (cba : addr) (cb : rdma_ch_cb) (l : list msgbuf_ctx)
    (id : Z) (c : msgbuf_ctx) (data : addr) (bd : list Z) : Prop := {
  sp_cb : heap w !! cba = Some (BCb cb);
  sp_ctxs_at : heap w !! cb_buf_ctxs cb = Some (BCtxs l);
  sp_ctx : ctx_at l id = Some c;
  sp_id : id < cb_msgbuf_cnt cb;
  sp_size : 0 <= cb_msgdata_size cb;
  sp_buf : exists buf, heap w !! send_buf c = Some (BBytes buf)
    /\ length buf = (24 + Z.to_nat (cb_msgdata_size cb))%nat;
  sp_data : heap w !! data = Some (BBytes bd);
  sp_data_len : (Z.to_nat (cb_msgdata_size cb) <= length bd)%nat;
  sp_apart : data <> send_buf c;
  sp_qp : cb_qp cb ∈ qps w }.

(** The message that goes out, a C string somewhere in it. *)
Definition sent_data (cb : rdma_ch_cb) (bd : list Z) : list Z :=
  take (Z.to_nat (cb_msgdata_size cb)) bd.

(** The sequence number a message gets, and the context after it. *)
Definition sent_seqn (c : msgbuf_ctx) (seqn : Z) : Z :=
  if seqn =? 0 then u64 (mc_seqn c + 1) else seqn.
Definition ctxs_after_send (l : list msgbuf_ctx) (id : Z) (c : msgbuf_ctx) (seqn : Z)
    : list msgbuf_ctx :=
  if seqn =? 0 then <[Z.to_nat id := c <| mc_seqn := u64 (mc_seqn c + 1) |>]> l else l.

(** What [send_rdma_msg] leaves. *)
Record send_post `{K : Kernel} (w : world) (cb : rdma_ch_cb) (l : list msgbuf_ctx) (id : Z)
    (c : msgbuf_ctx) (image : list Z) (seqn r : Z) (w' : world) : Prop := {
  st_image : heap w' !! send_buf c = Some (BBytes image);
  st_ctxs : heap w' !! cb_buf_ctxs cb = Some (BCtxs (ctxs_after_send l id c seqn));
  st_frame : forall a, a <> send_buf c -> a <> cb_buf_ctxs cb -> heap w' !! a = heap w !! a;
  st_posted : exists e, e = k_post_send (trace w) (cb_qp cb) (sq_wr c)
    /\ trace w' = EvPostSend (cb_qp cb) (sq_wr c) e :: trace w
    /\ r = (if e =? 0 then cb_msgbuf_size cb else 0);
  st_rest : next w' = next w /\ sched w' = sched w /\ objs w' = objs w }.

Section Send.
Context {K : Kernel}.

Lemma wp_alloc_seqn t a l id c Q w :
  heap w !! a = Some (BCtxs l) -> ctx_at l id = Some c ->
  Q (u64 (mc_seqn c + 1))
    (upd_heap (insert a (BCtxs (<[Z.to_nat id := c <| mc_seqn := u64 (mc_seqn c + 1) |>]> l))) w) ->
  wp t (alloc_seqn a id) Q w.
Proof.
  intros Ha Hc HQ. unfold alloc_seqn. do 4 wp_step; [by eapply ctx_at_insert|].
  wp_step. exact HQ.
Qed.

(** The stores after the sequence number. *)
Ltac send_rest :=
  do 2 (wp_step; eapply wp_store_be64; [heap_lookup|done|]);
  wp_step; (eapply wp_read_bytes;
    [heap_lookup|done|apply read_at_Some; split; [done|reflexivity]|]);
  (eapply wp_write_bytes; [heap_lookup|done|]).

(** The memory after the stores. *)
Record send_filled (w : world) (cb : rdma_ch_cb) (l : list msgbuf_ctx) (id : Z)
    (c : msgbuf_ctx) (image : list Z) (seqn : Z) (w' : world) : Prop := {
  sf_image : heap w' !! send_buf c = Some (BBytes image);
  sf_ctxs : heap w' !! cb_buf_ctxs cb = Some (BCtxs (ctxs_after_send l id c seqn));
  sf_frame : forall a, a <> send_buf c -> a <> cb_buf_ctxs cb ->
    heap w' !! a = heap w !! a;
  sf_rest : trace w' = trace w /\ next w' = next w /\ sched w' = sched w
    /\ objs w' = objs w }.

Lemma wp_send_fill t w cba cb l id c data bd ch sem seqn (Q : unit -> world -> Prop) :
  send_pre w cba cb l id c data bd ->
  (forall w', send_filled w cb l id c
     (wire_image (sent_seqn c seqn) ch sem (sent_data cb bd)) seqn w' -> Q tt w') ->
  wp t (send_fill cb (send_buf c) ch data sem id seqn) Q w.
Proof.
  intros [Hcb Hl Hc Hid Hsz (buf & Hbuf & Hlen) Hd Hdl Hne Hqp] HQ.
  unfold sent_data in *. set (n := Z.to_nat (cb_msgdata_size cb)) in *.
  assert (Hw : length buf = (24 + length (take n bd))%nat) by (rewrite length_take; lia).
  apply (wire_writes buf (sent_seqn c seqn) ch sem) in Hw.
  destruct (write_at off_seq_num _ _) as [b1|] eqn:E1; [|done]. cbn in Hw.
  destruct (write_at off_sem_addr _ _) as [b2|] eqn:E2; [|done]. cbn in Hw.
  destruct (write_at off_rpc_ch_addr _ _) as [b3|] eqn:E3; [|done]. cbn in Hw.
  assert (send_buf c <> cb_buf_ctxs cb) by congruence.
  assert (data <> cb_buf_ctxs cb) by congruence.
  unfold send_fill, sent_seqn in *. wp_step.
  destruct (Z.eqb_spec seqn 0) as [->|Hs].
  - wp_step. eapply wp_alloc_seqn; [done..|].
    eapply wp_store_be64; [heap_lookup|done|]. send_rest. apply HQ.
    split; [heap_lookup|heap_lookup|intros a ? ?; by wsimpl; rewrite !lookup_insert_ne by done|done].
  - eapply wp_store_be64; [heap_lookup|done|]. send_rest. apply HQ.
    split; [heap_lookup| |intros a ? ?; by wsimpl; rewrite !lookup_insert_ne by done|done].
    unfold ctxs_after_send. rewrite (proj2 (Z.eqb_neq _ _) Hs). heap_lookup.
Qed.

(** The context whose request is posted: only its [seqn] has changed. *)
Lemma ctx_after_send l id c seqn : ctx_at l id = Some c ->
  exists c', ctx_at (ctxs_after_send l id c seqn) id = Some c' /\ sq_wr c' = sq_wr c.
Proof.
  intros Hc. unfold ctxs_after_send. destruct (seqn =? 0); [|by exists c].
  eexists. split; [by eapply ctx_at_insert|done].
Qed.

Lemma wp_send_rdma_msg t w cba cb l id c data bd ch sem seqn :
  send_pre w cba cb l id c data bd -> is_Some (c_str (sent_data cb bd)) ->
  wp t (send_rdma_msg cba ch data sem id seqn)
    (fun r w' => send_post w cb l id c
      (wire_image (sent_seqn c seqn) ch sem (sent_data cb bd)) seqn r w') w.
Proof.
  intros Hpre Hstr. pose proof Hpre as [Hcb Hl Hc Hid _ _ _ _ _ Hqp].
  unfold send_rdma_msg. wp_step. wp_step.
  destruct (Z.leb_spec (cb_msgbuf_cnt cb) id); [lia|]. do 3 wp_step.
  eapply wp_send_fill; [done|].
  intros w1 [Him Hct Hfr (Ht & Hn & Hs & Ho)].
  destruct (ctx_after_send _ _ _ seqn Hc) as (c' & Hc' & Hsq).
  pose proof (objs_inv _ _ Ho) as (_ & _ & _ & Eqp & _). rewrite <- Eqp in Hqp.
  do 3 wp_step. apply wp_printk_s; [by rewrite wire_drop_data|].
  do 10 wp_step. apply wp_printk_s; [by rewrite wire_drop_data|].
  rewrite Hsq, Ht. destruct (_ =? 0) eqn:E; wp_step; split; try done;
    (eexists; split; [reflexivity|]; split; [by wsimpl; rewrite Ht|by rewrite E]).
Qed.

Lemma send_overread w cba cb l id c data bd ch sem seqn :
  send_pre w cba cb l id c data bd -> c_str (sent_data cb bd) = None ->
  send_rdma_msg cba ch data sem id seqn w = Undef OutOfBounds.
Proof.
  intros Hpre Hstr. pose proof Hpre as [Hcb Hl Hc Hid _ _ _ _ _ _].
  unfold send_rdma_msg. apply fault_bind. wp_step.
  destruct (Z.leb_spec (cb_msgbuf_cnt cb) id); [lia|]. apply fault_bind. wp_step.
  apply fault_bind. eapply wp_send_fill; [done|]. intros w1 [Him _ _ _].
  apply fault_bind. wp_step. apply bind_undef. unfold printk_s.
  by rewrite wire_drop_data, Hstr.
Qed.

(** Data shorter than a message is read beyond its end. *)
Lemma send_short_data w cba cb l id c data bd buf ch sem seqn :
  heap w !! cba = Some (BCb cb) -> heap w !! cb_buf_ctxs cb = Some (BCtxs l) ->
  ctx_at l id = Some c -> id < cb_msgbuf_cnt cb ->
  heap w !! send_buf c = Some (BBytes buf) -> (24 <= length buf)%nat ->
  heap w !! data = Some (BBytes bd) -> data <> send_buf c ->
  Z.of_nat (length bd) < cb_msgdata_size cb ->
  send_rdma_msg cba ch data sem id seqn w = Undef OutOfBounds.
Proof.
  intros Hcb Hl Hc Hid Hb Hlen Hd Hne Hsz.
  assert (Hw : forall off x b, (off + 8 <= 24)%nat -> (24 <= length b)%nat -> exists b',
    write_at off (be_bytes 8 x) b = Some b' /\ (24 <= length b')%nat).
  { intros off x b Ho Hl'. eexists. rewrite write_at_Some; [split; [done|]|].
    - rewrite !length_app, length_take, length_drop, length_be_bytes. lia.
    - rewrite length_be_bytes. lia. }
  destruct (Hw off_seq_num (sent_seqn c seqn) buf) as (b1 & E1 & L1); [cbn; lia|done|].
  destruct (Hw off_sem_addr sem b1) as (b2 & E2 & L2); [unfold off_sem_addr; lia|done|].
  destruct (Hw off_rpc_ch_addr ch b2) as (b3 & E3 & L3); [unfold off_rpc_ch_addr; lia|done|].
  assert (send_buf c <> cb_buf_ctxs cb) by congruence.
  assert (data <> cb_buf_ctxs cb) by congruence.
  unfold send_rdma_msg. apply fault_bind. wp_step.
  destruct (Z.leb_spec (cb_msgbuf_cnt cb) id); [lia|]. apply fault_bind. wp_step.
  apply bind_undef. unfold send_fill. apply fault_bind.
  assert (Hend : forall w1, heap w1 !! data = Some (BBytes bd) ->
    heap w1 !! send_buf c = Some (BBytes b1) ->
    (store_be64 (send_buf c) off_sem_addr sem;; store_be64 (send_buf c) off_rpc_ch_addr ch;;
     d ← read_bytes data 0 (cb_msgdata_size cb); write_bytes (send_buf c) off_data d) w1
    = Undef OutOfBounds).
  { intros w1 Hd1 Hs1. apply fault_bind. eapply wp_store_be64; [done|done|].
    apply fault_bind. eapply wp_store_be64; [heap_lookup|done|].
    apply bind_undef. unfold read_bytes. destruct (Z.ltb_spec (cb_msgdata_size cb) 0); [lia|].
    erewrite bind_run by (apply load_run; heap_lookup). unfold read_at.
    by rewrite decide_False by lia. }
  unfold sent_seqn in E1. destruct (Z.eqb_spec seqn 0) as [->|Hs].
  - wp_step. eapply wp_alloc_seqn; [done..|].
    eapply wp_store_be64; [heap_lookup|done|]. apply Hend; heap_lookup.
  - eapply wp_store_be64; [heap_lookup|done|]. apply Hend; heap_lookup.
Qed.
End Send.

(** ** Receiving *)

(** A message of the right length has arrived in the receive buffer that the
    completion [wc] names. *)
Record recv_pre (w : world) (cba : addr) (cb : rdma_ch_cb) (l : list msgbuf_ctx)
    (wc : ib_wc) (c : msgbuf_ctx) (seqn ch sem : Z) (d : list Z) : Prop := {
  rv_cb : heap w !! cba = Some (BCb cb);
  rv_ctxs : heap w !! cb_buf_ctxs cb = Some (BCtxs l);
  rv_len : wc_byte_len wc = u32 (cb_msgbuf_size cb);
  rv_ctx : ctx_at l (i32 (wc_wr_id wc)) = Some c;
  rv_buf : heap w !! recv_buf c = Some (BBytes (wire_image seqn ch sem d));
  rv_sizes : cb_msgbuf_size cb = cb_msgdata_size cb + 24;
  rv_data : Z.of_nat (length d) = cb_msgdata_size cb;
  rv_fresh : fresh_ok w }.

(** The objects handed to the handler, at the addresses [p], [p + 1] and
    [p + 2]. *)
Definition recv_rpc_param (cb : rdma_ch_cb) (wc : ib_wc) (ch : Z) (p : addr)
    : rpc_msg_handler_param :=
  {| rp_msgbuf_id := i32 (wc_wr_id wc); rp_client_rpc_ch := u64 ch;
     rp_param := p + 1; rp_user_msg_handler_cb := cb_user_msg_handler_cb cb |}.
Definition recv_param (cba : addr) (wc : ib_wc) (p : addr) : msg_handler_param :=
  {| mp_client_id := 0; mp_msgbuf_id := i32 (wc_wr_id wc); mp_ch_cb := cba;
     mp_msg := p + 2 |}.
Definition recv_rpc_msg (seqn ch sem : Z) (d : list Z) : rpc_msg :=
  {| msg_seqn := u64 seqn; msg_client_rpc_ch := u64 ch; msg_sem := u64 sem;
     msg_data := d |}.

(** The history after three successful allocations. *)
Definition recv_trace (w : world) : list event :=
  EvKzalloc (next w + 2) :: EvKzalloc (next w + 1) :: EvKzalloc (next w) :: trace w.

Section Receive.
Context {K : Kernel}.

(** Whether the three allocations of [receive_msg] succeed. *)
Definition recv_allocs_ok (w : world) (cb : rdma_ch_cb) : bool :=
  (0 <=? cb_msgbuf_size cb) && k_kzalloc (trace w) (BRpcParam zero_rpc_param) &&
  k_kzalloc (EvKzalloc (next w) :: trace w) (BParam zero_param) &&
  k_kzalloc (EvKzalloc (next w + 1) :: EvKzalloc (next w) :: trace w)
    (BRpcMsg {| msg_seqn := 0; msg_client_rpc_ch := NULL; msg_sem := 0;
                msg_data := zeros (cb_msgbuf_size cb - msgheader_size) |}).

(** The three objects at [p], [p + 1], [p + 2]. *)
Definition put_recv_objects (p : addr) (rp : rpc_msg_handler_param)
    (mp : msg_handler_param) (m : rpc_msg) (h : gmap addr block) : gmap addr block :=
  <[p := BRpcParam rp]> (<[p + 1 := BParam mp]> (<[p + 2 := BRpcMsg m]> h)).

Lemma wp_receive_fill t w cba cb l wc c seqn ch sem d p m0 (Q : unit -> world -> Prop) :
  heap w !! cb_buf_ctxs cb = Some (BCtxs l) ->
  ctx_at l (i32 (wc_wr_id wc)) = Some c ->
  heap w !! recv_buf c = Some (BBytes (wire_image seqn ch sem d)) ->
  Z.of_nat (length d) = cb_msgdata_size cb ->
  heap w !! p = Some (BRpcParam zero_rpc_param) ->
  heap w !! (p + 1) = Some (BParam zero_param) ->
  heap w !! (p + 2) = Some (BRpcMsg m0) ->
  length (msg_data m0) = length d ->
  Q tt (upd_heap (put_recv_objects p (recv_rpc_param cb wc ch p)
          (recv_param cba wc p) (recv_rpc_msg seqn ch sem d)) w) ->
  wp t (receive_fill cba cb (i32 (wc_wr_id wc)) p (p + 1) (p + 2)) Q w.
Proof.
  intros Hl Hc Hb Hd Hp Hpp Hm Hlm HQ. unfold receive_fill. do 3 wp_step.
  eapply wp_load_be64; [heap_lookup|apply wire_read_seqn|]. do 3 wp_step.
  eapply wp_load_be64; [heap_lookup|apply wire_read_sem|]. do 3 wp_step.
  eapply wp_load_be64; [heap_lookup|apply wire_read_rpc_ch|]. do 3 wp_step.
  eapply wp_read_bytes;
    [heap_lookup|lia|rewrite <- Hd, Nat2Z.id; apply wire_read_data|].
  do 4 wp_step; [cbn; rewrite write_at_Some by lia; reflexivity|].
  do 11 wp_step. eapply wp_load_be64; [heap_lookup|apply wire_read_rpc_ch|].
  wp_steps. rewrite !upd_heap_insert_twice.
  cbn [take app Nat.add]. rewrite drop_ge, app_nil_r by lia. exact HQ.
Qed.

(** The zeroed message that [receive_alloc] allocates last. *)
Definition new_msg (cb : rdma_ch_cb) : rpc_msg :=
  {| msg_seqn := 0; msg_client_rpc_ch := NULL; msg_sem := 0;
     msg_data := zeros (cb_msgbuf_size cb - msgheader_size) |}.

Lemma wp_receive_alloc t w cb (Q : option (addr * addr * addr) -> world -> Prop) :
  fresh_ok w ->
  (recv_allocs_ok w cb = true -> forall w',
     heap w' = put_recv_objects (next w) zero_rpc_param zero_param (new_msg cb) (heap w) ->
     trace w' = recv_trace w -> next w' = next w + 3 ->
     sched w' = sched w -> objs w' = objs w ->
     Q (Some (next w, next w + 1, next w + 2)) w') ->
  (recv_allocs_ok w cb = false -> forall w', heap w' = heap w -> Q None w') ->
  wp t (receive_alloc cb) Q w.
Proof.
  intros [Hpos Hfree] Hok Hno. unfold recv_allocs_ok in *.
  assert (Hf1 : heap w !! next w = None) by (apply Hfree; lia).
  assert (Hf2 : heap w !! (next w + 1) = None) by (apply Hfree; lia).
  unfold receive_alloc. wp_step. apply wp_kzalloc; cbn [inj in_rpc_param]; intros H1.
  2: { rewrite H1, andb_false_r in Hno. wp_steps. by apply Hno. }
  rewrite (proj2 (Z.eqb_neq _ _)) by (unfold NULL; lia).
  wp_step. apply wp_kzalloc; wsimpl; cbn [inj in_param]; intros H2.
  2: { rewrite H2, !andb_false_r in Hno. wp_steps. apply Hno; [done|]. heap_ext. }
  rewrite (proj2 (Z.eqb_neq _ _)) by (unfold NULL; lia).
  rewrite H1, H2, !andb_true_r in *. wp_step. apply wp_kzalloc_size.
  2: { intros Hlt. rewrite (proj2 (Z.leb_gt _ _)) in Hno by done.
       wp_steps. apply Hno; [done|]. heap_ext. }
  intros Hsz. rewrite (proj2 (Z.leb_le _ _)) in * by done. cbn [andb] in *.
  apply wp_kzalloc; wsimpl; cbn [inj in_rpc_msg]; intros H3.
  2: { rewrite H3 in Hno. wp_steps. apply Hno; [done|]. heap_ext. }
  rewrite (proj2 (Z.eqb_neq _ _)) by (unfold NULL; lia). wp_step.
  replace (next w + 1 + 1) with (next w + 2) by lia.
  apply Hok; [done|..]; wsimpl; try done; [|lia]. unfold put_recv_objects, new_msg. heap_ext.
Qed.

(** The blocks that [receive_fill] reads and writes, after the allocations. *)
Lemma recv_filled_pre w cba cb l wc c seqn ch sem d w1 :
  recv_pre w cba cb l wc c seqn ch sem d ->
  heap w1 = put_recv_objects (next w) zero_rpc_param zero_param (new_msg cb) (heap w) ->
  heap w1 !! cba = Some (BCb cb) /\ heap w1 !! cb_buf_ctxs cb = Some (BCtxs l) /\
  heap w1 !! recv_buf c = Some (BBytes (wire_image seqn ch sem d)) /\
  heap w1 !! next w = Some (BRpcParam zero_rpc_param) /\
  heap w1 !! (next w + 1) = Some (BParam zero_param) /\
  heap w1 !! (next w + 2) = Some (BRpcMsg (new_msg cb)) /\
  length (msg_data (new_msg cb)) = length d.
Proof.
  intros [Hcb Hl _ _ Hb Hsz Hd [_ Hfree]] ->. unfold put_recv_objects.
  assert (Hn : forall a b, heap w !! a = Some b -> a < next w)
    by (intros a b Ha; apply Z.nle_gt; intros ?; by rewrite Hfree in Ha).
  pose proof (Hn _ _ Hcb). pose proof (Hn _ _ Hl). pose proof (Hn _ _ Hb).
  split; [heap_lookup|]. split; [heap_lookup|]. split; [heap_lookup|].
  split; [heap_lookup|]. split; [heap_lookup|]. split; [heap_lookup|].
  cbn. unfold zeros. rewrite length_replicate, msgheader_size_eq. lia.
Qed.

Lemma recv_filled_at w cba cb l wc c seqn ch sem d w2 rp mp m :
  recv_pre w cba cb l wc c seqn ch sem d ->
  heap w2 = put_recv_objects (next w) rp mp m (heap w) ->
  heap w2 !! (next w + 2) = Some (BRpcMsg m) /\ heap w2 !! cba = Some (BCb cb).
Proof.
  intros [Hcb _ _ _ _ _ _ [_ Hfree]] ->. unfold put_recv_objects.
  assert (cba < next w) by (apply Z.nle_gt; intros ?; by rewrite Hfree in Hcb).
  split; heap_lookup.
Qed.

Lemma wp_receive_copy_ok t w cba cb l wc c seqn ch sem d
    (Q : Z + fnptr * addr -> world -> Prop) :
  recv_pre w cba cb l wc c seqn ch sem d -> is_Some (c_str d) ->
  recv_allocs_ok w cb = true ->
  (forall w', heap w' = put_recv_objects (next w) (recv_rpc_param cb wc ch (next w))
      (recv_param cba wc (next w)) (recv_rpc_msg seqn ch sem d) (heap w) ->
    trace w' = recv_trace w -> next w' = next w + 3 ->
    sched w' = sched w -> objs w' = objs w ->
    Q (inr (cb_rpc_msg_handler_cb cb, next w)) w') ->
  wp t (receive_copy cba wc) Q w.
Proof.
  intros Hpre Hstr Hal HQ. pose proof Hpre as [Hcb _ Hlen _ _ _ _ Hf].
  unfold receive_copy. do 2 wp_step. rewrite Hlen, Z.eqb_refl. cbn [negb].
  wp_step. apply wp_receive_alloc; [done| |congruence]. intros _ w1 Hh1 Ht1 Hn1 Hs1 Ho1.
  destruct (recv_filled_pre _ _ _ _ _ _ _ _ _ _ _ Hpre Hh1) as (L1 & L2 & L3 & L4 & L5 & L6 & Hm).
  wp_step. eapply wp_receive_fill; [done|apply Hpre|done|apply Hpre|done|done|done|done|].
  set (w2 := upd_heap _ _).
  assert (Hh2 : heap w2 = put_recv_objects (next w) (recv_rpc_param cb wc ch (next w))
    (recv_param cba wc (next w)) (recv_rpc_msg seqn ch sem d) (heap w)).
  { unfold w2. wsimpl. rewrite Hh1. unfold put_recv_objects. heap_ext. }
  destruct (recv_filled_at _ _ _ _ _ _ _ _ _ _ _ _ _ _ Hpre Hh2) as [M1 M2].
  wp_step. wp_step. wp_step. wp_step. do 3 wp_step. by apply HQ.
Qed.

Lemma receive_overread w cba cb l wc c seqn ch sem d :
  recv_pre w cba cb l wc c seqn ch sem d -> recv_allocs_ok w cb = true ->
  c_str d = None -> receive_copy cba wc w = Undef OutOfBounds.
Proof.
  intros Hpre Hal Hstr. pose proof Hpre as [Hcb _ Hlen _ _ _ _ Hf].
  unfold receive_copy. apply fault_bind. wp_step. rewrite Hlen, Z.eqb_refl. cbn [negb].
  apply fault_bind, wp_receive_alloc; [done| |congruence]. intros _ w1 Hh1 Ht1 Hn1 Hs1 Ho1.
  destruct (recv_filled_pre _ _ _ _ _ _ _ _ _ _ _ Hpre Hh1) as (L1 & L2 & L3 & L4 & L5 & L6 & Hm).
  apply fault_bind. eapply wp_receive_fill; [done|apply Hpre|done|apply Hpre|done|done|done|done|].
  set (w2 := upd_heap _ _).
  assert (Hh2 : heap w2 = put_recv_objects (next w) (recv_rpc_param cb wc ch (next w))
    (recv_param cba wc (next w)) (recv_rpc_msg seqn ch sem d) (heap w)).
  { unfold w2. wsimpl. rewrite Hh1. unfold put_recv_objects. heap_ext. }
  destruct (recv_filled_at _ _ _ _ _ _ _ _ _ _ _ _ _ _ Hpre Hh2) as [M1 M2].
  apply fault_bind. wp_step. apply bind_undef. unfold printk_s.
  cbn [msg_data recv_rpc_msg]. by rewrite Hstr.
Qed.

(** With an allocation failing, everything allocated before it is freed. *)
Lemma receive_copy_oom w cba cb wc :
  heap w !! cba = Some (BCb cb) -> wc_byte_len wc = u32 (cb_msgbuf_size cb) ->
  fresh_ok w -> recv_allocs_ok w cb = false ->
  exists w', receive_copy cba wc w = Ok (inl (- ENOMEM)) w' /\ heap w' = heap w.
Proof.
  intros Hcb Hlen Hf Hal.
  destruct (wp_total_run (receive_copy cba wc)
    (fun r w' => r = inl (- ENOMEM) /\ heap w' = heap w) w)
    as (r & w' & ? & -> & ?); [|by eauto].
  unfold receive_copy. do 2 wp_step. rewrite Hlen, Z.eqb_refl. cbn [negb].
  wp_step. apply wp_receive_alloc; [done|congruence|]. intros _ w1 Hh. by wp_step.
Qed.

Lemma kept_receive_fill w0 w cba cb id rp p m :
  kept w0 w -> wp Partial (receive_fill cba cb id rp p m) (fun _ w' => kept w0 w') w.
Proof.
  intros Hk. unfold receive_fill, load_be64. wp_steps_p; solve_kept.
Qed.

Lemma kept_receive_alloc w0 w cb :
  kept w0 w -> wp Partial (receive_alloc cb) (fun _ w' => kept w0 w') w.
Proof.
  intros Hk. unfold receive_alloc.
  wp_step. apply wp_kzalloc; intros _; [|wp_steps; solve_kept].
  wp_step; [wp_steps; solve_kept|].
  wp_step. apply wp_kzalloc; intros _; [|wp_steps; solve_kept].
  wp_step; [wp_steps; solve_kept|].
  wp_step. apply wp_kzalloc_size; intros _; [|wp_steps; solve_kept].
  apply wp_kzalloc; intros _; [|wp_steps; solve_kept].
  wp_steps; solve_kept.
Qed.

Lemma kept_receive_copy w0 w cba wc :
  kept w0 w -> wp Partial (receive_copy cba wc) (fun _ w' => kept w0 w') w.
Proof.
  intros Hk. unfold receive_copy. do 2 wp_step_p. wp_step; [by wp_step|].
  wp_step. eapply wp_mono; [by apply (kept_receive_alloc w0)|].
  intros [[[rp p] m]|] w1 H1; [|by wp_step].
  wp_step. eapply wp_mono; [by apply (kept_receive_fill w0)|].
  intros [] w' Hw'. by wp_steps_p.
Qed.
End Receive.

(** ** Completions *)

Section Completions.
Context {K : Kernel} {R : RpcHandler} {RL : RpcHandlerLaws R}.

Lemma wp_rpc_handler w0 f p w (Q : unit -> world -> Prop) :
  kept w0 w -> (forall w', kept w0 w' -> Q tt w') -> wp Partial (rpc_handler f p) Q w.
Proof.
  intros Hk HQ. unfold wp. destruct (rpc_handler f p w) as [[] w'| |] eqn:E; [|done..].
  apply HQ. eapply kept_trans; [done|]. eapply handler_kept; [|done]. by destruct Hk.
Qed.

Lemma kept_receive_msg w0 w cba wc :
  kept w0 w -> wp Partial (receive_msg cba wc) (fun _ w' => kept w0 w') w.
Proof.
  intros Hk. unfold receive_msg, receive_done. wp_step.
  eapply wp_mono; [by apply (kept_receive_copy w0)|]. intros [ret|[f p]] w1 H1;
    [by wp_step|]. wp_step. eapply wp_rpc_handler; [done|]. intros w2 H2.
  do 2 wp_step_p. wp_steps_p; [|done].
  by apply (kept_insert_cb _ _ _ WORKING).
Qed.

Lemma kept_cq_complete w0 w cba wc fl :
  kept w0 w -> wp Partial (cq_complete cba wc fl) (fun r w' => kept w0 w'
    /\ match r with inl ret => ret <> 0 | inr fl' => fl' = fl \/ fl' = 1 end) w.
Proof.
  intros Hk. unfold cq_complete. wp_steps_p; try naive_solver.
  eapply wp_mono; [by apply (kept_receive_msg w0)|]. intros ret w1 H1.
  destruct (Z.eqb_spec ret 0) as [->|Hr]; cbn [negb]; [|by wp_step].
  wp_steps_p; (split; [solve_kept|]); [|by left].
  by apply negb_true_iff, Z.eqb_neq in E1.
Qed.

(** The answers left in a queue. *)
Definition polls_of (w : world) (cq : kptr) : list poll :=
  match cqs w !! cq with Some c => cq_polls c | None => [] end.

(** Answers of [ib_poll_cq] other than "empty" are completions or negative
    error codes. *)
Definition poll_ok (p : poll) : Prop :=
  match p with PollWc _ => True | PollErr e => e < 0 | PollEmpty => False end.

(** The control block is there, up to its state. *)
Definition cb_there (w : world) (cba : addr) (cb : rdma_ch_cb) : Prop :=
  fresh_ok w /\ exists s, heap w !! cba = Some (BCb (with_state s cb)).

Lemma cb_there_kept w w' cba cb : cb_there w cba cb -> kept w w' -> cb_there w' cba cb.
Proof.
  intros [_ [s Hs]] [Hf _ Hc]. split; [done|].
  destruct (Hc _ _ Hs) as [s' Hs']. eauto.
Qed.

(** How the handler can end: the queue is drained, or the channel is in
    state [ERROR] and its waiter has been woken. *)
Definition cq_outcome (cba : addr) (cb : rdma_ch_cb) (r : Z) (w' : world) : Prop :=
  cb_there w' cba cb /\
  ((r = 0 \/ r = 1) /\ polls_of w' (cb_cq cb) = []
   \/ r <> 0 /\ heap w' !! cba = Some (BCb (with_state ERROR cb))
      /\ WqCb cba ∈ woken w').

Lemma wp_cq_error cba cb ret w :
  cb_there w cba cb -> ret <> 0 ->
  wp Partial (cq_error cba ret) (cq_outcome cba cb) w.
Proof.
  intros [Hf [s Hs]] Hr. unfold cq_error. wp_steps.
  assert (Hh : kept w (upd_heap (insert cba (BCb (with_state ERROR (with_state s cb)))) w))
    by (apply kept_insert_cb; [done|by apply kept_refl]).
  split.
  - eapply cb_there_kept; [split; [done|by exists s]|]. by apply kept_woken, kept_log.
  - right. split; [done|]. wsimpl. rewrite lookup_insert_eq. split; [done|]. left.
Qed.

(** The head of a round: one answer is taken from the queue. *)
Lemma cq_head_run {A} w cba cb (f : poll -> M A) :
  cb_there w cba cb ->
  (cb ← load (T := rdma_ch_cb) cba; p ← ib_poll_cq (cb_cq cb); f p) w =
    match cqs w !! cb_cq cb with
    | None => Undef (BadHandle (cb_cq cb))
    | Some c => f (hd PollEmpty (cq_polls c))
        (log (EvPollCq (cb_cq cb) (hd PollEmpty (cq_polls c)))
          (upd_cqs (insert (cb_cq cb) (c <| cq_polls := tl (cq_polls c) |>)) w))
    end.
Proof.
  intros [Hf [s Hs]]. unfold mbind, M_bind at 1, load, peek. rewrite Hs. cbn.
  unfold ib_poll_cq, live_cq, mbind, M_bind, get.
  destruct (cqs w !! cb_cq cb) as [c|] eqn:Hc; [|done].
  cbn. by destruct (cq_polls c) as [|p ps].
Qed.

Lemma wp_cq_head w cba cb (f : poll -> M Z) (Q : Z -> world -> Prop) :
  cb_there w cba cb ->
  (forall w1, cb_there w1 cba cb ->
     polls_of w1 (cb_cq cb) = tl (polls_of w (cb_cq cb)) ->
     wp Partial (f (hd PollEmpty (polls_of w (cb_cq cb)))) Q w1) ->
  wp Partial (cb ← load (T := rdma_ch_cb) cba; p ← ib_poll_cq (cb_cq cb); f p) Q w.
Proof.
  intros Hcb HQ. unfold wp at 1. rewrite (cq_head_run _ _ cb) by done.
  unfold polls_of in HQ. destruct (cqs w !! cb_cq cb) as [c|] eqn:Hc; [|done].
  apply HQ; [destruct Hcb as [Hf Hs]; by split; [destruct Hf|]|].
  wsimpl. by rewrite lookup_insert_eq.
Qed.

Lemma cq_loop_outcome n : forall cba cb fl w,
  cb_there w cba cb -> fl = 0 \/ fl = 1 ->
  Forall poll_ok (polls_of w (cb_cq cb)) ->
  wp Partial (cq_loop n cba fl) (cq_outcome cba cb) w.
Proof.
  induction n as [|n IH]; intros cba cb fl w Hcb Hfl Hps; cbn [cq_loop];
    apply (wp_cq_head _ _ cb); [done| |done|]; intros w1 Hcb1 Hq1;
    destruct (polls_of w (cb_cq cb)) as [|[|e|wc] ps]; cbn [hd tl] in *;
    try (by apply Forall_cons_1 in Hps as [? _]);
    try (by apply wp_ret; split; [done|left]); try done.
  1, 2: apply Forall_cons_1 in Hps as [He _]; cbn in He;
    destruct (Z.eqb_spec e 0); [lia|]; by apply wp_cq_error.
  wp_step. eapply wp_mono; [apply (kept_cq_complete w1), kept_refl, Hcb1|].
  intros [ret|fl'] w2 [Hk Hr].
  - apply wp_cq_error; [by eapply cb_there_kept|done].
  - apply IH; [by eapply cb_there_kept|naive_solver|].
    unfold polls_of in *. destruct Hk as [_ -> _]. rewrite Hq1.
    by apply Forall_cons_1 in Hps as [_ ?].
Qed.

(** More fuel than there are answers in the queue changes nothing. *)
Lemma cq_loop_fuel n : forall m cba cb fl w,
  cb_there w cba cb -> (length (polls_of w (cb_cq cb)) <= n)%nat ->
  (length (polls_of w (cb_cq cb)) <= m)%nat ->
  cq_loop n cba fl w = cq_loop m cba fl w.
Proof.
  induction n as [|n IH]; intros [|m] cba cb fl w Hcb Hn Hm; cbn [cq_loop];
    [done|..]; rewrite !(cq_head_run _ _ cb) by done; unfold polls_of in Hn, Hm;
    (destruct (cqs w !! cb_cq cb) as [c|] eqn:Hc; [|done]);
    destruct (cq_polls c) as [|[|e|wc] ps] eqn:Hp; cbn [hd tl length] in *;
    try done; try lia.
  set (w1 := log _ _).
  assert (Hcb1 : cb_there w1 cba cb) by (destruct Hcb as [Hf Hs]; by split; [destruct Hf|]).
  unfold mbind, M_bind. destruct (cq_complete cba wc fl w1) as [[ret|fl'] w2| |] eqn:E; try done.
  pose proof (wp_run _ _ _ _ _ (kept_cq_complete w1 w1 cba wc fl (kept_refl _ (proj1 Hcb1))) E)
    as [Hk _].
  apply (IH m cba cb); [by eapply cb_there_kept|..]; unfold polls_of;
    rewrite (kp_cqs _ _ Hk); unfold w1; wsimpl; rewrite lookup_insert_eq; cbn; lia.
Qed.

(** C32. The completion loop terminates: the fuel that [cq_event_handler]
    computes from the queue suffices, since any larger bound on the rounds
    gives the same run; each round takes one answer from the queue, and the
    handlers add none. *)
Theorem cq_event_handler_fuel_enough n cba cb w :
  fresh_ok w -> heap w !! cba = Some (BCb cb) ->
  (length (polls_of w (cb_cq cb)) <= n)%nat ->
  cq_event_handler cba w = cq_loop n cba 0 w.
Proof.
  intros Hf Hcb Hn. transitivity (cq_loop (length (polls_of w (cb_cq cb))) cba 0 w).
  - unfold cq_event_handler, mbind, M_bind, load, peek, get. rewrite Hcb. cbn.
    unfold polls_of. by destruct (cqs w !! cb_cq cb).
  - apply (cq_loop_fuel _ _ _ cb); [|done..].
    split; [done|]. exists (cb_state cb). by rewrite with_state_id.
Qed.

(** C20. [cq_event_handler] on an existing channel, whatever handler the
    channel calls (within [RpcHandlerLaws]): when it returns, either every
    completion has been taken from the queue and the result is 0 or 1 (the
    flush flag), or the result is an error, the channel is in state [ERROR]
    and the thread waiting on it has been woken. *)
Theorem cq_event_handler_outcome cba cb w r w' :
  fresh_ok w -> heap w !! cba = Some (BCb cb) ->
  Forall poll_ok (polls_of w (cb_cq cb)) ->
  cq_event_handler cba w = Ok r w' -> cq_outcome cba cb r w'.
Proof.
  intros Hf Hcb Hps Hrun. eapply (wp_run (t := Partial)); [|exact Hrun].
  unfold cq_event_handler. wp_steps. apply cq_loop_outcome; [|by left|done].
  split; [done|]. exists (cb_state cb). by rewrite with_state_id.
Qed.
End Completions.

(** ** Properties of sending and receiving *)

Section Io_properties.
Context {K : Kernel}.

(** [send_rdma_msg] with a valid id, on a send buffer of header and data
    size: the buffer ends up holding the big-endian image of the sequence
    number (a fresh one, [seqn + 1] modulo 2^64, if 0 was passed), the RPC
    channel, the semaphore and the first [msgdata_size] bytes of [data]; one
    send request is posted; the result is the buffer size, or 0 if posting
    failed; nothing else in memory changes. *)
Theorem send_rdma_msg_wire w cba cb l id c data bd ch sem seqn :
  send_pre w cba cb l id c data bd -> is_Some (c_str (sent_data cb bd)) ->
  exists r w', send_rdma_msg cba ch data sem id seqn w = Ok r w'
    /\ send_post w cb l id c
         (wire_image (sent_seqn c seqn) ch sem (sent_data cb bd))
         seqn r w'.
Proof. intros Hpre Hs. by apply wp_total_run, (wp_send_rdma_msg _ _ _ _ _ _ _ _ bd). Qed.

(** [send_rdma_msg] with an id from [msgbuf_cnt] on returns 0 and leaves
    the state alone; a negative id, which it does not test, is an
    out-of-bounds access of the context array. *)
Theorem send_rdma_msg_bad_id w cba cb l data ch sem seqn id :
  heap w !! cba = Some (BCb cb) -> heap w !! cb_buf_ctxs cb = Some (BCtxs l) ->
  0 <= cb_msgbuf_cnt cb -> ~ (0 <= id < cb_msgbuf_cnt cb) ->
  send_rdma_msg cba ch data sem id seqn w =
    if 0 <=? id then Ok 0 w else Undef OutOfBounds.
Proof.
  intros Hcb Hl Hcnt Hid. unfold send_rdma_msg, mbind, M_bind, load, peek.
  rewrite Hcb. cbn. destruct (Z.leb_spec 0 id), (Z.leb_spec (cb_msgbuf_cnt cb) id);
    try lia; [done|].
  unfold load_ctx, mbind, M_bind, load, peek. rewrite Hl. cbn.
  unfold ctx_at. by destruct (Z.ltb_spec id 0); [|lia].
Qed.

(** Data that fills a message without a zero byte is read beyond the end of
    its buffer, by the [printk] of [send_rdma_msg] and by that of
    [receive_msg]: the peer alone decides the latter. *)
Theorem unterminated_data_overread `{RpcHandler} w cba cb l id c data bd ch sem seqn
    v cba2 cb2 l2 wc c2 seqn2 ch2 sem2 d :
  send_pre w cba cb l id c data bd -> c_str (sent_data cb bd) = None ->
  recv_pre v cba2 cb2 l2 wc c2 seqn2 ch2 sem2 d -> recv_allocs_ok v cb2 = true ->
  c_str d = None ->
  send_rdma_msg cba ch data sem id seqn w = Undef OutOfBounds
  /\ receive_msg cba2 wc v = Undef OutOfBounds.
Proof.
  intros Hs Hstr Hr Hal Hstr2. split; [by eapply send_overread|].
  unfold receive_msg. by eapply bind_undef, receive_overread.
Qed.

(** C34. [receive_msg] refuses a completion whose byte count is not the buffer
    size, without touching the state; and when one of its three allocations
    fails it returns [-ENOMEM] having freed the others, whatever the
    handler. *)
Theorem receive_msg_errors `{RpcHandler} w cba cb wc :
  heap w !! cba = Some (BCb cb) -> fresh_ok w ->
  (wc_byte_len wc <> u32 (cb_msgbuf_size cb) -> receive_msg cba wc w = Ok (-1) w)
  /\ (wc_byte_len wc = u32 (cb_msgbuf_size cb) -> recv_allocs_ok w cb = false ->
      exists w', receive_msg cba wc w = Ok (- ENOMEM) w' /\ heap w' = heap w).
Proof.
  intros Hcb Hf. split.
  - intros Hne. unfold receive_msg, receive_copy, mbind, M_bind, load, peek.
    rewrite Hcb. cbn. by rewrite (proj2 (Z.eqb_neq _ _) Hne).
  - intros Heq Hal. destruct (receive_copy_oom w cba cb wc) as (w' & Hr & Hh); [done..|].
    exists w'. split; [|done]. unfold receive_msg, mbind, M_bind. by rewrite Hr.
Qed.
End Io_properties.

(** C3. Round trip between two hosts, of any byte orders: after
    [send_rdma_msg], a host whose receive buffer holds the bytes of the
    sender's send buffer hands its handler a message with the sequence number,
    channel, semaphore and data that were sent, and with the id of the buffer
    the message arrived in. *)
Theorem rdma_msg_roundtrip (K1 K2 : Kernel) w cba cb l id c data bd ch sem seqn r w'
    v cba2 cb2 l2 wc c2 :
  send_pre w cba cb l id c data bd -> is_Some (c_str (sent_data cb bd)) ->
  send_rdma_msg (K := K1) cba ch data sem id seqn w = Ok r w' ->
  heap v !! cba2 = Some (BCb cb2) -> heap v !! cb_buf_ctxs cb2 = Some (BCtxs l2) ->
  ctx_at l2 (i32 (wc_wr_id wc)) = Some c2 ->
  heap v !! recv_buf c2 = heap w' !! send_buf c ->
  cb_msgdata_size cb2 = cb_msgdata_size cb ->
  cb_msgbuf_size cb2 = cb_msgdata_size cb2 + 24 ->
  wc_byte_len wc = u32 (cb_msgbuf_size cb2) ->
  fresh_ok v -> recv_allocs_ok (K := K2) v cb2 = true ->
  exists v' p, receive_copy (K := K2) cba2 wc v = Ok (inr (cb_rpc_msg_handler_cb cb2, p)) v'
    /\ heap v' !! p = Some (BRpcParam (recv_rpc_param cb2 wc ch p))
    /\ heap v' !! (p + 1) = Some (BParam (recv_param cba2 wc p))
    /\ heap v' !! (p + 2) = Some (BRpcMsg
         {| msg_seqn := u64 (sent_seqn c seqn); msg_client_rpc_ch := u64 ch;
            msg_sem := u64 sem; msg_data := sent_data cb bd |}).
Proof.
  intros Hpre Hstr Hsend Hcb Hl Hc Hbuf Hds Hsz Hlen Hf Hal.
  pose proof (wp_run _ _ _ _ _
    (wp_send_rdma_msg (K := K1) Total _ _ _ _ _ _ _ _ ch sem seqn Hpre Hstr) Hsend) as Hpost.
  rewrite (st_image (K := K1) _ _ _ _ _ _ _ _ _ Hpost) in Hbuf.
  destruct Hpre as [_ _ _ _ Hsize _ _ Hdl _ _]. unfold sent_data in *.
  set (d := take (Z.to_nat (cb_msgdata_size cb)) bd) in *.
  destruct (wp_total_run (receive_copy (K := K2) cba2 wc) (fun r v' =>
    r = inr (cb_rpc_msg_handler_cb cb2, next v) /\ heap v' = put_recv_objects (next v)
      (recv_rpc_param cb2 wc ch (next v)) (recv_param cba2 wc (next v))
      (recv_rpc_msg (sent_seqn c seqn) ch sem d) (heap v)) v) as (r' & v' & Hr & -> & Hh).
  { eapply wp_receive_copy_ok; [|done|done|by intros; split].
    split; try done. unfold d. rewrite length_take. lia. }
  exists v', (next v). rewrite Hr, Hh. unfold put_recv_objects.
  split; [done|]. split; [by rewrite lookup_insert_eq|].
  split; (rewrite !lookup_insert_ne by lia); by rewrite lookup_insert_eq.
Qed.

Section Cq_thread.
Context {K : Kernel} {R : RpcHandler}.

(** [cq_thread] decides by the value of a variable it never assigns: in a
    state other than [ERROR] it handles the completions exactly when the
    indeterminate [ret] happens to be 0, and otherwise returns with the
    queue and the memory as they were; in state [ERROR] it does nothing. *)
Theorem cq_thread_indeterminate cq ctx cb w :
  heap w !! ctx = Some (BCb cb) -> cb_cq cb = cq -> is_Some (cqs w !! cq) ->
  let w1 := log (EvReqNotifyCq cq (k_req_notify_cq (trace w) cq)) w in
  let garbage := k_stack (trace w1) in
  cq_thread cq ctx w =
    if st_val (cb_state cb) =? st_val ERROR then Ok tt w
    else if garbage =? 0
    then (cq_event_handler ctx;; mret tt) (log (EvStack garbage) w1)
    else Ok tt (log (EvStack garbage) w1).
Proof.
  intros Hcb <- [q Hq]. unfold cq_thread, mbind, M_bind at 1, load, peek. rewrite Hcb. cbn.
  rewrite bool_decide_eq_true_2 by done. cbn [negb].
  destruct (st_val (cb_state cb) =? 8); [done|].
  unfold ib_req_notify_cq, live_cq, indeterminate, mbind, M_bind, call, get.
  rewrite Hq. cbn. by destruct (k_stack _ =? 0).
Qed.
End Cq_thread.
