(* ===== verification/SendConc.v ===== *)
(** * SendConc: senders of one channel that run at the same time

    [send_rdma_msg] takes no lock: senders with different message ids share the
    channel, the array of contexts and the queue pair.  Here the function is cut
    into its single accesses to memory (each field read or written on its own,
    and the copy of the data in a read and a write), and any number of senders
    take their steps in any order.  No step goes wrong, and what they do is what
    they would do one after another, in the order of their posts.

    Steps of different senders follow one another: the memory is sequentially
    consistent. *)
From stdpp Require Import gmultiset.
From S2P Require Import Prelude Types Kernel Logic Frame Wire RdmaIo.

(** The elements of a list at given indices. *)
Definition at_indices {A} (l : list A) (js : list nat) : list A := omap (l !!.) js.

Lemma at_all_indices {A} (l : list A) : at_indices l (seq 0 (length l)) = l.
Proof.
  assert (H : forall p, at_indices (p ++ l) (seq (length p) (length l)) = l); [|by apply (H [])].
  induction l as [|x l IH]; intros p; [done|]. cbn [length seq]. unfold at_indices in *. cbn.
  rewrite list_lookup_middle by done. f_equal. specialize (IH (p ++ [x])).
  rewrite <- app_assoc, length_app in IH. cbn in IH. by rewrite Nat.add_1_r in IH.
Qed.

Lemma at_indices_perm {A} (l : list A) js :
  js ≡ₚ seq 0 (length l) -> at_indices l js ≡ₚ l.
Proof. intros Hp. rewrite <- (at_all_indices l) at 2. unfold at_indices. by rewrite Hp. Qed.

(** ** Threads *)

(** What a thread has still to do: a result, or a step and what follows it. *)
Inductive prog (A : Type) : Type :=
  | Done (a : A)
  | Step {B : Type} (m : M B) (k : B -> prog A).
#[global] Arguments Done {A} a.
#[global] Arguments Step {A B} m k.

(** A thread on its own. *)
Fixpoint run {A} (p : prog A) : M A :=
  match p with
  | Done a => mret a
  | Step m k => x ← m; run (k x)
  end.

(** Thread [i] of the threads [ts] takes a step, if it has one left. *)
Definition step_of {A} (i : nat) (ts : list (prog A)) : M (list (prog A)) :=
  match ts !! i with
  | Some (Step m k) => x ← m; mret (<[i := k x]> ts)
  | _ => mret ts
  end.

(** The threads take steps as the list [sch] says. *)
Fixpoint interleave {A} (sch : list nat) (ts : list (prog A)) : M (list (prog A)) :=
  match sch with
  | [] => mret ts
  | i :: sch => ts' ← step_of i ts; interleave sch ts'
  end.

Section Send_prog.
Context {K : Kernel}.

(** The steps of [send_rdma_msg] after the number is stored. *)
Definition send_prog_rest (cb : rdma_ch_cb) (msg rpc_ch_addr data : addr)
    (sem msgbuf_id : Z) : prog Z :=
  Step (store_be64 msg off_sem_addr sem) (fun _ =>
  Step (store_be64 msg off_rpc_ch_addr rpc_ch_addr) (fun _ =>
  Step (read_bytes data 0 (cb_msgdata_size cb)) (fun d =>
  Step (write_bytes msg off_data d) (fun _ =>
  Step (l ← load msg; printk_s (drop off_data l)) (fun _ =>
  Step (load_ctx (cb_buf_ctxs cb) msgbuf_id) (fun mb_ctx =>
  Step (ib_post_send (cb_qp cb) (sq_wr mb_ctx)) (fun ret =>
  Step (l ← load msg; printk_s (drop off_data l)) (fun _ =>
  Done (if ret =? 0 then cb_msgbuf_size cb else 0))))))))).

(** [send_rdma_msg] in steps; the increment of [seqn] is a read and a write. *)
Definition send_prog (cba rpc_ch_addr data : addr) (sem msgbuf_id seqn : Z) : prog Z :=
  Step (load cba) (fun cb =>
  if cb_msgbuf_cnt cb <=? msgbuf_id then Done 0 else
  Step (load_ctx (cb_buf_ctxs cb) msgbuf_id) (fun mb_ctx =>
  let msg := send_buf mb_ctx in
  let rest := send_prog_rest cb msg rpc_ch_addr data sem msgbuf_id in
  if seqn =? 0 then
    Step (load_ctx (cb_buf_ctxs cb) msgbuf_id) (fun c =>
    let n := u64 (mc_seqn c + 1) in
    Step (update_ctx (cb_buf_ctxs cb) msgbuf_id (fun c => c <| mc_seqn := n |>)) (fun _ =>
    Step (load_ctx (cb_buf_ctxs cb) msgbuf_id) (fun c =>
    Step (store_be64 msg off_seq_num (mc_seqn c)) (fun _ => rest))))
  else Step (store_be64 msg off_seq_num seqn) (fun _ => rest))).

(** Reading a field and writing its successor is the update. *)
Lemma incr_steps {A} a i (g : M A) w :
  (c ← load_ctx a i;
   update_ctx a i (fun c' => c' <| mc_seqn := u64 (mc_seqn c + 1) |>);; g) w =
  (update_ctx a i (fun c => c <| mc_seqn := u64 (mc_seqn c + 1) |>);; g) w.
Proof.
  unfold load_ctx, update_ctx. rewrite !bind_assoc. unfold mbind, M_bind, load.
  destruct (peek a w) as [l|] eqn:El; [|done]. destruct (ctx_at l i) as [c|] eqn:Ec; cbn;
    by rewrite ?El, ?Ec; cbn; rewrite ?Ec.
Qed.

(** Equal up to the grouping of the steps. *)
Ltac same_steps :=
  repeat first
    [ reflexivity
    | rewrite bind_assoc
    | match goal with |- context [(mret ?a ≫= ?f) ?w] => change ((mret a ≫= f) w) with (f a w); cbv beta end
    | match goal with
      | |- (if ?b then _ else _) _ = _ => destruct b
      | |- (_ ≫= _) ?w = (_ ≫= _) ?w =>
          let v := fresh w in apply bind_ext; intros ? v _; clear w; rename v into w
      end ].

(** Alone, the steps are the function. *)
Lemma run_send_prog cba ch data sem id seqn w :
  run (send_prog cba ch data sem id seqn) w = send_rdma_msg cba ch data sem id seqn w.
Proof.
  unfold send_prog, send_rdma_msg. cbn [run]. apply bind_ext. intros cb v _. clear w.
  destruct (cb_msgbuf_cnt cb <=? id); [done|]. cbn [run]. apply bind_ext. intros c0 w _. clear v.
  unfold send_fill, alloc_seqn, send_prog_rest. destruct (seqn =? 0); cbn [run].
  - rewrite !bind_assoc. rewrite incr_steps. same_steps. by case_match.
  - same_steps. by case_match.
Qed.
End Send_prog.

(** ** One sender among others *)

(** A sender: its message id and the context of that number, and the arguments
    of its call; its data are at [sd_data]. *)
Record sender := {
  sd_id : Z; sd_ctx : msgbuf_ctx; sd_ch : addr; sd_data : addr; sd_bytes : list Z;
  sd_sem : Z; sd_seqn : Z }.

Section Sender.
Context {K : Kernel} (cba : addr) (cb : rdma_ch_cb).

Definition send_of (s : sender) : M Z :=
  send_rdma_msg cba (sd_ch s) (sd_data s) (sd_sem s) (sd_id s) (sd_seqn s).
Definition prog_of (s : sender) : prog Z :=
  send_prog cba (sd_ch s) (sd_data s) (sd_sem s) (sd_id s) (sd_seqn s).

(** What it sends, and the [seqn] of its context in the end. *)
Definition image_of (s : sender) : list Z :=
  wire_image (sent_seqn (sd_ctx s) (sd_seqn s)) (sd_ch s) (sd_sem s) (sent_data cb (sd_bytes s)).
Definition seqn_of (s : sender) : Z :=
  if sd_seqn s =? 0 then u64 (mc_seqn (sd_ctx s) + 1) else mc_seqn (sd_ctx s).
Definition result_of (e : Z) : Z := if e =? 0 then cb_msgbuf_size cb else 0.

Definition ctx_with (s : sender) (n : Z) : msgbuf_ctx := (sd_ctx s) <| mc_seqn := n |>.

(** What a sender owns of the memory: its buffer, with the bytes [b], and the
    [seqn] of its context, [n]. *)
Definition set_ctx (i : Z) (c : msgbuf_ctx) (x : block) : block :=
  match x with BCtxs l => BCtxs (<[Z.to_nat i := c]> l) | _ => x end.
Definition put (s : sender) (b : list Z) (n : Z) (h : gmap addr block) : gmap addr block :=
  <[send_buf (sd_ctx s) := BBytes b]>
    (alter (set_ctx (sd_id s) (ctx_with s n)) (cb_buf_ctxs cb) h).

(** What it sees.  The state of the channel may change. *)
Record view (s : sender) (b : list Z) (n : Z) (v : world) : Prop := {
  vw_cb : exists st, heap v !! cba = Some (BCb (with_state st cb));
  vw_ctxs : exists l, heap v !! cb_buf_ctxs cb = Some (BCtxs l)
    /\ ctx_at l (sd_id s) = Some (ctx_with s n);
  vw_buf : heap v !! send_buf (sd_ctx s) = Some (BBytes b);
  vw_data : heap v !! sd_data s = Some (BBytes (sd_bytes s));
  vw_qp : cb_qp cb ∈ qps v }.

(** Thread [p] of the sender ends after [k] steps, whatever the world is
    between them, as long as [view] holds: a step changes what the sender owns
    or, once, posts the request.  The message is sent in the end. *)
Fixpoint safe (s : sender) (k : nat) (p : prog Z) (b : list Z) (n : Z) (e : option Z) : Prop :=
  match k, p with
  | O, Done r => b = image_of s /\ n = seqn_of s /\ exists err, e = Some err /\ r = result_of err
  | Datatypes.S k, Step m f => forall v, view s b n v -> exists x,
      (exists b' n', m v = Ok x (upd_heap (put s b' n') v) /\ length b' = length b
         /\ safe s k (f x) b' n' e)
      \/ (exists err, e = None /\ err = k_post_send (trace v) (cb_qp cb) (sq_wr (sd_ctx s))
            /\ m v = Ok x (log (EvPostSend (cb_qp cb) (sq_wr (sd_ctx s)) err) v)
            /\ safe s k (f x) b n (Some err))
  | _, _ => False
  end.

(** The steps of a sender. *)
Lemma put_same s b n v : view s b n v -> upd_heap (put s b n) v = v.
Proof.
  intros [_ (l & Hl & Hc) Hb _ _]. apply upd_heap_id. unfold put.
  assert (Ha : alter (set_ctx (sd_id s) (ctx_with s n)) (cb_buf_ctxs cb) (heap v) = heap v).
  { apply map_eq. intros a. destruct (decide (a = cb_buf_ctxs cb)) as [->|Hne];
      [|by rewrite lookup_alter_ne].
    rewrite lookup_alter_eq, Hl. cbn. apply ctx_at_Some in Hc as [_ Hc].
    by rewrite list_insert_id. }
  by rewrite Ha, insert_id.
Qed.

Lemma put_buf s b n b' v : view s b n v ->
  upd_heap (put s b' n) v = upd_heap (insert (send_buf (sd_ctx s)) (BBytes b')) v.
Proof.
  intros Hv. apply upd_heap_ext. pose proof (f_equal heap (put_same _ _ _ _ Hv)) as He.
  unfold put in *. wsimpl in He. rewrite <- He at 2. by rewrite insert_insert_eq.
Qed.

Lemma put_ctx s b n n' l v :
  view s b n v -> heap v !! cb_buf_ctxs cb = Some (BCtxs l) ->
  upd_heap (put s b n') v =
    upd_heap (insert (cb_buf_ctxs cb) (BCtxs (<[Z.to_nat (sd_id s) := ctx_with s n']> l))) v.
Proof.
  intros [_ _ Hb _ _] Hl. apply upd_heap_ext. unfold put.
  assert (send_buf (sd_ctx s) <> cb_buf_ctxs cb) by congruence.
  rewrite insert_id by (by rewrite lookup_alter_ne). apply map_eq. intros a.
  destruct (decide (a = cb_buf_ctxs cb)) as [->|Hne].
  - by rewrite lookup_alter_eq, lookup_insert_eq, Hl.
  - by rewrite lookup_alter_ne, lookup_insert_ne.
Qed.

Lemma safe_read s k {B} (m : M B) x f b n e :
  (forall v, view s b n v -> m v = Ok x v) -> safe s k (f x) b n e ->
  safe s (Datatypes.S k) (Step m f) b n e.
Proof.
  intros Hm Hs v Hv. exists x. left. exists b, n. by rewrite put_same, Hm.
Qed.

Lemma safe_write s k {B} (m : M B) x f b n b' n' e :
  (forall v, view s b n v -> m v = Ok x (upd_heap (put s b' n') v)) -> length b' = length b ->
  safe s k (f x) b' n' e -> safe s (Datatypes.S k) (Step m f) b n e.
Proof. intros Hm Hl Hs v Hv. exists x. left. exists b', n'. by rewrite Hm. Qed.

(** The control block is read as it is then; what follows must not depend on the
    state of the channel. *)
Lemma safe_load_cb s k f b n e :
  (forall st, f (with_state st cb) = f cb) -> safe s k (f cb) b n e ->
  safe s (Datatypes.S k) (Step (load cba) f) b n e.
Proof.
  intros Hf Hs v Hv. destruct (vw_cb _ _ _ _ Hv) as [st Hcb]. exists (with_state st cb). left.
  exists b, n. rewrite (put_same _ _ _ _ Hv), Hf. split; [by apply load_run|done].
Qed.

(** A run read off a weakest precondition. *)
Lemma wp_exact {A} (m : M A) a w w' :
  wp Total m (fun x v => x = a /\ v = w') w -> m w = Ok a w'.
Proof. intros (x & v & Hr & -> & ->)%wp_total_run. done. Qed.

Lemma step_load_ctx s b n v : view s b n v ->
  load_ctx (cb_buf_ctxs cb) (sd_id s) v = Ok (ctx_with s n) v.
Proof. intros [_ (l & Hl & Hc) _ _ _]. by eapply load_ctx_run. Qed.

Lemma step_write s b n b' off d v : write_at off d b = Some b' -> view s b n v ->
  write_bytes (send_buf (sd_ctx s)) off d v = Ok tt (upd_heap (put s b' n) v).
Proof.
  intros Hw Hv. rewrite (put_buf _ _ _ _ _ Hv). apply wp_exact.
  eapply wp_write_bytes; [apply Hv|exact Hw|done].
Qed.

Lemma step_be64 s b n b' off x v : write_at off (be_bytes 8 x) b = Some b' -> view s b n v ->
  store_be64 (send_buf (sd_ctx s)) off x v = Ok tt (upd_heap (put s b' n) v).
Proof. unfold store_be64. rewrite mem_u64_htonll. apply step_write. Qed.

Lemma step_printk s b n v : is_Some (c_str (drop off_data b)) -> view s b n v ->
  (l ← load (send_buf (sd_ctx s)); printk_s (drop off_data l)) v = Ok tt v.
Proof.
  intros Hs Hv. apply wp_exact. apply wp_bind. eapply wp_load; [apply Hv|]. by apply wp_printk_s.
Qed.

Lemma step_seqn s b n n' v : view s b n v ->
  update_ctx (cb_buf_ctxs cb) (sd_id s) (fun c => c <| mc_seqn := n' |>) v
    = Ok tt (upd_heap (put s b n') v).
Proof.
  intros Hv. pose proof Hv as [_ (l & Hl & Hc) _ _ _]. rewrite (put_ctx _ _ _ _ _ _ Hv Hl).
  apply wp_exact. by eapply wp_update_ctx.
Qed.

Lemma step_data s b n v : 0 <= cb_msgdata_size cb ->
  (Z.to_nat (cb_msgdata_size cb) <= length (sd_bytes s))%nat -> view s b n v ->
  read_bytes (sd_data s) 0 (cb_msgdata_size cb) v = Ok (sent_data cb (sd_bytes s)) v.
Proof.
  intros Hsz Hlen Hv. apply wp_exact.
  eapply wp_read_bytes; [apply Hv|done|by apply read_at_Some|done].
Qed.

(** A call that stays inside its buffers. *)
Record sender_ok (s : sender) : Prop := {
  sn_id : sd_id s < cb_msgbuf_cnt cb;
  sn_size : 0 <= cb_msgdata_size cb;
  sn_len : (Z.to_nat (cb_msgdata_size cb) <= length (sd_bytes s))%nat;
  sn_str : is_Some (c_str (sent_data cb (sd_bytes s))) }.

Definition steps_of (s : sender) : nat := if sd_seqn s =? 0 then 14 else 11.

Lemma safe_send_rest s b1 b2 b3 n :
  sender_ok s -> n = seqn_of s ->
  write_at off_sem_addr (be_bytes 8 (sd_sem s)) b1 = Some b2 ->
  write_at off_rpc_ch_addr (be_bytes 8 (sd_ch s)) b2 = Some b3 ->
  write_at off_data (sent_data cb (sd_bytes s)) b3 = Some (image_of s) ->
  safe s 8 (send_prog_rest cb (send_buf (sd_ctx s)) (sd_ch s) (sd_data s) (sd_sem s) (sd_id s))
    b1 n None.
Proof.
  intros [Hid Hsz Hlen Hstr] Hn H2 H3 H4. unfold send_prog_rest.
  assert (Hpr : is_Some (c_str (drop off_data (image_of s))))
    by (unfold image_of; by rewrite wire_drop_data).
  eapply safe_write; [intros v; by apply step_be64|by eapply length_write_at|].
  eapply safe_write; [intros v; by apply step_be64|by eapply length_write_at|].
  eapply safe_read; [intros v; by apply step_data|].
  eapply safe_write; [intros v; by apply step_write|by eapply length_write_at|].
  eapply safe_read; [intros v; by apply step_printk|].
  eapply safe_read; [intros v; apply step_load_ctx|].
  intros v Hv. exists (k_post_send (trace v) (cb_qp cb) (sq_wr (sd_ctx s))). right.
  eexists. split; [done|]. split; [reflexivity|]. split.
  { apply wp_exact. unfold ib_post_send. wp_step. apply wp_live_qp; [apply Hv|].
    by wp_step. }
  eapply safe_read; [intros v'; by apply step_printk|].
  split; [done|]. split; [done|]. by eexists.
Qed.

Lemma safe_send s b :
  sender_ok s -> length b = (24 + Z.to_nat (cb_msgdata_size cb))%nat ->
  safe s (steps_of s) (prog_of s) b (mc_seqn (sd_ctx s)) None.
Proof.
  intros Hs Hb. pose proof Hs as [Hid Hsz Hlen _].
  assert (Hw : length b = (24 + length (sent_data cb (sd_bytes s)))%nat)
    by (unfold sent_data; rewrite length_take; lia).
  apply (wire_writes b (sent_seqn (sd_ctx s) (sd_seqn s)) (sd_ch s) (sd_sem s)) in Hw.
  destruct (write_at off_seq_num _ _) as [b1|] eqn:E1; [|done]. cbn in Hw.
  destruct (write_at off_sem_addr _ _) as [b2|] eqn:E2; [|done]. cbn in Hw.
  destruct (write_at off_rpc_ch_addr _ _) as [b3|] eqn:E3; [|done]. cbn in Hw.
  pose proof (safe_send_rest s b1 b2 b3 (seqn_of s) Hs eq_refl E2 E3 Hw) as Hrest.
  unfold prog_of, send_prog, steps_of, sent_seqn, seqn_of in *.
  destruct (sd_seqn s =? 0); (apply safe_load_cb; [done|]);
    rewrite (proj2 (Z.leb_gt _ _)) by lia;
    (eapply safe_read; [intros v; apply step_load_ctx|]).
  - eapply safe_read; [intros v; apply step_load_ctx|].
    eapply safe_write; [intros v; apply step_seqn|done|].
    eapply safe_read; [intros v; apply step_load_ctx|].
    eapply safe_write; [intros v; apply step_be64; exact E1|by eapply length_write_at|]. exact Hrest.
  - eapply safe_write; [intros v; apply step_be64; exact E1|by eapply length_write_at|]. exact Hrest.
Qed.
End Sender.

(** ** Many senders *)

(** The world without its memory and its history. *)
Definition rest_of (v : world) : world :=
  upd_heap (fun _ => ∅) (v <| trace := ([] : list event) |>).

Lemma world_ext v v' : heap v = heap v' -> trace v = trace v' -> rest_of v = rest_of v' -> v = v'.
Proof.
  destruct v, v'. unfold rest_of, upd_heap. cbn. intros -> -> H. by injection H as -> -> -> -> -> -> -> -> ->.
Qed.

(** Where a sender stands: the steps it has left, what it owns of the memory,
    and the answer to its post. *)
Record place := { pl_steps : nat; pl_buf : list Z; pl_seqn : Z; pl_err : option Z }.

Section Disjoint.
Context {K : Kernel} (cba : addr) (cb : rdma_ch_cb).

Lemma view_put s b n b' n' v :
  view cba cb s b n v -> sd_data s <> send_buf (sd_ctx s) ->
  view cba cb s b' n' (upd_heap (put cb s b' n') v).
Proof.
  intros [ [st Hcb] (l & Hl & Hc) Hb Hd Hq] Hne.
  assert (send_buf (sd_ctx s) <> cb_buf_ctxs cb) by congruence.
  assert (sd_data s <> cb_buf_ctxs cb) by congruence.
  assert (cba <> cb_buf_ctxs cb) by congruence.
  assert (cba <> send_buf (sd_ctx s)) by congruence.
  split; unfold put; wsimpl; [| | | |done].
  - exists st. by rewrite lookup_insert_ne, lookup_alter_ne.
  - eexists. rewrite lookup_insert_ne, lookup_alter_eq, Hl by done. split; [reflexivity|].
    by eapply ctx_at_insert.
  - apply lookup_insert_eq.
  - by rewrite lookup_insert_ne, lookup_alter_ne.
Qed.

Lemma view_put_other s b n b' n' t bt nt v :
  view cba cb s b n v -> view cba cb t bt nt v -> sd_id s <> sd_id t ->
  send_buf (sd_ctx s) <> send_buf (sd_ctx t) -> sd_data t <> send_buf (sd_ctx s) ->
  view cba cb t bt nt (upd_heap (put cb s b' n') v).
Proof.
  intros [_ (l & Hl & [Hs _]%ctx_at_Some) Hb _ _] [ [st Hcb] (l' & Hl' & [Ht Hct]%ctx_at_Some)
    Hbt Hd Hq]
    Hid Hbuf Hdt.
  assert (l' = l) as -> by congruence.
  assert (send_buf (sd_ctx s) <> cb_buf_ctxs cb) by congruence.
  assert (send_buf (sd_ctx t) <> cb_buf_ctxs cb) by congruence.
  assert (sd_data t <> cb_buf_ctxs cb) by congruence.
  assert (cba <> cb_buf_ctxs cb) by congruence.
  assert (cba <> send_buf (sd_ctx s)) by congruence.
  split; unfold put; wsimpl; [| | | |done].
  - exists st. by rewrite lookup_insert_ne, lookup_alter_ne.
  - eexists. rewrite lookup_insert_ne, lookup_alter_eq, Hl by done. split; [reflexivity|].
    apply ctx_at_Some. split; [done|]. by rewrite list_lookup_insert_ne by lia.
  - by rewrite lookup_insert_ne, lookup_alter_ne.
  - by rewrite lookup_insert_ne, lookup_alter_ne.
Qed.

Lemma view_log s b n e v : view cba cb s b n v -> view cba cb s b n (log e v).
Proof. by intros []. Qed.
End Disjoint.

Section Senders.
Context {K : Kernel} (cba : addr) (cb : rdma_ch_cb) (ss : list sender).
Context (w : world) (l : list msgbuf_ctx).

(** Each sender may call [send_rdma_msg], with an id and a buffer of its own;
    nobody sends from a send buffer. *)
Record senders_ok : Prop := {
  se_ctxs : heap w !! cb_buf_ctxs cb = Some (BCtxs l);
  se_each : forall i s, ss !! i = Some s ->
    send_pre w cba cb l (sd_id s) (sd_ctx s) (sd_data s) (sd_bytes s)
    /\ is_Some (c_str (sent_data cb (sd_bytes s)));
  se_ids : forall i j s t, ss !! i = Some s -> ss !! j = Some t -> i <> j ->
    sd_id s <> sd_id t /\ send_buf (sd_ctx s) <> send_buf (sd_ctx t);
  se_data : forall i j s t, ss !! i = Some s -> ss !! j = Some t ->
    sd_data s <> send_buf (sd_ctx t) }.

(** The history after the posts of the senders [o], newest first, and the
    answer to the post of one of them. *)
Fixpoint post_trace (o : list nat) : list event :=
  match o with
  | [] => trace w
  | i :: o =>
      match ss !! i with
      | Some s => EvPostSend (cb_qp cb) (sq_wr (sd_ctx s))
                    (k_post_send (post_trace o) (cb_qp cb) (sq_wr (sd_ctx s))) :: post_trace o
      | None => post_trace o
      end
  end.
Fixpoint answer (o : list nat) (i : nat) : option Z :=
  match o with
  | [] => None
  | j :: o => if decide (j = i)
              then s ← ss !! i; Some (k_post_send (post_trace o) (cb_qp cb) (sq_wr (sd_ctx s)))
              else answer o i
  end.

Lemma answer_in o i e : answer o i = Some e -> i ∈ o.
Proof.
  induction o as [|j o IH]; cbn; [done|]. case_decide as Hj; [subst; left|].
  intros H. right. auto.
Qed.

Lemma answer_out o i s : ss !! i = Some s -> answer o i = None -> i ∉ o.
Proof.
  intros Hs. induction o as [|j o IH]; cbn; [intros _; apply not_elem_of_nil|].
  case_decide as Hj; [by rewrite Hs|]. intros H [->|Hin]%elem_of_cons; [done|]. by apply IH.
Qed.

(** The threads [ts] at the places [ps] in the world [v], the senders [o] having
    posted. *)
Record running (ts : list (prog Z)) (ps : list place) (o : list nat) (v : world) : Prop := {
  ru_len : length ts = length ss /\ length ps = length ss;
  ru_each : forall i s p x, ss !! i = Some s -> ts !! i = Some p -> ps !! i = Some x ->
    view cba cb s (pl_buf x) (pl_seqn x) v
    /\ safe cba cb s (pl_steps x) p (pl_buf x) (pl_seqn x) (pl_err x)
    /\ pl_err x = answer o i;
  ru_ctxs : exists l', heap v !! cb_buf_ctxs cb = Some (BCtxs l') /\ length l' = length l
    /\ forall j, (forall i s, ss !! i = Some s -> Z.to_nat (sd_id s) <> j) -> l' !! j = l !! j;
  ru_frame : forall a, a <> cb_buf_ctxs cb ->
    (forall i s, ss !! i = Some s -> a <> send_buf (sd_ctx s)) -> heap v !! a = heap w !! a;
  ru_trace : trace v = post_trace o;
  ru_rest : rest_of v = rest_of w;
  ru_order : NoDup o /\ forall i, i ∈ o -> (i < length ss)%nat }.

Context (Hok : senders_ok).

Lemma running_lookup ts ps o v i p :
  running ts ps o v -> ts !! i = Some p -> exists s x, ss !! i = Some s /\ ps !! i = Some x
    /\ view cba cb s (pl_buf x) (pl_seqn x) v
    /\ safe cba cb s (pl_steps x) p (pl_buf x) (pl_seqn x) (pl_err x) /\ pl_err x = answer o i.
Proof.
  intros Hr Hp. destruct (ru_len _ _ _ _ Hr) as [L1 L2]. pose proof (lookup_lt_Some _ _ _ Hp).
  destruct (lookup_lt_is_Some_2 ss i) as [s Hs]; [lia|].
  destruct (lookup_lt_is_Some_2 ps i) as [x Hx]; [lia|].
  exists s, x. split; [done|]. split; [done|]. by eapply ru_each.
Qed.

(** A step inside the memory of its sender. *)
Lemma running_put ts ps o v i s x k p b n :
  running ts ps o v -> ss !! i = Some s -> ps !! i = Some x -> is_Some (ts !! i) ->
  safe cba cb s k p b n (pl_err x) ->
  running (<[i := p]> ts)
    (<[i := {| pl_steps := k; pl_buf := b; pl_seqn := n; pl_err := pl_err x |}]> ps) o
    (upd_heap (put cb s b n) v).
Proof.
  intros Hr Hs Hx [p0 Hp0] Hsafe.
  destruct (running_lookup _ _ _ _ _ _ Hr Hp0) as (s' & x' & Hs' & Hx' & Hv & _ & He).
  simplify_eq. destruct Hr as [[L1 L2] Hea (l' & Hl' & Hll & Hlo) Hfr Htr Hre Ho].
  split; wsimpl; try done.
  - by rewrite !length_insert.
  - intros j t q y Ht Hq Hy. destruct (decide (i = j)) as [<-|Hij].
    + rewrite list_lookup_insert_eq in Hq by (by eapply lookup_lt_Some).
      rewrite list_lookup_insert_eq in Hy by (by eapply lookup_lt_Some). simplify_eq. cbn.
      split; [|done]. eapply view_put; [exact Hv|]. by eapply (se_data Hok).
    + rewrite list_lookup_insert_ne in Hq by done. rewrite list_lookup_insert_ne in Hy by done.
      destruct (Hea j t q y Ht Hq Hy) as (Hvt & Hst & Het). split; [|done].
      destruct (se_ids Hok i j s t Hs Ht Hij) as [Hid Hbuf].
      eapply view_put_other; [exact Hv|exact Hvt|done|done|]. by eapply (se_data Hok).
  - assert (send_buf (sd_ctx s) <> cb_buf_ctxs cb).
    { intros He'. pose proof (vw_buf _ _ _ _ _ _ Hv) as Hb. rewrite He' in Hb. congruence. }
    unfold put. rewrite lookup_insert_ne, lookup_alter_eq, Hl' by done. eexists.
    split; [reflexivity|]. rewrite length_insert. split; [done|]. intros j Hj.
    rewrite list_lookup_insert_ne by (by eapply Hj). by apply Hlo.
  - intros a H1 H2. unfold put. rewrite lookup_insert_ne, lookup_alter_ne; auto.
    apply not_eq_sym. by eapply H2.
Qed.

(** A post. *)
Lemma running_post ts ps o v i s x k p err :
  running ts ps o v -> ss !! i = Some s -> ps !! i = Some x -> is_Some (ts !! i) ->
  pl_err x = None -> err = k_post_send (trace v) (cb_qp cb) (sq_wr (sd_ctx s)) ->
  safe cba cb s k p (pl_buf x) (pl_seqn x) (Some err) ->
  running (<[i := p]> ts)
    (<[i := {| pl_steps := k; pl_buf := pl_buf x; pl_seqn := pl_seqn x; pl_err := Some err |}]> ps)
    (i :: o) (log (EvPostSend (cb_qp cb) (sq_wr (sd_ctx s)) err) v).
Proof.
  intros Hr Hs Hx [p0 Hp0] Hnone -> Hsafe.
  destruct (running_lookup _ _ _ _ _ _ Hr Hp0) as (s' & x' & Hs' & Hx' & Hv & _ & He).
  simplify_eq. destruct Hr as [[L1 L2] Hea Hct Hfr Htr Hre [Hnd Hlt]].
  assert (Hi : i ∉ o).
  { eapply answer_out; [exact Hs|congruence]. }
  split; wsimpl; try done.
  - by rewrite !length_insert.
  - intros j t q y Ht Hq Hy. destruct (decide (i = j)) as [<-|Hij].
    + rewrite list_lookup_insert_eq in Hq by (by eapply lookup_lt_Some).
      rewrite list_lookup_insert_eq in Hy by (by eapply lookup_lt_Some). simplify_eq.
      cbn [pl_steps pl_buf pl_seqn pl_err answer]. rewrite decide_True by done.
      split; [by apply view_log|]. split; [done|]. rewrite Hs, Htr. done.
    + rewrite list_lookup_insert_ne in Hq by done. rewrite list_lookup_insert_ne in Hy by done.
      destruct (Hea j t q y Ht Hq Hy) as (Hvt & Hst & Het).
      split; [by apply view_log|]. split; [done|]. cbn [answer]. by rewrite decide_False.
  - cbn [post_trace]. by rewrite Hs, Htr.
  - split; [by constructor|]. intros j [->|Hj]%elem_of_cons; [|by apply Hlt].
    by eapply lookup_lt_Some.
Qed.

(** A thread with a step left takes it. *)
Lemma running_step ts ps o v i {B} (m : M B) f :
  running ts ps o v -> ts !! i = Some (Step m f) ->
  exists x v' y y' o', m v = Ok x v' /\ ps !! i = Some y /\ pl_steps y = S (pl_steps y')
    /\ running (<[i := f x]> ts) (<[i := y']> ps) o' v' /\ (o' = o \/ o' = i :: o).
Proof.
  intros Hr Hp. destruct (running_lookup _ _ _ _ _ _ Hr Hp) as (s & y & Hs & Hy & Hv & Hsafe & He).
  destruct (pl_steps y) as [|k] eqn:Ek; [by destruct Hsafe|].
  destruct (Hsafe v Hv) as (x & [(b & n & Hm & _ & Hk)|(err & Hnone & Herr & Hm & Hk)]);
    eexists x, _, y, _, _; (split; [exact Hm|]); (split; [exact Hy|]); (split; cycle 1;
      [split|]).
  - eapply running_put; [exact Hr|exact Hs|exact Hy|by eexists|exact Hk].
  - by left.
  - by rewrite Ek.
  - eapply running_post; [exact Hr|exact Hs|exact Hy|by eexists|done|exact Herr|exact Hk].
  - by right.
  - by rewrite Ek.
Qed.

Lemma running_step_of ts ps o v i :
  running ts ps o v -> exists ts' ps' o' v', step_of i ts v = Ok ts' v'
    /\ running ts' ps' o' v'
    /\ forall j x x', ps !! j = Some x -> ps' !! j = Some x' ->
         pl_steps x' = (pl_steps x - if decide (i = j) then 1 else 0)%nat.
Proof.
  intros Hr. unfold step_of.
  assert (Hsame : (ts !! i = None \/ exists r, ts !! i = Some (Done r)) ->
    forall j x x', ps !! j = Some x -> ps !! j = Some x' ->
      pl_steps x' = (pl_steps x - if decide (i = j) then 1 else 0)%nat).
  { intros Hi j x x' Hx Hx'. simplify_eq. case_decide as Hij; [subst j|lia].
    destruct Hi as [Hi|[r Hi]].
    - apply lookup_ge_None in Hi. apply lookup_lt_Some in Hx.
      destruct (ru_len _ _ _ _ Hr). lia.
    - destruct (running_lookup _ _ _ _ _ _ Hr Hi) as (s & y & _ & Hy & _ & Hsafe & _).
      simplify_eq. destruct (pl_steps x); [done|by destruct Hsafe]. }
  destruct (ts !! i) as [[r|B m f]|] eqn:Ei.
  - exists ts, ps, o, v. split; [done|]. split; [done|]. apply Hsame. right. by exists r.
  - destruct (running_step _ _ _ _ _ _ _ Hr Ei) as (x & v' & y & y' & o' & Hm & Hy & Hk & Hr' & _).
    eexists _, _, _, _. split; [by unfold mbind, M_bind; rewrite Hm|]. split; [exact Hr'|].
    intros j z z' Hz Hz'. case_decide as Hij.
    + subst j. rewrite list_lookup_insert_eq in Hz' by (by eapply lookup_lt_Some).
      simplify_eq. lia.
    + rewrite list_lookup_insert_ne in Hz' by done. simplify_eq. lia.
  - exists ts, ps, o, v. split; [done|]. split; [done|]. apply Hsame. by left.
Qed.

(** Whatever the schedule is, nothing goes wrong. *)
Lemma running_interleave sch ts ps o v :
  running ts ps o v -> exists ts' ps' o' v', interleave sch ts v = Ok ts' v'
    /\ running ts' ps' o' v'
    /\ forall j x x', ps !! j = Some x -> ps' !! j = Some x' ->
         pl_steps x' = (pl_steps x - count_occ Nat.eq_dec sch j)%nat.
Proof.
  revert ts ps o v. induction sch as [|i sch IH]; intros ts ps o v Hr; cbn [interleave].
  - exists ts, ps, o, v. split; [done|]. split; [done|]. intros j x x' Hx Hx'. simplify_eq. cbn. lia.
  - destruct (running_step_of _ _ _ _ i Hr) as (ts1 & ps1 & o1 & v1 & H1 & Hr1 & Hc1).
    destruct (IH _ _ _ _ Hr1) as (ts2 & ps2 & o2 & v2 & H2 & Hr2 & Hc2).
    exists ts2, ps2, o2, v2. split; [by unfold mbind, M_bind; rewrite H1|]. split; [done|].
    intros j x x' Hx Hx'. destruct (lookup_lt_is_Some_2 ps1 j) as [y Hy].
    { apply lookup_lt_Some in Hx. destruct (ru_len _ _ _ _ Hr), (ru_len _ _ _ _ Hr1). lia. }
    rewrite (Hc2 j y x' Hy Hx'), (Hc1 j x y Hx Hy). cbn [count_occ].
    destruct (Nat.eq_dec i j); case_decide; try done; lia.
Qed.

(** A thread that runs alone to its end. *)
Lemma running_alone ts ps o v i p :
  running ts ps o v -> ts !! i = Some p -> exists r v' ps' o', run p v = Ok r v'
    /\ running (<[i := Done r]> ts) ps' o' v' /\ (o' = o \/ o' = i :: o).
Proof.
  intros Hr Hp. destruct (running_lookup _ _ _ _ _ _ Hr Hp) as (s & y & _ & Hy & _).
  remember (pl_steps y) as k eqn:Hk. revert ts ps o v p y Hr Hp Hy Hk.
  induction k as [|k IH]; intros ts ps o v p y Hr Hp Hy Hk; destruct p as [r|B m f];
    destruct (running_lookup _ _ _ _ _ _ Hr Hp) as (s' & y' & _ & Hy' & _ & Hsafe & _);
    simplify_eq; rewrite <- Hk in Hsafe; try by destruct Hsafe.
  - exists r, v, ps, o. rewrite list_insert_id by done. split; [done|]. split; [done|by left].
  - destruct (running_step _ _ _ _ _ _ _ Hr Hp) as (x & v' & z & z' & o' & Hm & Hz & Hk' & Hr' & Ho).
    simplify_eq. assert (k = pl_steps z') by lia.
    pose proof (lookup_lt_Some _ _ _ Hp) as Hlt. pose proof (lookup_lt_Some _ _ _ Hy) as Hlt'.
    destruct (IH _ _ _ _ (f x) z' Hr') as (r & v2 & ps2 & o2 & Hrun & Hr2 & Ho2);
      [by apply list_lookup_insert_eq|by apply list_lookup_insert_eq|done|].
    rewrite list_insert_insert_eq in Hr2. exists r, v2, ps2, o2.
    split; [cbn; unfold mbind, M_bind; by rewrite Hm|]. split; [done|].
    destruct Ho as [->| ->]; [done|]. destruct Ho2 as [->| ->]; [by right|].
    destruct (ru_order _ _ _ _ Hr2) as [Hnd _]. apply NoDup_cons_1_1 in Hnd.
    exfalso. apply Hnd. by left.
Qed.

(** The threads before their first steps. *)
Definition start_place (s : sender) : place :=
  {| pl_steps := steps_of s;
     pl_buf := match heap w !! send_buf (sd_ctx s) with Some (BBytes b) => b | _ => [] end;
     pl_seqn := mc_seqn (sd_ctx s); pl_err := None |}.

Lemma running_start : running (prog_of cba <$> ss) (start_place <$> ss) [] w.
Proof.
  split; try done.
  - by rewrite !length_fmap.
  - intros i s p x Hs Hp Hx. rewrite list_lookup_fmap, Hs in Hp. rewrite list_lookup_fmap, Hs in Hx. cbn in *. simplify_eq.
    destruct (se_each Hok i s Hs) as [ [Hcb Hl Hc Hid Hsz (b & Hb & Hlen) Hd Hdl _ Hq] Hstr].
    cbn [pl_steps pl_buf pl_seqn pl_err start_place]. rewrite Hb. split; [|split; [|done] ].
    + split; [exists (cb_state cb); by rewrite with_state_id| |done|done|done]. exists l. split; [done|]. rewrite Hc.
      unfold ctx_with. by destruct (sd_ctx s).
    + apply safe_send; [by split|done].
  - exists l. split; [apply Hok|]. done.
  - split; [constructor|]. by intros i Hi%elem_of_nil.
Qed.

Lemma start_steps i x : (start_place <$> ss) !! i = Some x -> (pl_steps x <= 14)%nat.
Proof.
  rewrite list_lookup_fmap. destruct (ss !! i) as [s|]; [|done]. intros [= <-]. cbn.
  unfold steps_of. case_match; lia.
Qed.

(** Threads without steps left are done. *)
Lemma running_done ts ps o v :
  running ts ps o v -> (forall i x, ps !! i = Some x -> pl_steps x = O) ->
  exists rs, ts = Done <$> rs.
Proof.
  intros Hr Hz. exists ((fun p => match p with Done r => r | _ => 0 end) <$> ts).
  apply list_eq. intros i. rewrite !list_lookup_fmap. destruct (ts !! i) as [p|] eqn:Hp; [|done].
  destruct (running_lookup _ _ _ _ _ _ Hr Hp) as (s & x & _ & Hx & _ & Hsafe & _).
  rewrite (Hz i x Hx) in Hsafe. by destruct p.
Qed.

(** What a finished thread has left. *)
Lemma running_result rs ps o v i r :
  running (Done <$> rs) ps o v -> rs !! i = Some r -> exists s e, ss !! i = Some s
    /\ view cba cb s (image_of cb s) (seqn_of s) v /\ answer o i = Some e /\ r = result_of cb e.
Proof.
  intros Hr Hi. assert (Hp : (Done <$> rs) !! i = Some (Done r)) by (by rewrite list_lookup_fmap, Hi).
  destruct (running_lookup _ _ _ _ _ _ Hr Hp) as (s & x & Hs & _ & Hv & Hsafe & He).
  destruct (pl_steps x); [|done]. destruct Hsafe as (Hb & Hn & e & He' & ->).
  exists s, e. split; [done|]. rewrite Hb, Hn in Hv. split; [done|]. split; [congruence|done].
Qed.

Lemma running_all_posted rs ps o v : running (Done <$> rs) ps o v -> o ≡ₚ seq 0 (length ss).
Proof.
  intros Hr. destruct (ru_order _ _ _ _ Hr) as [Hnd Hlt]. apply NoDup_Permutation; [done| |].
  { apply NoDup_ListNoDup, seq_NoDup. }
  intros i. rewrite elem_of_seq. split; [intros Hi; specialize (Hlt i Hi); lia|].
  intros [_ Hi]. destruct (ru_len _ _ _ _ Hr) as [L _]. rewrite length_fmap in L.
  destruct (lookup_lt_is_Some_2 rs i) as [r Hri]; [lia|].
  destruct (running_result _ _ _ _ _ _ Hr Hri) as (s & e & _ & _ & He & _).
  by eapply answer_in.
Qed.

Lemma some_sender (P : sender -> Prop) `{forall s, Decision (P s)} :
  (exists i s, ss !! i = Some s /\ P s) \/ (forall i s, ss !! i = Some s -> ~ P s).
Proof.
  destruct (list_find P ss) as [ [i s]|] eqn:E.
  - left. apply list_find_Some in E as (Hs & HP & _). by exists i, s.
  - right. intros i s Hs. apply list_find_None in E. by eapply Forall_lookup_1 in E.
Qed.

(** The end is determined by the order of the posts. *)
Lemma running_unique rs ps o v rs' ps' v' :
  running (Done <$> rs) ps o v -> running (Done <$> rs') ps' o v' -> rs = rs' /\ v = v'.
Proof.
  intros Hr Hr'. destruct (ru_len _ _ _ _ Hr) as [L _], (ru_len _ _ _ _ Hr') as [L' _].
  rewrite length_fmap in L, L'.
  assert (Hres : forall i s, ss !! i = Some s -> rs !! i = rs' !! i
    /\ view cba cb s (image_of cb s) (seqn_of s) v /\ view cba cb s (image_of cb s) (seqn_of s) v').
  { intros i s Hs. pose proof (lookup_lt_Some _ _ _ Hs).
    destruct (lookup_lt_is_Some_2 rs i) as [r Hi]; [lia|].
    destruct (lookup_lt_is_Some_2 rs' i) as [r' Hi']; [lia|].
    destruct (running_result _ _ _ _ _ _ Hr Hi) as (s1 & e & Hs1 & Hv & He & ->).
    destruct (running_result _ _ _ _ _ _ Hr' Hi') as (s2 & e' & Hs2 & Hv' & He' & ->).
    simplify_eq. by rewrite Hi, Hi'. }
  split.
  { apply list_eq. intros i. destruct (ss !! i) as [s|] eqn:Hs; [by eapply Hres|].
    apply lookup_ge_None in Hs. rewrite !lookup_ge_None_2 by lia. done. }
  destruct Hr as [_ _ (lv & Hl & Hll & Hlo) Hfr Htr Hre _].
  destruct Hr' as [_ _ (lv' & Hl' & Hll' & Hlo') Hfr' Htr' Hre' _].
  apply world_ext; [|congruence|congruence]. apply map_eq. intros a.
  destruct (decide (a = cb_buf_ctxs cb)) as [->|Hne].
  - rewrite Hl, Hl'. do 2 f_equal. apply list_eq. intros j.
    destruct (some_sender (fun s => Z.to_nat (sd_id s) = j)) as [(i & s & Hs & <-)|Hno].
    + destruct (Hres i s Hs) as (_ & [_ (l1 & Hl1 & [_ Hc1]%ctx_at_Some) _ _ _]
        & [_ (l2 & Hl2 & [_ Hc2]%ctx_at_Some) _ _ _]). congruence.
    + by rewrite Hlo, Hlo'.
  - destruct (some_sender (fun s => a = send_buf (sd_ctx s))) as [(i & s & Hs & ->)|Hno].
    + destruct (Hres i s Hs) as (_ & [_ _ Hb _ _] & [_ _ Hb' _ _]). congruence.
    + by rewrite Hfr, Hfr'.
Qed.

(** The senders [lst] one after another. *)
Lemma running_in_turn lst ts ps o v :
  running ts ps o v -> NoDup lst ->
  (forall i, i ∈ lst -> i ∉ o /\ exists s, ss !! i = Some s /\ ts !! i = Some (prog_of cba s)) ->
  exists rs ts' ps' v', mapM (send_of cba) (at_indices ss lst) v = Ok rs v'
    /\ running ts' ps' (reverse lst ++ o) v'
    /\ (forall j, j ∉ lst -> ts' !! j = ts !! j)
    /\ Forall2 (fun i r => ts' !! i = Some (Done r)) lst rs.
Proof.
  revert ts ps o v. induction lst as [|i lst IH]; intros ts ps o v Hr Hnd Hin.
  { exists [], ts, ps, v. split; [done|]. split; [done|]. by split. }
  apply NoDup_cons_1_1 in Hnd as Hi. apply NoDup_cons_1_2 in Hnd.
  destruct (Hin i) as (Hio & s & Hs & Hp); [by left|].
  destruct (running_alone _ _ _ _ _ _ Hr Hp) as (r & v1 & ps1 & o1 & Hrun & Hr1 & Ho).
  unfold prog_of in Hrun. rewrite run_send_prog in Hrun. pose proof (lookup_lt_Some _ _ _ Hp) as Hlt.
  assert (o1 = i :: o) as ->.
  { destruct Ho as [->|Ho]; [|done]. exfalso. apply Hio.
    assert (Hp1 : <[i := Done r]> ts !! i = Some (Done r)) by by apply list_lookup_insert_eq.
    destruct (running_lookup _ _ _ _ _ _ Hr1 Hp1) as (s' & x & _ & _ & _ & Hsafe & He).
    destruct (pl_steps x); [|done]. destruct Hsafe as (_ & _ & e & He' & _).
    apply (answer_in o i e). congruence. }
  destruct (IH (<[i := Done r]> ts) ps1 (i :: o) v1 Hr1 Hnd) as (rs & ts' & ps' & v' & Hm & Hr' & Hj & Hf).
  { intros j Hj. assert (i <> j) by (by intros ->).
    destruct (Hin j) as (Hjo & t & Ht & Hq); [by right|]. split.
    - intros [->|?]%elem_of_cons; done.
    - exists t. by rewrite list_lookup_insert_ne. }
  exists (r :: rs), ts', ps', v'. split; [|split; [|split] ].
  - cbn. rewrite Hs. cbn. unfold send_of at 1. erewrite bind_run by exact Hrun.
    by erewrite bind_run by exact Hm.
  - by rewrite reverse_cons, <- app_assoc.
  - intros j Hnj. apply not_elem_of_cons in Hnj as [Hne Hnj].
    rewrite Hj, list_lookup_insert_ne by done. done.
  - constructor; [|done]. rewrite Hj by done. by apply list_lookup_insert_eq.
Qed.

(** In the order of the posts, one after another, the senders get the same
    results and leave the same world. *)
Lemma running_serial rs ps o v :
  running (Done <$> rs) ps o v -> exists os, os ≡ₚ zip ss rs
    /\ mapM (send_of cba) os.*1 w = Ok os.*2 v.
Proof.
  intros Hr. pose proof (running_all_posted _ _ _ _ Hr) as Hperm.
  destruct (ru_order _ _ _ _ Hr) as [Hnd Hlt], (ru_len _ _ _ _ Hr) as [Hlen _].
  rewrite length_fmap in Hlen.
  destruct (running_in_turn (reverse o) _ _ _ _ running_start) as (rs1 & ts1 & ps1 & v1 & Hm & Hr1 & Hj & Hf).
  { by rewrite reverse_Permutation. }
  { intros i Hi. rewrite elem_of_reverse in Hi. split; [apply not_elem_of_nil|].
    destruct (lookup_lt_is_Some_2 ss i (Hlt i Hi)) as [s Hs]. exists s.
    by rewrite list_lookup_fmap, Hs. }
  rewrite reverse_involutive, app_nil_r in Hr1.
  assert (Hts : exists rs', ts1 = Done <$> rs').
  { apply (running_done _ _ _ _ Hr1). intros i x Hx. destruct (ru_len _ _ _ _ Hr1) as [L1 L2].
    pose proof (lookup_lt_Some _ _ _ Hx). assert (Hi : i ∈ reverse o).
    { rewrite elem_of_reverse, Hperm, elem_of_seq. lia. }
    apply list_elem_of_lookup in Hi as [k Hk]. destruct (Forall2_lookup_l _ _ _ _ _ Hf Hk) as (r & _ & Hd).
    destruct (running_lookup _ _ _ _ _ _ Hr1 Hd) as (s & y & _ & Hy & _ & Hsafe & _).
    simplify_eq. destruct (pl_steps x); [done|by destruct Hsafe]. }
  destruct Hts as [rs' ->]. destruct (running_unique _ _ _ _ _ _ _ Hr Hr1) as [<- <-].
  assert (Hz : zip (at_indices ss (reverse o)) rs1 = at_indices (zip ss rs) (reverse o)
    /\ length rs1 = length (at_indices ss (reverse o))).
  { clear -Hf Hlen. induction Hf as [|i r js rs1 Hi _ [IH1 IH2] ]; [done|].
    rewrite list_lookup_fmap in Hi. destruct (rs !! i) as [r'|] eqn:Hri; [|done]. cbn in Hi. simplify_eq.
    destruct (lookup_lt_is_Some_2 ss i) as [s Hs]; [apply lookup_lt_Some in Hri; lia|].
    unfold at_indices in *. cbn. rewrite lookup_zip_with, Hs, Hri. cbn. by rewrite IH1, IH2. }
  destruct Hz as [Hz Hzl]. exists (zip (at_indices ss (reverse o)) rs1). split.
  - rewrite Hz. apply at_indices_perm. rewrite reverse_Permutation, Hperm.
    by rewrite length_zip_with, Hlen, Nat.min_id.
  - by rewrite fst_zip, snd_zip by lia.
Qed.
End Senders.

(** C5. Any number of senders with message ids and buffers of their own call
    [send_rdma_msg] on one channel at the same time, without a lock.  In any
    interleaving of their accesses to memory no access goes wrong; when each has
    been scheduled 14 times all have returned; and once they have, every send
    buffer holds the whole message of its own sender, and the results and the
    world are those of the calls made one after another in some order. *)
Theorem concurrent_sends_serialize `{K : Kernel} cba cb ss w l sch :
  senders_ok cba cb ss w l -> exists ts v,
    interleave sch (prog_of cba <$> ss) w = Ok ts v
    /\ ((forall i, (i < length ss)%nat -> (14 <= count_occ Nat.eq_dec sch i)%nat) ->
         exists rs, ts = Done <$> rs)
    /\ (forall rs, ts = Done <$> rs ->
         (forall s, s ∈ ss -> heap v !! send_buf (sd_ctx s) = Some (BBytes (image_of cb s)))
         /\ exists os, os ≡ₚ zip ss rs /\ mapM (send_of cba) os.*1 w = Ok os.*2 v).
Proof.
  intros Hok. pose proof (running_start _ _ _ _ _ Hok) as Hr.
  destruct (running_interleave _ _ _ _ _ Hok sch _ _ _ _ Hr) as (ts & ps & o & v & Hi & Hr' & Hc).
  exists ts, v. split; [done|]. split.
  - intros Hall. apply (running_done _ _ _ _ _ _ _ _ _ Hr'). intros i x Hx.
    destruct (ru_len _ _ _ _ _ _ _ _ _ Hr) as [_ L], (ru_len _ _ _ _ _ _ _ _ _ Hr') as [_ L'].
    pose proof (lookup_lt_Some _ _ _ Hx).
    destruct (lookup_lt_is_Some_2 (start_place w <$> ss) i) as [y Hy]; [lia|].
    rewrite (Hc i y x Hy Hx). pose proof (start_steps _ _ _ _ Hy).
    specialize (Hall i ltac:(lia)). lia.
  - intros rs ->. split; [|by eapply running_serial].
    intros s [i Hs]%list_elem_of_lookup. destruct (ru_len _ _ _ _ _ _ _ _ _ Hr') as [L _].
    rewrite length_fmap in L. destruct (lookup_lt_is_Some_2 rs i) as [r Hri];
      [apply lookup_lt_Some in Hs; lia|].
    destruct (running_result _ _ _ _ _ _ _ _ _ _ _ Hr' Hri) as (s' & e & Hs' & Hv & _).
    simplify_eq. apply Hv.
Qed.
