(* ===== verification/RdmaCm.v ===== *)
(** * RdmaCm: connection management ([rdma.c])

    The connection manager's callback [cma_event_handler], the asynchronous
    contexts that run while a thread waits (the instance [rdma_delivery] of
    [Wait.Delivery]), and the three functions that wait for the callback:
    [bind_client], [connect_client] and [do_accept]. *)
From S2P Require Import Prelude Types Kernel Logic Verbs Wait Within Frame Wire RdmaIo.

Section Cm.
Context {K : Kernel} {R : RpcHandler}.

Definition set_state (cba : addr) (s : rdma_ch_state) : M unit :=
  update cba (fun cb => cb <| cb_state := s |>).

Definition cma_event_handler (cma_id : kptr) (event : rdma_cm_event) : M Z :=
  i ← cm_id cma_id;
  let cba := cm_context i in
  cb ← load (T := rdma_ch_cb) cba;
  match event with
  | RDMA_CM_EVENT_ADDR_RESOLVED =>
      set_state cba ADDR_RESOLVED;;
      ret ← rdma_resolve_route cma_id;
      (if ret =? 0 then mret tt
       else set_state cba ERROR;; wake_up_interruptible (WqCb cba));;
      mret ret
  | RDMA_CM_EVENT_ROUTE_RESOLVED =>
      set_state cba ROUTE_RESOLVED;; wake_up_interruptible (WqCb cba);; mret 0
  | RDMA_CM_EVENT_CONNECT_REQUEST =>
      set_state cba CONNECT_REQUEST;;
      update cba (fun cb => cb <| cb_child_cm_id := cma_id |>);;
      wake_up_interruptible (WqCb cba);; mret 0
  | RDMA_CM_EVENT_ESTABLISHED =>
      (if cb_server cb =? 0 then set_state cba CONNECTED else mret tt);;
      wake_up_interruptible (WqCb cba);; mret 0
  | RDMA_CM_EVENT_ADDR_ERROR | RDMA_CM_EVENT_ROUTE_ERROR
  | RDMA_CM_EVENT_CONNECT_ERROR | RDMA_CM_EVENT_UNREACHABLE
  | RDMA_CM_EVENT_REJECTED =>
      wake_up_interruptible (WqCb cba);; mret (-1)
  | RDMA_CM_EVENT_DISCONNECTED =>
      set_state cba DISCONNECTED;; wake_up_interruptible (WqCb cba);; mret 0
  | RDMA_CM_EVENT_DEVICE_REMOVAL => mret (-1)
  | RDMA_CM_EVENT_OTHER _ => mret 0
  end.

(** The connection manager calls the handler of an id it knows, and destroys
    the id when the handler returns a non-zero value. *)
Definition deliver_cm (id : kptr) (ev : rdma_cm_event) : M unit :=
  r ← cma_event_handler id ev;
  emit (EvCmHandled id ev r);;
  if r =? 0 then mret tt else modify (upd_cms (delete id)).

Definition rdma_deliver (e : async) : M unit :=
  match e with
  | ACm id ev =>
      m ← get cms;
      match m !! id with None => mret tt | Some _ => deliver_cm id ev end
  | AConnReq listener child =>
      m ← get cms;
      match m !! listener with
      | None => mret tt
      | Some c =>
          modify (upd_cms (insert child {| cm_context := cm_context c; cm_qp := NULL |}));;
          deliver_cm child RDMA_CM_EVENT_CONNECT_REQUEST
      end
  | ACq cq ps =>
      m ← get cqs;
      match m !! cq with
      | None => mret tt
      | Some c =>
          modify (upd_cqs (insert cq (c <| cq_polls := cq_polls c ++ ps |>)));;
          cq_thread cq (cq_context c)
      end
  | ADma a l => dma_write a l
  | ASignal => mret tt
  end.

#[export] Instance rdma_delivery : Delivery := rdma_deliver.

(** [cb->state >= s], as a condition to wait for. *)
Definition state_ge (cba : addr) (s : rdma_ch_state) : M bool :=
  cb ← load (T := rdma_ch_cb) cba; mret (cb_state cb >=s s).

(** ** The waiting functions *)

(** [sin_port] and [sin6_port] are the same bytes of the address. *)
Definition store_sin_port (cba : addr) : M unit :=
  update cba (fun cb => cb <| cb_sin := (cb_sin cb) <| sin_port := cb_port cb |> |>).

Definition bind_client (cba : addr) : M Z :=
  cb ← load (T := rdma_ch_cb) cba;
  (if ss_family (cb_sin cb) =? AF_INET then store_sin_port cba else store_sin_port cba);;
  cb ← load cba;
  ret ← rdma_resolve_addr (cb_cm_id cb) (cb_sin cb);
  if negb (ret =? 0) then mret ret else
  wait_event_interruptible (WqCb cba) (state_ge cba ROUTE_RESOLVED);;
  cb ← load (T := rdma_ch_cb) cba;
  if negb (cb_state cb =s ROUTE_RESOLVED) then mret (-1) else mret 0.

Definition connect_client (cba : addr) : M Z :=
  cb ← load (T := rdma_ch_cb) cba;
  ret ← rdma_connect (cb_cm_id cb)
    {| responder_resources := 1; initiator_depth := 1; retry_count := 7 |};
  if negb (ret =? 0) then mret ret else
  wait_event_interruptible (WqCb cba) (state_ge cba CONNECTED);;
  cb ← load (T := rdma_ch_cb) cba;
  if negb (cb_state cb =s CONNECTED) then mret (-1) else mret 0.

Definition do_accept (cba : addr) : M Z :=
  cb ← load (T := rdma_ch_cb) cba;
  ret ← rdma_accept (cb_child_cm_id cb);
  if negb (ret =? 0) then mret ret else
  wait_event_interruptible (WqCb cba) (state_ge cba CONNECTED);;
  cb ← load (T := rdma_ch_cb) cba;
  if cb_state cb =s ERROR then mret (-1) else mret 0.

(** [fill_sockaddr] writes the whole address anew: the family, the first four
    bytes at [ip], and the port truncated to 16 bits. *)
Definition fill_sockaddr (ip : list Z) (port : Z) : option sockaddr :=
  a ← read_at 0 4 ip;
  Some {| ss_family := AF_INET; sin_port := u16 port; sin_addr := a |}.
End Cm.

(** ** Transitions of the callback *)

(** The handled state changes, by event: the new state, whether the waiter is
    woken, the result ([route] is the answer of [rdma_resolve_route]). *)
Definition cm_next (server route : Z) (ev : rdma_cm_event) (s : rdma_ch_state)
    : rdma_ch_state * bool * Z :=
  match ev with
  | RDMA_CM_EVENT_ADDR_RESOLVED =>
      if route =? 0 then (ADDR_RESOLVED, false, 0) else (ERROR, true, route)
  | RDMA_CM_EVENT_ROUTE_RESOLVED => (ROUTE_RESOLVED, true, 0)
  | RDMA_CM_EVENT_CONNECT_REQUEST => (CONNECT_REQUEST, true, 0)
  | RDMA_CM_EVENT_ESTABLISHED => (if server =? 0 then CONNECTED else s, true, 0)
  | RDMA_CM_EVENT_ADDR_ERROR | RDMA_CM_EVENT_ROUTE_ERROR
  | RDMA_CM_EVENT_CONNECT_ERROR | RDMA_CM_EVENT_UNREACHABLE
  | RDMA_CM_EVENT_REJECTED => (s, true, -1)
  | RDMA_CM_EVENT_DISCONNECTED => (DISCONNECTED, true, 0)
  | RDMA_CM_EVENT_DEVICE_REMOVAL => (s, false, -1)
  | RDMA_CM_EVENT_OTHER _ => (s, false, 0)
  end.

(** Events by which the connection manager reports a failure. *)
Definition cm_failure (ev : rdma_cm_event) : bool :=
  match ev with
  | RDMA_CM_EVENT_ADDR_ERROR | RDMA_CM_EVENT_ROUTE_ERROR
  | RDMA_CM_EVENT_CONNECT_ERROR | RDMA_CM_EVENT_UNREACHABLE
  | RDMA_CM_EVENT_REJECTED | RDMA_CM_EVENT_DEVICE_REMOVAL => true
  | _ => false
  end.

(** The control block after an event on [id]. *)
Definition cb_after_cm (id : kptr) (ev : rdma_cm_event) (s : rdma_ch_state)
    (cb : rdma_ch_cb) : rdma_ch_cb :=
  let cb := with_state s cb in
  match ev with
  | RDMA_CM_EVENT_CONNECT_REQUEST => cb <| cb_child_cm_id := id |>
  | _ => cb
  end.

(** What a run of the callback leaves, given the transition [n]. *)
Record cm_post (w : world) (id : kptr) (i : cm_state) (cb : rdma_ch_cb)
    (ev : rdma_cm_event) (n : rdma_ch_state * bool * Z) (r : Z) (w' : world) : Prop := {
  cp_ret : r = snd n;
  cp_heap : heap w' =
    <[cm_context i := BCb (cb_after_cm id ev (fst (fst n)) cb)]> (heap w);
  cp_woken : woken w' = (if snd (fst n) then [WqCb (cm_context i)] else []) ++ woken w;
  cp_next : next w' = next w;
  cp_sched : sched w' = sched w;
  cp_objs : objs w' = objs w }.

Section Cm_lemmas.
Context {K : Kernel} {R : RpcHandler}.

Lemma wp_cma_event_handler t w id i cb ev :
  cms w !! id = Some i -> heap w !! cm_context i = Some (BCb cb) ->
  wp t (cma_event_handler id ev)
    (cm_post w id i cb ev
       (cm_next (cb_server cb) (k_resolve_route (trace w) id) ev (cb_state cb))) w.
Proof.
  intros Hi Hcb. unfold cma_event_handler. do 6 wp_step.
  assert (Hid : <[cm_context i := BCb (with_state (cb_state cb) cb)]> (heap w) = heap w)
    by (rewrite with_state_id; by apply insert_id).
  destruct ev; cbn [cm_next]; unfold set_state;
    wp_steps; wsimpl in *; rewrite ?E; (split; wsimpl; cbn [fst snd app];
      rewrite ?insert_insert_eq; try done; try by rewrite Hid).
  by apply Z.eqb_eq.
Qed.

Lemma wp_deliver_cm t w id i cb ev (Q : unit -> world -> Prop) :
  cms w !! id = Some i -> heap w !! cm_context i = Some (BCb cb) ->
  (forall r w1, cm_post w id i cb ev
      (cm_next (cb_server cb) (k_resolve_route (trace w) id) ev (cb_state cb)) r w1 ->
     Q tt (if r =? 0 then log (EvCmHandled id ev r) w1
           else upd_cms (delete id) (log (EvCmHandled id ev r) w1))) ->
  wp t (deliver (ACm id ev)) Q w.
Proof.
  intros Hi Hcb HQ. unfold deliver, rdma_delivery, rdma_deliver, deliver_cm. wp_step. wp_step. rewrite Hi. wp_step.
  eapply wp_mono; [by eapply wp_cma_event_handler|]. intros r w1 Hp. cbv beta.
  specialize (HQ r w1 Hp). wp_step. wp_step. by destruct (r =? 0).
Qed.

(** A failure of the connection attempt on [id]. *)
Definition failure_of (id : kptr) (e : async) : Prop :=
  exists ev, e = ACm id ev /\ cm_failure ev = true.

(** While only failures arrive, the control block stays as it is. *)
Definition failing (id : kptr) (cba : addr) (cb : rdma_ch_cb) (w : world) : Prop :=
  Forall (failure_of id) (sched w) /\ heap w !! cba = Some (BCb cb) /\
  (forall i, cms w !! id = Some i -> cm_context i = cba).

Lemma cm_failure_next server route ev s :
  cm_failure ev = true -> exists wake, cm_next server route ev s = (s, wake, -1).
Proof. destruct ev; cbn; intros; try done; eauto. Qed.

Lemma failing_step id cba cb w e s :
  failing id cba cb w -> sched w = e :: s -> is_signal e = false /\
  exists w', deliver e (set_woken [] (set_sched s w)) = Ok tt w' /\ failing id cba cb w'.
Proof.
  intros (Hs & Hcb & Hi) He. rewrite He in Hs.
  apply Forall_cons_1 in Hs as [(ev & -> & Hev) Hs]. split; [done|].
  set (w0 := set_woken _ _). destruct (cms w !! id) as [i|] eqn:Hid.
  2: { exists w0. unfold w0. split.
       - unfold deliver, rdma_delivery, rdma_deliver, mbind, M_bind, get. wsimpl.
         by rewrite Hid.
       - split; [done|split; [done|]]. intros i. wsimpl. by rewrite Hid. }
  specialize (Hi i eq_refl) as <-.
  apply (wp_total_unit _ (fun _ => failing id (cm_context i) cb)).
  eapply wp_deliver_cm; [done|done|]. intros r w1 Hp.
  destruct (cm_failure_next (cb_server cb) (k_resolve_route (trace w0) id) ev (cb_state cb) Hev)
    as [wake Hn].
  rewrite Hn in Hp. destruct Hp as [-> Hh _ _ Hsch Hob]. cbn in Hh.
  apply objs_inv in Hob as [Hcms _].
  assert (Hb : cb_after_cm id ev (cb_state cb) cb = cb).
  { unfold cb_after_cm. rewrite with_state_id. by destruct ev. }
  rewrite Hb in Hh. cbn [snd]. change (-1 =? 0) with false. cbv iota.
  split; [|split]; wsimpl.
  - by rewrite Hsch.
  - rewrite Hh. by rewrite lookup_insert_eq.
  - intros i'. by rewrite lookup_delete_eq.
Qed.

(** Waiting for a state above the current one, with only failures to come. *)
Lemma wait_failing_hangs id cba cb s w :
  failing id cba cb w -> (cb_state cb >=s s) = false ->
  exists w', wait_event_interruptible (WqCb cba) (state_ge cba s) w = Blocked w'
    /\ failing id cba cb w'.
Proof.
  intros Hf Hlt.
  assert (Hcond : forall v, failing id cba cb v -> state_ge cba s v = Ok false v).
  { intros v (_ & Hcb & _). unfold state_ge, mbind, M_bind, load, peek.
    rewrite Hcb. cbn. by rewrite Hlt. }
  destruct (wait_loop_stuck (failing id cba cb) (WqCb cba) (state_ge cba s) Hcond
    (fun v e s' Hv He => failing_step id cba cb v e s' Hv He) (length (sched w)) w Hf)
    as (w' & Hr & Hw').
  exists w'. split; [|done]. unfold wait_event_interruptible, mbind, M_bind.
  rewrite Hcond by done. exact Hr.
Qed.
End Cm_lemmas.

(** ** Properties *)

(** The control block [bind_client] works on: the target port, in network byte
    order, goes into the address. *)
Definition with_port (cb : rdma_ch_cb) : rdma_ch_cb :=
  cb <| cb_sin := (cb_sin cb) <| sin_port := cb_port cb |> |>.

Section Cm_properties.
Context {K : Kernel} {R : RpcHandler}.

(** The rest of [bind_client] and [connect_client] after their wait for
    state [s]. *)
Definition check_state (cba : addr) (s : rdma_ch_state) : M Z :=
  cb ← load (T := rdma_ch_cb) cba;
  if negb (cb_state cb =s s) then mret (-1) else mret 0.

(** The state in which [bind_client] waits. *)
Definition bind_waiting (w : world) (cba : addr) (cb : rdma_ch_cb) : world :=
  log (EvResolveAddr (cb_cm_id cb) (cb_sin (with_port cb)) 0)
    (upd_heap (insert cba (BCb (with_port cb))) w).

Lemma bind_client_run w cba cb :
  heap w !! cba = Some (BCb cb) -> is_Some (cms w !! cb_cm_id cb) ->
  k_resolve_addr (trace w) (cb_cm_id cb) (cb_sin (with_port cb)) = 0 ->
  bind_client cba w =
    (wait_event_interruptible (WqCb cba) (state_ge cba ROUTE_RESOLVED);;
     check_state cba ROUTE_RESOLVED) (bind_waiting w cba cb).
Proof.
  intros Hcb [i Hi] Hr. unfold bind_client. erewrite bind_run by by apply load_run.
  set (m := store_sin_port cba).
  replace (if ss_family (cb_sin cb) =? AF_INET then m else m) with m
    by (by destruct (_ =? AF_INET)).
  erewrite bind_run by by eapply update_run.
  erewrite bind_run by (apply load_run; wsimpl; apply lookup_insert_eq).
  erewrite bind_run by by eapply rdma_resolve_addr_run. wsimpl.
  unfold with_port in Hr. cbn in Hr |- *. by rewrite Hr.
Qed.

Lemma connect_client_run w cba cb :
  let p := {| responder_resources := 1; initiator_depth := 1; retry_count := 7 |} in
  heap w !! cba = Some (BCb cb) -> is_Some (cms w !! cb_cm_id cb) ->
  k_connect (trace w) (cb_cm_id cb) p = 0 ->
  connect_client cba w =
    (wait_event_interruptible (WqCb cba) (state_ge cba CONNECTED);;
     check_state cba CONNECTED) (log (EvConnect (cb_cm_id cb) p 0) w).
Proof.
  intros p Hcb [i Hi] Hr. unfold connect_client. erewrite bind_run by by apply load_run.
  erewrite bind_run by by eapply rdma_connect_run. fold p. by rewrite !Hr.
Qed.

Lemma state_ge_run w cba cb s :
  heap w !! cba = Some (BCb cb) -> state_ge cba s w = Ok (cb_state cb >=s s) w.
Proof. intros Hcb. unfold state_ge. by erewrite bind_run by by apply load_run. Qed.

Lemma check_state_run w cba cb s :
  heap w !! cba = Some (BCb cb) ->
  check_state cba s w = Ok (if cb_state cb =s s then 0 else -1) w.
Proof.
  intros Hcb. unfold check_state. erewrite bind_run by by apply load_run.
  by destruct (cb_state cb =s s).
Qed.

(** The callback posts and takes no receives. *)
Lemma recvs_deliver_cm id ev : unchanged all_recvs (deliver (ACm id ev)).
Proof.
  unfold deliver, rdma_delivery, rdma_deliver, deliver_cm, cma_event_handler, set_state.
  solve_within.
Qed.

(** One handled event during a wait. *)
Record waited (w : world) (s : list async) (cba : addr) (cb : rdma_ch_cb) (w' : world)
    : Prop := {
  wt_heap : heap w' = <[cba := BCb cb]> (heap w);
  wt_sched : sched w' = s;
  wt_recvs : all_recvs w' = all_recvs w;
  wt_rest : next w' = next w /\ objs w' = objs w }.

Lemma wait_loop_cm n w id i cb ev s tgt st wake :
  sched w = ACm id ev :: s -> cms w !! id = Some i ->
  heap w !! cm_context i = Some (BCb cb) ->
  cm_next (cb_server cb) (k_resolve_route (trace w) id) ev (cb_state cb) = (st, wake, 0) ->
  exists w', waited w s (cm_context i) (cb_after_cm id ev st cb) w' /\
    wait_loop (S n) (WqCb (cm_context i)) (state_ge (cm_context i) tgt) w =
      if wake && (st >=s tgt) then Ok 0 w'
      else wait_loop n (WqCb (cm_context i)) (state_ge (cm_context i) tgt) w'.
Proof.
  intros Hs Hi Hcb Hn. set (w0 := set_woken [] (set_sched s w)).
  destruct (wp_total_unit (deliver (ACm id ev)) (fun _ w' =>
      waited w s (cm_context i) (cb_after_cm id ev st cb) w' /\
      woken w' = if wake then [WqCb (cm_context i)] else []) w0)
    as (w' & Hd & Hw & Hwk).
  { eapply wp_within; [apply recvs_deliver_cm|].
    eapply wp_deliver_cm; [done|done|]. intros r w1 Hp Hrv. unfold w0 in Hp. wsimpl in Hp.
    rewrite Hn in Hp. destruct Hp as [-> Hh Hwk ? ? ?]. cbn in Hh, Hwk. cbn [snd] in *.
    change (0 =? 0) with true in *. cbv iota in *. wsimpl in *. rewrite app_nil_r in Hwk. done. }
  exists w'. split; [done|]. cbn [wait_loop]. erewrite bind_run by reflexivity.
  rewrite Hs. erewrite bind_run by reflexivity. fold w0. erewrite bind_run by exact Hd.
  erewrite bind_run by reflexivity. cbn [is_signal]. rewrite Hwk.
  assert (Hst : state_ge (cm_context i) tgt w' = Ok (st >=s tgt) w').
  { erewrite state_ge_run by (rewrite (wt_heap _ _ _ _ _ Hw); apply lookup_insert_eq).
    by destruct ev. }
  destruct wake; [|done]. rewrite bool_decide_eq_true_2 by left.
  erewrite bind_run by exact Hst. by destruct (st >=s tgt).
Qed.

(** C24. Every connection-manager event is handled as the table [cm_next] says:
    state change, wake-up of the waiter and result, with nothing else
    touched but the child id of a connection request. *)
Theorem cma_event_handler_transitions w id i cb ev :
  cms w !! id = Some i -> heap w !! cm_context i = Some (BCb cb) ->
  exists r w', cma_event_handler id ev w = Ok r w'
    /\ cm_post w id i cb ev
         (cm_next (cb_server cb) (k_resolve_route (trace w) id) ev (cb_state cb)) r w'.
Proof. intros Hi Hcb. by apply wp_total_run, wp_cma_event_handler. Qed.

(** No wake-up is lost on connection-manager events: for any target state
    the code waits for (from [ROUTE_RESOLVED] up), an event that makes the
    condition true wakes the waiter. *)
Theorem cma_no_lost_wakeup w id i cb ev tgt r w' cb' :
  cms w !! id = Some i -> heap w !! cm_context i = Some (BCb cb) ->
  (tgt >=s ROUTE_RESOLVED) = true -> (cb_state cb >=s tgt) = false ->
  cma_event_handler id ev w = Ok r w' ->
  heap w' !! cm_context i = Some (BCb cb') -> (cb_state cb' >=s tgt) = true ->
  WqCb (cm_context i) ∈ woken w'.
Proof.
  intros Hi Hcb Ht Hlt Hrun Hcb' Hge.
  pose proof (wp_run (t := Total) _ _ _ _ _ (wp_cma_event_handler _ _ _ _ _ ev Hi Hcb) Hrun)
    as [_ Hh Hw _ _ _].
  rewrite Hh, lookup_insert_eq in Hcb'. injection Hcb' as <-. rewrite Hw.
  destruct ev; cbn in Hge |- *; try destruct (_ =? 0); cbn in Hge |- *;
    try (by left); try congruence.
  apply Z.leb_le in Ht, Hge. cbn in *. lia.
Qed.

(** C36. A failed connection attempt is never noticed: when every event to come
    on the id is a failure (address, route or connection error, unreachable,
    rejected, device removal), which leaves the state as it is, [bind_client],
    before the route is resolved, and [connect_client], before the connection
    is up (it is called in state [ROUTE_RESOLVED]), wait forever. *)
Theorem cm_failure_hangs w cba cb :
  failing (cb_cm_id cb) cba cb w -> is_Some (cms w !! cb_cm_id cb) ->
  ((cb_state cb >=s ROUTE_RESOLVED) = false ->
   (forall sin, k_resolve_addr (trace w) (cb_cm_id cb) sin = 0) ->
   exists w', bind_client cba w = Blocked w' /\ failing (cb_cm_id cb) cba (with_port cb) w')
  /\ ((cb_state cb >=s CONNECTED) = false ->
   (forall p, k_connect (trace w) (cb_cm_id cb) p = 0) ->
   exists w', connect_client cba w = Blocked w' /\ failing (cb_cm_id cb) cba cb w').
Proof.
  intros (Hs & Hcb & Hi) Hlive. split.
  - intros Hlt Hra. rewrite (bind_client_run _ _ cb) by done.
    destruct (wait_failing_hangs (cb_cm_id cb) cba (with_port cb) ROUTE_RESOLVED
      (bind_waiting w cba cb)) as (w' & Hw' & Hf); [|done|].
    { split; [done|]. split; [apply lookup_insert_eq|done]. }
    exists w'. split; [by apply bind_blocked|done].
  - intros Hlt Hc. rewrite (connect_client_run _ _ cb) by done.
    destruct (wait_failing_hangs (cb_cm_id cb) cba cb CONNECTED
      (log (EvConnect (cb_cm_id cb) {| responder_resources := 1; initiator_depth := 1;
         retry_count := 7 |} 0) w)) as (w' & Hw' & Hf); [done|done|].
    exists w'. split; [by apply bind_blocked|done].
Qed.
End Cm_properties.

Section Cm_success.
Context {K : Kernel} {R : RpcHandler}.

(** [cba] is the control block [cb] of its id, which the connection manager
    knows, and [s] is to come. *)
Record cm_ready (w : world) (cba : addr) (cb : rdma_ch_cb) (s : list async) : Prop := {
  cr_cb : heap w !! cba = Some (BCb cb);
  cr_id : exists i, cms w !! cb_cm_id cb = Some i /\ cm_context i = cba;
  cr_sched : sched w = s }.

(** The state after a successful wait. *)
Record cm_done (w : world) (cba : addr) (cb : rdma_ch_cb) (s : list async) (w' : world)
    : Prop := {
  cd_ready : cm_ready w' cba cb s;
  cd_heap : heap w' = <[cba := BCb cb]> (heap w);
  cd_recvs : all_recvs w' = all_recvs w;
  cd_rest : next w' = next w /\ objs w' = objs w }.

(** A wait that starts with the condition false enters its loop. *)
Lemma wait_event_enter w cba cb tgt :
  heap w !! cba = Some (BCb cb) -> (cb_state cb >=s tgt) = false ->
  wait_event_interruptible (WqCb cba) (state_ge cba tgt) w =
  wait_loop (length (sched w)) (WqCb cba) (state_ge cba tgt) w.
Proof.
  intros Hcb Hlt. unfold wait_event_interruptible.
  erewrite bind_run by by erewrite state_ge_run. by rewrite Hlt.
Qed.

Lemma cm_ready_step w cba cb ev s st wake n tgt :
  cm_ready w cba cb (ACm (cb_cm_id cb) ev :: s) -> ev <> RDMA_CM_EVENT_CONNECT_REQUEST ->
  cm_next (cb_server cb) (k_resolve_route (trace w) (cb_cm_id cb)) ev (cb_state cb)
    = (st, wake, 0) ->
  exists w', cm_done w cba (with_state st cb) s w' /\
    wait_loop (S n) (WqCb cba) (state_ge cba tgt) w =
      if wake && (st >=s tgt) then Ok 0 w'
      else wait_loop n (WqCb cba) (state_ge cba tgt) w'.
Proof.
  intros [Hcb (i & Hi & <-) Hs] Hev Hn.
  destruct (wait_loop_cm n w _ _ _ _ _ tgt _ _ Hs Hi Hcb Hn) as (w' & [Hh ? ? [Hnx Hob]] & Hl).
  pose proof (objs_inv _ _ Hob) as [Hc _].
  exists w'. split; [|done].
  replace (cb_after_cm _ _ _ _) with (with_state st cb) in Hh by by destruct ev.
  split; [split|done|done|done]; [rewrite Hh; apply lookup_insert_eq| |done].
  exists i. by rewrite Hc.
Qed.

Lemma cm_done_trans w1 w2 w3 cba cb cb' s s' :
  cm_done w1 cba cb s w2 -> cm_done w2 cba cb' s' w3 -> cm_done w1 cba cb' s' w3.
Proof.
  intros [_ H1 V1 R1] [H2r H2 V2 R2].
  split; [done| |congruence|destruct R1, R2; split; congruence].
  by rewrite H2, H1, insert_insert_eq.
Qed.

Lemma bind_client_ok w cba cb s :
  let id := cb_cm_id cb in
  cm_ready w cba cb
    (ACm id RDMA_CM_EVENT_ADDR_RESOLVED :: ACm id RDMA_CM_EVENT_ROUTE_RESOLVED :: s) ->
  (cb_state cb >=s ROUTE_RESOLVED) = false ->
  k_resolve_addr (trace w) id (cb_sin (with_port cb)) = 0 ->
  k_resolve_route (EvResolveAddr id (cb_sin (with_port cb)) 0 :: trace w) id = 0 ->
  exists w', bind_client cba w = Ok 0 w'
    /\ cm_done w cba (with_state ROUTE_RESOLVED (with_port cb)) s w'.
Proof.
  intros id Hrd Hlt Ha Hr. pose proof Hrd as [Hcb (i & Hi & Hic) Hs].
  rewrite (bind_client_run _ _ cb) by done.
  set (w0 := bind_waiting w cba cb).
  assert (Hd0 : cm_done w cba (with_port cb) (sched w) w0).
  { split; [split|done|done|done]; [apply lookup_insert_eq| |done]. by exists i. }
  rewrite Hs in Hd0.
  destruct (cm_ready_step w0 cba (with_port cb) _ _ ADDR_RESOLVED false (S (length s))
    ROUTE_RESOLVED
    (cd_ready _ _ _ _ _ Hd0)) as (w1 & Hd1 & Hl1); [done| |].
  { cbn [cm_next]. change (k_resolve_route (trace w0) (cb_cm_id (with_port cb)))
      with (k_resolve_route (EvResolveAddr id (cb_sin (with_port cb)) 0 :: trace w) id).
    by rewrite Hr. }
  destruct (cm_ready_step w1 cba (with_state ADDR_RESOLVED (with_port cb)) _ _
    ROUTE_RESOLVED true (length s) ROUTE_RESOLVED (cd_ready _ _ _ _ _ Hd1)) as (w2 & Hd2 & Hl2);
    [done..|].
  exists w2. split; [|by do 2 (eapply cm_done_trans; [done|])].
  erewrite bind_run.
  - apply (check_state_run _ _ (with_state ROUTE_RESOLVED (with_port cb))).
    apply Hd2.
  - rewrite (wait_event_enter _ _ (with_port cb)) by first [apply Hd0|done].
    rewrite (cr_sched _ _ _ _ (cd_ready _ _ _ _ _ Hd0)). cbn [length].
    rewrite Hl1. cbn [andb]. rewrite Hl2. reflexivity.
Qed.

Lemma connect_client_ok w cba cb s :
  let p := {| responder_resources := 1; initiator_depth := 1; retry_count := 7 |} in
  cm_ready w cba cb (ACm (cb_cm_id cb) RDMA_CM_EVENT_ESTABLISHED :: s) ->
  cb_server cb = 0 -> (cb_state cb >=s CONNECTED) = false ->
  k_connect (trace w) (cb_cm_id cb) p = 0 ->
  exists w', connect_client cba w = Ok 0 w'
    /\ cm_done w cba (with_state CONNECTED cb) s w'.
Proof.
  intros p Hrd Hsv Hlt Hc. pose proof Hrd as [Hcb (i & Hi & Hic) Hs].
  rewrite (connect_client_run _ _ cb) by done.
  set (w0 := log _ w).
  assert (Hrd0 : cm_ready w0 cba cb (ACm (cb_cm_id cb) RDMA_CM_EVENT_ESTABLISHED :: s))
    by (split; [done|by exists i|done]).
  destruct (cm_ready_step w0 cba cb _ _ CONNECTED true (length s) CONNECTED Hrd0)
    as (w1 & Hd1 & Hl1); [done|cbn [cm_next]; by rewrite Hsv|].
  exists w1. split; [|by destruct Hd1].
  erewrite bind_run.
  - apply (check_state_run _ _ (with_state CONNECTED cb)), Hd1.
  - rewrite (wait_event_enter _ _ cb) by done.
    rewrite (cr_sched _ _ _ _ Hrd0). cbn [length]. by rewrite Hl1.
Qed.

(** A connection attempt on [id] that ends with an error: [rdma_connect]
    refuses it, or the first thing to come is a signal or a disconnection. *)
Definition connect_stopped (id : kptr) (s : list async) : Prop :=
  (forall h p, k_connect h id p <> 0) \/
  exists s', s = ASignal :: s' \/ s = ACm id RDMA_CM_EVENT_DISCONNECTED :: s'.

Lemma connect_client_stopped w cba cb s :
  cm_ready w cba cb s -> (cb_state cb >=s CONNECTED) = false ->
  connect_stopped (cb_cm_id cb) s ->
  exists r st w', connect_client cba w = Ok r w' /\ r <> 0
    /\ heap w' = <[cba := BCb (with_state st cb)]> (heap w) /\ next w' = next w
    /\ objs w' = objs w.
Proof.
  intros [Hcb (i & Hi & Hic) Hs] Hlt Hstop.
  set (p := {| responder_resources := 1; initiator_depth := 1; retry_count := 7 |}).
  destruct (Z.eq_dec (k_connect (trace w) (cb_cm_id cb) p) 0) as [Hc|Hc].
  2: { exists (k_connect (trace w) (cb_cm_id cb) p), (cb_state cb). eexists. split; [|split; [exact Hc|]].
       - unfold connect_client. erewrite bind_run by by apply load_run.
         erewrite bind_run by (eapply rdma_connect_run; exact Hi). fold p.
         by rewrite (proj2 (Z.eqb_neq _ 0)) by done.
       - split; [|done]. rewrite with_state_id. symmetry. by apply insert_id. }
  destruct Hstop as [Hno|(s' & Hev)]; [by destruct (Hno (trace w) p)|].
  rewrite (connect_client_run _ _ cb) by done. fold p. set (w0 := log _ w).
  assert (Hlen : length (sched w0) = S (length s'))
    by (change (sched w0) with (sched w); rewrite Hs; by destruct Hev as [-> | ->]).
  destruct Hev as [-> | ->].
  - set (w1 := set_woken [] (set_sched s' w0)). exists (-1), (cb_state cb), w1.
    split; [|split; [done|split; [|done]]].
    2: { rewrite with_state_id. symmetry. by apply insert_id. }
    assert (Hw : wait_event_interruptible (WqCb cba) (state_ge cba CONNECTED) w0
      = Ok (- ERESTARTSYS) w1).
    { rewrite (wait_event_enter _ _ cb), Hlen by done. cbn [wait_loop].
      erewrite bind_run by reflexivity. change (sched w0) with (sched w). rewrite Hs.
      do 3 erewrite bind_run by reflexivity. cbn [is_signal].
      erewrite bind_run by by apply (state_ge_run _ _ cb). by rewrite Hlt. }
    erewrite bind_run by exact Hw. rewrite (check_state_run _ _ cb) by done.
    replace (cb_state cb =s CONNECTED) with false; [done|].
    symmetry. apply Z.eqb_neq. apply Z.leb_gt in Hlt. lia.
  - assert (Hrd0 : cm_ready w0 cba cb (ACm (cb_cm_id cb) RDMA_CM_EVENT_DISCONNECTED :: s'))
      by (split; [done|by exists i|done]).
    destruct (cm_ready_step w0 cba cb _ _ DISCONNECTED true (length s') CONNECTED Hrd0)
      as (w1 & [Hrd1 Hh1 _ [Hn1 Ho1]] & Hl1); [done..|].
    exists (-1), DISCONNECTED, w1. split; [|done].
    erewrite bind_run.
    + apply (check_state_run _ _ (with_state DISCONNECTED cb)), Hrd1.
    + rewrite (wait_event_enter _ _ cb), Hlen by done. by rewrite Hl1.
Qed.

(** When the route cannot be resolved the callback reports it: the state
    is [ERROR], [bind_client] returns -1; but the error code it returned made
    the connection manager destroy the id the control block still holds. *)
Theorem bind_client_route_error w cba cb s e :
  let id := cb_cm_id cb in
  cm_ready w cba cb (ACm id RDMA_CM_EVENT_ADDR_RESOLVED :: s) ->
  (cb_state cb >=s ROUTE_RESOLVED) = false ->
  k_resolve_addr (trace w) id (cb_sin (with_port cb)) = 0 ->
  k_resolve_route (EvResolveAddr id (cb_sin (with_port cb)) 0 :: trace w) id = e ->
  e <> 0 ->
  exists w', bind_client cba w = Ok (-1) w'
    /\ heap w' = <[cba := BCb (with_state ERROR (with_port cb))]> (heap w)
    /\ cms w' = delete id (cms w).
Proof.
  intros id [Hcb (i & Hi & Hic) Hs] Hlt Ha Hr He. subst cba.
  rewrite (bind_client_run _ _ cb) by done.
  set (cb1 := with_port cb). set (w0 := bind_waiting w (cm_context i) cb).
  set (w1 := set_woken [] (set_sched s w0)).
  destruct (wp_total_unit (deliver (ACm id RDMA_CM_EVENT_ADDR_RESOLVED)) (fun _ w' =>
      heap w' = <[cm_context i := BCb (with_state ERROR cb1)]> (heap w) /\
      cms w' = delete id (cms w) /\ woken w' = [WqCb (cm_context i)]) w1)
    as (w2 & Hd & Hh & Hcm & Hwk).
  { eapply (wp_deliver_cm _ _ _ i cb1); [done|apply lookup_insert_eq|].
    intros r w2 [-> Hh Hwk _ _ [Hc _]%objs_inv]. revert Hh Hwk Hc.
    change (k_resolve_route (trace w1) id) with
      (k_resolve_route (EvResolveAddr id (cb_sin cb1) 0 :: trace w) id).
    unfold cb1 in Hr |- *. rewrite Hr. cbn [cm_next].
    rewrite (proj2 (Z.eqb_neq e 0)) by done. cbn [fst snd].
    rewrite (proj2 (Z.eqb_neq e 0)) by done. intros Hh Hwk Hc. wsimpl.
    rewrite Hh, Hwk, Hc. split; [|done]. apply insert_insert_eq. }
  exists w2. split; [|done]. erewrite bind_run.
  - apply (check_state_run _ _ (with_state ERROR cb1)). rewrite Hh. apply lookup_insert_eq.
  - rewrite (wait_event_enter _ _ cb1) by first [apply lookup_insert_eq|done].
    change (sched w0) with (sched w). rewrite Hs. cbn [length wait_loop].
    erewrite bind_run by reflexivity. change (sched w0) with (sched w). rewrite Hs.
    erewrite bind_run by reflexivity. fold w1. erewrite bind_run by exact Hd.
    erewrite bind_run by reflexivity. rewrite Hwk. cbn [is_signal].
    rewrite bool_decide_eq_true_2 by left.
    erewrite bind_run by (apply (state_ge_run _ _ (with_state ERROR cb1));
      rewrite Hh; apply lookup_insert_eq). reflexivity.
Qed.

(** [do_accept] ignores an interrupted wait: when a signal arrives before
    the connection is established, it returns 0, success, with the memory as
    it was. *)
Theorem do_accept_interrupted w cba cb s :
  heap w !! cba = Some (BCb cb) -> sched w = ASignal :: s ->
  (cb_state cb >=s CONNECTED) = false ->
  is_Some (cms w !! cb_child_cm_id cb) -> k_accept (trace w) (cb_child_cm_id cb) = 0 ->
  exists w', do_accept cba w = Ok 0 w' /\ heap w' = heap w /\ sched w' = s.
Proof.
  intros Hcb Hs Hlt [i Hi] Ha. unfold do_accept. erewrite bind_run by by apply load_run.
  set (w0 := log (EvAccept (cb_child_cm_id cb) 0) w).
  set (w1 := set_woken [] (set_sched s w0)).
  assert (Hw : wait_event_interruptible (WqCb cba) (state_ge cba CONNECTED) w0
    = Ok (- ERESTARTSYS) w1).
  { rewrite (wait_event_enter _ _ cb) by done. change (sched w0) with (sched w).
    rewrite Hs. cbn [length wait_loop]. erewrite bind_run by reflexivity.
    change (sched w0) with (sched w). rewrite Hs.
    do 3 erewrite bind_run by reflexivity. cbn [is_signal].
    erewrite bind_run by by apply (state_ge_run _ _ cb). by rewrite Hlt. }
  exists w1. split; [|done]. erewrite bind_run by by eapply rdma_accept_run.
  rewrite !Ha.
  change (negb (0 =? 0)) with false. cbv iota. fold w0.
  erewrite bind_run by exact Hw. erewrite bind_run by by apply load_run.
  replace (cb_state cb =s ERROR) with false; [done|].
  symmetry. apply Z.eqb_neq. apply Z.leb_gt in Hlt. cbn in *. lia.
Qed.
End Cm_success.
