(* ===== verification/RdmaMem.v ===== *)
(** * RdmaMem: verbs objects and message buffers ([rdma.c])

    Creation and destruction of the protection domain, completion queue and
    queue pair of a channel, allocation and DMA mapping of its message buffers,
    and the work requests built on them; also [clone_cb]. *)
From stdpp Require Import gmultiset.
From S2P Require Import Prelude Types Kernel Logic Frame Wire.

Definition RDMA_SQ_DEPTH : Z := 16.

Section Mem.
Context {K : Kernel}.

Definition kzalloc_bytes (size : Z) : M addr := kzalloc_size size (zeros size).
Definition kzalloc_ctxs (cnt : Z) : M addr :=
  kzalloc_size cnt (replicate (Z.to_nat cnt) zero_ctx).

Definition clone_cb (listening_cb : addr) : M addr :=
  cba ← kzalloc zero_cb;
  if cba =? NULL then mret NULL else
  lcb ← load (T := rdma_ch_cb) listening_cb;
  store cba lcb;;
  set_cm_id (cb_child_cm_id lcb) (fun i => i <| cm_context := cba |>);;
  ctxs ← kzalloc_ctxs (cb_msgbuf_cnt lcb);
  update cba (fun cb => cb <| cb_buf_ctxs := ctxs |>);;
  if ctxs =? NULL then kfree cba;; mret NULL else
  for_each (Z.to_nat (cb_msgbuf_cnt lcb)) 0 (fun i =>
    c ← load_ctx (cb_buf_ctxs lcb) i;
    update_ctx ctxs i (fun _ => c));;
  mret cba.

(** ** The queue pair *)

Definition create_qp (cba : addr) : M Z :=
  cb ← load (T := rdma_ch_cb) cba;
  let init_attr :=
    {| qa_cap := {| cap_max_send_wr := RDMA_SQ_DEPTH; cap_max_recv_wr := 2;
                    cap_max_recv_sge := 1; cap_max_send_sge := 1 |};
       qa_send_cq := cb_cq cb; qa_recv_cq := cb_cq cb |} in
  let id := if negb (cb_server cb =? 0) then cb_child_cm_id cb else cb_cm_id cb in
  ret ← rdma_create_qp id (cb_pd cb) init_attr;
  (if ret =? 0
   then i ← cm_id id; update cba (fun cb => cb <| cb_qp := cm_qp i |>)
   else mret tt);;
  mret ret.

(** The labels [err2] and [err3] of [setup_qp]. *)
Definition setup_qp_err2 (cba : addr) (ret : Z) : M Z :=
  cb ← load (T := rdma_ch_cb) cba; ib_dealloc_pd (cb_pd cb);; mret ret.
Definition setup_qp_err3 (cba : addr) (ret : Z) : M Z :=
  cb ← load (T := rdma_ch_cb) cba; ib_destroy_cq (cb_cq cb);; setup_qp_err2 cba ret.

Definition setup_qp (cba : addr) (id : kptr) : M Z :=
  dev ← cm_device id;
  pd ← ib_alloc_pd dev;
  update cba (fun cb => cb <| cb_pd := pd |>);;
  if IS_ERR pd then mret (PTR_ERR pd) else
  dev ← cm_device id;
  cq ← ib_create_cq dev cba;
  update cba (fun cb => cb <| cb_cq := cq |>);;
  if IS_ERR cq then setup_qp_err2 cba (PTR_ERR cq) else
  ret ← ib_req_notify_cq cq;
  if negb (ret =? 0) then e ← get errno; setup_qp_err3 cba e else
  ret ← create_qp cba;
  if negb (ret =? 0) then setup_qp_err3 cba ret else
  mret 0.

Definition kfree_qp (cba : addr) : M unit :=
  cb ← load (T := rdma_ch_cb) cba;
  ib_destroy_qp (cb_qp cb);;
  ib_destroy_cq (cb_cq cb);;
  ib_dealloc_pd (cb_pd cb).

(** ** Buffers *)

(** The loops over the contexts read [cb->msgbuf_cnt], which nothing
    writes after initialisation, once. *)
Definition for_ctxs (cba : addr) (body : rdma_ch_cb -> Z -> M unit) : M unit :=
  cb ← load (T := rdma_ch_cb) cba;
  for_each (Z.to_nat (cb_msgbuf_cnt cb)) 0 (body cb).

Definition alloc_msg_buffers (cba : addr) : M Z :=
  for_ctxs cba (fun cb i =>
    p ← kzalloc_bytes (cb_msgbuf_size cb);
    update_ctx (cb_buf_ctxs cb) i (fun c => c <| recv_buf := p |>);;
    p ← kzalloc_bytes (cb_msgbuf_size cb);
    update_ctx (cb_buf_ctxs cb) i (fun c => c <| send_buf := p |>));;
  mret 0.

Definition setup_wr (cba : addr) : M unit :=
  for_ctxs cba (fun cb i =>
    let ctxs := cb_buf_ctxs cb in
    let upd := update_ctx ctxs i in
    let sg f := Some {| sp_ctxs := ctxs; sp_idx := i; sp_field := f |} in
    lkey ← pd_local_dma_lkey (cb_pd cb);
    upd (fun c => c <| recv_sgl := {| sge_addr := u64 (recv_mr c);
      sge_length := u32 (cb_msgbuf_size cb); sge_lkey := lkey |} |>);;
    upd (fun c => c <| rq_wr := {| rwr_wr_id := i; rwr_sg_list := sg F_recv_sgl;
      rwr_num_sge := 1 |} |>);;
    lkey ← pd_local_dma_lkey (cb_pd cb);
    upd (fun c => c <| send_sgl := {| sge_addr := u64 (send_mr c);
      sge_length := u32 (cb_msgbuf_size cb); sge_lkey := lkey |} |>);;
    upd (fun c => c <| sq_wr := {| swr_wr_id := i; swr_opcode := IB_WR_SEND;
      swr_send_flags := IB_SEND_SIGNALED; swr_sg_list := sg F_send_sgl;
      swr_num_sge := 1 |} |>)).

(** A round of the mapping loop: [Some ret] is [goto err1]. *)
Definition map_buffer (cb : rdma_ch_cb) (i : Z) : M (option Z) :=
  let ctxs := cb_buf_ctxs cb in
  dev ← pd_device (cb_pd cb);
  c ← load_ctx ctxs i;
  m ← ib_dma_map_single dev (recv_buf c) (cb_msgbuf_size cb);
  update_ctx ctxs i (fun c => c <| recv_mr := m |>);;
  update_ctx ctxs i (fun c => c <| recv_mapping := m |>);;
  if m =? 0 then e ← get errno; mret (Some e) else
  dev ← pd_device (cb_pd cb);
  c ← load_ctx ctxs i;
  m ← ib_dma_map_single dev (send_buf c) (cb_msgbuf_size cb);
  update_ctx ctxs i (fun c => c <| send_mr := m |>);;
  update_ctx ctxs i (fun c => c <| send_mapping := m |>);;
  if m =? 0 then e ← get errno; mret (Some e) else mret None.

(** The labels [err1] and [err2] of [setup_buffers]. *)
Definition setup_buffers_err2 (cba : addr) (ret : Z) : M Z :=
  for_ctxs cba (fun cb i =>
    c ← load_ctx (cb_buf_ctxs cb) i;
    (if negb (recv_buf c =? NULL) then kfree (recv_buf c) else mret tt);;
    (if negb (send_buf c =? NULL) then kfree (send_buf c) else mret tt));;
  mret ret.
Definition setup_buffers_err1 (cba : addr) (ret : Z) : M Z :=
  for_ctxs cba (fun cb i =>
    c ← load_ctx (cb_buf_ctxs cb) i;
    (if negb (recv_mr c =? NULL) then ib_dereg_mr (recv_mr c) else mret tt);;
    (if negb (send_mr c =? NULL) then ib_dereg_mr (send_mr c) else mret tt));;
  setup_buffers_err2 cba ret.

Definition setup_buffers (cba : addr) : M Z :=
  ret ← alloc_msg_buffers cba;
  if negb (ret =? 0) then setup_buffers_err2 cba ret else
  cb ← load (T := rdma_ch_cb) cba;
  r ← for_loop (Z.to_nat (cb_msgbuf_cnt cb)) 0 (map_buffer cb);
  match r with
  | Some ret => setup_buffers_err1 cba ret
  | None => setup_wr cba;; mret 0
  end.

Definition kfree_buffers (cba : addr) : M unit :=
  for_ctxs cba (fun cb i =>
    c ← load_ctx (cb_buf_ctxs cb) i;
    dev ← pd_device (cb_pd cb);
    dma_unmap_single dev (recv_mapping c) (cb_msgbuf_size cb);;
    kfree (recv_buf c);;
    dev ← pd_device (cb_pd cb);
    dma_unmap_single dev (send_mapping c) (cb_msgbuf_size cb);;
    kfree (send_buf c)).

Definition kfree_cb (cba : addr) : M unit :=
  cb ← load (T := rdma_ch_cb) cba; kfree (cb_buf_ctxs cb);; kfree cba.
End Mem.

(** ** Loops over the array of contexts *)

(** In [l], the contexts below [i] are related to those of [l0] by [R], and
    the others are as in [l0]. *)
Definition done_upto (i : Z) (R : nat -> msgbuf_ctx -> msgbuf_ctx -> Prop)
    (l0 l : list msgbuf_ctx) : Prop :=
  length l = length l0 /\
  forall j c0 c, l0 !! j = Some c0 -> l !! j = Some c ->
    if decide (Z.of_nat j < i) then R j c0 c else c = c0.

Lemma done_upto_0 R l : done_upto 0 R l l.
Proof.
  split; [done|]. intros j c0 c H1 H2. rewrite decide_False by lia. congruence.
Qed.

Lemma done_upto_at i R l0 l c0 :
  done_upto i R l0 l -> ctx_at l0 i = Some c0 -> ctx_at l i = Some c0.
Proof.
  intros [Hlen Hl] [Hi Hc]%ctx_at_Some. apply ctx_at_Some. split; [done|].
  destruct (lookup_lt_is_Some_2 l (Z.to_nat i)) as [c Hc'];
    [rewrite Hlen; by eapply lookup_lt_Some|].
  specialize (Hl _ _ _ Hc Hc'). rewrite decide_False in Hl by lia. congruence.
Qed.

Lemma done_upto_step i R l0 l c0 c' :
  done_upto i R l0 l -> ctx_at l0 i = Some c0 -> R (Z.to_nat i) c0 c' ->
  done_upto (i + 1) R l0 (<[Z.to_nat i := c']> l).
Proof.
  intros [Hlen Hl] [Hi Hc]%ctx_at_Some HR. split; [by rewrite length_insert|].
  intros j d0 d Hd0 Hd. destruct (decide (j = Z.to_nat i)) as [->|Hj].
  - rewrite list_lookup_insert_eq in Hd
      by (rewrite Hlen; by eapply lookup_lt_Some).
    rewrite decide_True by lia. congruence.
  - rewrite list_lookup_insert_ne in Hd by done. specialize (Hl _ _ _ Hd0 Hd).
    case_decide; case_decide; try done; lia.
Qed.

Lemma done_upto_all i R l0 l j c0 c :
  done_upto i R l0 l -> Z.of_nat (length l0) <= i ->
  l0 !! j = Some c0 -> l !! j = Some c -> R j c0 c.
Proof.
  intros [_ Hl] Hi Hc0 Hc. specialize (Hl _ _ _ Hc0 Hc).
  rewrite decide_True in Hl; [done|]. apply lookup_lt_Some in Hc0. lia.
Qed.

(** An invariant of a loop over contexts of the channel [cba]: the list has
    been processed up to [i], and [Inv] holds of the rest of the state. *)
Lemma wp_for_ctxs t cba cb l0 (Inv : Z -> list msgbuf_ctx -> world -> Prop)
    (R : nat -> msgbuf_ctx -> msgbuf_ctx -> Prop) body (Q : unit -> world -> Prop) w :
  heap w !! cba = Some (BCb cb) -> Z.of_nat (length l0) = cb_msgbuf_cnt cb ->
  Inv 0 l0 w ->
  (forall i l c0 w, 0 <= i < cb_msgbuf_cnt cb -> done_upto i R l0 l ->
     ctx_at l0 i = Some c0 -> ctx_at l i = Some c0 -> Inv i l w ->
     wp t (body cb i) (fun _ w' => exists l', done_upto (i + 1) R l0 l'
       /\ Inv (i + 1) l' w') w) ->
  (forall l w, done_upto (cb_msgbuf_cnt cb) R l0 l ->
     Inv (cb_msgbuf_cnt cb) l w -> Q tt w) ->
  wp t (for_ctxs cba body) Q w.
Proof.
  intros Hcb Hlen H0 Hbody HQ. unfold for_ctxs. do 2 wp_step.
  eapply (wp_for_each (fun i w => exists l, done_upto i R l0 l /\ Inv i l w)).
  - exists l0. split; [apply done_upto_0|done].
  - intros j w' Hj (l & Hl & Hw'). destruct (ctx_at_lt l0 j) as [c0 Hc0]; [lia|].
    eapply Hbody; [lia|done..| |done]. by eapply done_upto_at.
  - intros w' (l & Hl & Hw'). rewrite Z.add_0_l, Z2Nat.id in * by lia. eauto.
Qed.

(** ** Allocating the buffers *)

(** The context number [j] after its two buffers have been allocated, the
    first buffer of the array being at [p]. *)
Definition with_bufs (p : addr) (j : nat) (c0 c : msgbuf_ctx) : Prop :=
  c = c0 <| recv_buf := p + 2 * Z.of_nat j |> <| send_buf := p + 2 * Z.of_nat j + 1 |>.

(** Channel [cba] with its array of contexts. *)
Record chan_at (w : world) (cba : addr) (cb : rdma_ch_cb) (l : list msgbuf_ctx) : Prop := {
  ca_cb : heap w !! cba = Some (BCb cb);
  ca_ctxs : heap w !! cb_buf_ctxs cb = Some (BCtxs l);
  ca_len : Z.of_nat (length l) = cb_msgbuf_cnt cb }.

(** The first [i] contexts of the channel have buffers of zeros, from address
    [next w] on. *)
Record allocated (w : world) (cb : rdma_ch_cb) (i : Z) (l : list msgbuf_ctx)
    (w' : world) : Prop := {
  al_ctxs : heap w' !! cb_buf_ctxs cb = Some (BCtxs l);
  al_bufs : forall a, next w <= a < next w + 2 * i ->
    heap w' !! a = Some (BBytes (zeros (cb_msgbuf_size cb)));
  al_frame : forall a, a <> cb_buf_ctxs cb -> ~ (next w <= a < next w + 2 * i) ->
    heap w' !! a = heap w !! a;
  al_next : next w' = next w + 2 * i;
  al_rest : sched w' = sched w /\ objs w' = objs w }.

Section Alloc.
Context {K : Kernel} (Halloc : forall h b, k_kzalloc h b = true).

Lemma wp_kzalloc_bytes t size w Q :
  0 <= size ->
  Q (next w) (log (EvKzalloc (next w)) (set_next (next w + 1)
      (upd_heap (insert (next w) (BBytes (zeros size))) w))) ->
  wp t (kzalloc_bytes size) Q w.
Proof.
  intros Hs HQ. unfold kzalloc_bytes, kzalloc_size. destruct (Z.ltb_spec size 0); [lia|].
  apply wp_kzalloc; [done|]. intros Hf. by rewrite Halloc in Hf.
Qed.

Lemma wp_alloc_msg_buffers t w cba cb l0 (Q : Z -> world -> Prop) :
  chan_at w cba cb l0 -> 0 <= cb_msgbuf_size cb -> fresh_ok w ->
  (forall l w', done_upto (cb_msgbuf_cnt cb) (with_bufs (next w)) l0 l ->
     allocated w cb (cb_msgbuf_cnt cb) l w' -> Q 0 w') ->
  wp t (alloc_msg_buffers cba) Q w.
Proof.
  intros [Hcb Hl0 Hlen] Hsz [Hpos Hfree] HQ. unfold alloc_msg_buffers. wp_step.
  eapply (wp_for_ctxs _ _ cb l0 (fun i l => allocated w cb i l) (with_bufs (next w)));
    [done|done|..].
  { split; try done; intros; try lia. }
  - intros i l c0 w1 Hi Hd Hc0 Hc [Hl Hb Hfr Hn [Hs Ho]].
    assert (cb_buf_ctxs cb < next w).
    { apply Z.nle_gt. intros Hle. by rewrite Hfree in Hl0. }
    do 1 wp_step. apply wp_kzalloc_bytes; [done|]. do 2 wp_step.
    wp_step. apply wp_kzalloc_bytes; [done|]. wsimpl.
    wp_step; [by eapply ctx_at_insert|]. eexists. split; cycle 1.
    + split; wsimpl; [apply lookup_insert_eq|..].
      * intros a Ha. rewrite lookup_insert_ne by lia.
        destruct (decide (a = next w1 + 1)) as [->|]; [apply lookup_insert_eq|].
        rewrite !(lookup_insert_ne _ (next w1 + 1)) by lia.
        rewrite lookup_insert_ne by lia.
        destruct (decide (a = next w1)) as [->|]; [apply lookup_insert_eq|].
        rewrite lookup_insert_ne by lia. apply Hb. lia.
      * intros a Ha1 Ha2. rewrite !lookup_insert_ne by lia. apply Hfr; lia.
      * lia.
      * done.
    + rewrite list_insert_insert_eq. eapply done_upto_step; [done|done|].
      unfold with_bufs. rewrite Hn, Z2Nat.id by lia. destruct c0; cbn. f_equal; lia.
  - intros l w1 Hd Ha. wp_step. by eapply HQ.
Qed.
End Alloc.

(** ** Mapping the buffers *)

(** The DMA addresses recorded in contexts. *)
Definition ctx_maps (l : list msgbuf_ctx) : list Z :=
  l ≫= (fun c => [recv_mapping c; send_mapping c]).

Definition with_maps (m1 m2 : Z) (c : msgbuf_ctx) : msgbuf_ctx :=
  c <| recv_mr := m1 |> <| recv_mapping := m1 |>
    <| send_mr := m2 |> <| send_mapping := m2 |>.
Definition maps_done (_ : nat) (c0 c : msgbuf_ctx) : Prop :=
  exists m1 m2, dma_failed m1 = false /\ dma_failed m2 = false /\ c = with_maps m1 m2 c0.

(** Everything but the memory and the DMA mappings. *)
Definition same_but_dma (w w' : world) : Prop :=
  next w' = next w /\ sched w' = sched w /\ objs (upd_dmas (fun _ => dmas w) w') = objs w.

(** The contexts below [i] have their buffers mapped. *)
Record mapped (w : world) (cb : rdma_ch_cb) (i : Z) (l : list msgbuf_ctx)
    (w' : world) : Prop := {
  mp_ctxs : heap w' !! cb_buf_ctxs cb = Some (BCtxs l);
  mp_frame : forall a, a <> cb_buf_ctxs cb -> heap w' !! a = heap w !! a;
  mp_dmas : dmas w' = list_to_set_disj (ctx_maps (take (Z.to_nat i) l)) ⊎ dmas w;
  mp_rest : same_but_dma w w' }.

Lemma dma_ok_nonzero m : dma_failed m = false -> (m =? 0) = false.
Proof. unfold dma_failed. by intros [? _]%orb_false_elim. Qed.

Lemma take_insert_next (l : list msgbuf_ctx) i c c' :
  l !! i = Some c -> take (S i) (<[i := c']> l) = take i l ++ [c'].
Proof.
  intros Hc. rewrite (take_S_r _ _ c'); [|apply list_lookup_insert_eq; by eapply lookup_lt_Some].
  by rewrite take_insert_ge.
Qed.

Section Map.
Context {K : Kernel}.

(** A call that maps. *)
Lemma wp_dma_map_ok t dev a n w Q :
  dma_failed (k_dma_map (trace w) dev a n) = false ->
  (forall m w1, m = k_dma_map (trace w) dev a n -> dma_failed m = false ->
     w1 = upd_dmas (fun s => {[+ m +]} ⊎ s) (log (EvDmaMap dev a n m) w) -> Q m w1) ->
  wp t (ib_dma_map_single dev a n) Q w.
Proof.
  intros Hok HQ. unfold ib_dma_map_single. do 2 wp_step. rewrite Hok.
  do 3 wp_step. by apply HQ.
Qed.

(** A call that returns 0 maps nothing. *)
Lemma wp_dma_map_zero t dev a n w Q :
  k_dma_map (trace w) dev a n = 0 -> Q 0 (log (EvDmaMap dev a n 0) w) ->
  wp t (ib_dma_map_single dev a n) Q w.
Proof.
  intros Hz HQ. unfold ib_dma_map_single. do 2 wp_step. rewrite !Hz.
  change (dma_failed 0) with true. cbv iota. do 3 wp_step. exact HQ.
Qed.

Lemma wp_pd_device t pd w Q :
  pd ∈ pds w -> Q (k_pd_device pd) w -> wp t (pd_device pd) Q w.
Proof. intros Hpd HQ. unfold pd_device. wp_step. by apply wp_live_pd. Qed.

(** The receive buffer is mapped, the send buffer is not. *)
Lemma wp_map_buffer_send_fails t w cb i l c m (Q : option Z -> world -> Prop) :
  heap w !! cb_buf_ctxs cb = Some (BCtxs l) -> ctx_at l i = Some c ->
  cb_pd cb ∈ pds w ->
  (forall h d n, k_dma_map h d (recv_buf c) n = m) -> dma_failed m = false ->
  (forall h d n, k_dma_map h d (send_buf c) n = 0) ->
  (forall w', heap w' =
      <[cb_buf_ctxs cb := BCtxs (<[Z.to_nat i := with_maps m 0 c]> l)]> (heap w) ->
     Q (Some (errno w)) w') ->
  wp t (map_buffer cb i) Q w.
Proof.
  intros Hl Hc Hpd Hm1 Hm Hm2 HQ. unfold map_buffer. wp_step. apply wp_pd_device; [done|].
  do 3 wp_step. apply wp_dma_map_ok; [by rewrite Hm1|]. intros m1 w1 -> _ ->. rewrite !Hm1.
  do 4 wp_step; [by eapply ctx_at_insert|]. rewrite (dma_ok_nonzero m) by done.
  wp_step. apply wp_pd_device; [done|].
  do 2 wp_step; [by do 2 eapply ctx_at_insert|]. wp_step.
  apply wp_dma_map_zero; [apply Hm2|]. wp_step.
  wp_step; [by do 2 eapply ctx_at_insert|]. wp_step.
  wp_step; [by do 3 eapply ctx_at_insert|]. change (0 =? 0) with true. cbv iota.
  do 3 wp_step. apply HQ. wsimpl. by rewrite !insert_insert_eq, !list_insert_insert_eq.
Qed.

Context (Hdma : forall h d a n, dma_failed (k_dma_map h d a n) = false).

Lemma wp_map_buffer t w cb i l c0 (Q : option Z -> world -> Prop) :
  heap w !! cb_buf_ctxs cb = Some (BCtxs l) -> ctx_at l i = Some c0 ->
  cb_pd cb ∈ pds w ->
  (forall m1 m2 w', dma_failed m1 = false -> dma_failed m2 = false ->
     heap w' = <[cb_buf_ctxs cb := BCtxs (<[Z.to_nat i := with_maps m1 m2 c0]> l)]> (heap w) ->
     dmas w' = {[+ m1; m2 +]} ⊎ dmas w -> same_but_dma w w' -> Q None w') ->
  wp t (map_buffer cb i) Q w.
Proof.
  intros Hl Hc Hpd HQ. unfold map_buffer. wp_step. apply wp_pd_device; [done|].
  do 3 wp_step. apply wp_dma_map_ok; [done|]. intros m1 w1 _ H1 ->.
  do 4 wp_step; [by eapply ctx_at_insert|]. rewrite (dma_ok_nonzero m1) by done.
  wp_step. apply wp_pd_device; [done|].
  do 2 wp_step; [by do 2 eapply ctx_at_insert|]. wp_step.
  apply wp_dma_map_ok; [done|]. intros m2 w2 _ H2 ->. wp_step.
  wp_step; [by do 2 eapply ctx_at_insert|]. wp_step.
  wp_step; [by do 3 eapply ctx_at_insert|]. rewrite (dma_ok_nonzero m2) by done.
  wp_step. apply (HQ m1 m2); try done; wsimpl.
  - rewrite !insert_insert_eq, !list_insert_insert_eq. done.
  - multiset_solver.
Qed.

Lemma wp_map_buffers t w cb l0 (Q : option Z -> world -> Prop) :
  heap w !! cb_buf_ctxs cb = Some (BCtxs l0) ->
  Z.of_nat (length l0) = cb_msgbuf_cnt cb -> cb_pd cb ∈ pds w ->
  (forall l w', done_upto (cb_msgbuf_cnt cb) maps_done l0 l ->
     mapped w cb (cb_msgbuf_cnt cb) l w' -> Q None w') ->
  wp t (for_loop (Z.to_nat (cb_msgbuf_cnt cb)) 0 (map_buffer cb)) Q w.
Proof.
  intros Hl0 Hlen Hpd HQ.
  apply (wp_for_loop (fun i w' => exists l, done_upto i maps_done l0 l /\ mapped w cb i l w')).
  - exists l0. split; [apply done_upto_0|]. split; try done. wsimpl. multiset_solver.
  - intros i w1 Hi (l & Hd & [Hl Hfr Hm Hr]).
    destruct (ctx_at_lt l0 i) as [c0 Hc0]; [lia|].
    pose proof (done_upto_at _ _ _ _ _ Hd Hc0) as Hc.
    pose proof Hr as (Hn & Hs & Ho). unfold objs in Ho. wsimpl in Ho.
    injection Ho as Hcm Hcq Hp Hq Her.
    eapply wp_map_buffer; [done|done|by rewrite Hp|].
    intros m1 m2 w2 H1 H2 Hh Hdm (Hn2 & Hs2 & Ho2).
    exists (<[Z.to_nat i := with_maps m1 m2 c0]> l). split.
    { eapply done_upto_step; [done|done|]. by exists m1, m2. }
    unfold objs in Ho2. wsimpl in Ho2. injection Ho2 as ? ? ? ? ?.
    split.
    + rewrite Hh. apply lookup_insert_eq.
    + intros a Ha. rewrite Hh, lookup_insert_ne by done. by apply Hfr.
    + rewrite Hdm, Hm. apply ctx_at_Some in Hc as [_ Hc].
      replace (Z.to_nat (i + 1)) with (S (Z.to_nat i)) by lia.
      rewrite (take_insert_next _ _ c0) by done. unfold ctx_maps.
      rewrite bind_app. cbn [mbind list_bind app]. rewrite list_to_set_disj_app. cbn [list_to_set_disj].
      rewrite (right_id_L ∅ (⊎)), (assoc_L (⊎)). f_equal. apply (comm_L (⊎)).
    + split; [congruence|split; [congruence|]]. unfold objs. wsimpl. congruence.
  - intros w1 (l & Hd & Hw). rewrite Z.add_0_l, Z2Nat.id in * by lia. by eapply HQ.
Qed.
End Map.

(** ** The work requests *)

(** Everything but the memory. *)
Definition same_but_heap (w w' : world) : Prop :=
  next w' = next w /\ sched w' = sched w /\ objs w' = objs w.

Section Wr.
Context {K : Kernel}.

(** The context number [j] with its requests filled in: one element each,
    the buffer's mapping with the size of a message, the request's number
    being that of the context. *)
Definition wired (cb : rdma_ch_cb) (j : nat) (c0 c : msgbuf_ctx) : Prop :=
  let sge m := {| sge_addr := u64 m; sge_length := u32 (cb_msgbuf_size cb);
                  sge_lkey := k_pd_local_dma_lkey (cb_pd cb) |} in
  let sg f := Some {| sp_ctxs := cb_buf_ctxs cb; sp_idx := Z.of_nat j; sp_field := f |} in
  c = c0 <| recv_sgl := sge (recv_mr c0) |>
         <| rq_wr := {| rwr_wr_id := Z.of_nat j; rwr_sg_list := sg F_recv_sgl;
                        rwr_num_sge := 1 |} |>
         <| send_sgl := sge (send_mr c0) |>
         <| sq_wr := {| swr_wr_id := Z.of_nat j; swr_opcode := IB_WR_SEND;
                        swr_send_flags := IB_SEND_SIGNALED;
                        swr_sg_list := sg F_send_sgl; swr_num_sge := 1 |} |>.

Lemma wp_lkey t pd w Q :
  pd ∈ pds w -> Q (k_pd_local_dma_lkey pd) w -> wp t (pd_local_dma_lkey pd) Q w.
Proof. intros Hpd HQ. unfold pd_local_dma_lkey. wp_step. by apply wp_live_pd. Qed.

Lemma wp_setup_wr t w cba cb l0 (Q : unit -> world -> Prop) :
  chan_at w cba cb l0 -> cb_pd cb ∈ pds w ->
  (forall l w', done_upto (cb_msgbuf_cnt cb) (wired cb) l0 l ->
     heap w' = <[cb_buf_ctxs cb := BCtxs l]> (heap w) -> same_but_heap w w' -> Q tt w') ->
  wp t (setup_wr cba) Q w.
Proof.
  intros [Hcb Hl0 Hlen] Hpd HQ. unfold setup_wr.
  apply (wp_for_ctxs _ _ cb l0 (fun _ l w' =>
    heap w' = <[cb_buf_ctxs cb := BCtxs l]> (heap w) /\ same_but_heap w w') (wired cb));
    [done|done|..].
  - split; [|done]. by rewrite insert_id.
  - intros i l c0 w1 Hi Hd Hc0 Hc [Hh (Hn & Hs & Ho)].
    assert (Hl : heap w1 !! cb_buf_ctxs cb = Some (BCtxs l))
      by (rewrite Hh; apply lookup_insert_eq).
    pose proof (objs_inv _ _ Ho) as (_ & _ & Hp & _).
    wp_step. apply wp_lkey; [by rewrite Hp|]. do 2 wp_step.
    wp_step. wp_step; [by eapply ctx_at_insert|]. wp_step.
    apply wp_lkey; [by wsimpl; rewrite Hp|].
    wp_step. wp_step; [by do 2 eapply ctx_at_insert|].
    wp_step; [by do 3 eapply ctx_at_insert|]. eexists. split; cycle 1.
    + split; [|done]. wsimpl. by rewrite !insert_insert_eq, Hh, insert_insert_eq.
    + rewrite !list_insert_insert_eq. eapply done_upto_step; [done|done|].
      unfold wired. rewrite Z2Nat.id by lia. by destruct c0.
  - intros l w1 Hd [Hh Hr]. by eapply HQ.
Qed.
End Wr.
