(* ===== verification/RdmaBufs.v ===== *)
(** * RdmaBufs: the life of the message buffers and of the queue pair

    What [setup_buffers], [kfree_buffers], [setup_qp] and [kfree_qp] of
    [RdmaMem] promise to the functions that set a channel up and tear it
    down. *)
From stdpp Require Import gmultiset.
From S2P Require Import Prelude Types Kernel Logic Verbs Within Frame Wire RdmaMem.

(** ** [setup_buffers] *)

(** The addresses of the buffers of contexts. *)
Definition ctx_bufs (l : list msgbuf_ctx) : list addr :=
  l ≫= (fun c => [recv_buf c; send_buf c]).

Section Setup_buffers.
Context {K : Kernel} (Halloc : forall h b, k_kzalloc h b = true).

(** The context number [j] after [setup_buffers]. *)
Definition ready_ctx (cb : rdma_ch_cb) (p : addr) (j : nat) (c0 c : msgbuf_ctx) : Prop :=
  exists m1 m2 c1, dma_failed m1 = false /\ dma_failed m2 = false
    /\ with_bufs p j c0 c1 /\ wired cb j (with_maps m1 m2 c1) c.

(** What a successful [setup_buffers] leaves. *)
Record buffers_ready (w : world) (cb : rdma_ch_cb) (l0 l : list msgbuf_ctx)
    (w' : world) : Prop := {
  br_ctxs : heap w' !! cb_buf_ctxs cb = Some (BCtxs l);
  br_ready : done_upto (cb_msgbuf_cnt cb) (ready_ctx cb (next w)) l0 l;
  br_bufs : forall a, next w <= a < next w + 2 * cb_msgbuf_cnt cb ->
    heap w' !! a = Some (BBytes (zeros (cb_msgbuf_size cb)));
  br_frame : forall a, a <> cb_buf_ctxs cb ->
    ~ (next w <= a < next w + 2 * cb_msgbuf_cnt cb) -> heap w' !! a = heap w !! a;
  br_next : next w' = next w + 2 * cb_msgbuf_cnt cb;
  br_sched : sched w' = sched w;
  br_dmas : dmas w' = list_to_set_disj (ctx_maps l) ⊎ dmas w;
  br_objs : objs (upd_dmas (fun _ => dmas w) w') = objs w }.

(** The three passes over the contexts composed. *)
Lemma ready_compose cb p l0 l1 l2 l3 :
  done_upto (cb_msgbuf_cnt cb) (with_bufs p) l0 l1 ->
  done_upto (cb_msgbuf_cnt cb) maps_done l1 l2 ->
  done_upto (cb_msgbuf_cnt cb) (wired cb) l2 l3 ->
  Z.of_nat (length l0) = cb_msgbuf_cnt cb ->
  done_upto (cb_msgbuf_cnt cb) (ready_ctx cb p) l0 l3 /\ ctx_maps l3 = ctx_maps l2.
Proof.
  intros H1 H2 H3 Hlen. pose proof H1 as [L1 _]. pose proof H2 as [L2 _].
  pose proof H3 as [L3 _]. split.
  - split; [congruence|]. intros j c0 c3 Hc0 Hc3.
    pose proof (lookup_lt_Some _ _ _ Hc0). rewrite decide_True by lia.
    destruct (lookup_lt_is_Some_2 l1 j) as [c1 Hc1]; [lia|].
    destruct (lookup_lt_is_Some_2 l2 j) as [c2 Hc2]; [lia|].
    pose proof (done_upto_all _ _ _ _ _ _ _ H1 ltac:(lia) Hc0 Hc1) as R1.
    pose proof (done_upto_all _ _ _ _ _ _ _ H2 ltac:(lia) Hc1 Hc2) as (m1 & m2 & ? & ? & ->).
    pose proof (done_upto_all _ _ _ _ _ _ _ H3 ltac:(lia) Hc2 Hc3) as R3.
    by exists m1, m2, c1.
  - unfold ctx_maps. assert (Hf : Forall2 (fun c d => recv_mapping c = recv_mapping d
      /\ send_mapping c = send_mapping d) l3 l2).
    { apply Forall2_same_length_lookup_2; [done|]. intros j c d Hc Hd.
      pose proof (lookup_lt_Some _ _ _ Hc).
      pose proof (done_upto_all _ _ _ _ _ _ _ H3 ltac:(lia) Hd Hc) as ->. by split. }
    clear -Hf. induction Hf as [|c d l l' [E1 E2] _ IH]; [done|].
    cbn [mbind list_bind] in *. by rewrite E1, E2, IH.
Qed.

(** No receive is posted or taken while the buffers are set up. *)
Lemma recvs_setup_buffers cba : unchanged all_recvs (setup_buffers cba).
Proof.
  unfold setup_buffers, setup_buffers_err1, setup_buffers_err2, alloc_msg_buffers, for_ctxs,
    map_buffer, setup_wr, for_ctxs, kzalloc_bytes, kzalloc_size, update_ctx, load_ctx.
  solve_within.
Qed.

Lemma wp_setup_buffers t w cba cb l0 (Q : Z -> world -> Prop) :
  (forall h d a n, dma_failed (k_dma_map h d a n) = false) ->
  chan_at w cba cb l0 -> 0 <= cb_msgbuf_size cb -> fresh_ok w -> cb_pd cb ∈ pds w ->
  (forall l w', buffers_ready w cb l0 l w' -> Q 0 w') ->
  wp t (setup_buffers cba) Q w.
Proof.
  intros Hdma Hch Hsz Hf Hpd HQ. pose proof Hch as [Hcb Hl0 Hlen]. destruct Hf as [Hpos Hfree].
  assert (Hcbn : cba < next w) by (apply Z.nle_gt; intros ?; by rewrite Hfree in Hcb).
  assert (Hne : cba <> cb_buf_ctxs cb) by congruence.
  unfold setup_buffers. wp_step.
  eapply wp_alloc_msg_buffers; [done|done|done|by split|].
  intros l1 w1 Hd1 [Hl1 Hb1 Hf1 Hn1 [Hs1 Ho1]].
  pose proof (objs_inv _ _ Ho1) as (_ & _ & Hp1 & _ & Hdm1 & _).
  change (negb (0 =? 0)) with false. cbv iota.
  assert (Hcb1 : heap w1 !! cba = Some (BCb cb)) by (rewrite Hf1; [done|done|lia]).
  do 3 wp_step.
  apply (wp_map_buffers Hdma _ _ _ l1); [done|destruct Hd1; congruence|by rewrite Hp1|].
  intros l2 w2 Hd2 [Hl2 Hf2 Hdm2 (Hn2 & Hs2 & Ho2)]. wp_step.
  unfold objs in Ho2. wsimpl in Ho2. injection Ho2 as Hcm2 Hcq2 Hp2 Hq2 He2.
  assert (Hlen2 : Z.of_nat (length l2) = cb_msgbuf_cnt cb)
    by (destruct Hd1, Hd2; congruence).
  eapply (wp_setup_wr _ _ _ cb l2); [split; [|done|done]|by rewrite Hp2, Hp1|].
  { by rewrite Hf2. }
  intros l3 w3 Hd3 Hh3 (Hn3 & Hs3 & Ho3). wp_step.
  pose proof (objs_inv _ _ Ho3) as (Hcm3 & Hcq3 & Hp3 & Hq3 & Hdm3 & He3).
  destruct (ready_compose cb (next w) l0 l1 l2 l3) as [Hr Hm]; [done..|].
  apply (HQ l3). split.
  - rewrite Hh3. apply lookup_insert_eq.
  - done.
  - intros a Ha. assert (a <> cb_buf_ctxs cb).
    { intros ->. rewrite Hfree in Hl0; [done|lia]. }
    rewrite Hh3, lookup_insert_ne, Hf2 by done. by apply Hb1.
  - intros a Ha1 Ha2. rewrite Hh3, lookup_insert_ne, Hf2 by done. by apply Hf1.
  - congruence.
  - congruence.
  - rewrite Hdm3, Hdm2, Hdm1, Hm. f_equal. f_equal. f_equal. rewrite take_ge; [done|lia].
  - unfold objs in *. wsimpl. congruence.
Qed.
End Setup_buffers.

(** ** Freeing the buffers *)

(** The contexts own distinct live buffers, apart from the channel's own
    blocks, and their mappings are among those of the state. *)
Record bufs_owned (w : world) (cba : addr) (cb : rdma_ch_cb) (l : list msgbuf_ctx)
    : Prop := {
  bo_nodup : NoDup (ctx_bufs l);
  bo_live : forall a, a ∈ ctx_bufs l -> is_Some (heap w !! a);
  bo_apart : (cba ∉ ctx_bufs l) /\ (cb_buf_ctxs cb ∉ ctx_bufs l) }.

Section Kfree_buffers.
Context {K : Kernel}.

Lemma ctx_bufs_snoc l c : ctx_bufs (l ++ [c]) = ctx_bufs l ++ [recv_buf c; send_buf c].
Proof. unfold ctx_bufs. by rewrite bind_app. Qed.
Lemma ctx_maps_snoc l c :
  ctx_maps (l ++ [c]) = ctx_maps l ++ [recv_mapping c; send_mapping c].
Proof. unfold ctx_maps. by rewrite bind_app. Qed.

Lemma ctx_bufs_take l n a : a ∈ ctx_bufs (take n l) -> a ∈ ctx_bufs l.
Proof.
  intros Ha. rewrite <- (take_drop n l). unfold ctx_bufs in *. rewrite bind_app.
  apply elem_of_app. by left.
Qed.

Lemma take_next (l : list msgbuf_ctx) i c :
  ctx_at l i = Some c -> take (Z.to_nat (i + 1)) l = take (Z.to_nat i) l ++ [c].
Proof.
  intros [Hi Hc]%ctx_at_Some. replace (Z.to_nat (i + 1)) with (S (Z.to_nat i)) by lia.
  by apply take_S_r.
Qed.

(** The memory without the buffers of the contexts below [i]. *)
Definition without_bufs (h : gmap addr block) (i : Z) (l : list msgbuf_ctx)
    (h' : gmap addr block) : Prop :=
  forall a, h' !! a =
    if decide (a ∈ ctx_bufs (take (Z.to_nat i) l)) then None else h !! a.

(** The buffers of the first [i] contexts are gone. *)
Record freed (w : world) (i : Z) (l : list msgbuf_ctx) (w' : world) : Prop := {
  fd_heap : without_bufs (heap w) i l (heap w');
  fd_dmas : dmas w' = dmas w ∖ list_to_set_disj (ctx_maps (take (Z.to_nat i) l));
  fd_rest : same_but_dma w w' }.

Lemma without_bufs_0 h l : without_bufs h 0 l h.
Proof. intros a. rewrite decide_False; [done|]. apply not_elem_of_nil. Qed.

Lemma without_bufs_step h i l c h' :
  ctx_at l i = Some c -> without_bufs h i l h' ->
  without_bufs h (i + 1) l (delete (send_buf c) (delete (recv_buf c) h')).
Proof.
  intros Hc Hh a. rewrite (take_next _ _ c), ctx_bufs_snoc by done.
  destruct (decide (send_buf c = a)) as [<-|Ha2].
  { rewrite lookup_delete_eq, decide_True; [done|].
    apply elem_of_app; right; right; left. }
  rewrite lookup_delete_ne by done. destruct (decide (recv_buf c = a)) as [<-|Ha1].
  { rewrite lookup_delete_eq, decide_True; [done|]. apply elem_of_app; right; left. }
  rewrite lookup_delete_ne, Hh by done.
  destruct (decide (a ∈ ctx_bufs (take (Z.to_nat i) l))) as [Hin|Hin].
  { rewrite decide_True; [done|]. apply elem_of_app; by left. }
  rewrite decide_False; [done|]. rewrite elem_of_app, !elem_of_cons, elem_of_nil.
  naive_solver.
Qed.

(** The next two buffers are live: they are distinct from the freed ones. *)
Lemma next_bufs_fresh l i c :
  NoDup (ctx_bufs l) -> ctx_at l i = Some c ->
  (recv_buf c ∉ ctx_bufs (take (Z.to_nat i) l)) /\
  (send_buf c ∉ ctx_bufs (take (Z.to_nat i) l)) /\ recv_buf c <> send_buf c
  /\ recv_buf c ∈ ctx_bufs l /\ send_buf c ∈ ctx_bufs l.
Proof.
  intros Hnd Hc. pose proof (take_next _ _ _ Hc) as Ht.
  assert (Hl : ctx_bufs l = (ctx_bufs (take (Z.to_nat i) l) ++ [recv_buf c; send_buf c])
    ++ ctx_bufs (drop (Z.to_nat (i + 1)) l)).
  { rewrite <- ctx_bufs_snoc, <- Ht. unfold ctx_bufs. by rewrite <- bind_app, take_drop. }
  assert (Hin : forall a, a ∈ [recv_buf c; send_buf c] -> a ∈ ctx_bufs l)
    by (intros a Ha; rewrite Hl, !elem_of_app; auto).
  rewrite Hl in Hnd. apply list.NoDup_app in Hnd as (Hnd & _ & _).
  apply list.NoDup_app in Hnd as (_ & Hd & Hnd).
  apply list.NoDup_cons in Hnd as [Hne _].
  split; [intros Ha; apply (Hd _ Ha); left|].
  split; [intros Ha; apply (Hd _ Ha); right; left|].
  split; [intros He; apply Hne; rewrite He; left|].
  split; apply Hin; [left|right; left].
Qed.

Lemma kfree_buffer_step t w cba cb l i c w1 (Q : unit -> world -> Prop) :
  chan_at w cba cb l -> cb_pd cb ∈ pds w -> bufs_owned w cba cb l ->
  freed w i l w1 -> ctx_at l i = Some c ->
  (forall w2, freed w (i + 1) l w2 -> Q tt w2) ->
  wp t (c ← load_ctx (cb_buf_ctxs cb) i;
    dev ← pd_device (cb_pd cb);
    dma_unmap_single dev (recv_mapping c) (cb_msgbuf_size cb);;
    kfree (recv_buf c);;
    dev ← pd_device (cb_pd cb);
    dma_unmap_single dev (send_mapping c) (cb_msgbuf_size cb);;
    kfree (send_buf c)) Q w1.
Proof.
  intros [Hcb Hl Hlen] Hpd [Hnd Hlive [_ Hax]] [Hh Hdm (Hn & Hs & Ho)] Hc HQ.
  destruct (next_bufs_fresh _ _ _ Hnd Hc) as (Hr & Hsd & Hne & Hrl & Hsl).
  assert (Hpd1 : cb_pd cb ∈ pds w1).
  { unfold objs in Ho. wsimpl in Ho. injection Ho as _ _ -> _ _. done. }
  destruct (Hlive _ Hrl) as [b1 Hb1]. destruct (Hlive _ Hsl) as [b2 Hb2].
  assert (Hl1 : heap w1 !! cb_buf_ctxs cb = Some (BCtxs l)).
  { rewrite Hh, decide_False; [done|]. intros Hin.
    apply Hax. by eapply ctx_bufs_take. }
  assert (Hb1' : heap w1 !! recv_buf c = Some b1) by by rewrite Hh, decide_False.
  assert (Hb2' : heap w1 !! send_buf c = Some b2) by by rewrite Hh, decide_False.
  wp_steps. apply HQ. split.
  - by apply without_bufs_step.
  - wsimpl. rewrite (take_next _ _ c), ctx_maps_snoc, Hdm by done.
    rewrite list_to_set_disj_app. cbn [list_to_set_disj]. apply gmultiset_eq. intros x.
    rewrite !multiplicity_difference, !multiplicity_disj_union, multiplicity_empty. lia.
  - split; [done|split; [done|]]. exact Ho.
Qed.

(** [kfree_buffers] on a channel that owns its buffers and has a live
    protection domain. *)
Lemma wp_kfree_buffers t w cba cb l (Q : unit -> world -> Prop) :
  chan_at w cba cb l -> cb_pd cb ∈ pds w -> bufs_owned w cba cb l ->
  (forall w', freed w (cb_msgbuf_cnt cb) l w' -> Q tt w') ->
  wp t (kfree_buffers cba) Q w.
Proof.
  intros Hch Hpd Ho HQ. pose proof Hch as [Hcb Hl Hlen].
  unfold kfree_buffers, for_ctxs. do 2 wp_step.
  apply (wp_for_each (fun i w1 => freed w i l w1)).
  - split; [apply without_bufs_0| |done].
    change (dmas w = dmas w ∖ ∅). apply gmultiset_eq. intros x.
    rewrite multiplicity_difference, multiplicity_empty. lia.
  - intros i w1 Hi Hw1. destruct (ctx_at_lt l i) as [c Hc]; [lia|].
    by eapply kfree_buffer_step.
  - intros w1 Hw1. apply HQ. by rewrite Z.add_0_l, Z2Nat.id in Hw1 by lia.
Qed.
End Kfree_buffers.

(** ** The queue pair *)

Section Setup_qp.
Context {K : Kernel}.

Definition qp_attr (cq : kptr) : ib_qp_init_attr :=
  {| qa_cap := {| cap_max_send_wr := RDMA_SQ_DEPTH; cap_max_recv_wr := 2;
                  cap_max_recv_sge := 1; cap_max_send_sge := 1 |};
     qa_send_cq := cq; qa_recv_cq := cq |}.

(** The answers that a run of [setup_qp] on the channel [cba] gets. *)
Section Answers.
Context (h : list event) (id : kptr) (cba : addr).
Definition qa_pd : kptr := k_alloc_pd h (k_cm_device id).
Definition qa_h1 : list event := EvAllocPd (k_cm_device id) qa_pd :: h.
Definition qa_cq : kptr := k_create_cq qa_h1 (k_cm_device id) cba.
Definition qa_h2 : list event := EvCreateCq (k_cm_device id) cba qa_cq :: qa_h1.
Definition qa_notify : Z := k_req_notify_cq qa_h2 qa_cq.
Definition qa_qp : Z * addr :=
  k_create_qp (EvReqNotifyCq qa_cq qa_notify :: qa_h2) id qa_pd (qp_attr qa_cq).

(** Whether everything is created, and what is returned otherwise. *)
Definition qp_created : bool :=
  negb (IS_ERR qa_pd) && negb (IS_ERR qa_cq) && (qa_notify =? 0) && (fst qa_qp =? 0).
Definition qp_error (e : Z) : Z :=
  if IS_ERR qa_pd then PTR_ERR qa_pd else if IS_ERR qa_cq then PTR_ERR qa_cq
  else if negb (qa_notify =? 0) then e else fst qa_qp.

(** New objects are distinct from those in use. *)
Record fresh_objs (w : world) : Prop := {
  fo_pd : qa_pd ∉ pds w;
  fo_cq : cqs w !! qa_cq = None;
  fo_qp : snd qa_qp ∉ qps w }.
End Answers.

(** The objects of the channel, live and recorded in [cb']; [w] is the state
    before they were created. *)
Record qp_ready (w : world) (cba : addr) (cb cb' : rdma_ch_cb) (w' : world) : Prop := {
  qr_cb : exists pd cq qp,
    cb' = cb <| cb_pd := pd |> <| cb_cq := cq |> <| cb_qp := qp |>;
  qr_heap : heap w' = <[cba := BCb cb']> (heap w);
  qr_pds : pds w' = {[cb_pd cb']} ∪ pds w;
  qr_cqs : cqs w' = <[cb_cq cb' := {| cq_context := cba; cq_polls := [] |}]> (cqs w);
  qr_qps : qps w' = {[cb_qp cb']} ∪ qps w;
  qr_fresh : (cb_pd cb' ∉ pds w) /\ cqs w !! cb_cq cb' = None /\ (cb_qp cb' ∉ qps w);
  qr_cms : exists i, cms w !! cb_cm_id cb = Some i /\
    cms w' = <[cb_cm_id cb := i <| cm_qp := cb_qp cb' |>]> (cms w);
  qr_recvs : recvs (cb_qp cb') (cb_cq cb') w' = ([], O);
  qr_rest : next w' = next w /\ sched w' = sched w /\ dmas w' = dmas w
    /\ errno w' = errno w }.

(** After a failure only the [pd] and [cq] of the control block differ. *)
Record qp_released (w : world) (cba : addr) (cb : rdma_ch_cb) (w' : world) : Prop := {
  ql_cb : exists pd cq, heap w' = <[cba := BCb (cb <| cb_pd := pd |> <| cb_cq := cq |>)]> (heap w);
  ql_rest : same_but_heap w w' }.

Lemma wp_create_qp t w cba cb i Q :
  let id := cb_cm_id cb in let attr := qp_attr (cb_cq cb) in
  heap w !! cba = Some (BCb cb) -> cb_server cb = 0 -> cms w !! id = Some i ->
  cb_pd cb ∈ pds w ->
  (forall r, r = k_create_qp (trace w) id (cb_pd cb) attr ->
     let w1 := qp_answer id (cb_pd cb) attr r i w in
     Q (fst r) (if fst r =? 0
                then upd_heap (insert cba (BCb (cb <| cb_qp := snd r |>))) w1 else w1)) ->
  wp t (create_qp cba) Q w.
Proof.
  intros id attr Hcb Hsv Hi Hpd HQ. unfold create_qp. do 2 wp_step.
  rewrite Hsv. change (negb (0 =? 0)) with false. cbv iota.
  wp_step. eapply wp_rdma_create_qp; [done|done|]. intros r Hr. specialize (HQ r Hr).
  revert HQ. unfold qp_answer. destruct (fst r =? 0) eqn:E; intros HQ; wsimpl in HQ.
  - do 5 wp_step. wp_step; [wsimpl; apply lookup_insert_eq|]. do 2 wp_step. exact HQ.
  - do 2 wp_step. exact HQ.
Qed.

Lemma wp_setup_qp_err3 t w cba cb ret Q :
  heap w !! cba = Some (BCb cb) -> is_Some (cqs w !! cb_cq cb) -> cb_pd cb ∈ pds w ->
  Q ret (upd_pds (fun s => s ∖ {[cb_pd cb]}) (log (EvDeallocPd (cb_pd cb))
    (upd_cqs (delete (cb_cq cb)) (log (EvDestroyCq (cb_cq cb)) w)))) ->
  wp t (setup_qp_err3 cba ret) Q w.
Proof.
  intros Hcb [c Hc] Hpd HQ. unfold setup_qp_err3, setup_qp_err2. wp_steps. exact HQ.
Qed.

Lemma wp_setup_qp t w cba cb i (Q : Z -> world -> Prop) :
  let id := cb_cm_id cb in
  heap w !! cba = Some (BCb cb) -> cb_server cb = 0 -> cms w !! id = Some i ->
  fresh_objs (trace w) id cba w ->
  (qp_created (trace w) id cba = true -> forall cb' w', qp_ready w cba cb cb' w' -> Q 0 w') ->
  (qp_created (trace w) id cba = false -> forall w', qp_released w cba cb w' ->
     Q (qp_error (trace w) id cba (errno w)) w') ->
  wp t (setup_qp cba id) Q w.
Proof.
  intros id Hcb Hsv Hi [Fpd Fcq Fqp] Hok Herr. unfold qp_created, qp_error in *.
  set (h := trace w) in *. unfold setup_qp.
  wp_step. eapply wp_cm_device; [done|]. wp_step. apply wp_ib_alloc_pd.
  intros pd ->. fold h. fold (qa_pd h id).
  destruct (IS_ERR (qa_pd h id)) eqn:Epd; cbv iota zeta.
  { wp_steps. apply Herr; [done|]. split; [|done].
    exists (qa_pd h id), (cb_cq cb). by destruct cb. }
  do 2 wp_step. cbv iota. wp_step. eapply wp_cm_device; [done|]. wp_step. apply wp_ib_create_cq.
  intros cq Hcq. wsimpl in Hcq. change (cq = qa_cq h id cba) in Hcq. subst cq.
  destruct (IS_ERR (qa_cq h id cba)) eqn:Ecq; cbv iota zeta.
  { unfold setup_qp_err2. wp_steps; [wsimpl; set_solver|].
    apply Herr; [done|]. split.
    - exists (qa_pd h id), (qa_cq h id cba). wsimpl. by rewrite !insert_insert_eq.
    - split; [done|split; [done|]]. unfold objs. wsimpl. by rewrite gset_undo. }
  do 2 wp_step. cbv iota. wp_step. apply wp_ib_req_notify_cq.
  { exists {| cq_context := cba; cq_polls := [] |}. wsimpl. apply lookup_insert_eq. }
  intros r Hr. wsimpl in Hr. change (r = qa_notify h id cba) in Hr. subst r.
  destruct (qa_notify h id cba =? 0) eqn:En; cbn [negb].
  2: { do 2 wp_step. eapply wp_setup_qp_err3;
         [wsimpl; apply lookup_insert_eq|eexists; wsimpl; apply lookup_insert_eq
         |wsimpl; set_solver|].
       apply Herr; [done|]. split.
       - exists (qa_pd h id), (qa_cq h id cba). wsimpl. by rewrite insert_insert_eq.
       - split; [done|split; [done|]]. unfold objs. wsimpl. rec_simpl.
         by rewrite gset_undo, delete_insert_id. }
  wp_step. set (cb2 := cb <| cb_pd := qa_pd h id |> <| cb_cq := qa_cq h id cba |>).
  apply (wp_create_qp _ _ _ cb2 i);
    [wsimpl; apply lookup_insert_eq|done|done|cbn; set_solver|].
  intros r Hr. cbv zeta. change (r = qa_qp h id cba) in Hr. subst r.
  unfold qp_answer. destruct (fst (qa_qp h id cba) =? 0) eqn:Eq; cbn [negb].
  - wp_step. apply (Hok eq_refl (cb2 <| cb_qp := snd (qa_qp h id cba) |>)). split; wsimpl; try done.
    + by exists (qa_pd h id), (qa_cq h id cba), (snd (qa_qp h id cba)).
    + by rewrite !insert_insert_eq.
    + by exists i.
    + unfold recvs. wsimpl. cbn [posted received]. rewrite Eq. cbn. rewrite Z.eqb_refl.
      by rewrite decide_True by done.
  - eapply wp_setup_qp_err3; [wsimpl; apply lookup_insert_eq
      |eexists; wsimpl; apply lookup_insert_eq|wsimpl; set_solver|].
    apply Herr; [done|]. split.
    + exists (qa_pd h id), (qa_cq h id cba). wsimpl. by rewrite insert_insert_eq.
    + split; [done|split; [done|]]. unfold objs. wsimpl. rec_simpl.
      by rewrite gset_undo, delete_insert_id.
Qed.

(** [kfree_qp] on a channel with live objects. *)
Lemma wp_kfree_qp t w cba cb (Q : unit -> world -> Prop) :
  heap w !! cba = Some (BCb cb) -> cb_qp cb ∈ qps w -> is_Some (cqs w !! cb_cq cb) ->
  cb_pd cb ∈ pds w ->
  (forall w', heap w' = heap w -> qps w' = qps w ∖ {[cb_qp cb]} ->
     cqs w' = delete (cb_cq cb) (cqs w) -> pds w' = pds w ∖ {[cb_pd cb]} ->
     cms w' = cms w -> dmas w' = dmas w -> errno w' = errno w -> next w' = next w ->
     sched w' = sched w -> Q tt w') ->
  wp t (kfree_qp cba) Q w.
Proof.
  intros Hcb Hqp [c Hc] Hpd HQ. unfold kfree_qp. wp_steps. by apply HQ.
Qed.
End Setup_qp.

(** ** The error path of [setup_buffers] *)

(** The address computations of [seqZ] for the buffers. *)
Lemma bufs_seqZ l p :
  (forall j c, l !! j = Some c -> recv_buf c = p + 2 * Z.of_nat j
     /\ send_buf c = p + 2 * Z.of_nat j + 1) ->
  ctx_bufs l = seqZ p (2 * Z.of_nat (length l)).
Proof.
  revert p. induction l as [|c l IH]; intros p Hl; [done|].
  unfold ctx_bufs in *. cbn [mbind list_bind app length].
  rewrite (IH (p + 2)).
  - destruct (Hl O c eq_refl) as [-> ->].
    rewrite (seqZ_cons p), (seqZ_cons (Z.succ p)) by lia.
    repeat (f_equal; try lia).
  - intros j d Hd. destruct (Hl (S j) d Hd) as [-> ->]. lia.
Qed.

Lemma ctx_bufs_insert l i c c' :
  l !! i = Some c -> recv_buf c' = recv_buf c -> send_buf c' = send_buf c ->
  ctx_bufs (<[i := c']> l) = ctx_bufs l.
Proof.
  intros Hc Hr Hs. rewrite insert_take_drop by by eapply lookup_lt_Some.
  rewrite <- (take_drop_middle l i c) at 3 by done. unfold ctx_bufs.
  rewrite !bind_app. cbn. by rewrite Hr, Hs.
Qed.

Lemma elem_of_bufs l p a :
  ctx_bufs l = seqZ p (2 * Z.of_nat (length l)) ->
  a ∈ ctx_bufs l <-> p <= a < p + 2 * Z.of_nat (length l).
Proof. intros ->. apply elem_of_seqZ. Qed.

(** ** After a successful [setup_buffers] *)

Section Ready.
Context {K : Kernel}.

Lemma wired_bufs cb j c0 c :
  wired cb j c0 c -> recv_buf c = recv_buf c0 /\ send_buf c = send_buf c0.
Proof. intros ->. split; reflexivity. Qed.

Lemma wired_rest cb j c0 c :
  wired cb j c0 c -> mc_seqn c = mc_seqn c0 /\ rwr_wr_id (rq_wr c) = Z.of_nat j.
Proof. intros ->. split; reflexivity. Qed.

(** What a ready context is to the data path. *)
Lemma ready_parts cb p j c0 c : ready_ctx cb p j c0 c ->
  mc_seqn c = mc_seqn c0 /\ recv_buf c = p + 2 * Z.of_nat j
  /\ send_buf c = p + 2 * Z.of_nat j + 1 /\ rwr_wr_id (rq_wr c) = Z.of_nat j.
Proof.
  intros (m1 & m2 & c1 & _ & _ & H1 & Hw).
  destruct (wired_bufs _ _ _ _ Hw) as [-> ->], (wired_rest _ _ _ _ Hw) as [-> ->].
  clear Hw. unfold with_bufs in H1. by rewrite H1.
Qed.

Lemma ready_length w cb l0 l w' : buffers_ready w cb l0 l w' -> length l = length l0.
Proof. by intros [_ [? _] _ _ _ _ _ _]. Qed.

Lemma ready_pds w cb l0 l w' : buffers_ready w cb l0 l w' -> pds w' = pds w.
Proof. intros [_ _ _ _ _ _ _ Ho]. by apply objs_inv in Ho as (_ & _ & ? & _). Qed.

Lemma ready_chan w cba cb l0 l w' :
  chan_at w cba cb l0 -> fresh_ok w -> buffers_ready w cb l0 l w' -> chan_at w' cba cb l.
Proof.
  intros [Hcb Hl0 Hlen] [_ Hfree] Hr. pose proof (ready_length _ _ _ _ _ Hr) as Hll.
  destruct Hr as [Hl _ _ Hfr _ _ _ _]. split; [|done|congruence].
  rewrite Hfr; [done|congruence|]. intros [? _]. by rewrite Hfree in Hcb.
Qed.

Lemma ready_bufs w cba cb l0 l w' :
  chan_at w cba cb l0 -> buffers_ready w cb l0 l w' ->
  ctx_bufs l = seqZ (next w) (2 * cb_msgbuf_cnt cb).
Proof.
  intros [_ _ Hlen] Hr. pose proof (ready_length _ _ _ _ _ Hr) as Hll.
  rewrite <- Hlen, <- Hll. apply bufs_seqZ. intros j c Hc.
  destruct Hr as [_ Hd _ _ _ _ _ _].
  destruct (lookup_lt_is_Some_2 l0 j) as [c0 Hc0];
    [rewrite <- Hll; by eapply lookup_lt_Some|].
  destruct (done_upto_all _ _ _ _ _ _ _ Hd ltac:(lia) Hc0 Hc)
    as (m1 & m2 & c1 & _ & _ & Hb & Hw).
  destruct (wired_bufs _ _ _ _ Hw) as [-> ->]. by rewrite Hb.
Qed.

Lemma ready_owned w cba cb l0 l w' :
  chan_at w cba cb l0 -> fresh_ok w -> buffers_ready w cb l0 l w' ->
  bufs_owned w' cba cb l.
Proof.
  intros Hch [_ Hfree] Hr. pose proof (ready_bufs _ _ _ _ _ _ Hch Hr) as Hseq.
  destruct Hch as [Hcb Hl0 _]. destruct Hr as [_ _ Hb _ _ _ _ _]. split; rewrite Hseq.
  - apply NoDup_seqZ.
  - intros a Ha%elem_of_seqZ. by rewrite Hb.
  - split; intros [Ha _]%elem_of_seqZ; [rewrite Hfree in Hcb|rewrite Hfree in Hl0]; done.
Qed.

(** Freeing the buffers gives back the state before [setup_buffers], up to
    the array of contexts. *)
Lemma freed_after_ready w cba cb l0 l w1 w2 :
  chan_at w cba cb l0 -> fresh_ok w -> buffers_ready w cb l0 l w1 ->
  freed w1 (cb_msgbuf_cnt cb) l w2 ->
  (forall a, a <> cb_buf_ctxs cb -> heap w2 !! a = heap w !! a) /\ objs w2 = objs w.
Proof.
  intros Hch [_ Hfree] Hr [Hh Hdm (_ & _ & Ho2)].
  pose proof (ready_bufs _ _ _ _ _ _ Hch Hr) as Hseq.
  pose proof (ready_length _ _ _ _ _ Hr) as Hll. destruct Hch as [_ _ Hlen].
  destruct Hr as [_ _ _ Hfr _ _ Hdm1 Ho1].
  rewrite take_ge in Hdm by lia. split.
  - intros a Ha. rewrite (Hh a), take_ge by lia. rewrite Hseq.
    case_decide as Hd; rewrite elem_of_seqZ in Hd; [symmetry; apply Hfree; lia|].
    by apply Hfr.
  - unfold objs in *. wsimpl in Ho1. wsimpl in Ho2.
    injection Ho1 as ? ? ? ? ?. injection Ho2 as ? ? ? ? ?.
    rewrite Hdm, Hdm1. replace ((_ ⊎ _) ∖ _) with (dmas w); [congruence|].
    apply gmultiset_eq. intros x.
    rewrite multiplicity_difference, multiplicity_disj_union. lia.
Qed.
End Ready.

Section Setup_buffers_error.
Context {K : Kernel}.

Lemma wp_setup_buffers_err2 t w cba cb l ret (Q : Z -> world -> Prop) :
  chan_at w cba cb l -> bufs_owned w cba cb l -> NULL ∉ ctx_bufs l ->
  (forall w', without_bufs (heap w) (cb_msgbuf_cnt cb) l (heap w') ->
     same_but_heap w w' -> Q ret w') ->
  wp t (setup_buffers_err2 cba ret) Q w.
Proof.
  intros [Hcb Hl Hlen] [Hnd Hlive [_ Hax]] Hnull HQ.
  unfold setup_buffers_err2, for_ctxs. do 3 wp_step.
  apply (wp_for_each (fun i w1 =>
    without_bufs (heap w) i l (heap w1) /\ same_but_heap w w1)).
  - split; [apply without_bufs_0|done].
  - intros i w1 Hi [Hh Hr1]. destruct (ctx_at_lt l i) as [c Hc]; [lia|].
    destruct (next_bufs_fresh _ _ _ Hnd Hc) as (Hrb & Hsd & Hne & Hrl & Hsl).
    destruct (Hlive _ Hrl) as [b1 Hb1]. destruct (Hlive _ Hsl) as [b2 Hb2].
    pose proof (without_bufs_step _ _ _ _ _ Hc Hh) as Hstep.
    assert (Hl1 : heap w1 !! cb_buf_ctxs cb = Some (BCtxs l)).
    { rewrite Hh, decide_False; [done|]. intros Hin. apply Hax. by eapply ctx_bufs_take. }
    assert (Hb1' : heap w1 !! recv_buf c = Some b1) by by rewrite Hh, decide_False.
    assert (Hb2' : heap w1 !! send_buf c = Some b2) by by rewrite Hh, decide_False.
    do 3 wp_step. rewrite (proj2 (Z.eqb_neq (recv_buf c) NULL)) by by intros Heq; rewrite Heq in Hrl.
    rewrite (proj2 (Z.eqb_neq (send_buf c) NULL)) by by intros Heq; rewrite Heq in Hsl.
    cbn [negb]. wp_steps. split; [exact Hstep|done].
  - intros w1 [Hh1 Hr1]. wp_step. apply HQ; [|done].
    by rewrite Z.add_0_l, Z2Nat.id in Hh1 by lia.
Qed.

(** With no mapping recorded, [err1] goes straight on to [err2]. *)
Lemma wp_setup_buffers_err1 t w cba cb l ret (Q : Z -> world -> Prop) :
  chan_at w cba cb l -> Forall (fun c => recv_mr c = 0 /\ send_mr c = 0) l ->
  wp t (setup_buffers_err2 cba ret) Q w -> wp t (setup_buffers_err1 cba ret) Q w.
Proof.
  intros [Hcb Hl Hlen] Hz HQ. unfold setup_buffers_err1, for_ctxs. do 3 wp_step.
  apply (wp_for_each (fun _ w1 => w1 = w)); [done| |by intros ? ->].
  intros i w1 Hi ->. destruct (ctx_at_lt l i) as [c Hc]; [lia|].
  do 2 wp_step. pose proof Hc as [_ Hc']%ctx_at_Some.
  rewrite Forall_lookup in Hz. destruct (Hz _ _ Hc') as [-> ->].
  change (negb (0 =? NULL)) with false. cbv iota. by wp_steps.
Qed.

Context (Halloc : forall h b, k_kzalloc h b = true).

(** The state after the buffers have been allocated, as the mapping loop
    finds it. *)
Lemma setup_buffers_alloc w cba cb l0 (Q : Z -> world -> Prop) t :
  chan_at w cba cb l0 -> 0 <= cb_msgbuf_size cb -> fresh_ok w ->
  (forall l1 w1, done_upto (cb_msgbuf_cnt cb) (with_bufs (next w)) l0 l1 ->
     allocated w cb (cb_msgbuf_cnt cb) l1 w1 -> chan_at w1 cba cb l1 ->
     wp t (r ← for_loop (Z.to_nat (cb_msgbuf_cnt cb)) 0 (map_buffer cb);
           match r with
           | Some ret => setup_buffers_err1 cba ret
           | None => setup_wr cba;; mret 0
           end) Q w1) ->
  wp t (setup_buffers cba) Q w.
Proof.
  intros Hch Hsz [Hpos Hfree] HQ. pose proof Hch as [Hcb Hl0 Hlen].
  assert (Hcbn : cba < next w) by (apply Z.nle_gt; intros ?; by rewrite Hfree in Hcb).
  assert (Hne : cba <> cb_buf_ctxs cb) by congruence.
  unfold setup_buffers. wp_step.
  eapply wp_alloc_msg_buffers; [done|done|done|by split|].
  intros l1 w1 Hd1 Hal. pose proof Hal as [Hl1 _ Hf1 _ _].
  assert (Hcb1 : heap w1 !! cba = Some (BCb cb)) by (rewrite Hf1; [done|done|lia]).
  change (negb (0 =? 0)) with false. cbv iota. do 2 wp_step.
  apply (HQ l1); [done|done|]. split; [done|done|]. destruct Hd1; congruence.
Qed.

(** The contexts of an allocated channel own its buffers. *)
Lemma allocated_owned w cba cb l0 l1 w1 :
  fresh_ok w -> chan_at w cba cb l0 -> chan_at w1 cba cb l1 ->
  done_upto (cb_msgbuf_cnt cb) (with_bufs (next w)) l0 l1 ->
  allocated w cb (cb_msgbuf_cnt cb) l1 w1 ->
  bufs_owned w1 cba cb l1 /\ (NULL ∉ ctx_bufs l1)
  /\ ctx_bufs l1 = seqZ (next w) (2 * Z.of_nat (length l1)).
Proof.
  intros [Hpos Hfree] [Hcb Hl0 Hlen] [Hcb1 Hl1 Hlen1] Hd [_ Hb Hfr _ _].
  assert (Hseq : ctx_bufs l1 = seqZ (next w) (2 * Z.of_nat (length l1))).
  { apply bufs_seqZ. intros j c Hc.
    destruct (lookup_lt_is_Some_2 l0 j) as [c0 Hc0];
      [destruct Hd as [<- _]; by eapply lookup_lt_Some|].
    by rewrite (done_upto_all _ _ _ _ _ _ _ Hd ltac:(lia) Hc0 Hc). }
  assert (forall a, a ∈ ctx_bufs l1 -> next w <= a < next w + 2 * Z.of_nat (length l1))
    by (intros a; by apply elem_of_bufs).
  split; [|split; [|done]].
  - split.
    + rewrite Hseq. apply NoDup_seqZ.
    + intros a Ha. rewrite Hb; [done|]. rewrite <- Hlen1. auto.
    + split; intros Ha%H; [rewrite Hfree in Hcb|rewrite Hfree in Hl0]; done || lia.
  - intros Ha%H. unfold NULL in Ha. lia.
Qed.

Lemma wp_setup_buffers_first_fails t w cba cb l0 (Q : Z -> world -> Prop) :
  chan_at w cba cb l0 -> 0 <= cb_msgbuf_size cb -> fresh_ok w -> cb_pd cb ∈ pds w ->
  0 < cb_msgbuf_cnt cb -> Forall (fun c => recv_mr c = 0 /\ send_mr c = 0) l0 ->
  (forall h d a n, k_dma_map h d a n = 0) ->
  (forall w', (forall a, a <> cb_buf_ctxs cb -> heap w' !! a = heap w !! a) ->
     objs w' = objs w -> Q (errno w) w') ->
  wp t (setup_buffers cba) Q w.
Proof.
  intros Hch Hsz Hf Hpd Hpos Hz Hd HQ.
  eapply setup_buffers_alloc; [done..|]. intros l1 w1 Hd1 Hal Hch1.
  destruct (allocated_owned _ _ _ _ _ _ Hf Hch Hch1 Hd1 Hal) as (Hown & Hnull & Hseq).
  pose proof Hal as [Hl1 _ Hfr _ [_ Ho]]. pose proof (objs_inv _ _ Ho) as (_ & _ & Hp & _ & _ & He).
  destruct (ctx_at_lt l1 0) as [c Hc]; [destruct Hch1; lia|].
  destruct (Z.to_nat (cb_msgbuf_cnt cb)) as [|n] eqn:En; [lia|]. cbn [for_loop].
  do 2 wp_step. unfold map_buffer. wp_step. apply wp_pd_device; [by rewrite Hp|].
  do 3 wp_step. apply wp_dma_map_zero; [done|]. do 4 wp_step; [by eapply ctx_at_insert|].
  change (0 =? 0) with true. cbv iota. do 4 wp_step.
  rewrite list_insert_insert_eq. set (c' := {| mc_id := _ |}).
  pose proof (proj1 (ctx_at_Some _ _ _) Hc) as [_ Hc']. destruct Hch1 as [Hcb1 _ Hlen1].
  assert (Hne : cba <> cb_buf_ctxs cb) by congruence.
  assert (Hb2 : ctx_bufs (<[Z.to_nat 0 := c']> l1) = ctx_bufs l1)
    by by apply (ctx_bufs_insert _ _ c).
  set (w2 := upd_heap _ _).
  assert (Hch2 : chan_at w2 cba cb (<[Z.to_nat 0 := c']> l1)).
  { split; [unfold w2; heap_lookup|apply lookup_insert_eq|by rewrite length_insert]. }
  assert (Hz1 : Forall (fun c => recv_mr c = 0 /\ send_mr c = 0) l1).
  { rewrite Forall_lookup in Hz |- *. intros j d Hj.
    destruct (lookup_lt_is_Some_2 l0 j) as [d0 Hd0];
      [destruct Hd1 as [<- _]; by eapply lookup_lt_Some|].
    pose proof (done_upto_all _ _ _ _ _ _ _ Hd1 ltac:(destruct Hch; lia) Hd0 Hj) as ->.
    exact (Hz j d0 Hd0). }
  eapply wp_setup_buffers_err1; [done| |].
  { apply Forall_insert; [done|]. split; [done|]. rewrite Forall_lookup in Hz1.
    by apply (Hz1 _ _ Hc'). }
  rewrite <- He in HQ.
  destruct Hown as [Hnd Hlive Hap].
  eapply wp_setup_buffers_err2; [done|split; rewrite Hb2; [done| |done]|by rewrite Hb2|].
  { intros a Ha. unfold w2. wsimpl. rewrite !lookup_insert_is_Some'. auto. }
  intros w3 Hh3 (_ & _ & Ho3). apply HQ; [|by rewrite Ho3].
  intros a Ha. rewrite Hh3, take_ge by (rewrite length_insert; lia). rewrite Hb2.
  pose proof (elem_of_bufs _ _ a Hseq) as Hin. destruct Hf as [_ Hfree].
  case_decide as Hd'; [symmetry; apply Hin in Hd'; apply Hfree; lia|].
  unfold w2. wsimpl. rewrite !lookup_insert_ne by done. apply Hfr; [done|].
  rewrite Hin in Hd'. lia.
Qed.
End Setup_buffers_error.

(** ** Properties *)

(** What [setup_buffers] asks of the channel. *)
Record bufs_pre (w : world) (cba : addr) (cb : rdma_ch_cb) (l0 : list msgbuf_ctx)
    : Prop := {
  bp_chan : chan_at w cba cb l0;
  bp_size : 0 <= cb_msgbuf_size cb;
  bp_fresh : fresh_ok w;
  bp_pd : cb_pd cb ∈ pds w }.

(** Nothing but the array of contexts has changed. *)
Definition only_ctxs_changed (w : world) (cb : rdma_ch_cb) (w' : world) : Prop :=
  (forall a, a <> cb_buf_ctxs cb -> heap w' !! a = heap w !! a) /\ objs w' = objs w.

Section Bufs_properties.
Context {K : Kernel}.

(** [setup_buffers] with memory and mappings to be had: it returns 0; each
    context has two buffers of zeros of its own, both mapped, and its
    receive and send requests refer to those mappings with the size of a
    message and carry the number of the context; nothing else of the memory
    changes. *)
Theorem setup_buffers_ok w cba cb l0 :
  (forall h b, k_kzalloc h b = true) ->
  (forall h d a n, dma_failed (k_dma_map h d a n) = false) ->
  bufs_pre w cba cb l0 ->
  exists w' l, setup_buffers cba w = Ok 0 w' /\ buffers_ready w cb l0 l w'
    /\ ctx_bufs l = seqZ (next w) (2 * cb_msgbuf_cnt cb).
Proof.
  intros Ha Hd [Hch Hs Hf Hpd].
  destruct (wp_total_run (setup_buffers cba) (fun r w' => r = 0 /\ exists l,
    buffers_ready w cb l0 l w') w) as (r & w' & Hr & -> & l & Hl).
  { eapply wp_setup_buffers; [done..|]. eauto. }
  exists w', l. split; [done|]. split; [done|]. by eapply ready_bufs.
Qed.

(** [kfree_buffers] undoes [setup_buffers]: the memory is as it was before
    except for the array of contexts, and so are the DMA mappings. *)
Theorem setup_kfree_buffers w cba cb l0 :
  (forall h b, k_kzalloc h b = true) ->
  (forall h d a n, dma_failed (k_dma_map h d a n) = false) ->
  bufs_pre w cba cb l0 ->
  exists w', (setup_buffers cba;; kfree_buffers cba) w = Ok tt w'
    /\ only_ctxs_changed w cb w'.
Proof.
  intros Ha Hd [Hch Hs Hf Hpd].
  apply (wp_total_unit _ (fun _ w' => only_ctxs_changed w cb w')).
  wp_step. eapply wp_setup_buffers; [done..|]. intros l w1 Hbr.
  eapply (wp_kfree_buffers _ _ _ cb l).
  - by eapply ready_chan.
  - by rewrite (ready_pds _ _ _ _ _ Hbr).
  - by eapply ready_owned.
  - intros w2 Hfd. by eapply freed_after_ready.
Qed.

(** When DMA mapping fails at the first buffer, [setup_buffers] has freed
    every buffer and yet returns [errno], which nothing in the program sets:
    0, success. *)
Theorem setup_buffers_dma_failure w cba cb l0 :
  (forall h b, k_kzalloc h b = true) -> (forall h d a n, k_dma_map h d a n = 0) ->
  bufs_pre w cba cb l0 -> Forall (fun c => recv_mr c = 0 /\ send_mr c = 0) l0 ->
  0 < cb_msgbuf_cnt cb ->
  errno w = 0 ->
  exists w', setup_buffers cba w = Ok 0 w'
    /\ only_ctxs_changed w cb w'.
Proof.
  intros Ha Hd [Hch Hs Hf Hpd] Hz Hc He.
  destruct (wp_total_run (setup_buffers cba) (fun r w' => r = errno w /\
    only_ctxs_changed w cb w') w)
    as (r & w' & Hr & Hre & Hw').
  { eapply wp_setup_buffers_first_fails; [done..|]. by split. }
  exists w'. by rewrite Hr, Hre, He.
Qed.

(** When mapping fails at the send buffer of the first context, the error
    path passes the DMA address of its receive buffer to [ib_dereg_mr],
    which takes a pointer to a memory region: undefined behaviour. *)
Theorem setup_buffers_dereg w cba cb l0 m :
  (forall h b, k_kzalloc h b = true) ->
  (forall h d n, k_dma_map h d (next w) n = m) ->
  (forall h d n, k_dma_map h d (next w + 1) n = 0) -> dma_failed m = false ->
  bufs_pre w cba cb l0 -> 0 < cb_msgbuf_cnt cb ->
  setup_buffers cba w = Undef (BadAddress m).
Proof.
  intros Ha Hm1 Hm2 Hm [Hch Hs Hf Hpd] Hc. pose proof Hch as [Hcb Hl0 Hlen].
  assert (Hcbn : cba < next w)
    by (destruct Hf as [_ Hfree]; apply Z.nle_gt; intros ?; by rewrite Hfree in Hcb).
  assert (Hne : cba <> cb_buf_ctxs cb) by congruence.
  destruct (wp_total_run (alloc_msg_buffers cba) (fun r w1 => r = 0 /\ exists l1,
    done_upto (cb_msgbuf_cnt cb) (with_bufs (next w)) l0 l1 /\
    allocated w cb (cb_msgbuf_cnt cb) l1 w1) w) as (? & w1 & Hr1 & -> & l1 & Hd1 & Hal).
  { eapply wp_alloc_msg_buffers; eauto. }
  pose proof Hal as [Hl1 _ Hfr _ [_ Ho]]. pose proof (objs_inv _ _ Ho) as (_ & _ & Hp & _).
  assert (Hcb1 : heap w1 !! cba = Some (BCb cb)) by (rewrite Hfr; [done|done|lia]).
  unfold setup_buffers. erewrite bind_run by exact Hr1.
  change (negb (0 =? 0)) with false. cbv iota. erewrite bind_run by by apply load_run.
  destruct (ctx_at_lt l0 0) as [c0 Hc0]; [lia|].
  assert (Hc1 : exists c1, ctx_at l1 0 = Some c1 /\ recv_buf c1 = next w
    /\ send_buf c1 = next w + 1).
  { destruct (ctx_at_lt l1 0) as [c1 Hc1]; [destruct Hd1; lia|]. exists c1.
    split; [done|]. apply ctx_at_Some in Hc0 as [_ Hc0]. apply ctx_at_Some in Hc1 as [_ Hc1].
    rewrite (done_upto_all _ _ _ _ _ _ _ Hd1 ltac:(lia) Hc0 Hc1). cbn. lia. }
  destruct Hc1 as (c1 & Hc1 & Hrb & Hsb).
  destruct (wp_total_run (map_buffer cb 0) (fun r w2 => r = Some (errno w1) /\
    heap w2 = <[cb_buf_ctxs cb := BCtxs (<[Z.to_nat 0 := with_maps m 0 c1]> l1)]> (heap w1))
    w1) as (? & w2 & Hr2 & -> & Hh2).
  { eapply (wp_map_buffer_send_fails _ _ _ _ l1 c1 m); rewrite ?Hrb, ?Hsb, ?Hp; auto. }
  destruct (Z.to_nat (cb_msgbuf_cnt cb)) as [|n] eqn:En; [lia|]. cbn [for_loop].
  erewrite bind_run by (erewrite bind_run by exact Hr2; reflexivity).
  unfold setup_buffers_err1, for_ctxs. apply bind_undef.
  erewrite bind_run by (apply load_run; rewrite Hh2, lookup_insert_ne by done; exact Hcb1).
  rewrite En. cbn [for_each]. apply bind_undef.
  erewrite bind_run by (apply (load_ctx_run _ (<[Z.to_nat 0 := with_maps m 0 c1]> l1));
    [rewrite Hh2; apply lookup_insert_eq|by eapply ctx_at_insert]).
  change (recv_mr (with_maps m 0 c1)) with m. unfold NULL.
  by rewrite (dma_ok_nonzero m).
Qed.

(** C28. [setup_qp], whatever the kernel answers: either the protection domain,
    completion queue and queue pair are live and recorded in the control
    block, or everything that was created has been destroyed again and the
    result is the error: the code of the call that failed, or, for
    [ib_req_notify_cq], [errno]. *)
Theorem setup_qp_outcome w cba cb i :
  let id := cb_cm_id cb in
  heap w !! cba = Some (BCb cb) -> cb_server cb = 0 -> cms w !! id = Some i ->
  fresh_objs (trace w) id cba w ->
  exists r w', setup_qp cba id w = Ok r w' /\
    if qp_created (trace w) id cba then r = 0 /\ exists cb', qp_ready w cba cb cb' w'
    else r = qp_error (trace w) id cba (errno w) /\ qp_released w cba cb w'.
Proof.
  intros id Hcb Hsv Hi Hf. apply wp_total_run.
  apply (wp_setup_qp _ _ _ cb i); [done..| |]; fold id; intros ->; [|done].
  intros cb' w' Hr. split; [done|]. by exists cb'.
Qed.

(** When [ib_req_notify_cq] fails, [setup_qp] destroys what it created and
    returns [errno], which nothing in the program sets: 0, success, with a
    control block that points to dead objects. *)
Theorem setup_qp_notify_failure w cba cb i :
  let id := cb_cm_id cb in let h := trace w in
  heap w !! cba = Some (BCb cb) -> cb_server cb = 0 -> cms w !! id = Some i ->
  fresh_objs h id cba w -> errno w = 0 ->
  IS_ERR (qa_pd h id) = false -> IS_ERR (qa_cq h id cba) = false ->
  qa_notify h id cba <> 0 ->
  exists w', setup_qp cba id w = Ok 0 w' /\ qp_released w cba cb w'.
Proof.
  intros id h Hcb Hsv Hi Hf He Hpd Hcq Hn%Z.eqb_neq.
  destruct (wp_total_run (setup_qp cba id) (fun r w' => r = 0 /\ qp_released w cba cb w') w)
    as (r & w' & Hr & -> & Hw'); [|by eauto].
  apply (wp_setup_qp _ _ _ cb i); [done..| |]; fold id h.
  - unfold qp_created. by rewrite Hn, !andb_false_r.
  - intros _ w' Hr. split; [|done]. unfold qp_error. by rewrite Hpd, Hcq, Hn.
Qed.

(** [kfree_qp] undoes [setup_qp]: the same objects are live as before. *)
Theorem setup_kfree_qp w cba cb i :
  let id := cb_cm_id cb in
  heap w !! cba = Some (BCb cb) -> cb_server cb = 0 -> cms w !! id = Some i ->
  fresh_objs (trace w) id cba w -> qp_created (trace w) id cba = true ->
  exists w', (setup_qp cba id;; kfree_qp cba) w = Ok tt w'
    /\ pds w' = pds w /\ cqs w' = cqs w /\ qps w' = qps w.
Proof.
  intros id Hcb Hsv Hi Hf Hok. apply (wp_total_unit _ (fun _ w' =>
    pds w' = pds w /\ cqs w' = cqs w /\ qps w' = qps w)).
  wp_step. apply (wp_setup_qp _ _ _ cb i); [done..| |fold id; congruence].
  intros _ cb' w1 [_ Hh Hp Hc Hq (Fp & Fc & Fq) _ _].
  eapply (wp_kfree_qp _ _ _ cb'); [rewrite Hh; apply lookup_insert_eq|set_solver
    |rewrite Hc; eexists; apply lookup_insert_eq|set_solver|].
  intros w2 _ Hq2 Hc2 Hp2 _ _ _ _ _.
  rewrite Hq2, Hc2, Hp2, Hq, Hc, Hp, !gset_undo, delete_insert_id by done. done.
Qed.
End Bufs_properties.
