(* ===== verification/RdmaClone.v ===== *)
(** * RdmaClone: copies of a listening channel ([rdma.c])

    What [clone_cb] and [kfree_cb] of [RdmaMem] do, on every outcome of the two
    allocations: the copy shares everything with the listening channel except
    its control block and its array of contexts, and the connection id of the
    child is bound to it, also when there is no copy. *)
From stdpp Require Import gmultiset.
From S2P Require Import Prelude Types Kernel Logic Wait Wire RdmaMem RdmaBufs RdmaCm.

Section Clone.
Context {K : Kernel}.

(** The child id of the channel [lcb] is [ci]. *)
Definition child_at (w : world) (lcb : rdma_ch_cb) (ci : cm_state) : Prop :=
  cms w !! cb_child_cm_id lcb = Some ci.

(** The copy of [lcb] whose array of contexts is at [ctxs]. *)
Definition cloned (lcb : rdma_ch_cb) (ctxs : addr) : rdma_ch_cb :=
  lcb <| cb_buf_ctxs := ctxs |>.

(** The child of [lcb] calls back with [cba]. *)
Definition child_bound (lcb : rdma_ch_cb) (ci : cm_state) (cba : addr) (w w' : world) : Prop :=
  cms w' = <[cb_child_cm_id lcb := ci <| cm_context := cba |>]> (cms w).

(** What the result of [clone_cb] says of the state. *)
Inductive clone_result (w : world) (lcb : rdma_ch_cb) (l : list msgbuf_ctx)
    (ci : cm_state) (w' : world) : addr -> Prop :=
| clone_no_cb :
    k_kzalloc (trace w) (BCb zero_cb) = false ->
    heap w' = heap w -> cms w' = cms w -> clone_result w lcb l ci w' NULL
| clone_no_ctxs :
    k_kzalloc (trace w) (BCb zero_cb) = true ->
    (exists h, k_kzalloc h (BCtxs (replicate (length l) zero_ctx)) = false) ->
    heap w' = heap w -> child_bound lcb ci (next w) w w' ->
    clone_result w lcb l ci w' NULL
| clone_made :
    heap w' = <[next w + 1 := BCtxs l]>
                (<[next w := BCb (cloned lcb (next w + 1))]> (heap w)) ->
    child_bound lcb ci (next w) w w' ->
    next w' = next w + 2 -> clone_result w lcb l ci w' (next w).

(** The state when [i] contexts have been copied. *)
Record copying (w : world) (lcb : rdma_ch_cb) (l : list msgbuf_ctx) (ci : cm_state)
    (i : Z) (w' : world) : Prop := {
  cp_heap : heap w' =
    <[next w + 1 := BCtxs (take (Z.to_nat i) l
        ++ replicate (Z.to_nat (cb_msgbuf_cnt lcb - i)) zero_ctx)]>
      (<[next w := BCb (cloned lcb (next w + 1))]> (heap w));
  cp_child : child_bound lcb ci (next w) w w';
  cp_next : next w' = next w + 2 }.

Lemma copying_ctx l cnt i c c0 :
  Z.of_nat (length l) = cnt -> ctx_at l i = Some c ->
  ctx_at (take (Z.to_nat i) l ++ replicate (Z.to_nat (cnt - i)) c0) i = Some c0
  /\ <[Z.to_nat i := c]> (take (Z.to_nat i) l ++ replicate (Z.to_nat (cnt - i)) c0)
     = take (Z.to_nat (i + 1)) l ++ replicate (Z.to_nat (cnt - (i + 1))) c0.
Proof.
  intros Hlen Hat. rewrite (take_next l i c Hat). apply ctx_at_Some in Hat as [Hi Hc].
  pose proof (lookup_lt_Some _ _ _ Hc).
  assert (Hn : length (take (Z.to_nat i) l) = Z.to_nat i) by (rewrite length_take; lia).
  replace (Z.to_nat (cnt - i)) with (S (Z.to_nat (cnt - (i + 1)))) by lia.
  cbn [replicate]. split.
  - apply ctx_at_Some. split; [done|]. rewrite lookup_app_r by lia. by rewrite Hn, Nat.sub_diag.
  - rewrite insert_app_r_alt by lia. rewrite Hn, Nat.sub_diag. cbn. by rewrite <- app_assoc.
Qed.

Lemma wp_clone_cb w lcba lcb l ci (Q : addr -> world -> Prop) :
  chan_at w lcba lcb l -> child_at w lcb ci -> fresh_ok w ->
  (forall r w', clone_result w lcb l ci w' r -> Q r w') ->
  wp Total (clone_cb lcba) Q w.
Proof.
  intros [Hcb Hl Hlen] Hci [Hpos Hfree] HQ.
  assert (Hlt : lcba < next w) by (apply Z.nle_gt; intros ?; by rewrite Hfree in Hcb).
  assert (Hlt2 : cb_buf_ctxs lcb < next w) by (apply Z.nle_gt; intros ?; by rewrite Hfree in Hl).
  unfold clone_cb. wp_step. apply wp_kzalloc; intros Ha;
    [|wp_steps; by apply HQ, clone_no_cb].
  rewrite not_null by done. do 3 wp_step. unfold child_at in Hci. do 5 wp_step.
  do 4 wp_step.
  unfold kzalloc_ctxs. wp_step. apply wp_kzalloc_size; [|lia].
  intros _. apply wp_kzalloc; intros Hb; wsimpl; cycle 1.
  { do 2 wp_step. apply wp_bind. eapply wp_kfree; [heap_lookup|]. wp_step.
    apply HQ, clone_no_ctxs; [done| | |done].
    { eexists. by rewrite <- Hlen, Nat2Z.id in Hb. }
    wsimpl.
    rewrite !insert_insert_eq, delete_insert_id; [done|by apply Hfree]. }
  do 2 wp_step. rewrite not_null by lia. wp_step.
  eapply (wp_for_each (fun i w1 => copying w lcb l ci i w1)).
  - split; wsimpl; [|done|lia]. cbn [take app]. rewrite Z.sub_0_r. heap_ext.
  - intros i w1 Hi [Hh Hch Hn]. destruct (ctx_at_lt l i) as [c Hc]; [lia|].
    destruct (copying_ctx l (cb_msgbuf_cnt lcb) i c zero_ctx Hlen Hc) as [Hz Hins].
    wp_step. eapply wp_load_ctx; [rewrite Hh; heap_lookup|exact Hc|].
    eapply wp_update_ctx; [rewrite Hh; heap_lookup|exact Hz|reflexivity|].
    split; wsimpl; [|exact Hch|exact Hn]. rewrite Hins, Hh. apply insert_insert_eq.
  - intros w1 [Hh Hch Hn]. wp_step. apply HQ, clone_made; [|done|done].
    rewrite Hh, Z.add_0_l, Z2Nat.id, <- Hlen, Z.sub_diag, Nat2Z.id, firstn_all by lia.
    by rewrite app_nil_r.
Qed.

(** A copy is undone by [kfree_cb], up to the child's binding to it. *)
Lemma wp_clone_kfree_cb w lcba lcb l ci (Q : unit -> world -> Prop) :
  (forall h b, k_kzalloc h b = true) ->
  chan_at w lcba lcb l -> child_at w lcb ci -> fresh_ok w ->
  (forall w', heap w' = heap w -> child_bound lcb ci (next w) w w' -> Q tt w') ->
  wp Total (cba ← clone_cb lcba; kfree_cb cba) Q w.
Proof.
  intros Ha Hch Hci Hf HQ. wp_step. eapply wp_clone_cb; [done..|].
  pose proof Hf as [Hpos Hfree].
  intros r w1 Hr. destruct Hr as [Hno|Hok [h Hno] Hh Hb|Hh Hb Hn];
    [by rewrite Ha in Hno..|].
  unfold kfree_cb. wp_step. eapply wp_load; [rewrite Hh; heap_lookup|]. wp_step.
  change (cb_buf_ctxs (cloned lcb (next w + 1))) with (next w + 1).
  eapply wp_kfree; [rewrite Hh; heap_lookup|].
  eapply wp_kfree; [wsimpl; rewrite Hh; heap_lookup|].
  apply HQ; [|done]. wsimpl. rewrite Hh, !delete_insert_id; [done|apply Hfree; lia|].
  rewrite lookup_insert_ne by lia. apply Hfree; lia.
Qed.

(** Without memory for the contexts the copy is freed, but the child id is
    still bound to it: whatever event it receives next is handled on the freed
    control block. *)
Lemma clone_failure_dangles w lcba lcb l ci ev w' :
  chan_at w lcba lcb l -> child_at w lcb ci -> fresh_ok w ->
  k_kzalloc (trace w) (BCb zero_cb) = true ->
  clone_cb lcba w = Ok NULL w' ->
  cma_event_handler (cb_child_cm_id lcb) ev w' = Undef (BadAddress (next w)).
Proof.
  intros Hch Hci Hf Hok Hrun. pose proof Hf as [Hpos Hfree].
  assert (Hr : clone_result w lcb l ci w' NULL).
  { eapply (wp_run _ (fun r w1 => clone_result w lcb l ci w1 r)); [|exact Hrun].
    eapply wp_clone_cb; eauto. }
  inversion Hr as [Hno|_ _ Hh Hb|Hh Hb Hn Heq]; [congruence| |unfold NULL in *; lia].
  unfold child_bound in Hb. unfold cma_event_handler. apply fault_bind. do 3 wp_step.
  wp_step; [rewrite Hb; apply lookup_insert_eq|].
  apply bind_undef. cbn [cm_context]. unfold load, peek, access_fault.
  rewrite Hh, Hfree by lia. cbn. by rewrite not_null.
Qed.
End Clone.
