(* ===== verification/RdmaCh.v ===== *)
(** * RdmaCh: the life of a channel ([rdma.c])

    [run_client], [init_rdma_ch] and [destroy_rdma_client], on top of the
    connection management of [RdmaCm] and of the contracts of [RdmaBufs]. *)
From stdpp Require Import gmultiset.
From S2P Require Import Prelude Types Kernel Logic Wait Verbs Within Frame Wire RdmaIo RdmaCm RdmaMem.
From S2P Require Import RdmaBufs.

Section Ch.
Context {K : Kernel} {R : RpcHandler}.

(** The loop of [run_client] that posts a receive for every buffer:
    [Some ret] is [goto err2]. *)
Definition post_recvs (cba : addr) : M (option Z) :=
  cb ← load (T := rdma_ch_cb) cba;
  for_loop (Z.to_nat (cb_msgbuf_cnt cb)) 0 (fun i =>
    c ← load_ctx (cb_buf_ctxs cb) i;
    ret ← ib_post_recv (cb_qp cb) (rq_wr c);
    if negb (ret =? 0) then mret (Some ret) else mret None).

(** The labels [err1] and [err2] of [run_client]. *)
Definition run_client_err1 (cba : addr) (ret : Z) : M Z := kfree_qp cba;; mret ret.
Definition run_client_err2 (cba : addr) (ret : Z) : M Z :=
  kfree_buffers cba;; run_client_err1 cba ret.

Definition run_client (cba : addr) : M Z :=
  ret ← bind_client cba;
  if negb (ret =? 0) then mret ret else
  cb ← load (T := rdma_ch_cb) cba;
  ret ← setup_qp cba (cb_cm_id cb);
  if negb (ret =? 0) then mret ret else
  ret ← setup_buffers cba;
  if negb (ret =? 0) then run_client_err1 cba ret else
  r ← post_recvs cba;
  match r with
  | Some ret => run_client_err2 cba ret
  | None =>
      ret ← connect_client cba;
      if negb (ret =? 0) then run_client_err2 cba ret else mret 0
  end.

(** The part of [init_rdma_ch] before the id is created: a filled-in control
    block, or [NULL]. *)
Definition init_ch_cb (attr : rdma_ch_attr) : M addr :=
  cba ← kzalloc zero_cb;
  if cba =? NULL then mret NULL else
  update cba (fun cb => cb <| cb_msgbuf_cnt := at_msgbuf_cnt attr |>);;
  update cba (fun cb => cb <| cb_msgheader_size := msgheader_size |>);;
  update cba (fun cb => cb <| cb_msgdata_size := at_msgdata_size attr |>);;
  update cba (fun cb => cb <| cb_msgbuf_size := msgbuf_size (at_msgdata_size attr) |>);;
  update cba (fun cb => cb <| cb_rpc_msg_handler_cb := at_rpc_msg_handler_cb attr |>);;
  update cba (fun cb => cb <| cb_user_msg_handler_cb := at_user_msg_handler_cb attr |>);;
  ctxs ← kzalloc_ctxs (at_msgbuf_cnt attr);
  update cba (fun cb => cb <| cb_buf_ctxs := ctxs |>);;
  if ctxs =? NULL then kfree cba;; mret NULL else
  for_ctxs cba (fun cb i =>
    update_ctx (cb_buf_ctxs cb) i (fun c => c <| mc_id := i |>);;
    update_ctx (cb_buf_ctxs cb) i (fun c => c <| mc_seqn := 1 |>));;
  update cba (fun cb => cb <| cb_server := at_server attr |>);;
  update cba (fun cb => cb <| cb_state := IDLE |>);;
  update cba (fun cb => cb <| cb_size := cb_msgbuf_size cb |>);;
  update cba (fun cb => cb <| cb_sin := (cb_sin cb) <| ss_family := AF_INET |> |>);;
  update cba (fun cb => cb <| cb_port := htons k_big_endian (at_port attr) |>);;
  (if at_server attr =? 0 then
     sin ← from_option OutOfBounds (fill_sockaddr (at_ip_addr attr) (at_port attr));
     update cba (fun cb => cb <| cb_sin := sin |>)
   else mret tt);;
  mret cba.

(** The labels [out2] and [out1] of [init_rdma_ch]. *)
Definition init_out2 (cba : addr) : M addr :=
  cb ← load (T := rdma_ch_cb) cba; kfree (cb_buf_ctxs cb);; kfree cba;; mret NULL.
Definition init_out1 (cba : addr) : M addr :=
  cb ← load (T := rdma_ch_cb) cba; rdma_destroy_id (cb_cm_id cb);; init_out2 cba.

Definition init_rdma_ch (attr : rdma_ch_attr) : M addr :=
  cba ← init_ch_cb attr;
  if cba =? NULL then mret NULL else
  id ← rdma_create_id cba;
  update cba (fun cb => cb <| cb_cm_id := id |>);;
  if IS_ERR id then init_out2 cba else
  if negb (at_server attr =? 0) then init_out1 cba else
  run_client cba;; mret cba.

Definition destroy_rdma_client (cba : addr) : M unit :=
  cb ← load (T := rdma_ch_cb) cba;
  if negb (cb_server cb =? 0) then mret tt else
  rdma_disconnect (cb_cm_id cb);;
  kfree_buffers cba;;
  kfree_qp cba;;
  cb ← load (T := rdma_ch_cb) cba;
  rdma_destroy_id (cb_cm_id cb);;
  kfree (cb_buf_ctxs cb);;
  kfree cba.
End Ch.

(** ** The initialised channel *)

(** The target address that [init_rdma_ch] records. *)
Definition init_sin (attr : rdma_ch_attr) : option sockaddr :=
  if at_server attr =? 0 then fill_sockaddr (at_ip_addr attr) (at_port attr)
  else Some {| ss_family := AF_INET; sin_port := 0; sin_addr := [0; 0; 0; 0] |}.

(** The context number [j] before any buffer is allocated. *)
Definition init_ctx (j : nat) (c0 c : msgbuf_ctx) : Prop :=
  c = c0 <| mc_id := Z.of_nat j |> <| mc_seqn := 1 |>.
Definition zero_ctxs (attr : rdma_ch_attr) : list msgbuf_ctx :=
  replicate (Z.to_nat (at_msgbuf_cnt attr)) zero_ctx.

Section Init.
Context {K : Kernel}.

Definition client_cb (attr : rdma_ch_attr) (ctxs : addr) (sin : sockaddr) (id : kptr)
    : rdma_ch_cb :=
  {| cb_server := at_server attr; cb_cq := KPtr NULL; cb_pd := KPtr NULL; cb_qp := NULL;
     cb_msgbuf_cnt := at_msgbuf_cnt attr;
     cb_msgbuf_size := msgbuf_size (at_msgdata_size attr);
     cb_msgheader_size := msgheader_size; cb_msgdata_size := at_msgdata_size attr;
     cb_buf_ctxs := ctxs; cb_rpc_msg_handler_cb := at_rpc_msg_handler_cb attr;
     cb_user_msg_handler_cb := at_user_msg_handler_cb attr; cb_state := IDLE;
     cb_sin := sin; cb_port := htons k_big_endian (at_port attr);
     cb_size := msgbuf_size (at_msgdata_size attr); cb_cm_id := id;
     cb_child_cm_id := KPtr NULL |}.

(** The memory with the channel's two blocks, at [p] and [p + 1]. *)
Definition put_channel (p : addr) (cb : rdma_ch_cb) (l : list msgbuf_ctx)
    (h : gmap addr block) : gmap addr block :=
  <[p := BCb cb]> (<[p + 1 := BCtxs l]> h).

(** The loop that numbers the contexts. *)
Lemma wp_number_ctxs t w cba cb l0 (Q : unit -> world -> Prop) :
  heap w !! cba = Some (BCb cb) -> heap w !! cb_buf_ctxs cb = Some (BCtxs l0) ->
  cba <> cb_buf_ctxs cb -> Z.of_nat (length l0) = cb_msgbuf_cnt cb ->
  (forall l w', done_upto (cb_msgbuf_cnt cb) init_ctx l0 l ->
     heap w' = <[cb_buf_ctxs cb := BCtxs l]> (heap w) -> same_but_heap w w' -> Q tt w') ->
  wp t (for_ctxs cba (fun cb i =>
    update_ctx (cb_buf_ctxs cb) i (fun c => c <| mc_id := i |>);;
    update_ctx (cb_buf_ctxs cb) i (fun c => c <| mc_seqn := 1 |>))) Q w.
Proof.
  intros Hcb Hl Hne Hlen HQ. eapply (wp_for_ctxs _ _ cb l0
    (fun _ l w' => heap w' = <[cb_buf_ctxs cb := BCtxs l]> (heap w) /\ same_but_heap w w')
    init_ctx); [done|done| | |].
  - split; [|done]. by rewrite insert_id.
  - intros i l c0 w2 Hi Hd Hc0 Hc [Hh2 Hr].
    assert (Hl2 : heap w2 !! cb_buf_ctxs cb = Some (BCtxs l))
      by (rewrite Hh2; apply lookup_insert_eq).
    wp_step. wp_step. wp_step; [by eapply ctx_at_insert|]. eexists. split; cycle 1.
    + split; [|done]. wsimpl. by rewrite insert_insert_eq, Hh2, insert_insert_eq.
    + rewrite list_insert_insert_eq. eapply done_upto_step; [done|done|].
      unfold init_ctx. rewrite Z2Nat.id by lia. by destruct c0.
  - intros l w2 Hd [Hh2 Hr]. by eapply HQ.
Qed.

Lemma wp_init_ch_cb t attr sin w (Q : addr -> world -> Prop) :
  (forall h b, k_kzalloc h b = true) -> fresh_ok w -> 0 <= at_msgbuf_cnt attr ->
  init_sin attr = Some sin ->
  (forall l w1, done_upto (at_msgbuf_cnt attr) init_ctx (zero_ctxs attr) l ->
     heap w1 = put_channel (next w) (client_cb attr (next w + 1) sin (KPtr NULL)) l (heap w) ->
     next w1 = next w + 2 -> sched w1 = sched w -> objs w1 = objs w -> Q (next w) w1) ->
  wp t (init_ch_cb attr) Q w.
Proof.
  intros Ha [Hpos Hfree] Hcnt Hsin HQ. unfold init_ch_cb.
  wp_step. apply wp_kzalloc; [intros _|by rewrite Ha].
  rewrite (proj2 (Z.eqb_neq _ _)) by (unfold NULL; lia).
  do 12 wp_step. wp_step. unfold kzalloc_ctxs, kzalloc_size.
  rewrite (proj2 (Z.ltb_ge _ _)) by lia.
  apply wp_kzalloc; [intros _|by rewrite Ha]. wsimpl. do 2 wp_step.
  rewrite (proj2 (Z.eqb_neq _ _)) by (unfold NULL; lia). rec_simpl. wp_step.
  match goal with |- wp _ (for_ctxs _ _) _ ?w => set (w1 := w) end.
  eassert (Hcb : heap w1 !! next w = Some (BCb _)) by (unfold w1; heap_lookup).
  lazymatch type of Hcb with _ = Some (BCb ?c) => set (cb0 := c) in * end.
  assert (Hh : heap w1 = put_channel (next w) cb0 (zero_ctxs attr) (heap w))
    by (unfold w1, put_channel, zero_ctxs; heap_ext).
  assert (Hl : heap w1 !! (next w + 1) = Some (BCtxs (zero_ctxs attr)))
    by (rewrite Hh; unfold put_channel; heap_lookup).
  assert (Hh' : forall l w', heap w' = <[next w + 1 := BCtxs l]> (heap w1) ->
    heap w' = put_channel (next w) cb0 l (heap w)).
  { intros l w' ->. rewrite Hh. unfold put_channel. heap_ext. }
  eapply (wp_number_ctxs _ _ _ cb0); [done|done|change (next w <> next w + 1); lia|
    unfold zero_ctxs; rewrite length_replicate; cbn; lia|].
  intros l w2 Hd Hh2 (Hn & Hs & Ho). apply Hh' in Hh2.
  assert (Hcb2 : heap w2 !! next w = Some (BCb cb0))
    by (rewrite Hh2; apply lookup_insert_eq).
  unfold cb0 in Hcb2. do 10 wp_step. wp_step.
  assert (Hq : forall sin' w', sin' = sin ->
    heap w' = <[next w := BCb (client_cb attr (next w + 1) sin' (KPtr NULL))]> (heap w2) ->
    same_but_heap w2 w' -> Q (next w) w').
  { intros sin' w' -> Hh3 (Hn3 & Hs3 & Ho3). apply (HQ l); [done|..].
    - rewrite Hh3, Hh2. apply insert_insert_eq.
    - rewrite Hn3, Hn. unfold w1. wsimpl. lia.
    - by rewrite Hs3, Hs.
    - by rewrite Ho3, Ho. }
  unfold init_sin in Hsin. destruct (at_server attr =? 0) eqn:Esv.
  - do 4 wp_step. apply (Hq sin); [done| |done].
    wsimpl. rewrite !insert_insert_eq. reflexivity.
  - do 2 wp_step. injection Hsin as <-. eapply Hq; [done| |done].
    wsimpl. rewrite !insert_insert_eq. reflexivity.
Qed.
End Init.

(** ** Setting a channel up *)

(** A kernel whose calls succeed up to the posting of the receives. *)
Record reliable (K : Kernel) : Prop := {
  rl_alloc : forall h b, k_kzalloc h b = true;
  rl_dma : forall h d a n, dma_failed (k_dma_map h d a n) = false;
  rl_pd : forall h d, IS_ERR (k_alloc_pd h d) = false;
  rl_cq : forall h d c, IS_ERR (k_create_cq h d c) = false;
  rl_notify : forall h cq, k_req_notify_cq h cq = 0;
  rl_qp : forall h id pd a, fst (k_create_qp h id pd a) = 0;
  rl_addr : forall h id sin, k_resolve_addr h id sin = 0;
  rl_route : forall h id, k_resolve_route h id = 0 }.

(** The channel [cba] of [w], with control block [cb], set up in [w2]. *)
Record set_up (w : world) (cba : addr) (cb : rdma_ch_cb) (l : list msgbuf_ctx)
    (cb2 : rdma_ch_cb) (w2 : world) : Prop := {
  su_cb : exists pd cq qp st, cb2 =
    with_state st (with_port cb) <| cb_pd := pd |> <| cb_cq := cq |> <| cb_qp := qp |>;
  su_chan : chan_at w2 cba cb2 l;
  su_owned : bufs_owned w2 cba cb2 l;
  su_frame : forall a, a <> cba -> a <> cb_buf_ctxs cb -> a ∉ ctx_bufs l ->
    heap w2 !! a = heap w !! a;
  su_new : forall a, a ∈ ctx_bufs l -> heap w !! a = None;
  su_fresh : fresh_ok w2;
  su_pds : pds w2 = {[cb_pd cb2]} ∪ pds w;
  su_cqs : cqs w2 = <[cb_cq cb2 := {| cq_context := cba; cq_polls := [] |}]> (cqs w);
  su_qps : qps w2 = {[cb_qp cb2]} ∪ qps w;
  su_handles : (cb_pd cb2 ∉ pds w) /\ cqs w !! cb_cq cb2 = None /\ (cb_qp cb2 ∉ qps w);
  su_dmas : dmas w2 = list_to_set_disj (ctx_maps l) ⊎ dmas w;
  su_cms : exists i, cms w !! cb_cm_id cb = Some i /\ cm_context i = cba /\
    cms w2 = <[cb_cm_id cb := i <| cm_qp := cb_qp cb2 |>]> (cms w);
  su_errno : errno w2 = errno w;
  su_bufs : forall a, a ∈ ctx_bufs l -> exists b, heap w2 !! a = Some (BBytes b)
    /\ length b = Z.to_nat (cb_msgbuf_size cb) }.

Lemma same_but_heap_objs w w' : same_but_heap w w' ->
  next w' = next w /\ sched w' = sched w /\ cms w' = cms w /\ cqs w' = cqs w
  /\ pds w' = pds w /\ qps w' = qps w /\ dmas w' = dmas w /\ errno w' = errno w.
Proof. intros (? & ? & ?%objs_inv). naive_solver. Qed.

(** A channel that is set up stays so when only its state changes. *)
Lemma set_up_state w cba cb l cb2 w2 st w3 :
  set_up w cba cb l cb2 w2 -> heap w3 = <[cba := BCb (with_state st cb2)]> (heap w2) ->
  next w3 = next w2 -> objs w3 = objs w2 -> set_up w cba cb l (with_state st cb2) w3.
Proof.
  intros [(pd & cq & qp & st0 & ->) [Hcb Hl Hlen] [Hnd Hlive Hap] Hfr Hnew [Hpos Hfree]
    Hp Hc Hq Hh Hd Hcm He Hz] Hh3 Hn (Ecm & Ecq & Epd & Eqp & Edm & Eer)%objs_inv.
  assert (Hne : cba <> cb_buf_ctxs cb) by (cbn in *; congruence).
  split; rewrite ?Ecm, ?Ecq, ?Epd, ?Eqp, ?Edm, ?Eer; try done.
  - by exists pd, cq, qp, st.
  - split; [rewrite Hh3; apply lookup_insert_eq| |done].
    rewrite Hh3, lookup_insert_ne; [done|]. exact Hne.
  - split; [done| |done]. intros a Ha. rewrite Hh3. apply lookup_insert_is_Some'. auto.
  - intros a H1 H2 H3. rewrite Hh3, lookup_insert_ne by done. by apply Hfr.
  - split; [by rewrite Hn|]. intros a Ha. rewrite Hn in Ha. rewrite Hh3, lookup_insert_ne; [auto|].
    intros ->. by rewrite Hfree in Hcb.
  - intros a Ha. rewrite Hh3, lookup_insert_ne; [by apply Hz|]. intros ->. by destruct Hap.
Qed.

Lemma set_up_same w cba cb l cb2 w2 w3 :
  set_up w cba cb l cb2 w2 -> heap w3 = heap w2 -> next w3 = next w2 ->
  objs w3 = objs w2 -> set_up w cba cb l cb2 w3.
Proof.
  intros Hs Hh Hn Ho. rewrite <- (with_state_id cb2).
  eapply set_up_state; [done| |done|done].
  rewrite with_state_id, Hh. symmetry. apply insert_id, Hs.
Qed.

Section Run_client.
Context {K : Kernel} {R : RpcHandler} (HK : reliable K).

Lemma fresh_objs_new h id cba w : new_handles K w -> fresh_objs h id cba w.
Proof. intros [Hp Hc Hq]. split; [apply Hp|apply Hc|apply Hq]. Qed.

Lemma qp_created_reliable h id cba : qp_created h id cba = true.
Proof.
  unfold qp_created, qa_pd, qa_cq, qa_notify, qa_qp.
  by rewrite (rl_pd _ HK), (rl_cq _ HK), (rl_notify _ HK), (rl_qp _ HK).
Qed.

(** The rest of [run_client] once the buffers are ready. *)
Definition run_client_rest (cba : addr) : M Z :=
  r ← post_recvs cba;
  match r with
  | Some ret => run_client_err2 cba ret
  | None =>
      ret ← connect_client cba;
      if negb (ret =? 0) then run_client_err2 cba ret else mret 0
  end.

(** A client channel before [run_client], the address and route about to
    resolve. *)
Record client_at (w : world) (cba : addr) (cb : rdma_ch_cb) (l0 : list msgbuf_ctx)
    (s : list async) : Prop := {
  cl_chan : chan_at w cba cb l0;
  cl_ready : cm_ready w cba cb
    (ACm (cb_cm_id cb) RDMA_CM_EVENT_ADDR_RESOLVED ::
     ACm (cb_cm_id cb) RDMA_CM_EVENT_ROUTE_RESOLVED :: s);
  cl_client : cb_server cb = 0;
  cl_state : (cb_state cb >=s ROUTE_RESOLVED) = false;
  cl_size : 0 <= cb_msgbuf_size cb;
  cl_fresh : fresh_ok w }.

(** Address resolution and the making of the queue pair, composed: the events
    up to [s] have gone. *)
Lemma qp_ready_after w cba cb cb1 s cb2 w1 w2 :
  heap w !! cba = Some (BCb cb) -> cm_done w cba cb1 s w1 ->
  qp_ready w1 cba cb1 cb2 w2 -> qp_ready (set_sched s w) cba cb1 cb2 w2.
Proof.
  intros Hcb [[_ _ Hs1] Hh1 _ [Hn1 Ho1]] [Hcb2 Hh2 Hp2 Hc2 Hq2 Hf2 Hcm2 Hr2 (Hn2 & Hs2 & Hd2 & He2)].
  pose proof (objs_inv _ _ Ho1) as (Ecm & Ecq & Epd & Eqp & Edm & Eer).
  rewrite Ecq, Epd, Eqp in *. rewrite Ecm in *.
  split; wsimpl; try done; [|repeat split; congruence].
  rewrite Hh2, Hh1. apply insert_insert_eq.
Qed.

Lemma qp_ready_chan s w cba cb st cb2 l0 w2 :
  chan_at w cba cb l0 -> fresh_ok w ->
  qp_ready (set_sched s w) cba (with_state st (with_port cb)) cb2 w2 ->
  chan_at w2 cba cb2 l0 /\ fresh_ok w2.
Proof.
  intros [Hcb Hl0 Hlen] [Hpos Hfree] [(pd & cq & qp & ->) Hh _ _ _ _ _ _ (Hn & _)].
  wsimpl in *. assert (Hne : cba <> cb_buf_ctxs cb) by congruence. split.
  - split; rewrite ?Hh; [apply lookup_insert_eq| |done]. by rewrite lookup_insert_ne.
  - split; [by rewrite Hn|]. rewrite Hn, Hh. intros a Ha.
    rewrite lookup_insert_ne; [auto|]. intros ->. by rewrite Hfree in Hcb.
Qed.

(** The channel is set up once its buffers are ready. *)
Lemma ready_set_up s w cba cb st i cb2 l0 l w2 w3 :
  chan_at w cba cb l0 -> fresh_ok w ->
  cms w !! cb_cm_id cb = Some i -> cm_context i = cba ->
  qp_ready (set_sched s w) cba (with_state st (with_port cb)) cb2 w2 ->
  buffers_ready w2 cb2 l0 l w3 -> set_up w cba cb l cb2 w3.
Proof.
  intros Hch Hf Hi Hic Hqr Hbr.
  destruct (qp_ready_chan _ _ _ _ _ _ _ _ Hch Hf Hqr) as [Hch2 Hf2].
  pose proof (ready_chan _ _ _ _ _ _ Hch2 Hf2 Hbr) as Hch3.
  pose proof (ready_owned _ _ _ _ _ _ Hch2 Hf2 Hbr) as Hown.
  pose proof (ready_bufs _ _ _ _ _ _ Hch2 Hbr) as Hseq.
  destruct Hbr as [Hl3 Hr3 Hb3 Hf3 Hn3 Hs3 Hd3 Ho3].
  unfold objs in Ho3. wsimpl in Ho3. injection Ho3 as Ecm3 Ecq3 Epd3 Eqp3 Eer3.
  destruct Hqr as [(pd & cq & qp & Hcb2) Hh2 Hp2 Hc2 Hq2 Hfr2 (i2 & Hi2 & Hcm2) _
    (Hn2 & _ & Hd2 & He2)]. wsimpl in *.
  assert (Hin : forall a, a ∈ ctx_bufs l <->
    next w2 <= a < next w2 + 2 * cb_msgbuf_cnt cb2) by (intros a; rewrite Hseq; apply elem_of_seqZ).
  assert (Hbufs : cb_buf_ctxs cb2 = cb_buf_ctxs cb) by by rewrite Hcb2.
  destruct Hf as [Hpos Hfree], Hf2 as [Hpos2 Hfree2]. pose proof (ca_len _ _ _ _ Hch2) as Hlen.
  split; try done; try congruence.
  - by exists pd, cq, qp, st.
  - intros a H1 H2 H3. rewrite Hin in H3. rewrite Hf3, Hh2, lookup_insert_ne; try done.
    by rewrite Hbufs.
  - intros a Ha%Hin. apply Hfree. lia.
  - split; [lia|]. intros a Ha. rewrite Hf3; [apply Hfree2; lia| |lia].
    intros ->. destruct Hch2 as [_ Hl2 _]. rewrite Hfree2 in Hl2; [done|lia].
  - exists i2. change (cms w !! cb_cm_id cb = Some i2) in Hi2.
    split; [done|]. split; [congruence|]. by rewrite Ecm3, Hcm2.
  - intros a Ha%Hin. eexists. split; [by apply Hb3|]. unfold zeros.
    by rewrite length_replicate, Hcb2.
Qed.

Lemma wp_run_client_setup t w cba cb l0 s (Q : Z -> world -> Prop) :
  client_at w cba cb l0 s -> new_handles K w ->
  (forall l cb2 w2, set_up w cba cb l cb2 w2 -> cb_state cb2 = ROUTE_RESOLVED ->
     done_upto (cb_msgbuf_cnt cb) (ready_ctx cb2 (next w)) l0 l -> sched w2 = s ->
     recvs (cb_qp cb2) (cb_cq cb2) w2 = ([], O) ->
     wp t (run_client_rest cba) Q w2) ->
  wp t (run_client cba) Q w.
Proof.
  intros [Hch Hrd Hsv Hst Hsz Hf] Hnew HQ. pose proof Hrd as [Hcb (i & Hi & Hic) _].
  destruct (bind_client_ok w cba cb s Hrd Hst (rl_addr _ HK _ _ _) (rl_route _ HK _ _))
    as (w1 & Hr1 & Hd1). pose proof Hd1 as [[Hcb1 (i1 & Hi1 & _) _] _ _ [_ Ho1]].
  set (cb1 := with_state ROUTE_RESOLVED (with_port cb)) in *.
  unfold run_client. wp_step. eapply wp_of_run; [exact Hr1|].
  change (negb (0 =? 0)) with false. cbv iota. do 3 wp_step.
  apply (wp_setup_qp _ w1 cba cb1 i1); [done|done|done| |
    |by rewrite qp_created_reliable].
  { by apply fresh_objs_new, (new_handles_objs w). }
  intros _ cb2 w2 Hqr%(qp_ready_after _ _ _ _ _ _ _ _ Hcb Hd1).
  change (negb (0 =? 0)) with false. cbv iota. wp_step.
  destruct (qp_ready_chan _ _ _ _ _ _ _ _ Hch Hf Hqr) as [Hch2 Hf2].
  pose proof Hqr as [(pd & cq & qp & Hcb2) _ Hp2 _ _ _ _ Hr2 (Hn2 & Hs2 & _)].
  eapply wp_within; [apply recvs_setup_buffers|].
  eapply (wp_setup_buffers (rl_alloc _ HK) _ w2 cba cb2 l0);
    [apply HK|done|by rewrite Hcb2|done|rewrite Hp2; set_solver|].
  intros l w3 Hbr Hv3. change (negb (0 =? 0)) with false. cbv iota.
  apply (HQ l cb2 w3); [by eapply ready_set_up|by rewrite Hcb2| | |].
  - destruct Hbr as [_ Hr3 _ _ _ _ _ _]. rewrite Hn2 in Hr3. wsimpl in *. by rewrite Hcb2 in *.
  - destruct Hbr as [_ _ _ _ _ Hs3 _ _]. by rewrite Hs3, Hs2.
  - rewrite <- Hr2. by apply (f_equal (fun f => f (cb_qp cb2) (cb_cq cb2))) in Hv3.
Qed.
End Run_client.

(** ** Tearing a channel down *)

Section Teardown.
Context {K : Kernel} {R : RpcHandler}.

(** What [kfree_buffers] and [kfree_qp] leave of a channel that was set up:
    its control block, its contexts and its id. *)
Record released (w : world) (cba : addr) (cb : rdma_ch_cb) (l : list msgbuf_ctx)
    (cb2 : rdma_ch_cb) (w2 w3 : world) : Prop := {
  re_cb : heap w3 !! cba = Some (BCb cb2);
  re_ctxs : heap w3 !! cb_buf_ctxs cb2 = Some (BCtxs l);
  re_frame : forall a, a <> cba -> a <> cb_buf_ctxs cb -> heap w3 !! a = heap w !! a;
  re_pds : pds w3 = pds w;
  re_cqs : cqs w3 = cqs w;
  re_qps : qps w3 = qps w;
  re_dmas : dmas w3 = dmas w;
  re_rest : cms w3 = cms w2 /\ errno w3 = errno w2 /\ next w3 = next w2
    /\ sched w3 = sched w2 }.

Lemma set_up_ctxs w cba cb l cb2 w2 : set_up w cba cb l cb2 w2 ->
  cb_buf_ctxs cb2 = cb_buf_ctxs cb /\ cb_cm_id cb2 = cb_cm_id cb
  /\ cb_server cb2 = cb_server cb /\ cb_msgbuf_cnt cb2 = cb_msgbuf_cnt cb.
Proof. by intros [(pd & cq & qp & st & ->) _ _ _ _ _ _ _ _ _ _ _ _]. Qed.

Lemma wp_release {A} t w cba cb l cb2 w2 (f : unit -> M A) (Q : A -> world -> Prop) :
  set_up w cba cb l cb2 w2 ->
  (forall w3, released w cba cb l cb2 w2 w3 -> wp t (f tt) Q w3) ->
  wp t (kfree_buffers cba;; kfree_qp cba ≫= f) Q w2.
Proof.
  intros Hsu HQ. destruct (set_up_ctxs _ _ _ _ _ _ Hsu) as (Hbufs & _ & _ & Hcnt).
  destruct Hsu as [_ Hch Hown Hfr Hnew _ Hp Hc Hq (Fp & Fc & Fq) Hd _ _].
  pose proof Hch as [Hcb Hl Hlen]. pose proof Hown as [_ _ [Hac Hax]].
  wp_step. eapply (wp_kfree_buffers _ _ _ cb2 l); [done|rewrite Hp; set_solver|done|].
  intros w3 [Hh3 Hd3 (Hn3 & Hs3 & Ho3)]. wp_step.
  unfold objs in Ho3. wsimpl in Ho3. injection Ho3 as Ecm Ecq Epd Eqp Eer.
  assert (Htk : take (Z.to_nat (cb_msgbuf_cnt cb2)) l = l) by (apply take_ge; lia).
  unfold without_bufs in Hh3. rewrite Htk in Hh3, Hd3.
  assert (Hcb3 : heap w3 !! cba = Some (BCb cb2)) by by rewrite Hh3, decide_False.
  eapply (wp_kfree_qp _ _ _ cb2); [done|rewrite Eqp, Hq; set_solver
    |rewrite Ecq, Hc; eexists; apply lookup_insert_eq|rewrite Epd, Hp; set_solver|].
  intros w4 Hh4 Hq4 Hc4 Hp4 Hcm4 Hd4 He4 Hn4 Hs4. apply HQ.
  split; rewrite ?Hh4, ?Hq4, ?Hc4, ?Hp4, ?Hcm4, ?Hd4, ?He4, ?Hn4, ?Hs4.
  - done.
  - by rewrite Hh3, decide_False.
  - intros a H1 H2. rewrite Hh3. case_decide as Hin; [symmetry; auto|auto].
  - by rewrite Epd, Hp, gset_undo.
  - by rewrite Ecq, Hc, delete_insert_id.
  - by rewrite Eqp, Hq, gset_undo.
  - rewrite Hd3, Hd. apply gmultiset_eq. intros x.
    rewrite multiplicity_difference, multiplicity_disj_union. lia.
  - done.
Qed.

(** After [destroy_rdma_client] nothing is left of the channel. *)
Record destroyed (w : world) (cba : addr) (cb : rdma_ch_cb) (w2 w3 : world) : Prop := {
  de_heap : heap w3 = delete cba (delete (cb_buf_ctxs cb) (heap w));
  de_pds : pds w3 = pds w;
  de_cqs : cqs w3 = cqs w;
  de_qps : qps w3 = qps w;
  de_dmas : dmas w3 = dmas w;
  de_cms : cms w3 = delete (cb_cm_id cb) (cms w);
  de_rest : errno w3 = errno w /\ sched w3 = sched w2 }.

Lemma wp_destroy_rdma_client t w cba cb l cb2 w2 (Q : unit -> world -> Prop) :
  set_up w cba cb l cb2 w2 -> cb_server cb = 0 ->
  (forall w3, destroyed w cba cb w2 w3 -> Q tt w3) ->
  wp t (destroy_rdma_client cba) Q w2.
Proof.
  intros Hsu Hsv HQ. destruct (set_up_ctxs _ _ _ _ _ _ Hsu) as (Hbufs & Hid & Hsv2 & Hcnt).
  pose proof Hsu as [_ [Hcb Hl Hlen] _ _ _ _ _ _ _ _ _ (i & Hi & Hic & Hcm) He].
  assert (Hne : cba <> cb_buf_ctxs cb2) by congruence.
  unfold destroy_rdma_client. do 2 wp_step. rewrite Hsv2, Hsv.
  change (negb (0 =? 0)) with false. cbv iota.
  assert (Hlive : cms w2 !! cb_cm_id cb2 = Some (i <| cm_qp := cb_qp cb2 |>))
    by (rewrite Hcm, Hid; apply lookup_insert_eq).
  do 7 wp_step. eapply wp_release; [by eapply set_up_same|].
  intros w3 [Hcb3 Hl3 Hfr Hp Hc Hq Hd (Hcm3 & He3 & Hn3 & Hs3)].
  wsimpl in Hcm3. wsimpl in He3. wsimpl in Hs3.
  assert (Hlive3 : cms w3 !! cb_cm_id cb2 = Some (i <| cm_qp := cb_qp cb2 |>))
    by by rewrite Hcm3.
  wp_steps. apply HQ. split; wsimpl; try done.
  - apply map_eq. intros a. destruct (decide (a = cba)) as [->|Ha].
    { by rewrite !lookup_delete_eq. }
    rewrite !(lookup_delete_ne _ cba) by done. rewrite Hbufs.
    destruct (decide (a = cb_buf_ctxs cb)) as [->|Ha2]; [by rewrite !lookup_delete_eq|].
    rewrite !lookup_delete_ne by done. by apply Hfr.
  - rewrite Hcm3, Hid, Hcm. apply delete_insert_eq.
  - split; [congruence|done].
Qed.
End Teardown.

(** ** The ends of [run_client] *)

Section Run_client_ends.
Context {K : Kernel} {R : RpcHandler} (HK : reliable K).

(** The ids of the receive requests of contexts. *)
Definition wr_ids (l : list msgbuf_ctx) : list Z := (fun c => rwr_wr_id (rq_wr c)) <$> l.

(** The queues with the receives of [l] posted in addition. *)
Definition recvs_after (w : world) (cb : rdma_ch_cb) (l : list msgbuf_ctx) (w' : world) : Prop :=
  recvs (cb_qp cb) (cb_cq cb) w' =
    (posted (cb_qp cb) (trace w) ++ wr_ids l, received (cb_cq cb) (trace w)).

Lemma wp_post_recvs t w cba cb l (Q : option Z -> world -> Prop) :
  chan_at w cba cb l -> cb_qp cb ∈ qps w ->
  (forall r w', heap w' = heap w -> same_but_heap w w' -> r <> Some 0 ->
     ((forall h qp wr, k_post_recv h qp wr = 0) -> r = None) ->
     (r = None -> recvs_after w cb l w') -> Q r w') ->
  wp t (post_recvs cba) Q w.
Proof.
  intros [Hcb Hl Hlen] Hqp HQ. unfold post_recvs. do 2 wp_step.
  apply (wp_for_loop (fun i w' => (heap w' = heap w /\ same_but_heap w w')
    /\ recvs_after w cb (take (Z.to_nat i) l) w')).
  { split; [done|]. unfold recvs_after, recvs. cbn. by rewrite app_nil_r. }
  - intros i w1 Hi [ [Hh (Hn & Hs & Ho)] Hrv]. destruct (ctx_at_lt l i) as [c Hc]; [lia|].
    pose proof (objs_inv _ _ Ho) as (_ & _ & _ & Eqp & _).
    assert (Hl1 : heap w1 !! cb_buf_ctxs cb = Some (BCtxs l)) by by rewrite Hh.
    assert (Hqp1 : cb_qp cb ∈ qps w1) by by rewrite Eqp.
    do 7 wp_step. destruct (Z.eqb_spec (k_post_recv (trace w1) (cb_qp cb) (rq_wr c)) 0)
      as [Ep|Ep]; cbn [negb]; wp_step.
    + split; [done|]. unfold recvs_after, recvs in *. injection Hrv as E1 E2. wsimpl.
      cbn [posted received]. rewrite Ep, !Z.eqb_refl. cbn [andb].
      rewrite E1, E2, (take_next _ _ _ Hc). unfold wr_ids.
      by rewrite fmap_app, <- app_assoc.
    + apply HQ; [done|done|congruence| |congruence]. intros Hz. by rewrite Hz in Ep.
  - intros w1 [ [Hh Hr] Hrv]. rewrite take_ge in Hrv by lia. by apply HQ.
Qed.

(** Failure after the set-up: everything is released, the control block
    keeps pointers to it. *)
Definition run_client_failed (w : world) (cba : addr) (cb : rdma_ch_cb) (r : Z)
    (w' : world) : Prop :=
  r <> 0 /\ exists l cb2 w2, set_up w cba cb l cb2 w2 /\ released w cba cb l cb2 w2 w'.

Lemma wp_run_client_err2 t w cba cb l cb2 w2 r (Q : Z -> world -> Prop) :
  set_up w cba cb l cb2 w2 -> r <> 0 ->
  (forall w', run_client_failed w cba cb r w' -> Q r w') ->
  wp t (run_client_err2 cba r) Q w2.
Proof.
  intros Hsu Hr HQ. unfold run_client_err2, run_client_err1.
  eapply wp_release; [done|]. intros w3 Hre. wp_step. apply HQ.
  split; [done|]. by exists l, cb2, w2.
Qed.

Lemma wp_run_client_fails t w cba cb l0 s (Q : Z -> world -> Prop) :
  client_at w cba cb l0 s -> new_handles K w ->
  connect_stopped (cb_cm_id cb) s ->
  (forall r w', run_client_failed w cba cb r w' -> Q r w') ->
  wp t (run_client cba) Q w.
Proof.
  intros Hcl Hnew Hconn HQ. eapply (wp_run_client_setup HK); [done|done|].
  intros l cb2 w2 Hsu Hst _ Hs2 _. pose proof Hsu as [_ Hch _ _ _ _ _ _ Hq _ _ (i & Hi & Hic & Hcm) _].
  unfold run_client_rest. wp_step.
  eapply wp_post_recvs; [done|rewrite Hq; set_solver|].
  intros [r|] w3 Hh3 (Hn3 & Hs3 & Ho3) Hr _ _; pose proof (set_up_same _ _ _ _ _ _ _ Hsu Hh3 Hn3 Ho3) as Hsu3.
  { eapply wp_run_client_err2; [done|congruence|auto]. }
  pose proof Hsu3 as [_ [Hcb3 Hl3 _] _ _ _ _ _ _ _ _ _ (i3 & Hi3 & Hic3 & Hcm3) _].
  destruct (set_up_ctxs _ _ _ _ _ _ Hsu3) as (_ & Hid & _).
  destruct (connect_client_stopped w3 cba cb2 s) as (r & st & w4 & Hr4 & Hne & Hh4 & Hn4 & Ho4).
  { split; [done| |congruence]. rewrite Hcm3, Hid. eexists. by rewrite lookup_insert_eq. }
  { by rewrite Hst. }
  { by rewrite Hid. }
  wp_step. eapply wp_of_run; [exact Hr4|]. rewrite (proj2 (Z.eqb_neq r 0)) by done. cbn [negb].
  eapply wp_run_client_err2; [by eapply set_up_state|done|auto].
Qed.

Lemma wp_run_client_ok t w cba cb l0 s (Q : Z -> world -> Prop) :
  client_at w cba cb l0 (ACm (cb_cm_id cb) RDMA_CM_EVENT_ESTABLISHED :: s) ->
  new_handles K w ->
  (forall h qp wr, k_post_recv h qp wr = 0) -> (forall h id p, k_connect h id p = 0) ->
  (forall l cb2 w', set_up w cba cb l cb2 w' -> cb_state cb2 = CONNECTED ->
     done_upto (cb_msgbuf_cnt cb) (ready_ctx cb2 (next w)) l0 l -> sched w' = s ->
     recvs (cb_qp cb2) (cb_cq cb2) w' = (wr_ids l, O) -> Q 0 w') ->
  wp t (run_client cba) Q w.
Proof.
  intros Hcl Hnew Hpost Hconn HQ. eapply (wp_run_client_setup HK); [done|done|].
  intros l cb2 w2 Hsu Hst Hrdy Hs2 Hv2.
  pose proof Hsu as [_ Hch _ _ _ _ _ _ Hq _ _ _ _].
  unfold run_client_rest. wp_step.
  eapply wp_post_recvs; [done|rewrite Hq; set_solver|].
  intros r w3 Hh3 (Hn3 & Hs3 & Ho3) _ Hr Hv3. rewrite (Hr Hpost) in *.
  pose proof (set_up_same _ _ _ _ _ _ _ Hsu Hh3 Hn3 Ho3) as Hsu3.
  pose proof Hsu3 as [_ [Hcb3 Hl3 _] _ _ _ _ _ _ _ _ _ (i3 & Hi3 & Hic3 & Hcm3) _].
  destruct (set_up_ctxs _ _ _ _ _ _ Hsu3) as (_ & Hid & Hsv & _).
  destruct (connect_client_ok w3 cba cb2 s) as (w4 & Hr4 & [[_ _ Hs4] Hh4 Hv4 [Hn4 Ho4]]).
  { split; [done| |by rewrite Hs3, Hs2, Hid].
    eexists. rewrite Hcm3, Hid, lookup_insert_eq. done. }
  { rewrite Hsv. apply Hcl. }
  { by rewrite Hst. }
  { apply Hconn. }
  wp_step. eapply wp_of_run; [exact Hr4|]. change (negb (0 =? 0)) with false. cbv iota.
  wp_step. apply (HQ l (with_state CONNECTED cb2)); [by eapply set_up_state|done| |done|].
  - exact Hrdy.
  - apply (f_equal (fun f => f (cb_qp cb2) (cb_cq cb2))) in Hv4. cbn in Hv4.
    etransitivity; [exact Hv4|]. rewrite (Hv3 eq_refl). unfold recvs in Hv2.
    by injection Hv2 as -> ->.
Qed.
End Run_client_ends.

(** ** [init_rdma_ch] *)

Section Init_rdma_ch.
Context {K : Kernel} {R : RpcHandler}.

(** A request for a client channel: the sizes are [int]s that fit. *)
Record client_attr (attr : rdma_ch_attr) (sin : sockaddr) : Prop := {
  at_client : at_server attr = 0;
  at_cnt : 0 <= at_msgbuf_cnt attr;
  at_size : 0 <= msgbuf_size (at_msgdata_size attr);
  at_sin : init_sin attr = Some sin }.

(** The control block as [run_client] finds it. *)
Definition new_cb (attr : rdma_ch_attr) (sin : sockaddr) (w : world) (id : kptr) :=
  client_cb attr (next w + 1) sin id.

(** The state in which [init_rdma_ch] calls [run_client]. *)
Record init_done (w : world) (attr : rdma_ch_attr) (sin : sockaddr) (id : kptr)
    (l : list msgbuf_ctx) (w1 : world) : Prop := {
  id_ctxs : done_upto (at_msgbuf_cnt attr) init_ctx (zero_ctxs attr) l;
  id_heap : heap w1 = put_channel (next w) (new_cb attr sin w id) l (heap w);
  id_cms : cms w1 = <[id := {| cm_context := next w; cm_qp := NULL |}]> (cms w);
  id_next : next w1 = next w + 2;
  id_objs : objs (upd_cms (fun _ => cms w) w1) = objs w;
  id_sched : sched w1 = sched w }.

Lemma wp_init_rdma_ch t w attr sin n (Q : addr -> world -> Prop) :
  (forall h b, k_kzalloc h b = true) -> fresh_ok w -> client_attr attr sin ->
  (forall h c, k_create_id h c = KPtr n) ->
  (forall l w1, init_done w attr sin (KPtr n) l w1 ->
     wp t (run_client (next w)) (fun _ w' => Q (next w) w') w1) ->
  wp t (init_rdma_ch attr) Q w.
Proof.
  intros Ha [Hpos Hfree] [Hsv Hcnt Hsz Hsin] Hid HQ. unfold init_rdma_ch. wp_step.
  eapply wp_init_ch_cb; [done|by split|done|done|].
  intros l w1 Hd Hh Hn Hs Ho.
  assert (Hcb : heap w1 !! next w = Some (BCb (client_cb attr (next w + 1) sin (KPtr NULL))))
    by (rewrite Hh; apply lookup_insert_eq).
  rewrite (proj2 (Z.eqb_neq _ _)) by (unfold NULL; lia).
  unfold rdma_create_id. wp_step. wp_step. wp_step. rewrite !Hid. cbn [IS_ERR].
  do 4 wp_step. wp_step. rewrite Hsv. change (negb (0 =? 0)) with false. cbn [IS_ERR]. cbv iota.
  wp_step. eapply wp_mono; [apply (HQ l)|]; [|by intros a w' H; wp_step].
  unfold objs in Ho. injection Ho as Ecm Ecq Epd Eqp Edm Eer.
  split; wsimpl; try done.
  - rewrite Hh. unfold put_channel. by rewrite insert_insert_eq.
  - by rewrite Ecm.
  - unfold objs. wsimpl. congruence.
Qed.

Lemma init_client_at w attr sin id l w1 s :
  init_done w attr sin id l w1 -> client_attr attr sin -> fresh_ok w ->
  sched w = ACm id RDMA_CM_EVENT_ADDR_RESOLVED :: ACm id RDMA_CM_EVENT_ROUTE_RESOLVED :: s ->
  client_at w1 (next w) (new_cb attr sin w id) l s.
Proof.
  intros [Hd Hh Hcm Hn Ho Hs] [Hsv Hcnt Hsz Hsin] [Hpos Hfree] Hsch.
  assert (Hcb : heap w1 !! next w = Some (BCb (new_cb attr sin w id)))
    by (rewrite Hh; apply lookup_insert_eq).
  split; [|split; [done| |by rewrite Hs]|done|done|done|].
  - split; [done| |].
    + rewrite Hh. unfold put_channel. cbn. rewrite lookup_insert_ne by lia.
      apply lookup_insert_eq.
    + destruct Hd as [-> _]. unfold zero_ctxs. rewrite length_replicate. cbn. lia.
  - eexists. rewrite Hcm. by rewrite lookup_insert_eq.
  - split; [lia|]. intros a Ha. rewrite Hh. unfold put_channel.
    rewrite !lookup_insert_ne by lia. apply Hfree. lia.
Qed.

Lemma init_new_handles w attr sin id l w1 :
  init_done w attr sin id l w1 -> new_handles K w -> new_handles K w1.
Proof.
  intros [_ _ _ _ Ho _] Hnew. unfold objs in Ho. wsimpl in Ho.
  injection Ho as Ecq Epd Eqp Edm Eer. destruct Hnew as [Hp Hc Hq].
  split; rewrite ?Ecq, ?Epd, ?Eqp; done.
Qed.

(** Deleting the blocks of a new channel gives the memory of before. *)
Lemma delete_channel w cb l : fresh_ok w ->
  delete (next w) (delete (next w + 1) (put_channel (next w) cb l (heap w))) = heap w.
Proof.
  intros [_ Hfree]. unfold put_channel. apply map_eq. intros a.
  destruct (decide (a = next w)) as [->|Ha].
  { rewrite lookup_delete_eq. symmetry. apply Hfree. lia. }
  rewrite lookup_delete_ne by done. destruct (decide (a = next w + 1)) as [->|Ha2].
  { rewrite lookup_delete_eq. symmetry. apply Hfree. lia. }
  by rewrite lookup_delete_ne, !lookup_insert_ne by done.
Qed.

(** Destroying the channel gives back the state before it was created. *)
Lemma destroyed_init w attr sin id l w1 w2 w3 :
  init_done w attr sin id l w1 -> fresh_ok w -> cms w !! id = None ->
  destroyed w1 (next w) (new_cb attr sin w id) w2 w3 ->
  heap w3 = heap w /\ objs w3 = objs w /\ sched w3 = sched w2.
Proof.
  intros [_ Hh Hcm Hn Ho Hs] Hf Hid [Dh Dp Dc Dq Dd Dcm [De Ds]].
  unfold objs in Ho. wsimpl in Ho. injection Ho as Ecq Epd Eqp Edm Eer. split; [|split].
  - rewrite Dh, Hh. by apply delete_channel.
  - unfold objs. rewrite Dp, Dc, Dq, Dd, De, Dcm, Hcm. cbn [cb_cm_id new_cb client_cb].
    rewrite delete_insert_id by done. congruence.
  - done.
Qed.

(** [destroy_rdma_client] on a channel whose protection domain is dead. *)
Lemma destroy_dead_pd w cba cb l i :
  chan_at w cba cb l -> 0 < cb_msgbuf_cnt cb -> cb_server cb = 0 ->
  cms w !! cb_cm_id cb = Some i -> cb_pd cb ∉ pds w ->
  destroy_rdma_client cba w = Undef (BadHandle (cb_pd cb)).
Proof.
  intros [Hcb Hl Hlen] Hcnt Hsv Hi Hpd. unfold destroy_rdma_client.
  erewrite bind_run by by apply load_run. rewrite Hsv.
  change (negb (0 =? 0)) with false. cbv iota.
  erewrite bind_run.
  2: { unfold rdma_disconnect, cm_id. erewrite bind_run; [reflexivity|].
       unfold mbind, M_bind, get. by rewrite Hi. }
  apply bind_undef. unfold kfree_buffers, for_ctxs.
  erewrite bind_run by by apply load_run.
  destruct (Z.to_nat (cb_msgbuf_cnt cb)) as [|m] eqn:Em; [lia|]. cbn [for_each].
  apply bind_undef. destruct (ctx_at_lt l 0) as [c Hc]; [lia|].
  erewrite bind_run by by eapply load_ctx_run. apply bind_undef.
  unfold pd_device, live_pd. apply bind_undef. unfold mbind, M_bind, get. wsimpl.
  by rewrite bool_decide_eq_false_2.
Qed.
End Init_rdma_ch.

(** ** Receives beyond the depth of the queue *)

(** The receives posted to a queue pair that no completion has taken. *)
Fixpoint recv_posted (h : list event) (qp : addr) : nat :=
  match h with
  | [] => 0
  | EvPostRecv qp' _ 0 :: h => (if decide (qp' = qp) then 1 else 0) + recv_posted h qp
  | _ :: h => recv_posted h qp
  end.

(** A device that holds the number of receives [create_qp] asked for, two. *)
Definition strict_depth (K : Kernel) : Prop :=
  forall h qp wr, k_post_recv h qp wr = if decide (2 <= recv_posted h qp)%nat then - ENOMEM else 0.

Section Init_out.
Context {K : Kernel} {R : RpcHandler}.

Lemma wp_init_out1 t w cba cb b (Q : addr -> world -> Prop) :
  heap w !! cba = Some (BCb cb) -> heap w !! cb_buf_ctxs cb = Some b ->
  cba <> cb_buf_ctxs cb -> is_Some (cms w !! cb_cm_id cb) ->
  (forall w', heap w' = delete cba (delete (cb_buf_ctxs cb) (heap w)) ->
     objs w' = objs (upd_cms (delete (cb_cm_id cb)) w) -> Q NULL w') ->
  wp t (init_out1 cba) Q w.
Proof.
  intros Hcb Hl Hne [i Hi] HQ. unfold init_out1, init_out2. wp_steps. by apply HQ.
Qed.
End Init_out.

Lemma recv_posted_cons qp wr h : recv_posted (EvPostRecv qp wr 0 :: h) qp = S (recv_posted h qp).
Proof. cbn. by rewrite decide_True. Qed.

(** A round of [post_recvs] on such a device. *)
Lemma post_round {K : Kernel} w ctxs l i c qp e :
  strict_depth K -> heap w !! ctxs = Some (BCtxs l) -> ctx_at l i = Some c -> qp ∈ qps w ->
  e = (if decide (2 <= recv_posted (trace w) qp)%nat then - ENOMEM else 0) ->
  (c ← load_ctx ctxs i; ret ← ib_post_recv qp (rq_wr c);
   if negb (ret =? 0) then mret (Some ret) else mret None) w =
  Ok (if e =? 0 then None else Some e) (log (EvPostRecv qp (rq_wr c) e) w).
Proof.
  intros HK Hl Hc Hqp ->. erewrite bind_run by by eapply load_ctx_run.
  unfold ib_post_recv, live_qp, mbind, M_bind, get, call.
  rewrite bool_decide_eq_true_2 by done. cbn. rewrite HK. by case_decide.
Qed.

Section Ch_properties.
Context {K : Kernel} {R : RpcHandler}.

(** C14. [init_rdma_ch] as a client, with a kernel whose calls succeed and the
    address, the route and the connection coming up in this order: it returns
    the new channel in state [CONNECTED], its queue pair and buffers live,
    every context numbered, with sequence number 1 and its requests filled
    in; exactly the three events have been consumed. *)
Theorem init_rdma_ch_ok w attr sin n s :
  reliable K -> (forall h qp wr, k_post_recv h qp wr = 0) ->
  (forall h id p, k_connect h id p = 0) -> (forall h c, k_create_id h c = KPtr n) ->
  new_handles K w -> fresh_ok w -> client_attr attr sin ->
  sched w = ACm (KPtr n) RDMA_CM_EVENT_ADDR_RESOLVED ::
    ACm (KPtr n) RDMA_CM_EVENT_ROUTE_RESOLVED ::
    ACm (KPtr n) RDMA_CM_EVENT_ESTABLISHED :: s ->
  exists l0 l cb2 w1 w', init_rdma_ch attr w = Ok (next w) w'
    /\ init_done w attr sin (KPtr n) l0 w1
    /\ set_up w1 (next w) (new_cb attr sin w (KPtr n)) l cb2 w'
    /\ cb_state cb2 = CONNECTED
    /\ done_upto (at_msgbuf_cnt attr) (ready_ctx cb2 (next w1)) l0 l /\ sched w' = s
    /\ recvs (cb_qp cb2) (cb_cq cb2) w' = (wr_ids l, O).
Proof.
  intros HK Hpost Hconn Hid Hnew Hf Hat Hs.
  destruct (wp_total_run (init_rdma_ch attr) (fun r w' => r = next w /\ exists l0 l cb2 w1,
    init_done w attr sin (KPtr n) l0 w1
    /\ set_up w1 (next w) (new_cb attr sin w (KPtr n)) l cb2 w'
    /\ cb_state cb2 = CONNECTED
    /\ done_upto (at_msgbuf_cnt attr) (ready_ctx cb2 (next w1)) l0 l /\ sched w' = s
    /\ recvs (cb_qp cb2) (cb_cq cb2) w' = (wr_ids l, O)) w)
    as (r & w' & Hr & -> & l0 & l & cb2 & w1 & Hw); [|by exists l0, l, cb2, w1, w'].
  eapply wp_init_rdma_ch; [apply HK|done|done|done|]. intros l0 w1 Hin.
  eapply (wp_run_client_ok HK); [by eapply init_client_at|by eapply init_new_handles|done|done|].
  intros l cb2 w' Hsu Hst Hrdy Hs' Hv. split; [done|]. by exists l0, l, cb2, w1.
Qed.

(** C16. A channel that comes up leaks nothing: with a kernel whose calls all
    succeed, and the address, the route and the connection reported as the next
    three events, after [init_rdma_ch] and [destroy_rdma_client] the memory, the
    protection domains, completion queues, queue pairs, ids and DMA mappings
    are those of before.  (After a connection that is refused, destroying the
    channel is undefined behaviour: [init_failed_connect_destroy].) *)
Theorem init_destroy_leak_free w attr sin n s :
  reliable K -> (forall h qp wr, k_post_recv h qp wr = 0) ->
  (forall h id p, k_connect h id p = 0) -> (forall h c, k_create_id h c = KPtr n) ->
  cms w !! KPtr n = None -> new_handles K w -> fresh_ok w -> client_attr attr sin ->
  sched w = ACm (KPtr n) RDMA_CM_EVENT_ADDR_RESOLVED ::
    ACm (KPtr n) RDMA_CM_EVENT_ROUTE_RESOLVED ::
    ACm (KPtr n) RDMA_CM_EVENT_ESTABLISHED :: s ->
  exists w', (cba ← init_rdma_ch attr; destroy_rdma_client cba) w = Ok tt w'
    /\ heap w' = heap w /\ objs w' = objs w /\ sched w' = s.
Proof.
  intros HK Hpost Hconn Hid Hfid Hnew Hf Hat Hs. apply (wp_total_unit _ (fun _ w' =>
    heap w' = heap w /\ objs w' = objs w /\ sched w' = s)).
  wp_step. eapply wp_init_rdma_ch; [apply HK|done|done|done|]. intros l0 w1 Hin.
  eapply (wp_run_client_ok HK); [by eapply init_client_at|by eapply init_new_handles|done|done|].
  intros l cb2 w2 Hsu Hst Hrdy Hs2 _.
  eapply wp_destroy_rdma_client; [done|apply Hat|]. intros w3 Hd.
  destruct (destroyed_init _ _ _ _ _ _ _ _ Hin Hf Hfid Hd) as (? & ? & ?).
  split; [done|]. split; [done|congruence].
Qed.

(** C31. A connection attempt that ends with an error leaves nothing behind:
    when the address and the route resolve and the set-up succeeds, but
    [rdma_connect] refuses, or a signal or a disconnection is the first thing
    to come in the wait for the connection, [run_client] returns an error, its
    buffers, mappings, queue pair, completion queue and protection domain
    released; posting the receives may have failed before.  A connection that
    is rejected or unreachable does not come here: the wait never ends
    ([cm_failure_hangs]). *)
Theorem run_client_failure_releases w cba cb l0 s :
  reliable K -> new_handles K w -> client_at w cba cb l0 s ->
  connect_stopped (cb_cm_id cb) s ->
  exists r w', run_client cba w = Ok r w' /\ r <> 0
    /\ pds w' = pds w /\ cqs w' = cqs w /\ qps w' = qps w /\ dmas w' = dmas w
    /\ (forall a, a <> cba -> a <> cb_buf_ctxs cb -> heap w' !! a = heap w !! a).
Proof.
  intros HK Hnew Hcl Hconn. apply wp_total_run.
  eapply (wp_run_client_fails HK); [done|done|done|].
  intros r w' [Hr (l & cb2 & w2 & _ & [_ _ Hfr Hp Hc Hq Hd _])]. done.
Qed.

(** [init_rdma_ch] ignores the result of [run_client]: with the connection
    failing it still returns the channel, contrary to its contract, and the
    [destroy_rdma_client] that the caller owes it then uses the protection
    domain already freed: undefined behaviour. *)
Theorem init_failed_connect_destroy w attr sin n s :
  reliable K -> (forall h id p, k_connect h id p <> 0) ->
  (forall h c, k_create_id h c = KPtr n) ->
  new_handles K w -> fresh_ok w -> client_attr attr sin -> 0 < at_msgbuf_cnt attr ->
  sched w = ACm (KPtr n) RDMA_CM_EVENT_ADDR_RESOLVED ::
    ACm (KPtr n) RDMA_CM_EVENT_ROUTE_RESOLVED :: s ->
  exists w' pd, init_rdma_ch attr w = Ok (next w) w' /\ next w <> NULL
    /\ (cba ← init_rdma_ch attr; destroy_rdma_client cba) w = Undef (BadHandle pd).
Proof.
  intros HK Hconn Hid Hnew Hf Hat Hcnt Hs.
  destruct (wp_total_run (init_rdma_ch attr) (fun r w' => r = next w /\ exists l0 w1 e,
    init_done w attr sin (KPtr n) l0 w1 /\
    run_client_failed w1 (next w) (new_cb attr sin w (KPtr n)) e w') w)
    as (r & w' & Hr & -> & l0 & w1 & e & Hin & Hfail).
  { eapply wp_init_rdma_ch; [apply HK|done|done|done|]. intros l0 w1 Hin.
    eapply (wp_run_client_fails HK); [by eapply init_client_at|by eapply init_new_handles|by left|].
    intros e w' Hfl. split; [done|]. by exists l0, w1, e. }
  destruct Hfail as (_ & l & cb2 & w2 & Hsu & [Hcb Hl _ Hp _ _ _ (Hcm & _ & _ & _)]).
  destruct (set_up_ctxs _ _ _ _ _ _ Hsu) as (Hbufs & Hidc & Hsv & Hcntc).
  destruct Hsu as [_ [_ _ Hlen] _ _ _ _ _ _ _ (Fp & _ & _) _ (i & _ & _ & Hcm2) _].
  exists w', (cb_pd cb2). split; [done|]. split; [destruct Hf; unfold NULL; lia|].
  erewrite bind_run by exact Hr. eapply destroy_dead_pd.
  - split; [done|done|done].
  - rewrite Hcntc. exact Hcnt.
  - rewrite Hsv. apply Hat.
  - rewrite Hcm, Hcm2, Hidc. apply lookup_insert_eq.
  - by rewrite Hp.
Qed.

(** As a server, [init_rdma_ch] sets nothing up: it returns [NULL] with the
    memory and the kernel objects as before. *)
Theorem init_rdma_ch_server w attr n :
  (forall h b, k_kzalloc h b = true) -> (forall h c, k_create_id h c = KPtr n) ->
  cms w !! KPtr n = None -> fresh_ok w -> 0 <= at_msgbuf_cnt attr ->
  at_server attr <> 0 ->
  exists w', init_rdma_ch attr w = Ok NULL w' /\ heap w' = heap w /\ objs w' = objs w.
Proof.
  intros Ha Hid Hfid [Hpos Hfree] Hcnt Hsv.
  destruct (wp_total_run (init_rdma_ch attr) (fun r w' => r = NULL /\ heap w' = heap w
    /\ objs w' = objs w) w) as (r & w' & Hr & -> & Hw); [|by eauto].
  unfold init_rdma_ch. wp_step. eapply wp_init_ch_cb; [done|by split|done| |].
  { unfold init_sin. by rewrite (proj2 (Z.eqb_neq _ _)). }
  intros l w1 _ Hh Hn Hs Ho.
  assert (Hcb : heap w1 !! next w = Some (BCb (client_cb attr (next w + 1)
    {| ss_family := AF_INET; sin_port := 0; sin_addr := [0; 0; 0; 0] |} (KPtr NULL))))
    by (rewrite Hh; apply lookup_insert_eq).
  assert (Hl : heap w1 !! (next w + 1) = Some (BCtxs l)).
  { rewrite Hh. unfold put_channel. rewrite lookup_insert_ne by lia. apply lookup_insert_eq. }
  rewrite (proj2 (Z.eqb_neq _ _)) by (unfold NULL; lia).
  unfold rdma_create_id. wp_step. wp_step. wp_step. rewrite !Hid. cbn [IS_ERR].
  do 4 wp_step. wp_step. rewrite (proj2 (Z.eqb_neq _ _)) by done. cbn [IS_ERR negb]. cbv iota.
  unfold objs in Ho. injection Ho as Ecm Ecq Epd Eqp Edm Eer.
  eapply wp_init_out1; [wsimpl; apply lookup_insert_eq|cbn; heap_lookup|cbn; lia
    |eexists; wsimpl; apply lookup_insert_eq|].
  intros w2 Hh2 Ho2. split; [done|]. split.
  - rewrite Hh2. wsimpl. rewrite Hh. cbn [cb_buf_ctxs client_cb].
    unfold put_channel. rewrite insert_insert_eq. by apply delete_channel.
  - rewrite Ho2. unfold objs. wsimpl. rec_simpl.
    rewrite Ecm, delete_insert_id by done. congruence.
Qed.

(** [create_qp] asks for two receives, [run_client] posts one per buffer:
    on a device that holds no more than it was asked for, the third is
    refused, so that no channel of more than two buffers (the RPC layer asks
    for [RPC_MSG_BUF_NUM] = 4) ever connects. *)
Theorem post_recvs_depth w cba cb l :
  strict_depth K -> chan_at w cba cb l -> cb_qp cb ∈ qps w ->
  recv_posted (trace w) (cb_qp cb) = O -> 2 < cb_msgbuf_cnt cb ->
  exists w', post_recvs cba w = Ok (Some (- ENOMEM)) w' /\ heap w' = heap w
    /\ recv_posted (trace w') (cb_qp cb) = 2%nat.
Proof.
  intros HK [Hcb Hl Hlen] Hqp Hno Hcnt.
  destruct (ctx_at_lt l 0) as [c0 Hc0]; [lia|]. destruct (ctx_at_lt l 1) as [c1 Hc1]; [lia|].
  destruct (ctx_at_lt l 2) as [c2 Hc2]; [lia|].
  destruct (Z.to_nat (cb_msgbuf_cnt cb)) as [|[|[|m]]] eqn:Em; try lia.
  eexists. split.
  - unfold post_recvs. erewrite bind_run by by apply load_run. rewrite Em. cbn [for_loop].
    erewrite bind_run by (apply (post_round _ _ l 0 c0 _ 0); try done; by rewrite Hno).
    cbn [Z.eqb]. erewrite bind_run by (apply (post_round _ _ l 1 c1 _ 0); try done;
      wsimpl; by rewrite recv_posted_cons, Hno).
    cbn [Z.eqb]. erewrite bind_run by (apply (post_round _ _ l 2 c2 _ (- ENOMEM)); try done;
      wsimpl; by rewrite !recv_posted_cons, Hno).
    reflexivity.
  - split; [done|]. wsimpl.
    change (recv_posted (EvPostRecv (cb_qp cb) (rq_wr c1) 0 ::
      EvPostRecv (cb_qp cb) (rq_wr c0) 0 :: trace w) (cb_qp cb) = 2%nat).
    by rewrite !recv_posted_cons, Hno.
Qed.
End Ch_properties.
