(* ===== verification/RpcClient.v ===== *)
(** * RpcClient: the RPC layer ([rpc_client.c])

    The message handler the RPC layer installs in its channels, which is the
    program's implementation of the interface [RpcHandler], the creation and
    destruction of a channel, and the sending of a request.  The user's
    message handler is the interface [UserHandler]. *)
From stdpp Require Import gmultiset.
From S2P Require Import Prelude Types Kernel Logic Wait Verbs Frame Bitmap MsgbufIds Wire.
From S2P Require Import RdmaIo RdmaCm RdmaMem RdmaBufs RdmaCh.

(** The user's callbacks, by number, on a [struct msg_handler_param]. *)
Class UserHandler := user_handler : Z -> addr -> M unit.

(** What the receive path needs of them. *)
Class UserHandlerLaws (U : UserHandler) : Prop :=
  user_kept n p w w' : fresh_ok w -> user_handler n p w = Ok tt w' -> kept w w'.

Section Handler.
Context {U : UserHandler}.

(** A call through [user_msg_handler_cb].  The RPC layer's own handler does
    not take a [struct msg_handler_param]. *)
Definition call_user (f : fnptr) (p : addr) : M unit :=
  match f with
  | FN_NULL => fault NullDeref
  | fn_client_rpc_rdma_msg_handler => fault (BadType p)
  | fn_user n => user_handler n p
  end.

Definition client_rpc_rdma_msg_handler (arg : addr) : M unit :=
  rpc_pa ← load (T := rpc_msg_handler_param) arg;
  free_msgbuf_id (rp_client_rpc_ch rpc_pa) (rp_msgbuf_id rpc_pa);;
  rpc_pa ← load (T := rpc_msg_handler_param) arg;
  call_user (rp_user_msg_handler_cb rpc_pa) (rp_param rpc_pa);;
  kfree arg.

(** The functions that can stand in [rpc_msg_handler_cb]. *)
#[export] Instance rpc_layer : RpcHandler := fun f p =>
  match f with
  | FN_NULL => fault NullDeref
  | fn_client_rpc_rdma_msg_handler => client_rpc_rdma_msg_handler p
  | fn_user n => user_handler n p
  end.
End Handler.

Section Client.
Context {K : Kernel} {U : UserHandler}.

(** While a context spins, the next scheduled event happens. *)
#[export] Instance run_next : Scheduler :=
  s ← get sched;
  match s with
  | [] => block_here
  | e :: s => modify (set_sched s);; deliver e
  end.

(** The bytes of an automatic array that was never assigned. *)
Definition stack_bytes (n : nat) : M (list Z) := v ← indeterminate; mret (le_bytes n v).

Definition init_rpc_client (type : Z) (target : addr) (port max_msgdata_size : Z)
    (msg_handler : fnptr) : M addr :=
  rpc_ch ← kzalloc zero_rpc_ch;
  update rpc_ch (fun c => c <| ch_type := type |>);;
  b ← kzalloc (zeros 4);
  update rpc_ch (fun c => c <| msgbuf_bitmap := b |>);;
  update rpc_ch (fun c => c <| msgbuf_bitmap_lock := false |>);;
  if negb (type =? RPC_CH_RDMA) then kfree rpc_ch;; mret NULL else
  ip ← stack_bytes 16;
  t ← load target;
  ip ← from_option OutOfBounds (strcpy ip t);
  cb ← init_rdma_ch
    {| at_port := port; at_server := 0; at_ip_addr := ip;
       at_msgbuf_cnt := RPC_MSG_BUF_NUM; at_msgdata_size := max_msgdata_size;
       at_rpc_msg_handler_cb := fn_client_rpc_rdma_msg_handler;
       at_user_msg_handler_cb := msg_handler |};
  update rpc_ch (fun c => c <| ch_cb := cb |>);;
  c ← load (T := rpc_ch_info) rpc_ch;
  if ch_cb c =? NULL then kfree rpc_ch;; mret NULL else mret rpc_ch.

Definition destroy_rpc_client (rpc_ch : addr) : M unit :=
  c ← load (T := rpc_ch_info) rpc_ch;
  (if ch_type c =? RPC_CH_RDMA then destroy_rdma_client (ch_cb c) else mret tt);;
  c ← load (T := rpc_ch_info) rpc_ch;
  bit_array_free (msgbuf_bitmap c);;
  kfree rpc_ch.

Definition send_rpc_msg_to_server (req : rpc_req_param) : M Z :=
  let rpc_ch := req_rpc_ch req in
  id ← alloc_msgbuf_id rpc_ch;
  let msgbuf_id := i32 id in
  c ← load (T := rpc_ch_info) rpc_ch;
  (if ch_type c =? RPC_CH_RDMA
   then send_rdma_msg (ch_cb c) rpc_ch (req_data req) (req_sem req) msgbuf_id 0;; mret tt
   else mret tt);;
  mret msgbuf_id.
End Client.

(** ** The handler implements the receive path's interface *)

Section Handler_laws.
Context {U : UserHandler} {UL : UserHandlerLaws U}.

Lemma kept_delete_not_cb w0 a w :
  (forall c, heap w0 !! a <> Some (BCb c)) -> kept w0 w ->
  kept w0 (upd_heap (delete a) w).
Proof.
  intros Ha [[Hp Hf] Hq Hc]. split; [split|done|]; wsimpl; [done|..].
  - intros x Hx. rewrite lookup_delete. case_decide; auto.
  - intros x c Hx. destruct (Hc x c Hx) as [s Hs]. exists s.
    rewrite lookup_delete_ne; [done|]. intros ->. by apply (Ha c).
Qed.

Lemma kept_free_msgbuf_id w0 w ch id :
  kept w0 w -> wp Partial (free_msgbuf_id ch id) (fun _ w' => kept w0 w') w.
Proof.
  intros Hk. unfold free_msgbuf_id, spin_lock, spin_unlock. wp_steps_p.
  solve_kept.
Qed.

Lemma kept_user w0 w n p :
  kept w0 w -> wp Partial (user_handler n p) (fun _ w' => kept w0 w') w.
Proof.
  intros Hk. unfold wp. destruct (user_handler n p w) as [[] w'| |] eqn:E; [|done..].
  eapply kept_trans; [done|]. eapply user_kept; [|done]. by destruct Hk.
Qed.

Lemma kept_client_handler w p :
  fresh_ok w -> wp Partial (client_rpc_rdma_msg_handler p) (fun _ w' => kept w w') w.
Proof.
  intros Hf. unfold client_rpc_rdma_msg_handler. wp_step. apply wp_load_p. intros rp Hrp.
  wp_step. eapply wp_mono; [by apply (kept_free_msgbuf_id w), kept_refl|].
  intros [] w1 H1. do 2 wp_step_p. wp_step. eapply (wp_mono _ (fun _ w' => kept w w')).
  - unfold call_user. destruct (rp_user_msg_handler_cb _); [done..|by apply kept_user].
  - intros [] w2 H2. apply wp_kfree_p; intros; [|by apply kept_log].
    apply kept_log, kept_delete_not_cb; [|done].
    intros c Hc. cbn in Hrp. congruence.
Qed.

#[export] Instance rpc_layer_laws : RpcHandlerLaws rpc_layer.
Proof.
  intros f p w w' Hf Hr. destruct f; [done| |].
  - by eapply (wp_run _ _ _ _ _ (kept_client_handler w p Hf)).
  - by eapply user_kept.
Qed.
End Handler_laws.

(** ** Sending *)

Section Send_rpc.
Context {K : Kernel} {U : UserHandler}.

(** Channel [ch] can send: its bitmap is [l], and the context of id [i] and
    the data of the request are in order. *)
Record rpc_send_pre (w : world) (ch : addr) (c : rpc_ch_info) (l : list Z) (i : nat)
    (cb : rdma_ch_cb) (lc : list msgbuf_ctx) (ctx : msgbuf_ctx) (req : rpc_req_param)
    (bd : list Z) : Prop := {
  rs_bitmap : bitmap_at w ch c l;
  rs_least : is_least i (free_bits l);
  rs_type : ch_type c = RPC_CH_RDMA;
  rs_ch : req_rpc_ch req = ch;
  rs_send : send_pre w (ch_cb c) cb lc (Z.of_nat i) ctx (req_data req) bd;
  rs_str : is_Some (c_str (sent_data cb bd));
  rs_apart : send_buf ctx <> msgbuf_bitmap c /\ req_data req <> msgbuf_bitmap c }.

Lemma send_pre_bitmap w ch c l l' cb lc id ctx data bd :
  bitmap_at w ch c l -> send_pre w (ch_cb c) cb lc id ctx data bd ->
  send_buf ctx <> msgbuf_bitmap c -> data <> msgbuf_bitmap c ->
  send_pre (put_bitmap c l' w) (ch_cb c) cb lc id ctx data bd.
Proof.
  intros [_ _ Hb _] [Hcb Hl Hc Hid Hsz (buf & Hbuf & Hlen) Hd Hdl Hne Hqp] Hs Hda.
  assert (ch_cb c <> msgbuf_bitmap c) by congruence.
  assert (cb_buf_ctxs cb <> msgbuf_bitmap c) by congruence.
  assert (Hat : forall a, a <> msgbuf_bitmap c ->
    heap (put_bitmap c l' w) !! a = heap w !! a)
    by (intros a Ha; apply lookup_insert_ne; congruence).
  split; rewrite ?Hat by done; try done. by exists buf.
Qed.

(** What the sending leaves once an id is taken, [e] being the answer of
    [ib_post_send]. *)
Record rpc_posted (w : world) (ch : addr) (c : rpc_ch_info) (l : list Z) (i : nat)
    (cb : rdma_ch_cb) (lc : list msgbuf_ctx) (ctx : msgbuf_ctx) (req : rpc_req_param)
    (bd : list Z) (e : Z) (w' : world) : Prop := {
  rt_bitmap : bitmap_at w' ch c (<[i := 1]> l);
  rt_image : heap w' !! send_buf ctx = Some (BBytes
    (wire_image (u64 (mc_seqn ctx + 1)) ch (req_sem req) (sent_data cb bd)));
  rt_seqn : heap w' !! cb_buf_ctxs cb = Some (BCtxs
    (<[i := ctx <| mc_seqn := u64 (mc_seqn ctx + 1) |>]> lc));
  rt_trace : e = k_post_send (trace w) (cb_qp cb) (sq_wr ctx) /\
    trace w' = EvPostSend (cb_qp cb) (sq_wr ctx) e :: trace w;
  rt_frame : forall a, a <> msgbuf_bitmap c -> a <> send_buf ctx -> a <> cb_buf_ctxs cb ->
    heap w' !! a = heap w !! a;
  rt_next : next w' = next w;
  rt_sched : sched w' = sched w;
  rt_objs : objs w' = objs w }.

(** What [send_rpc_msg_to_server] leaves; it reads one indeterminate value. *)
Definition rpc_sent (w : world) (ch : addr) (c : rpc_ch_info) (l : list Z) (i : nat)
    (cb : rdma_ch_cb) (lc : list msgbuf_ctx) (ctx : msgbuf_ctx) (req : rpc_req_param)
    (bd : list Z) (e : Z) (w' : world) : Prop :=
  exists v, rpc_posted (log (EvStack v) w) ch c l i cb lc ctx req bd e w'.

(** [send_rpc_msg_to_server] after [alloc_msgbuf_id]. *)
Definition send_rpc_rest (req : rpc_req_param) (id : Z) : M Z :=
  let rpc_ch := req_rpc_ch req in
  let msgbuf_id := i32 id in
  c ← load (T := rpc_ch_info) rpc_ch;
  (if ch_type c =? RPC_CH_RDMA
   then send_rdma_msg (ch_cb c) rpc_ch (req_data req) (req_sem req) msgbuf_id 0;; mret tt
   else mret tt);;
  mret msgbuf_id.

Lemma rpc_send_pre_log e w ch c l i cb lc ctx req bd :
  rpc_send_pre w ch c l i cb lc ctx req bd ->
  rpc_send_pre (log e w) ch c l i cb lc ctx req bd.
Proof. intros [[] Hi Hty Hch [] Hstr Hap]. by split. Qed.

Lemma wp_send_rpc_rest t w ch c l i cb lc ctx req bd (Q : Z -> world -> Prop) :
  rpc_send_pre w ch c l i cb lc ctx req bd ->
  (forall e w', rpc_posted w ch c l i cb lc ctx req bd e w' -> Q (Z.of_nat i) w') ->
  wp t (send_rpc_rest req (Z.of_nat i)) Q (put_bitmap c (<[i := 1]> l) w).
Proof.
  intros [Hbm Hi Hty Hch Hsp Hstr [Hap1 Hap2]] HQ. pose proof Hbm as [Hc Hul Hb Hlen].
  pose proof (is_least_bound _ _ Hi) as Hlt. unfold BIT_ARR_SIZE in Hlt.
  unfold send_rpc_rest. rewrite Hch.
  assert (Hbm2 : bitmap_at (put_bitmap c (<[i := 1]> l) w) ch c (<[i := 1]> l))
    by (eapply bitmap_at_put; [done|by rewrite length_insert]).
  set (w1 := put_bitmap _ _ _) in *.
  assert (Hc1 : heap w1 !! ch = Some (BRpcCh c)) by apply Hbm2.
  do 2 wp_step. rewrite Hty. change (RPC_CH_RDMA =? RPC_CH_RDMA) with true. cbv iota.
  replace (i32 (Z.of_nat i)) with (Z.of_nat i)
    by (symmetry; apply sint_small; unfold in_i; lia).
  do 2 wp_step. eapply wp_mono.
  { eapply wp_send_rdma_msg; [by apply (send_pre_bitmap w ch c l)|done]. }
  intros r w2 [Him Hct Hfr (e & He & Htr & _) (Hn & Hs & Ho)]. do 2 wp_step.
  apply (HQ e). pose proof Hsp as [Hcb Hl _ _ _ _ _ _ _ _].
  assert (send_buf ctx <> ch) by (destruct Hsp as [_ _ _ _ _ (b & ? & _) _ _ _ _]; congruence).
  assert (cb_buf_ctxs cb <> ch) by congruence.
  assert (cb_buf_ctxs cb <> msgbuf_bitmap c) by congruence.
  split; try done.
  - destruct Hbm2. split; [|done| |done]; rewrite Hfr; done || congruence.
  - cbn in Hct. by rewrite Hct, Nat2Z.id.
  - intros a Ha1 Ha2 Ha3. rewrite Hfr by done. by apply lookup_insert_ne.
Qed.

Lemma wp_send_rpc_msg t w ch c l i cb lc ctx req bd (Q : Z -> world -> Prop) :
  rpc_send_pre w ch c l i cb lc ctx req bd ->
  (forall e w', rpc_sent w ch c l i cb lc ctx req bd e w' -> Q (Z.of_nat i) w') ->
  wp t (send_rpc_msg_to_server req) Q w.
Proof.
  intros Hpre HQ. pose proof Hpre as [Hbm Hi _ Hch _ _ _].
  unfold send_rpc_msg_to_server. rewrite Hch. wp_step.
  eapply wp_alloc_msgbuf_id; [done|done|]. intros v. rewrite <- Hch.
  apply (wp_send_rpc_rest t (log (EvStack v) w) ch c l i cb lc ctx req bd);
    [by apply rpc_send_pre_log|].
  intros e w' Hp. apply (HQ e). by exists v.
Qed.

(** A request on a channel with a free message buffer: the least free id
    is taken and returned, the send buffer of that number holds the image of
    the message with a new sequence number, and one send request has been
    posted; whether posting succeeded ([e]) makes no difference. *)
Theorem send_rpc_msg_sent w ch c l i cb lc ctx req bd :
  rpc_send_pre w ch c l i cb lc ctx req bd ->
  exists e w', send_rpc_msg_to_server req w = Ok (Z.of_nat i) w'
    /\ rpc_sent w ch c l i cb lc ctx req bd e w'.
Proof.
  intros Hpre. destruct (wp_total_run (send_rpc_msg_to_server req) (fun r w' =>
    r = Z.of_nat i /\ exists e, rpc_sent w ch c l i cb lc ctx req bd e w') w)
    as (r & w' & Hr & -> & e & He); [|by exists e, w'].
  eapply wp_send_rpc_msg; [done|]. eauto.
Qed.

(** The id of a request that could not be sent is never given back: after
    a send on the last free id, which returns that id even when
    [ib_post_send] refuses it, the next send spins forever. *)
Theorem send_failure_leaks_id w ch c l i cb lc ctx req req2 bd :
  rpc_send_pre w ch c l i cb lc ctx req bd -> free_bits l = {[i]} -> sched w = [] ->
  (forall h qp wr, k_post_send h qp wr <> 0) -> req_rpc_ch req2 = ch ->
  exists e w1 w2, send_rpc_msg_to_server req w = Ok (Z.of_nat i) w1
    /\ e <> 0 /\ rpc_sent w ch c l i cb lc ctx req bd e w1
    /\ send_rpc_msg_to_server req2 w1 = Blocked w2.
Proof.
  intros Hpre Hlast Hs Hfail Hch2. pose proof Hpre as [[_ _ _ Hlen] Hi _ _ _ _ _].
  pose proof (is_least_bound _ _ Hi) as Hlt.
  destruct (wp_total_run (send_rpc_msg_to_server req) (fun r w' =>
    r = Z.of_nat i /\ exists e, rpc_sent w ch c l i cb lc ctx req bd e w') w)
    as (r & w1 & Hr & -> & e & Hsent).
  { eapply wp_send_rpc_msg; [done|]. eauto. }
  pose proof Hsent as [v [Hbm _ _ [-> _] _ _ Hs1 _] ].
  eexists _, w1, _. split; [done|]. split; [|split; [done|]]; [apply Hfail|].
  unfold send_rpc_msg_to_server. rewrite Hch2.
  apply bind_blocked. eapply alloc_full_blocks; [done| |rewrite Hs1; exact Hs].
  rewrite free_bits_set, Hlast by done. apply difference_diag_L.
Qed.
End Send_rpc.

(** ** The handler *)

Section Handler_spec.
Context {U : UserHandler}.

(** [client_rpc_rdma_msg_handler] clears the bit of the id it is given in
    the bitmap of the channel it is given, then calls the user's callback on
    the parameter, then frees its own argument; an id outside the bitmap
    clears nothing. *)
Theorem client_handler_effect w p rp c l l' n w2 b :
  heap w !! p = Some (BRpcParam rp) ->
  bitmap_at w (rp_client_rpc_ch rp) c l ->
  bit_array_clear_bit l (u64 (rp_msgbuf_id rp)) = Some l' ->
  rp_user_msg_handler_cb rp = fn_user n ->
  user_handler n (rp_param rp) (put_bitmap c l' w) = Ok tt w2 ->
  heap w2 !! p = Some b ->
  client_rpc_rdma_msg_handler p w = Ok tt (log (EvKfree p) (upd_heap (delete p) w2)).
Proof.
  intros Hp Hbm Hl Hf Hu Hp2.
  destruct (wp_total_unit (client_rpc_rdma_msg_handler p) (fun _ w' =>
    w' = log (EvKfree p) (upd_heap (delete p) w2)) w) as (w' & -> & ->); [|done].
  pose proof Hbm as [_ _ Hb _]. assert (p <> msgbuf_bitmap c) by congruence.
  unfold client_rpc_rdma_msg_handler. do 3 wp_step.
  eapply wp_free_msgbuf_id; [done|done|].
  assert (Hp1 : heap (put_bitmap c l' w) !! p = Some (BRpcParam rp))
    by (unfold put_bitmap; heap_lookup).
  do 3 wp_step. rewrite Hf. cbn [call_user]. eapply wp_of_run; [done|]. by wp_step.
Qed.
End Handler_spec.

(** ** Creating a channel *)

Section Init_rpc.
Context {K : Kernel} {U : UserHandler}.

Lemma init_rpc_client_overread w target port size f tb :
  (forall h b, k_kzalloc h b = true) -> fresh_ok w ->
  heap w !! target = Some (BBytes tb) -> c_str tb = None ->
  init_rpc_client RPC_CH_RDMA target port size f w = Undef OutOfBounds.
Proof.
  intros Ha [Hpos Hfree] Htb Hstr.
  assert (target < next w) by (apply Z.nle_gt; intros ?; by rewrite Hfree in Htb).
  unfold init_rpc_client, stack_bytes, indeterminate.
  apply fault_bind, wp_kzalloc; [intros _|by rewrite Ha].
  apply fault_bind. wp_step.
  apply fault_bind, wp_kzalloc; [intros _|by rewrite Ha]. wsimpl.
  do 2 (apply fault_bind; wp_step).
  change (negb (RPC_CH_RDMA =? RPC_CH_RDMA)) with false. cbv iota.
  apply fault_bind. do 3 wp_step. apply fault_bind. wp_step.
  apply bind_undef. unfold strcpy. by rewrite Hstr.
Qed.

(** [init_rpc_client] copies its target with [strcpy], but is given an IPv4
    address in binary, as [in4_pton] writes it: with no zero byte in the
    target's block the copy runs out of it (undefined behaviour); with a
    second octet of 0, the last two octets of the address that
    [fill_sockaddr] reads are whatever the stack held. *)
Theorem init_rpc_client_binary_address w target port size f tb a c d rest dst p :
  (forall h b, k_kzalloc h b = true) -> fresh_ok w ->
  heap w !! target = Some (BBytes tb) -> Forall (fun x => x <> 0) tb ->
  length dst = 16%nat -> a <> 0 ->
  init_rpc_client RPC_CH_RDMA target port size f w = Undef OutOfBounds
  /\ (ip ← strcpy dst (a :: 0 :: c :: d :: rest); fill_sockaddr ip p) =
      Some {| ss_family := AF_INET; sin_port := u16 p;
              sin_addr := a :: 0 :: take 2 (drop 2 dst) |}.
Proof.
  intros Hal Hf Htb Hnz Hlen Hna.
  split; [by eapply init_rpc_client_overread; [..|apply c_str_None]|].
  unfold strcpy. cbn [c_str]. rewrite (proj2 (Z.eqb_neq a 0)) by done.
  do 4 (destruct dst as [|? dst]; [done|]). change (0 =? 0) with true.
  cbn [mbind option_bind]. rewrite write_at_Some by (cbn; lia).
  unfold fill_sockaddr, read_at. cbn [mbind option_bind].
  rewrite decide_True; [done|]. cbn. lia.
Qed.

(** [init_rpc_client] with a channel type other than [RPC_CH_RDMA] frees
    the channel but not its bitmap, which is lost. *)
Theorem init_rpc_client_bad_type w type target port size f :
  (forall h b, k_kzalloc h b = true) -> fresh_ok w -> type <> RPC_CH_RDMA ->
  exists w', init_rpc_client type target port size f w = Ok NULL w'
    /\ heap w' = <[next w + 1 := BBytes [0; 0; 0; 0]]> (heap w).
Proof.
  intros Ha [Hpos Hfree] Hty.
  destruct (wp_total_run (init_rpc_client type target port size f) (fun r w' =>
    r = NULL /\ heap w' = <[next w + 1 := BBytes [0; 0; 0; 0]]> (heap w)) w)
    as (r & w' & Hr & -> & Hh); [|by eauto].
  assert (Hf1 : heap w !! next w = None) by (apply Hfree; lia).
  unfold init_rpc_client. wp_step. apply wp_kzalloc; [intros _|by rewrite Ha].
  do 3 wp_step. apply wp_kzalloc; [intros _|by rewrite Ha]. wsimpl. do 4 wp_step.
  rewrite (proj2 (Z.eqb_neq _ _)) by done. cbn [negb]. wp_steps.
  split; [done|]. change (zeros 4) with [0; 0; 0; 0]. heap_ext.
Qed.
End Init_rpc.

(** ** The life of a channel *)

Section Rpc_life.
Context {K : Kernel} {U : UserHandler}.

(** A block that is not the channel's may change under it. *)
Lemma set_up_frame w cba cb l cb2 w2 p b b0 :
  set_up w cba cb l cb2 w2 -> heap w !! p = Some b0 -> heap w2 !! p = Some b0 ->
  p <> cba -> p <> cb_buf_ctxs cb -> p ∉ ctx_bufs l ->
  set_up (upd_heap (insert p b) w) cba cb l cb2 (upd_heap (insert p b) w2).
Proof.
  intros Hsu Hp Hp2 H1 H2 H3. destruct (set_up_ctxs _ _ _ _ _ _ Hsu) as (Hbufs & _).
  destruct Hsu as [Hcb [Hc Hl Hlen] [Hnd Hlive Hap] Hfr Hnew [Hpos Hfree] ? ? ? ? ? ? ? Hz].
  split; wsimpl; try done.
  - split; wsimpl; [by rewrite lookup_insert_ne|by rewrite lookup_insert_ne by congruence|done].
  - split; [done| |done]. intros a Ha. wsimpl. apply lookup_insert_is_Some'. auto.
  - intros a Ha1 Ha2 Ha3. destruct (decide (p = a)) as [->|];
      [by rewrite !lookup_insert_eq|]. rewrite !lookup_insert_ne by done. by apply Hfr.
  - intros a Ha. rewrite lookup_insert_ne by (intros ->; done). by apply Hnew.
  - split; wsimpl; [done|]. intros a Ha. rewrite lookup_insert_ne; [by apply Hfree|].
    intros ->. by rewrite Hfree in Hp2.
  - intros a Ha. rewrite lookup_insert_ne by (intros ->; done). by apply Hz.
Qed.

(** The attributes [init_rpc_client] passes on. *)
Definition rpc_attr (ip : list Z) (port size : Z) (f : fnptr) : rdma_ch_attr :=
  {| at_port := port; at_server := 0; at_ip_addr := ip;
     at_msgbuf_cnt := RPC_MSG_BUF_NUM; at_msgdata_size := size;
     at_rpc_msg_handler_cb := fn_client_rpc_rdma_msg_handler;
     at_user_msg_handler_cb := f |}.

(** The RPC channel [p] of a world [w] in which its two blocks were
    allocated, over the RDMA channel [cb]. *)
Definition rpc_ch_at (p : addr) (cb : addr) : rpc_ch_info :=
  {| ch_type := RPC_CH_RDMA; ch_cb := cb; msgbuf_bitmap := p + 1;
     msgbuf_bitmap_lock := false |}.

Record rpc_up (w : world) (n : Z) (port size : Z) (f : fnptr) (s : list async)
    (cb2 : rdma_ch_cb) (l : list msgbuf_ctx) (w' : world) : Prop := {
  ru_worlds : exists ip sin l0 w0 w1 w2,
    heap w0 = <[next w := BRpcCh (rpc_ch_at (next w) NULL)]>
      (<[next w + 1 := BBytes (zeros 4)]> (heap w))
    /\ next w0 = next w + 2 /\ objs w0 = objs w
    /\ init_done w0 (rpc_attr ip port size f) sin (KPtr n) l0 w1
    /\ set_up w1 (next w + 2) (new_cb (rpc_attr ip port size f) sin w0 (KPtr n)) l cb2 w2
    /\ done_upto RPC_MSG_BUF_NUM (ready_ctx cb2 (next w1)) l0 l
    /\ w' = upd_heap (insert (next w) (BRpcCh (rpc_ch_at (next w) (next w + 2)))) w2;
  ru_state : cb_state cb2 = CONNECTED;
  ru_recvs : recvs (cb_qp cb2) (cb_cq cb2) w' = (wr_ids l, O);
  ru_sched : sched w' = s }.

(** What the creation of a channel asks of the kernel and of the target. *)
Record rpc_init_pre (w : world) (n : Z) (target : addr) (size : Z) (s : list async)
    : Prop := {
  ri_reliable : reliable K;
  ri_post : forall h qp wr, k_post_recv h qp wr = 0;
  ri_connect : forall h id p, k_connect h id p = 0;
  ri_id : forall h c, k_create_id h c = KPtr n;
  ri_handles : new_handles K w;
  ri_fresh : fresh_ok w;
  ri_target : exists tb str, heap w !! target = Some (BBytes tb)
    /\ c_str tb = Some str /\ (length str <= 16)%nat;
  ri_size : 0 <= msgbuf_size size;
  ri_sched : sched w = ACm (KPtr n) RDMA_CM_EVENT_ADDR_RESOLVED ::
    ACm (KPtr n) RDMA_CM_EVENT_ROUTE_RESOLVED ::
    ACm (KPtr n) RDMA_CM_EVENT_ESTABLISHED :: s }.

(** Setting up the RDMA channel leaves the two blocks of the RPC channel. *)
Lemma rpc_blocks_kept w w0 w1 w2 attr sin id l0 l cb2 :
  fresh_ok w -> next w0 = next w + 2 ->
  heap w0 = <[next w := BRpcCh (rpc_ch_at (next w) NULL)]>
    (<[next w + 1 := BBytes (zeros 4)]> (heap w)) ->
  init_done w0 attr sin id l0 w1 ->
  set_up w1 (next w + 2) (new_cb attr sin w0 id) l cb2 w2 ->
  heap w1 !! next w = Some (BRpcCh (rpc_ch_at (next w) NULL)) /\
  heap w2 !! next w = Some (BRpcCh (rpc_ch_at (next w) NULL)) /\
  heap w2 !! (next w + 1) = Some (BBytes (zeros 4)) /\
  (next w ∉ ctx_bufs l) /\ (next w + 1 ∉ ctx_bufs l).
Proof.
  intros [Hpos Hfree] Hn0 Hh0 [_ Hh1 _ _ _ _] [_ _ _ Hfr Hnew _ _ _ _ _ _ _ _].
  assert (Hb1 : heap w1 !! next w = Some (BRpcCh (rpc_ch_at (next w) NULL))).
  { rewrite Hh1, Hn0. unfold put_channel. rewrite !lookup_insert_ne, Hh0 by lia.
    apply lookup_insert_eq. }
  assert (Hb2 : heap w1 !! (next w + 1) = Some (BBytes (zeros 4))).
  { rewrite Hh1, Hn0. unfold put_channel. rewrite !lookup_insert_ne, Hh0 by lia.
    rewrite lookup_insert_ne by lia. apply lookup_insert_eq. }
  assert (N1 : next w ∉ ctx_bufs l) by (intros Ha; by rewrite (Hnew _ Ha) in Hb1).
  assert (N2 : next w + 1 ∉ ctx_bufs l) by (intros Ha; by rewrite (Hnew _ Ha) in Hb2).
  cbn [cb_buf_ctxs new_cb client_cb] in Hfr. rewrite Hn0 in Hfr.
  rewrite !Hfr by (try done; lia). done.
Qed.

Lemma rpc_up_bitmap w n port size f s cb2 l w' :
  fresh_ok w -> rpc_up w n port size f s cb2 l w' ->
  bitmap_at w' (next w) (rpc_ch_at (next w) (next w + 2)) [0; 0; 0; 0].
Proof.
  intros Hf [(ip & sin & l0 & w0 & w1 & w2 & Hh0 & Hn0 & Ho0 & Hin & Hsu & Hrdy & ->) _ _ _].
  destruct (rpc_blocks_kept w w0 w1 w2 _ _ _ _ _ _ Hf Hn0 Hh0 Hin Hsu)
    as (_ & Hp2 & Hb2 & _).
  split; [apply lookup_insert_eq|done| |done].
  wsimpl. rewrite lookup_insert_ne by (cbn; lia). exact Hb2.
Qed.

Lemma rpc_up_cb w n port size f s cb2 l w' :
  rpc_up w n port size f s cb2 l w' ->
  cb_rpc_msg_handler_cb cb2 = fn_client_rpc_rdma_msg_handler
  /\ cb_user_msg_handler_cb cb2 = f /\ cb_msgbuf_cnt cb2 = 4.
Proof.
  intros [(ip & sin & l0 & w0 & w1 & w2 & _ & _ & _ & _ & [Hcb _ _ _ _ _ _ _ _ _ _ _ _] & _) _ _ _].
  by destruct Hcb as (pd & cq & qp & st & ->).
Qed.

(** What sending needs of a new channel: context 0 has sequence number 1, and
    a send buffer of the size of a message. *)
Record rpc_up_parts (w : world) (size : Z) (cb2 : rdma_ch_cb) (l : list msgbuf_ctx)
    (ctx : msgbuf_ctx) (w' : world) : Prop := {
  up_bitmap : bitmap_at w' (next w) (rpc_ch_at (next w) (next w + 2)) [0; 0; 0; 0];
  up_chan : chan_at w' (next w + 2) cb2 l;
  up_ctx : ctx_at l 0 = Some ctx;
  up_seqn : mc_seqn ctx = 1;
  up_buf : exists buf, heap w' !! send_buf ctx = Some (BBytes buf)
    /\ length buf = Z.to_nat (msgbuf_size size);
  up_apart : send_buf ctx = next w + 5;
  up_qp : cb_qp cb2 ∈ qps w';
  up_sizes : cb_msgdata_size cb2 = size /\ cb_msgbuf_cnt cb2 = 4;
  up_frame : forall a b, heap w !! a = Some b -> heap w' !! a = Some b }.

(** The contexts of a new channel: [RPC_MSG_BUF_NUM] of them, with sequence
    number 1 and numbered receive requests. *)
Lemma new_ctxs cb2 p attr l0 l :
  at_msgbuf_cnt attr = RPC_MSG_BUF_NUM ->
  done_upto (at_msgbuf_cnt attr) init_ctx (zero_ctxs attr) l0 ->
  done_upto RPC_MSG_BUF_NUM (ready_ctx cb2 p) l0 l ->
  length l = BIT_ARR_SIZE /\ forall j c, l !! j = Some c ->
    mc_seqn c = 1 /\ send_buf c = p + 2 * Z.of_nat j + 1 /\ rwr_wr_id (rq_wr c) = Z.of_nat j.
Proof.
  intros Hcnt Hd0 Hd. unfold zero_ctxs in Hd0. rewrite Hcnt in Hd0.
  change (Z.to_nat RPC_MSG_BUF_NUM) with 4%nat in Hd0.
  pose proof Hd0 as [L0 _]. pose proof Hd as [L1 _]. cbn in L0.
  assert (Hlen : Z.of_nat (length l0) <= RPC_MSG_BUF_NUM) by (rewrite L0; done).
  split; [unfold BIT_ARR_SIZE; congruence|]. intros j c Hc.
  pose proof (lookup_lt_Some _ _ _ Hc) as Hj.
  destruct (lookup_lt_is_Some_2 l0 j) as [c0 Hc0]; [lia|].
  destruct (ready_parts _ _ _ _ _ (done_upto_all _ _ _ _ _ _ _ Hd Hlen Hc0 Hc))
    as (-> & _ & -> & ->). split; [|done].
  destruct (lookup_lt_is_Some_2 (replicate 4 zero_ctx) j) as [c1 Hc1];
    [rewrite length_replicate; lia|].
  pose proof (done_upto_all _ _ _ _ j _ _ Hd0 ltac:(done) Hc1 Hc0) as Hc0'.
  unfold init_ctx in Hc0'. by rewrite Hc0'.
Qed.

(** Context 0 of a channel that is ready. *)
Lemma first_ctx cb2 p attr l0 l :
  at_msgbuf_cnt attr = RPC_MSG_BUF_NUM ->
  done_upto (at_msgbuf_cnt attr) init_ctx (zero_ctxs attr) l0 ->
  done_upto RPC_MSG_BUF_NUM (ready_ctx cb2 p) l0 l ->
  exists ctx, ctx_at l 0 = Some ctx /\ mc_seqn ctx = 1 /\ send_buf ctx = p + 1
    /\ send_buf ctx ∈ ctx_bufs l.
Proof.
  intros Hcnt Hd0 Hd. destruct (new_ctxs _ _ _ _ _ Hcnt Hd0 Hd) as [Hl Hctx].
  destruct (lookup_lt_is_Some_2 l 0) as [c Hc]; [rewrite Hl; unfold BIT_ARR_SIZE; lia|].
  destruct (Hctx _ _ Hc) as (Hs & Hb & _). exists c. split; [by apply ctx_at_Some|].
  split; [done|]. split; [rewrite Hb; lia|].
  unfold ctx_bufs. apply list_elem_of_bind. exists c. split; [right; left|].
  by eapply list_elem_of_lookup_2.
Qed.

Lemma rpc_up_channel w n port size f s cb2 l w' :
  fresh_ok w -> rpc_up w n port size f s cb2 l w' ->
  exists ctx, rpc_up_parts w size cb2 l ctx w'.
Proof.
  intros Hf Hup. pose proof (rpc_up_bitmap _ _ _ _ _ _ _ _ _ Hf Hup) as Hbm.
  destruct Hup as [(ip & sin & l0 & w0 & w1 & w2 & Hh0 & Hn0 & Ho0 & Hin & Hsu & Hrdy & ->) _ _ _].
  destruct (rpc_blocks_kept w w0 w1 w2 _ _ _ _ _ _ Hf Hn0 Hh0 Hin Hsu)
    as (Hp1 & Hp2 & Hb2 & Hnb & Hnb2).
  assert (Hctxs : cb_buf_ctxs (new_cb (rpc_attr ip port size f) sin w0 (KPtr n)) = next w + 3)
    by (cbn; lia).
  eapply (set_up_frame _ _ _ _ _ _ _ (BRpcCh (rpc_ch_at (next w) (next w + 2)))) in Hsu;
    [|done|done|lia|rewrite Hctxs; lia|done].
  destruct Hin as [Hd0 Hh1 _ Hn1 _ _].
  destruct (first_ctx _ _ (rpc_attr ip port size f) _ _ eq_refl Hd0 Hrdy)
    as (ctx & Hc & Hseq & Hsb & Hin).
  destruct Hsu as [(pd & cq & qp & st & ->) Hch _ Hfr Hnew _ _ _ Hq _ _ _ _ Hz].
  destruct Hf as [Hpos Hfree]. wsimpl in Hq. rewrite Hctxs in Hfr.
  assert (Hlow : forall a, a < next w -> heap w1 !! a = heap w !! a).
  { intros a Ha. rewrite Hh1, Hn0. unfold put_channel.
    by rewrite !lookup_insert_ne, Hh0, !lookup_insert_ne by lia. }
  exists ctx. split; try done.
  - by apply Hz.
  - by rewrite Hsb, Hn1, Hn0; lia.
  - wsimpl. rewrite Hq. set_solver.
  - intros a b Ha. assert (a < next w) by (apply Z.nle_gt; intros ?; by rewrite Hfree in Ha).
    assert (Ha1 : heap (upd_heap (insert (next w) (BRpcCh (rpc_ch_at (next w) (next w + 2)))) w1)
      !! a = Some b) by (wsimpl; rewrite lookup_insert_ne by lia; by rewrite Hlow).
    rewrite Hfr; [done|lia|lia|]. intros Hina. by rewrite (Hnew _ Hina) in Ha1.
Qed.

Lemma least_of_new : is_least 0 (free_bits [0; 0; 0; 0]).
Proof. split; [|intros j _; lia]. apply elem_of_free_bits. unfold BIT_ARR_SIZE.
  split; [lia|done]. Qed.

(** A new channel can send data that fills a message. *)
Lemma rpc_up_send_pre w size cb2 l ctx w' req bd :
  fresh_ok w -> rpc_up_parts w size cb2 l ctx w' -> 0 <= size < 2 ^ 31 - 24 ->
  req_rpc_ch req = next w -> heap w !! req_data req = Some (BBytes bd) ->
  size <= Z.of_nat (length bd) -> is_Some (c_str (take (Z.to_nat size) bd)) ->
  rpc_send_pre w' (next w) (rpc_ch_at (next w) (next w + 2)) [0; 0; 0; 0] 0 cb2 l ctx req bd.
Proof.
  intros [_ Hfree] [Hbm [Hcb Hl Hlen] Hc Hsq (buf & Hb & Hbl) Ha Hq [Hds Hcnt] Hfr]
    Hsz Hch Hd Hdl Hstr.
  assert (req_data req < next w) by (apply Z.nle_gt; intros ?; by rewrite Hfree in Hd).
  split; try done.
  - apply least_of_new.
  - split; try done; rewrite ?Hds, ?Hcnt; try lia.
    + exists buf. split; [done|]. rewrite Hbl, msgbuf_size_small by lia. lia.
    + by apply Hfr.
  - unfold sent_data. by rewrite Hds.
  - rewrite Ha. cbn. lia.
Qed.

Lemma strcpy_ip v tb str :
  c_str tb = Some str -> (length str <= 16)%nat ->
  exists ip, strcpy (le_bytes 16 v) tb = Some ip /\ length ip = 16%nat.
Proof.
  intros Hs Hl. unfold strcpy. rewrite Hs. cbn [mbind option_bind].
  destruct (write_at 0 str (le_bytes 16 v)) as [ip|] eqn:E.
  - exists ip. split; [done|]. rewrite (length_write_at _ _ _ _ E). apply length_le_bytes.
  - rewrite write_at_Some in E; [done|]. rewrite length_le_bytes. lia.
Qed.

Lemma wp_init_rpc_client t w n target port size f s (Q : addr -> world -> Prop) :
  rpc_init_pre w n target size s ->
  (forall cb2 l w', rpc_up w n port size f s cb2 l w' -> Q (next w) w') ->
  wp t (init_rpc_client RPC_CH_RDMA target port size f) Q w.
Proof.
  intros [HK Hpost Hconn Hid Hnew [Hpos Hfree] (tb & str & Htb & Hstr & Hlen) Hsz Hs] HQ.
  assert (target < next w) by (apply Z.nle_gt; intros ?; by rewrite Hfree in Htb).
  unfold init_rpc_client, stack_bytes, indeterminate.
  wp_step. apply wp_kzalloc; [intros _|by rewrite (rl_alloc _ HK)]. do 3 wp_step.
  apply wp_kzalloc; [intros _|by rewrite (rl_alloc _ HK)]. wsimpl. do 4 wp_step.
  change (negb (RPC_CH_RDMA =? RPC_CH_RDMA)) with false. cbv iota. do 6 wp_step.
  match goal with |- context [k_stack ?h] => set (v := k_stack h) end.
  destruct (strcpy_ip v tb str) as (ip & Hip & Hipl); [done|done|].
  do 3 wp_step.
  match goal with |- wp _ (init_rdma_ch ?a) _ ?w =>
    change a with (rpc_attr ip port size f); set (w0 := w) end.
  assert (Hh0 : heap w0 = <[next w := BRpcCh (rpc_ch_at (next w) NULL)]>
    (<[next w + 1 := BBytes (zeros 4)]> (heap w))).
  { unfold w0, rpc_ch_at. heap_ext. }
  assert (Hn0 : next w0 = next w + 2) by (unfold w0; wsimpl; lia).
  assert (Hf0 : fresh_ok w0).
  { split; [lia|]. intros a Ha. rewrite Hh0, !lookup_insert_ne by lia. apply Hfree. lia. }
  assert (Hsin : exists sin, init_sin (rpc_attr ip port size f) = Some sin).
  { unfold init_sin, fill_sockaddr, rpc_attr. cbn [at_server at_ip_addr].
    change (0 =? 0) with true. cbv iota. unfold read_at.
    rewrite decide_True by lia. by eexists. }
  destruct Hsin as [sin Hsin].
  assert (Hat : client_attr (rpc_attr ip port size f) sin).
  { split; [done|cbn; unfold RPC_MSG_BUF_NUM; lia|done|done]. }
  eapply wp_init_rdma_ch; [apply HK|done|done|done|]. intros l0 w1 Hin.
  eapply (wp_run_client_ok HK);
    [by eapply (init_client_at w0)|eapply (init_new_handles w0); [done|by apply (new_handles_objs w)]|done|done|].
  intros l cb2 w2 Hsu Hst Hrdy Hs2 Hv2. rewrite Hn0 in *.
  destruct (rpc_blocks_kept w w0 w1 w2 _ _ _ _ _ _ ltac:(by split) Hn0 Hh0 Hin Hsu)
    as (Hp1 & Hp2 & _).
  do 4 wp_step. rec_simpl.
  rewrite (proj2 (Z.eqb_neq _ _)) by (unfold NULL; lia). wp_step.
  apply (HQ cb2 l). split; [|done|done|done].
  exists ip, sin, l0, w0, w1, w2. rewrite Hn0. done.
Qed.

Lemma wp_destroy_rpc_client t w n port size f s cb2 l w' (Q : unit -> world -> Prop) :
  fresh_ok w -> cms w !! KPtr n = None -> rpc_up w n port size f s cb2 l w' ->
  (forall w3, heap w3 = heap w -> objs w3 = objs w -> sched w3 = s -> Q tt w3) ->
  wp t (destroy_rpc_client (next w)) Q w'.
Proof.
  intros Hf Hid [(ip & sin & l0 & w0 & w1 & w2 & Hh0 & Hn0 & Ho0 & Hin & Hsu & Hrdy & ->) _ _ Hs'] HQ.
  pose proof Hf as [Hpos Hfree]. set (b := BRpcCh (rpc_ch_at (next w) (next w + 2))).
  destruct (rpc_blocks_kept w w0 w1 w2 _ _ _ _ _ _ Hf Hn0 Hh0 Hin Hsu)
    as (Hp1 & Hp2 & Hb2 & Hnb & _).
  assert (Hctxs : cb_buf_ctxs (new_cb (rpc_attr ip port size f) sin w0 (KPtr n)) = next w + 3)
    by (cbn; lia).
  eapply (set_up_frame _ _ _ _ _ _ _ b) in Hsu; [|done|done|lia|rewrite Hctxs; lia|done].
  unfold destroy_rpc_client. wp_step. eapply wp_load; [apply lookup_insert_eq|].
  wp_step. change (ch_type _ =? RPC_CH_RDMA) with true. cbv iota.
  change (ch_cb _) with (next w + 2).
  eapply wp_destroy_rdma_client; [done|done|]. intros w3 [Dh Dp Dc Dq Dd Dcm [De Ds]].
  destruct Hin as [_ Hh1 Hcm1 Hn1 Ho1 Hs1]. wsimpl in Dh.
  rewrite Hh1, Hctxs, Hn0 in Dh. unfold put_channel in Dh.
  replace (next w + 2 + 1) with (next w + 3) in Dh by lia.
  assert (Hd1 : heap w3 !! next w = Some b).
  { rewrite Dh. rewrite !lookup_delete_ne by lia. apply lookup_insert_eq. }
  assert (Hd2 : heap w3 !! (next w + 1) = Some (BBytes (zeros 4))).
  { rewrite Dh, !lookup_delete_ne, !lookup_insert_ne, Hh0 by lia.
    rewrite lookup_insert_ne by lia. apply lookup_insert_eq. }
  wp_step. eapply wp_load; [exact Hd1|]. unfold bit_array_free. wp_step.
  change (msgbuf_bitmap _) with (next w + 1). wp_step. wp_step.
  apply HQ; wsimpl; [|unfold objs in *; wsimpl|].
  - rewrite Dh, Hh0. apply map_eq. intros a.
    destruct (decide (next w <= a < next w + 4)) as [Ha|Ha].
    + rewrite (Hfree a) by lia.
      assert (a = next w \/ a = next w + 1 \/ a = next w + 2 \/ a = next w + 3) as Hc by lia.
      destruct Hc as [->| [ -> | [ -> | -> ] ] ]; rewrite ?lookup_delete_eq; [done|..];
        repeat (rewrite lookup_delete_ne by lia; rewrite ?lookup_delete_eq; try done).
    + by rewrite !lookup_delete_ne, !lookup_insert_ne by lia.
  - unfold objs in Ho0, Ho1. wsimpl in Ho1. injection Ho0 as Ecm Ecq Epd Eqp Edm Eer.
    injection Ho1 as Ecq1 Epd1 Eqp1 Edm1 Eer1. wsimpl in *.
    rewrite Dp, Dc, Dq, Dd, De, Dcm, Hcm1. cbn [cb_cm_id new_cb client_cb].
    rewrite delete_insert_id by by rewrite Ecm. congruence.
  - rewrite Ds. exact Hs'.
Qed.

(** [init_rpc_client] on an RDMA channel, with a kernel whose calls succeed
    and the connection coming up, for a target string of at most 16 bytes:
    it returns a channel with an empty bitmap over a connected RDMA
    channel of four message buffers that uses the RPC layer's handler. *)
Theorem init_rpc_client_ok w n target port size f s :
  rpc_init_pre w n target size s ->
  exists cb2 l w', init_rpc_client RPC_CH_RDMA target port size f w = Ok (next w) w'
    /\ rpc_up w n port size f s cb2 l w'
    /\ bitmap_at w' (next w) (rpc_ch_at (next w) (next w + 2)) [0; 0; 0; 0]
    /\ cb_rpc_msg_handler_cb cb2 = fn_client_rpc_rdma_msg_handler
    /\ cb_user_msg_handler_cb cb2 = f /\ cb_msgbuf_cnt cb2 = 4.
Proof.
  intros Hpre.
  destruct (wp_total_run (init_rpc_client RPC_CH_RDMA target port size f) (fun r w' =>
    r = next w /\ exists cb2 l, rpc_up w n port size f s cb2 l w') w)
    as (r & w' & Hr & -> & cb2 & l & Hup).
  { eapply wp_init_rpc_client; [done|]. eauto. }
  exists cb2, l, w'. split; [done|]. split; [done|]. split; [|].
  - by eapply rpc_up_bitmap; [apply Hpre|].
  - by eapply rpc_up_cb.
Qed.

(** An RPC channel leaks nothing: creating one with [init_rpc_client] and
    destroying it with [destroy_rpc_client] leaves the memory and every
    kernel object as before. *)
Theorem rpc_channel_leak_free w n target port size f s :
  rpc_init_pre w n target size s -> cms w !! KPtr n = None ->
  exists w', (ch ← init_rpc_client RPC_CH_RDMA target port size f;
              destroy_rpc_client ch) w = Ok tt w'
    /\ heap w' = heap w /\ objs w' = objs w /\ sched w' = s.
Proof.
  intros Hpre Hid. apply (wp_total_unit _ (fun _ w' =>
    heap w' = heap w /\ objs w' = objs w /\ sched w' = s)).
  wp_step. eapply wp_init_rpc_client; [done|]. intros cb2 l w' Hup.
  eapply wp_destroy_rpc_client; [apply Hpre|done|done|]. auto.
Qed.
(** C7. The first request of a new channel, end to end: [init_rpc_client] and
    then [send_rpc_msg_to_server], with a kernel whose calls succeed and data
    that fills a message, take message buffer 0 and put the big-endian image
    of the request in its send buffer. Its sequence number is 2, as [init_rdma_ch]
    sets it to 1 ("Start from 1") and [alloc_seqn] increments it first. *)
Theorem first_request w n target port size f s data bd sem :
  rpc_init_pre w n target size s -> 0 <= size < 2 ^ 31 - 24 ->
  heap w !! data = Some (BBytes bd) -> size <= Z.of_nat (length bd) ->
  is_Some (c_str (take (Z.to_nat size) bd)) ->
  let req := {| req_rpc_ch := next w; req_data := data; req_sem := sem |} in
  exists w1 w2 cb2 l ctx e, init_rpc_client RPC_CH_RDMA target port size f w = Ok (next w) w1
    /\ send_rpc_msg_to_server req w1 = Ok 0 w2
    /\ rpc_sent w1 (next w) (rpc_ch_at (next w) (next w + 2)) [0; 0; 0; 0] 0 cb2 l ctx req bd e w2
    /\ heap w2 !! send_buf ctx = Some (BBytes
         (wire_image 2 (next w) sem (take (Z.to_nat size) bd))).
Proof.
  intros Hpre Hsz Hd Hdl Hstr req. pose proof Hpre as [_ _ _ _ _ Hf _ _ _].
  destruct (wp_total_run (init_rpc_client RPC_CH_RDMA target port size f) (fun r w' =>
    r = next w /\ exists cb2 l, rpc_up w n port size f s cb2 l w') w)
    as (r & w1 & Hr & -> & cb2 & l & Hup).
  { eapply wp_init_rpc_client; [done|]. eauto. }
  destruct (rpc_up_channel _ _ _ _ _ _ _ _ _ Hf Hup) as [ctx Hp].
  pose proof (rpc_up_send_pre _ _ _ _ _ _ req _ Hf Hp Hsz eq_refl Hd Hdl Hstr) as Hsp.
  destruct (wp_total_run (send_rpc_msg_to_server req) (fun r w' =>
    r = 0 /\ exists e, rpc_sent w1 (next w) (rpc_ch_at (next w) (next w + 2)) [0; 0; 0; 0] 0
      cb2 l ctx req bd e w') w1) as (r & w2 & Hr2 & -> & e & He).
  { eapply wp_send_rpc_msg; [done|]. eauto. }
  exists w1, w2, cb2, l, ctx, e. split; [done|]. split; [done|]. split; [done|].
  destruct He as [v [_ Him _ _ _ _ _ _] ]. destruct Hp as [_ _ _ Hsq _ _ _ [Hds _] _].
  rewrite Him, Hsq. unfold sent_data. by rewrite Hds.
Qed.
End Rpc_life.
