(* ===== verification/RpcTest.v ===== *)
(** * RpcTest: the kernel module that uses the library ([rpc_client_test.c])

    The test module's message handlers, [test_main] and the operations of
    [/proc/krping].  The handlers are the program's implementation of the
    interface [UserHandler]. *)
From stdpp Require Import gmultiset.
From S2P Require Import Prelude Types Kernel Logic Verbs ModEnv Frame Bitmap MsgbufIds Wire.
From S2P Require Import RdmaIo Wait RdmaCm RdmaMem RdmaBufs RdmaCh RpcClient.

(** [test_global.h]. *)
Definition MAX_MSG_DATA_SIZE : Z := 4096.
Definition g_port : Z := 7174.
(** "192.168.14.118", for [in4_pton]. *)
Definition g_ip_addr : list Z :=
  [49; 57; 50; 46; 49; 54; 56; 46; 49; 52; 46; 49; 49; 56; 0].

(** The string literal of [test_main], with its terminator. *)
Definition hello_world : list Z :=
  [104; 101; 108; 108; 111; 32; 119; 111; 114; 108; 100; 0].

(** The functions whose addresses the module passes as message handlers. *)
Definition client_rdma_msg_handler_fn : fnptr := fn_user 0.
Definition rpc_shmem_client_handler_fn : fnptr := fn_user 1.

Definition client_rdma_msg_handler (arg : addr) : M unit :=
  param ← load (T := msg_handler_param) arg;
  msg ← load (T := rpc_msg) (mp_msg param);
  printk_s (msg_data msg);;
  wake_up_interruptible (WqUser (msg_sem msg));;
  kfree (mp_msg param);;
  kfree arg.

Definition rpc_shmem_client_handler (arg : addr) : M unit :=
  msg ← load (T := rpc_msg) arg;
  printk_s (msg_data msg).

#[export] Instance test_handlers : UserHandler := fun n p =>
  if n =? 0 then client_rdma_msg_handler p
  else if n =? 1 then rpc_shmem_client_handler p
  else fault (BadAddress n).

Section Test.
Context {K : Kernel} {E : ModuleEnv}.

(** [data] is the address of the literal, [sem] that of the wait queue on the
    stack. *)
Definition test_main (data sem : addr) : M Z :=
  g_ip_addr_res ← kmalloc 16;
  (match in4_pton g_ip_addr with
   | Some b => write_bytes g_ip_addr_res 0 b
   | None => mret tt
   end);;
  rpc_cli_ch ← init_rpc_client RPC_CH_RDMA g_ip_addr_res g_port MAX_MSG_DATA_SIZE
                 client_rdma_msg_handler_fn;
  l ← load data; printk_s l;;
  send_rpc_msg_to_server {| req_rpc_ch := rpc_cli_ch; req_data := data; req_sem := sem |};;
  if rpc_cli_ch =? NULL then mret (-1) else
  destroy_rpc_client rpc_cli_ch;;
  mret 0.

Definition krping_read_proc : M Z :=
  b ← module_get;
  if negb b then mret (- ENODEV) else module_put;; mret 0.

Definition krping_write_proc (data sem buffer : addr) (count : Z) : M Z :=
  b ← module_get;
  if negb b then mret (- ENODEV) else
  cmd ← kmalloc count;
  if cmd =? NULL then mret (- ENOMEM) else
  c ← call (fun h => copy_from_user h buffer count)
           (fun c => EvModule "copy_from_user" (if c is Some _ then 0 else count));
  match c with
  | None => kfree cmd;; mret (- EFAULT)
  | Some c =>
      write_bytes cmd 0 c;;
      (if count =? 0 then fault OutOfBounds
       else write_bytes cmd (Z.to_nat (count - 1)) [0]);;
      l ← load cmd; printk_s l;;
      rc ← test_main data sem;
      kfree cmd;;
      module_put;;
      if negb (rc =? 0) then mret rc else mret (i32 count)
  end.

Definition krping_init : M Z :=
  b ← call proc_create (fun b => EvModule "proc_create" (if b then 1 else 0));
  if negb b then mret (- ENOMEM) else mret 0.
Definition krping_exit : M unit := emit (EvModule "remove_proc_entry" 0).
End Test.

(** ** The handlers implement the user's interface *)

#[export] Instance test_handlers_laws : UserHandlerLaws test_handlers.
Proof.
  intros n p w w' Hf Hr. unfold user_handler, test_handlers in Hr.
  refine (wp_run (t := Partial) _ (fun _ w' => kept w w') _ _ _ _ Hr).
  pose proof (kept_refl w Hf) as Hk.
  destruct (n =? 0); [|destruct (n =? 1); [|done]].
  - unfold client_rdma_msg_handler. do 2 wp_step_p. do 2 wp_step_p. wp_step. wp_step_p.
    unfold wake_up_interruptible. do 5 wp_step. wsimpl.
    set (w1 := set_woken _ _). assert (Hk1 : kept w w1) by (unfold w1; solve_kept).
    assert (Hkd : forall a w2, (forall c, heap w !! a <> Some (BCb c)) -> kept w w2 ->
      wp Partial (kfree a) (fun _ w3 => kept w w3) w2).
    { intros a w2 Ha Hw2. apply wp_kfree_p; intros; apply kept_log; [|done].
      by apply kept_delete_not_cb. }
    eapply wp_mono; [apply Hkd; [|done]|intros [] w2 H2; apply Hkd; [|done]].
    all: intros c Hc; cbn in *; congruence.
  - unfold rpc_shmem_client_handler. do 2 wp_step_p. by wp_step_p.
Qed.

(** ** The response path *)

(** Freeing the three objects gives back the memory below them. *)
Lemma drop_recv_objects p (b1 b2 b3 x : block) a (h : gmap addr block) :
  (forall a, p <= a -> h !! a = None) -> a < p ->
  delete p (delete (p + 1) (delete (p + 2)
    (<[a := x]> (<[p := b1]> (<[p + 1 := b2]> (<[p + 2 := b3]> h)))))) = <[a := x]> h.
Proof.
  intros Hfree Ha. apply map_eq. intros k.
  destruct (decide (k = p)) as [->|H0].
  { rewrite lookup_delete_eq, lookup_insert_ne by lia. symmetry. apply Hfree. lia. }
  destruct (decide (k = p + 1)) as [->|H1].
  { rewrite lookup_delete_ne, lookup_delete_eq, lookup_insert_ne by lia.
    symmetry. apply Hfree. lia. }
  destruct (decide (k = p + 2)) as [->|H2].
  { rewrite !(lookup_delete_ne _ p), !(lookup_delete_ne _ (p + 1)), lookup_delete_eq,
      lookup_insert_ne by lia. symmetry. apply Hfree. lia. }
  rewrite !lookup_delete_ne by done. destruct (decide (k = a)) as [->|H3];
    [by rewrite !lookup_insert_eq|]. by rewrite !lookup_insert_ne.
Qed.

Section Response.
Context {K : Kernel}.

(** The memory after a response: the id is free again, the channel works. *)
Definition response_heap (w : world) (cba : addr) (cb : rdma_ch_cb) (c : rpc_ch_info)
    (l : list Z) (id : nat) : gmap addr block :=
  <[cba := BCb (if cb_state cb <=s CONNECTED then with_state WORKING cb else cb)]>
    (<[msgbuf_bitmap c := BBytes (<[id := 0]> l)]> (heap w)).

(** What the handling of a response leaves. *)
Record responded (w : world) (cba : addr) (cb : rdma_ch_cb) (c : rpc_ch_info)
    (l : list Z) (sem : Z) (id : nat) (w' : world) : Prop := {
  rd_heap : heap w' = response_heap w cba cb c l id;
  rd_trace : trace w' = EvKfree (next w) :: EvKfree (next w + 1) :: EvKfree (next w + 2)
    :: EvWakeUp (WqUser (u64 sem)) :: recv_trace w;
  rd_next : next w' = next w + 3;
  rd_sched : sched w' = sched w;
  rd_objs : objs w' = objs w }.

Lemma wp_response t w cba cb lc wc ctx seqn ch sem d c l id (Q : Z -> world -> Prop) :
  recv_pre w cba cb lc wc ctx seqn ch sem d -> is_Some (c_str d) ->
  recv_allocs_ok w cb = true ->
  cb_rpc_msg_handler_cb cb = fn_client_rpc_rdma_msg_handler ->
  cb_user_msg_handler_cb cb = client_rdma_msg_handler_fn ->
  bitmap_at w (u64 ch) c l -> i32 (wc_wr_id wc) = Z.of_nat id -> (id < BIT_ARR_SIZE)%nat ->
  (forall w', responded w cba cb c l sem id w' -> Q 0 w') ->
  wp t (receive_msg cba wc) Q w.
Proof.
  intros Hpre Hstr Hal Hrpc Husr Hbm Hid Hlt HQ.
  pose proof Hpre as [Hcb _ _ _ _ _ _ [Hpos Hfree]].
  unfold receive_msg. wp_step.
  eapply wp_receive_copy_ok; [done|done|done|]. intros w1 Hh1 Ht1 Hn1 Hs1 Ho1.
  assert (Hlt1 : forall a b, heap w !! a = Some b -> a < next w)
    by (intros a b Ha; apply Z.nle_gt; intros ?; by rewrite Hfree in Ha).
  pose proof Hbm as [Hc Hul Hl Hlen].
  pose proof (Hlt1 _ _ Hcb). pose proof (Hlt1 _ _ Hc). pose proof (Hlt1 _ _ Hl).
  assert (cba <> msgbuf_bitmap c) by congruence.
  unfold put_recv_objects in Hh1.
  set (rp := recv_rpc_param _ _ _ _) in *. set (mp := recv_param _ _ _) in *.
  assert (Hp : heap w1 !! next w = Some (BRpcParam rp)) by (rewrite Hh1; heap_lookup).
  assert (Hbm1 : bitmap_at w1 (u64 ch) c l) by (split; try done; rewrite Hh1; heap_lookup).
  rewrite Hrpc. unfold rpc_handler, rpc_layer, client_rpc_rdma_msg_handler.
  do 4 wp_step. change (rp_client_rpc_ch rp) with (u64 ch).
  eapply wp_free_msgbuf_id; [done| |].
  { change (rp_msgbuf_id rp) with (i32 (wc_wr_id wc)). rewrite Hid.
    unfold u64. rewrite uint_small by (unfold in_u, BIT_ARR_SIZE in *; lia).
    by apply bit_array_put_in. }
  set (w2 := put_bitmap _ _ _).
  assert (Hh2 : heap w2 = <[msgbuf_bitmap c := BBytes (<[id := 0]> l)]> (heap w1)) by done.
  assert (Hp2 : heap w2 !! next w = Some (BRpcParam rp)) by (rewrite Hh2; heap_lookup).
  assert (Hm2 : heap w2 !! (next w + 1) = Some (BParam mp))
    by (rewrite Hh2, Hh1; heap_lookup).
  assert (Hg2 : heap w2 !! (next w + 2) = Some (BRpcMsg (recv_rpc_msg seqn ch sem d)))
    by (rewrite Hh2, Hh1; heap_lookup).
  assert (Hcb2 : heap w2 !! cba = Some (BCb cb)) by (rewrite Hh2, Hh1; heap_lookup).
  do 3 wp_step. change (rp_user_msg_handler_cb rp) with (cb_user_msg_handler_cb cb).
  rewrite Husr. change (rp_param rp) with (next w + 1).
  unfold call_user, client_rdma_msg_handler_fn, user_handler, test_handlers,
    client_rdma_msg_handler. change (0 =? 0) with true. cbv iota.
  do 4 wp_step. change (mp_msg mp) with (next w + 2) in *.
  do 11 wp_step. unfold receive_done. do 3 wp_step.
  destruct (cb_state cb <=s CONNECTED) eqn:Est; wp_steps;
    (apply HQ; split; wsimpl; [unfold response_heap, with_state; rewrite Est
      |change (trace w2) with (trace w1); by rewrite Ht1|exact Hn1|exact Hs1|exact Ho1]);
    rewrite Hh2, Hh1, drop_recv_objects by done; [done|].
  symmetry. apply insert_id. heap_lookup.
Qed.

(** C21. A response, from the completion of its receive to the return of
    [receive_msg], with the RPC layer's handler and the module's: the message
    id that becomes free is the number of the receive buffer the message
    landed in; the thread waiting on the semaphore named in the message is
    woken; the three objects allocated on the way are freed; the channel
    goes to [WORKING]; nothing else of the memory changes. *)
Theorem response_handled w cba cb lc wc ctx seqn ch sem d c l id :
  recv_pre w cba cb lc wc ctx seqn ch sem d -> is_Some (c_str d) ->
  recv_allocs_ok w cb = true ->
  cb_rpc_msg_handler_cb cb = fn_client_rpc_rdma_msg_handler ->
  cb_user_msg_handler_cb cb = client_rdma_msg_handler_fn ->
  bitmap_at w (u64 ch) c l -> i32 (wc_wr_id wc) = Z.of_nat id -> (id < BIT_ARR_SIZE)%nat ->
  exists w', receive_msg cba wc w = Ok 0 w'
    /\ heap w' = response_heap w cba cb c l id
    /\ trace w' = EvKfree (next w) :: EvKfree (next w + 1) :: EvKfree (next w + 2)
         :: EvWakeUp (WqUser (u64 sem)) :: recv_trace w.
Proof.
  intros Hpre Hstr Hal Hrpc Husr Hbm Hid Hlt.
  destruct (wp_total_run (receive_msg cba wc) (fun r w' => r = 0 /\
    responded w cba cb c l sem id w') w) as (r & w' & Hr & -> & [Hh Ht _ _ _]); [|by eauto].
  by eapply wp_response.
Qed.
End Response.

(** ** The module's operations *)

Lemma c_str_length l s : c_str l = Some s -> (length s <= length l)%nat.
Proof.
  revert s. induction l as [|b l IH]; intros s; [done|]. cbn [c_str].
  destruct (b =? 0); [intros [= <-]; cbn; lia|].
  destruct (c_str l) as [s'|]; [|done]. cbn. intros [= <-].
  specialize (IH s' eq_refl). cbn. lia.
Qed.

Section Module.
Context {K : Kernel} {E : ModuleEnv}.

(** A request on a new channel whose data is shorter than a message. *)
Lemma send_rpc_short_data w size cb2 l ctx w' req bd :
  fresh_ok w -> rpc_up_parts w size cb2 l ctx w' -> 0 <= size < 2 ^ 31 - 24 ->
  req_rpc_ch req = next w -> heap w !! req_data req = Some (BBytes bd) ->
  Z.of_nat (length bd) < size ->
  send_rpc_msg_to_server req w' = Undef OutOfBounds.
Proof.
  intros [_ Hfree] [Hbm [Hcb Hl _] Hc _ (buf & Hb & Hbl) Ha _ [Hds Hcnt] Hfr] Hsz Hch Hd Hlen.
  assert (req_data req < next w) by (apply Z.nle_gt; intros ?; by rewrite Hfree in Hd).
  pose proof Hbm as [Hrc _ Hbits _]. cbn [msgbuf_bitmap rpc_ch_at] in Hbits.
  unfold send_rpc_msg_to_server. rewrite Hch. apply fault_bind.
  eapply wp_alloc_msgbuf_id; [done|apply least_of_new|]. intros v.
  set (w1 := put_bitmap _ _ _).
  assert (Hat : forall a, a <> next w + 1 -> heap w1 !! a = heap w' !! a)
    by (intros a Hne; apply lookup_insert_ne; cbn; congruence).
  erewrite bind_run by (apply load_run; rewrite Hat by lia; exact Hrc).
  apply bind_undef. change (ch_type _ =? RPC_CH_RDMA) with true. cbv iota.
  apply bind_undef. change (i32 (Z.of_nat 0)) with 0.
  assert (Hne : cb_buf_ctxs cb2 <> next w + 1) by congruence.
  eapply (send_short_data w1 (next w + 2) cb2 l 0 ctx _ bd);
    [by rewrite Hat by lia|by rewrite Hat|done|lia| | | |lia|lia].
  - rewrite Hat by lia. exact Hb.
  - rewrite Hbl, msgbuf_size_small by lia. lia.
  - rewrite Hat by lia. by apply Hfr.
Qed.

(** C38. [test_main] sends the literal "hello world", of 12 bytes, as a message
    of [MAX_MSG_DATA_SIZE] = 4096: with a kernel whose calls succeed and the
    connection coming up, it always has undefined behaviour, reading beyond
    the literal if it has not already run [strcpy] beyond the binary
    address. *)
Theorem test_main_overread w n data sem s b :
  reliable K -> (forall h qp wr, k_post_recv h qp wr = 0) ->
  (forall h id p, k_connect h id p = 0) -> (forall h c, k_create_id h c = KPtr n) ->
  new_handles K w -> fresh_ok w ->
  heap w !! data = Some (BBytes hello_world) ->
  in4_pton g_ip_addr = Some b -> length b = 4%nat ->
  sched w = ACm (KPtr n) RDMA_CM_EVENT_ADDR_RESOLVED ::
    ACm (KPtr n) RDMA_CM_EVENT_ROUTE_RESOLVED ::
    ACm (KPtr n) RDMA_CM_EVENT_ESTABLISHED :: s ->
  test_main data sem w = Undef OutOfBounds.
Proof.
  intros HK Hpost Hconn Hid Hnew [Hpos Hfree] Hd Hb Hbl Hs.
  assert (data < next w) by (apply Z.nle_gt; intros ?; by rewrite Hfree in Hd).
  unfold test_main, kmalloc, indeterminate. apply fault_bind. do 2 wp_step.
  apply wp_kzalloc_size; [intros _|lia].
  apply wp_kzalloc; [intros _|by rewrite (rl_alloc _ HK)]. wsimpl.
  set (v := k_stack (trace w)). rewrite Hb. apply fault_bind.
  assert (Hw : write_at 0 b (le_bytes (Z.to_nat 16) v)
    = Some (b ++ drop 4 (le_bytes (Z.to_nat 16) v))).
  { rewrite write_at_Some; [by rewrite Hbl|]. rewrite length_le_bytes, Hbl. lia. }
  eapply wp_write_bytes; [heap_lookup|exact Hw|].
  set (tb := b ++ _). assert (Htl : length tb = 16%nat)
    by (unfold tb; rewrite length_app, length_drop, length_le_bytes; lia).
  set (w1 := upd_heap _ _).
  assert (Hf1 : fresh_ok w1).
  { split; [unfold w1; wsimpl; lia|]. intros a Ha. unfold w1 in *. wsimpl in Ha. wsimpl.
    rewrite !lookup_insert_ne by lia. apply Hfree. lia. }
  assert (Ht1 : heap w1 !! next w = Some (BBytes tb)) by (unfold w1; heap_lookup).
  assert (Hd1 : heap w1 !! data = Some (BBytes hello_world)) by (unfold w1; heap_lookup).
  destruct (c_str tb) as [str|] eqn:Estr.
  2: { apply bind_undef. by eapply init_rpc_client_overread; [apply HK|..]. }
  pose proof (c_str_length _ _ Estr) as Hsl.
  assert (Hpre : rpc_init_pre w1 n (next w) MAX_MSG_DATA_SIZE s).
  { split; try done; [by apply (new_handles_objs w)|]. exists tb, str.
    split; [done|split; [done|lia]]. }
  apply fault_bind. eapply wp_init_rpc_client; [done|]. intros cb2 l w2 Hup.
  destruct (rpc_up_channel _ _ _ _ _ _ _ _ _ Hf1 Hup) as [ctx Hp].
  pose proof Hp as [_ _ _ _ _ _ _ _ Hfr].
  erewrite bind_run by (apply (load_run (A := list Z)), Hfr, Hd1).
  erewrite bind_run by reflexivity. apply bind_undef.
  eapply send_rpc_short_data; [exact Hf1|exact Hp|unfold MAX_MSG_DATA_SIZE; lia|done
    |exact Hd1|done].
Qed.

(** The reference to the module that [krping_write_proc] takes is not given
    back when it fails: neither when [kmalloc] fails, nor when the copy from
    user space does; and with a count of 0 it writes before the command
    buffer.  [krping_read_proc] gives its reference back. *)
Theorem krping_proc_module_refs w data sem buffer count :
  (forall h, try_module_get h = true) -> fresh_ok w -> 0 <= count ->
  ((forall h b, k_kzalloc h b = false) ->
    exists w', krping_write_proc data sem buffer count w = Ok (- ENOMEM) w'
      /\ heap w' = heap w /\ module_refs (trace w') = module_refs (trace w) + 1)
  /\ ((forall h b, k_kzalloc h b = true) ->
      (forall h, copy_from_user h buffer count = None) ->
    exists w', krping_write_proc data sem buffer count w = Ok (- EFAULT) w'
      /\ heap w' = heap w /\ module_refs (trace w') = module_refs (trace w) + 1)
  /\ ((forall h b, k_kzalloc h b = true) ->
      (forall h, copy_from_user h buffer 0 = Some []) ->
    krping_write_proc data sem buffer 0 w = Undef OutOfBounds)
  /\ (exists w', krping_read_proc w = Ok 0 w'
      /\ heap w' = heap w /\ module_refs (trace w') = module_refs (trace w)).
Proof.
  intros Hm [Hpos Hfree] Hc. split; [|split; [|split]].
  - intros Ha. destruct (wp_total_run (krping_write_proc data sem buffer count) (fun r w' =>
      r = - ENOMEM /\ heap w' = heap w /\ module_refs (trace w') = module_refs (trace w) + 1) w)
      as (r & w' & Hr & -> & Hw); [|by eauto].
    unfold krping_write_proc, module_get, kmalloc, indeterminate. do 2 wp_step.
    rewrite Hm. cbn [negb]. do 3 wp_step.
    apply wp_kzalloc_size; [intros _; apply wp_kzalloc; [by rewrite Ha|intros _]|lia].
    change (NULL =? NULL) with true. cbv iota. wp_step. split; [done|split; [done|]].
    wsimpl. rewrite ?Hm. cbn. lia.
  - intros Ha Hcp. destruct (wp_total_run (krping_write_proc data sem buffer count) (fun r w' =>
      r = - EFAULT /\ heap w' = heap w /\ module_refs (trace w') = module_refs (trace w) + 1) w)
      as (r & w' & Hr & -> & Hw); [|by eauto].
    unfold krping_write_proc, module_get, kmalloc, indeterminate. do 2 wp_step.
    rewrite Hm. cbn [negb]. do 3 wp_step.
    apply wp_kzalloc_size; [intros _; apply wp_kzalloc; [intros _|by rewrite Ha]|lia].
    wsimpl. rewrite (proj2 (Z.eqb_neq _ _)) by (unfold NULL; lia). do 2 wp_step.
    rewrite Hcp. do 3 wp_step. split; [done|]. wsimpl. rewrite ?Hm, ?Hcp. split; [heap_ext; symmetry; apply Hfree; lia|].
    cbn. lia.
  - intros Ha Hcp. unfold krping_write_proc, module_get, kmalloc, indeterminate.
    apply fault_bind. wp_step. rewrite Hm. cbn [negb]. apply fault_bind. do 2 wp_step.
    apply wp_kzalloc_size; [intros _; apply wp_kzalloc; [intros _|by rewrite Ha]|lia].
    wsimpl. rewrite (proj2 (Z.eqb_neq _ _)) by (unfold NULL; lia).
    apply fault_bind. wp_step. rewrite Hcp. apply fault_bind.
    eapply wp_write_bytes; [heap_lookup|reflexivity|].
    by apply bind_undef.
  - destruct (wp_total_run krping_read_proc (fun r w' =>
      r = 0 /\ heap w' = heap w /\ module_refs (trace w') = module_refs (trace w)) w)
      as (r & w' & Hr & -> & Hw); [|by eauto].
    unfold krping_read_proc, module_get, module_put. do 2 wp_step. rewrite Hm. cbn [negb].
    do 3 wp_step. split; [done|split; [done|]]. wsimpl. rewrite ?Hm. cbn. lia.
Qed.
End Module.
