(* ===== verification/RpcSpec.v ===== *)
(** * RpcSpec: an RPC channel in the abstract

    What the users of [rpc_client.c] can observe of a channel, without memory,
    locks or work requests: which message ids are free, the sequence number of
    each message buffer, the last message each send buffer holds, how many
    responses have come, and the semaphores they woke.  [RpcLife] proves that
    the channel of the code does exactly this. *)
From S2P Require Import Prelude Bitmap Wire.

Record chan := {
  q_free : gset nat;
  q_seqns : list Z;
  q_out : gmap nat (list Z);
  q_heard : nat;
  q_woke : list Z }.

(** A request that was given message id [id], and a response whose handling
    frees the id [id]. *)
Inductive act :=
  | Request (id : nat) (d : list Z) (sem : Z)
  | Response (id : nat) (seqn sem : Z) (d : list Z).

Section Chan.
(** The channel's address, which every message carries, and the size of the
    data of a message. *)
Context (ch size : Z).

(** Data that fills a message and is a C string. *)
Definition fits (d : list Z) : Prop := Z.of_nat (length d) = size /\ is_Some (c_str d).

(** A request gets the least free id.  A response lands in the buffer of the
    oldest posted receive, and frees the id of that number: the receives are
    posted in turn, whatever request the response answers. *)
Definition act_ok (s : chan) (a : act) : Prop :=
  match a with
  | Request i d _ => is_least i (q_free s) /\ fits d
  | Response i _ _ d => i = (q_heard s mod BIT_ARR_SIZE)%nat /\ fits d
  end.

Definition act_next (s : chan) (a : act) : chan :=
  match a with
  | Request i d sem =>
      let n := u64 (default 0 (q_seqns s !! i) + 1) in
      {| q_free := q_free s ∖ {[i]}; q_seqns := <[i := n]> (q_seqns s);
         q_out := <[i := wire_image n ch sem d]> (q_out s);
         q_heard := q_heard s; q_woke := q_woke s |}
  | Response i _ sem _ =>
      {| q_free := q_free s ∪ {[i]}; q_seqns := q_seqns s; q_out := q_out s;
         q_heard := S (q_heard s); q_woke := u64 sem :: q_woke s |}
  end.

Inductive act_run : chan -> list act -> chan -> Prop :=
  | act_run_nil s : act_run s [] s
  | act_run_cons s a l s' :
      act_ok s a -> act_run (act_next s a) l s' -> act_run s (a :: l) s'.

(** A channel just created; [woke] is what was woken before. *)
Definition new_chan (woke : list Z) : chan :=
  {| q_free := list_to_set (seq 0 BIT_ARR_SIZE); q_seqns := replicate BIT_ARR_SIZE 1;
     q_out := ∅; q_heard := 0; q_woke := woke |}.

Lemma act_run_app s l1 l2 s' :
  act_run s (l1 ++ l2) s' <-> exists s1, act_run s l1 s1 /\ act_run s1 l2 s'.
Proof.
  split.
  - revert s. induction l1 as [|a l1 IH]; intros s Hr; [by exists s; split; [constructor|]|].
    cbn in Hr. inversion Hr as [|? ? ? ? Ha Hl]; subst.
    destruct (IH _ Hl) as (s1 & H1 & H2). exists s1. split; [by constructor|done].
  - intros (s1 & H1 & H2). induction H1 as [|s a l s1 Ha Hl IH]; [done|].
    constructor; auto.
Qed.

(** ** One request at a time

    [n] rounds of a request followed by its response. *)
Inductive rounds : nat -> list act -> Prop :=
  | rounds_0 : rounds 0 []
  | rounds_S n l i d sem j q sem' d' :
      rounds n l -> rounds (S n) (l ++ [Request i d sem; Response j q sem' d']).

(** The ids left free after [n] rounds. *)
Definition free_after (n : nat) : gset nat :=
  if decide (n < BIT_ARR_SIZE)%nat then list_to_set (seq (n - 1) (BIT_ARR_SIZE - (n - 1)))
  else {[((n - 1) mod BIT_ARR_SIZE)%nat]}.

Lemma is_least_seq i k n : is_least i (list_to_set (seq k n) : gset nat) -> i = k.
Proof.
  intros [Hi Hl]. rewrite elem_of_list_to_set, elem_of_seq in Hi.
  specialize (Hl k). rewrite elem_of_list_to_set, elem_of_seq in Hl. lia.
Qed.

Lemma least_of_set i (s : gset nat) :
  bool_decide (i ∈ s) && bool_decide (set_Forall (fun j => i <= j)%nat s) = true -> is_least i s.
Proof. intros [H1%bool_decide_eq_true H2%bool_decide_eq_true]%andb_true_iff. by split. Qed.

Lemma free_after_step n i :
  is_least i (free_after n) ->
  free_after n ∖ {[i]} ∪ {[(n mod BIT_ARR_SIZE)%nat]} = free_after (S n).
Proof.
  unfold free_after. case_decide as Hn.
  - intros ->%is_least_seq. unfold BIT_ARR_SIZE in *.
    do 4 (destruct n as [|n]; [apply (bool_decide_unpack _); by vm_compute|]). lia.
  - intros Hi. assert (i = (n - 1) mod BIT_ARR_SIZE)%nat as -> by (destruct Hi as [Hi _]; set_solver).
    rewrite decide_False by lia.
    rewrite difference_diag_L, left_id_L by apply _. do 2 f_equal. lia.
Qed.

Lemma rounds_free woke n l s :
  rounds n l -> act_run (new_chan woke) l s -> q_free s = free_after n /\ q_heard s = n.
Proof.
  intros Hr. revert s. induction Hr as [|n l i d sem j q sem' d' _ IH]; intros s Hs.
  - by inversion Hs.
  - apply act_run_app in Hs as (s1 & H1 & H2). destruct (IH _ H1) as [Hf Hh].
    inversion H2 as [|? ? ? ? Hi H3]; subst. inversion H3 as [|? ? ? ? Hj H4]; subst.
    inversion H4; subst. cbn in *. destruct Hi as [Hi _], Hj as [-> _].
    rewrite Hf in *. split; [by apply free_after_step|done].
Qed.

Lemma free_after_least n : is_least (if decide (n < BIT_ARR_SIZE)%nat then n - 1
  else (n - 1) mod BIT_ARR_SIZE)%nat (free_after n).
Proof.
  unfold free_after. case_decide as Hn.
  - split; [apply elem_of_list_to_set, elem_of_seq; unfold BIT_ARR_SIZE in *; lia|].
    intros j [? _]%elem_of_list_to_set%elem_of_seq. done.
  - split; [by apply elem_of_singleton|]. by intros j ->%elem_of_singleton.
Qed.

(** Rounds can always go on. *)
Lemma rounds_exist woke n d (sem : Z) :
  fits d -> exists l s, rounds n l /\ act_run (new_chan woke) l s
    /\ Forall (fun a => match a with Request _ d' _ => d' = d | _ => True end) l.
Proof.
  intros Hd. induction n as [|n (l & s & Hr & Hs & Hl)].
  - exists [], (new_chan woke). split; [constructor|]. split; constructor.
  - destruct (rounds_free _ _ _ _ Hr Hs) as [Hf Hh]. pose proof (free_after_least n) as Hi.
    rewrite <- Hf in Hi. match type of Hi with is_least ?i _ => set (i0 := i) in Hi end.
    set (s1 := act_next s (Request i0 d sem)).
    set (a := Response (n mod BIT_ARR_SIZE) 0 sem d).
    exists (l ++ [Request i0 d sem; a]), (act_next s1 a). split; [by constructor|]. split.
    + apply act_run_app. exists s. split; [done|]. constructor; [by split|].
      constructor; [|constructor]. split; [|done]. by subst n.
    + apply Forall_app. split; [done|]. by repeat constructor.
Qed.

(** Two requests at once: the response to either frees id 0, which goes to the
    next request. *)
Lemma two_outstanding woke i1 d1 m1 i2 d2 m2 j q m d i3 d3 m3 s :
  act_run (new_chan woke)
    [Request i1 d1 m1; Request i2 d2 m2; Response j q m d; Request i3 d3 m3] s ->
  i1 = 0%nat /\ i2 = 1%nat /\ j = 0%nat /\ i3 = 0%nat
  /\ q_out s !! 0%nat = Some (wire_image 3 ch m3 d3).
Proof.
  intros Hr. inversion Hr as [|? ? ? ? H1 Hr1]; subst.
  inversion Hr1 as [|? ? ? ? H2 Hr2]; subst. inversion Hr2 as [|? ? ? ? H3 Hr3]; subst.
  inversion Hr3 as [|? ? ? ? H4 Hr4]; subst. inversion Hr4; subst.
  destruct H1 as [H1 _]. apply is_least_seq in H1 as ->. destruct H2 as [H2 _].
  eapply (is_least_unique _ 1) in H2 as ->.
  2: by apply least_of_set; vm_compute.
  destruct H3 as [-> _]. destruct H4 as [H4 _].
  eapply (is_least_unique _ 0) in H4 as ->.
  2: by apply least_of_set; vm_compute.
  by repeat (split; [done|]).
Qed.

Lemma two_outstanding_run woke d m1 m2 m3 q :
  fits d -> exists s, act_run (new_chan woke)
    [Request 0 d m1; Request 1 d m2; Response 0 q m2 d; Request 0 d m3] s.
Proof.
  intros Hd. eexists. repeat (constructor;
    [split; [first [reflexivity|apply least_of_set; by vm_compute]|exact Hd]|]).
  constructor.
Qed.
End Chan.
