(* ===== verification/RpcLife.v ===== *)
(** * RpcLife: an RPC channel in use ([rpc_client.c] over [rdma.c])

    The channel of [RpcClient] with the module's handlers of [RpcTest], from
    its creation on, while threads send requests and responses come in as
    completion interrupts.  [tracks] relates a state of the machine to an
    abstract channel of [RpcSpec]; every request and every response is the
    abstract step, and nothing else is possible. *)
From stdpp Require Import gmultiset.
From S2P Require Import Prelude Types Kernel Logic Verbs Wait Within Frame Bitmap MsgbufIds Wire.
From S2P Require Import RdmaIo RdmaCm RdmaMem RdmaBufs RdmaCh RpcClient RpcTest RpcSpec.

(** The semaphores of users that were woken, last first. *)
Fixpoint wakes (h : list event) : list Z :=
  match h with
  | [] => []
  | EvWakeUp (WqUser a) :: h => a :: wakes h
  | _ :: h => wakes h
  end.

(** Where a channel is: its blocks, its control block before ([si_cb0]) and
    after it was set up, its contexts as they were then, the state before that
    with the RPC channel in place, and the memory of its users. *)
Record site := {
  si_ch : addr;
  si_info : rpc_ch_info;
  si_cba : addr;
  si_cb0 : rdma_ch_cb;
  si_cb : rdma_ch_cb;
  si_ctxs : list msgbuf_ctx;
  si_base : world;
  si_mem : gmap addr block }.

Definition si_bitmap (x : site) : addr := msgbuf_bitmap (si_info x).
Definition si_size (x : site) : Z := cb_msgdata_size (si_cb0 x).
Definition si_own (x : site) : list addr :=
  [si_ch x; si_bitmap x; si_cba x; cb_buf_ctxs (si_cb0 x)].

Record site_ok (x : site) : Prop := {
  so_ch : heap (si_base x) !! si_ch x = Some (BRpcCh (si_info x));
  so_bits : is_Some (heap (si_base x) !! si_bitmap x);
  so_info : ch_type (si_info x) = RPC_CH_RDMA /\ ch_cb (si_info x) = si_cba x
    /\ msgbuf_bitmap_lock (si_info x) = false;
  so_apart : NoDup (si_own x);
  so_rpc : cb_rpc_msg_handler_cb (si_cb0 x) = fn_client_rpc_rdma_msg_handler;
  so_user : cb_user_msg_handler_cb (si_cb0 x) = client_rdma_msg_handler_fn;
  so_client : cb_server (si_cb0 x) = 0;
  so_count : length (si_ctxs x) = BIT_ARR_SIZE /\ cb_msgbuf_cnt (si_cb0 x) = RPC_MSG_BUF_NUM;
  so_size : 0 <= si_size x;
  so_msgbuf : cb_msgbuf_size (si_cb0 x) = si_size x + 24;
  so_ids : wr_ids (si_ctxs x) = Z.of_nat <$> seq 0 BIT_ARR_SIZE;
  so_range : in_u 64 (si_ch x);
  so_mem : forall a b, si_mem x !! a = Some b ->
    heap (si_base x) !! a = Some b /\ (a ∉ si_own x) }.

(** The contexts with other sequence numbers, the base with another bitmap. *)
Definition with_seqns (l : list msgbuf_ctx) (ns : list Z) : list msgbuf_ctx :=
  zip_with (fun c n => c <| mc_seqn := n |>) l ns.
Definition with_bits (x : site) (bits : list Z) : world :=
  upd_heap (insert (si_bitmap x) (BBytes bits)) (si_base x).

(** The receives posted so far when [k] responses have come: in turn. *)
Definition in_turn (k : nat) : list Z :=
  (fun i => Z.of_nat (i mod BIT_ARR_SIZE)) <$> seq 0 (k + BIT_ARR_SIZE).

Record tracks_at (x : site) (s : chan) (bits : list Z) (st : rdma_ch_state)
    (es : list async) (w : world) : Prop := {
  tk_set_up : set_up (with_bits x bits) (si_cba x) (si_cb0 x)
    (with_seqns (si_ctxs x) (q_seqns s)) (with_state st (si_cb x)) w;
  tk_state : st = CONNECTED \/ st = WORKING;
  tk_bits : length bits = BIT_ARR_SIZE /\ free_bits bits = q_free s;
  tk_seqns : length (q_seqns s) = BIT_ARR_SIZE;
  tk_out : forall i b c, q_out s !! i = Some b -> si_ctxs x !! i = Some c ->
    heap w !! send_buf c = Some (BBytes b);
  tk_recvs : recvs (cb_qp (si_cb x)) (cb_cq (si_cb x)) w = (in_turn (q_heard s), q_heard s);
  tk_woke : wakes (trace w) = q_woke s;
  tk_sched : sched w = es }.

(** State [w] is the abstract channel [s] at the place [x], with the events [es]
    still to come; without any. *)
Definition tracks_in (x : site) (s : chan) (es : list async) (w : world) : Prop :=
  exists bits st, tracks_at x s bits st es w.
Definition tracks (x : site) (s : chan) (w : world) : Prop := tracks_in x s [] w.

(** ** The contexts *)

Lemma with_seqns_lookup l ns i c n :
  l !! i = Some c -> ns !! i = Some n -> with_seqns l ns !! i = Some (c <| mc_seqn := n |>).
Proof. intros Hc Hn. unfold with_seqns. by rewrite lookup_zip_with, Hc; cbn; rewrite Hn. Qed.

Lemma with_seqns_insert l ns i c n n' :
  l !! i = Some c -> ns !! i = Some n' ->
  <[i := (c <| mc_seqn := n' |>) <| mc_seqn := n |>]> (with_seqns l ns) =
    with_seqns l (<[i := n]> ns).
Proof.
  intros Hc Hn. apply list_eq. intros j. unfold with_seqns.
  destruct (decide (i = j)) as [<-|Hij].
  - rewrite list_lookup_insert_eq
      by (rewrite length_zip_with; apply lookup_lt_Some in Hc, Hn; lia).
    rewrite lookup_zip_with, Hc. cbn.
    rewrite list_lookup_insert_eq by (by apply lookup_lt_Some in Hn). done.
  - rewrite list_lookup_insert_ne, !lookup_zip_with, list_lookup_insert_ne by done. done.
Qed.

Lemma with_seqns_bufs l ns :
  length ns = length l -> ctx_bufs (with_seqns l ns) = ctx_bufs l
    /\ ctx_maps (with_seqns l ns) = ctx_maps l.
Proof.
  revert ns. induction l as [|c l IH]; intros [|n ns] Hl; try done.
  destruct (IH ns) as [E1 E2]; [cbn in Hl; lia|].
  unfold ctx_bufs, ctx_maps, with_seqns in *. cbn. by rewrite E1, E2.
Qed.

Lemma length_with_seqns l ns :
  length ns = length l -> length (with_seqns l ns) = length l.
Proof. intros Hl. unfold with_seqns. rewrite length_zip_with. lia. Qed.

Lemma in_turn_next k : in_turn (S k) = in_turn k ++ [Z.of_nat (k mod BIT_ARR_SIZE)].
Proof.
  unfold in_turn. change (S k + BIT_ARR_SIZE)%nat with (S (k + BIT_ARR_SIZE)).
  rewrite seq_S, fmap_app. cbn [fmap list_fmap Nat.add]. do 2 f_equal. f_equal.
  unfold BIT_ARR_SIZE. rewrite <- (Nat.Div0.mod_add k 1 4). f_equal.
Qed.

Lemma in_turn_lookup k : in_turn k !! k = Some (Z.of_nat (k mod BIT_ARR_SIZE)).
Proof.
  unfold in_turn. rewrite list_lookup_fmap, lookup_seq_lt; [done|].
  unfold BIT_ARR_SIZE. lia.
Qed.

(** ** A channel that is set up and used *)

(** What use changes: the contexts (not their buffers), the state, the contents
    of the buffers, and one other block. *)
Lemma set_up_change base p b0 b cba cb0 l l' cb st w w' :
  set_up (upd_heap (insert p b0) base) cba cb0 l cb w ->
  p <> cba -> p <> cb_buf_ctxs cb0 ->
  ctx_bufs l' = ctx_bufs l -> ctx_maps l' = ctx_maps l -> length l' = length l ->
  heap w' !! cba = Some (BCb (with_state st cb)) ->
  heap w' !! cb_buf_ctxs cb0 = Some (BCtxs l') -> heap w' !! p = Some b ->
  (forall a, a ∈ ctx_bufs l -> exists b, heap w' !! a = Some (BBytes b)
     /\ length b = Z.to_nat (cb_msgbuf_size cb0)) ->
  (forall a, a <> p -> a <> cba -> a <> cb_buf_ctxs cb0 -> a ∉ ctx_bufs l ->
     heap w' !! a = heap w !! a) ->
  fresh_ok w' -> objs w' = objs w ->
  set_up (upd_heap (insert p b) base) cba cb0 l' (with_state st cb) w'.
Proof.
  intros Hsu Hp1 Hp2 Hbufs Hmaps Hlen Hcb' Hl' Hp Hb' Hfr' Hf' Ho.
  pose proof (set_up_ctxs _ _ _ _ _ _ Hsu) as (Hbc & _ & _ & Hcnt).
  destruct Hsu as [(pd & cq & qp & st0 & ->) [Hcb Hl Hln] [Hnd Hlive Hap] Hfr Hnew Hf
    Hpd Hcq Hqp Hh Hd Hcm He Hz].
  apply objs_inv in Ho as (Ecm & Ecq & Epd & Eqp & Edm & Eer).
  assert (Hpn : p ∉ ctx_bufs l).
  { intros Hin. apply Hnew in Hin. wsimpl in Hin. by rewrite lookup_insert_eq in Hin. }
  split; wsimpl in *; rewrite ?Ecm, ?Ecq, ?Epd, ?Eqp, ?Edm, ?Eer, ?Hbufs, ?Hmaps; try done.
  - by exists pd, cq, qp, st.
  - split; [done|done|]. by rewrite Hlen.
  - split; rewrite ?Hbufs; [done| |done]. intros a Ha. destruct (Hb' a Ha) as (bb & -> & _). done.
  - intros a H1 H2 H3. destruct (decide (a = p)) as [->|Hne].
    { by rewrite Hp, lookup_insert_eq. }
    rewrite Hfr', Hfr, !lookup_insert_ne by done. done.
  - intros a Ha. rewrite lookup_insert_ne by (intros ->; done).
    specialize (Hnew a Ha). rewrite lookup_insert_ne in Hnew; [done|]. by intros ->.
Qed.

(** What being set up does not touch of the control block. *)
Lemma set_up_fields w cba cb l cb2 w2 : set_up w cba cb l cb2 w2 ->
  cb_msgdata_size cb2 = cb_msgdata_size cb /\ cb_msgbuf_size cb2 = cb_msgbuf_size cb
  /\ cb_rpc_msg_handler_cb cb2 = cb_rpc_msg_handler_cb cb
  /\ cb_user_msg_handler_cb cb2 = cb_user_msg_handler_cb cb.
Proof. by intros [(pd & cq & qp & st & ->) _ _ _ _ _ _ _ _ _ _ _ _]. Qed.

(** What the operations find of a channel that [tracks_at]. *)
Record site_at (x : site) (s : chan) (bits : list Z) (st : rdma_ch_state) (w : world)
    : Prop := {
  sa_bitmap : bitmap_at w (si_ch x) (si_info x) bits;
  sa_cb : heap w !! si_cba x = Some (BCb (with_state st (si_cb x)));
  sa_ctxs : heap w !! cb_buf_ctxs (si_cb0 x) = Some (BCtxs (with_seqns (si_ctxs x) (q_seqns s)));
  sa_cb_ctxs : cb_buf_ctxs (si_cb x) = cb_buf_ctxs (si_cb0 x);
  sa_cnt : cb_msgbuf_cnt (si_cb x) = RPC_MSG_BUF_NUM;
  sa_sizes : cb_msgdata_size (si_cb x) = si_size x
    /\ cb_msgbuf_size (si_cb x) = si_size x + 24;
  sa_handlers : cb_rpc_msg_handler_cb (si_cb x) = fn_client_rpc_rdma_msg_handler
    /\ cb_user_msg_handler_cb (si_cb x) = client_rdma_msg_handler_fn;
  sa_qp : cb_qp (si_cb x) ∈ qps w;
  sa_cq : cqs w !! cb_cq (si_cb x) = Some {| cq_context := si_cba x; cq_polls := [] |};
  sa_fresh : fresh_ok w;
  sa_own : forall a, a ∈ si_own x -> a ∉ ctx_bufs (si_ctxs x);
  sa_live : forall a, a ∈ ctx_bufs (si_ctxs x) -> exists b, heap w !! a = Some (BBytes b)
    /\ length b = (24 + Z.to_nat (si_size x))%nat;
  sa_nodup : NoDup (ctx_bufs (si_ctxs x));
  sa_mem : forall a b, si_mem x !! a = Some b ->
    heap w !! a = Some b /\ (a ∉ si_own x) /\ (a ∉ ctx_bufs (si_ctxs x)) }.

Lemma own_apart x : NoDup (si_own x) ->
  si_ch x <> si_bitmap x /\ si_ch x <> si_cba x /\ si_ch x <> cb_buf_ctxs (si_cb0 x)
  /\ si_bitmap x <> si_cba x /\ si_bitmap x <> cb_buf_ctxs (si_cb0 x)
  /\ si_cba x <> cb_buf_ctxs (si_cb0 x).
Proof.
  unfold si_own. intros Hnd. repeat (apply NoDup_cons_1_1 in Hnd as ?; apply NoDup_cons_1_2 in Hnd). set_solver.
Qed.

Lemma own_in x : si_ch x ∈ si_own x /\ si_bitmap x ∈ si_own x /\ si_cba x ∈ si_own x
  /\ cb_buf_ctxs (si_cb0 x) ∈ si_own x.
Proof. unfold si_own. split_and!; [left|right; left|right; right; left|right; right; right; left].
Qed.

Lemma elem_of_own x a : a ∈ si_own x ->
  a = si_ch x \/ a = si_bitmap x \/ a = si_cba x \/ a = cb_buf_ctxs (si_cb0 x).
Proof. unfold si_own. rewrite !elem_of_cons, elem_of_nil. tauto. Qed.

Lemma elem_of_ctx_bufs l i c : l !! i = Some c ->
  recv_buf c ∈ ctx_bufs l /\ send_buf c ∈ ctx_bufs l.
Proof.
  intros Hc%list_elem_of_lookup_2. unfold ctx_bufs. split; apply list_elem_of_bind;
    exists c; (split; [|done]); [left|right; left].
Qed.

Lemma ctx_bufs_lookup l i c : l !! i = Some c ->
  ctx_bufs l !! (2 * i)%nat = Some (recv_buf c)
  /\ ctx_bufs l !! (2 * i + 1)%nat = Some (send_buf c).
Proof.
  revert i. induction l as [|c0 l IH]; intros [|i] Hc; [done..| |].
  - by injection Hc as ->.
  - destruct (IH i Hc) as [H1 H2].
    replace (2 * S i)%nat with (S (S (2 * i))) by lia.
    replace (S (S (2 * i)) + 1)%nat with (S (S (2 * i + 1))) by lia. done.
Qed.

(** Distinct buffers. *)
Lemma bufs_distinct l i j c c' :
  NoDup (ctx_bufs l) -> l !! i = Some c -> l !! j = Some c' ->
  recv_buf c <> send_buf c' /\ (i <> j -> send_buf c <> send_buf c').
Proof.
  intros Hnd [R1 S1]%ctx_bufs_lookup [R2 S2]%ctx_bufs_lookup. split.
  - intros He. rewrite He in R1. pose proof (NoDup_lookup _ _ _ _ Hnd R1 S2). lia.
  - intros Hij He. rewrite He in S1. pose proof (NoDup_lookup _ _ _ _ Hnd S1 S2). lia.
Qed.

Lemma tracks_at_site x s bits st es w :
  site_ok x -> tracks_at x s bits st es w -> site_at x s bits st w.
Proof.
  intros [Hch [bb Hbits] (Hty & Hcba & Hul) Hap%own_apart Hrpc Husr Hsv [Hln Hcnt] Hsz Hmb Hids
    Hrange Hmem] [Hsu _ [Hbl _] Hsq _ _ _ _].
  destruct Hap as (A1 & A2 & A3 & A4 & A5 & A6).
  destruct (with_seqns_bufs (si_ctxs x) (q_seqns s)) as [Eb Em]; [congruence|].
  pose proof (set_up_ctxs _ _ _ _ _ _ Hsu) as (F1 & F2 & F3 & F4).
  pose proof (set_up_fields _ _ _ _ _ _ Hsu) as (F5 & F6 & F7 & F8).
  destruct Hsu as [_ [Hcb Hl _] [Hnd Hlive Hapb] Hfr Hnew Hf _ Hcq Hqp _ _ _ _ Hz].
  change (cb_buf_ctxs (with_state st (si_cb x))) with (cb_buf_ctxs (si_cb x)) in *.
  rewrite Eb in *.
  assert (Hown : forall a, a ∈ si_own x -> a ∉ ctx_bufs (si_ctxs x)).
  { intros a Ha%elem_of_own Hin. specialize (Hnew a Hin). unfold with_bits in Hnew. wsimpl in Hnew.
    destruct Ha as [->|[->|[->| ->]]].
    - rewrite lookup_insert_ne in Hnew by done. congruence.
    - by rewrite lookup_insert_eq in Hnew.
    - by destruct Hapb.
    - destruct Hapb as [_ Hapb]. by rewrite F1 in Hapb. }
  assert (Hbase : forall a, a <> si_cba x -> a <> cb_buf_ctxs (si_cb0 x) ->
    a ∉ ctx_bufs (si_ctxs x) -> a <> si_bitmap x -> heap w !! a = heap (si_base x) !! a).
  { intros a H1 H2 H3 H4. rewrite Hfr by done. unfold with_bits. wsimpl.
    by rewrite lookup_insert_ne. }
  split; try done.
  - split; [|done| |done].
    + rewrite Hbase; [done|congruence|congruence| |done]. apply Hown. left.
    + change (msgbuf_bitmap (si_info x)) with (si_bitmap x).
      rewrite Hfr; [|done|done|apply Hown; right; left]. apply lookup_insert_eq.
  - by rewrite <- F1.
  - cbn in F4. congruence.
  - cbn in F5, F6. unfold si_size in *. split; congruence.
  - cbn in F7, F8. split; congruence.
  - rewrite Hqp. apply elem_of_union_l, elem_of_singleton. done.
  - rewrite Hcq. apply lookup_insert_eq.
  - intros a Ha. destruct (Hz a Ha) as (b & Hb & Hlb). exists b. split; [done|].
    rewrite Hlb, Hmb. lia.
  - intros a b Ha. destruct (Hmem a b Ha) as [Hb Hno].
    assert (a ∉ ctx_bufs (si_ctxs x)).
    { intros Hin. specialize (Hnew a Hin). unfold with_bits in Hnew. wsimpl in Hnew.
      rewrite lookup_insert_ne in Hnew; [congruence|]. intros <-. apply Hno. right. left. }
    split; [|done]. rewrite Hbase; [done|..]; try done; intros ->; apply Hno, own_in.
Qed.

Lemma site_ctx x s bits st es w i :
  site_ok x -> tracks_at x s bits st es w -> (i < BIT_ARR_SIZE)%nat ->
  exists c n, si_ctxs x !! i = Some c /\ q_seqns s !! i = Some n
    /\ ctx_at (with_seqns (si_ctxs x) (q_seqns s)) (Z.of_nat i) = Some (c <| mc_seqn := n |>)
    /\ rwr_wr_id (rq_wr c) = Z.of_nat i.
Proof.
  intros Hx Ht Hi. pose proof (so_count _ Hx) as [Hln _]. pose proof (tk_seqns _ _ _ _ _ _ Ht) as Hsq.
  destruct (lookup_lt_is_Some_2 (si_ctxs x) i) as [c Hc]; [lia|].
  destruct (lookup_lt_is_Some_2 (q_seqns s) i) as [n Hn]; [lia|].
  exists c, n. split; [done|split; [done|split]].
  - apply ctx_at_Some. rewrite Nat2Z.id. split; [lia|]. by apply with_seqns_lookup.
  - pose proof (so_ids _ Hx) as Hids. unfold wr_ids in Hids.
    apply (f_equal (fun l => l !! i)) in Hids.
    rewrite !list_lookup_fmap, Hc, lookup_seq_lt in Hids by done. cbn in Hids. congruence.
Qed.

(** ** A request *)

Section Request.
Context {K : Kernel}.

Definition request_to (x : site) (data sem : addr) : rpc_req_param :=
  {| req_rpc_ch := si_ch x; req_data := data; req_sem := sem |}.

(** The data of a request: it lies in the users' memory and fills a message. *)
Definition user_data (x : site) (data : addr) (d : list Z) : Prop :=
  exists bd, si_mem x !! data = Some (BBytes bd)
    /\ d = take (Z.to_nat (si_size x)) bd /\ fits (si_size x) d.

Lemma request_pre x s bits st es w i c n data bd sem :
  site_ok x -> tracks_at x s bits st es w -> is_least i (q_free s) ->
  si_mem x !! data = Some (BBytes bd) ->
  fits (si_size x) (take (Z.to_nat (si_size x)) bd) ->
  si_ctxs x !! i = Some c -> q_seqns s !! i = Some n ->
  rpc_send_pre w (si_ch x) (si_info x) bits i (with_state st (si_cb x))
    (with_seqns (si_ctxs x) (q_seqns s)) (c <| mc_seqn := n |>) (request_to x data sem) bd.
Proof.
  intros Hx Ht Hi Hd [Hfl Hfs] Hc Hn. pose proof (tracks_at_site _ _ _ _ _ _ Hx Ht) as Hs.
  pose proof Ht as [_ _ [_ Hfree] _ _ _ _ _]. rewrite <- Hfree in Hi.
  pose proof (is_least_bound _ _ Hi) as Hlt.
  destruct (site_ctx _ _ _ _ _ _ i Hx Ht Hlt) as (c' & n' & Hc' & Hn' & Hat & _).
  simplify_eq. destruct Hs as [Hbm Hcb Hl Hcc Hcnt [Hds Hms] _ Hqp _ _ Hown Hlive _ Hmem].
  destruct (elem_of_ctx_bufs _ _ _ Hc) as [_ Hsb]. destruct (Hlive _ Hsb) as (b & Hb & Hlb).
  destruct (Hmem _ _ Hd) as (Hdw & Hdo & Hdb). pose proof (so_info _ Hx) as (Hty & Hcba & _).
  pose proof (so_size _ Hx).
  rewrite length_take in Hfl.
  split; try done.
  - split; try done.
    + rewrite Hcba. done.
    + change (cb_buf_ctxs (with_state st (si_cb x))) with (cb_buf_ctxs (si_cb x)).
      by rewrite Hcc.
    + change (Z.of_nat i < cb_msgbuf_cnt (si_cb x)). rewrite Hcnt.
      unfold BIT_ARR_SIZE in Hlt. unfold RPC_MSG_BUF_NUM. lia.
    + change (0 <= cb_msgdata_size (si_cb x)). by rewrite Hds.
    + exists b. change (cb_msgdata_size (with_state st (si_cb x))) with (cb_msgdata_size (si_cb x)).
      by rewrite Hds.
    + change (cb_msgdata_size (with_state st (si_cb x))) with (cb_msgdata_size (si_cb x)).
      rewrite Hds. lia.
    + change (data <> send_buf c). intros ->. by apply Hdb.
  - unfold sent_data.
    change (cb_msgdata_size (with_state st (si_cb x))) with (cb_msgdata_size (si_cb x)).
    by rewrite Hds.
  - split.
    + change (send_buf c <> si_bitmap x). intros He.
      apply (Hown (si_bitmap x)); [right; left|]. by rewrite <- He.
    + change (data <> si_bitmap x). intros ->. apply Hdo. right. left.
Qed.

(** The blocks of the buffers stay buffers of their size when one is
    replaced. *)
Lemma live_insert (h : gmap addr block) (P : addr -> Prop) n a b0 :
  (forall a, P a -> exists b, h !! a = Some (BBytes b) /\ length b = n) -> length b0 = n ->
  forall a', P a' -> exists b, <[a := BBytes b0]> h !! a' = Some (BBytes b) /\ length b = n.
Proof.
  intros Hl Hb a' Ha'. destruct (decide (a = a')) as [->|Hne].
  - exists b0. by rewrite lookup_insert_eq.
  - rewrite lookup_insert_ne by done. auto.
Qed.

Lemma fresh_same_dom w w' : fresh_ok w -> next w' = next w ->
  (forall a, next w <= a -> heap w' !! a = heap w !! a) -> fresh_ok w'.
Proof.
  intros [Hp Hf] Hn Hh. split; rewrite Hn; [done|]. intros a Ha. rewrite Hh by done. auto.
Qed.

(** In the terms of the place [x]: the bitmap, the sequence numbers and the bytes
    of the send buffer of [c] become these, and the rest is left alone. *)
Record slot_written (x : site) (bits ns : list Z) (c : msgbuf_ctx) (b : list Z) (w w' : world)
    : Prop := {
  sw_bitmap : bitmap_at w' (si_ch x) (si_info x) bits;
  sw_image : heap w' !! send_buf c = Some (BBytes b);
  sw_ctxs : heap w' !! cb_buf_ctxs (si_cb0 x) = Some (BCtxs (with_seqns (si_ctxs x) ns));
  sw_frame : forall a, a <> si_bitmap x -> a <> send_buf c -> a <> cb_buf_ctxs (si_cb0 x) ->
    heap w' !! a = heap w !! a;
  sw_rest : next w' = next w /\ sched w' = sched w /\ objs w' = objs w;
  sw_seen : all_recvs w' = all_recvs w /\ wakes (trace w') = wakes (trace w) }.

(** What a request leaves. *)
Lemma posted_request x s bits st es w i c n data bd sem e w' :
  site_ok x -> tracks_at x s bits st es w ->
  si_ctxs x !! i = Some c -> q_seqns s !! i = Some n ->
  rpc_posted w (si_ch x) (si_info x) bits i (with_state st (si_cb x))
    (with_seqns (si_ctxs x) (q_seqns s)) (c <| mc_seqn := n |>) (request_to x data sem) bd e w' ->
  slot_written x (<[i := 1]> bits) (<[i := u64 (n + 1)]> (q_seqns s)) c
    (wire_image (u64 (n + 1)) (si_ch x) sem (take (Z.to_nat (si_size x)) bd)) w w'.
Proof.
  intros Hx Ht Hc Hn [Hbm Him Hsq [_ Htr] Hfr Hnx Hsch Hob].
  destruct (tracks_at_site _ _ _ _ _ _ Hx Ht) as [_ _ _ Hcc _ [Hds _] _ _ _ _ _ _ _ _].
  change (cb_buf_ctxs (with_state st (si_cb x))) with (cb_buf_ctxs (si_cb x)) in *.
  rewrite Hcc in *. unfold sent_data in Him.
  change (cb_msgdata_size (with_state st (si_cb x))) with (cb_msgdata_size (si_cb x)) in Him.
  rewrite Hds in Him. split; try done.
  - by rewrite <- (with_seqns_insert _ _ _ _ _ _ Hc Hn).
  - unfold all_recvs, recvs. by rewrite Htr.
Qed.

(** The bitmap, the contexts and the control block are no buffers. *)
Lemma own_not_sent x s bits st es w i c a :
  site_ok x -> tracks_at x s bits st es w -> si_ctxs x !! i = Some c ->
  a ∈ si_own x -> a <> send_buf c.
Proof.
  intros Hx Ht Hc Ha ->. destruct (elem_of_ctx_bufs _ _ _ Hc) as [_ Hsb].
  by apply (sa_own _ _ _ _ _ (tracks_at_site _ _ _ _ _ _ Hx Ht) _ Ha).
Qed.

Section Written.
Context (x : site) (s : chan) (bits : list Z) (st : rdma_ch_state) (es : list async) (w : world).
Context (i : nat) (c : msgbuf_ctx) (bits' ns b : list Z) (w' : world).
Context (Hx : site_ok x) (Ht : tracks_at x s bits st es w) (Hc : si_ctxs x !! i = Some c).
Context (Hns : length ns = BIT_ARR_SIZE) (Hb : length b = (24 + Z.to_nat (si_size x))%nat).
Context (Hsw : slot_written x bits' ns c b w w').

Lemma written_fresh : fresh_ok w'.
Proof.
  destruct Hsw as [_ _ _ Hfr (Hnx & _ & _) _].
  destruct (tracks_at_site _ _ _ _ _ _ Hx Ht) as
    [ [_ _ Hbm _] _ Hl _ _ _ _ _ _ [Hpos Hf] _ Hlive _ _].
  destruct (elem_of_ctx_bufs _ _ _ Hc) as [_ Hsb]. destruct (Hlive _ Hsb) as (b' & Hsl & _).
  eapply fresh_same_dom; [by split|done|]. intros a Ha. specialize (Hf a Ha).
  unfold si_bitmap in *. apply Hfr; congruence.
Qed.

Lemma written_set_up :
  set_up (with_bits x bits') (si_cba x) (si_cb0 x) (with_seqns (si_ctxs x) ns)
    (with_state st (si_cb x)) w'.
Proof.
  pose proof written_fresh as Hf'.
  pose proof (tracks_at_site _ _ _ _ _ _ Hx Ht) as [_ Hcb _ _ _ _ _ _ _ _ Hown Hlive _ _].
  pose proof Ht as [Hsu _ _ Hsl _ _ _ _]. pose proof (so_count _ Hx) as [Hln _].
  destruct (own_apart _ (so_apart _ Hx)) as (_ & _ & _ & A4 & A5 & A6).
  pose proof (fun a => own_not_sent x s bits st es w i c a Hx Ht Hc) as Hno.
  destruct (with_seqns_bufs (si_ctxs x) (q_seqns s)) as [Eb Em]; [congruence|].
  destruct (with_seqns_bufs (si_ctxs x) ns) as [Eb' Em']; [congruence|].
  assert (Hms : Z.to_nat (cb_msgbuf_size (si_cb0 x)) = (24 + Z.to_nat (si_size x))%nat).
  { rewrite (so_msgbuf _ Hx). pose proof (so_size _ Hx). lia. }
  destruct Hsw as [Hbm Him Hsq Hfr (_ & _ & Hob) _].
  eapply (set_up_change _ _ _ _ _ _ _ _ (with_state st (si_cb x))); [exact Hsu|done|done
    |congruence|congruence|by rewrite !length_with_seqns by congruence
    | |done|apply Hbm| | |done|done].
  - rewrite with_state_twice, Hfr; [done|done|apply Hno, own_in|done].
  - rewrite Eb. intros a Ha. rewrite Hms. destruct (decide (a = send_buf c)) as [->|Hne].
    + eexists. split; [exact Him|done].
    + destruct (Hlive a Ha) as (b' & Hb' & Hlb). exists b'. split; [|done].
      rewrite Hfr; [done|..]; [intros ->; by apply (Hown (si_bitmap x)); [apply own_in|]|done|].
      intros ->. by apply (Hown (cb_buf_ctxs (si_cb0 x))); [apply own_in|].
  - rewrite Eb. intros a H1 H2 H3 H4. apply Hfr; [done| |done]. intros ->.
    by apply H4, (elem_of_ctx_bufs _ _ _ Hc).
Qed.

(** The other send buffers keep their messages. *)
Lemma written_out j b' cj :
  <[i := b]> (q_out s) !! j = Some b' -> si_ctxs x !! j = Some cj ->
  heap w' !! send_buf cj = Some (BBytes b').
Proof.
  destruct Hsw as [_ Him _ Hfr _ _]. intros Hj Hcj. destruct (decide (i = j)) as [<-|Hne].
  { rewrite lookup_insert_eq in Hj. by simplify_eq. }
  rewrite lookup_insert_ne in Hj by done.
  pose proof (sa_nodup _ _ _ _ _ (tracks_at_site _ _ _ _ _ _ Hx Ht)) as Hnd.
  pose proof (fun a => own_not_sent x s bits st es w j cj a Hx Ht Hcj) as Hno.
  rewrite Hfr; [by eapply (tk_out _ _ _ _ _ _ Ht)|apply not_eq_sym, Hno, own_in| |
    apply not_eq_sym, Hno, own_in].
  intros He. symmetry in He. by eapply (bufs_distinct _ i j).
Qed.

Lemma written_tracks :
  length bits' = BIT_ARR_SIZE ->
  tracks_at x {| q_free := free_bits bits'; q_seqns := ns; q_out := <[i := b]> (q_out s);
                 q_heard := q_heard s; q_woke := q_woke s |} bits' st es w'.
Proof.
  intros Hl. pose proof Ht as [_ Hst _ Hsl _ Hrv Hwk Hs].
  pose proof Hsw as [_ _ _ _ (_ & Hsch & _) [Hrv' Hwk'] ].
  split; cbn [q_free q_seqns q_out q_heard q_woke]; try done.
  - apply written_set_up.
  - intros j b' cj. apply written_out.
  - apply (f_equal (fun f => f (cb_qp (si_cb x)) (cb_cq (si_cb x)))) in Hrv'.
    etransitivity; [exact Hrv'|exact Hrv].
  - congruence.
  - congruence.
Qed.
End Written.

Lemma request_tracks x s bits st es w i c n d sem w' :
  site_ok x -> tracks_at x s bits st es w -> is_least i (q_free s) -> fits (si_size x) d ->
  si_ctxs x !! i = Some c -> q_seqns s !! i = Some n ->
  slot_written x (<[i := 1]> bits) (<[i := u64 (n + 1)]> (q_seqns s)) c
    (wire_image (u64 (n + 1)) (si_ch x) sem d) w w' ->
  tracks_at x (act_next (si_ch x) s (Request i d sem)) (<[i := 1]> bits) st es w'.
Proof.
  intros Hx Ht Hi [Hd _] Hc Hn Hsw. pose proof Ht as [_ _ [Hbl Hfree] Hsl _ _ _ _].
  rewrite <- Hfree in Hi.
  eapply written_tracks in Hsw; [|exact Hx|exact Ht|exact Hc|by rewrite length_insert
    |rewrite length_wire_image; lia|by rewrite length_insert].
  rewrite free_bits_set, Hfree in Hsw by (done || by eapply is_least_bound).
  cbn [act_next]. rewrite Hn. exact Hsw.
Qed.

Lemma tracks_at_same x s bits st es w w' :
  tracks_at x s bits st es w -> heap w' = heap w -> next w' = next w -> objs w' = objs w ->
  sched w' = sched w -> all_recvs w' = all_recvs w -> wakes (trace w') = wakes (trace w) ->
  tracks_at x s bits st es w'.
Proof.
  intros [Hsu Hst Hb Hsl Hout Hrv Hwk Hs] Hh Hn Ho Hsch Hr Hw.
  split; rewrite ?Hh, ?Hw, ?Hsch; try done.
  - by eapply set_up_same.
  - apply (f_equal (fun f => f (cb_qp (si_cb x)) (cb_cq (si_cb x)))) in Hr.
    etransitivity; [exact Hr|exact Hrv].
Qed.

Lemma request_ctx x s bits st es w i :
  site_ok x -> tracks_at x s bits st es w -> is_least i (q_free s) ->
  exists c n, si_ctxs x !! i = Some c /\ q_seqns s !! i = Some n.
Proof.
  intros Hx Ht Hi. destruct (site_ctx x s bits st es w i Hx Ht) as (c & n & ? & ? & _); [|by exists c, n].
  destruct (tk_bits _ _ _ _ _ _ Ht) as [_ Hf]. rewrite <- Hf in Hi. by eapply is_least_bound.
Qed.

(** Sending once the id is taken. *)
Lemma wp_request_rest t x s bits st es w i data d sem (Q : Z -> world -> Prop) :
  site_ok x -> tracks_at x s bits st es w -> is_least i (q_free s) -> user_data x data d ->
  (forall w', tracks_in x (act_next (si_ch x) s (Request i d sem)) es w' -> Q (Z.of_nat i) w') ->
  wp t (send_rpc_rest (request_to x data sem) (Z.of_nat i)) Q
    (put_bitmap (si_info x) (<[i := 1]> bits) w).
Proof.
  intros Hx Ht Hi (bd & Hd & -> & Hfit) HQ.
  destruct (request_ctx _ _ _ _ _ _ _ Hx Ht Hi) as (c & n & Hc & Hn).
  eapply wp_send_rpc_rest; [by eapply request_pre|]. intros e w' Hp. apply HQ.
  eexists _, _. eapply request_tracks; [done..|]. by eapply posted_request.
Qed.

Lemma wp_request t x s es w i data d sem (Q : Z -> world -> Prop) :
  site_ok x -> tracks_in x s es w -> is_least i (q_free s) -> user_data x data d ->
  (forall w', tracks_in x (act_next (si_ch x) s (Request i d sem)) es w' -> Q (Z.of_nat i) w') ->
  wp t (send_rpc_msg_to_server (request_to x data sem)) Q w.
Proof.
  intros Hx (bits & st & Ht) Hi Hd HQ. unfold send_rpc_msg_to_server. wp_step.
  pose proof (tracks_at_site _ _ _ _ _ _ Hx Ht) as Hs.
  eapply wp_alloc_msgbuf_id; [apply Hs|by rewrite (proj2 (tk_bits _ _ _ _ _ _ Ht))|]. intros v.
  eapply (wp_request_rest _ x s bits st es (log (EvStack v) w)); [done| |done|done|done].
  by eapply tracks_at_same.
Qed.

(** With no id left it spins. *)
Lemma request_blocks x s w data sem :
  site_ok x -> tracks x s w -> q_free s = ∅ ->
  exists w', send_rpc_msg_to_server (request_to x data sem) w = Blocked w'.
Proof.
  intros Hx (bits & st & Ht) He. pose proof (tracks_at_site _ _ _ _ _ _ Hx Ht) as Hs.
  eexists. unfold send_rpc_msg_to_server. apply bind_blocked.
  eapply alloc_full_blocks; [apply Hs|by rewrite (proj2 (tk_bits _ _ _ _ _ _ Ht))|apply Ht].
Qed.
End Request.

(** ** A response *)

Section Response.
Context {K : Kernel}.
Context (Halloc : forall h b, k_kzalloc h b = true).
Context (Hpost : forall h qp wr, k_post_recv h qp wr = 0).
Context (Hstack : forall h, k_stack h = 0).

(** The completion of the receive request [id] of the channel. *)
Definition response_wc (x : site) (id : Z) : ib_wc :=
  {| wc_status := IB_WC_SUCCESS; wc_opcode := IB_WC_RECV;
     wc_byte_len := u32 (cb_msgbuf_size (si_cb x)); wc_wr_id := id |}.

(** The device writes the message into the buffer of context [c]. *)
Lemma dma_tracks x s bits st es w i c q sem d :
  site_ok x -> tracks_at x s bits st es w -> si_ctxs x !! i = Some c -> fits (si_size x) d ->
  let img := wire_image q (si_ch x) sem d in
  let w1 := upd_heap (insert (recv_buf c) (BBytes img)) w in
  deliver (ADma (recv_buf c) img) w = Ok tt w1 /\ tracks_at x s bits st es w1.
Proof.
  intros Hx Ht Hc [Hd _] img w1. pose proof (tracks_at_site _ _ _ _ _ _ Hx Ht) as Hs.
  destruct Hs as [Hbm Hcb Hl Hcc Hcnt _ _ _ _ Hf Hown Hlive Hnd _].
  destruct (elem_of_ctx_bufs _ _ _ Hc) as [Hrb _]. destruct (Hlive _ Hrb) as (b & Hb & Hlb).
  pose proof (so_count _ Hx) as [Hln _]. pose proof (so_size _ Hx).
  destruct (own_apart _ (so_apart _ Hx)) as (A1 & A2 & A3 & A4 & A5 & A6).
  assert (Hli : length img = (24 + Z.to_nat (si_size x))%nat)
    by (unfold img; rewrite length_wire_image; lia).
  assert (Hown' : forall a, a ∈ si_own x -> recv_buf c <> a)
    by (intros a Ha <-; by apply (Hown _ Ha)).
  split.
  { unfold deliver, rdma_delivery, rdma_deliver, dma_write, modify. rewrite Hb.
    by rewrite decide_True by congruence. }
  pose proof Ht as [Hsu Hst Hbl Hsl Hout Hrv Hwk Hsch].
  destruct (with_seqns_bufs (si_ctxs x) (q_seqns s)) as [Eb Em]; [congruence|].
  split; try done.
  - rewrite <- (with_state_twice st st). eapply set_up_change; [exact Hsu|done|done|done|done|done
      |..].
    + unfold w1. wsimpl. rewrite lookup_insert_ne by (apply Hown', own_in). exact Hcb.
    + unfold w1. wsimpl. rewrite lookup_insert_ne by (apply Hown', own_in). exact Hl.
    + unfold w1. wsimpl. rewrite lookup_insert_ne by (apply Hown', own_in). apply Hbm.
    + rewrite Eb. unfold w1. wsimpl. apply live_insert.
      * intros a Ha. destruct (Hlive a Ha) as (b' & ? & ?). exists b'.
        rewrite (so_msgbuf _ Hx). split; [done|lia].
      * rewrite (so_msgbuf _ Hx). lia.
    + intros a H1 H2 H3 H4. unfold w1. wsimpl. apply lookup_insert_ne. intros <-.
      apply H4. by rewrite Eb.
    + eapply fresh_same_dom; [exact Hf|done|]. intros a Ha. unfold w1. wsimpl.
      apply lookup_insert_ne. intros <-. destruct Hf as [_ Hf]. by rewrite Hf in Hb.
    + done.
  - intros j bj cj Hj Hcj. unfold w1. wsimpl.
    rewrite lookup_insert_ne; [by eapply Hout|]. by eapply (bufs_distinct _ i j).
Qed.

(** The state after the interrupt, from what it did to the memory and to the
    queues. *)
Lemma response_tracks x s bits st es w w' i c q sem d :
  site_ok x -> tracks_at x s bits st es w -> i = (q_heard s mod BIT_ARR_SIZE)%nat ->
  si_ctxs x !! i = Some c ->
  heap w' = response_heap w (si_cba x) (with_state st (si_cb x)) (si_info x) bits i ->
  next w <= next w' -> objs w' = objs w -> sched w' = sched w ->
  recvs (cb_qp (si_cb x)) (cb_cq (si_cb x)) w' =
    (posted (cb_qp (si_cb x)) (trace w) ++ [Z.of_nat i],
     S (received (cb_cq (si_cb x)) (trace w))) ->
  wakes (trace w') = u64 sem :: wakes (trace w) ->
  tracks_at x (act_next (si_ch x) s (Response i q sem d)) (<[i := 0]> bits) WORKING es w'.
Proof.
  intros Hx Ht Hi Hc Hh Hn Ho Hsch' Hrv' Hwk'.
  pose proof (tracks_at_site _ _ _ _ _ _ Hx Ht) as Hs.
  destruct Hs as [Hbm Hcb Hl Hcc Hcnt _ _ _ _ Hf Hown Hlive Hnd _].
  pose proof Ht as [Hsu Hst [Hbl Hfree] Hsl Hout Hrv Hwk Hsch].
  pose proof (so_count _ Hx) as [Hln _].
  destruct (own_apart _ (so_apart _ Hx)) as (A1 & A2 & A3 & A4 & A5 & A6).
  assert (Hlt : (i < BIT_ARR_SIZE)%nat) by (rewrite Hi; by apply Nat.mod_upper_bound).
  destruct (with_seqns_bufs (si_ctxs x) (q_seqns s)) as [Eb Em]; [congruence|].
  unfold response_heap in Hh. change (msgbuf_bitmap (si_info x)) with (si_bitmap x) in Hh.
  change (cb_state (with_state st (si_cb x))) with st in Hh.
  rewrite with_state_twice in Hh.
  replace (if st <=s CONNECTED then with_state WORKING (si_cb x) else with_state st (si_cb x))
    with (with_state WORKING (si_cb x)) in Hh by (by destruct Hst as [-> | ->]).
  assert (Hat : forall a, a <> si_cba x -> a <> si_bitmap x -> heap w' !! a = heap w !! a)
    by (intros a H1 H2; rewrite Hh, !lookup_insert_ne by done; done).
  assert (Hbuf : forall a, a ∈ ctx_bufs (si_ctxs x) -> heap w' !! a = heap w !! a).
  { intros a Ha. apply Hat; intros ->; revert Ha; apply Hown, own_in. }
  split; cbn [act_next q_free q_seqns q_out q_heard q_woke]; try done.
  - rewrite <- (with_state_twice WORKING st).
    eapply set_up_change; [exact Hsu|done|done|done|done|done|..].
    + rewrite with_state_twice, Hh. apply lookup_insert_eq.
    + rewrite Hat by done. exact Hl.
    + rewrite Hh, lookup_insert_ne by done. apply lookup_insert_eq.
    + rewrite Eb. intros a Ha. destruct (Hlive a Ha) as (b & Hb & Hlb). exists b.
      rewrite (so_msgbuf _ Hx), (Hbuf a Ha). pose proof (so_size _ Hx). split; [done|lia].
    + intros a H1 H2 _ _. by apply Hat.
    + destruct Hf as [Hp Hf]. split; [lia|]. intros a Ha.
      assert (Ha' : heap w !! a = None) by (apply Hf; lia).
      rewrite Hat; [done|congruence|]. intros ->. destruct Hbm as [_ _ Hb _].
      unfold si_bitmap in *. congruence.
    + done.
  - by right.
  - rewrite length_insert, <- Hfree. split; [done|]. by apply free_bits_clear.
  - intros j b cj Hj Hcj. rewrite Hbuf; [by eapply Hout|]. by eapply elem_of_ctx_bufs.
  - rewrite Hrv', in_turn_next, Hi. unfold recvs in Hrv. by injection Hrv as -> ->.
  - by rewrite Hwk', Hwk.
  - congruence.
Qed.

Lemma response_heap_at x s bits st es w w2 i :
  site_ok x -> tracks_at x s bits st es w ->
  heap w2 = response_heap w (si_cba x) (with_state st (si_cb x)) (si_info x) bits i ->
  heap w2 !! si_cba x = Some (BCb (with_state WORKING (si_cb x)))
  /\ heap w2 !! cb_buf_ctxs (si_cb x) = Some (BCtxs (with_seqns (si_ctxs x) (q_seqns s))).
Proof.
  intros Hx Ht ->. destruct (tracks_at_site _ _ _ _ _ _ Hx Ht)
    as [_ _ Hl Hcc _ _ _ _ _ _ _ _ _ _].
  destruct (own_apart _ (so_apart _ Hx)) as (A1 & A2 & A3 & A4 & A5 & A6).
  pose proof (tk_state _ _ _ _ _ _ Ht) as Hst. unfold response_heap.
  change (msgbuf_bitmap (si_info x)) with (si_bitmap x). split.
  - rewrite lookup_insert_eq. by destruct Hst as [-> | ->].
  - by rewrite Hcc, !lookup_insert_ne by done.
Qed.

(** [receive_msg] on the completion of the receive [i]. *)
Lemma wp_receive_response t x s bits st es w w1 i c q sem d (Q : Z -> world -> Prop) :
  site_ok x -> tracks_at x s bits st es w -> (i < BIT_ARR_SIZE)%nat ->
  si_ctxs x !! i = Some c -> fits (si_size x) d ->
  heap w !! recv_buf c = Some (BBytes (wire_image q (si_ch x) sem d)) ->
  heap w1 = heap w -> next w1 = next w ->
  (forall w2, responded w1 (si_cba x) (with_state st (si_cb x)) (si_info x) bits sem i w2 ->
     Q 0 w2) ->
  wp t (receive_msg (si_cba x) (response_wc x (Z.of_nat i))) Q w1.
Proof.
  intros Hx Ht Hlt Hc [Hdl Hds] Himg Hh Hn HQ.
  pose proof (tracks_at_site _ _ _ _ _ _ Hx Ht) as Hs.
  destruct (site_ctx _ _ _ _ _ _ i Hx Ht Hlt) as (c' & n & Hc' & Hn' & Hat & _). simplify_eq.
  destruct Hs as [Hbm Hcb Hl Hcc Hcnt [Hsz Hms] [Hrpc Husr] _ _ Hf _ _ _ _].
  assert (Hid : i32 (wc_wr_id (response_wc x (Z.of_nat i))) = Z.of_nat i)
    by (apply sint_small; unfold in_i, BIT_ARR_SIZE in *; cbn; lia).
  assert (Hch : u64 (si_ch x) = si_ch x) by (apply uint_small, Hx).
  pose proof (so_size _ Hx) as Hsz0.
  eapply (wp_response t w1 _ _ _ _ _ q (si_ch x) sem d (si_info x) bits i);
    [|done| | | |rewrite Hch|done|done|exact HQ].
  - split; rewrite ?Hh, ?Hid; try done.
    + change (cb_buf_ctxs (with_state st (si_cb x))) with (cb_buf_ctxs (si_cb x)).
      by rewrite Hcc.
    + change (cb_msgbuf_size (with_state st (si_cb x))) with (cb_msgbuf_size (si_cb x)).
      change (cb_msgdata_size (with_state st (si_cb x))) with (cb_msgdata_size (si_cb x)).
      congruence.
    + change (cb_msgdata_size (with_state st (si_cb x))) with (cb_msgdata_size (si_cb x)).
      congruence.
    + destruct Hf as [Hp Hf]. split; rewrite Hn; [done|]. by rewrite Hh.
  - unfold recv_allocs_ok. rewrite !Halloc, !andb_true_r.
    change (cb_msgbuf_size (with_state st (si_cb x))) with (cb_msgbuf_size (si_cb x)).
    apply Z.leb_le. lia.
  - exact Hrpc.
  - exact Husr.
  - destruct Hbm. split; rewrite ?Hh; done.
Qed.

(** The state in which the interrupt calls [receive_msg], and the one it ends in
    when that left [w2]. *)
Definition interrupt_taken (x : site) (st : rdma_ch_state) (i : nat) (r : Z) (w : world)
    : world :=
  let cq := cb_cq (si_cb x) in
  log (EvPollCq (cb_cq (with_state st (si_cb x))) (PollWc (response_wc x (Z.of_nat i))))
    (upd_cqs (insert (cb_cq (with_state st (si_cb x)))
        {| cq_context := si_cba x; cq_polls := [] |})
      (log (EvStack 0) (log (EvReqNotifyCq cq r)
        (upd_cqs (insert cq {| cq_context := si_cba x;
           cq_polls := [PollWc (response_wc x (Z.of_nat i))] |}) w)))).
Definition interrupt_end (x : site) (wr : ib_recv_wr) (w2 : world) : world :=
  let cb := with_state WORKING (si_cb x) in
  log (EvPollCq (cb_cq cb) PollEmpty)
    (upd_cqs (insert (cb_cq cb) {| cq_context := si_cba x; cq_polls := [] |})
      (log (EvPostRecv (cb_qp cb) wr 0) w2)).

Lemma interrupt_tracks x s bits st es w i c q sem d r wr w2 :
  site_ok x -> tracks_at x s bits st es w -> i = (q_heard s mod BIT_ARR_SIZE)%nat ->
  si_ctxs x !! i = Some c -> rwr_wr_id wr = Z.of_nat i ->
  cqs w !! cb_cq (si_cb x) = Some {| cq_context := si_cba x; cq_polls := [] |} ->
  responded (interrupt_taken x st i r w) (si_cba x) (with_state st (si_cb x)) (si_info x)
    bits sem i w2 ->
  tracks_at x (act_next (si_ch x) s (Response i q sem d)) (<[i := 0]> bits) WORKING es
    (interrupt_end x wr w2).
Proof.
  intros Hx Ht Hi Hc Hid Hcq [Hh2 Ht2 Hn2 Hs2 Ho2].
  pose proof (objs_inv _ _ Ho2) as (Ecm & Ecq & Epd & Eqp & Edm & Eer).
  unfold interrupt_end. eapply response_tracks; [done|done|done|done|exact Hh2|..].
  - wsimpl. rewrite Hn2. unfold interrupt_taken. wsimpl. lia.
  - unfold objs. wsimpl. rewrite Ecm, Ecq, Epd, Eqp, Edm, Eer. unfold interrupt_taken. wsimpl.
    change (cb_cq (with_state ?st (si_cb x))) with (cb_cq (si_cb x)).
    by rewrite !insert_insert_eq, (insert_id (cqs w)).
  - exact Hs2.
  - unfold recvs. wsimpl. rewrite Ht2.
    change (cb_cq (with_state ?st (si_cb x))) with (cb_cq (si_cb x)).
    change (cb_qp (with_state ?st (si_cb x))) with (cb_qp (si_cb x)).
    unfold recv_trace, interrupt_taken. wsimpl.
    change (cb_cq (with_state ?st (si_cb x))) with (cb_cq (si_cb x)).
    cbn [posted received is_receive response_wc wc_status wc_opcode].
    rewrite !Z.eqb_refl, !decide_True, Hid by done. done.
  - wsimpl. by rewrite Ht2.
Qed.

Lemma wp_interrupt t x s bits st es w i c q sem d (Q : unit -> world -> Prop) :
  site_ok x -> tracks_at x s bits st es w -> i = (q_heard s mod BIT_ARR_SIZE)%nat ->
  si_ctxs x !! i = Some c -> fits (si_size x) d ->
  heap w !! recv_buf c = Some (BBytes (wire_image q (si_ch x) sem d)) ->
  (forall w', tracks_at x (act_next (si_ch x) s (Response i q sem d)) (<[i := 0]> bits)
     WORKING es w' -> Q tt w') ->
  wp t (deliver (ACq (cb_cq (si_cb x)) [PollWc (response_wc x (Z.of_nat i))])) Q w.
Proof.
  intros Hx Ht Hi Hc Hd Himg HQ. pose proof (tracks_at_site _ _ _ _ _ _ Hx Ht) as Hs.
  destruct Hs as [Hbm Hcb Hl Hcc Hcnt _ _ Hqp Hcq Hf Hown Hlive Hnd _].
  pose proof Ht as [Hsu Hst Hbl Hsl Hout Hrv Hwk Hsch].
  assert (Hne : st_val st =? st_val ERROR = false) by (by destruct Hst as [-> | ->]).
  unfold deliver, rdma_delivery, rdma_deliver. do 2 wp_step. rewrite Hcq.
  cbn [cq_context cq_polls app]. do 2 wp_step. unfold cq_thread. do 2 wp_step.
  change (cb_cq (with_state st (si_cb x))) with (cb_cq (si_cb x)).
  rewrite bool_decide_eq_true_2 by done. cbn [negb].
  change (cb_state (with_state st (si_cb x))) with st. rewrite Hne. wp_step.
  apply wp_ib_req_notify_cq; [eexists; wsimpl; apply lookup_insert_eq|]. intros r _.
  do 3 wp_step. rewrite Hstack. change (negb (0 =? 0)) with false. cbv iota.
  unfold cq_event_handler. do 5 wp_step. wsimpl. rewrite lookup_insert_eq.
  cbn [cq_polls length cq_loop]. wp_step.
  eapply wp_load; [exact Hcb|]. unfold ib_poll_cq. do 5 wp_step.
  eapply wp_from_option; [wsimpl; apply lookup_insert_eq|].
  cbn [cq_context cq_polls]. do 6 wp_step.
  fold (interrupt_taken x st i r w). unfold cq_complete. cbn [wc_status wc_opcode response_wc].
  assert (Hlt : (i < BIT_ARR_SIZE)%nat) by (rewrite Hi; by apply Nat.mod_upper_bound).
  do 2 wp_step. eapply (wp_receive_response _ x s bits st es w); [done..|]. intros w2 Hr2.
  destruct (response_heap_at x s bits st es w w2 i Hx Ht (rd_heap _ _ _ _ _ _ _ _ Hr2)) as [Hcb2 Hl2].
  pose proof (objs_inv _ _ (rd_objs _ _ _ _ _ _ _ _ Hr2)) as (_ & Ecq & _ & Eqp & _ & _).
  destruct (site_ctx _ _ _ _ _ _ i Hx Ht Hlt) as (c' & n & Hc' & Hn' & Hat & Hid).
  assert (c' = c) as -> by congruence.
  assert (Hqp2 : cb_qp (with_state WORKING (si_cb x)) ∈ qps w2) by (rewrite Eqp; exact Hqp).
  assert (Hcq2 : cqs w2 !! cb_cq (si_cb x) = Some {| cq_context := si_cba x; cq_polls := [] |})
    by (rewrite Ecq; unfold interrupt_taken; wsimpl; apply lookup_insert_eq).
  change (negb (0 =? 0)) with false. cbv iota. do 3 wp_step.
  eapply wp_load_ctx; [exact Hl2|exact Hat|]. do 4 wp_step. rewrite Hpost.
  change (negb (0 =? 0)) with false. cbv iota. do 6 wp_step.
  eapply wp_from_option; [exact Hcq2|]. cbn [cq_context cq_polls]. do 7 wp_step.
  apply HQ. by eapply interrupt_tracks.
Qed.
End Response.
