(* ===== verification/RpcUse.v ===== *)
(** * RpcUse: an RPC channel from its creation to its destruction

    [init_rpc_client], any sequence of requests and responses, and
    [destroy_rpc_client]: the channel of the code refines the abstract channel
    of [RpcSpec] and is refined by it, and what follows for its users. *)
From stdpp Require Import gmultiset.
From S2P Require Import Prelude Types Kernel Logic Verbs Wait Within Frame Bitmap MsgbufIds Wire.
From S2P Require Import RdmaIo RdmaCm RdmaMem RdmaBufs RdmaCh RpcClient RpcTest RpcSpec RpcLife.

(** ** A new channel *)

(** Taking the channel out of the base gives the state [w] back. *)
Record site_from (x : site) (w : world) : Prop := {
  sf_ch : si_ch x = next w;
  sf_mem : si_mem x = heap w;
  sf_heap : delete (si_ch x) (delete (si_bitmap x) (delete (si_cba x)
    (delete (cb_buf_ctxs (si_cb0 x)) (heap (si_base x))))) = heap w;
  sf_cms : delete (cb_cm_id (si_cb0 x)) (cms (si_base x)) = cms w;
  sf_objs : objs (upd_cms (fun _ => cms w) (si_base x)) = objs w }.

Section New.
Context {K : Kernel}.

(** The place of a channel that [init_rpc_client] created in [w]; [base] is the
    state in which [run_client] started. *)
Definition new_site (w base : world) (cb0 cb : rdma_ch_cb) (l : list msgbuf_ctx) : site :=
  let info := rpc_ch_at (next w) (next w + 2) in
  {| si_ch := next w; si_info := info; si_cba := next w + 2; si_cb0 := cb0; si_cb := cb;
     si_ctxs := l; si_base := upd_heap (insert (next w) (BRpcCh info)) base;
     si_mem := heap w |}.

(** The memory in which [run_client] starts, over that of [w]. *)
Definition new_heap (w base : world) (cb0 : rdma_ch_cb) (l0 : list msgbuf_ctx) : Prop :=
  heap base = put_channel (next w + 2) cb0 l0
    (<[next w := BRpcCh (rpc_ch_at (next w) NULL)]> (<[next w + 1 := BBytes (zeros 4)]> (heap w))).

Lemma new_site_memory w base cb0 cb l l0 :
  fresh_ok w -> cb_buf_ctxs cb0 = next w + 3 -> new_heap w base cb0 l0 ->
  let x := new_site w base cb0 cb l in
  heap (si_base x) !! si_ch x = Some (BRpcCh (si_info x))
  /\ heap (si_base x) !! si_bitmap x = Some (BBytes (zeros 4))
  /\ NoDup (si_own x)
  /\ (forall a b, si_mem x !! a = Some b -> heap (si_base x) !! a = Some b /\ (a ∉ si_own x))
  /\ delete (si_ch x) (delete (si_bitmap x) (delete (si_cba x)
       (delete (cb_buf_ctxs (si_cb0 x)) (heap (si_base x))))) = heap w.
Proof.
  intros [Hpos Hfree] Hc Hh x.
  assert (Hown : si_own x = [next w; next w + 1; next w + 2; next w + 3])
    by (unfold si_own, x, new_site, si_bitmap; cbn; by rewrite Hc).
  assert (Hb : heap (si_base x) = <[next w := BRpcCh (si_info x)]> (heap base)) by done.
  unfold new_heap, put_channel in Hh. rewrite Hh in Hb.
  change (si_ch x) with (next w). change (si_bitmap x) with (next w + 1).
  change (si_cba x) with (next w + 2). change (cb_buf_ctxs (si_cb0 x)) with (cb_buf_ctxs cb0).
  change (si_mem x) with (heap w).
  rewrite Hc. clearbody x. split; [by rewrite Hb, lookup_insert_eq|]. split.
  { rewrite Hb. rewrite !lookup_insert_ne by lia.
    apply lookup_insert_eq. }
  split; [|split].
  - rewrite Hown. repeat (apply NoDup_cons_2;
      [rewrite ?elem_of_cons, ?elem_of_nil; lia|]). apply NoDup_nil_2.
  - intros a b Ha. assert (a < next w) by (apply Z.nle_gt; intros ?; by rewrite Hfree in Ha).
    rewrite Hb, Hown, !lookup_insert_ne by lia. split; [done|].
    rewrite !elem_of_cons, elem_of_nil. lia.
  - rewrite Hb. apply map_eq. intros a.
    destruct (decide (next w <= a < next w + 4)) as [Ha|Ha].
    + rewrite (Hfree a) by lia. rewrite !lookup_delete. repeat case_decide; try done. lia.
    + rewrite !lookup_delete_ne, !lookup_insert_ne by lia. done.
Qed.

Lemma with_seqns_new l :
  length l = BIT_ARR_SIZE -> (forall j c, l !! j = Some c -> mc_seqn c = 1) ->
  with_seqns l (replicate BIT_ARR_SIZE 1) = l.
Proof.
  intros Hl Hs. apply list_eq. intros j. unfold with_seqns. rewrite lookup_zip_with.
  destruct (l !! j) as [c|] eqn:Hc; [|done].
  rewrite lookup_replicate_2 by (apply lookup_lt_Some in Hc; lia). cbn.
  pose proof (Hs _ _ Hc) as Hq. destruct c; cbn in *. by subst.
Qed.

Lemma wr_ids_in_turn l :
  length l = BIT_ARR_SIZE ->
  (forall j c, l !! j = Some c -> rwr_wr_id (rq_wr c) = Z.of_nat j) ->
  wr_ids l = Z.of_nat <$> seq 0 BIT_ARR_SIZE.
Proof.
  intros Hl Hid. apply list_eq. intros j. unfold wr_ids. rewrite !list_lookup_fmap.
  destruct (l !! j) as [c|] eqn:Hc.
  - rewrite lookup_seq_lt by (apply lookup_lt_Some in Hc; lia). cbn. by rewrite (Hid _ _ Hc).
  - rewrite lookup_seq_ge; [done|]. apply lookup_ge_None in Hc. lia.
Qed.

(** What [init_rpc_client] leaves is a new abstract channel. *)
Lemma rpc_up_tracks w n port size cb2 l w' :
  fresh_ok w -> rpc_up w n port size client_rdma_msg_handler_fn [] cb2 l w' ->
  cms w !! KPtr n = None -> next w < 2 ^ 64 -> 0 <= size < 2 ^ 31 - 24 ->
  exists x, site_ok x /\ site_from x w /\ si_size x = size
    /\ tracks x (new_chan (wakes (trace w'))) w'.
Proof.
  intros Hf [(ip & sin & l0 & w0 & w1 & w2 & Hh0 & Hn0 & Ho0 & Hin & Hsu & Hrdy & Hw') Hst Hrv Hsch]
    Hid Hlt Hsz.
  pose proof Hf as [Hpos Hfree].
  destruct (rpc_blocks_kept w w0 w1 w2 _ _ _ _ _ _ Hf Hn0 Hh0 Hin Hsu)
    as (Hp1 & Hp2 & Hb2 & Hnb & Hnb2).
  set (attr := rpc_attr ip port size client_rdma_msg_handler_fn) in *.
  set (cb0 := new_cb attr sin w0 (KPtr n)) in *.
  assert (Hctxs : cb_buf_ctxs cb0 = next w + 3) by (cbn; lia).
  destruct (new_ctxs _ _ attr _ _ eq_refl (id_ctxs _ _ _ _ _ _ Hin) Hrdy) as [Hlen Hctx].
  destruct Hin as [_ Hh1 Hcm1 Hn1 Ho1 _].
  set (x := new_site w w1 cb0 cb2 l).
  destruct (new_site_memory w w1 cb0 cb2 l l0 Hf Hctxs) as (M1 & M2 & M3 & M4 & M5).
  { unfold new_heap. rewrite Hh1, Hn0, Hh0. done. }
  fold x in M1, M2, M3, M4, M5.
  assert (Hx : site_ok x).
  { split; try done.
    - change (0 <= size). lia.
    - change (cb_msgbuf_size (si_cb0 x)) with (msgbuf_size size).
      by rewrite msgbuf_size_small by lia.
    - change (si_ctxs x) with l. apply wr_ids_in_turn; [done|]. intros j c Hc. by apply Hctx.
    - change (si_ch x) with (next w). unfold in_u. lia. }
  exists x. split; [done|]. split; [|split; [done|] ].
  - split; try done.
    + change (delete (KPtr n) (cms w1) = cms w). rewrite Hcm1, delete_insert_id; [|].
      * apply objs_inv in Ho0 as [-> _]. done.
      * apply objs_inv in Ho0 as [-> _]. done.
    + unfold objs in *. wsimpl. change (cqs (si_base x)) with (cqs w1).
      wsimpl in *. injection Ho0 as Ecm Ecq Epd Eqp Edm Eer.
      injection Ho1 as Ecq1 Epd1 Eqp1 Edm1 Eer1. change (pds (si_base x)) with (pds w1).
      change (qps (si_base x)) with (qps w1). change (dmas (si_base x)) with (dmas w1).
      change (errno (si_base x)) with (errno w1). congruence.
  - exists [0; 0; 0; 0], CONNECTED.
    assert (Hwb : with_bits x [0; 0; 0; 0] = si_base x)
      by (unfold with_bits; apply upd_heap_id, insert_id; exact M2).
    split; try done.
    + rewrite Hwb. change (si_ctxs x) with l. cbn [new_chan q_seqns].
      rewrite with_seqns_new; [|done|intros j c Hc; exact (proj1 (Hctx j c Hc))].
      change (si_cb x) with cb2. rewrite <- Hst, with_state_id, Hw'.
      eapply (set_up_frame _ _ _ _ _ _ _ (BRpcCh (rpc_ch_at (next w) (next w + 2))));
        [exact Hsu|exact Hp1|exact Hp2|change (next w <> next w + 2); lia
        |change (next w <> cb_buf_ctxs cb0); rewrite Hctxs; lia|exact Hnb].
    + by left.
    + change (recvs (cb_qp cb2) (cb_cq cb2) w' = (in_turn 0, O)). rewrite Hrv. f_equal.
      rewrite (wr_ids_in_turn l Hlen) by (intros j c Hc; by apply Hctx). done.
Qed.
End New.

(** ** The channel refines its abstraction *)

Section Steps.
Context {K : Kernel}.

(** What can happen to the channel: a thread sends, or the device writes a
    message into the buffer of the oldest receive that is still posted and
    raises the completion interrupt. *)
Inductive chan_step (x : site) (w : world) : act -> world -> Prop :=
  | step_request data d sem id w' :
      user_data x data d ->
      send_rpc_msg_to_server (request_to x data sem) w = Ok (Z.of_nat id) w' ->
      chan_step x w (Request id d sem) w'
  | step_response cb l id c q sem d w1 w' :
      heap w !! si_cba x = Some (BCb cb) -> heap w !! cb_buf_ctxs cb = Some (BCtxs l) ->
      posted (cb_qp cb) (trace w) !! received (cb_cq cb) (trace w) = Some (Z.of_nat id) ->
      ctx_at l (Z.of_nat id) = Some c -> fits (si_size x) d ->
      deliver (ADma (recv_buf c) (wire_image q (si_ch x) sem d)) w = Ok tt w1 ->
      deliver (ACq (cb_cq cb) [PollWc
        {| wc_status := IB_WC_SUCCESS; wc_opcode := IB_WC_RECV;
           wc_byte_len := u32 (cb_msgbuf_size cb); wc_wr_id := Z.of_nat id |}]) w1 = Ok tt w' ->
      chan_step x w (Response id q sem d) w'.

Inductive chan_run (x : site) : world -> list act -> world -> Prop :=
  | chan_run_nil w : chan_run x w [] w
  | chan_run_cons w a l w1 w' :
      chan_step x w a w1 -> chan_run x w1 l w' -> chan_run x w (a :: l) w'.

(** The data of the requests is in the users' memory. *)
Definition in_memory (x : site) (a : act) : Prop :=
  match a with
  | Request _ d _ => exists data, user_data x data d
  | Response _ _ _ _ => True
  end.

Context (Halloc : forall h b, k_kzalloc h b = true).
Context (Hpost : forall h qp wr, k_post_recv h qp wr = 0).
Context (Hstack : forall h, k_stack h = 0).

(** The next response: where it lands and what comes of it. *)
Lemma response_runs x s es w q sem d :
  site_ok x -> tracks_in x s es w -> fits (si_size x) d ->
  exists st c w1 w', let cb := with_state st (si_cb x) in
    let i := (q_heard s mod BIT_ARR_SIZE)%nat in
    heap w !! si_cba x = Some (BCb cb)
    /\ heap w !! cb_buf_ctxs cb = Some (BCtxs (with_seqns (si_ctxs x) (q_seqns s)))
    /\ posted (cb_qp cb) (trace w) !! received (cb_cq cb) (trace w) = Some (Z.of_nat i)
    /\ ctx_at (with_seqns (si_ctxs x) (q_seqns s)) (Z.of_nat i) = Some c
    /\ deliver (ADma (recv_buf c) (wire_image q (si_ch x) sem d)) w = Ok tt w1
    /\ deliver (ACq (cb_cq cb) [PollWc (response_wc x (Z.of_nat i))]) w1 = Ok tt w'
    /\ tracks_in x (act_next (si_ch x) s (Response i q sem d)) es w'.
Proof.
  intros Hx (bits & st & Ht) Hd. set (i := (q_heard s mod BIT_ARR_SIZE)%nat).
  pose proof (tracks_at_site _ _ _ _ _ _ Hx Ht) as [_ Hcb Hl Hcc _ _ _ _ _ _ _ _ _ _].
  destruct (site_ctx x s bits st es w i Hx Ht) as (c & n & Hc & Hn & Hat & _);
    [by apply Nat.mod_upper_bound|].
  destruct (dma_tracks x s bits st es w i c q sem d Hx Ht Hc Hd) as [Hdma Ht1].
  match type of Hdma with _ = Ok tt ?w => set (w1 := w) in * end.
  destruct (wp_total_unit (deliver (ACq (cb_cq (si_cb x)) [PollWc (response_wc x (Z.of_nat i))]))
    (fun _ w' => tracks_in x (act_next (si_ch x) s (Response i q sem d)) es w') w1)
    as (w' & Hcq & Ht').
  { eapply (wp_interrupt Halloc Hpost Hstack _ x s bits st es w1 i c q sem d); [done..| |].
    - apply lookup_insert_eq.
    - intros w' Ht'. by eexists _, _. }
  exists st, (c <| mc_seqn := n |>), w1, w'. cbv zeta.
  change (cb_buf_ctxs (with_state st (si_cb x))) with (cb_buf_ctxs (si_cb x)). rewrite Hcc.
  split; [done|]. split; [done|]. split; [|done].
  change (posted (cb_qp (si_cb x)) (trace w) !! received (cb_cq (si_cb x)) (trace w)
    = Some (Z.of_nat i)).
  pose proof (tk_recvs _ _ _ _ _ _ Ht) as Hrv. unfold recvs in Hrv.
  injection Hrv as -> ->. apply in_turn_lookup.
Qed.

(** Every abstract step is a step of the machine. *)
Lemma chan_step_complete x s w a :
  site_ok x -> tracks x s w -> act_ok (si_size x) s a -> in_memory x a ->
  exists w', chan_step x w a w' /\ tracks x (act_next (si_ch x) s a) w'.
Proof.
  intros Hx Ht Ha Hm. destruct a as [i d sem|i q sem d]; unfold act_ok in Ha.
  - destruct Ha as [Hi _], Hm as [data Hdata].
    destruct (wp_total_run (send_rpc_msg_to_server (request_to x data sem)) (fun r w' =>
      r = Z.of_nat i /\ tracks x (act_next (si_ch x) s (Request i d sem)) w') w)
      as (r & w' & Hr & -> & Ht').
    { eapply wp_request; [done|done|done|done|]. by intros w' Ht'. }
    exists w'. split; [by econstructor|done].
  - destruct Ha as [-> Hd].
    destruct (response_runs x s [] w q sem d Hx Ht Hd)
      as (st & c & w1 & w' & Hcb & Hl & Hp & Hc & H1 & H2 & Ht').
    exists w'. split; [|done].
    eapply (step_response x w (with_state st (si_cb x)) _ _ c q sem d w1 w'); [exact Hcb|exact Hl
      |exact Hp|exact Hc|exact Hd|exact H1|exact H2].
Qed.

(** Every step of the machine is an abstract one. *)
Lemma chan_step_sound x s w a w' :
  site_ok x -> tracks x s w -> chan_step x w a w' ->
  act_ok (si_size x) s a /\ in_memory x a /\ tracks x (act_next (si_ch x) s a) w'.
Proof.
  intros Hx Ht Hstep. destruct Hstep as [data d sem id w' Hdata Hrun
    |cb l id c q sem d w1 w' Hcb Hl Hp Hc Hd H1 H2].
  - destruct Ht as (bits & st & Hta).
    pose proof (tracks_at_site _ _ _ _ _ _ Hx Hta) as [Hbm _ _ _ _ _ _ _ _ _ _ _ _ _].
    pose proof Hbm as [_ _ _ Hbl]. destruct (tk_bits _ _ _ _ _ _ Hta) as [_ Hfree].
    assert (Ht : tracks x s w) by by exists bits, st.
    destruct (find_first_clear_bit_cases bits 0 Hbl) as [(i & _ & Hi)|[_ He]].
    2: { destruct (request_blocks x s w data sem Hx Ht) as [w2 Hb]; congruence. }
    rewrite Hfree in Hi.
    destruct (wp_run (t := Total) _ (fun r w' => r = Z.of_nat i
      /\ tracks x (act_next (si_ch x) s (Request i d sem)) w') w _ _
      ltac:(eapply wp_request; [done|done|done|done|by intros]) Hrun) as [Hid Ht'].
    assert (id = i) as -> by lia. destruct Hdata as (bd & Hm & Hdd & Hfit).
    split; [done|]. split; [|done]. exists data, bd. done.
  - destruct (response_runs x s [] w q sem d Hx Ht Hd)
      as (st & c' & w2 & w3 & Hcb' & Hl' & Hp' & Hc' & H1' & H2' & Ht').
    rewrite Hcb in Hcb'. injection Hcb' as ->. rewrite Hl in Hl'. injection Hl' as ->.
    assert (id = (q_heard s mod BIT_ARR_SIZE)%nat) as -> by (apply Nat2Z.inj; congruence).
    rewrite Hc in Hc'. injection Hc' as ->. rewrite H1 in H1'. injection H1' as ->.
    change (deliver (ACq (cb_cq (with_state st (si_cb x)))
      [PollWc (response_wc x (Z.of_nat (q_heard s mod BIT_ARR_SIZE)))]) w2 = Ok tt w') in H2.
    rewrite H2 in H2'. injection H2' as ->. done.
Qed.

Lemma chan_run_complete x s w l s' :
  site_ok x -> tracks x s w -> act_run (si_ch x) (si_size x) s l s' -> Forall (in_memory x) l ->
  exists w', chan_run x w l w' /\ tracks x s' w'.
Proof.
  intros Hx Ht Hr. revert w Ht. induction Hr as [s|s a l s' Ha _ IH]; intros w Ht Hm.
  - exists w. split; [constructor|done].
  - apply Forall_cons_1 in Hm as [Hma Hm].
    destruct (chan_step_complete x s w a Hx Ht Ha Hma) as (w1 & H1 & Ht1).
    destruct (IH w1 Ht1 Hm) as (w' & H2 & Ht'). exists w'. split; [by econstructor|done].
Qed.

Lemma chan_run_sound x s w l w' :
  site_ok x -> tracks x s w -> chan_run x w l w' ->
  exists s', act_run (si_ch x) (si_size x) s l s' /\ Forall (in_memory x) l /\ tracks x s' w'.
Proof.
  intros Hx Ht Hr. revert s Ht. induction Hr as [w|w a l w1 w' H1 _ IH]; intros s Ht.
  - exists s. split; [constructor|done].
  - destruct (chan_step_sound x s w a w1 Hx Ht H1) as (Ha & Hm & Ht1).
    destruct (IH _ Ht1) as (s' & H2 & Hml & Ht'). exists s'.
    split; [by constructor|]. split; [by constructor|done].
Qed.
End Steps.

(** ** Waiting for an id *)

Section Waiting.
Context {K : Kernel}.

Lemma wp_alloc_loop_full t n w ch c l v (Q : Z -> world -> Prop) :
  bitmap_at w ch c l -> free_bits l = ∅ ->
  wp t (other_contexts;; alloc_loop n ch v) Q w -> wp t (alloc_loop (S n) ch v) Q w.
Proof. intros Hbm He HQ. unfold wp. by rewrite (alloc_loop_full (S n) w ch c l v Hbm He). Qed.

Lemma wp_run_next t w e es (Q : unit -> world -> Prop) :
  sched w = e :: es -> wp t (deliver e) Q (set_sched es w) -> wp t run_next Q w.
Proof. intros Hs HQ. unfold run_next. do 2 wp_step. rewrite Hs. by do 2 wp_step. Qed.

Lemma tracks_at_sched x s bits st es es' w :
  tracks_at x s bits st es w -> tracks_at x s bits st es' (set_sched es' w).
Proof.
  intros [Hsu Hst Hb Hsl Hout Hrv Hwk _]. split; try done. by eapply set_up_same.
Qed.

Context (Halloc : forall h b, k_kzalloc h b = true).
Context (Hpost : forall h qp wr, k_post_recv h qp wr = 0).
Context (Hstack : forall h, k_stack h = 0).

(** Two rounds of the spin loop: the device writes the message, the interrupt
    handles it; the third finds the id. *)
Lemma wp_spin t x s bits st w i c q sem d v (Q : Z -> world -> Prop) :
  site_ok x -> q_free s = ∅ -> i = (q_heard s mod BIT_ARR_SIZE)%nat ->
  si_ctxs x !! i = Some c -> fits (si_size x) d ->
  tracks_at x s bits st [ADma (recv_buf c) (wire_image q (si_ch x) sem d);
    ACq (cb_cq (si_cb x)) [PollWc (response_wc x (Z.of_nat i))]] w ->
  (forall w', tracks_at x (act_next (si_ch x) s (Response i q sem d)) (<[i := 0]> bits)
     WORKING [] w' -> Q (Z.of_nat i) (put_bitmap (si_info x) (<[i := 1]> (<[i := 0]> bits)) w')) ->
  wp t (alloc_loop 2 (si_ch x) v) Q w.
Proof.
  intros Hx He Hi Hc Hd Ht HQ.
  assert (Hfull : forall es w, tracks_at x s bits st es w ->
    bitmap_at w (si_ch x) (si_info x) bits /\ free_bits bits = ∅).
  { intros es v' Hv. destruct (tk_bits _ _ _ _ _ _ Hv) as [_ ->]. split; [|done].
    by apply (tracks_at_site _ _ _ _ _ _ Hx Hv). }
  destruct (Hfull _ _ Ht) as [Hbm Hf].
  eapply wp_alloc_loop_full; [exact Hbm|exact Hf|]. wp_step.
  eapply wp_run_next; [apply Ht|].
  eapply (tracks_at_sched _ _ _ _ _ [_]) in Ht.
  destruct (dma_tracks _ _ _ _ _ _ _ _ q sem d Hx Ht Hc Hd) as [Hr Ht1].
  eapply wp_of_run; [exact Hr|]. destruct (Hfull _ _ Ht1) as [Hbm1 _].
  eapply wp_alloc_loop_full; [exact Hbm1|exact Hf|]. wp_step.
  eapply wp_run_next; [apply Ht1|].
  eapply (tracks_at_sched _ _ _ _ _ []) in Ht1.
  eapply (wp_interrupt Halloc Hpost Hstack _ x s bits st []); [done|exact Ht1|done|done|done| |].
  { apply lookup_insert_eq. }
  intros w' Ht'. pose proof (tracks_at_site _ _ _ _ _ _ Hx Ht') as [Hbm' _ _ _ _ _ _ _ _ _ _ _ _ _].
  eapply wp_alloc_loop_found; [exact Hbm'| |by apply HQ].
  rewrite (proj2 (tk_bits _ _ _ _ _ _ Ht')). cbn [act_next q_free]. rewrite He, left_id_L by apply _.
  split; [by apply elem_of_singleton|]. intros j ->%elem_of_singleton. done.
Qed.
End Waiting.

(** ** Destroying a used channel *)

Section Destroy_used.
Context {K : Kernel}.

Lemma wp_destroy_used t x s w w0 (Q : unit -> world -> Prop) :
  site_ok x -> site_from x w0 -> tracks x s w ->
  (forall w3, heap w3 = heap w0 -> objs w3 = objs w0 -> sched w3 = [] -> Q tt w3) ->
  wp t (destroy_rpc_client (si_ch x)) Q w.
Proof.
  intros Hx [_ _ Hheap Hcms Hobjs] (bits & st & Ht) HQ.
  pose proof (tracks_at_site _ _ _ _ _ _ Hx Ht) as [ [Hch _ _ _] _ _ _ _ _ _ _ _ _ _ _ _ _].
  destruct (so_info _ Hx) as (Hty & Hcba & _).
  destruct (own_apart _ (so_apart _ Hx)) as (A1 & A2 & A3 & A4 & A5 & A6).
  unfold destroy_rpc_client. do 2 wp_step. wp_step. rewrite Hty.
  change (RPC_CH_RDMA =? RPC_CH_RDMA) with true. cbv iota. rewrite Hcba.
  eapply wp_destroy_rdma_client; [apply Ht|apply Hx|]. intros w3 [Dh Dp Dc Dq Dd Dcm [De Ds] ].
  unfold with_bits in *. wsimpl in *.
  assert (H1 : heap w3 !! si_ch x = Some (BRpcCh (si_info x))).
  { rewrite Dh, !lookup_delete_ne, lookup_insert_ne by done. apply Hx. }
  assert (H2 : heap w3 !! msgbuf_bitmap (si_info x) = Some (BBytes bits)).
  { change (msgbuf_bitmap (si_info x)) with (si_bitmap x).
    rewrite Dh, !lookup_delete_ne by done. apply lookup_insert_eq. }
  wp_step. eapply wp_load; [exact H1|]. unfold bit_array_free. wp_step.
  eapply wp_kfree; [exact H2|].
  eapply wp_kfree; [wsimpl; rewrite lookup_delete_ne by congruence; exact H1|].
  apply HQ; wsimpl.
  - rewrite <- Hheap, Dh. change (msgbuf_bitmap (si_info x)) with (si_bitmap x). f_equal.
    rewrite !(delete_delete _ (si_bitmap x)). do 2 f_equal. apply delete_insert_eq.
  - unfold objs in *. wsimpl in *. rewrite Dp, Dc, Dq, Dd, De, Dcm, Hcms.
    injection Hobjs as Ecq Epd Eqp Edm Eer. congruence.
  - rewrite Ds. apply Ht.
Qed.
End Destroy_used.

(** ** Properties *)

(** A channel created by [init_rpc_client] in [w], with a kernel whose calls
    succeed, whose stack garbage makes [cq_thread] handle its completions, and
    with no events left once the connection is up. *)
Record rpc_use_pre (K : Kernel) (w : world) (n : Z) (target : addr) (size : Z) : Prop := {
  up_init : rpc_init_pre (K := K) w n target size [];
  up_id : cms w !! KPtr n = None;
  up_next : next w < 2 ^ 64;
  up_size : 0 <= size < 2 ^ 31 - 24;
  up_stack : forall h, k_stack h = 0 }.

Section Use.
Context {K : Kernel}.

(** The channel [x] that is created, and the state [w1] after that. *)
Definition rpc_created (w : world) (target : addr) (port size : Z) (x : site) (w1 : world)
    : Prop :=
  init_rpc_client RPC_CH_RDMA target port size client_rdma_msg_handler_fn w = Ok (si_ch x) w1
  /\ site_from x w /\ si_size x = size.

Lemma rpc_create w n target port size :
  rpc_use_pre K w n target size ->
  exists x w1, rpc_created w target port size x w1 /\ site_ok x
    /\ tracks x (new_chan (wakes (trace w1))) w1.
Proof.
  intros [Hpre Hid Hlt Hsz _]. pose proof Hpre as [_ _ _ _ _ Hf _ _ _].
  destruct (wp_total_run (init_rpc_client RPC_CH_RDMA target port size
    client_rdma_msg_handler_fn) (fun r w' => r = next w /\ exists cb2 l,
      rpc_up w n port size client_rdma_msg_handler_fn [] cb2 l w') w)
    as (r & w1 & Hr & -> & cb2 & l & Hup).
  { eapply wp_init_rpc_client; [done|]. eauto. }
  destruct (rpc_up_tracks _ _ _ _ _ _ _ Hf Hup Hid Hlt Hsz) as (x & Hx & Hfrom & Hxs & Ht).
  exists x, w1. split; [|done]. split; [|done]. by rewrite (sf_ch _ _ Hfrom).
Qed.

(** The runs of a new channel are those of the abstract one. *)
Lemma rpc_runs w n target size x w1 l :
  rpc_use_pre K w n target size -> site_ok x -> si_size x = size ->
  tracks x (new_chan (wakes (trace w1))) w1 ->
  (forall s', act_run (si_ch x) size (new_chan (wakes (trace w1))) l s' ->
     Forall (in_memory x) l -> exists w2, chan_run x w1 l w2 /\ tracks x s' w2)
  /\ (forall w2, chan_run x w1 l w2 -> exists s',
        act_run (si_ch x) size (new_chan (wakes (trace w1))) l s' /\ tracks x s' w2).
Proof.
  intros [ [HK Hpost _ _ _ _ _ _ _] _ _ _ Hst] Hx <- Ht. split.
  - intros s' Hs Hm. by eapply (chan_run_complete (rl_alloc _ HK) Hpost Hst).
  - intros w2 Hw. destruct (chan_run_sound (rl_alloc _ HK) Hpost Hst _ _ _ _ _ Hx Ht Hw)
      as (s' & ? & _ & ?). by exists s'.
Qed.

(** C1. An RPC channel is the abstract channel of [RpcSpec], from its creation on:
    every sequence of requests and responses of the abstract channel can be run
    on the machine, and every sequence that runs on the machine is one of the
    abstract channel; the two agree on the free ids, the sequence numbers, the
    contents of the send buffers, and the semaphores woken.  ([rpc_use_pre]: the
    kernel's calls succeed, the connection comes up, and the unassigned [ret] of
    [cq_thread] reads 0.) *)
Theorem rpc_channel_refines w n target port size :
  rpc_use_pre K w n target size ->
  exists x w1, rpc_created w target port size x w1
    /\ forall acts,
      (forall s, act_run (si_ch x) size (new_chan (wakes (trace w1))) acts s ->
         Forall (in_memory x) acts -> exists w2, chan_run x w1 acts w2 /\ tracks x s w2)
      /\ (forall w2, chan_run x w1 acts w2 -> exists s,
            act_run (si_ch x) size (new_chan (wakes (trace w1))) acts s /\ tracks x s w2).
Proof.
  intros Hpre. destruct (rpc_create w n target port size Hpre) as (x & w1 & Hc & Hx & Ht).
  exists x, w1. split; [done|]. intros acts. eapply rpc_runs; [done|done|apply Hc|done].
Qed.

(** A used RPC channel leaks nothing either: whatever requests were sent and
    responses handled on it, [destroy_rpc_client] leaves the memory and every
    kernel object as they were before [init_rpc_client]. *)
Theorem used_channel_leak_free w n target port size :
  rpc_use_pre K w n target size ->
  exists x w1, rpc_created w target port size x w1
    /\ forall acts w2, chan_run x w1 acts w2 -> exists w3,
         destroy_rpc_client (si_ch x) w2 = Ok tt w3
         /\ heap w3 = heap w /\ objs w3 = objs w /\ sched w3 = [].
Proof.
  intros Hpre. destruct (rpc_create w n target port size Hpre) as (x & w1 & Hc & Hx & Ht).
  exists x, w1. split; [done|]. intros acts w2 Hrun.
  destruct (rpc_runs w n target size x w1 acts Hpre Hx (proj2 (proj2 Hc)) Ht) as [_ Hs].
  destruct (Hs w2 Hrun) as (s & _ & Ht2).
  apply (wp_total_unit _ (fun _ w3 => heap w3 = heap w /\ objs w3 = objs w /\ sched w3 = [])).
  eapply wp_destroy_used; [done|apply Hc|done|done].
Qed.

(** C13. A thread that finds every message id taken spins in [alloc_msgbuf_id] until
    the next response: the device's write and the completion interrupt run while
    it spins, the id they free is the one it gets, and the channel is then that
    of the response followed by the request.  (Under [rpc_use_pre].) *)
Theorem blocked_sender_resumes w n target size x s w2 c data d sem q sem' d' :
  rpc_use_pre K w n target size -> site_ok x -> tracks x s w2 -> q_free s = ∅ ->
  let i := (q_heard s mod BIT_ARR_SIZE)%nat in
  si_ctxs x !! i = Some c -> fits (si_size x) d' -> user_data x data d ->
  exists w3, send_rpc_msg_to_server (request_to x data sem)
      (set_sched [ADma (recv_buf c) (wire_image q (si_ch x) sem' d');
         ACq (cb_cq (si_cb x)) [PollWc (response_wc x (Z.of_nat i))]] w2) = Ok (Z.of_nat i) w3
    /\ tracks x (act_next (si_ch x) (act_next (si_ch x) s (Response i q sem' d'))
         (Request i d sem)) w3.
Proof.
  intros [ [HK Hpost _ _ _ _ _ _ _] _ _ _ Hst] Hx (bits & st & Ht) He i Hc Hd' Hd.
  destruct (wp_total_run (send_rpc_msg_to_server (request_to x data sem)) (fun r w3 =>
    r = Z.of_nat i /\ tracks x (act_next (si_ch x) (act_next (si_ch x) s (Response i q sem' d'))
      (Request i d sem)) w3)
    (set_sched [ADma (recv_buf c) (wire_image q (si_ch x) sem' d');
         ACq (cb_cq (si_cb x)) [PollWc (response_wc x (Z.of_nat i))]] w2))
    as (r & w3 & Hr & -> & Ht3); [|by exists w3].
  unfold send_rpc_msg_to_server, alloc_msgbuf_id, indeterminate. do 5 wp_step.
  eapply (wp_spin (rl_alloc _ HK) Hpost Hst _ x s bits st _ i c q sem' d'); [done|done|done|done|done| |].
  { eapply tracks_at_same; [by eapply tracks_at_sched|done..]. }
  intros w4 Ht4. eapply (wp_request_rest _ x _ _ WORKING []); [done|exact Ht4| |done|].
  - cbn [act_next q_free]. rewrite He, left_id_L by apply _.
    split; [by apply elem_of_singleton|]. by intros j ->%elem_of_singleton.
  - by intros w' Hw'.
Qed.

(** C12. Used by one thread that waits for each response before it sends again, the
    channel loses its message ids: from the fourth round on only one is free,
    so that a second request sent before the first is answered spins forever.
    Such uses of any length exist.  (Under [rpc_use_pre].) *)
Theorem sequential_calls_lose_ids w n target port size :
  rpc_use_pre K w n target size ->
  exists x w1, rpc_created w target port size x w1
    /\ (forall k data d, user_data x data d ->
          exists acts w2, rounds k acts /\ chan_run x w1 acts w2)
    /\ (forall k acts w2, (BIT_ARR_SIZE <= k)%nat -> rounds k acts -> chan_run x w1 acts w2 ->
          let i := ((k - 1) mod BIT_ARR_SIZE)%nat in
          (exists bits, bitmap_at w2 (si_ch x) (si_info x) bits /\ free_bits bits = {[i]})
          /\ forall data d sem, user_data x data d -> exists w3,
               send_rpc_msg_to_server (request_to x data sem) w2 = Ok (Z.of_nat i) w3
               /\ forall data' sem', exists w4,
                    send_rpc_msg_to_server (request_to x data' sem') w3 = Blocked w4).
Proof.
  intros Hpre. destruct (rpc_create w n target port size Hpre) as (x & w1 & Hc & Hx & Ht).
  exists x, w1. split; [done|]. pose proof (proj2 (proj2 Hc)) as Hxs. split.
  - intros k data d Hdata. pose proof Hdata as (bd & _ & _ & Hfit). rewrite Hxs in Hfit.
    destruct (rounds_exist (si_ch x) size (wakes (trace w1)) k d 0 Hfit)
      as (acts & s & Hr & Hs & Hall).
    destruct (rpc_runs w n target size x w1 acts Hpre Hx Hxs Ht) as [Hcomp _].
    destruct (Hcomp s Hs) as (w2 & Hw2 & _); [|by exists acts, w2].
    revert Hall. apply Forall_impl. intros [i d1 sem1|] Ha; [|done]. cbn in *. subst d1.
    by exists data.
  - intros k acts w2 Hk Hr Hw2 i.
    destruct (rpc_runs w n target size x w1 acts Hpre Hx Hxs Ht) as [_ Hsnd].
    destruct (Hsnd w2 Hw2) as (s & Hs & Ht2).
    destruct (rounds_free _ _ _ _ _ _ Hr Hs) as [Hf _]. unfold free_after in Hf.
    rewrite decide_False in Hf by lia. fold i in Hf. split.
    + destruct Ht2 as (bits & st & Ht2). exists bits.
      split; [by apply (tracks_at_site _ _ _ _ _ _ Hx Ht2)|].
      by rewrite (proj2 (tk_bits _ _ _ _ _ _ Ht2)).
    + intros data d sem Hdata.
      destruct (wp_total_run (send_rpc_msg_to_server (request_to x data sem)) (fun r w3 =>
        r = Z.of_nat i /\ tracks x (act_next (si_ch x) s (Request i d sem)) w3) w2)
        as (r & w3 & Hr3 & -> & Ht3).
      { eapply wp_request; [done|done| |done|by intros]. rewrite Hf.
        split; [by apply elem_of_singleton|]. by intros j ->%elem_of_singleton. }
      exists w3. split; [done|]. intros data' sem'.
      eapply request_blocks; [done|done|]. cbn [act_next q_free]. rewrite Hf.
      apply difference_diag_L.
Qed.

(** C10. The id of an unanswered request is given away: with two requests
    outstanding, the first response, whichever request it answers, frees the id
    of the first, and the next request gets it and overwrites the message in
    its send buffer.  Such runs exist, with the second request answered.  (Under
    [rpc_use_pre].) *)
Theorem unanswered_id_reused w n target port size :
  rpc_use_pre K w n target size ->
  exists x w1, rpc_created w target port size x w1
    /\ (forall i1 d1 sem1 i2 d2 sem2 j q sem d i3 d3 sem3 w2,
      chan_run x w1 [Request i1 d1 sem1; Request i2 d2 sem2; Response j q sem d;
        Request i3 d3 sem3] w2 ->
      i1 = 0%nat /\ i2 = 1%nat /\ j = 0%nat /\ i3 = 0%nat
      /\ exists c, si_ctxs x !! 0%nat = Some c
           /\ heap w2 !! send_buf c = Some (BBytes (wire_image 3 (si_ch x) sem3 d3)))
    /\ forall data d sem1 sem2 sem3 q, user_data x data d -> exists w2,
         chan_run x w1 [Request 0 d sem1; Request 1 d sem2; Response 0 q sem2 d;
           Request 0 d sem3] w2.
Proof.
  intros Hpre. destruct (rpc_create w n target port size Hpre) as (x & w1 & Hc & Hx & Ht).
  exists x, w1. split; [done|]. pose proof (proj2 (proj2 Hc)) as Hxs. split.
  2: { intros data d sem1 sem2 sem3 q Hd. pose proof Hd as (bd & _ & _ & Hfit).
       rewrite Hxs in Hfit.
       destruct (two_outstanding_run (si_ch x) size (wakes (trace w1)) d sem1 sem2 sem3 q Hfit)
         as [s Hs].
       destruct (proj1 (rpc_runs w n target size x w1 _ Hpre Hx Hxs Ht) s Hs) as (w2 & Hw2 & _);
         [|by exists w2]. repeat constructor; by exists data. }
  intros i1 d1 sem1 i2 d2 sem2 j q sem d i3 d3 sem3 w2 Hw2.
  destruct (proj2 (rpc_runs w n target size x w1 _ Hpre Hx Hxs Ht) w2 Hw2)
    as (s & Hs & bits & st & Ht2).
  destruct (two_outstanding _ _ _ _ _ _ _ _ _ _ _ _ _ _ _ _ _ Hs) as (-> & -> & -> & -> & Hq).
  do 4 (split; [done|]).
  destruct (site_ctx _ _ _ _ _ _ 0 Hx Ht2) as (c & m & Hc0 & _); [unfold BIT_ARR_SIZE; lia|].
  exists c. split; [done|]. by eapply (tk_out _ _ _ _ _ _ Ht2).
Qed.
End Use.
