(* ===== verification/RpcConc.v ===== *)
(** * RpcConc: RPC calls that run at the same time ([rpc_client.c])

    [send_rpc_msg_to_server] takes a lock for the bitmap only: while one thread
    writes its message, others allocate ids and write theirs, and the completion
    interrupt of a response runs.  Here the whole function is cut into steps (its
    critical section, and each access to memory of [send_rdma_msg]), and any
    number of threads and the responses take their turns in any order.  As long
    as no response frees the id of a message that is still being written, what
    they do is a sequence of requests and responses of the abstract channel of
    [RpcSpec], each request at the turn in which it got its id. *)
From stdpp Require Import gmultiset.
From S2P Require Import Prelude Types Kernel Logic Verbs Wait Within Frame Bitmap MsgbufIds Wire.
From S2P Require Import RdmaIo SendConc RdmaCm RdmaMem RdmaBufs RdmaCh RpcClient RpcTest.
From S2P Require Import RpcSpec RpcLife RpcUse.

(** ** Threads *)

(** A call of [send_rpc_msg_to_server]: before it, spinning in
    [alloc_msgbuf_id] with this [bit_id], with an id, in [send_rdma_msg], and
    after it. *)
Inductive thread :=
  | Calling (req : rpc_req_param)
  | Asking (req : rpc_req_param) (bit_id : Z)
  | Chosen (req : rpc_req_param) (msgbuf_id : Z)
  | Sending (msgbuf_id : Z) (p : prog Z)
  | Returned (msgbuf_id : Z).

(** The id whose message a thread has still to write. *)
Definition holds (t : thread) : option nat :=
  match t with
  | Chosen _ id | Sending id _ => Some (Z.to_nat id)
  | _ => None
  end.

(** The id a thread was given. *)
Definition given (t : thread) : option Z :=
  match t with
  | Calling _ | Asking _ _ => None
  | Chosen _ id | Sending id _ | Returned id => Some id
  end.

Section Threads.
Context {K : Kernel}.

Definition thread_step (t : thread) : M thread :=
  match t with
  | Calling req => bit_id ← indeterminate; mret (Asking req bit_id)
  | Asking req bit_id =>
      r ← alloc_try (req_rpc_ch req) bit_id;
      mret (if fst r =? 0 then Asking req (snd r) else Chosen req (i32 (snd r)))
  | Chosen req id =>
      c ← load (T := rpc_ch_info) (req_rpc_ch req);
      mret (if ch_type c =? RPC_CH_RDMA
            then Sending id (send_prog (ch_cb c) (req_rpc_ch req) (req_data req) (req_sem req) id 0)
            else Returned id)
  | Sending id (Step m k) => r ← m; mret (Sending id (k r))
  | Sending id (Done _) => mret (Returned id)
  | Returned _ => mret t
  end.

(** A thread on its own. *)
Fixpoint thread_steps (n : nat) (t : thread) : M thread :=
  match n with
  | O => mret t
  | S n => t' ← thread_step t; thread_steps n t'
  end.

Lemma thread_steps_run id p r w w' :
  run p w = Ok r w' -> exists n, thread_steps n (Sending id p) w = Ok (Returned id) w'.
Proof.
  revert w. induction p as [r'|B m k IH]; intros w Hr; cbn [run] in Hr.
  - exists 1%nat. by injection Hr as _ ->.
  - unfold mbind, M_bind in Hr. destruct (m w) as [y w1| |] eqn:Hm; [|done..].
    destruct (IH y w1 Hr) as [n Hn]. exists (S n). cbn [thread_steps thread_step].
    unfold mbind, M_bind in *. by rewrite Hm.
Qed.

(** Alone, a thread does what the function does. *)
Lemma thread_alone req w id w' :
  sched w = [] -> send_rpc_msg_to_server req w = Ok id w' ->
  exists n, thread_steps n (Calling req) w = Ok (Returned id) w'.
Proof.
  intros Hs Hr. unfold send_rpc_msg_to_server, alloc_msgbuf_id, indeterminate in Hr.
  unfold mbind, M_bind, call, get in Hr. wsimpl in Hr. rewrite Hs in Hr. cbn [length alloc_loop] in Hr.
  unfold mbind, M_bind in Hr.
  destruct (alloc_try _ _ _) as [ [f b] w1| |] eqn:Ha; [|done..]. cbn [fst snd] in Hr.
  destruct (f =? 0) eqn:Ef; [done|]. unfold mret, M_ret in Hr.
  destruct (load (T := rpc_ch_info) _ _) as [c w2| |] eqn:Hc; [|done..].
  assert (H3 : forall n, thread_steps (3 + n) (Calling req) w =
    thread_steps n (if ch_type c =? RPC_CH_RDMA then Sending (i32 b)
      (send_prog (ch_cb c) (req_rpc_ch req) (req_data req) (req_sem req) (i32 b) 0)
      else Returned (i32 b)) w2).
  { intros n. cbn [Nat.add thread_steps thread_step]. unfold indeterminate, mbind, M_bind, call. wsimpl.
    unfold mret, M_ret. cbn [thread_step]. unfold mbind, M_bind, mret, M_ret. rewrite Ha.
    cbn [fst snd]. rewrite Ef. cbn [thread_step]. unfold mbind, M_bind, mret, M_ret. by rewrite Hc. }
  destruct (ch_type c =? RPC_CH_RDMA).
  - destruct (send_rdma_msg _ _ _ _ _ _ _) as [r w3| |] eqn:Hsend; [|done..].
    rewrite <- run_send_prog in Hsend. apply (thread_steps_run (i32 b)) in Hsend as [n Hn].
    injection Hr as <- <-. exists (3 + n)%nat. by rewrite H3.
  - injection Hr as <- <-. exists 3%nat. exact (H3 O).
Qed.
End Threads.

(** With an id, a thread has few steps left. *)
Fixpoint bounded {A} (k : nat) (p : prog A) : Prop :=
  match p, k with
  | Done _, _ => True
  | Step m f, S k => forall r, bounded k (f r)
  | Step _ _, O => False
  end.

Definition within (r : nat) (t : thread) : Prop :=
  match t with
  | Calling _ | Asking _ _ => False
  | Chosen _ _ => (16 <= r)%nat
  | Sending _ p => exists k, bounded k p /\ (k < r)%nat
  | Returned _ => True
  end.

Lemma bounded_send `{K : Kernel} cba ch data sem id seqn :
  bounded 14 (send_prog cba ch data sem id seqn).
Proof.
  unfold send_prog, send_prog_rest. intros cb. destruct (cb_msgbuf_cnt cb <=? id); [exact I|].
  intros c. destruct (seqn =? 0); cbn; intros; exact I.
Qed.

Lemma within_step `{K : Kernel} r t w t' w' :
  within (S r) t -> thread_step t w = Ok t' w' -> within r t' /\ given t' = given t.
Proof.
  destruct t as [req|req b|req id|id [v|B m f]|id]; cbn [within thread_step]; intros Hw Hr;
    [done|done| |by injection Hr as <- <-| |by injection Hr as <- <-].
  - unfold mbind, M_bind, mret, M_ret in Hr. destruct (load _ _) as [c w1| |]; [|done..].
    injection Hr as <- <-. destruct (ch_type c =? RPC_CH_RDMA); [|done]. split; [|done].
    exists 14%nat. split; [apply bounded_send|lia].
  - destruct Hw as ([|k] & Hb & Hk); [by destruct Hb|].
    unfold mbind, M_bind, mret, M_ret in Hr. destruct (m w) as [y w1| |]; [|done..].
    injection Hr as <- <-. split; [|done]. exists k. split; [apply Hb|lia].
Qed.

Lemma within_le r r' t : within r t -> (r <= r')%nat -> within r' t.
Proof.
  destruct t as [req|req b|req id|id p|id]; cbn; try done; [lia|].
  intros (k & Hb & Hk) Hr. exists k. split; [done|lia].
Qed.

(** ** Many threads and the responses *)

(** Thread [i] takes a step, or a response arrives. *)
Inductive move := Turn (i : nat) | Arrive.

#[export] Instance move_eq_dec : EqDecision move.
Proof. solve_decision. Defined.

(** The turns of thread [i]. *)
Definition turns (i : nat) (ms : list move) : nat := length (filter (.= Turn i) ms).

Definition busy (ts : list thread) (id : nat) : Prop :=
  exists j t, ts !! j = Some t /\ holds t = Some id.

Definition ids_apart (ts : list thread) : Prop :=
  forall j k t u id, ts !! j = Some t -> ts !! k = Some u ->
    holds t = Some id -> holds u = Some id -> j = k.

(** A response lands in the buffer of an id that nobody is writing for. *)
Definition orderly (ts : list thread) (id : nat) : Prop := ~ busy ts id.

Section Pool.
Context {K : Kernel} (x : site) (allowed : list thread -> nat -> Prop).

(** The request of a call is made when the call gets its id. *)
Definition emits (t t' : thread) (acts : list act) : Prop :=
  match t, t' with
  | Asking req _, Chosen _ id => exists d, user_data x (req_data req) d
      /\ acts = [Request (Z.to_nat id) d (req_sem req)]
  | _, _ => acts = []
  end.

Inductive pool_step (ts : list thread) (w : world) :
    move -> list act -> list thread -> world -> Prop :=
  | pool_turn i t t' acts w' :
      ts !! i = Some t -> thread_step t w = Ok t' w' -> emits t t' acts ->
      pool_step ts w (Turn i) acts (<[i := t']> ts) w'
  | pool_arrive id q sem d w' :
      allowed ts id -> chan_step x w (Response id q sem d) w' ->
      pool_step ts w Arrive [Response id q sem d] ts w'.

Inductive pool_run : list thread -> world -> list move -> list act -> list thread -> world ->
    Prop :=
  | pool_run_nil ts w : pool_run ts w [] [] ts w
  | pool_run_cons ts w m acts ts1 w1 ms acts' ts' w' :
      pool_step ts w m acts ts1 w1 -> pool_run ts1 w1 ms acts' ts' w' ->
      pool_run ts w (m :: ms) (acts ++ acts') ts' w'.

Lemma pool_step_within ts w m acts ts' w' i t r :
  pool_step ts w m acts ts' w' -> ts !! i = Some t -> within (turns i [m] + r) t ->
  exists t', ts' !! i = Some t' /\ within r t' /\ given t' = given t.
Proof.
  unfold turns. rewrite filter_cons, filter_nil.
  intros Hs Hi Hw. destruct Hs as [j u u' acts w' Hj Hu _|id q sem d w' _ _].
  - destruct (decide (j = i)) as [->|Hne].
    + rewrite decide_True in Hw by done. simplify_eq. exists u'.
      rewrite list_lookup_insert_eq by (by eapply lookup_lt_Some).
      split; [done|]. by eapply within_step.
    + rewrite decide_False in Hw by congruence. exists t. by rewrite list_lookup_insert_ne.
  - rewrite decide_False in Hw by congruence. by exists t.
Qed.

(** A call that has its id returns that id after 16 turns of its own, whatever
    the others do. *)
Lemma pool_run_returns ts w ms acts ts' w' i t id :
  pool_run ts w ms acts ts' w' -> ts !! i = Some t -> given t = Some id ->
  within (turns i ms) t -> ts' !! i = Some (Returned id).
Proof.
  intros Hr. revert t. induction Hr as [ts w|ts w m acts ts1 w1 ms acts' ts' w' Hs _ IH];
    intros t Hi Hg Hw.
  - destruct t as [req|req b|req id'|id' p|id']; cbn in Hw, Hg; try done; [lia| |congruence].
    destruct Hw as (k & _ & Hk). lia.
  - destruct (pool_step_within _ _ _ _ _ _ _ _ (turns i ms) Hs Hi) as (t' & Hi' & Hw' & Hg').
    { unfold turns in *. rewrite <- length_app, <- list_basics.list.filter_app. done. }
    apply (IH t' Hi'); congruence.
Qed.
End Pool.

(** ** The invariant *)

(** The abstract channels [s] and [s'] agree on the buffer and the number of
    [i]; on everything but those of the ids [P]. *)
Definition same_at (i : nat) (s s' : chan) : Prop :=
  q_out s' !! i = q_out s !! i /\ q_seqns s' !! i = q_seqns s !! i.

Record agree_but (P : nat -> Prop) (s s' : chan) : Prop := {
  ag_free : q_free s' = q_free s;
  ag_heard : q_heard s' = q_heard s;
  ag_woke : q_woke s' = q_woke s;
  ag_at : forall i, ~ P i -> same_at i s s' }.

Lemma agree_all P s s' : agree_but P s s' -> (forall i, ~ P i) -> s' = s.
Proof.
  intros [Hf Hh Hw Hat] HP. destruct s, s'; cbn in *. subst. f_equal.
  - apply list_eq. intros i. apply (Hat i), HP.
  - apply map_eq. intros i. apply (Hat i), HP.
Qed.

(** The call that fills the buffer of id [i]: [s] already counts its message as
    sent. *)
Record call_of (x : site) (s : chan) (i : nat) (sd : sender) : Prop := {
  cl_id : sd_id sd = Z.of_nat i;
  cl_range : (i < BIT_ARR_SIZE)%nat;
  cl_ctx : exists c n, si_ctxs x !! i = Some c /\ sd_ctx sd = c <| mc_seqn := n |>;
  cl_args : sd_ch sd = si_ch x /\ sd_seqn sd = 0;
  cl_data : si_mem x !! sd_data sd = Some (BBytes (sd_bytes sd));
  cl_ok : sender_ok (si_cb x) sd;
  cl_taken : i ∉ q_free s;
  cl_out : q_out s !! i = Some (image_of (si_cb x) sd);
  cl_seqn : q_seqns s !! i = Some (seqn_of sd) }.

Section Invariant.
Context {K : Kernel} (x : site) (Hx : site_ok x).

(** What is left of it when its buffer holds [b] and its number is [n]. *)
Definition stage (t : thread) (sd : sender) (b : list Z) (n : Z) : Prop :=
  match t with
  | Chosen req id => id = sd_id sd /\ req = request_to x (sd_data sd) (sd_sem sd)
      /\ n = mc_seqn (sd_ctx sd)
  | Sending id p => id = sd_id sd /\ exists k e, safe (si_cba x) (si_cb x) sd k p b n e
  | _ => False
  end.

(** The thread [t] when the machine is [s'] and will be [s]. *)
Definition thread_ok (s s' : chan) (t : thread) : Prop :=
  match t with
  | Calling req | Asking req _ => exists data sem d,
      req = request_to x data sem /\ user_data x data d
  | Returned _ => True
  | _ => within 16 t /\ exists sd i b n, call_of x s i sd /\ q_out s' !! i = Some b
      /\ q_seqns s' !! i = Some n /\ stage t sd b n
  end.

Record pool_inv (ts : list thread) (s : chan) (w : world) : Prop := {
  pi_tracks : exists s' bits st, tracks_at x s' bits st [] w /\ agree_but (busy ts) s s'
    /\ forall j t, ts !! j = Some t -> thread_ok s s' t;
  pi_apart : ids_apart ts }.

Lemma thread_ok_holds s s' t i : thread_ok s s' t -> holds t = Some i ->
  exists sd b n, call_of x s i sd /\ q_out s' !! i = Some b /\ q_seqns s' !! i = Some n
    /\ stage t sd b n.
Proof.
  intros Hok Hi. destruct t as [req|req v|req id|id p|id]; try done;
    destruct Hok as (_ & sd & j & b & n & Hc & Hb & Hn & Hst);
    (assert (i = j) as -> by (pose proof (cl_id _ _ _ _ Hc); cbn in Hi, Hst; destruct Hst as [-> _];
       injection Hi as <-; lia)); by exists sd, b, n.
Qed.

(** Changes elsewhere do not matter to a thread. *)
Lemma thread_ok_frame s s' s2 s2' t :
  thread_ok s s' t ->
  (forall i, holds t = Some i -> same_at i s s2 /\ same_at i s' s2'
     /\ (i ∈ q_free s2 -> i ∈ q_free s)) ->
  thread_ok s2 s2' t.
Proof.
  intros Hok Hsame. destruct (holds t) as [i|] eqn:Hi.
  - destruct (Hsame i eq_refl) as ([Ho Hq] & [Ho' Hq'] & Hf).
    destruct (thread_ok_holds s s' t i Hok Hi) as (sd & b & n & [C1 C2 C3 C4 C5 C6 C7 C8 C9] & Hb & Hn & Hst).
    assert (Hw : within 16 t) by (by destruct t; [..|apply Hok|apply Hok|]).
    assert (H : exists sd i b n, call_of x s2 i sd /\ q_out s2' !! i = Some b
      /\ q_seqns s2' !! i = Some n /\ stage t sd b n).
    { exists sd, i, b, n. split; [split; try done; [by intros ?%Hf|congruence|congruence] |].
      split; [congruence|]. split; [congruence|done]. }
    by destruct t.
  - by destruct t.
Qed.

(** One thread has moved on, from [s] and [s'] to [s2] and [s2']. *)
Record moved (s s' : chan) (t : thread) (s2 s2' : chan) (t2 : thread) : Prop := {
  mv_ok : thread_ok s2 s2' t2;
  mv_free : q_free s2' = q_free s2 /\ (forall i, i ∈ q_free s2 -> i ∈ q_free s);
  mv_heard : q_heard s2' = q_heard s2 /\ q_woke s2' = q_woke s2;
  mv_same : forall i, holds t <> Some i -> holds t2 <> Some i ->
    same_at i s s2 /\ same_at i s' s2';
  mv_new : forall i, holds t2 = Some i -> holds t = Some i \/ i ∈ q_free s;
  mv_done : forall i, holds t = Some i -> holds t2 = Some i \/ same_at i s2 s2' }.

Lemma same_at_trans i s s1 s2 : same_at i s s1 -> same_at i s1 s2 -> same_at i s s2.
Proof. intros [H1 H2] [H3 H4]. split; congruence. Qed.
Lemma same_at_sym i s s1 : same_at i s s1 -> same_at i s1 s.
Proof. intros [H1 H2]. by split. Qed.

Lemma pool_moved ts s s' bits st w j t s2 s2' t2 :
  (forall k u, ts !! k = Some u -> thread_ok s s' u) -> agree_but (busy ts) s s' ->
  ids_apart ts -> ts !! j = Some t -> moved s s' t s2 s2' t2 ->
  tracks_at x s2' bits st [] w -> pool_inv (<[j := t2]> ts) s2 w.
Proof.
  intros Hall Hag Hap Hj [Hok [Hf Hless] [Hh Hw] Hsame Hnew Hdone] Ht.
  pose proof (lookup_lt_Some _ _ _ Hj) as Hlt.
  assert (Hother : forall k u i, ts !! k = Some u -> k <> j -> holds u = Some i ->
    holds t <> Some i /\ holds t2 <> Some i).
  { intros k u i Hk Hkj Hu. assert (holds t <> Some i) by (intros Hi; by apply Hkj, (Hap k j u t i)).
    split; [done|]. intros [?|Hfree]%Hnew; [done|].
    destruct (thread_ok_holds s s' u i (Hall k u Hk) Hu) as (sd & _ & _ & Hc & _).
    by apply (cl_taken _ _ _ _ Hc). }
  assert (Hbusy : forall i, holds t2 <> Some i -> busy ts i -> holds t <> Some i ->
    busy (<[j := t2]> ts) i).
  { intros i H2 (k & u & Hk & Hu) H1. exists k, u. split; [|done].
    rewrite list_lookup_insert_ne; [done|]. intros ->. by simplify_eq. }
  split.
  - exists s2', bits, st. split; [done|]. split.
    + split; [done|done|done|]. intros i Hi. assert (H2 : holds t2 <> Some i).
      { intros H2. apply Hi. exists j, t2. by rewrite list_lookup_insert_eq. }
      destruct (decide (holds t = Some i)) as [H1|H1].
      { by destruct (Hdone i H1). }
      destruct (Hsame i H1 H2) as [Hs Hs']. eapply same_at_trans; [by apply same_at_sym|].
      eapply same_at_trans; [|exact Hs']. apply (ag_at _ _ _ Hag). intros Hb. by apply Hi, Hbusy.
    + intros k u Hk. destruct (decide (k = j)) as [->|Hkj].
      { rewrite list_lookup_insert_eq in Hk by done. by simplify_eq. }
      rewrite list_lookup_insert_ne in Hk by done.
      eapply thread_ok_frame; [by eapply Hall|]. intros i Hi.
      destruct (Hother k u i Hk Hkj Hi) as [H1 H2]. destruct (Hsame i H1 H2). auto.
  - intros k1 k2 u1 u2 i H1 H2 Hu1 Hu2.
    destruct (decide (k1 = j)) as [->|N1], (decide (k2 = j)) as [->|N2]; [done|..].
    + rewrite list_lookup_insert_eq in H1 by done. rewrite list_lookup_insert_ne in H2 by done.
      simplify_eq. by destruct (Hother k2 u2 i H2 N2 Hu2).
    + rewrite list_lookup_insert_eq in H2 by done. rewrite list_lookup_insert_ne in H1 by done.
      simplify_eq. by destruct (Hother k1 u1 i H1 N1 Hu1).
    + rewrite list_lookup_insert_ne in H1, H2 by done. by apply (Hap k1 k2 u1 u2 i).
Qed.
End Invariant.

(** ** The steps *)

Section Turns.
Context {K : Kernel} (x : site) (Hx : site_ok x).
Context (s s' : chan) (bits : list Z) (st : rdma_ch_state) (w : world).
Context (Ht : tracks_at x s' bits st [] w).

(** The machine as a sender of [SendConc] sees it. *)
Lemma call_view i sd b n :
  call_of x s i sd -> q_out s' !! i = Some b -> q_seqns s' !! i = Some n ->
  view (si_cba x) (si_cb x) sd b n w.
Proof using Ht Hx.
  intros [Hid Hi (c & n0 & Hc & Hctx) _ Hd _ _ _ _] Hb Hn.
  pose proof (tracks_at_site _ _ _ _ _ _ Hx Ht) as [_ Hcb Hl Hcc _ _ _ Hqp _ _ _ _ _ Hmem].
  destruct (site_ctx _ _ _ _ _ _ i Hx Ht Hi) as (c' & n' & Hc' & Hn' & Hat & _). simplify_eq.
  split.
  - by exists st.
  - exists (with_seqns (si_ctxs x) (q_seqns s')). rewrite Hcc, Hid. split; [done|].
    unfold ctx_with. rewrite Hctx. exact Hat.
  - rewrite Hctx. by apply (tk_out _ _ _ _ _ _ Ht _ _ _ Hb Hc).
  - by apply Hmem.
  - done.
Qed.

(** What a write of a sender changes. *)
Lemma put_written i sd c n0 b n b' n' :
  call_of x s i sd -> si_ctxs x !! i = Some c -> sd_ctx sd = c <| mc_seqn := n0 |> ->
  q_out s' !! i = Some b -> q_seqns s' !! i = Some n ->
  slot_written x bits (<[i := n']> (q_seqns s')) c b' w (upd_heap (put (si_cb x) sd b' n') w).
Proof using Ht Hx.
  intros Hcl Hc Hctx Hb Hn.
  pose proof (tracks_at_site _ _ _ _ _ _ Hx Ht) as
    [ [Hch Hul Hbm Hbl] _ Hl Hcc _ _ _ _ _ _ _ _ _ _].
  pose proof (fun a => own_not_sent x s' bits st [] w i c a Hx Ht Hc) as Hno.
  destruct (own_apart _ (so_apart _ Hx)) as (A1 & A2 & A3 & A4 & A5 & A6).
  destruct (own_in x) as (O1 & O2 & O3 & O4). pose proof (cl_id _ _ _ _ Hcl) as Hid.
  assert (Hsb : send_buf (sd_ctx sd) = send_buf c) by by rewrite Hctx.
  assert (Hat : forall a, a <> send_buf c -> a <> cb_buf_ctxs (si_cb0 x) ->
    heap (upd_heap (put (si_cb x) sd b' n') w) !! a = heap w !! a).
  { intros a H1 H2. unfold put. wsimpl. rewrite Hsb, Hcc.
    by rewrite lookup_insert_ne, lookup_alter_ne. }
  split; try done.
  - split; [| |rewrite Hat|done]; rewrite ?Hat; try done; change (msgbuf_bitmap (si_info x)) with (si_bitmap x);
      auto.
  - unfold put. wsimpl. rewrite Hsb. apply lookup_insert_eq.
  - unfold put. wsimpl. rewrite Hsb, Hcc, lookup_insert_ne, lookup_alter_eq, Hl
      by (apply not_eq_sym, Hno, O4).
    cbn [fmap option_fmap option_map set_ctx]. do 2 f_equal. rewrite Hid, Nat2Z.id. unfold ctx_with. rewrite Hctx.
    symmetry. rewrite <- (with_seqns_insert _ _ _ c _ _ Hc Hn). done.
  - intros a _ H2 H3. by apply Hat.
Qed.
Context (Hfree : q_free s' = q_free s /\ q_heard s' = q_heard s /\ q_woke s' = q_woke s).
Context (Hsame : forall i, i ∈ q_free s -> same_at i s s').

(** A step of the thread [t] that makes the requests [acts]. *)
Definition turn_to (t : thread) (acts : list act) (t2 : thread) (w2 : world) : Prop :=
  exists s2 s2' bits2, act_run (si_ch x) (si_size x) s acts s2
    /\ tracks_at x s2' bits2 st [] w2 /\ moved x s s' t s2 s2' t2.

(** It changes nothing of the channel. *)
Lemma turn_same t t2 w2 :
  thread_ok x s s' t2 -> holds t2 = holds t -> tracks_at x s' bits st [] w2 ->
  turn_to t [] t2 w2.
Proof using Hfree Hsame.
  intros Hok Hh Ht2. exists s, s', bits. split; [constructor|]. split; [done|].
  split; try done; [tauto|tauto|..].
  - intros i Hi. rewrite Hh in Hi. by left.
  - intros i Hi. left. congruence.
Qed.

(** It takes an id: the call, which [act_next] counts as sent. *)
Definition sender_for (i : nat) (c : msgbuf_ctx) (n : Z) (data : addr) (bd : list Z) (sem : Z)
    : sender :=
  {| sd_id := Z.of_nat i; sd_ctx := c <| mc_seqn := n |>; sd_ch := si_ch x; sd_data := data;
     sd_bytes := bd; sd_sem := sem; sd_seqn := 0 |}.

Lemma taken_call i c n data bd sem :
  let d := take (Z.to_nat (si_size x)) bd in
  si_mem x !! data = Some (BBytes bd) -> fits (si_size x) d -> (i < BIT_ARR_SIZE)%nat ->
  si_ctxs x !! i = Some c -> q_seqns s' !! i = Some n -> same_at i s s' ->
  call_of x (act_next (si_ch x) s (Request i d sem)) i (sender_for i c n data bd sem).
Proof using Ht Hx Hfree Hsame.
  intros d Hmem [Hfl Hfs] Hlt Hc Hn [_ Hsq]. rewrite Hsq in Hn.
  pose proof (tracks_at_site _ _ _ _ _ _ Hx Ht) as [_ _ _ _ Hcnt [Hsz _] _ _ _ _ _ _ _ _].
  pose proof (so_size _ Hx).
  assert (Hsd : sent_data (si_cb x) bd = d) by (unfold sent_data; by rewrite Hsz).
  split; try done.
  - by exists c, n.
  - unfold d in Hfl. rewrite length_take in Hfl.
    split; unfold sender_for; cbn [sd_id sd_bytes]; rewrite ?Hcnt, ?Hsd, ?Hsz; try done; [|lia].
    unfold BIT_ARR_SIZE in Hlt. unfold RPC_MSG_BUF_NUM. lia.
  - cbn. set_solver.
  - unfold image_of, sender_for. cbn [sd_bytes]. rewrite Hsd. cbn. by rewrite lookup_insert_eq, Hn.
  - cbn. rewrite list_lookup_insert_eq; [by rewrite Hn|by eapply lookup_lt_Some].
Qed.

Lemma taken_written i c b :
  si_ctxs x !! i = Some c -> heap w !! send_buf c = Some (BBytes b) ->
  slot_written x (<[i := 1]> bits) (q_seqns s') c b w
    (put_bitmap (si_info x) (<[i := 1]> bits) w).
Proof using Ht Hx.
  intros Hc Hb. pose proof (tracks_at_site _ _ _ _ _ _ Hx Ht) as
    [Hbm _ Hl _ _ _ _ _ _ _ _ _ _ _].
  pose proof (fun a => own_not_sent x s' bits st [] w i c a Hx Ht Hc) as Hno.
  destruct (own_apart _ (so_apart _ Hx)) as (A1 & A2 & A3 & A4 & A5 & A6).
  destruct (own_in x) as (O1 & O2 & O3 & O4). unfold put_bitmap.
  change (msgbuf_bitmap (si_info x)) with (si_bitmap x).
  split; try done; wsimpl.
  - eapply bitmap_at_put; [exact Hbm|]. rewrite length_insert. apply Hbm.
  - rewrite lookup_insert_ne; [done|by apply Hno].
  - by rewrite lookup_insert_ne.
  - intros a H1 _ _. by rewrite lookup_insert_ne.
Qed.

Lemma turn_take req v data sem d i :
  req = request_to x data sem -> user_data x data d -> is_least i (q_free s') ->
  turn_to (Asking req v) [Request i d sem] (Chosen req (Z.of_nat i))
    (put_bitmap (si_info x) (<[i := 1]> bits) w).
Proof using Ht Hx Hfree Hsame.
  intros -> (bd & Hmem & -> & Hfit) Hi.
  destruct (request_ctx x s' bits st [] w i Hx Ht Hi) as (c & n & Hc & Hn).
  destruct (tk_bits _ _ _ _ _ _ Ht) as [Hbl Hbits].
  assert (Hlt : (i < BIT_ARR_SIZE)%nat) by (rewrite <- Hbits in Hi; by eapply is_least_bound).
  destruct Hfree as (Hf & Hh & Hw). rewrite Hf in Hi.
  pose proof (taken_call i c n data bd sem Hmem Hfit Hlt Hc Hn (Hsame i (proj1 Hi))) as Hcall.
  pose proof (tracks_at_site _ _ _ _ _ _ Hx Ht) as [_ _ _ _ _ _ _ _ _ _ _ Hlive _ _].
  destruct (Hlive (send_buf c)) as (b & Hb & Hlb); [by eapply elem_of_ctx_bufs|].
  pose proof (taken_written i c b Hc Hb) as Hsw.
  eapply written_tracks in Hsw; [|exact Hx|exact Ht|exact Hc|apply Ht|done|by rewrite length_insert].
  assert (Hfr : free_bits (<[i := 1]> bits) = q_free s ∖ {[i]}) by (by rewrite free_bits_set, Hbits, Hf).
  eexists _, _, _. split; [constructor; [by split|constructor]|]. split; [exact Hsw|].
  split; cbn [q_free q_heard q_woke act_next]; try done.
  - split; [cbn; lia|]. exists (sender_for i c n data bd sem), i, b, n. split; [exact Hcall|].
    cbn [q_out q_seqns]. by rewrite lookup_insert_eq.
  - rewrite Hfr. set_solver.
  - intros j _ Hj. assert (i <> j) by (intros ->; apply Hj; cbn; by rewrite Nat2Z.id).
    split; split; cbn; by rewrite ?lookup_insert_ne, ?list_lookup_insert_ne.
  - intros j [= <-]. right. rewrite Nat2Z.id. apply Hi.
Qed.

(** The steps before the message is written. *)
Lemma asking_turn req v :
  thread_ok x s s' (Asking req v) -> exists t2 w2, thread_step (Asking req v) w = Ok t2 w2
    /\ forall acts, emits x (Asking req v) t2 acts -> turn_to (Asking req v) acts t2 w2.
Proof using Ht Hx Hfree Hsame.
  intros (data & sem & d0 & Hreq & Hd0).
  pose proof (tracks_at_site _ _ _ _ _ _ Hx Ht) as [Hbm _ _ _ _ _ _ _ _ _ _ _ _ _].
  destruct (tk_bits _ _ _ _ _ _ Ht) as [_ Hbits]. cbn [thread_step].
  destruct (find_first_clear_bit_cases bits v (bm_len _ _ _ _ Hbm)) as [(i & _ & Hi)|[_ He] ].
  - pose proof (is_least_bound _ _ Hi) as Hlt.
    assert (Hr : alloc_try (req_rpc_ch req) v w
      = Ok (1, Z.of_nat i) (put_bitmap (si_info x) (<[i := 1]> bits) w)).
    { subst req. apply wp_exact. by eapply wp_alloc_try_found. }
    assert (Hid : i32 (Z.of_nat i) = Z.of_nat i)
      by (apply sint_small; unfold in_i, BIT_ARR_SIZE in *; lia).
    eexists _, _. split; [unfold mbind, M_bind; by rewrite Hr|]. cbn [fst snd].
    change (1 =? 0) with false. cbv iota. rewrite Hid. intros acts (d & Hd & ->).
    rewrite Nat2Z.id. subst req. eapply turn_take; [done|exact Hd|by rewrite <- Hbits].
  - assert (Hr : alloc_try (req_rpc_ch req) v w = Ok (0, v) w).
    { subst req. apply wp_exact. by eapply wp_alloc_try_full. }
    eexists _, _. split; [unfold mbind, M_bind; by rewrite Hr|]. intros acts ->.
    apply turn_same; [by exists data, sem, d0|done|done].
Qed.

(** The bytes of a buffer fill it. *)
Lemma slot_length i c b :
  si_ctxs x !! i = Some c -> q_out s' !! i = Some b -> length b = (24 + Z.to_nat (si_size x))%nat.
Proof using Ht Hx.
  intros Hc Hb. pose proof (tk_out _ _ _ _ _ _ Ht _ _ _ Hb Hc) as Hh.
  destruct (sa_live _ _ _ _ _ (tracks_at_site _ _ _ _ _ _ Hx Ht) (send_buf c)) as (b' & Hb' & Hl);
    [by eapply elem_of_ctx_bufs|]. congruence.
Qed.

Lemma chosen_turn req id :
  thread_ok x s s' (Chosen req id) -> exists p, thread_step (Chosen req id) w = Ok (Sending id p) w
    /\ turn_to (Chosen req id) [] (Sending id p) w.
Proof using Ht Hx Hfree Hsame.
  intros (_ & sd & i & b & n & Hcl & Hb & Hn & -> & -> & Hns).
  pose proof (tracks_at_site _ _ _ _ _ _ Hx Ht) as
    [ [Hch _ _ _] _ _ _ _ [Hsz _] _ _ _ _ _ _ _ _].
  destruct (so_info _ Hx) as (Hty & Hcba & _).
  exists (send_prog (ch_cb (si_info x)) (si_ch x) (sd_data sd) (sd_sem sd) (sd_id sd) 0). split.
  { cbn [thread_step req_rpc_ch request_to].
    rewrite (bind_run _ _ w (si_info x) w) by by apply load_run. by rewrite Hty. }
  apply turn_same; [|done|done]. split; [exists 14%nat; split; [apply bounded_send|lia]|].
  exists sd, i, b, n. split; [done|]. split; [done|]. split; [done|]. split; [done|].
  exists (steps_of sd), None. subst n. destruct (cl_args _ _ _ _ Hcl) as [Hsch Hsq].
  destruct (cl_ctx _ _ _ _ Hcl) as (c & n0 & Hc & _).
  assert (Hp : prog_of (si_cba x) sd =
    send_prog (ch_cb (si_info x)) (si_ch x) (sd_data sd) (sd_sem sd) (sd_id sd) 0).
  { unfold prog_of. by rewrite Hcba, Hsch, Hsq. }
  rewrite <- Hp. apply safe_send; [apply Hcl|]. rewrite Hsz. by eapply slot_length.
Qed.

(** The steps that write it, and the last. *)
Lemma sending_turn id p :
  thread_ok x s s' (Sending id p) -> exists t2 w2, thread_step (Sending id p) w = Ok t2 w2
    /\ turn_to (Sending id p) [] t2 w2.
Proof using Ht Hx Hfree Hsame.
  intros (Hw & sd & i & b & n & Hcl & Hb & Hn & -> & k & e & Hsafe).
  pose proof (cl_id _ _ _ _ Hcl) as Hid. destruct p as [r|B m f].
  - destruct k; [|done]. destruct Hsafe as (-> & -> & _).
    eexists _, _. split; [done|]. exists s, s', bits. split; [constructor|]. split; [done|].
    split; try done; [tauto|tauto|..].
    intros j Hj. right. cbn in Hj. assert (j = i) as -> by (injection Hj as <-; lia).
    split; [by rewrite (cl_out _ _ _ _ Hcl)|by rewrite (cl_seqn _ _ _ _ Hcl)].
  - destruct k as [|k]; [done|].
    destruct (Hsafe w) as (r & [(b' & n' & Hm & Hl & Hk)|(err & -> & _ & Hm & Hk)]);
      [by eapply call_view|..].
    + assert (Hstep : thread_step (Sending (sd_id sd) (Step m f)) w
        = Ok (Sending (sd_id sd) (f r)) (upd_heap (put (si_cb x) sd b' n') w))
        by (cbn; unfold mbind, M_bind; by rewrite Hm).
      eexists _, _. split; [exact Hstep|]. destruct (cl_ctx _ _ _ _ Hcl) as (c & n0 & Hc & Hctx).
      pose proof (put_written i sd c n0 b n b' n' Hcl Hc Hctx Hb Hn) as Hsw.
      eapply written_tracks in Hsw; [|exact Hx|exact Ht|exact Hc|by rewrite length_insert; apply Ht
        |rewrite Hl; by eapply slot_length|apply Ht].
      destruct Hfree as (Hf & Hh & Hwk). destruct (tk_bits _ _ _ _ _ _ Ht) as [_ Hbits].
      exists s. eexists. exists bits. split; [constructor|]. split; [exact Hsw|].
      split; cbn [q_free q_heard q_woke]; [|split; [congruence|done]|done|..].
      * split; [eapply within_le; [by eapply (within_step 15)|lia]|].
        exists sd, i, b', n'. split; [done|]. cbn [q_out q_seqns]. rewrite lookup_insert_eq.
        rewrite list_lookup_insert_eq by (by eapply lookup_lt_Some).
        do 3 (split; [done|]). by exists k, e.
      * intros j Hj _. assert (i <> j) by (intros ->; apply Hj; cbn; by rewrite Hid, Nat2Z.id).
        split; [done|]. split; cbn; by rewrite ?lookup_insert_ne, ?list_lookup_insert_ne.
      * intros j Hj. by left.
      * intros j Hj. by left.
    + assert (Hstep : thread_step (Sending (sd_id sd) (Step m f)) w
        = Ok (Sending (sd_id sd) (f r)) (log (EvPostSend (cb_qp (si_cb x)) (sq_wr (sd_ctx sd)) err) w))
        by (cbn; unfold mbind, M_bind; by rewrite Hm).
      eexists _, _. split; [exact Hstep|]. apply turn_same; [|done|by eapply tracks_at_same].
      split; [eapply within_le; [by eapply (within_step 15)|lia]|].
      exists sd, i, b, n. do 4 (split; [done|]). by exists k, (Some err).
Qed.

Lemma thread_turn t :
  thread_ok x s s' t -> exists t2 w2, thread_step t w = Ok t2 w2
    /\ forall acts, emits x t t2 acts -> turn_to t acts t2 w2.
Proof using Ht Hx Hfree Hsame.
  destruct t as [req|req v|req id|id p|id]; intros Hok.
  - eexists _, _. split; [done|]. intros acts ->. apply turn_same; [done|done|].
    by eapply tracks_at_same.
  - by apply asking_turn.
  - destruct (chosen_turn _ _ Hok) as (p & Hp & Hto). eexists _, _. split; [exact Hp|].
    by intros acts ->.
  - destruct (sending_turn _ _ Hok) as (t2 & w2 & Hs & Hto). exists t2, w2. split; [done|].
    by intros acts ->.
  - eexists _, _. split; [done|]. intros acts ->. by apply turn_same.
Qed.
End Turns.

(** ** Runs *)

(** A thread that is about to send a request with data of its user. *)
Definition caller (x : site) (t : thread) : Prop :=
  exists data sem d, t = Calling (request_to x data sem) /\ user_data x data d.

Section Runs.
Context {K : Kernel} (x : site) (Hx : site_ok x).

Lemma pool_inv_start ts s w : tracks x s w -> Forall (caller x) ts -> pool_inv x ts s w.
Proof.
  intros (bits & st & Ht) Hts. rewrite Forall_lookup in Hts. split.
  - exists s, bits, st. split; [done|]. split; [done|]. intros j t Hj.
    destruct (Hts j t Hj) as (data & sem & d & -> & Hd). by exists data, sem, d.
  - intros j k t u id Hj _ Hid _. by destruct (Hts j t Hj) as (? & ? & ? & -> & _).
Qed.

(** Ids that are being written for are not free. *)
Lemma free_agree ts s s' :
  (forall j t, ts !! j = Some t -> thread_ok x s s' t) -> agree_but (busy ts) s s' ->
  forall i, i ∈ q_free s -> same_at i s s'.
Proof.
  intros Hall Hag i Hi. apply (ag_at _ _ _ Hag). intros (j & t & Hj & Ht).
  destruct (thread_ok_holds x s s' t i (Hall j t Hj) Ht) as (sd & _ & _ & Hc & _).
  by apply (cl_taken _ _ _ _ Hc).
Qed.

Lemma pool_turn_run ts s w i t :
  pool_inv x ts s w -> ts !! i = Some t -> exists t' w', thread_step t w = Ok t' w'
    /\ forall acts, emits x t t' acts -> exists s2,
         act_run (si_ch x) (si_size x) s acts s2 /\ pool_inv x (<[i := t']> ts) s2 w'.
Proof using Hx.
  intros [(s' & bits & st & Ht & Hag & Hall) Hap] Hi.
  destruct (thread_turn x Hx s s' bits st w Ht) with (t := t) as (t' & w' & Hs & Hto).
  - by destruct Hag.
  - by eapply free_agree.
  - by eapply Hall.
  - exists t', w'. split; [done|]. intros acts He.
    destruct (Hto acts He) as (s2 & s2' & bits2 & Hrun & Ht2 & Hmv). exists s2. split; [done|].
    by eapply pool_moved.
Qed.

Context (Halloc : forall h b, k_kzalloc h b = true).
Context (Hpost : forall h qp wr, k_post_recv h qp wr = 0).
Context (Hstack : forall h, k_stack h = 0).

Lemma pool_arrive_run ts s w id q sem d w' :
  pool_inv x ts s w -> ~ busy ts id -> chan_step x w (Response id q sem d) w' ->
  let a := Response id q sem d in
  act_ok (si_size x) s a /\ pool_inv x ts (act_next (si_ch x) s a) w'.
Proof using Hx Halloc Hpost Hstack.
  intros [(s' & bits & st & Ht & Hag & Hall) Hap] Hid Hs a.
  destruct (chan_step_sound Halloc Hpost Hstack x s' w a w' Hx) as (Hok & _ & bits' & st' & Ht');
    [by exists bits, st|done|]. destruct Hag as [Hf Hh Hw Hat]. split.
  { destruct Hok as [-> Hd]. split; [by rewrite Hh|done]. }
  split; [|done]. exists (act_next (si_ch x) s' a), bits', st'. split; [done|]. split.
  - split; cbn; [by rewrite Hf|by rewrite Hh|by rewrite Hw|]. intros i Hi. by apply Hat.
  - intros j t Hj. eapply thread_ok_frame; [by eapply Hall|]. intros i Hi.
    split; [done|]. split; [done|]. cbn. intros [?| ->%elem_of_singleton]%elem_of_union; [done|].
    destruct Hid. by exists j, t.
Qed.

Lemma pool_run_inv ts s w ms acts ts' w' :
  pool_inv x ts s w -> pool_run x orderly ts w ms acts ts' w' ->
  exists s2, act_run (si_ch x) (si_size x) s acts s2 /\ pool_inv x ts' s2 w'.
Proof using Hx Halloc Hpost Hstack.
  intros Hinv Hr. revert s Hinv.
  induction Hr as [ts w|ts w m acts ts1 w1 ms acts' ts' w' Hs _ IH]; intros s Hinv.
  { exists s. split; [constructor|done]. }
  assert (H : exists s1, act_run (si_ch x) (si_size x) s acts s1 /\ pool_inv x ts1 s1 w1).
  { destruct Hs as [i t t' acts w1 Hi Ht He|id q sem d w1 Hid Hs].
    - destruct (pool_turn_run _ _ _ _ _ Hinv Hi) as (t2 & w2 & Ht2 & Hto).
      rewrite Ht in Ht2. injection Ht2 as -> ->. by apply Hto.
    - destruct (pool_arrive_run _ _ _ _ _ _ _ _ Hinv Hid Hs) as [Hok Hinv'].
      eexists. split; [|exact Hinv']. constructor; [exact Hok|constructor]. }
  destruct H as (s1 & H1 & Hinv1). destruct (IH s1 Hinv1) as (s2 & H2 & Hinv2).
  exists s2. split; [|done]. apply act_run_app. by exists s1.
Qed.
End Runs.

(** A channel from its creation on, used by many threads. *)
Lemma pool_use `{K : Kernel} w n target port size :
  rpc_use_pre K w n target size ->
  exists x w1, rpc_created w target port size x w1 /\ site_ok x
    /\ forall ts ms acts ts' w2, Forall (caller x) ts -> pool_run x orderly ts w1 ms acts ts' w2 ->
         exists s, act_run (si_ch x) size (new_chan (wakes (trace w1))) acts s
           /\ pool_inv x ts' s w2.
Proof.
  intros Hpre. destruct (rpc_create w n target port size Hpre) as (x & w1 & Hc & Hx & Ht).
  exists x, w1. split; [done|]. split; [done|]. intros ts ms acts ts' w2 Hts Hr.
  destruct Hpre as [ [HK Hpost _ _ _ _ _ _ _] _ _ _ Hst].
  destruct (pool_run_inv x Hx (rl_alloc _ HK) Hpost Hst ts _ w1 ms acts ts' w2
    (pool_inv_start _ _ _ _ Ht Hts) Hr) as (s & Hs & Hinv).
  rewrite (proj2 (proj2 Hc)) in Hs. by exists s.
Qed.

(** ** Properties *)

(** C2. Any number of threads call [send_rpc_msg_to_server] on one channel at the
    same time, and responses arrive between any two of their steps, none of them
    in the buffer of an id whose message is still being written.  Then the calls
    and the responses are a run of the abstract channel, a call standing where
    it got its id; the machine is that channel but for the buffers and numbers
    of the messages still being written, and exactly it when there are none; no
    two threads write for one id; every thread can go on without a fault, and
    the next response can come; and a call that has got its id returns it after
    16 steps of its own.  (Under [rpc_use_pre].) *)
Theorem concurrent_calls_linearize `{K : Kernel} w n target port size :
  rpc_use_pre K w n target size ->
  exists x w1, rpc_created w target port size x w1
    /\ forall ts ms acts ts' w2, Forall (caller x) ts -> pool_run x orderly ts w1 ms acts ts' w2 ->
      (exists s s', act_run (si_ch x) size (new_chan (wakes (trace w1))) acts s
         /\ tracks x s' w2 /\ agree_but (busy ts') s s'
         /\ ((forall i, ~ busy ts' i) -> s' = s)
         /\ forall a, act_ok size s a -> (exists id q sem d, a = Response id q sem d) ->
              exists w3, chan_step x w2 a w3)
      /\ ids_apart ts'
      /\ (forall t, t ∈ ts' -> exists t' w3, thread_step t w2 = Ok t' w3)
      /\ forall ms' acts' ts'' w3 i t id, pool_run x orderly ts' w2 ms' acts' ts'' w3 ->
           ts' !! i = Some t -> given t = Some id -> (16 <= turns i ms')%nat ->
           ts'' !! i = Some (Returned id).
Proof.
  intros Hpre. destruct (pool_use w n target port size Hpre) as (x & w1 & Hc & Hx & Huse).
  exists x, w1. split; [done|]. intros ts ms acts ts' w2 Hts Hr.
  destruct (Huse _ _ _ _ _ Hts Hr) as (s & Hs & Hinv).
  destruct Hpre as [ [HK Hpost _ _ _ _ _ _ _] _ _ _ Hst].
  pose proof Hinv as [(s' & bits & st & Ht2 & Hag & Hall) Hap]. split.
  { exists s, s'. split; [done|]. assert (Ht' : tracks x s' w2) by by exists bits, st.
    split; [done|]. split; [done|]. split; [by eapply agree_all|].
    intros a Ha (id & q & sem & d & ->).
    destruct (chan_step_complete (rl_alloc _ HK) Hpost Hst x s' w2 (Response id q sem d) Hx Ht')
      as (w3 & Hw3 & _); [|done|by exists w3].
    rewrite <- (proj2 (proj2 Hc)) in Ha. destruct Ha as [-> Hd].
    split; [by rewrite (ag_heard _ _ _ Hag)|done]. }
  split; [done|]. split.
  - intros t [i Hi]%list_elem_of_lookup.
    destruct (pool_turn_run x Hx _ _ _ _ _ Hinv Hi) as (t' & w3 & Hs3 & _). by exists t', w3.
  - intros ms' acts' ts'' w3 i t id Hr' Hi Hg Hn. eapply pool_run_returns; [done|done|done|].
    specialize (Hall i t Hi). destruct t as [req|req v|req id'|id' p|id']; try done.
    eapply within_le; [apply Hall|done].
Qed.

(** C6. A used RPC channel leaks nothing: after calls made at the same time and
    responses handled, in any interleaving that is [orderly] (no response lands
    in the buffer of an id whose message is still being written, which the
    program does not see to), [destroy_rpc_client] leaves the memory and every
    kernel object as they were before [init_rpc_client].  As everywhere under
    [rpc_use_pre], the kernel's calls succeed, the connection comes up and the
    unassigned [ret] of [cq_thread] reads 0. *)
Theorem concurrent_channel_leak_free `{K : Kernel} w n target port size :
  rpc_use_pre K w n target size ->
  exists x w1, rpc_created w target port size x w1
    /\ forall ts ms acts ts' w2, Forall (caller x) ts -> pool_run x orderly ts w1 ms acts ts' w2 ->
         exists w3, destroy_rpc_client (si_ch x) w2 = Ok tt w3
           /\ heap w3 = heap w /\ objs w3 = objs w /\ sched w3 = [].
Proof.
  intros Hpre. destruct (pool_use w n target port size Hpre) as (x & w1 & Hc & Hx & Huse).
  exists x, w1. split; [done|]. intros ts ms acts ts' w2 Hts Hr.
  destruct (Huse _ _ _ _ _ Hts Hr) as (s & _ & [(s' & bits & st & Ht & _) _]).
  apply (wp_total_unit _ (fun _ w3 => heap w3 = heap w /\ objs w3 = objs w /\ sched w3 = [])).
  eapply wp_destroy_used; [done|apply Hc|by exists bits, st|done].
Qed.
