(* ===== verification/Scenarios.v ===== *)
(** * Scenarios: concrete kernels and states

    A kernel whose calls succeed, its variants with one call failing, and states
    with a channel in them: the inputs on which the properties of the
    development are exercised in [Witnesses]. *)
From stdpp Require Import gmultiset.
From S2P Require Import Prelude Types Kernel Logic Wait Verbs ModEnv Frame Bitmap MsgbufIds MsgbufConc.
From S2P Require Import Wire RdmaIo RdmaCm RdmaMem RdmaBufs RdmaClone RdmaCh RpcClient RpcTest.

(** ** Kernels *)

(** The calls that differ between the scenarios. *)
Record answers := {
  an_alloc : bool; an_dma : addr -> Z; an_notify : Z; an_post_recv : list event -> addr -> Z;
  an_post_send : Z; an_route : Z; an_connect : Z; an_big_endian : bool }.

Definition kernel_of (a : answers) : Kernel :=
  {| k_kzalloc _ _ := an_alloc a; k_stack _ := 0; k_cm_device _ := 1; k_pd_device _ := 1;
     k_pd_local_dma_lkey _ := 7; k_alloc_pd _ _ := KPtr 1000;
     k_create_cq _ _ _ := KPtr 2000; k_req_notify_cq _ _ := an_notify a;
     k_create_qp _ _ _ _ := (0, 3000); k_dma_map _ _ p _ := an_dma a p;
     k_post_recv h qp _ := an_post_recv a h qp; k_post_send _ _ _ := an_post_send a;
     k_create_id _ _ := KPtr 5000; k_resolve_addr _ _ _ := 0;
     k_resolve_route _ _ := an_route a; k_connect _ _ _ := an_connect a;
     k_accept _ _ := 0; k_big_endian := an_big_endian a |}.

(** Bus addresses: a page for each of 65536 blocks. *)
Definition bus_addr (p : addr) : Z := 65536 + 4096 * (p mod 65536).

Definition all_ok : answers :=
  {| an_alloc := true; an_dma := bus_addr; an_notify := 0; an_post_recv _ _ := 0;
     an_post_send := 0; an_route := 0; an_connect := 0; an_big_endian := false |}.
Definition good : Kernel := kernel_of all_ok.
Definition big_endian_host : Kernel := kernel_of
  {| an_alloc := true; an_dma := bus_addr; an_notify := 0; an_post_recv _ _ := 0;
     an_post_send := 0; an_route := 0; an_connect := 0; an_big_endian := true |}.
Definition no_memory : Kernel := kernel_of
  {| an_alloc := false; an_dma := bus_addr; an_notify := 0; an_post_recv _ _ := 0;
     an_post_send := 0; an_route := 0; an_connect := 0; an_big_endian := false |}.
Definition dma_fails (dma : addr -> Z) : Kernel := kernel_of
  {| an_alloc := true; an_dma := dma; an_notify := 0; an_post_recv _ _ := 0;
     an_post_send := 0; an_route := 0; an_connect := 0; an_big_endian := false |}.
Definition send_fails : Kernel := kernel_of
  {| an_alloc := true; an_dma := bus_addr; an_notify := 0; an_post_recv _ _ := 0;
     an_post_send := -12; an_route := 0; an_connect := 0; an_big_endian := false |}.
Definition route_fails : Kernel := kernel_of
  {| an_alloc := true; an_dma := bus_addr; an_notify := 0; an_post_recv _ _ := 0;
     an_post_send := 0; an_route := -22; an_connect := 0; an_big_endian := false |}.
Definition connect_fails : Kernel := kernel_of
  {| an_alloc := true; an_dma := bus_addr; an_notify := 0; an_post_recv _ _ := 0;
     an_post_send := 0; an_route := 0; an_connect := -22; an_big_endian := false |}.
Definition two_receives : Kernel := kernel_of
  {| an_alloc := true; an_dma := bus_addr; an_notify := 0;
     an_post_recv h qp := if decide (2 <= recv_posted h qp)%nat then - ENOMEM else 0;
     an_post_send := 0; an_route := 0; an_connect := 0; an_big_endian := false |}.

(** No memory for an array of contexts. *)
Definition no_ctxs : Kernel :=
  {| k_kzalloc _ b := match b with BCtxs _ => false | _ => true end; k_stack _ := 0;
     k_cm_device _ := 1; k_pd_device _ := 1; k_pd_local_dma_lkey _ := 7;
     k_alloc_pd _ _ := KPtr 1000; k_create_cq _ _ _ := KPtr 2000;
     k_req_notify_cq _ _ := 0; k_create_qp _ _ _ _ := (0, 3000);
     k_dma_map _ _ p _ := bus_addr p; k_post_recv _ _ _ := 0; k_post_send _ _ _ := 0;
     k_create_id _ _ := KPtr 5000; k_resolve_addr _ _ _ := 0; k_resolve_route _ _ := 0;
     k_connect _ _ _ := 0; k_accept _ _ := 0; k_big_endian := false |}.

(** ** Channels and states *)

Definition id0 : kptr := KPtr 5000.
Definition a_sockaddr : sockaddr :=
  {| ss_family := AF_INET; sin_port := 0; sin_addr := [192; 168; 14; 118] |}.

(** A client channel of one message buffer of 8 bytes of data, its control
    block at 1 and its contexts at 2, in state [s]. *)
Definition a_cb (s : rdma_ch_state) : rdma_ch_cb :=
  {| cb_server := 0; cb_cq := KPtr 2000; cb_pd := KPtr 1000; cb_qp := 3000;
     cb_msgbuf_cnt := 1; cb_msgbuf_size := 32; cb_msgheader_size := 24;
     cb_msgdata_size := 8; cb_buf_ctxs := 2;
     cb_rpc_msg_handler_cb := fn_client_rpc_rdma_msg_handler;
     cb_user_msg_handler_cb := client_rdma_msg_handler_fn; cb_state := s;
     cb_sin := a_sockaddr; cb_port := 1564; cb_size := 32; cb_cm_id := id0;
     cb_child_cm_id := KPtr NULL |}.

(** Its context, with its send buffer at 3 and its receive buffer at 4. *)
Definition a_ctx : msgbuf_ctx :=
  {| mc_id := 0;
     rq_wr := {| rwr_wr_id := 0;
       rwr_sg_list := Some {| sp_ctxs := 2; sp_idx := 0; sp_field := F_recv_sgl |};
       rwr_num_sge := 1 |};
     recv_sgl := {| sge_addr := bus_addr 4; sge_length := 32; sge_lkey := 7 |};
     recv_buf := 4; recv_mr := bus_addr 4; recv_mapping := bus_addr 4;
     sq_wr := {| swr_wr_id := 0; swr_opcode := IB_WR_SEND;
       swr_send_flags := IB_SEND_SIGNALED;
       swr_sg_list := Some {| sp_ctxs := 2; sp_idx := 0; sp_field := F_send_sgl |};
       swr_num_sge := 1 |};
     send_sgl := {| sge_addr := bus_addr 3; sge_length := 32; sge_lkey := 7 |};
     send_buf := 3; send_mr := bus_addr 3; send_mapping := bus_addr 3; mc_seqn := 1 |}.

(** "request" and "reply!!", with their terminators; eight bytes without. *)
Definition a_request : list Z := [114; 101; 113; 117; 101; 115; 116; 0].
Definition a_reply : list Z := [114; 101; 112; 108; 121; 33; 33; 0].
Definition no_string : list Z := [88; 88; 88; 88; 88; 88; 88; 88].

(** A channel that listens, with a child whose connection id is [id1]. *)
Definition id1 : kptr := KPtr 5001.
Definition a_listener : rdma_ch_cb :=
  (a_cb CONNECT_REQUEST) <| cb_server := 1 |> <| cb_child_cm_id := id1 |>.
Definition w_listening : world :=
  {| heap := <[1 := BCb a_listener]> (<[2 := BCtxs [a_ctx]]> ∅); next := 3; trace := [];
     sched := []; cms := {[id1 := {| cm_context := 1; cm_qp := 0 |}]};
     cqs := ∅; pds := ∅; qps := ∅; dmas := ∅; woken := []; errno := 0 |}.

(** The RPC channel at 6 over it, with its bitmap [l] at 7. *)
Definition a_rpc_ch : rpc_ch_info :=
  {| ch_type := RPC_CH_RDMA; ch_cb := 1; msgbuf_bitmap := 7; msgbuf_bitmap_lock := false |}.

(** The message that has arrived in the receive buffer: number 5, for the
    channel at 6 and the wait queue at 99. *)
Definition a_heap (s : rdma_ch_state) (data reply l : list Z) : gmap addr block :=
  <[1 := BCb (a_cb s)]> (<[2 := BCtxs [a_ctx]]> (<[3 := BBytes (zeros 32)]>
  (<[4 := BBytes (wire_image 5 6 99 reply)]> (<[5 := BBytes data]>
  (<[6 := BRpcCh a_rpc_ch]> (<[7 := BBytes l]> ∅)))))).

Definition a_world (s : rdma_ch_state) (data reply l : list Z) (polls : list poll)
    (evs : list async) : world :=
  {| heap := a_heap s data reply l; next := 8; trace := []; sched := evs;
     cms := {[id0 := {| cm_context := 1; cm_qp := 3000 |}]};
     cqs := {[KPtr 2000 := {| cq_context := 1; cq_polls := polls |}]};
     pds := {[KPtr 1000]}; qps := {[3000]}; dmas := {[+ bus_addr 3; bus_addr 4 +]};
     woken := []; errno := 0 |}.

(** The completion of the receive. *)
Definition a_wc : ib_wc :=
  {| wc_status := IB_WC_SUCCESS; wc_opcode := IB_WC_RECV; wc_byte_len := 32; wc_wr_id := 0 |}.

(** A connected channel with a request to send and a reply that has arrived. *)
Definition w_io : world := a_world CONNECTED a_request a_reply [0; 0; 0; 0] [PollWc a_wc] [].

(** A new channel without buffers, queue pair or events, and [cnt] contexts. *)
Definition new_channel (cnt : Z) : rdma_ch_cb :=
  {| cb_server := 0; cb_cq := KPtr NULL; cb_pd := KPtr 1000; cb_qp := 3000;
     cb_msgbuf_cnt := cnt; cb_msgbuf_size := 32; cb_msgheader_size := 24;
     cb_msgdata_size := 8; cb_buf_ctxs := 2;
     cb_rpc_msg_handler_cb := fn_client_rpc_rdma_msg_handler;
     cb_user_msg_handler_cb := client_rdma_msg_handler_fn; cb_state := IDLE;
     cb_sin := a_sockaddr; cb_port := 1564; cb_size := 32; cb_cm_id := id0;
     cb_child_cm_id := KPtr NULL |}.
Definition w_new (cnt : nat) (p : gset kptr) (q : gset addr) (evs : list async) : world :=
  {| heap := <[1 := BCb (new_channel (Z.of_nat cnt))]> (<[2 := BCtxs (replicate cnt zero_ctx)]> ∅);
     next := 3; trace := []; sched := evs;
     cms := {[id0 := {| cm_context := 1; cm_qp := NULL |}]}; cqs := ∅; pds := p; qps := q;
     dmas := ∅; woken := []; errno := 0 |}.

(** A machine with nothing but the blocks of the caller: the target address at
    1, as text, and data at 2. *)
Definition up_events : list async :=
  [ACm id0 RDMA_CM_EVENT_ADDR_RESOLVED; ACm id0 RDMA_CM_EVENT_ROUTE_RESOLVED;
   ACm id0 RDMA_CM_EVENT_ESTABLISHED].
Definition a_target : list Z := [49; 46; 50; 46; 51; 46; 52; 0].
Definition w_empty (target data : list Z) (evs : list async) : world :=
  {| heap := <[1 := BBytes target]> (<[2 := BBytes data]> ∅); next := 3; trace := [];
     sched := evs; cms := ∅; cqs := ∅; pds := ∅; qps := ∅; dmas := ∅; woken := [];
     errno := 0 |}.

Definition an_attr : rdma_ch_attr :=
  {| at_port := 7174; at_server := 0; at_ip_addr := [192; 168; 14; 118];
     at_msgbuf_cnt := 4; at_msgdata_size := 8;
     at_rpc_msg_handler_cb := fn_client_rpc_rdma_msg_handler;
     at_user_msg_handler_cb := client_rdma_msg_handler_fn |}.
Definition an_attr_sin : sockaddr :=
  {| ss_family := AF_INET; sin_port := 7174; sin_addr := [192; 168; 14; 118] |}.

(** The module's environment: [in4_pton] knows its one address, and nothing can
    be copied from user space. *)
Definition an_env (copied : option (list Z)) : ModuleEnv :=
  {| in4_pton _ := Some [192; 168; 14; 118]; try_module_get _ := true;
     copy_from_user _ _ _ := copied; proc_create _ := true |}.

(** The state after a run, when it returns. *)
Definition state_after {A} (m : M A) (w : world) : world :=
  match m w with Ok _ w' => w' | _ => w end.

(** ** Facts about them *)

Lemma bus_addr_ok p : dma_failed (bus_addr p) = false.
Proof.
  unfold dma_failed, bus_addr, DMA_MAPPING_ERROR.
  pose proof (Z.mod_pos_bound p 65536 ltac:(lia)).
  apply orb_false_intro; apply Z.eqb_neq; lia.
Qed.

Lemma reliable_kernel a :
  an_alloc a = true -> an_notify a = 0 -> an_route a = 0 ->
  (forall p, dma_failed (an_dma a p) = false) -> reliable (kernel_of a).
Proof. intros Ha Hn Hr Hd. split; done || (intros; apply Hd). Qed.

Lemma good_reliable : reliable good.
Proof. by apply reliable_kernel; [..|apply bus_addr_ok]. Qed.

Lemma kernel_handles a w :
  pds w = ∅ -> cqs w = ∅ -> qps w = ∅ -> new_handles (kernel_of a) w.
Proof.
  intros Hp Hc Hq. split; intros; rewrite ?Hp, ?Hc, ?Hq;
    [apply not_elem_of_empty|apply lookup_empty|apply not_elem_of_empty].
Qed.

Ltac solve_fresh :=
  split; [done|]; let a := fresh in let H := fresh in intros a H;
  rewrite ?lookup_insert_ne by (cbn in H; lia); apply lookup_empty.

Lemma a_world_fresh s data reply l polls evs : fresh_ok (a_world s data reply l polls evs).
Proof. split; [done|]. intros a H. cbn in H. cbn [heap a_world]. unfold a_heap.
  rewrite !lookup_insert_ne by lia. apply lookup_empty. Qed.

Lemma w_listening_ok :
  chan_at w_listening 1 a_listener [a_ctx]
  /\ child_at w_listening a_listener {| cm_context := 1; cm_qp := 0 |}
  /\ fresh_ok w_listening.
Proof.
  split; [by split|]. split; [done|]. split; [done|]. intros a H. cbn in H.
  cbn [heap w_listening]. rewrite !lookup_insert_ne by lia. apply lookup_empty.
Qed.

Lemma w_new_fresh cnt p q evs : fresh_ok (w_new cnt p q evs).
Proof. split; [done|]. intros a H. cbn in H. cbn [heap w_new].
  rewrite !lookup_insert_ne by lia. apply lookup_empty. Qed.

Lemma w_empty_fresh target data evs : fresh_ok (w_empty target data evs).
Proof. split; [done|]. intros a H. cbn in H. cbn [heap w_empty].
  rewrite !lookup_insert_ne by lia. apply lookup_empty. Qed.

Lemma w_new_chan cnt p q evs :
  chan_at (w_new cnt p q evs) 1 (new_channel (Z.of_nat cnt)) (replicate cnt zero_ctx).
Proof. split; [done|done|]. cbn. by rewrite length_replicate. Qed.

(** A request can be sent, and a reply received, in [a_world]. *)
Lemma a_send_pre s data reply l polls evs :
  length data = 8%nat ->
  send_pre (a_world s data reply l polls evs) 1 (a_cb s) [a_ctx] 0 a_ctx 5 data.
Proof.
  intros Hd. split; try done.
  - by exists (zeros 32).
  - cbn. by rewrite Hd.
Qed.

Lemma a_recv_pre s data reply l polls evs :
  length reply = 8%nat ->
  recv_pre (a_world s data reply l polls evs) 1 (a_cb s) [a_ctx] a_wc a_ctx 5 6 99 reply.
Proof. intros Hd. split; try done; [cbn; by rewrite Hd|apply a_world_fresh]. Qed.

Lemma a_bitmap_at s data reply l polls evs :
  length l = 4%nat -> bitmap_at (a_world s data reply l polls evs) 6 a_rpc_ch l.
Proof. by split. Qed.
