(* ===== verification/Witnesses.v ===== *)
(** * Witnesses: the properties on concrete inputs

    For every property with hypotheses, an instance on a kernel and a state of
    [Scenarios] where they hold. *)
From stdpp Require Import gmultiset.
From S2P Require Import Prelude Types Kernel Logic Wait Verbs ModEnv Frame Bitmap MsgbufIds MsgbufConc.
From S2P Require Import Wire RdmaIo RdmaCm RdmaMem RdmaBufs RdmaClone RdmaCh RpcClient RpcTest.
From S2P Require Import Scenarios.

(** The kernel where none is named. *)
#[local] Existing Instance good.

(** ** Message ids *)

Lemma alloc_msgbuf_id_least_witness :
  exists i w', alloc_msgbuf_id (K := good) 6 w_io = Ok (Z.of_nat i) w'
    /\ is_least i (free_bits [0; 0; 0; 0]) /\ Z.of_nat i < RPC_MSG_BUF_NUM
    /\ bitmap_at w' 6 a_rpc_ch (<[i := 1]> [0; 0; 0; 0])
    /\ free_bits (<[i := 1]> [0; 0; 0; 0]) = free_bits [0; 0; 0; 0] ∖ {[i]}
    /\ heap w' = <[msgbuf_bitmap a_rpc_ch := BBytes (<[i := 1]> [0; 0; 0; 0])]> (heap w_io).
Proof. apply (alloc_msgbuf_id_least (K := good)); [by apply a_bitmap_at|done]. Defined.

Lemma free_after_alloc_witness :
  exists w', (i ← alloc_msgbuf_id (K := good) 6; free_msgbuf_id 6 i) w_io = Ok tt w'
    /\ heap w' = heap w_io.
Proof.
  apply (free_after_alloc (K := good) w_io 6 a_rpc_ch [0; 0; 0; 0]);
    [by apply a_bitmap_at|done].
Defined.

(** Context 0 of two has called [alloc_msgbuf_id]. *)
Definition c_called : conf := goto (start 2) 0 (AllocLock 0).
Definition c_locked : conf := goto (set_lock true c_called) 0 (AllocFind 0).

Lemma c_called_step : step (start 2) (CallAlloc 0) c_called.
Proof. exists 0%nat, Idle. split; [reflexivity|constructor]. Qed.
Lemma c_locked_step : step c_called Tau c_locked.
Proof. exists 0%nat, (AllocLock 0). split; [reflexivity|by constructor]. Qed.
Lemma c_locked_reachable : reachable 2 c_locked.
Proof.
  eapply rtc_l; [by exists (CallAlloc 0); apply c_called_step|].
  eapply rtc_l; [by exists Tau; apply c_locked_step|apply rtc_refl].
Qed.

Lemma msgbuf_mutual_exclusion_witness :
  (forall t1 t2 p1 p2, pcs c_locked !! t1 = Some p1 -> pcs c_locked !! t2 = Some p2 ->
     critical p1 = true -> critical p2 = true -> t1 = t2)
  /\ (lock c_locked = true <-> exists t p, pcs c_locked !! t = Some p /\ critical p = true).
Proof. apply (msgbuf_mutual_exclusion 2), c_locked_reachable. Defined.

Lemma msgbuf_ids_refine_witness :
  spec_step (spec_of (start 2)) (CallAlloc 0) (spec_of c_called)
  \/ (CallAlloc 0 = Tau /\ spec_of c_called = spec_of (start 2)).
Proof. apply (msgbuf_ids_refine 2); [apply rtc_refl|apply c_called_step]. Defined.

Lemma msgbuf_lock_progress_witness :
  (critical (AllocFind 0) = true -> exists l c', pc_step c_locked 0 (AllocFind 0) l c')
  /\ exists u q l c', pcs c_locked !! u = Some q /\ q <> Idle /\ pc_step c_locked u q l c'.
Proof. by apply (msgbuf_lock_progress 2); [apply c_locked_reachable|reflexivity|]. Defined.

(** The whole of a call by context 0, up to its return. *)
Definition c_found : conf := goto c_locked 0 (AllocSet 0).
Definition c_set : conf := goto (set_bits [1; 0; 0; 0] c_found) 0 (AllocUnlock 1 0).
Definition c_unlocked : conf := goto (set_lock false c_set) 0 (AllocRet 0).
Definition c_returned : conf := goto c_unlocked 0 Idle.

Lemma c_unlocked_run : client_run 2 c_unlocked ∅.
Proof.
  assert (H : forall c c' p, client_run 2 c ∅ -> pcs c !! 0%nat = Some p ->
    pc_step c 0 p Tau c' -> client_run 2 c' ∅).
  { intros c c' p Hr Hp Hs. apply (cr_step 2 c ∅ Tau); [done| |done]. by exists 0%nat, p. }
  apply (H c_set _ (AllocUnlock 1 0)); [|done|apply st_alloc_unlock].
  apply (H c_found _ (AllocSet 0)); [|done|by apply st_alloc_set].
  apply (H c_locked _ (AllocFind 0)); [|done|by apply (st_alloc_find c_locked 0 0 1 0)].
  apply (H c_called _ (AllocLock 0)); [|done|by apply st_alloc_lock].
  eapply cr_step; [apply cr_start|apply c_called_step|done].
Qed.

Lemma msgbuf_ids_unique_witness :
  0 <= 0 < RPC_MSG_BUF_NUM /\ Z.to_nat 0 ∉ (∅ : gset nat).
Proof.
  apply (msgbuf_ids_unique 2 c_unlocked ∅ 0 0 c_returned); [apply c_unlocked_run|].
  exists 0%nat, (AllocRet 0). split; [reflexivity|constructor].
Defined.

Lemma solo_critical_sections_witness :
  (pcs c_called !! 0%nat = Some (AllocLock 0) -> exists r b' l' w',
     alloc_try 6 0 w_io = Ok (r, b') w'
     /\ heap w' = <[msgbuf_bitmap a_rpc_ch := BBytes l']> (heap w_io)
     /\ taus c_called (goto (set_bits l' c_called) 0
          (if r =? 0 then AllocLock b' else AllocRet b')))
  /\ (pcs c_called !! 0%nat = Some (FreeLock (u64 0)) -> exists l' w',
     free_msgbuf_id 6 0 w_io = Ok tt w'
     /\ heap w' = <[msgbuf_bitmap a_rpc_ch := BBytes l']> (heap w_io)
     /\ taus c_called (goto (set_bits l' c_called) 0 FreeRet)).
Proof.
  apply (solo_critical_sections w_io 6 a_rpc_ch [0; 0; 0; 0]);
    [by apply a_bitmap_at|done|done].
Defined.

(** ** Messages *)

Lemma msg_sizes_roundtrip_witness :
  if 4096 <? 2 ^ 31 - 24
  then msgbuf_size 4096 = 4096 + 24 /\ msgdata_size (msgbuf_size 4096) = 4096
  else msgbuf_size 4096 < 0.
Proof. apply msg_sizes_roundtrip. lia. Defined.

Lemma send_rdma_msg_wire_witness :
  exists r w', send_rdma_msg (K := good) 1 6 5 99 0 0 w_io = Ok r w'
    /\ send_post (K := good) w_io (a_cb CONNECTED) [a_ctx] 0 a_ctx
         (wire_image (sent_seqn a_ctx 0) 6 99 (sent_data (a_cb CONNECTED) a_request)) 0 r w'.
Proof.
  apply (send_rdma_msg_wire (K := good)); [by apply a_send_pre|]. by eexists.
Defined.

Lemma send_rdma_msg_bad_id_witness :
  send_rdma_msg (K := good) 1 6 5 99 (-1) 0 w_io =
    if 0 <=? -1 then Ok 0 w_io else Undef OutOfBounds.
Proof.
  apply (send_rdma_msg_bad_id (K := good) w_io 1 (a_cb CONNECTED) [a_ctx]);
    [done|done|done|cbn; lia].
Defined.

Lemma unterminated_data_overread_witness :
  let w := a_world CONNECTED no_string no_string [0; 0; 0; 0] [] [] in
  send_rdma_msg (K := good) 1 6 5 99 0 0 w = Undef OutOfBounds
  /\ receive_msg (K := good) 1 a_wc w = Undef OutOfBounds.
Proof.
  intros w. by eapply (unterminated_data_overread (K := good) w 1 (a_cb CONNECTED) [a_ctx] 0
    a_ctx 5 no_string 6 99 0 w 1 (a_cb CONNECTED) [a_ctx] a_wc a_ctx 5 6 99 no_string);
    [apply a_send_pre| |apply a_recv_pre| |].
Defined.

Lemma receive_msg_errors_witness :
  let short := {| wc_status := IB_WC_SUCCESS; wc_opcode := IB_WC_RECV;
                  wc_byte_len := 31; wc_wr_id := 0 |} in
  receive_msg (K := no_memory) 1 short w_io = Ok (-1) w_io
  /\ exists w', receive_msg (K := no_memory) 1 a_wc w_io = Ok (- ENOMEM) w'
     /\ heap w' = heap w_io.
Proof.
  intros short. split.
  - by apply (receive_msg_errors (K := no_memory) w_io 1 (a_cb CONNECTED) short);
      [|apply a_world_fresh|].
  - by apply (receive_msg_errors (K := no_memory) w_io 1 (a_cb CONNECTED) a_wc);
      [|apply a_world_fresh|..].
Defined.

(** A little-endian host sends its request; a big-endian one receives it. *)
Definition w_sent : world := state_after (send_rdma_msg (K := good) 1 6 5 99 0 0) w_io.
Definition w_peer : world :=
  upd_heap (insert 4 (BBytes (wire_image 2 6 99 a_request))) w_io.

Lemma w_peer_fresh : fresh_ok w_peer.
Proof.
  split; [done|]. intros a Ha. cbn in Ha. unfold w_peer. wsimpl.
  rewrite lookup_insert_ne by lia. apply a_world_fresh. cbn. lia.
Qed.

Lemma rdma_msg_roundtrip_witness :
  exists v' p, receive_copy (K := big_endian_host) 1 a_wc w_peer
      = Ok (inr (fn_client_rpc_rdma_msg_handler, p)) v'
    /\ heap v' !! p = Some (BRpcParam (recv_rpc_param (a_cb CONNECTED) a_wc 6 p))
    /\ heap v' !! (p + 1) = Some (BParam (recv_param 1 a_wc p))
    /\ heap v' !! (p + 2) = Some (BRpcMsg
         {| msg_seqn := u64 (sent_seqn a_ctx 0); msg_client_rpc_ch := u64 6;
            msg_sem := u64 99; msg_data := sent_data (a_cb CONNECTED) a_request |}).
Proof.
  apply (rdma_msg_roundtrip good big_endian_host w_io 1 (a_cb CONNECTED) [a_ctx] 0 a_ctx 5
    a_request 6 99 0 32 w_sent w_peer 1 (a_cb CONNECTED) [a_ctx] a_wc a_ctx);
    [by apply a_send_pre|by eexists|by vm_compute..|apply w_peer_fresh|by vm_compute].
Defined.

(** ** Completions *)

Lemma cq_event_handler_fuel_enough_witness :
  cq_event_handler (K := good) 1 w_io = cq_loop (K := good) 5 1 0 w_io.
Proof.
  apply (cq_event_handler_fuel_enough 5 1 (a_cb CONNECTED)); [apply a_world_fresh|done|].
  by apply Nat.leb_le.
Defined.

(** The reply is handled; a completion with an error follows. *)
Definition w_two : world := a_world CONNECTED a_request a_reply [1; 0; 0; 0]
  [PollWc a_wc; PollWc {| wc_status := IB_WC_ERR 5; wc_opcode := IB_WC_SEND;
                          wc_byte_len := 0; wc_wr_id := 0 |}] [].

Lemma cq_event_handler_outcome_witness :
  exists r w', cq_event_handler (K := good) 1 w_two = Ok r w' /\ r = -1
    /\ cq_outcome 1 (a_cb CONNECTED) r w'.
Proof.
  exists (-1), (state_after (cq_event_handler (K := good) 1) w_two).
  assert (H : cq_event_handler (K := good) 1 w_two
    = Ok (-1) (state_after (cq_event_handler (K := good) 1) w_two)) by by vm_compute.
  split; [exact H|]. split; [done|].
  apply (cq_event_handler_outcome 1 (a_cb CONNECTED) w_two); [apply a_world_fresh|done| |exact H].
  by repeat constructor.
Defined.

Lemma cq_thread_indeterminate_witness :
  let w1 := log (EvReqNotifyCq (KPtr 2000) 0) w_io in
  cq_thread (K := good) (KPtr 2000) 1 w_io =
    (cq_event_handler (K := good) 1;; mret tt) (log (EvStack 0) w1).
Proof.
  intros w1. apply (cq_thread_indeterminate (K := good) (KPtr 2000) 1 (a_cb CONNECTED) w_io);
    [done|done|]. by eexists.
Defined.

Lemma client_handler_effect_witness :
  let w := state_after (receive_copy (K := good) 1 a_wc)
    (a_world CONNECTED a_request a_reply [1; 0; 0; 0] [] []) in
  exists w2, client_rpc_rdma_msg_handler 8 w = Ok tt (log (EvKfree 8) (upd_heap (delete 8) w2))
    /\ heap w2 !! 7 = Some (BBytes [0; 0; 0; 0]).
Proof.
  intros w. exists (state_after (client_rdma_msg_handler 9) (put_bitmap a_rpc_ch [0; 0; 0; 0] w)).
  split; [|by vm_compute].
  apply (client_handler_effect w 8 (recv_rpc_param (a_cb CONNECTED) a_wc 6 8) a_rpc_ch
    [1; 0; 0; 0] [0; 0; 0; 0] 0 _ (BRpcParam (recv_rpc_param (a_cb CONNECTED) a_wc 6 8)));
    [by vm_compute|by split; vm_compute|by vm_compute..].
Defined.

Lemma response_handled_witness :
  let w := a_world CONNECTED a_request a_reply [1; 0; 0; 0] [] [] in
  exists w', receive_msg (K := good) 1 a_wc w = Ok 0 w'
    /\ heap w' = response_heap w 1 (a_cb CONNECTED) a_rpc_ch [1; 0; 0; 0] 0
    /\ trace w' = EvKfree 8 :: EvKfree 9 :: EvKfree 10
         :: EvWakeUp (WqUser 99) :: recv_trace w.
Proof.
  intros w. apply (response_handled (K := good) w 1 (a_cb CONNECTED) [a_ctx] a_wc a_ctx 5 6 99
    a_reply a_rpc_ch [1; 0; 0; 0] 0); try done.
  all: first [by apply a_recv_pre|by eexists|unfold BIT_ARR_SIZE; lia].
Defined.

(** ** Connection management *)

Lemma w_io_cm : cms w_io !! id0 = Some {| cm_context := 1; cm_qp := 3000 |}.
Proof. reflexivity. Qed.

Lemma cma_event_handler_transitions_witness :
  exists r w', cma_event_handler (K := good) id0 RDMA_CM_EVENT_DISCONNECTED w_io = Ok r w'
    /\ cm_post w_io id0 {| cm_context := 1; cm_qp := 3000 |} (a_cb CONNECTED)
         RDMA_CM_EVENT_DISCONNECTED (DISCONNECTED, true, 0) r w'.
Proof.
  by apply (cma_event_handler_transitions (K := good) w_io id0
    {| cm_context := 1; cm_qp := 3000 |} (a_cb CONNECTED) RDMA_CM_EVENT_DISCONNECTED).
Defined.

Lemma cma_no_lost_wakeup_witness :
  let w := a_world ADDR_RESOLVED a_request a_reply [0; 0; 0; 0] [] [] in
  WqCb 1 ∈ woken (state_after (cma_event_handler (K := good) id0 RDMA_CM_EVENT_ROUTE_RESOLVED) w).
Proof.
  intros w. apply (cma_no_lost_wakeup (K := good) w id0 {| cm_context := 1; cm_qp := 3000 |}
    (a_cb ADDR_RESOLVED) RDMA_CM_EVENT_ROUTE_RESOLVED ROUTE_RESOLVED 0 _ (a_cb ROUTE_RESOLVED));
    by vm_compute.
Defined.

Lemma cm_failure_hangs_witness :
  let w := w_new 1 {[KPtr 1000]} ∅ [ACm id0 RDMA_CM_EVENT_UNREACHABLE] in
  let v := a_world ROUTE_RESOLVED a_request a_reply [0; 0; 0; 0] []
    [ACm id0 RDMA_CM_EVENT_REJECTED] in
  (exists w', bind_client (K := good) 1 w = Blocked w'
     /\ failing id0 1 (with_port (new_channel 1)) w')
  /\ (exists w', connect_client (K := good) 1 v = Blocked w'
     /\ failing id0 1 (a_cb ROUTE_RESOLVED) w').
Proof.
  intros w v. split.
  - refine (proj1 (cm_failure_hangs (K := good) w 1 (new_channel 1) _ _) _ _); try done.
    split; [|split; [done|by intros i [= <-]]].
    repeat constructor. by exists RDMA_CM_EVENT_UNREACHABLE.
  - refine (proj2 (cm_failure_hangs (K := good) v 1 (a_cb ROUTE_RESOLVED) _ _) _ _); try done.
    split; [|split; [done|by intros i [= <-]]].
    repeat constructor. by exists RDMA_CM_EVENT_REJECTED.
Defined.

Lemma bind_client_route_error_witness :
  let w := w_new 1 {[KPtr 1000]} ∅ [ACm id0 RDMA_CM_EVENT_ADDR_RESOLVED] in
  exists w', bind_client (K := route_fails) 1 w = Ok (-1) w'
    /\ heap w' = <[1 := BCb (with_state ERROR (with_port (new_channel 1)))]> (heap w)
    /\ cms w' = delete id0 (cms w).
Proof.
  intros w. apply (bind_client_route_error (K := route_fails) w 1 (new_channel 1) [] (-22));
    try done. split; [done| |done]. by eexists.
Defined.

(** ** Buffers and the queue pair *)

Lemma w_new_bufs_pre cnt : bufs_pre (w_new cnt {[KPtr 1000]} ∅ []) 1
  (new_channel (Z.of_nat cnt)) (replicate cnt zero_ctx).
Proof. split; [apply w_new_chan|done|apply w_new_fresh|by vm_compute]. Qed.

Lemma setup_kfree_buffers_witness :
  let w := w_new 2 {[KPtr 1000]} ∅ [] in
  exists w', (setup_buffers (K := good) 1;; kfree_buffers (K := good) 1) w = Ok tt w'
    /\ only_ctxs_changed w (new_channel 2) w'.
Proof.
  intros w. apply (setup_kfree_buffers (K := good) w 1 (new_channel 2) (replicate 2 zero_ctx));
    [done|intros; apply bus_addr_ok|apply (w_new_bufs_pre 2)].
Defined.

Lemma setup_buffers_dma_failure_witness :
  let w := w_new 2 {[KPtr 1000]} ∅ [] in
  exists w', setup_buffers (K := dma_fails (fun _ => 0)) 1 w = Ok 0 w'
    /\ only_ctxs_changed w (new_channel 2) w'.
Proof.
  intros w. apply (setup_buffers_dma_failure (K := dma_fails (fun _ => 0)) w 1 (new_channel 2)
    (replicate 2 zero_ctx));
    [done|done|apply (w_new_bufs_pre 2)|by repeat constructor|done|done].
Defined.

Lemma setup_buffers_dereg_witness :
  let fails := dma_fails (fun p => if p =? 4 then 0 else 8192) in
  let w := w_new 2 {[KPtr 1000]} ∅ [] in
  setup_buffers (K := fails) 1 w = Undef (BadAddress 8192).
Proof.
  intros fails w. apply (setup_buffers_dereg (K := fails) w 1 (new_channel 2)
    (replicate 2 zero_ctx) 8192);
    [done|done|done|done|apply (w_new_bufs_pre 2)|done].
Defined.

Lemma setup_qp_outcome_witness :
  let w := w_new 1 ∅ ∅ [] in
  exists r w', setup_qp (K := good) 1 id0 w = Ok r w' /\
    r = 0 /\ exists cb', qp_ready w 1 (new_channel 1) cb' w'.
Proof.
  intros w. apply (setup_qp_outcome (K := good) w 1 (new_channel 1)
    {| cm_context := 1; cm_qp := NULL |}); [done|done|done|].
  split; [apply not_elem_of_empty|apply lookup_empty|apply not_elem_of_empty].
Defined.

Lemma setup_kfree_qp_witness :
  let w := w_new 1 ∅ ∅ [] in
  exists w', (setup_qp (K := good) 1 id0;; kfree_qp 1) w = Ok tt w'
    /\ pds w' = pds w /\ cqs w' = cqs w /\ qps w' = qps w.
Proof.
  intros w. apply (setup_kfree_qp (K := good) w 1 (new_channel 1)
    {| cm_context := 1; cm_qp := NULL |}); [done|done|done| |done].
  split; [apply not_elem_of_empty|apply lookup_empty|apply not_elem_of_empty].
Defined.

(** ** Channels *)

Lemma an_attr_client : client_attr an_attr an_attr_sin.
Proof. by split. Qed.

Lemma init_rdma_ch_ok_witness :
  let w := w_empty a_target a_request up_events in
  exists l0 l cb2 w1 w', init_rdma_ch (K := good) an_attr w = Ok 3 w'
    /\ init_done w an_attr an_attr_sin id0 l0 w1
    /\ set_up w1 3 (new_cb an_attr an_attr_sin w id0) l cb2 w'
    /\ cb_state cb2 = CONNECTED
    /\ done_upto 4 (ready_ctx cb2 (next w1)) l0 l /\ sched w' = []
    /\ recvs (cb_qp cb2) (cb_cq cb2) w' = (wr_ids l, O).
Proof.
  intros w. apply (init_rdma_ch_ok (K := good) w an_attr an_attr_sin 5000 []);
    [apply good_reliable|done|done|done|by apply kernel_handles|apply w_empty_fresh
    |apply an_attr_client|done].
Defined.

Lemma init_destroy_leak_free_witness :
  let w := w_empty a_target a_request up_events in
  exists w', (cba ← init_rdma_ch (K := good) an_attr; destroy_rdma_client (K := good) cba) w
      = Ok tt w'
    /\ heap w' = heap w /\ objs w' = objs w /\ sched w' = [].
Proof.
  intros w. apply (init_destroy_leak_free (K := good) w an_attr an_attr_sin 5000 []);
    [apply good_reliable|done|done|done|done|by apply kernel_handles|apply w_empty_fresh
    |apply an_attr_client|done].
Defined.

(** The wait for the connection is interrupted. *)
Lemma run_client_failure_releases_witness :
  let w := w_new 2 ∅ ∅ [ACm id0 RDMA_CM_EVENT_ADDR_RESOLVED;
                        ACm id0 RDMA_CM_EVENT_ROUTE_RESOLVED; ASignal] in
  exists r w', run_client (K := good) 1 w = Ok r w' /\ r <> 0
    /\ pds w' = pds w /\ cqs w' = cqs w /\ qps w' = qps w /\ dmas w' = dmas w
    /\ (forall a, a <> 1 -> a <> 2 -> heap w' !! a = heap w !! a).
Proof.
  intros w. apply (run_client_failure_releases (K := good) w 1 (new_channel 2)
    (replicate 2 zero_ctx) [ASignal]).
  - apply good_reliable.
  - by apply kernel_handles.
  - split; [apply w_new_chan|split; [done|by eexists|done]|done|done|done|apply w_new_fresh].
  - right. exists []. by left.
Defined.

Lemma init_failed_connect_destroy_witness :
  let w := w_empty a_target a_request [ACm id0 RDMA_CM_EVENT_ADDR_RESOLVED;
                                       ACm id0 RDMA_CM_EVENT_ROUTE_RESOLVED] in
  exists w' pd, init_rdma_ch (K := connect_fails) an_attr w = Ok 3 w' /\ 3 <> NULL
    /\ (cba ← init_rdma_ch (K := connect_fails) an_attr;
        destroy_rdma_client (K := connect_fails) cba) w = Undef (BadHandle pd).
Proof.
  intros w. apply (init_failed_connect_destroy (K := connect_fails) w an_attr an_attr_sin 5000 []);
    [by apply reliable_kernel; [..|apply bus_addr_ok]|done|done|by apply kernel_handles
    |apply w_empty_fresh|apply an_attr_client|done|done].
Defined.

Lemma post_recvs_depth_witness :
  let w := w_new 4 {[KPtr 1000]} {[3000]} [] in
  exists w', post_recvs (K := two_receives) 1 w = Ok (Some (- ENOMEM)) w' /\ heap w' = heap w
    /\ recv_posted (trace w') 3000 = 2%nat.
Proof.
  intros w. apply (post_recvs_depth (K := two_receives) w 1 (new_channel 4)
    (replicate 4 zero_ctx)); [done|apply w_new_chan|by vm_compute|done|done].
Defined.

(** ** The RPC layer *)

Definition a_req : rpc_req_param := {| req_rpc_ch := 6; req_data := 5; req_sem := 99 |}.

Lemma a_rpc_send_pre l :
  length l = 4%nat -> is_least 0 (free_bits l) ->
  rpc_send_pre (a_world CONNECTED a_request a_reply l [] []) 6 a_rpc_ch l 0 (a_cb CONNECTED)
    [a_ctx] a_ctx a_req a_request.
Proof.
  intros Hlen Hl. split; first [done|by apply a_bitmap_at|by apply a_send_pre|by eexists].
Qed.

Lemma least_zero l : l !! 0%nat = Some 0 -> is_least 0 (free_bits l).
Proof.
  intros H. split; [|intros j _; lia]. apply elem_of_free_bits. split; [|done].
  unfold BIT_ARR_SIZE. lia.
Qed.

Lemma send_rpc_msg_sent_witness :
  let w := a_world CONNECTED a_request a_reply [0; 0; 0; 0] [] [] in
  exists e w', send_rpc_msg_to_server (K := good) a_req w = Ok (Z.of_nat 0) w'
    /\ rpc_sent (K := good) w 6 a_rpc_ch [0; 0; 0; 0] 0 (a_cb CONNECTED) [a_ctx] a_ctx a_req
         a_request e w'.
Proof.
  intros w. apply (send_rpc_msg_sent (K := good)), a_rpc_send_pre; [done|by apply least_zero].
Defined.

Lemma send_failure_leaks_id_witness :
  let w := a_world CONNECTED a_request a_reply [0; 1; 1; 1] [] [] in
  exists e w1 w2, send_rpc_msg_to_server (K := send_fails) a_req w = Ok (Z.of_nat 0) w1
    /\ e <> 0
    /\ rpc_sent (K := send_fails) w 6 a_rpc_ch [0; 1; 1; 1] 0 (a_cb CONNECTED) [a_ctx] a_ctx
         a_req a_request e w1
    /\ send_rpc_msg_to_server (K := send_fails) a_req w1 = Blocked w2.
Proof.
  intros w. apply (send_failure_leaks_id (K := send_fails));
    [apply a_rpc_send_pre; [done|by apply least_zero]|by vm_compute|done|done|done].
Defined.

Lemma init_rpc_client_binary_address_witness :
  let w := w_empty [192; 168; 14; 118] a_request up_events in
  init_rpc_client (K := good) RPC_CH_RDMA 1 g_port 8 client_rdma_msg_handler_fn w
    = Undef OutOfBounds
  /\ (ip ← strcpy (replicate 16 255) [10; 0; 0; 7]; fill_sockaddr ip g_port) =
      Some {| ss_family := AF_INET; sin_port := u16 g_port; sin_addr := [10; 0; 255; 255] |}.
Proof.
  intros w. apply (init_rpc_client_binary_address (K := good) w 1 g_port 8
    client_rdma_msg_handler_fn [192; 168; 14; 118] 10 0 7 [] (replicate 16 255) g_port);
    [done|apply w_empty_fresh|done|by repeat constructor|done|done].
Defined.

Lemma a_rpc_init_pre target size s :
  is_Some (c_str target) -> (length target <= 16)%nat -> 0 <= msgbuf_size size ->
  rpc_init_pre (K := good) (w_empty target a_request (up_events ++ s)) 5000 1 size s.
Proof.
  intros [str Hs] Hl Hsz.
  split; try first [done|apply good_reliable|by apply kernel_handles|apply w_empty_fresh].
  exists target, str. split; [done|split; [done|]]. apply c_str_length in Hs. lia.
Qed.

Lemma rpc_channel_leak_free_witness :
  let w := w_empty a_target a_request (up_events ++ []) in
  exists w', (ch ← init_rpc_client (K := good) RPC_CH_RDMA 1 g_port 8 client_rdma_msg_handler_fn;
              destroy_rpc_client (K := good) ch) w = Ok tt w'
    /\ heap w' = heap w /\ objs w' = objs w /\ sched w' = [].
Proof.
  intros w. apply (rpc_channel_leak_free (K := good) w 5000); [|done].
  apply a_rpc_init_pre; [by eexists|cbn; lia|done].
Defined.

Lemma first_request_witness :
  let w := w_empty a_target a_request (up_events ++ []) in
  let req := {| req_rpc_ch := 3; req_data := 2; req_sem := 99 |} in
  exists w1 w2 cb2 l ctx e,
    init_rpc_client (K := good) RPC_CH_RDMA 1 g_port 8 client_rdma_msg_handler_fn w = Ok 3 w1
    /\ send_rpc_msg_to_server (K := good) req w1 = Ok 0 w2
    /\ rpc_sent (K := good) w1 3 (rpc_ch_at 3 (3 + 2)) [0; 0; 0; 0] 0 cb2 l ctx req a_request e w2
    /\ heap w2 !! send_buf ctx = Some (BBytes (wire_image 2 3 99 (take 8 a_request))).
Proof.
  intros w. apply (first_request (K := good) w 5000 1 g_port 8 client_rdma_msg_handler_fn []
    2 a_request 99); [apply a_rpc_init_pre; [by eexists|cbn; lia|done]|lia|done|done|by eexists].
Defined.

(** ** Copies of a channel *)

Lemma clone_kfree_witness :
  exists w', (cba ← clone_cb (K := good) 1; kfree_cb cba) w_listening = Ok tt w'
    /\ heap w' = heap w_listening.
Proof.
  apply (wp_total_unit _ (fun _ w' => heap w' = heap w_listening)). destruct w_listening_ok as (Hch & Hci & Hf).
  eapply (wp_clone_kfree_cb (K := good)); [done|exact Hch|exact Hci|exact Hf|by intros].
Defined.

Lemma clone_failure_witness :
  exists w', clone_cb (K := no_ctxs) 1 w_listening = Ok NULL w'
    /\ cma_event_handler (K := no_ctxs) id1 RDMA_CM_EVENT_ESTABLISHED w'
       = Undef (BadAddress 3).
Proof.
  destruct w_listening_ok as (Hch & Hci & Hf).
  assert (Hrun : exists w', clone_cb (K := no_ctxs) 1 w_listening = Ok NULL w')
    by (eexists; vm_compute; reflexivity).
  destruct Hrun as [w' Hrun]. exists w'. split; [exact Hrun|].
  exact (clone_failure_dangles (K := no_ctxs) _ _ _ _ _ _ _ Hch Hci Hf eq_refl Hrun).
Defined.

(** ** The module *)

Lemma test_main_overread_witness :
  let w := w_empty a_target hello_world up_events in
  test_main (K := good) (E := an_env None) 2 99 w = Undef OutOfBounds.
Proof.
  intros w. apply (test_main_overread (K := good) (E := an_env None) w 5000 2 99 []
    [192; 168; 14; 118]);
    [apply good_reliable|done|done|done|by apply kernel_handles|apply w_empty_fresh|done..].
Defined.

Lemma krping_proc_module_refs_witness :
  let w := w_empty a_target hello_world up_events in
  (exists w', krping_write_proc (K := no_memory) (E := an_env None) 2 99 7 16 w
      = Ok (- ENOMEM) w' /\ heap w' = heap w /\ module_refs (trace w') = 1)
  /\ (exists w', krping_write_proc (K := good) (E := an_env None) 2 99 7 16 w
      = Ok (- EFAULT) w' /\ heap w' = heap w /\ module_refs (trace w') = 1)
  /\ krping_write_proc (K := good) (E := an_env (Some [])) 2 99 7 0 w = Undef OutOfBounds.
Proof.
  intros w. split; [|split].
  - by apply (krping_proc_module_refs (K := no_memory) (E := an_env None));
      [|apply w_empty_fresh|lia|].
  - by apply (krping_proc_module_refs (K := good) (E := an_env None));
      [|apply w_empty_fresh|lia|..].
  - by apply (krping_proc_module_refs (K := good) (E := an_env (Some [])) w 2 99 7 0);
      [|apply w_empty_fresh|lia|..].
Defined.
