(* ===== verification/RpcWitnesses.v ===== *)
(** * RpcWitnesses: the properties of [RpcUse], [RpcConc] and [SendConc] on concrete inputs

    A channel created at address 3 with 8 bytes of data per message, on the
    kernel [good] of [Scenarios]; its user's request is at address 2. *)
From stdpp Require Import gmultiset.
From S2P Require Import Prelude Types Kernel Logic Wait Verbs Frame Bitmap MsgbufIds Wire.
From S2P Require Import RdmaIo SendConc RdmaCm RdmaMem RdmaBufs RdmaCh RpcClient RpcTest.
From S2P Require Import RpcSpec RpcLife RpcUse RpcConc Scenarios Witnesses.

#[local] Existing Instance good.

Definition w_use : world := w_empty a_target a_request (up_events ++ []).

Lemma w_use_pre : rpc_use_pre good w_use 5000 1 8.
Proof.
  split; [|done|by vm_compute|lia|done].
  apply a_rpc_init_pre; [by eexists|cbn; lia|done].
Qed.

Lemma rpc_channel_refines_witness :
  exists x w1, rpc_created w_use 1 g_port 8 x w1
    /\ forall acts,
      (forall s, act_run (si_ch x) 8 (new_chan (wakes (trace w1))) acts s ->
         Forall (in_memory x) acts -> exists w2, chan_run x w1 acts w2 /\ tracks x s w2)
      /\ (forall w2, chan_run x w1 acts w2 -> exists s,
            act_run (si_ch x) 8 (new_chan (wakes (trace w1))) acts s /\ tracks x s w2).
Proof. apply (rpc_channel_refines w_use 5000), w_use_pre. Defined.

Lemma concurrent_calls_linearize_witness :
  exists x w1, rpc_created w_use 1 g_port 8 x w1
    /\ forall ts ms acts ts' w2, Forall (caller x) ts -> pool_run x orderly ts w1 ms acts ts' w2 ->
      (exists s s', act_run (si_ch x) 8 (new_chan (wakes (trace w1))) acts s
         /\ tracks x s' w2 /\ agree_but (busy ts') s s'
         /\ ((forall i, ~ busy ts' i) -> s' = s)
         /\ forall a, act_ok 8 s a -> (exists id q sem d, a = Response id q sem d) ->
              exists w3, chan_step x w2 a w3)
      /\ ids_apart ts'
      /\ (forall t, t ∈ ts' -> exists t' w3, thread_step t w2 = Ok t' w3)
      /\ forall ms' acts' ts'' w3 i t id, pool_run x orderly ts' w2 ms' acts' ts'' w3 ->
           ts' !! i = Some t -> given t = Some id -> (16 <= turns i ms')%nat ->
           ts'' !! i = Some (Returned id).
Proof. apply (concurrent_calls_linearize w_use 5000), w_use_pre. Defined.

Lemma used_channel_leak_free_witness :
  exists x w1, rpc_created w_use 1 g_port 8 x w1
    /\ forall acts w2, chan_run x w1 acts w2 -> exists w3,
         destroy_rpc_client (si_ch x) w2 = Ok tt w3
         /\ heap w3 = heap w_use /\ objs w3 = objs w_use /\ sched w3 = [].
Proof. apply (used_channel_leak_free w_use 5000), w_use_pre. Defined.

Lemma concurrent_channel_leak_free_witness :
  exists x w1, rpc_created w_use 1 g_port 8 x w1
    /\ forall ts ms acts ts' w2, Forall (caller x) ts -> pool_run x orderly ts w1 ms acts ts' w2 ->
         exists w3, destroy_rpc_client (si_ch x) w2 = Ok tt w3
           /\ heap w3 = heap w_use /\ objs w3 = objs w_use /\ sched w3 = [].
Proof. apply (concurrent_channel_leak_free w_use 5000), w_use_pre. Defined.

Lemma sequential_calls_lose_ids_witness :
  exists x w1, rpc_created w_use 1 g_port 8 x w1
    /\ (forall k data d, user_data x data d ->
          exists acts w2, rounds k acts /\ chan_run x w1 acts w2)
    /\ (forall k acts w2, (BIT_ARR_SIZE <= k)%nat -> rounds k acts -> chan_run x w1 acts w2 ->
          let i := ((k - 1) mod BIT_ARR_SIZE)%nat in
          (exists bits, bitmap_at w2 (si_ch x) (si_info x) bits /\ free_bits bits = {[i]})
          /\ forall data d sem, user_data x data d -> exists w3,
               send_rpc_msg_to_server (request_to x data sem) w2 = Ok (Z.of_nat i) w3
               /\ forall data' sem', exists w4,
                    send_rpc_msg_to_server (request_to x data' sem') w3 = Blocked w4).
Proof. apply (sequential_calls_lose_ids w_use 5000), w_use_pre. Defined.

Lemma unanswered_id_reused_witness :
  exists x w1, rpc_created w_use 1 g_port 8 x w1
    /\ (forall i1 d1 sem1 i2 d2 sem2 j q sem d i3 d3 sem3 w2,
      chan_run x w1 [Request i1 d1 sem1; Request i2 d2 sem2; Response j q sem d;
        Request i3 d3 sem3] w2 ->
      i1 = 0%nat /\ i2 = 1%nat /\ j = 0%nat /\ i3 = 0%nat
      /\ exists c, si_ctxs x !! 0%nat = Some c
           /\ heap w2 !! send_buf c = Some (BBytes (wire_image 3 (si_ch x) sem3 d3)))
    /\ forall data d sem1 sem2 sem3 q, user_data x data d -> exists w2,
         chan_run x w1 [Request 0 d sem1; Request 1 d sem2; Response 0 q sem2 d;
           Request 0 d sem3] w2.
Proof. apply (unanswered_id_reused w_use 5000 1 g_port 8), w_use_pre. Defined.

(** Four requests without a response: no id is left. *)
Definition four_requests : list act :=
  (fun i => Request i a_request 99) <$> [0; 1; 2; 3]%nat.

Lemma four_requests_run ch woke : exists s,
  act_run ch 8 (new_chan woke) four_requests s /\ q_free s = ∅ /\ q_heard s = 0%nat.
Proof.
  assert (Hfit : fits 8 a_request) by (split; [done|by eexists]).
  eexists. split; [|split].
  - repeat (constructor; [split; [apply least_of_set; by vm_compute|exact Hfit]|]).
    constructor.
  - by vm_compute.
  - reflexivity.
Qed.

(** A channel with no id left, and its user's data. *)
Lemma full_channel :
  exists x s w2 c, site_ok x /\ tracks x s w2 /\ q_free s = ∅ /\ q_heard s = 0%nat
    /\ si_ctxs x !! 0%nat = Some c /\ si_size x = 8 /\ user_data x 2 a_request.
Proof.
  destruct (rpc_create w_use 5000 1 g_port 8 w_use_pre) as (x & w1 & (Hr & Hfrom & Hs) & Hx & Ht).
  destruct (four_requests_run (si_ch x) (wakes (trace w1))) as (s & Hrun & Hf & Hh).
  assert (Hdata : user_data x 2 a_request).
  { exists a_request. rewrite (sf_mem _ _ Hfrom), Hs. split; [done|]. split; [done|].
    split; [done|by eexists]. }
  rewrite <- Hs in Hrun at 1.
  destruct (proj1 (rpc_runs w_use 5000 1 8 x w1 four_requests w_use_pre Hx Hs Ht) s)
    as (w2 & _ & Ht2); [by rewrite <- Hs at 1| |].
  { unfold four_requests. cbn. repeat constructor; by exists 2. }
  destruct (lookup_lt_is_Some_2 (si_ctxs x) 0) as [c Hc].
  { destruct (so_count _ Hx) as [-> _]. unfold BIT_ARR_SIZE. lia. }
  exists x, s, w2, c. exact (conj Hx (conj Ht2 (conj Hf (conj Hh (conj Hc (conj Hs Hdata)))))).
Qed.

Lemma blocked_sender_resumes_witness :
  exists x s w2 c w3,
    send_rpc_msg_to_server (request_to x 2 99)
      (set_sched [ADma (recv_buf c) (wire_image 2 (si_ch x) 99 a_reply);
         ACq (cb_cq (si_cb x)) [PollWc (response_wc x 0)]] w2) = Ok 0 w3
    /\ tracks x (act_next (si_ch x) (act_next (si_ch x) s (Response 0 2 99 a_reply))
         (Request 0 a_request 99)) w3.
Proof.
  destruct full_channel as (x & s & w2 & c & Hx & Ht & Hf & Hh & Hc & Hs & Hd).
  exists x, s, w2, c.
  pose proof (blocked_sender_resumes w_use 5000 1 8 x s w2 c 2 a_request 99 2 99 a_reply
    w_use_pre Hx Ht Hf) as H.
  rewrite Hh in H. apply H; [done|rewrite Hs; split; [done|by eexists]|done].
Defined.

(** ** Senders at the same time *)

(** A channel with two message buffers, at 3 and 4, and two senders, of the
    data at 5 and at 6. *)
Definition cb_two : rdma_ch_cb := (a_cb CONNECTED) <| cb_msgbuf_cnt := 2 |>.
Definition ctx_two : msgbuf_ctx := a_ctx <| mc_id := 1 |> <| send_buf := 4 |> <| mc_seqn := 7 |>.
Definition w_two : world :=
  {| heap := <[1 := BCb cb_two]> (<[2 := BCtxs [a_ctx; ctx_two]]> (<[3 := BBytes (zeros 32)]>
       (<[4 := BBytes (zeros 32)]> (<[5 := BBytes a_request]> (<[6 := BBytes a_reply]> ∅)))));
     next := 7; trace := []; sched := []; cms := ∅; cqs := ∅; pds := ∅; qps := {[3000]};
     dmas := ∅; woken := []; errno := 0 |}.
Definition two_senders : list sender :=
  [ {| sd_id := 0; sd_ctx := a_ctx; sd_ch := 20; sd_data := 5; sd_bytes := a_request;
       sd_sem := 98; sd_seqn := 0 |};
    {| sd_id := 1; sd_ctx := ctx_two; sd_ch := 20; sd_data := 6; sd_bytes := a_reply;
       sd_sem := 99; sd_seqn := 0 |} ].

Lemma two_senders_ok : senders_ok 1 cb_two two_senders w_two [a_ctx; ctx_two].
Proof.
  split; [done| | |].
  - intros [|[|i]] s [= <-]; (split; [split; try done|by eexists]);
      first [by eexists | by apply elem_of_singleton].
  - intros [|[|i]] [|[|j]] s t [= <-] [= <-] Hij; by try lia.
  - by intros [|[|i]] [|[|j]] s t [= <-] [= <-].
Qed.

Definition in_turns : list nat := concat (replicate 14 [0; 1]%nat).

Lemma concurrent_sends_serialize_witness :
  exists ts v, interleave in_turns (prog_of 1 <$> two_senders) w_two = Ok ts v
    /\ ((forall i, (i < 2)%nat -> (14 <= count_occ Nat.eq_dec in_turns i)%nat) ->
         exists rs, ts = Done <$> rs)
    /\ (forall rs, ts = Done <$> rs ->
         (forall s, s ∈ two_senders ->
            heap v !! send_buf (sd_ctx s) = Some (BBytes (image_of cb_two s)))
         /\ exists os, os ≡ₚ zip two_senders rs /\ mapM (send_of 1) os.*1 w_two = Ok os.*2 v).
Proof. apply (concurrent_sends_serialize 1 cb_two two_senders w_two [a_ctx; ctx_two]), two_senders_ok. Defined.
