(* ===== verification/RpcRace.v ===== *)
(** * RpcRace: a response in the middle of a call

    What [RpcConc] excludes, run on a concrete machine: four calls on a channel
    of 8 bytes of data per message, and two responses, the second of which lands
    in the buffer of an id whose message is still being written. *)
From stdpp Require Import gmultiset.
From S2P Require Import Prelude Types Kernel Logic Verbs Wait Within Frame Bitmap MsgbufIds Wire.
From S2P Require Import RdmaIo SendConc RdmaCm RdmaMem RdmaBufs RdmaCh RpcClient RpcTest.
From S2P Require Import RpcSpec RpcLife RpcUse RpcConc Scenarios.

(** ** Running a pool *)

(** Thread [i] takes [n] turns; a response arrives. *)
Inductive bout := Takes (i n : nat) | Gets (q sem : Z) (d : list Z).

#[local] Instance fits_dec size d : Decision (fits size d).
Proof. unfold fits. apply _. Defined.

Section Play.
Context {K : Kernel} (ch cba : addr) (size : Z) (mem : gmap addr block).

(** The request a step makes, with its data. *)
Definition acts_of (t t' : thread) : option (list act) :=
  match t, t' with
  | Asking req _, Chosen _ id =>
      match mem !! req_data req with
      | Some (BBytes bd) =>
          let d := take (Z.to_nat size) bd in
          if decide (fits size d) then Some [Request (Z.to_nat id) d (req_sem req)] else None
      | _ => None
      end
  | _, _ => Some []
  end.

Fixpoint take_turns (i n : nat) (ts : list thread) : M (list thread * list act) :=
  match n with
  | O => mret (ts, [])
  | S n =>
      t ← from_option OutOfBounds (ts !! i);
      t' ← thread_step t;
      a ← from_option OutOfBounds (acts_of t t');
      r ← take_turns i n (<[i := t']> ts);
      mret (fst r, a ++ snd r)
  end.

(** The device and the completion interrupt. *)
Definition arrive (q sem : Z) (d : list Z) : M nat :=
  cb ← load (T := rdma_ch_cb) cba;
  l ← load (T := list msgbuf_ctx) (cb_buf_ctxs cb);
  h ← get trace;
  id ← from_option OutOfBounds (posted (cb_qp cb) h !! received (cb_cq cb) h);
  c ← from_option OutOfBounds (ctx_at l id);
  deliver (ADma (recv_buf c) (wire_image q ch sem d));;
  deliver (ACq (cb_cq cb) [PollWc
    {| wc_status := IB_WC_SUCCESS; wc_opcode := IB_WC_RECV;
       wc_byte_len := u32 (cb_msgbuf_size cb); wc_wr_id := id |}]);;
  mret (Z.to_nat id).

Fixpoint play (bs : list bout) (ts : list thread) : M (list thread * list act) :=
  match bs with
  | [] => mret (ts, [])
  | Takes i n :: bs =>
      r ← take_turns i n ts;
      r' ← play bs (fst r);
      mret (fst r', snd r ++ snd r')
  | Gets q sem d :: bs =>
      id ← arrive q sem d;
      r' ← play bs ts;
      mret (fst r', Response id q sem d :: snd r')
  end.
End Play.

Section Play_sound.
Context {K : Kernel} (x : site).

(** No response is held back. *)
Definition any_time (ts : list thread) (id : nat) : Prop := True.

Lemma pool_run_app ts w ms1 acts1 ts1 w1 ms2 acts2 ts2 w2 :
  pool_run x any_time ts w ms1 acts1 ts1 w1 -> pool_run x any_time ts1 w1 ms2 acts2 ts2 w2 ->
  pool_run x any_time ts w (ms1 ++ ms2) (acts1 ++ acts2) ts2 w2.
Proof.
  induction 1 as [|ts w m acts ts1 w1 ms acts' ts' w' Hs _ IH]; [done|]. intros Hr.
  rewrite <- app_assoc. by econstructor; [|apply IH].
Qed.

Lemma acts_of_emits t t' a : acts_of (si_size x) (si_mem x) t t' = Some a -> emits x t t' a.
Proof.
  destruct t as [req|req v|req id|id p|id], t' as [req'|req' v'|req' id'|id' p'|id'];
    cbn [acts_of emits]; try by intros [= <-].
  destruct (si_mem x !! req_data req) as [ [bd| | | | | | | | | ]|] eqn:Hm; try done.
  case_decide as Hd; [|done]. intros [= <-]. eexists. split; [|done]. by exists bd.
Qed.

Lemma wp_take_turns i n ts w :
  wp Partial (take_turns (si_size x) (si_mem x) i n ts)
    (fun r w' => exists ms, pool_run x any_time ts w ms (snd r) (fst r) w') w.
Proof.
  revert ts w. induction n as [|n IH]; intros ts w; cbn [take_turns].
  { exists []. constructor. }
  apply wp_bind, wp_from_option_p. intros t Ht. apply wp_bind. unfold wp at 1.
  destruct (thread_step t w) as [t' w1| |] eqn:Hs; [|done..].
  apply wp_bind, wp_from_option_p. intros a Ha%acts_of_emits. apply wp_bind.
  eapply wp_mono; [apply IH|]. intros [ts' acts] w' [ms Hr]. exists (Turn i :: ms).
  econstructor; [|exact Hr]. by eapply pool_turn.
Qed.

Lemma wp_arrive ts w q sem d :
  fits (si_size x) d ->
  wp Partial (arrive (si_ch x) (si_cba x) q sem d) (fun id w' =>
    pool_run x any_time ts w [Arrive] [Response id q sem d] ts w') w.
Proof.
  intros Hd. unfold arrive. apply wp_bind, wp_load_p. intros cb Hcb.
  apply wp_bind, wp_load_p. intros l Hl. apply wp_bind, wp_get.
  apply wp_bind, wp_from_option_p. intros id Hid. apply wp_bind, wp_from_option_p. intros c Hc.
  pose proof Hc as [Hpos _]%ctx_at_Some. rewrite <- (Z2Nat.id id Hpos) in Hid, Hc.
  rewrite <- (Z2Nat.id id Hpos). apply wp_bind. unfold wp at 1.
  destruct (deliver (ADma _ _) w) as [ [] w1| |] eqn:H1; [|done..]. apply wp_bind. unfold wp at 1.
  destruct (deliver (ACq _ _) w1) as [ [] w2| |] eqn:H2; [|done..]. rewrite Nat2Z.id.
  apply (pool_run_cons x any_time ts w Arrive [_] ts w2 [] []); [|constructor].
  constructor; [done|]. eapply (step_response x w cb l _ c q sem d w1); done.
Qed.

Lemma wp_play bs ts w :
  Forall (fun b => match b with Gets _ _ d => fits (si_size x) d | _ => True end) bs ->
  wp Partial (play (si_ch x) (si_cba x) (si_size x) (si_mem x) bs ts)
    (fun r w' => exists ms, pool_run x any_time ts w ms (snd r) (fst r) w') w.
Proof.
  revert ts w. induction bs as [|[i n|q sem d] bs IH]; intros ts w Hbs; cbn [play].
  - exists []. constructor.
  - apply Forall_cons_1 in Hbs as [_ Hbs]. apply wp_bind.
    eapply wp_mono; [apply wp_take_turns|]. intros [ts1 acts1] w1 [ms1 H1]. apply wp_bind.
    eapply wp_mono; [by apply IH|]. intros [ts2 acts2] w2 [ms2 H2].
    exists (ms1 ++ ms2). by eapply pool_run_app.
  - apply Forall_cons_1 in Hbs as [Hd Hbs]. apply wp_bind.
    eapply wp_mono; [by apply (wp_arrive ts)|]. intros id w1 H1. apply wp_bind.
    eapply wp_mono; [by apply IH|]. intros [ts2 acts2] w2 [ms2 H2].
    exists ([Arrive] ++ ms2). by apply (pool_run_app ts w [Arrive] [Response id q sem d] ts w1).
Qed.
End Play_sound.

(** ** The torn message *)

#[local] Existing Instance good.

(** The users' data are at 2 and 3. *)
Definition w_race : world :=
  {| heap := <[1 := BBytes a_target]> (<[2 := BBytes a_request]> (<[3 := BBytes a_reply]> ∅));
     next := 4; trace := []; sched := up_events ++ []; cms := ∅; cqs := ∅; pds := ∅; qps := ∅;
     dmas := ∅; woken := []; errno := 0 |}.

Definition a_call (data sem : Z) : thread :=
  Calling {| req_rpc_ch := 4; req_data := data; req_sem := sem |}.
Definition four_calls : list thread := [a_call 2 91; a_call 3 92; a_call 3 93; a_call 3 94].

(** Call 1 sends, under id 0.  Call 0 takes id 1 and reads its data.  The
    response to call 1 frees id 0, call 2 sends under it, and the response to
    call 2 frees id 1.  Call 3 takes id 1 and writes its message; call 0 writes
    its data into it; both post it. *)
Definition the_race : list bout :=
  [Takes 1 18; Takes 0 12; Gets 2 92 a_reply; Takes 2 18; Gets 3 93 a_reply;
   Takes 3 13; Takes 0 6; Takes 3 5].

Definition run_race : M (list thread * list act) := play 4 6 8 (heap w_race) the_race four_calls.

Definition w_up : world :=
  state_after (init_rpc_client RPC_CH_RDMA 1 g_port 8 client_rdma_msg_handler_fn) w_race.

(** The requests and the responses: every response answers a request that was
    posted before it. *)
Definition race_acts : list act :=
  [Request 0 a_reply 92; Request 1 a_request 91; Response 0 2 92 a_reply;
   Request 0 a_reply 93; Response 1 3 93 a_reply; Request 1 a_reply 94].

(** What a send queue has been asked last. *)
Definition last_posts (n : nat) (w : world) : list (addr * ib_send_wr) :=
  omap (fun e => match e with EvPostSend qp wr _ => Some (qp, wr) | _ => None end)
    (take n (trace w)).

Lemma w_race_pre : rpc_use_pre good w_race 5000 1 8.
Proof.
  split; [|done|by vm_compute|lia|done].
  split; try first [done|apply good_reliable|by apply kernel_handles].
  - split; [done|]. intros a Ha. cbn in Ha. cbn [heap w_race].
    rewrite !lookup_insert_ne by lia. apply lookup_empty.
  - exists a_target. eexists. split; [done|]. split; [by vm_compute|cbn; lia].
Qed.

Lemma w_up_blocks :
  heap w_up !! 4 = Some (BRpcCh (rpc_ch_at 4 6))
  /\ (b ← heap w_up !! 6; match b with BCb cb => Some (cb_buf_ctxs cb, cb_qp cb) | _ => None end)
      = Some (7, 3000)
  /\ (b ← heap w_up !! 7; match b with
        | BCtxs l => c ← ctx_at l 1; Some (send_buf c, sq_wr c) | _ => None end)
      = Some (11, {| swr_wr_id := 1; swr_opcode := IB_WR_SEND; swr_send_flags := IB_SEND_SIGNALED;
          swr_sg_list := Some {| sp_ctxs := 7; sp_idx := 1; sp_field := F_send_sgl |};
          swr_num_sge := 1 |}).
Proof. by vm_compute. Qed.

Lemma run_race_result :
  match run_race w_up with
  | Ok r w => r = ([Returned 1; Returned 0; Returned 0; Returned 1], race_acts)
      /\ heap w !! 11 = Some (BBytes (wire_image 3 4 94 a_request))
      /\ last_posts 2 w = replicate 2 (3000,
           {| swr_wr_id := 1; swr_opcode := IB_WR_SEND; swr_send_flags := IB_SEND_SIGNALED;
              swr_sg_list := Some {| sp_ctxs := 7; sp_idx := 1; sp_field := F_send_sgl |};
              swr_num_sge := 1 |})
  | _ => False
  end.
Proof. by vm_compute. Qed.

Lemma race_run x :
  si_ch x = 4 -> si_cba x = 6 -> si_size x = 8 -> si_mem x = heap w_race ->
  exists ms w2, pool_run x any_time four_calls w_up ms race_acts
      [Returned 1; Returned 0; Returned 0; Returned 1] w2
    /\ heap w2 !! 11 = Some (BBytes (wire_image 3 4 94 a_request))
    /\ last_posts 2 w2 = replicate 2 (3000,
         {| swr_wr_id := 1; swr_opcode := IB_WR_SEND; swr_send_flags := IB_SEND_SIGNALED;
            swr_sg_list := Some {| sp_ctxs := 7; sp_idx := 1; sp_field := F_send_sgl |};
            swr_num_sge := 1 |}).
Proof.
  intros Hch Hcba Hs Hmem. pose proof run_race_result as Hres. unfold run_race in Hres.
  pose proof (wp_play x the_race four_calls w_up) as Hplay.
  rewrite Hch, Hcba, Hs, Hmem in Hplay. unfold wp in Hplay.
  destruct (play 4 6 8 (heap w_race) the_race four_calls w_up) as [r w2|u|w2];
    [|destruct Hres|destruct Hres]. destruct Hres as (-> & Hbuf & Hposts).
  destruct Hplay as [ms Hms].
  { assert (fits 8 a_reply) by (split; [done|by eexists]). by repeat constructor. }
  exists ms, w2. split; [exact Hms|]. split; [exact Hbuf|exact Hposts].
Qed.

(** C11. The response to one request frees the id of another whose message is still
    being written, a third gets the id, and the two write into one buffer: both
    calls return id 1, both post its buffer, and what is posted has the number
    and the semaphore of the one and the data of the other. *)
Theorem torn_message :
  exists x w1 ts ms w2 c, rpc_created w_race 1 g_port 8 x w1 /\ Forall (caller x) ts
    /\ pool_run x any_time ts w1 ms race_acts [Returned 1; Returned 0; Returned 0; Returned 1] w2
    /\ si_ctxs x !! 1%nat = Some c
    /\ heap w2 !! send_buf c = Some (BBytes (wire_image 3 (si_ch x) 94 a_request))
    /\ last_posts 2 w2 = replicate 2 (cb_qp (si_cb x), sq_wr c).
Proof.
  destruct (rpc_create w_race 5000 1 g_port 8 w_race_pre) as (x & w1 & Hc & Hx & Ht).
  pose proof Hc as (Hinit & Hfrom & Hs). pose proof (sf_ch _ _ Hfrom) as Hch. cbn in Hch.
  pose proof (sf_mem _ _ Hfrom) as Hmem.
  assert (Hup : w_up = w1) by (unfold w_up, state_after; by rewrite Hinit).
  destruct w_up_blocks as (B1 & B2 & B3). rewrite Hup in B1, B2, B3. destruct Ht as (bits & st & Ht).
  pose proof (tracks_at_site _ _ _ _ _ _ Hx Ht) as [ [Hi _ _ _] Hcb Hl Hcc _ _ _ _ _ _ _ _ _ _].
  assert (Hcba : si_cba x = 6).
  { destruct (so_info _ Hx) as (_ & <- & _). rewrite Hch, B1 in Hi. injection Hi as <-. done. }
  rewrite Hcba in Hcb. rewrite Hcb in B2. cbn in B2. injection B2 as Ectx Eqp.
  destruct (site_ctx _ _ _ _ _ _ 1 Hx Ht) as (c & n & Hcx & _ & Hat & _); [unfold BIT_ARR_SIZE; lia|].
  rewrite <- Hcc, Ectx in Hl. rewrite Hl in B3. cbn [mbind option_bind] in B3.
  change (Z.of_nat 1) with 1 in Hat. rewrite Hat in B3. cbn in B3. injection B3 as Ebuf Ewr.
  assert (Hd : user_data x 2 a_request /\ user_data x 3 a_reply).
  { split; eexists; rewrite Hmem, Hs; (split; [done|]); (split; [done|]); split; by try eexists. }
  destruct Hd as [Hd1 Hd2].
  destruct (race_run x Hch Hcba Hs Hmem) as (ms & w2 & Hms & Hbuf & Hposts). rewrite Hup in Hms.
  exists x, w1, four_calls, ms, w2, c. split; [exact Hc|]. split.
  { assert (Hcall : forall data sem d, user_data x data d -> caller x (a_call data sem)).
    { intros data sem d Hdd. exists data, sem, d. split; [|exact Hdd].
      unfold request_to. by rewrite Hch. }
    repeat constructor; eapply Hcall; [exact Hd1|exact Hd2|exact Hd2|exact Hd2]. }
  split; [exact Hms|]. split; [exact Hcx|]. rewrite Ebuf, Hch, Eqp, Ewr. by split.
Qed.
