(* ===== verification/KrpingScenarios.v ===== *)
(** * KrpingScenarios: concrete kernels and states for the ping module

    A number parser that meets its laws, kernels on which a ping succeeds or
    fails, control blocks and states: the inputs on which [KrpingWitnesses]
    exercises the properties of the ping module. *)
From stdpp Require Import gmultiset.
From S2P Require Import Prelude Types KrpingTypes Kernel Logic Verbs Wait ModEnv Getopt.
From S2P Require Import KrpingOpts KrpingEnv KrpingFrame KrpingIo KrpingBufs KrpingPing.
From S2P Require Import KrpingProto KrpingRounds KrpingRun KrpingDoit.
From S2P Require Import Frame RdmaIo RdmaCm RdmaBufs RdmaCh Scenarios.
Import Krping.

(** ** Numbers *)

Definition is_digit (b : Z) : bool := (48 <=? b) && (b <=? 57).
Fixpoint digit_prefix (s : list Z) : list Z :=
  match s with
  | [] => []
  | b :: s => if is_digit b then b :: digit_prefix s else []
  end.
Definition digits_val (s : list Z) : Z := fold_left (fun n b => 10 * n + (b - 48)) s 0.

(** Decimal numbers, and no others. *)
Definition strtoul_10 : Strtoul :=
  fun s => (digits_val (digit_prefix s), length (digit_prefix s)).

Lemma digit_prefix_length s : (length (digit_prefix s) <= length s)%nat.
Proof. induction s as [|b s IH]; cbn; [done|]. destruct (is_digit b); cbn; lia. Qed.

Lemma digit_prefix_all s : Forall (fun b => 48 <= b <= 57) s -> digit_prefix s = s.
Proof.
  induction 1 as [|b s Hb _ IH]; [done|]. cbn [digit_prefix]. unfold is_digit.
  by rewrite (proj2 (Z.leb_le _ _)), (proj2 (Z.leb_le _ _)), IH by lia.
Qed.

Lemma digits_val_digits fuel n :
  0 <= n < 10 ^ Z.of_nat fuel -> digits_val (digits fuel n) = n.
Proof.
  revert n. induction fuel as [|fuel IH]; intros n Hn; [cbn in *; lia|].
  cbn [digits]. destruct (Z.ltb_spec n 10); [unfold digits_val; cbn; lia|].
  unfold digits_val. rewrite fold_left_app. cbn [fold_left]. fold (digits_val (digits fuel (n / 10))).
  rewrite IH.
  - pose proof (Z.div_mod n 10). lia.
  - split; [apply Z.div_pos; lia|]. apply Z.div_lt_upper_bound; [lia|].
    rewrite <- Z.pow_succ_r, <- Nat2Z.inj_succ by lia. apply Hn.
Qed.

Lemma strtoul_10_laws : StrtoulLaws strtoul_10.
Proof.
  split; [apply digit_prefix_length|]. intros n Hn. unfold simple_strtoul, strtoul_10, decimal.
  rewrite (proj2 (Z.ltb_ge n 0)) by lia.
  rewrite digit_prefix_all by (apply digits_are_digits; lia).
  rewrite digits_val_digits; [done|]. change (10 ^ Z.of_nat 20) with 100000000000000000000. lia.
Qed.

(** ** Kernels *)

(** Where the module's list of pings is. *)
Definition pings_at : addr := 1.

Record kanswers := {
  ka_coherent : list event -> option Z; ka_mr : Z + ib_mr; ka_resolve : Z }.
Definition kkernel_of (a : kanswers) : KrpingKernel :=
  {| kk_recv_buf_off := 400; kk_send_buf_off := 500; kk_pings := pings_at;
     kk_alloc_coherent h _ _ := ka_coherent a h; kk_alloc_mr _ _ _ := ka_mr a;
     kk_map_mr_sg _ _ _ _ := 1; kk_post_recv _ _ _ := 0; kk_post_send _ _ _ := 0;
     kk_resolve_addr _ _ _ := ka_resolve a;
     kk_device_cap_flags _ := IB_DEVICE_MEM_MGT_EXTENSIONS;
     kk_dev_get_by_name _ _ := None |}.

(** Coherent memory at a new bus address each time. *)
Definition a_mr : ib_mr := {| mr_lkey := 0x1100; mr_rkey := 0x2200 |}.
Definition kgood : KrpingKernel := kkernel_of
  {| ka_coherent h := Some (1048576 * Z.of_nat (length h)); ka_mr := inr a_mr; ka_resolve := 0 |}.
Definition no_coherent : KrpingKernel := kkernel_of
  {| ka_coherent _ := None; ka_mr := inr a_mr; ka_resolve := 0 |}.
Definition unresolvable : KrpingKernel := kkernel_of
  {| ka_coherent _ := None; ka_mr := inr a_mr; ka_resolve := -113 |}.

Lemma kgood_obliging : obliging (KK := kgood).
Proof.
  split; try done. intros h mr dma len Hl. cbn.
  destruct (page_list_len_value len Hl). lia.
Qed.

(** ** Control blocks and states *)

(** A client's block at 2, with the region at 3 and its buffers at 4 and 5, of
    [size] bytes, for [count] pings, in state [s]. *)
Definition a_kcb (s : test_state) (size count : Z) : krping_cb :=
  set_kc_state s (set_kc_count count (set_kc_key 255 (set_kc_cm_id id0
  (set_kc_addr_type AF_INET (set_kc_addr ([192; 168; 14; 118] ++ replicate 12 0)
  (wr_cb 7 (set_kc_page_list_len (page_list_len size)
  (set_kc_start_mapping 1048576 (set_kc_start_dma_addr 1048576 (set_kc_start_buf 5
  (set_kc_rdma_mapping 2097152 (set_kc_rdma_dma_addr 2097152 (set_kc_rdma_buf 4
  (set_kc_reg_mr (KPtr 3) (set_kc_size size (set_kc_server 0 (set_kc_cq (KPtr 2000)
  (set_kc_pd (KPtr 1000) (set_kc_qp 3000 zero_kcb))))))))))))))))))).

(** A block without buffers or objects. *)
Definition bare_kcb (s : test_state) : krping_cb :=
  set_kc_state s (set_kc_size 64 (set_kc_count 1 (set_kc_cm_id id0
  (set_kc_addr_type AF_INET (set_kc_addr ([192; 168; 14; 118] ++ replicate 12 0)
  (set_kc_port 7174 (set_kc_pd (KPtr 1000) zero_kcb))))))).

Definition kheap (cb : krping_cb) (buf : list Z) : gmap addr block :=
  <[pings_at := BPings {| pl_locked := false; pl_cbs := [2] |}]> (<[2 := BKcb cb]>
  (<[3 := BMr a_mr]> (<[4 := BBytes buf]> (<[5 := BBytes buf]> ∅)))).
Definition kworld (cb : krping_cb) (buf : list Z) (polls : list poll) (evs : list async)
    : world :=
  {| heap := kheap cb buf; next := 6; trace := []; sched := evs;
     cms := {[id0 := {| cm_context := 2; cm_qp := 3000 |}]};
     cqs := {[KPtr 2000 := {| cq_context := 2; cq_polls := polls |}]};
     pds := {[KPtr 1000]}; qps := {[3000]}; dmas := ∅; woken := []; errno := 0 |}.

(** The module at rest: no ping, and a command at 2. *)
Definition cworld (cmd : list Z) (evs : list async) : world :=
  {| heap := <[pings_at := BPings {| pl_locked := false; pl_cbs := [] |}]>
       (<[2 := BBytes cmd]> ∅);
     next := 3; trace := []; sched := evs; cms := ∅; cqs := ∅; pds := ∅; qps := ∅;
     dmas := ∅; woken := []; errno := 0 |}.

(** The answers of a peer to one advertisement. *)
Definition send_wc : ib_wc :=
  {| wc_status := IB_WC_SUCCESS; wc_opcode := IB_WC_SEND; wc_byte_len := 16; wc_wr_id := 0 |}.
Definition recv_wc : ib_wc :=
  {| wc_status := IB_WC_SUCCESS; wc_opcode := IB_WC_RECV; wc_byte_len := 16; wc_wr_id := 0 |}.
Definition an_answer : async := ACq (KPtr 2000) [PollWc send_wc; PollWc recv_wc].

Lemma an_answer_ok : answer (KPtr 2000) an_answer.
Proof. exists [send_wc], recv_wc. split; [done|]. split; [by repeat constructor|done]. Qed.

Lemma kworld_fresh cb buf polls evs : fresh_ok (kworld cb buf polls evs).
Proof. split; [done|]. intros a H. cbn in H. cbn [heap kworld]. unfold kheap, pings_at.
  rewrite !lookup_insert_ne by lia. apply lookup_empty. Qed.
Lemma cworld_fresh cmd evs : fresh_ok (cworld cmd evs).
Proof. split; [done|]. intros a H. cbn in H. cbn [heap cworld]. unfold pings_at.
  rewrite !lookup_insert_ne by lia. apply lookup_empty. Qed.

Lemma a_kcb_ready s size count polls buf evs :
  client_ready (kworld (a_kcb s size count) buf polls evs) 2 (a_kcb s size count).
Proof. split; try done. by eexists. Qed.

Lemma a_kcb_pinging s count evs :
  pinging (kworld (a_kcb s 64 count) (zeros 64) [] evs) 2 (a_kcb s 64 count) a_mr [].
Proof.
  split; [apply a_kcb_ready| |by exists 3|by exists (zeros 64)|by exists (zeros 64)|done].
  split; try done; unfold in_u, RPING_BUFSIZE; cbn; lia.
Qed.

Lemma command_ready_at cmd evs :
  Forall (fun e => is_conn_req e = false) evs -> command_ready (KK := kgood) (K := good) (cworld cmd evs) [].
Proof.
  intros He. split; [apply cworld_fresh|done|by apply kernel_handles| |done|apply not_elem_of_nil].
  intros h c. apply lookup_empty.
Qed.
