(* ===== verification/KrpingWitnesses.v ===== *)
(** * KrpingWitnesses: the properties of the ping module on concrete inputs

    For every property of the ping module with hypotheses, an instance on a
    kernel and a state of [KrpingScenarios] where they hold. *)
From stdpp Require Import gmultiset.
From S2P Require Import Prelude Types KrpingTypes Kernel Logic Verbs Wait ModEnv Getopt.
From S2P Require Import KrpingOpts KrpingEnv KrpingFrame KrpingIo KrpingBufs KrpingPing.
From S2P Require Import KrpingProto KrpingRounds KrpingRun KrpingClient KrpingDoit KrpingCommand.
From S2P Require Import Frame RdmaIo RdmaCm RdmaBufs RdmaCh Scenarios KrpingScenarios.
Import Krping.

#[local] Existing Instances good kgood strtoul_10 strtoul_10_laws.

(** ** Options *)

(** "a=1,,b" *)
Definition a_text : list Z := [97; 61; 49; 44; 44; 98; 0].

Lemma krping_getopt_spec_witness :
  exists r st', krping_getopt krping_opts {| os_buf := a_text; os_options := Some 0%nat |} = Some (r, st')
    /\ or_ret r = - EOPNOTSUPP /\ pending st' = [(5%nat, [98])].
Proof.
  destruct (krping_getopt_spec krping_opts {| os_buf := a_text; os_options := Some 0%nat |}
    ltac:(by eexists)) as (r & st' & Hg & _ & _ & Hr & Hp). exists r, st'.
  split; [exact Hg|]. split; [exact (rp_ret _ _ _ _ Hr)|exact Hp].
Defined.

Definition a_cmd : list kopt :=
  [OAddr (chars "192.168.14.118"); OPort 7174; OCount 2; OSize 100; OVerbose].
Definition cmd_world (l : list Z) : world :=
  {| heap := <[1 := BBytes l]> (<[2 := BKcb new_ping]> ∅); next := 3; trace := []; sched := [];
     cms := ∅; cqs := ∅; pds := ∅; qps := ∅; dmas := ∅; woken := []; errno := 0 |}.
Definition no_copy : ModuleEnv := an_env None.
#[local] Existing Instance no_copy.
Lemma no_copy_length s b : in4_pton (ModuleEnv := no_copy) s = Some b -> length b = 4%nat.
Proof. by intros [= <-]. Qed.

Lemma krping_options_roundtrip_witness :
  let text := print_opts OClient a_cmd ++ [0] in
  exists w' cb',
    krping_options (E := no_copy) (S (length text)) 1 2 (Some 0%nat) 77 0 (cmd_world text) = Ok 0 w'
    /\ heap w' !! 2 = Some (BKcb cb') /\ kc_size cb' = 100 /\ kc_count cb' = 2
    /\ take 4 (kc_addr cb') = [192; 168; 14; 118] /\ kc_server cb' = 0.
Proof.
  intros text.
  assert (Hg : Forall opt_good (OClient :: a_cmd)).
  { repeat apply Forall_cons_2; [done| |cbn; lia|cbn; lia|cbn; unfold RPING_BUFSIZE; lia|done
      |apply Forall_nil_2].
    split; [by eexists|]. by repeat constructor. }
  destruct (krping_options_roundtrip (E := no_copy) no_copy_length 1 2 new_ping 77 (cmd_world text)
    OClient a_cmd ltac:(done) ltac:(reflexivity) ltac:(reflexivity) Hg (proj1 new_ping_typed)
    (proj2 new_ping_typed)) as (w' & cb' & Hr & Hh & Hs).
  exists w', cb'. split; [exact Hr|]. split; [exact Hh|].
  change (kc_size cb') with (kc_size (no_str cb')). change (kc_count cb') with (kc_count (no_str cb')).
  change (kc_addr cb') with (kc_addr (no_str cb')). change (kc_server cb') with (kc_server (no_str cb')).
  rewrite Hs. split_and!; reflexivity.
Defined.

(** A size out of range, and an option that there is not. *)
Definition bad_size : list Z := chars "size=0,count=3".
Definition unknown : list Z := chars "size=10,bogus".

Lemma krping_options_fold_witness :
  exists x' buf',
    apply_tokens 1 (tokens 0 unknown) {| oa_cb := new_ping; oa_optint := 77; oa_ret := 0 |} = Some x'
    /\ oa_ret x' = - EINVAL /\ kc_size (oa_cb x') = 10
    /\ krping_options (S (length (unknown ++ [0]))) 1 2 (Some 0%nat) 77 0 (cmd_world (unknown ++ [0]))
      = Ok (oa_ret x') (upd_heap (fun h => <[2 := BKcb (oa_cb x')]> (<[1 := BBytes buf']> h))
          (cmd_world (unknown ++ [0]))).
Proof.
  destruct (krping_options_fold no_copy_length 1 2 (unknown ++ [0]) unknown new_ping 77
    (cmd_world (unknown ++ [0])) ltac:(done) eq_refl eq_refl eq_refl (proj1 new_ping_typed)
    (proj2 new_ping_typed)) as (x' & buf' & Ha & Hr & _).
  exists x', buf'. split; [exact Ha|].
  assert (Hx : oa_ret x' = - EINVAL /\ kc_size (oa_cb x') = 10); [|by destruct Hx].
  vm_compute in Ha. injection Ha as <-. done.
Defined.

Lemma krping_options_typed_witness :
  exists ret w' cb',
    krping_options (S (length (bad_size ++ [0]))) 1 2 (Some 0%nat) 77 0 (cmd_world (bad_size ++ [0]))
      = Ok ret w'
    /\ heap w' !! 2 = Some (BKcb cb') /\ kcb_typed cb'
    /\ (ret = 0 \/ ret = EINVAL \/ ret = - EINVAL) /\ (ret = 0 -> kcb_limits cb').
Proof.
  by apply (krping_options_typed no_copy_length 1 2 (bad_size ++ [0]) bad_size new_ping 77
    (cmd_world (bad_size ++ [0])) ltac:(done) eq_refl eq_refl eq_refl (proj1 new_ping_typed)
    (proj2 new_ping_typed)).
Defined.

(** ** Callbacks and buffers *)

Lemma page_list_len_pages_witness :
  page_list_len 4097 = 2 /\ 1 <= page_list_len 4097 <= 32
  /\ (page_list_len 4097 - 1) * PAGE_SIZE < 4097 <= page_list_len 4097 * PAGE_SIZE.
Proof. apply (page_list_len_pages 4097). unfold RPING_BUFSIZE. lia. Defined.

Lemma krping_cma_transitions_witness :
  let w := kworld (a_kcb CONNECTED 64 1) (zeros 64) [] [] in
  exists w', krping_cma_event_handler id0 RDMA_CM_EVENT_DISCONNECTED w = Ok 0 w'
    /\ kcm_post w id0 {| cm_context := 2; cm_qp := 3000 |} (a_kcb CONNECTED 64 1)
         RDMA_CM_EVENT_DISCONNECTED (ERROR, true) w'
    /\ ((ERROR >=t ROUTE_RESOLVED) = true -> WqCb 2 ∈ woken w').
Proof.
  intros w. by apply (krping_cma_transitions w id0 {| cm_context := 2; cm_qp := 3000 |}
    (a_kcb CONNECTED 64 1) RDMA_CM_EVENT_DISCONNECTED).
Defined.

Lemma krping_cq_outcome_witness :
  let w := kworld (a_kcb RDMA_READ_ADV 64 1) (zeros 64) [PollWc recv_wc; PollErr (-5)] [] in
  exists w', krping_cq_event_handler (KPtr 2000) 2 w = Ok tt w'
    /\ cq_drained w 2 (a_kcb RDMA_READ_ADV 64 1) w'.
Proof.
  intros w. apply (krping_cq_outcome w 2 (a_kcb RDMA_READ_ADV 64 1));
    [apply a_kcb_ready|done|done|]. by repeat constructor.
Defined.

Lemma kgood_dma : mappings_valid good.
Proof. intros h d a n. apply bus_addr_ok. Qed.
Lemma kgood_codes : error_codes good.
Proof. by split. Qed.
Lemma kgood_mr h pd n e : kk_alloc_mr (KrpingKernel := kgood) h pd n = inl e -> e <> 0.
Proof. done. Qed.
Lemma bare_no_buffers s : no_buffers (bare_kcb s).
Proof. by split. Qed.

Lemma setup_buffers_bail_leaks_witness :
  let w := kworld (bare_kcb IDLE) [] [] [] in
  let w' := state_after (krping_setup_buffers (KK := no_coherent) 2) w in
  exists recv send, bufs_failed w 2 (bare_kcb IDLE) recv send w'
    /\ dmas w' = {[+ send +]} ⊎ ({[+ recv +]} ⊎ dmas w).
Proof.
  intros w w'. eapply (setup_buffers_bail_leaks (KK := no_coherent) ltac:(done) w 2
    (bare_kcb IDLE) (- ENOMEM)); [apply kgood_dma|done|apply bare_no_buffers|by vm_compute|apply kworld_fresh
    |by vm_compute|done].
Defined.

(** ** A client *)

Definition kup_events : list async := up_events ++ [an_answer; an_answer].

(** A client's id, and nothing else. *)
Definition idworld (cb : krping_cb) (evs : list async) : world :=
  {| heap := <[pings_at := BPings {| pl_locked := false; pl_cbs := [2] |}]> (<[2 := BKcb cb]> ∅);
     next := 6; trace := []; sched := evs;
     cms := {[id0 := {| cm_context := 2; cm_qp := NULL |}]};
     cqs := ∅; pds := ∅; qps := ∅; dmas := ∅; woken := []; errno := 0 |}.
Lemma idworld_fresh cb evs : fresh_ok (idworld cb evs).
Proof. split; [done|]. intros a H. cbn in H. cbn [heap idworld]. unfold pings_at.
  rewrite !lookup_insert_ne by lia. apply lookup_empty. Qed.

Lemma krping_run_client_releases_witness :
  let w := idworld (bare_kcb IDLE) kup_events in
  let w' := state_after (krping_run_client 2) w in
  krping_run_client 2 w = Ok tt w' /\ KrpingRun.released (buffers_available kgood /\ mappings_valid good) w 2 id0 w'.
Proof.
  intros w w'.
  assert (Hh : new_handles good w) by by apply kernel_handles.
  assert (Hn : no_conn_req w) by by repeat constructor.
  assert (Hr : krping_run_client 2 w = Ok tt w') by (vm_compute; reflexivity).
  split; [exact Hr|].
  exact (krping_run_client_releases kgood_mr kgood_codes w 2
    (bare_kcb IDLE) {| cm_context := 2; cm_qp := NULL |} w' Hn (idworld_fresh _ _) Hh eq_refl eq_refl
    (bare_no_buffers _) eq_refl Hr).
Defined.

Lemma krping_cm_failure_noticed_witness :
  let w := idworld (bare_kcb IDLE) [ACm id0 RDMA_CM_EVENT_ADDR_ERROR] in
  let v := idworld (bare_kcb ROUTE_RESOLVED) [ACm id0 RDMA_CM_EVENT_REJECTED] in
  (exists w', krping_bind_client 2 w = Ok (- EINTR) w'
     /\ heap w' = <[2 := BKcb (set_kc_state ERROR (bare_kcb IDLE))]> (heap w) /\ sched w' = [])
  /\ (exists w', krping_connect_client 2 v = Ok (-1) w'
     /\ heap w' = <[2 := BKcb (set_kc_state ERROR (bare_kcb ROUTE_RESOLVED))]> (heap v)
     /\ sched w' = []).
Proof.
  intros w v. split.
  - apply (krping_cm_failure_noticed w 2 (bare_kcb IDLE) RDMA_CM_EVENT_ADDR_ERROR []);
      try reflexivity; [by exists {| cm_context := 2; cm_qp := NULL |}|done].
  - apply (krping_cm_failure_noticed v 2 (bare_kcb ROUTE_RESOLVED) RDMA_CM_EVENT_REJECTED []);
      try reflexivity. by exists {| cm_context := 2; cm_qp := NULL |}.
Defined.

(** While the client sleeps a message of another one arrives. *)
Lemma krping_route_error_hangs_witness :
  let w := idworld (bare_kcb IDLE) [ACm id0 RDMA_CM_EVENT_ADDR_RESOLVED; ADma 9 [1; 2]] in
  (exists w1, deliver (Delivery := krping_delivery (K := route_fails))
       (ACm id0 RDMA_CM_EVENT_ADDR_RESOLVED)
       (set_woken [] (set_sched [ADma 9 [1; 2]] (bind_request (bare_kcb IDLE) w))) = Ok tt w1
     /\ woken w1 = [WqCb 2]
     /\ heap w1 = <[2 := BKcb (set_kc_state ADDR_RESOLVED (bare_kcb IDLE))]> (heap w))
  /\ forall ret w', krping_bind_client (K := route_fails) 2 w <> Ok ret w'.
Proof.
  intros w. apply (krping_route_error_hangs (K := route_fails) w 2 (bare_kcb IDLE) [ADma 9 [1; 2]]);
    [reflexivity|by exists {| cm_context := 2; cm_qp := NULL |}|done|reflexivity|reflexivity
    |by repeat constructor|reflexivity|done].
Defined.

Lemma krping_connect_interrupted_witness :
  let w := idworld (bare_kcb ROUTE_RESOLVED) [ASignal] in
  exists w', krping_connect_client 2 w = Ok 0 w' /\ heap w' = heap w /\ sched w' = [].
Proof.
  intros w. apply (krping_connect_interrupted w 2 (bare_kcb ROUTE_RESOLVED) []);
    try reflexivity; by eexists.
Defined.

Lemma krping_init_client_dangling_witness :
  let w := idworld (bare_kcb IDLE) [] in
  exists w', krping_init_client (KK := unresolvable) 2 w = Ok NULL w'
    /\ heap w' = delete 2 (heap w)
    /\ forall ev, krping_cma_event_handler id0 ev w' = Undef (BadAddress 2).
Proof.
  intros w. by apply (krping_init_client_dangling (KK := unresolvable) w 2 (bare_kcb IDLE)
    {| cm_context := 2; cm_qp := NULL |}).
Defined.

(** ** Pings *)

(** Two pings with their answers, and an event that comes later. *)
Definition two_pings : world := kworld (a_kcb CONNECTED 64 2) (zeros 64) []
  [an_answer; an_answer; an_answer; an_answer; ASignal].

Lemma krping_pings_complete_witness :
  exists w' cb', krping_test_client 2 two_pings = Ok tt w'
    /\ pings_done IB_ACCESS_REMOTE_READ (Z.lor IB_ACCESS_REMOTE_WRITE IB_ACCESS_LOCAL_WRITE)
         2 two_pings 2 (a_kcb CONNECTED 64 2) a_mr [ASignal] w' cb'.
Proof.
  apply (krping_pings_complete kgood_obliging two_pings 2 (a_kcb CONNECTED 64 2) a_mr
    [an_answer; an_answer; an_answer; an_answer] [ASignal] 2);
    [apply a_kcb_pinging|reflexivity|cbn; lia|unfold in_u; cbn; lia|discriminate
    |reflexivity|reflexivity|].
  repeat constructor; apply an_answer_ok.
Defined.

Lemma put_ping_text_fills_witness :
  let w := kworld (a_kcb CONNECTED 64 1) (zeros 64) [] [] in
  exists w', put_ping_text 2 7 65 w = Ok tt w'
    /\ heap w' = <[5 := BBytes (ping_line 64 7 65)]> (heap w)
    /\ length (ping_line 64 7 65) = 64%nat
    /\ sched w' = sched w /\ sent (trace w') = sent (trace w).
Proof.
  intros w. apply (put_ping_text_fills w 2 (a_kcb CONNECTED 64 1) a_mr 7 65);
    [apply a_kcb_pinging|lia].
Defined.

Lemma ping_text_overflow_witness :
  put_ping_text 2 0 65 (kworld (a_kcb CONNECTED 13 1) (zeros 13) [] []) = Undef OutOfBounds.
Proof.
  apply (ping_text_overflow _ 2 (a_kcb CONNECTED 13 1) (zeros 13));
    [reflexivity|reflexivity|reflexivity|cbn; lia].
Defined.

Lemma test_client_fuel_enough_witness :
  krping_test_client 2 two_pings = ping_loop 100 2 0 65 two_pings.
Proof. apply test_client_fuel_enough; [by repeat constructor|cbn; lia]. Defined.

(** A little-endian client advertises its buffer to a big-endian server. *)
Definition a_server : krping_cb := set_kc_server 1 (a_kcb CONNECTED 64 1).

Lemma advert_roundtrip_witness :
  exists w' cb' l v',
    krping_format_send (K := good) (KK := kgood) 2 1048576
      (kworld (a_kcb RDMA_READ_ADV 64 1) (zeros 64) [] []) = Ok tt w'
    /\ heap w' !! 2 = Some (BKcb cb')
    /\ l = info_bytes false (kc_send_buf cb')
    /\ (krping_dma_write (K := big_endian_host) 2 l;; server_recv (K := big_endian_host) 2 recv_wc)
         (kworld a_server (zeros 64) [] []) = Ok 0 v'
    /\ heap v' = <[2 := BKcb (advertised_to true l 1048576 (rw_key (kc_reg_mr_wr cb')) 64 a_server)]>
         (heap (kworld a_server (zeros 64) [] [])).
Proof.
  apply (advert_roundtrip good big_endian_host kgood
    (kworld (a_kcb RDMA_READ_ADV 64 1) (zeros 64) [] []) 2 (a_kcb RDMA_READ_ADV 64 1) a_mr 1048576
    (kworld a_server (zeros 64) [] []) 2 a_server recv_wc);
    [apply kgood_obliging|apply a_kcb_pinging|unfold in_u; lia|by vm_compute|reflexivity|reflexivity].
Defined.

(** ** Commands *)

Definition no_server : KrpingServer := fun _ => fault BugOn.

Definition ping_command : list Z := chars "client,addr=192.168.14.118,port=7174,count=1" ++ [0].

Lemma krping_doit_releases_witness :
  let w := cworld ping_command kup_events in
  let w' := state_after (krping_doit (KS := no_server) 2) w in
  krping_doit (KS := no_server) 2 w = Ok 0 w' /\ doit_done (buffers_available kgood /\ mappings_valid good) w w'.
Proof.
  intros w w'.
  assert (Hw : command_ready w []) by (apply command_ready_at; by repeat constructor).
  assert (Hr : krping_doit (KS := no_server) 2 w = Ok 0 w') by (vm_compute; reflexivity).
  split; [exact Hr|].
  exact (proj1 (krping_doit_releases no_copy_length kgood_mr kgood_codes (KS := no_server)
    w 2 ping_command _ [] 0 w' Hw eq_refl eq_refl Hr)).
Defined.

Lemma krping_doit_no_server_witness :
  let w := cworld ping_command kup_events in
  krping_doit (KS := no_server) 2 w = krping_doit (KS := fun _ => block_here) 2 w.
Proof.
  intros w. apply (krping_doit_no_server no_copy_length no_server (fun _ => block_here) w 2
    ping_command (chars "client,addr=192.168.14.118,port=7174,count=1") []);
    [apply command_ready_at; by repeat constructor|reflexivity|reflexivity].
Defined.

(** A writer of "size=0" and a line end. *)
Definition bad_write : list Z := chars "size=0" ++ [10].
Lemma krping_write_proc_option_error_witness :
  exists w', krping_write_proc (E := an_env (Some bad_write)) (KS := no_server) 77 7 (cworld [] [])
    = Ok EINVAL w'.
Proof.
  apply (krping_write_proc_option_error (E := an_env (Some bad_write)) ltac:(by intros ? ? [= <-])
    (KS := no_server) (cworld [] []) 77 bad_write (chars "size=0") [] EINVAL);
    [by apply command_ready_at|apply not_elem_of_nil|done|done|done|reflexivity|done|].
  intros cmd v x Hx. vm_compute in Hx. by injection Hx as <-.
Defined.

Lemma krping_read_proc_freed_pd_witness :
  let w := kworld (a_kcb RDMA_WRITE_COMPLETE 64 1) (zeros 64) [] [] in
  krping_read_proc (state_after (krping_free_qp 2) w) = Undef (BadHandle (KPtr 1000)).
Proof.
  intros w. apply (krping_read_proc_freed_pd w 2 (a_kcb RDMA_WRITE_COMPLETE 64 1) []);
    [reflexivity|done|reflexivity|done|vm_compute; reflexivity].
Defined.

(** ** From end to end *)

Lemma kgood_client : client_kernel good kgood.
Proof.
  split; [by split|by split|apply kgood_dma|apply kgood_obliging|done..].
Qed.

Lemma two_answers : Forall (answer (KPtr 2000)) [an_answer; an_answer].
Proof. repeat constructor; apply an_answer_ok. Qed.

(** One ping of a client, and an event that comes later. *)
Lemma krping_run_client_completes_witness :
  let w := idworld (bare_kcb IDLE) (kup_events ++ [ASignal]) in
  exists w' b, krping_run_client 2 w = Ok tt w'
    /\ KrpingRun.released True w 2 id0 w' /\ sched w' = [ASignal]
    /\ let cb' := buffers_cb 6 b (bare_kcb IDLE) in
       sent (trace w') = pings_sent (src_access cb') (snk_access cb') 1 cb' 0 (ba_mr b) ++ [].
Proof.
  intros w.
  assert (Hc : new_client (bare_kcb IDLE)).
  { by split. }
  assert (Hn : no_conn_req w) by by repeat constructor.
  assert (Hh : new_handles good w) by by apply kernel_handles.
  apply (krping_run_client_completes kgood_client w 2 (bare_kcb IDLE)
    {| cm_context := 2; cm_qp := NULL |} (KPtr 2000) [an_answer; an_answer] [ASignal] 1 Hc
    (idworld_fresh _ _) Hh Hn eq_refl eq_refl eq_refl (fun _ _ => eq_refl) eq_refl
    ltac:(cbn; lia) eq_refl eq_refl two_answers).
Defined.

Definition ping_options : list kopt :=
  [OAddr (chars "192.168.14.118"); OPort 7174; OCount 1].
Lemma krping_doit_completes_witness :
  let w := cworld (print_opts OClient ping_options ++ [0]) (kup_events ++ [ASignal]) in
  exists w' b, krping_doit (KS := no_server) 2 w = Ok 0 w' /\ doit_done True w w'
    /\ sched w' = [ASignal] /\ sent (trace w') = command_posts 3 b 1 ++ [].
Proof.
  intros w.
  assert (Hw : command_ready w []) by (apply command_ready_at; by repeat constructor).
  assert (Hg : Forall opt_good (OClient :: ping_options)).
  { repeat apply Forall_cons_2; [done| |cbn; lia|cbn; lia|apply Forall_nil_2].
    split; [by eexists|]. by repeat constructor. }
  assert (Hc : client_options (fold_left set_opt (OClient :: ping_options) (no_str new_ping)) 1)
    by (split; first [reflexivity|cbn; lia]).
  assert (He : command_events w 5000 1 [ASignal]).
  { split; [done|]. exists (KPtr 2000), [an_answer; an_answer].
    split; [done|]. split; [reflexivity|]. split; [reflexivity|exact two_answers]. }
  exact (krping_doit_completes no_copy_length kgood_client (KS := no_server) w 2 OClient
    ping_options [] 5000 1 [ASignal] Hw (fun _ _ => eq_refl) eq_refl Hg Hc He).
Defined.
